(* ===== verification/_CoqProject ===== *)
-Q . S2P
Prelude.v
Mem.v
CString.v
Kmem.v
Pmm.v
Paging.v
Process.v
Pipe.v
Keyboard.v
Vga.v
Console.v
Ports.v
Desc.v
Pic.v
Rtc.v
Timer.v
Serial.v
Ata.v
Fs.v
Fd.v
Elf.v
UserMem.v
Spaces.v
Coroutines.v
System.v
Irqs.v
Syscalls.v
Safety.v
Runs.v
Tlb.v
Stubs.v
Line.v
Shell.v
ShellSpec.v
Exec.v
Kernel.v
Start.v
ShellSafe.v
Boot.v
