(* ===== verification/Prelude.v ===== *)
(** * Vesper-OS: a verification library for [src/bootloader/] and [src/kernel/]

    Vesper-OS is a 32-bit x86 kernel in C with some assembly: a heap, a frame
    allocator, paging with an address space per process, a preemptive round-robin
    scheduler, pipes, drivers for screen, keyboard, disk, clock, timer, serial line and
    interrupt controller, a flat file system, an ELF loader, system calls and a shell.
    This library translates that code to executable definitions, one file per part, and
    proves what makes each part correct.

    ** The parts and how they interact

    The boot sector stores the memory map of the BIOS, loads the kernel and jumps to
    [kernel_entry.asm], which calls [kernel_main]; this initialises every part and enters
    the shell.  The shell reads lines through the keyboard driver and runs commands; the
    command [exec] reads a file from VesperFS over the ATA driver, builds an address
    space with the paging code (which takes frames from the frame allocator), loads the
    ELF segments, creates a process and yields to it.  Processes come back into the
    kernel by interrupts: the timer handler counts ticks and preempts, the keyboard
    handler fills a ring buffer and wakes readers, vector 0x80 dispatches the system
    calls, which use the file descriptors, the pipes, the console, the clock and the
    process table.  [process_yield] switches kernel stacks and page directories.

    ** Files

    Shared:
    - [Prelude]: machine words, tactics, hint databases, lemmas on lists, bits and words.
    - [Mem]: byte-addressed memory, 32-bit little-endian access, [memset] and [memcpy] on
      raw pointers ([string.h]).
    - [CString]: the routines of [string.h] on arrays.
    - [Ports]: the interface [PortIO] of the port instructions ([port_io.h]).
    - [Console]: runs of calls to the printing routines on string literals.

    Memory:
    - [Kmem] ([kmem.c]): headers and [next] pointers are bytes of the memory; the
      abstract heap is the list of its blocks.
    - [Pmm] ([pmm.c]): the bitmap and both counters; the class [FrameAllocator] is what
      paging relies on, the bitmap is an instance.
    - [Paging] ([paging.c]): directories and tables in memory; [mmu_walk] is the
      translation of the processor and the meaning of all operations.
    - [UserMem]: accesses of the kernel through the page tables of the current process.
    - [Spaces]: the address spaces of all processes together: the page directories in the
      process table own disjoint sets of frames, none of them free.

    Processes:
    - [Process] ([process.c], [process.asm], [process.h]): the table of 16 slots, the
      scheduler, creation, termination, blocking, and the context switch instruction by
      instruction.
    - [Coroutines]: the kernel stacks of all processes together: every process that is
      not running has a context on its stack, and a switch resumes exactly that one.
    - [Pipe] ([pipe.c]): eight ring buffers, abstractly byte queues.
    - [Elf] ([elf.c]): validation and both loaders on the bytes of the image.
    - [Exec]: [cmd_exec] of [shell.c] with the parts it uses, and the entry of a
      process into ring 3 ([user_mode_enter] of [process.asm]).

    Devices, each driver over [PortIO] with a model of the documented chip:
    - [Ata] ([ata.c]) with the class [BlockDevice] that the file system relies on;
      [Pic] ([pic.c]); [Rtc] ([rtc.c]); [Timer] ([timer.c]); [Serial] ([serial.c]).
    - [Keyboard] ([keyboard.c]): the scancode state machine and its ring buffer.
    - [Vga] ([vga.c]): the text buffer, the cursor and the printf formatter.
    - [Desc] ([gdt.c], [tss.c], [idt.c]): descriptor tables and their decoding.

    Files:
    - [Fs] ([fs.c]): superblock, directory and data in sectors; abstractly a map from
      names to contents.
    - [Fd] ([fd.c]): the table of open files.

    The kernel as a whole:
    - [System] ([isr.c], [syscall.c]): the state of all parts, the interrupt dispatcher
      and the system calls; [Irqs] and [Syscalls] have the theorems.
    - [Safety]: the invariant [sys_ok] of the whole kernel while programs run, what a
      well-behaved program passes to system calls ([args_ok]), and that every such call
      and every interrupt is answered and preserves the invariant.
    - [Runs]: runs of the kernel as sequences of system calls, interrupts, yields and
      program instructions ([kstep], over the system calls that are allowed), and the
      abstract machine of coroutines they refine.
    - [Tlb]: the translation buffer of the processor beside these runs, INVLPG, and the
      flush of [paging_map_page].
    - [Stubs] ([isr.asm]): what the processor pushes, the entry stubs, and the way back
      through IRET, around the dispatchers of [System].
    - [Line] ([read_line] and the history of [shell.c]), [Shell] (the commands, the
      dispatcher, the loop of [shell_run]), [ShellSpec] (their theorems).
    - [Kernel] ([kernel.c], [kernel_entry.asm]): the start-up sequence.
    - [Start]: from start-up over the first [exec] to the runs of [Runs].
    - [ShellSafe]: the invariant of the shell before the first program, and that every
      line typed keeps it.
    - [Boot] ([src/bootloader/boot.asm]): the boot sector, over the class [Bios].

    ** How C is translated

    An integer of width w is a [Z]; wrap-around is written out where an operation can
    leave the range.  Static arrays and structs are lists and records that are passed
    along; objects that the code reaches through raw pointers (heap, directories, tables,
    frames, kernel stacks, register frames) are bytes of one memory [mem].
    [option] has one meaning everywhere: [None] is a run that C does not define or that
    the processor stops with a fault (an index outside an array, a dereference outside
    the identity map), or a loop that exceeds its fuel.  Errors that the code reports
    are values of the result, as in the code.  Theorems that a routine works say that the
    result is [Some].

    Concurrency is made explicit.  A call that blocks or yields ends at the context
    switch and its continuation is a definition of its own ([pipe_read_resume]); handlers
    end with a value of [System.exit] (returned, switched, halted).  Interrupts happen
    between such steps; where the code can be interrupted inside one the file says so
    ([keyboard_lost_wakeup]).  A sleep takes the list of its wake-ups with the ticks
    each brings, [exec] and [run] take the context at their [process_yield].

    Addresses that the linker chooses (process table, page directory, page tables, stubs,
    [user_mode_enter], [run_buf]) are parameters, with their alignment and position
    below 8 MB as hypotheses; the E820 map is an argument of [kernel_main], and [Boot]
    shows that the boot sector leaves such a map where the kernel reads it.

    ** What the theorems show

    - Heap: every sequence of [kmalloc] and [kfree] from start-up keeps the blocks apart
      and inside the array ([heap_reachable_safe]); each call refines a function on the
      list of blocks.
    - Frames and paging: a frame is handed out once; mappings appear where asked and
      nowhere else; two address spaces share no user frame; destroying one returns exactly
      its frames.
    - Processes: round robin with a bound on waiting; the context switch restores what
      was saved; every reachable process table is well-formed; what [process_kill] does.
    - Pipes, keyboard, line editor, console: array code refines queues, texts and a
      terminal; typed text comes back.
    - Disk and files: sectors written are read back for any busy times of the device; each
      operation of VesperFS refines the map from names to contents, and a write that
      finds no slot or no space reports it and loses nothing ([fs_write_new_total]);
      descriptors read files in sequence and serve their owner only.
    - ELF and [exec]: loaded pages hold the bytes of the file and zeros; a program is
      started completely or not at all, with no frame lost.
    - Clock, timer, interrupt controller, descriptor tables: values read, times slept,
      gates and masks are what the devices and the processor see.
    - System calls and interrupts: buffers are delivered through the caller's page tables,
      messages pass between processes, a tick preempts; interrupts restore every register
      of the interrupted code, so does preemption after any run of the other processes
      ([preemption_transparent]), and a system call changes EAX only.
    - The running kernel: a system call of any number with [args_ok] does not fault and,
      SYS_SLEEP apart, does not halt ([syscall_safe]); in every run from a state with the
      invariant, of calls with [args_ok], each process is resumed exactly where it stopped
      ([kernel_runs_coroutines], [process_resumed_exactly]) and no process changes the
      memory of another ([run_isolates]); no stale translation is ever used
      ([tlb_never_stale]).  A program stores bytes through its own page
      tables, from 8 MB up; kernel code between the modelled calls writes its own kernel
      stack only.
    - Start-up: after [kernel_main] the invariants of all parts hold, with any amount of
      memory ([kernel_main_boots]); on a machine with all usable memory below 8 MB also
      what [exec] needs ([start_up_invariant]), and the first [exec] establishes the
      invariant of the running kernel ([first_program_runs]).
    - The shell: a line means what the table of commands says ([parse_command_grammar]);
      every command that starts no program runs without a fault and answers, fails and
      changes files and processes as specified ([shell_command_safe]), and the loop is
      safe on whatever else is typed after start-up ([shell_session_safe]), with any
      amount of memory.
    - Boot sector: the memory map arrives ([detect_memory_map]); the descriptors and the
      state at the jump are flat protected mode ([protected_mode_entry]).

    ** What the theorems assume of the world

    Three conditions stand in many statements because the code needs them and does not
    check them; a theorem shows what happens without each.
    - [args_ok]: a program passes buffers and names in its own memory above 8 MB, and does
      not kill itself.  Otherwise it can overwrite the kernel
      ([sys_read_overwrites_kernel]) or go on in freed frames ([sys_kill_self_dangling]).
    - [fa_low]: all free frames are below 8 MB, the part of memory that the kernel has
      mapped.  Otherwise the paging code faults on a frame above
      ([create_pd_high_frame_faults]).
    - [elf_image], [stack_apart]: program headers and segments are inside the file,
      segments at or above 8 MB, without a common page and off the user stack.  The
      loader checks the header only.

    Where the code departs from its comments or does something surprising, a theorem
    states what it does: [kmalloc_huge_wraps], [pmm_total_underflow],
    [create_pd_high_frame_faults], [process_table_exhausted], [yield_without_current],
    [keyboard_lost_wakeup], [printf_negative_zero_padded], [fs_long_name_lost],
    [rtc_pm_bcd_out_of_range], [timer_sleep_wraps], [sys_sleep_never_returns],
    [sys_read_overwrites_kernel], [sys_kill_self_dangling], [erase_stops_at_margin],
    [load_kernel_overwrites_itself], [detect_memory_needs_edx].

    ** Fuel

    - [heap_fuel] 16385: the heap has room for at most 16384 headers of 16 bytes.
    - [ELF_FUEL] 65536: the loop over the program headers counts to [e_phnum], 16 bits.
    - [WRITE_FUEL] 257: a pipe holds 256 bytes.
    - [NAME_FUEL] 4097: [fs_open] compares a name with bytes of the directory buffer of
      4096 bytes and cannot look further.
    - Decimal digits: 11 steps for 10 digits.  Sector loops: one step per sector or byte.
    - [detect_memory] 32: the table has room for 32 entries, and a BIOS that behaves as
      documented delivers one with each call.
    - The status polls of the disk stop after 0x100000 reads, as in the code.
    - The polls of clock and UART have no bound in the code; their fuel is an argument
      ([rtc_fuel], [serial_fuel]) and the theorems ask that the device is ready within it.

    ** Not modelled

    The inside of the BIOS; what compiled C code, BIOS calls and pushed registers of the
    boot sector leave below the stack pointer; the machine after a reset or halt.  User
    programs are not executed: they are present by the bytes they store, the system calls
    they make and the interrupts that stop them.  Pointers of user programs into kernel
    objects that are records here (not bytes) are outside the memory model; for those
    that are bytes see [sys_read_overwrites_kernel]. *)

From Stdlib Require Export ZArith Lia.
From stdpp Require Export base option list list_numbers numbers gmap fin_maps decidable tactics.

#[global] Open Scope Z_scope.

(** ** Machine words

    A C integer of width [w] is a [Z] in its range; the wrap-around of the
    unsigned types is written out with [u8], [u16], [u32], [u64], and the
    conversion of a 32-bit pattern to [int] with [s32]. *)
Definition u8 (z : Z) : Z := z `mod` 256.
Definition u16 (z : Z) : Z := z `mod` 65536.
Definition u32 (z : Z) : Z := z `mod` 4294967296.
Definition u64 (z : Z) : Z := z `mod` 18446744073709551616.
Definition s32 (z : Z) : Z :=
  if decide (u32 z < 2147483648) then u32 z else u32 z - 4294967296.
(** The C operator [~] on [uint32_t]. *)
Definition not32 (z : Z) : Z := u32 (Z.lnot z).

Definition is_u8 (z : Z) : Prop := 0 ≤ z < 256.
Definition is_u16 (z : Z) : Prop := 0 ≤ z < 65536.
Definition is_u32 (z : Z) : Prop := 0 ≤ z < 4294967296.
Definition is_u64 (z : Z) : Prop := 0 ≤ z < 18446744073709551616.

(** ** Tactics *)

(** Linear arithmetic with division and modulo by literals. *)
Ltac zdm := Z.div_mod_to_equations; lia.

Ltac unfold_words := unfold u8, u16, u32, u64, is_u8, is_u16, is_u32, is_u64 in *.

(** Word arithmetic: unfold the wrap-arounds, then [zdm]. *)
Ltac word_lia := unfold_words; zdm.

Create HintDb word.
#[export] Hint Unfold is_u8 is_u16 is_u32 is_u64 : word.

Lemma u8_small z : is_u8 z → u8 z = z.
Proof. apply Z.mod_small. Qed.
Lemma u16_small z : is_u16 z → u16 z = z.
Proof. apply Z.mod_small. Qed.
Lemma u32_small z : is_u32 z → u32 z = z.
Proof. apply Z.mod_small. Qed.
Lemma u64_small z : is_u64 z → u64 z = z.
Proof. apply Z.mod_small. Qed.
Lemma u8_range z : is_u8 (u8 z).
Proof. word_lia. Qed.
Lemma u32_range z : is_u32 (u32 z).
Proof. word_lia. Qed.
Lemma u16_range z : is_u16 (u16 z).
Proof. word_lia. Qed.
#[export] Hint Resolve u8_range u16_range u32_range : word.

Lemma s32_small z : 0 ≤ z < 2147483648 → s32 z = z.
Proof. intros Hz. unfold s32. rewrite u32_small by word_lia. case_decide; lia. Qed.

(** [x & ~(2^k - 1)] rounds a 32-bit value down to a multiple of [2^k]. *)
Lemma land_not32_ones x k :
  is_u32 x → 0 ≤ k ≤ 32 →
  Z.land x (not32 (Z.ones k)) = 2 ^ k * (x `div` 2 ^ k).
Proof.
  intros Hx Hk. unfold not32, u32.
  change 4294967296 with (2 ^ 32).
  rewrite <-Z.land_ones, Z.land_assoc, (Z.land_comm x), <-Z.land_assoc by lia.
  rewrite Z.land_ones by lia.
  rewrite (Z.mod_small x (2 ^ 32)) by (unfold is_u32 in Hx; lia).
  rewrite (Z.mul_comm (2 ^ k)), <-Z.shiftr_div_pow2, <-Z.shiftl_mul_pow2 by lia.
  rewrite <-Z.ldiff_ones_r by lia. rewrite Z.land_comm. symmetry.
  apply Z.ldiff_land.
Qed.

Lemma land_not32_3 x : is_u32 x → Z.land x (not32 3) = 4 * (x `div` 4).
Proof. intros. apply (land_not32_ones x 2); auto with lia. Qed.
Lemma land_not32_4095 x : is_u32 x → Z.land x (not32 4095) = 4096 * (x `div` 4096).
Proof. intros. apply (land_not32_ones x 12); auto with lia. Qed.

(** Bitwise operations stay within the width. *)
Lemma land_ones_small w a : 0 ≤ w → 0 ≤ a < 2 ^ w → Z.land a (Z.ones w) = a.
Proof. intros. rewrite Z.land_ones by lia. by apply Z.mod_small. Qed.

Lemma bits_small_lor w a b :
  0 ≤ w → 0 ≤ a < 2 ^ w → 0 ≤ b < 2 ^ w → 0 ≤ Z.lor a b < 2 ^ w.
Proof.
  intros Hw Ha Hb.
  replace (Z.lor a b) with (Z.land (Z.lor a b) (Z.ones w))
    by (rewrite Z.land_lor_distr_l; by rewrite !land_ones_small).
  rewrite Z.land_ones by lia. apply Z.mod_pos_bound. lia.
Qed.

Lemma bits_small_land w a b : 0 ≤ w → 0 ≤ b < 2 ^ w → 0 ≤ Z.land a b < 2 ^ w.
Proof.
  intros Hw Hb. rewrite <-(land_ones_small w b), Z.land_assoc, Z.land_ones by lia.
  apply Z.mod_pos_bound. lia.
Qed.

Lemma testbit_u8_low z k : 0 ≤ k < 8 → Z.testbit (u8 z) k = Z.testbit z k.
Proof. intros. unfold u8. change 256 with (2 ^ 8). apply Z.mod_pow2_bits_low. lia. Qed.

(** ** C arrays

    An array object is the list of its elements.  Reading or writing outside
    of it is undefined behaviour in C, here [None]. *)
Definition aget {A} (l : list A) (i : Z) : option A :=
  if decide (0 ≤ i) then l !! Z.to_nat i else None.

Definition aset {A} (l : list A) (i : Z) (x : A) : option (list A) :=
  if decide (0 ≤ i < Z.of_nat (length l)) then Some (<[Z.to_nat i := x]> l) else None.

Lemma aget_nat {A} (l : list A) (i : nat) : aget l (Z.of_nat i) = l !! i.
Proof. unfold aget. rewrite decide_True by lia. by rewrite Nat2Z.id. Qed.

Lemma aget_is_Some {A} (l : list A) i :
  0 ≤ i < Z.of_nat (length l) → is_Some (aget l i).
Proof.
  intros Hi. unfold aget. rewrite decide_True by lia.
  apply lookup_lt_is_Some_2. lia.
Qed.

Lemma aget_Some_lt {A} (l : list A) i x :
  aget l i = Some x → 0 ≤ i < Z.of_nat (length l).
Proof.
  unfold aget. case_decide; [|done]. intros ?%lookup_lt_Some. lia.
Qed.

Lemma aset_Some {A} (l : list A) i x :
  0 ≤ i < Z.of_nat (length l) → aset l i x = Some (<[Z.to_nat i := x]> l).
Proof. intros. unfold aset. by rewrite decide_True. Qed.

Lemma aset_length {A} (l l' : list A) i x : aset l i x = Some l' → length l' = length l.
Proof. unfold aset. case_decide; [|done]. intros [= <-]. apply length_insert. Qed.

Lemma aget_insert_eq {A} (l : list A) i x :
  0 ≤ i < Z.of_nat (length l) → aget (<[Z.to_nat i := x]> l) i = Some x.
Proof.
  intros. unfold aget. rewrite decide_True by lia.
  apply list_lookup_insert_eq. lia.
Qed.

Lemma aget_insert_ne {A} (l : list A) i j x :
  0 ≤ i → i ≠ j → aget (<[Z.to_nat i := x]> l) j = aget l j.
Proof.
  intros. unfold aget. case_decide; [|done].
  apply list_lookup_insert_ne. lia.
Qed.

Create Rewrite HintDb len.
#[export] Hint Rewrite @length_insert @length_app @length_replicate @length_drop @length_take
  @length_fmap @length_seqZ : len.
Ltac len := autorewrite with len; try lia.

(** ** Counted loops

    [for_range f start n s] runs [s = f i s] for [i = start, start+1, ...],
    [n] times. *)
Fixpoint for_range {St} (f : Z → St → St) (start : Z) (n : nat) (s : St) : St :=
  match n with
  | O => s
  | S n' => for_range f (start + 1) n' (f start s)
  end.

(** A loop over [uint32_t f = start; f < end; f++]. *)
Definition for_u32 {St} (start stop : Z) (f : Z → St → St) (s : St) : St :=
  for_range f start (Z.to_nat (stop - start)) s.

Lemma for_range_inv {St} (P : Z → St → Prop) (f : Z → St → St) n start s :
  P start s →
  (∀ i s, start ≤ i < start + Z.of_nat n → P i s → P (i + 1) (f i s)) →
  P (start + Z.of_nat n) (for_range f start n s).
Proof.
  revert start s. induction n as [|n IH]; intros start s H0 Hstep; simpl.
  - by rewrite Z.add_0_r.
  - replace (start + Z.of_nat (S n)) with (start + 1 + Z.of_nat n) by lia.
    apply IH; [apply Hstep; [lia|done]|].
    intros i t Hi. apply Hstep. lia.
Qed.

Lemma for_u32_inv {St} (P : Z → St → Prop) (f : Z → St → St) start stop s :
  start ≤ stop →
  P start s →
  (∀ i s, start ≤ i < stop → P i s → P (i + 1) (f i s)) →
  P stop (for_u32 start stop f s).
Proof.
  intros Hle H0 Hstep. unfold for_u32.
  replace stop with (start + Z.of_nat (Z.to_nat (stop - start))) at 1 by lia.
  apply for_range_inv; [done|]. intros i t Hi. apply Hstep. lia.
Qed.

Lemma for_u32_empty {St} (f : Z → St → St) start stop s :
  stop ≤ start → for_u32 start stop f s = s.
Proof. intros. unfold for_u32. by replace (Z.to_nat (stop - start)) with O by lia. Qed.

(** [find_range p start n] is the first [i] of [start .. start+n-1] with
    [p i]: a [for] loop that leaves at the first match. *)
Fixpoint find_range (p : Z → bool) (start : Z) (n : nat) : option Z :=
  match n with
  | O => None
  | S n' => if p start then Some start else find_range p (start + 1) n'
  end.

Lemma find_range_Some p start n i :
  find_range p start n = Some i ↔
  start ≤ i < start + Z.of_nat n ∧ p i = true ∧ ∀ j, start ≤ j < i → p j = false.
Proof.
  revert start. induction n as [|n IH]; intros start; simpl.
  { split; [done|lia]. }
  destruct (p start) eqn:Hp.
  - split.
    + intros [= ->]. split; [lia|]. split; [done|]. intros; lia.
    + intros (Hr & Hi & Hj). destruct (decide (i = start)) as [->|]; [done|].
      by rewrite Hj in Hp by lia.
  - assert (p i = true → i ≠ start) as Hne by congruence.
    rewrite IH. split; intros (Hr & Hi & Hj); (split; [specialize (Hne Hi); lia|]);
      (split; [done|]); intros j Hl; [|apply Hj; lia].
    destruct (decide (j = start)) as [->|]; [done|]. apply Hj. lia.
Qed.

Lemma find_range_None p start n :
  find_range p start n = None ↔ ∀ j, start ≤ j < start + Z.of_nat n → p j = false.
Proof.
  revert start. induction n as [|n IH]; intros start; simpl.
  { split; [intros _ j; lia|done]. }
  destruct (p start) eqn:Hp.
  - split; [done|]. intros H. by rewrite H in Hp by lia.
  - rewrite IH. split; intros H j Hj.
    + destruct (decide (j = start)) as [->|]; [done|]. apply H. lia.
    + apply H. lia.
Qed.

(** ** Counted loops with a body that can fail *)
Fixpoint for_range_opt {St} (f : Z → St → option St) (start : Z) (n : nat) (s : St) : option St :=
  match n with
  | O => Some s
  | S n' => s' ← f start s; for_range_opt f (start + 1) n' s'
  end.

(** [for (uint32_t i = start; i < stop; i++)] with a body that can fail. *)
Definition for_u32_opt {St} (start stop : Z) (f : Z → St → option St) (s : St) : option St :=
  for_range_opt f start (Z.to_nat (stop - start)) s.

Lemma for_range_opt_inv {St} (P : Z → St → Prop) (f : Z → St → option St) n start s :
  P start s →
  (∀ i s, start ≤ i < start + Z.of_nat n → P i s → ∃ s', f i s = Some s' ∧ P (i + 1) s') →
  ∃ s', for_range_opt f start n s = Some s' ∧ P (start + Z.of_nat n) s'.
Proof.
  revert start s. induction n as [|n IH]; intros start s H0 Hstep; simpl.
  - exists s. by rewrite Z.add_0_r.
  - destruct (Hstep start s) as (s1 & -> & H1); [lia|done|]. simpl.
    replace (start + Z.of_nat (S n)) with (start + 1 + Z.of_nat n) by lia.
    apply IH; [done|]. intros i t Hi. apply Hstep. lia.
Qed.

(** The invariant rule for a loop whose body does not fail. *)
Lemma for_u32_opt_inv {St} (P : Z → St → Prop) (f : Z → St → option St) start stop s :
  start ≤ stop →
  P start s →
  (∀ i s, start ≤ i < stop → P i s → ∃ s', f i s = Some s' ∧ P (i + 1) s') →
  ∃ s', for_u32_opt start stop f s = Some s' ∧ P stop s'.
Proof.
  intros Hle H0 Hstep. unfold for_u32_opt.
  destruct (for_range_opt_inv P f (Z.to_nat (stop - start)) start s) as (s' & Hr & Hp); [done| |].
  { intros i t Hi. apply Hstep. lia. }
  exists s'. split; [done|]. by replace stop with (start + Z.of_nat (Z.to_nat (stop - start))) by lia.
Qed.

Lemma for_u32_opt_empty {St} (f : Z → St → option St) start stop s :
  stop ≤ start → for_u32_opt start stop f s = Some s.
Proof. intros. unfold for_u32_opt. by replace (Z.to_nat (stop - start)) with O by lia. Qed.

(** What the body keeps, the loop keeps. *)
Lemma for_u32_opt_keeps {St T} (g : St → T) (f : Z → St → option St) start stop s s' :
  (∀ i s s', f i s = Some s' → g s' = g s) → for_u32_opt start stop f s = Some s' → g s' = g s.
Proof.
  unfold for_u32_opt. generalize (Z.to_nat (stop - start)). intros n Hf. revert start s.
  induction n as [|n IH]; intros start s; simpl; [by intros [= <-]|].
  intros (s1 & H1 & H2)%bind_Some. etrans; [by eapply IH|by eapply Hf].
Qed.

(** An invariant of the body is one of the loop. *)
Lemma for_u32_opt_pres {St} (Q : St → Prop) (f : Z → St → option St) start stop s s' :
  (∀ i s s', f i s = Some s' → Q s → Q s') → for_u32_opt start stop f s = Some s' → Q s → Q s'.
Proof.
  unfold for_u32_opt. generalize (Z.to_nat (stop - start)). intros n Hf. revert start s.
  induction n as [|n IH]; intros start s; simpl; [by intros [= <-]|].
  intros (s1 & H1 & H2)%bind_Some Hq. eapply IH; [exact H2|by eapply Hf].
Qed.

(** ** Counting

    [count p n]: how many of [0 .. n-1] satisfy [p]. *)
Fixpoint count (p : Z → bool) (n : nat) : Z :=
  match n with
  | O => 0
  | S n' => Z.b2z (p (Z.of_nat n')) + count p n'
  end.

Lemma count_ext p q n : (∀ i, 0 ≤ i < Z.of_nat n → p i = q i) → count p n = count q n.
Proof.
  induction n as [|n IH]; intros H; simpl; [done|].
  rewrite (H (Z.of_nat n)), IH; [done| |lia]. intros. apply H. lia.
Qed.

Lemma count_bound p n : 0 ≤ count p n ≤ Z.of_nat n.
Proof. induction n as [|n IH]; simpl; [lia|]. destruct (p (Z.of_nat n)); simpl; lia. Qed.

(** Changing the predicate at one point changes the count by that much. *)
Lemma count_update p q n i :
  0 ≤ i < Z.of_nat n → (∀ j, 0 ≤ j < Z.of_nat n → j ≠ i → q j = p j) →
  count q n = count p n - Z.b2z (p i) + Z.b2z (q i).
Proof.
  induction n as [|n IH]; intros Hi H; simpl; [lia|].
  destruct (decide (i = Z.of_nat n)) as [->|Hne].
  - rewrite (count_ext q p) by (intros; apply H; lia). lia.
  - rewrite IH by (try lia; intros; apply H; lia). rewrite (H (Z.of_nat n)) by lia. lia.
Qed.

Lemma count_pos p n i : 0 ≤ i < Z.of_nat n → p i = true → 0 < count p n.
Proof.
  induction n as [|n IH]; intros Hi Hp; simpl; [lia|].
  pose proof (count_bound p n). destruct (decide (i = Z.of_nat n)) as [->|].
  - rewrite Hp. simpl. lia.
  - assert (0 < count p n) by (apply IH; [lia|done]). destruct (p (Z.of_nat n)); simpl; lia.
Qed.

Lemma count_zero p n : (∀ i, 0 ≤ i < Z.of_nat n → p i = false) → count p n = 0.
Proof. induction n as [|n IH]; intros H; simpl; [done|]. rewrite H, IH; [done| |lia]. intros; apply H; lia. Qed.
