(* ===== verification/Mem.v ===== *)
(** * Byte-addressed memory and the memory routines of [src/kernel/string.h]

    The kernel runs with an identity map (virtual address = physical
    address), so one flat memory of bytes stands for all the objects that the
    code reaches through raw pointers: the heap array, page directories, page
    tables, frames, kernel stacks.  A byte that was never written reads as 0,
    the state in which [kernel_entry.asm] leaves the BSS section.  A 32-bit
    access reads four bytes, least significant first, as the i386 does. *)

From S2P Require Import Prelude.

Abbreviation mem := (gmap Z Z).

Definition load8 (m : mem) (a : Z) : Z := default 0 (m !! a).
Definition store8 (m : mem) (a v : Z) : mem := <[a := u8 v]> m.

Definition load32 (m : mem) (a : Z) : Z :=
  load8 m a + 256 * load8 m (a + 1) + 65536 * load8 m (a + 2)
  + 16777216 * load8 m (a + 3).
Definition store32 (m : mem) (a v : Z) : mem :=
  store8 (store8 (store8 (store8 m a v) (a + 1) (v `div` 256))
    (a + 2) (v `div` 65536)) (a + 3) (v `div` 16777216).

(** [memset] and [memcpy] through raw pointers: [while (n--) *p++ = ...]. *)
Fixpoint mem_set (m : mem) (s c : Z) (n : nat) : mem :=
  match n with
  | O => m
  | S n' => mem_set (store8 m s c) (s + 1) c n'
  end.

(** [memcpy] copies forwards, byte by byte, so that each byte is read from
    the memory the previous writes have produced. *)
Fixpoint mem_cpy (m : mem) (dst src : Z) (n : nat) : mem :=
  match n with
  | O => m
  | S n' => mem_cpy (store8 m dst (load8 m src)) (dst + 1) (src + 1) n'
  end.

(** Copying out of a buffer that is a C array of its own (a list of bytes)
    into memory; [None] when the source range leaves the array. *)
Fixpoint mem_cpy_in (m : mem) (dst : Z) (src : list Z) (n : nat) {struct n} : option mem :=
  match n with
  | O => Some m
  | S n' =>
      match src with
      | [] => None
      | b :: src' => mem_cpy_in (store8 m dst b) (dst + 1) src' n'
      end
  end.

(** Every byte of the memory is a byte. *)
Definition bytes_ok (m : mem) : Prop := ∀ a, is_u8 (load8 m a).

(** ** Reading back what was written *)

Lemma load8_store8 m a b v :
  load8 (store8 m a v) b = if decide (a = b) then u8 v else load8 m b.
Proof.
  unfold load8, store8. rewrite lookup_insert. by case_decide.
Qed.

Lemma load8_store8_eq m a v : load8 (store8 m a v) a = u8 v.
Proof. rewrite load8_store8. by rewrite decide_True. Qed.

Lemma load8_store8_ne m a b v : a ≠ b → load8 (store8 m a v) b = load8 m b.
Proof. intros. rewrite load8_store8. by rewrite decide_False. Qed.

Lemma load8_store32_ne m a b v :
  b < a ∨ a + 4 ≤ b → load8 (store32 m a v) b = load8 m b.
Proof.
  intros. unfold store32. by rewrite !load8_store8_ne by lia.
Qed.

Lemma load32_store32_eq m a v : is_u32 v → load32 (store32 m a v) a = v.
Proof.
  intros Hv. unfold load32, store32.
  rewrite !load8_store8. repeat (case_decide; try lia). word_lia.
Qed.

Lemma load32_ext m m' a :
  (∀ b, a ≤ b < a + 4 → load8 m' b = load8 m b) → load32 m' a = load32 m a.
Proof. intros H. unfold load32. by rewrite !H by lia. Qed.

Lemma load32_store32_ne m a b v :
  b + 4 ≤ a ∨ a + 4 ≤ b → load32 (store32 m a v) b = load32 m b.
Proof. intros. apply load32_ext. intros. apply load8_store32_ne. lia. Qed.

Lemma load32_store8_ne m a b v :
  a < b ∨ b + 4 ≤ a → load32 (store8 m a v) b = load32 m b.
Proof. intros. apply load32_ext. intros. apply load8_store8_ne. lia. Qed.

(** Resolve loads from updated memories, innermost first where an outer one is
    stuck; side conditions by [lia]. *)
Ltac mem_simpl :=
  repeat match goal with
  | |- context [load32 (store32 ?m ?a ?v) ?b] =>
      first [ rewrite (load32_store32_eq m a v) by (unfold is_u32; lia)
            | rewrite (load32_store32_ne m a b v) by lia ]
  | |- context [load32 (store8 ?m ?a ?v) ?b] => rewrite (load32_store8_ne m a b v) by lia
  | |- context [load8 (store32 ?m ?a ?v) ?b] => rewrite (load8_store32_ne m a b v) by lia
  | |- context [load8 (store8 ?m ?a ?v) ?b] =>
      first [ rewrite (load8_store8_eq m a v) | rewrite (load8_store8_ne m a b v) by lia ]
  end.

(** ** The byte invariant *)

Lemma bytes_ok_empty : bytes_ok ∅.
Proof. intros a. unfold load8. rewrite lookup_empty. unfold is_u8; simpl; lia. Qed.

Lemma bytes_ok_store8 m a v : bytes_ok m → bytes_ok (store8 m a v).
Proof.
  intros H b. rewrite load8_store8. case_decide; [apply u8_range|apply H].
Qed.

Lemma bytes_ok_store32 m a v : bytes_ok m → bytes_ok (store32 m a v).
Proof. intros. by repeat apply bytes_ok_store8. Qed.

Lemma load32_range m a : bytes_ok m → is_u32 (load32 m a).
Proof.
  intros H. unfold load32.
  pose proof (H a). pose proof (H (a + 1)). pose proof (H (a + 2)). pose proof (H (a + 3)).
  unfold is_u8, is_u32 in *. lia.
Qed.

#[export] Hint Resolve bytes_ok_empty bytes_ok_store8 bytes_ok_store32 load32_range : word.

(** ** [memset] and [memcpy] *)

Lemma load8_mem_set m s c n b :
  load8 (mem_set m s c n) b =
  if decide (s ≤ b < s + Z.of_nat n) then u8 c else load8 m b.
Proof.
  revert m s. induction n as [|n IH]; intros m s; simpl.
  { by rewrite decide_False by lia. }
  rewrite IH, load8_store8.
  repeat case_decide; try done; lia.
Qed.

Lemma load32_mem_set_ne m s c n a :
  a + 4 ≤ s ∨ s + Z.of_nat n ≤ a → load32 (mem_set m s c n) a = load32 m a.
Proof.
  intros. apply load32_ext. intros b Hb. rewrite load8_mem_set.
  by rewrite decide_False by lia.
Qed.

Lemma load32_mem_set_0 m s n a :
  s ≤ a → a + 4 ≤ s + Z.of_nat n → load32 (mem_set m s 0 n) a = 0.
Proof.
  intros. unfold load32. rewrite !load8_mem_set.
  by repeat (rewrite decide_True by lia).
Qed.

Lemma bytes_ok_mem_set m s c n : bytes_ok m → bytes_ok (mem_set m s c n).
Proof.
  intros H b. rewrite load8_mem_set. case_decide; [apply u8_range|apply H].
Qed.
#[export] Hint Resolve bytes_ok_mem_set : word.

Lemma mem_cpy_in_spec m dst src n :
  (n ≤ length src)%nat →
  ∃ m', mem_cpy_in m dst src n = Some m' ∧
    ∀ b, load8 m' b =
      if decide (dst ≤ b < dst + Z.of_nat n)
      then u8 (default 0 (src !! Z.to_nat (b - dst))) else load8 m b.
Proof.
  revert m dst src. induction n as [|n IH]; intros m dst src Hn; simpl.
  { exists m. split; [done|]. intros b. by rewrite decide_False by lia. }
  destruct src as [|c src]; simpl in *; [lia|].
  destruct (IH (store8 m dst c) (dst + 1) src) as (m' & -> & Hm'); [lia|].
  exists m'. split; [done|]. intros b. rewrite Hm', load8_store8.
  destruct (decide (dst = b)) as [->|Hb].
  - rewrite decide_False, decide_True by lia. by rewrite Z.sub_diag.
  - repeat case_decide; try done; try lia.
    by replace (Z.to_nat (b - dst)) with (S (Z.to_nat (b - (dst + 1)))) by lia.
Qed.

(** A copy between ranges that do not overlap. *)
Lemma load8_mem_cpy n : ∀ m dst src b,
  dst + Z.of_nat n ≤ src ∨ src + Z.of_nat n ≤ dst →
  load8 (mem_cpy m dst src n) b =
    if decide (dst ≤ b < dst + Z.of_nat n) then u8 (load8 m (src + (b - dst))) else load8 m b.
Proof.
  induction n as [|n IH]; intros m dst src b Hd; cbn [mem_cpy].
  { by rewrite decide_False by lia. }
  rewrite IH by lia. destruct (decide (b = dst)) as [->|Hb].
  - rewrite decide_False, decide_True by lia. rewrite load8_store8_eq. do 2 f_equal. lia.
  - destruct (decide (dst + 1 ≤ b < dst + 1 + Z.of_nat n)) as [H|H].
    + rewrite decide_True by lia. rewrite load8_store8_ne by lia. do 2 f_equal. lia.
    + rewrite decide_False by lia. by rewrite load8_store8_ne by lia.
Qed.
