(* ===== verification/CString.v ===== *)
(** * The string and buffer routines of [src/kernel/string.h]

    A [char *] or [void *] argument that points into a C array is the list of
    the bytes from the pointer to the end of the array, each in 0..255.  A
    routine that would read or write past the end of the array returns
    [None]. *)

From S2P Require Import Prelude.

Fixpoint memset (s : list Z) (c : Z) (n : nat) {struct n} : option (list Z) :=
  match n with
  | O => Some s
  | S n' =>
      match s with
      | [] => None
      | _ :: s' => cons (u8 c) <$> memset s' c n'
      end
  end.

Fixpoint memcpy (dst src : list Z) (n : nat) {struct n} : option (list Z) :=
  match n with
  | O => Some dst
  | S n' =>
      match dst, src with
      | _ :: dst', b :: src' => cons b <$> memcpy dst' src' n'
      | _, _ => None
      end
  end.

Fixpoint memcmp (a b : list Z) (n : nat) {struct n} : option Z :=
  match n with
  | O => Some 0
  | S n' =>
      match a, b with
      | x :: a', y :: b' => if decide (x ≠ y) then Some (x - y) else memcmp a' b' n'
      | _, _ => None
      end
  end.

Fixpoint strlen (s : list Z) : option Z :=
  match s with
  | [] => None
  | c :: s' => if decide (c = 0) then Some 0 else Z.succ <$> strlen s'
  end.

Fixpoint strcmp (a b : list Z) : option Z :=
  match a, b with
  | x :: a', y :: b' =>
      if decide (x ≠ 0 ∧ y ≠ 0 ∧ x = y) then strcmp a' b' else Some (x - y)
  | _, _ => None
  end.

Fixpoint strncmp (a b : list Z) (n : nat) {struct n} : option Z :=
  match n with
  | O => Some 0
  | S n' =>
      match a, b with
      | x :: a', y :: b' =>
          if decide (x ≠ 0 ∧ y ≠ 0 ∧ x = y) then strncmp a' b' n' else Some (x - y)
      | _, _ => None
      end
  end.

(** [strncpy]: copy up to the terminator, then fill with zeros to [n]. *)
Fixpoint strncpy (dst src : list Z) (n : nat) {struct n} : option (list Z) :=
  match n with
  | O => Some dst
  | S n' =>
      match dst, src with
      | _ :: dst', c :: src' =>
          if decide (c = 0) then memset dst 0 n else cons c <$> strncpy dst' src' n'
      | _, _ => None
      end
  end.

(** ** C strings

    [is_cstr s t]: the array [s] holds the NUL-terminated string [t]. *)
Definition is_cstr (s t : list Z) : Prop :=
  ∃ rest, s = t ++ 0 :: rest ∧ Forall (λ c, c ≠ 0) t.

(** The string held by an array, up to its terminator (or the whole array). *)
Fixpoint cstr (s : list Z) : list Z :=
  match s with
  | [] => []
  | c :: s' => if decide (c = 0) then [] else c :: cstr s'
  end.

Lemma cstr_is_cstr s t : is_cstr s t → cstr s = t.
Proof.
  intros (rest & -> & Ht). induction Ht as [|c t Hc Ht IH]; simpl.
  - done.
  - rewrite decide_False by done. by rewrite IH.
Qed.

Lemma is_cstr_exists s : 0 ∈ s → is_cstr s (cstr s).
Proof.
  induction s as [|c s IH]; intros H; [set_solver|]; simpl.
  case_decide as Hc; subst.
  { by exists s. }
  destruct IH as (rest & Hs & Hf). { by apply elem_of_cons in H as [?|?]. }
  exists rest. rewrite Hs at 1. split; [done|]. by constructor.
Qed.

(** A string shorter than its array is terminated in it. *)
Lemma cstr_short s : (length (cstr s) < length s)%nat → 0 ∈ s.
Proof.
  induction s as [|c s IH]; simpl; [lia|]. case_decide; subst; [intros; apply list_elem_of_here|].
  simpl. intros Hl. apply list_elem_of_further, IH. lia.
Qed.

Lemma cstr_no_nul s : Forall (λ c, c ≠ 0) (cstr s).
Proof. induction s; simpl; [done|]. case_decide; by constructor. Qed.

Lemma is_cstr_inj s t1 t2 : is_cstr s t1 → is_cstr s t2 → t1 = t2.
Proof. intros H1%cstr_is_cstr H2%cstr_is_cstr. congruence. Qed.

Lemma strlen_cstr s t : is_cstr s t → strlen s = Some (Z.of_nat (length t)).
Proof.
  intros (rest & -> & Ht). induction Ht as [|c t Hc Ht IH]; simpl.
  - done.
  - rewrite decide_False by done. rewrite IH. simpl. f_equal. lia.
Qed.

Lemma strcmp_cstr_eq a b s :
  is_cstr a s → is_cstr b s → strcmp a b = Some 0.
Proof.
  intros (ra & -> & Hs) (rb & -> & _). induction Hs as [|c s Hc Hs IH]; simpl.
  - done.
  - by rewrite decide_True by naive_solver.
Qed.

(** [strcmp] on two terminated strings always returns, and its result is 0
    exactly when the strings are equal. *)
Lemma strcmp_cstr a b s t :
  is_cstr a s → is_cstr b t →
  ∃ r, strcmp a b = Some r ∧ (r = 0 ↔ s = t).
Proof.
  intros (ra & -> & Hs) (rb & -> & Ht). revert t Ht.
  induction Hs as [|c s Hc Hs IH]; intros t Ht; simpl.
  - destruct Ht as [|d t Hd Ht]; simpl; eexists; (split; [done|]); [done|].
    split; [lia|done].
  - destruct Ht as [|d t Hd Ht]; simpl.
    { rewrite decide_False by naive_solver. eexists; split; [done|]. split; [lia|done]. }
    case_decide as Hcd.
    + destruct Hcd as (_ & _ & ->). destruct (IH t Ht) as (r & -> & Hr).
      exists r. split; [done|]. rewrite Hr. naive_solver.
    + eexists; split; [done|]. split; [|naive_solver].
      intros. assert (c = d) by lia. subst. naive_solver.
Qed.

Lemma memset_Some s c n :
  (n ≤ length s)%nat → memset s c n = Some (replicate n (u8 c) ++ drop n s).
Proof.
  revert s. induction n as [|n IH]; intros s Hn; simpl; [done|].
  destruct s as [|x s]; simpl in *; [lia|]. by rewrite IH by lia.
Qed.

Lemma memcpy_Some dst src n :
  (n ≤ length dst)%nat → (n ≤ length src)%nat →
  memcpy dst src n = Some (take n src ++ drop n dst).
Proof.
  revert dst src. induction n as [|n IH]; intros dst src Hd Hs; simpl; [done|].
  destruct dst, src; simpl in *; try lia. by rewrite IH by lia.
Qed.

Lemma memcmp_eq_0 a b n :
  (n ≤ length a)%nat → (n ≤ length b)%nat →
  ∃ r, memcmp a b n = Some r ∧ (r = 0 ↔ take n a = take n b).
Proof.
  revert a b. induction n as [|n IH]; intros a b Ha Hb; simpl.
  { by exists 0. }
  destruct a as [|x a], b as [|y b]; simpl in *; try lia.
  case_decide as Hxy.
  - eexists; split; [done|]. split; [lia|]. naive_solver.
  - destruct (IH a b) as (r & -> & Hr); [lia..|]. exists r. split; [done|].
    rewrite Hr. assert (x = y) as -> by lia. split; congruence.
Qed.

(** [strncpy] of a string that fits: the string, zeros up to [n], and the
    rest of the destination untouched. *)
Lemma strncpy_fits dst src t n :
  is_cstr src t → (length t ≤ n)%nat → (n ≤ length dst)%nat →
  strncpy dst src n = Some (t ++ replicate (n - length t) 0 ++ drop n dst).
Proof.
  intros (rest & -> & Ht). revert dst n.
  induction Ht as [|c t Hc Ht IH]; intros dst n Hn Hd.
  - destruct n as [|n]; simpl; [done|]. destruct dst as [|d dst]; simpl in *; [lia|].
    rewrite memset_Some by lia. done.
  - destruct n as [|n]; simpl in *; [lia|]. destruct dst as [|d dst]; simpl in *; [lia|].
    rewrite decide_False by done. by rewrite IH by lia.
Qed.

(** [strncpy] of a longer string truncates it, without a terminator. *)
Lemma strncpy_long dst src t n :
  is_cstr src t → (n ≤ length t)%nat → (n ≤ length dst)%nat →
  strncpy dst src n = Some (take n t ++ drop n dst).
Proof.
  intros (rest & -> & Ht). revert dst n.
  induction Ht as [|c t Hc Ht IH]; intros dst n Hn Hd; destruct n as [|n]; simpl in *;
    try done; try lia.
  destruct dst as [|d dst]; simpl in *; [lia|].
  rewrite decide_False by done. by rewrite IH by lia.
Qed.
