(* ===== verification/Kmem.v ===== *)
(** * The kernel heap ([src/kernel/kmem.c], [kmem.h])

    The heap is the 256 KB array [heap_storage]; block headers live inside it
    and are linked in address order.  The model keeps exactly that: headers
    are 16 bytes of the byte memory, the list is walked by following [next]
    pointers, and the operations are the pointer manipulations of the C code.

    The abstract view of the heap is the list of its blocks in address order
    ([chain]); every operation is proved to refine a function on that list. *)

From S2P Require Import Prelude Mem.

Definition HEAP_SIZE : Z := 262144.
Definition HEAP_MAGIC : Z := 3735884599. (* 0xDEAD1337 *)
(** [sizeof(block_header_t)]: three [uint32_t] and a 32-bit pointer. *)
Definition HDR : Z := 16.

(** The fields of the [block_header_t] at address [a]. *)
Definition hdr_size (m : mem) (a : Z) : Z := load32 m a.
Definition hdr_free (m : mem) (a : Z) : Z := load32 m (a + 4).
Definition hdr_magic (m : mem) (a : Z) : Z := load32 m (a + 8).
Definition hdr_next (m : mem) (a : Z) : Z := load32 m (a + 12).
Definition set_size (m : mem) (a v : Z) : mem := store32 m a v.
Definition set_free (m : mem) (a v : Z) : mem := store32 m (a + 4) v.
Definition set_magic (m : mem) (a v : Z) : mem := store32 m (a + 8) v.
Definition set_next (m : mem) (a v : Z) : mem := store32 m (a + 12) v.

(** The static variables of [kmem.c]: the memory that holds [heap_storage],
    and [heap_head] (0 is the null pointer). *)
Record kmem := Kmem { heap_mem : mem; heap_head : Z }.

(** Loops over the block list run at most once per block, and a block takes
    at least a header: [HEAP_SIZE / 16] blocks, plus the final test. *)
Definition heap_fuel : nat := Z.to_nat 16385.
#[global] Arguments heap_fuel : simpl never.

(** ** Operations *)

(** [heap_storage] is the address the linker gives to the array. *)
Definition kmem_init (heap_storage : Z) (s : kmem) : kmem :=
  let h := heap_storage in
  let m := set_size (heap_mem s) h (HEAP_SIZE - HDR) in
  let m := set_free m h 1 in
  let m := set_magic m h HEAP_MAGIC in
  let m := set_next m h 0 in
  Kmem m h.

(** [size = (size + 3u) & ~3u] *)
Definition round_up4 (size : Z) : Z := Z.land (u32 (size + 3)) (not32 3).

(** The body of the [if] that takes the block [curr]: split it when there is
    room for another header and 4 bytes, then mark it allocated. *)
Definition take_block (m : mem) (curr size : Z) : mem :=
  let m :=
    if decide (u32 (u32 (size + HDR) + 4) ≤ hdr_size m curr) then
      let split := u32 (curr + HDR + size) in
      let m := set_size m split (u32 (u32 (hdr_size m curr - size) - HDR)) in
      let m := set_free m split 1 in
      let m := set_magic m split HEAP_MAGIC in
      let m := set_next m split (hdr_next m curr) in
      let m := set_next m curr split in
      set_size m curr size
    else m in
  set_free m curr 0.

Fixpoint kmalloc_loop (fuel : nat) (m : mem) (curr size : Z) : option (Z * mem) :=
  match fuel with
  | O => None
  | S fuel' =>
      if decide (curr = 0) then Some (0, m)
      else if decide (hdr_free m curr ≠ 0 ∧ size ≤ hdr_size m curr) then
        Some (u32 (curr + HDR), take_block m curr size)
      else kmalloc_loop fuel' m (hdr_next m curr) size
  end.

(** [kmalloc]: the returned pointer (0 is NULL) and the new state; [None]
    when the walk does not end within [heap_fuel] steps. *)
Definition kmalloc (size : Z) (s : kmem) : option (Z * kmem) :=
  if decide (size = 0) then Some (0, s)
  else
    '(p, m) ← kmalloc_loop heap_fuel (heap_mem s) (heap_head s) (round_up4 size);
    Some (p, Kmem m (heap_head s)).

(** The merge of [curr->next] into [curr] in [kfree]. *)
Definition absorb_next (m : mem) (curr : Z) : mem :=
  let m := set_size m curr (u32 (hdr_size m curr + u32 (HDR + hdr_size m (hdr_next m curr)))) in
  set_next m curr (hdr_next m (hdr_next m curr)).

(** The merging loop of [kfree]. *)
Fixpoint kfree_merge (fuel : nat) (m : mem) (curr : Z) : option mem :=
  match fuel with
  | O => None
  | S fuel' =>
      if decide (curr = 0 ∨ hdr_next m curr = 0) then Some m
      else if decide (hdr_free m curr ≠ 0 ∧ hdr_free m (hdr_next m curr) ≠ 0) then
        kfree_merge fuel' (absorb_next m curr) curr
      else kfree_merge fuel' m (hdr_next m curr)
  end.

Definition kfree (ptr : Z) (s : kmem) : option kmem :=
  if decide (ptr = 0) then Some s
  else
    let block := u32 (ptr - HDR) in
    let m := heap_mem s in
    if decide (hdr_magic m block ≠ HEAP_MAGIC ∨ hdr_free m block ≠ 0) then Some s
    else
      m ← kfree_merge heap_fuel (set_free m block 1) (heap_head s);
      Some (Kmem m (heap_head s)).

Fixpoint kmem_info_loop (fuel : nat) (m : mem) (curr used free : Z) : option (Z * Z) :=
  match fuel with
  | O => None
  | S fuel' =>
      if decide (curr = 0) then Some (used, free)
      else if decide (hdr_free m curr ≠ 0) then
        kmem_info_loop fuel' m (hdr_next m curr) used (u32 (free + hdr_size m curr))
      else
        kmem_info_loop fuel' m (hdr_next m curr) (u32 (used + hdr_size m curr)) free
  end.

(** [kmem_info]: the values stored through [out_used], [out_free], [out_total]. *)
Definition kmem_info (s : kmem) : option (Z * Z * Z) :=
  '(used, free) ← kmem_info_loop heap_fuel (heap_mem s) (heap_head s) 0 0;
  Some (used, free, HEAP_SIZE).

(** ** The abstract heap: blocks in address order *)

Record blk := Blk { b_size : Z; b_free : bool }.

#[global] Instance blk_eq_dec : EqDecision blk.
Proof. solve_decision. Defined.

(** The first-fit allocation of [size] bytes (already rounded) in the blocks
    [bs] that start at address [a]. *)
Fixpoint alloc_at (size a : Z) (bs : list blk) : option (Z * list blk) :=
  match bs with
  | [] => None
  | b :: rest =>
      if decide (b_free b = true ∧ size ≤ b_size b) then
        Some (a + HDR,
          if decide (size + HDR + 4 ≤ b_size b)
          then Blk size false :: Blk (b_size b - size - HDR) true :: rest
          else Blk (b_size b) false :: rest)
      else
        '(p, rest') ← alloc_at size (a + HDR + b_size b) rest;
        Some (p, b :: rest')
  end.

(** Mark the block whose data starts at [p] as free. *)
Fixpoint mark_free (p a : Z) (bs : list blk) : list blk :=
  match bs with
  | [] => []
  | b :: rest =>
      if decide (p = a + HDR) then Blk (b_size b) true :: rest
      else b :: mark_free p (a + HDR + b_size b) rest
  end.

(** Merge every run of adjacent free blocks. *)
Fixpoint merge_from (b : blk) (rest : list blk) : list blk :=
  match rest with
  | [] => [b]
  | c :: rest' =>
      if decide (b_free b = true ∧ b_free c = true)
      then merge_from (Blk (b_size b + (HDR + b_size c)) true) rest'
      else b :: merge_from c rest'
  end.
Definition merge (bs : list blk) : list blk :=
  match bs with [] => [] | b :: rest => merge_from b rest end.

(** No two neighbouring blocks are both free. *)
Fixpoint no_adj_free (bs : list blk) : Prop :=
  match bs with
  | [] => True
  | b :: rest =>
      match rest with
      | c :: _ => ¬ (b_free b = true ∧ b_free c = true)
      | [] => True
      end ∧ no_adj_free rest
  end.

(** [x] lies in the data area of an allocated block. *)
Fixpoint live_byte (a : Z) (bs : list blk) (x : Z) : Prop :=
  match bs with
  | [] => False
  | b :: rest =>
      (b_free b = false ∧ a + HDR ≤ x < a + HDR + b_size b)
      ∨ live_byte (a + HDR + b_size b) rest x
  end.

(** The data area [p, p + size) is that of an allocated block. *)
Fixpoint live_block (a : Z) (bs : list blk) (p size : Z) : Prop :=
  match bs with
  | [] => False
  | b :: rest =>
      (b_free b = false ∧ p = a + HDR ∧ size = b_size b)
      ∨ live_block (a + HDR + b_size b) rest p size
  end.

(** ** Representation of the abstract heap in memory *)

Definition hdr_ok (m : mem) (a : Z) (b : blk) (nxt : Z) : Prop :=
  hdr_size m a = b_size b ∧ hdr_free m a = Z.b2z (b_free b) ∧
  hdr_magic m a = HEAP_MAGIC ∧ hdr_next m a = nxt ∧
  0 ≤ b_size b ∧ b_size b `mod` 4 = 0.

(** The blocks [bs] are laid out one after the other from address [a] up to
    [e], each header describing its block and pointing to the next. *)
Fixpoint chain (m : mem) (a : Z) (bs : list blk) (e : Z) : Prop :=
  match bs with
  | [] => a = e
  | b :: rest =>
      hdr_ok m a b (match rest with [] => 0 | _ => a + HDR + b_size b end)
      ∧ chain m (a + HDR + b_size b) rest e
  end.

(** [x] lies in one of the headers. *)
Fixpoint hdr_byte (a : Z) (bs : list blk) (x : Z) : Prop :=
  match bs with
  | [] => False
  | b :: rest => a ≤ x < a + HDR ∨ hdr_byte (a + HDR + b_size b) rest x
  end.

Ltac unfold_hdr :=
  unfold hdr_ok, hdr_size, hdr_free, hdr_magic, hdr_next, set_size, set_free,
    set_magic, set_next, HDR, HEAP_MAGIC in *.

Lemma hdr_ok_ext m m' a b nxt :
  (∀ x, a ≤ x < a + HDR → load8 m' x = load8 m x) →
  hdr_ok m a b nxt → hdr_ok m' a b nxt.
Proof.
  unfold_hdr. intros Hx (H1 & H2 & H3 & H4 & H5).
  rewrite !(load32_ext m m') by (intros; apply Hx; lia). auto.
Qed.

Lemma chain_ext m m' a bs e :
  (∀ x, hdr_byte a bs x → load8 m' x = load8 m x) →
  chain m a bs e → chain m' a bs e.
Proof.
  revert a. induction bs as [|b rest IH]; intros a Hx; simpl in *; [done|].
  intros [Hh Hc]. split; [|by eauto].
  eapply hdr_ok_ext; [|done]. eauto.
Qed.

Lemma chain_bound m a bs e : chain m a bs e → a + HDR * Z.of_nat (length bs) ≤ e.
Proof.
  revert a. induction bs as [|b rest IH]; intros a; simpl; [lia|].
  intros [Hh Hc%IH]. unfold_hdr. lia.
Qed.

Lemma hdr_byte_bound m a bs e x : chain m a bs e → hdr_byte a bs x → a ≤ x < e.
Proof.
  revert a. induction bs as [|b rest IH]; intros a; simpl; [done|].
  intros [Hh Hc] [Hx|Hx].
  - pose proof (chain_bound _ _ _ _ Hc). unfold_hdr. lia.
  - pose proof (IH _ Hc Hx). unfold_hdr. lia.
Qed.

Lemma live_byte_bound m a bs e x : chain m a bs e → live_byte a bs x → a + HDR ≤ x < e.
Proof.
  revert a. induction bs as [|b rest IH]; intros a; simpl; [done|].
  intros [Hh Hc] [Hx|Hx].
  - pose proof (chain_bound _ _ _ _ Hc). unfold_hdr. lia.
  - pose proof (IH _ Hc Hx). unfold_hdr. lia.
Qed.

(** Data of allocated blocks and headers never overlap. *)
Lemma live_not_hdr m a bs e x : chain m a bs e → live_byte a bs x → ¬ hdr_byte a bs x.
Proof.
  revert a. induction bs as [|b rest IH]; intros a; simpl; [done|].
  intros [Hh Hc] Hl [Hx|Hx]; destruct Hl as [Hl|Hl].
  - unfold_hdr. lia.
  - pose proof (live_byte_bound _ _ _ _ _ Hc Hl). unfold_hdr. lia.
  - pose proof (hdr_byte_bound _ _ _ _ _ Hc Hx). lia.
  - by eapply IH.
Qed.

Lemma chain_cons_ext m m' a b rest e lo :
  lo ≤ a + HDR + b_size b →
  (∀ x, lo ≤ x → a + HDR + b_size b ≤ x → load8 m' x = load8 m x) →
  chain m (a + HDR + b_size b) rest e → chain m' (a + HDR + b_size b) rest e.
Proof.
  intros Hlo Hx Hc. eapply chain_ext; [|done]. intros x Hh.
  pose proof (hdr_byte_bound _ _ _ _ _ Hc Hh). apply Hx; lia.
Qed.

(** ** [kmalloc] refines first-fit on the block list *)

Lemma round_up4_spec size :
  0 < size ≤ 4294967292 →
  size ≤ round_up4 size < size + 4 ∧ round_up4 size `mod` 4 = 0 ∧ is_u32 (round_up4 size).
Proof.
  intros Hs. unfold round_up4. rewrite land_not32_3 by apply u32_range.
  rewrite u32_small by word_lia. word_lia.
Qed.

Lemma round_up4_range size : 0 ≤ round_up4 size < 4294967296 ∧ round_up4 size `mod` 4 = 0.
Proof.
  unfold round_up4. rewrite land_not32_3 by apply u32_range.
  pose proof (u32_range (size + 3)). word_lia.
Qed.

(** The blocks that replace a free block [b] from which [size] bytes are taken. *)
Definition carve (size : Z) (b : blk) : list blk :=
  if decide (size + HDR + 4 ≤ b_size b)
  then [Blk size false; Blk (b_size b - size - HDR) true]
  else [Blk (b_size b) false].

Lemma take_block_frame m a size b x :
  hdr_size m a = b_size b → 0 ≤ size ≤ b_size b → 16 ≤ a →
  a + HDR + b_size b < 4294967296 →
  ¬ (a ≤ x < a + HDR + b_size b) → load8 (take_block m a size) x = load8 m x.
Proof.
  intros Hb Hs Ha He Hx. unfold take_block. rewrite Hb. unfold_hdr.
  rewrite (u32_small (size + 16)), (u32_small (size + 16 + 4)) by word_lia.
  rewrite (u32_small (a + 16 + size)) by word_lia.
  case_decide; by mem_simpl.
Qed.

Lemma take_block_chain m a size b rest e :
  chain m a (b :: rest) e → 16 ≤ a → e < 4294967296 →
  0 ≤ size ≤ b_size b → size `mod` 4 = 0 →
  chain (take_block m a size) a (carve size b ++ rest) e.
Proof.
  intros Hc Ha He Hs Hm. pose proof (chain_bound _ _ _ _ Hc) as Hbd.
  destruct Hc as [Hh Hc]. pose proof (chain_bound _ _ _ _ Hc) as Hbd'.
  assert (chain (take_block m a size) (a + HDR + b_size b) rest e) as Hrest.
  { eapply chain_ext; [|done]. intros x Hx.
    pose proof (hdr_byte_bound _ _ _ _ _ Hc Hx).
    apply (take_block_frame _ _ _ b); unfold_hdr; lia. }
  revert Hrest. unfold take_block, carve. unfold_hdr.
  destruct Hh as (H1 & H2 & H3 & H4 & H5 & H6). rewrite H1.
  rewrite (u32_small (size + 16)), (u32_small (size + 16 + 4)) by word_lia.
  rewrite (u32_small (a + 16 + size)) by word_lia.
  rewrite (u32_small (b_size b - size)) by word_lia.
  case_decide; intros Hrest; simpl; unfold_hdr; simpl.
  - rewrite (u32_small (b_size b - size - 16)) in * by word_lia.
    replace (a + 16 + size + 16 + (b_size b - size - 16)) with (a + 16 + b_size b) by lia.
    assert (is_u32 (load32 m (a + 12))) by (rewrite H4; unfold is_u32; destruct rest; lia).
    split; [|split; [|done]]; unfold is_u32 in *; mem_simpl; rewrite ?H1, ?H2, ?H3, ?H4;
      split_and!; try done; try lia; try (destruct rest; lia); zdm.
  - split; [|done]. mem_simpl. rewrite ?H1, ?H3, ?H4. split_and!; try done; destruct rest; lia.
Qed.

Lemma alloc_at_cons size a b rest :
  alloc_at size a (b :: rest) =
  if decide (b_free b = true ∧ size ≤ b_size b)
  then Some (a + HDR, carve size b ++ rest)
  else '(p, rest') ← alloc_at size (a + HDR + b_size b) rest; Some (p, b :: rest').
Proof. simpl. unfold carve. repeat case_decide; done. Qed.

Lemma alloc_at_nonempty size a bs p bs' : alloc_at size a bs = Some (p, bs') → bs' ≠ [].
Proof.
  destruct bs as [|b rest]; [done|]. rewrite alloc_at_cons. unfold carve.
  repeat case_decide; intros Heq; simplify_eq/=; try done.
  destruct (alloc_at size (a + HDR + b_size b) rest) as [[q r]|]; by simplify_eq/=.
Qed.

(** The outcome of an operation on memory that owns the blocks between [a]
    and [e]: new memory with the blocks [bs'], and no byte changed outside of
    [a, e) or in the data of the live blocks [live]. *)
Definition heap_post (m m' : mem) (a e : Z) (live : Z → Prop) (bs' : list blk) : Prop :=
  chain m' a bs' e ∧
  ∀ x, x < a ∨ e ≤ x ∨ live x → load8 m' x = load8 m x.

Lemma hdr_free_decide m a b nxt : hdr_ok m a b nxt → (hdr_free m a ≠ 0 ↔ b_free b = true).
Proof. intros (_ & H & _). rewrite H. destruct (b_free b); simpl; split; lia || done. Qed.

Lemma chain_next m a b rest e :
  chain m a (b :: rest) e → 16 ≤ a →
  hdr_next m a = match rest with [] => 0 | _ => a + HDR + b_size b end.
Proof. intros [(_ & _ & _ & H & _) _] _. done. Qed.

Lemma kmalloc_loop_refines m a bs e size fuel :
  chain m a bs e → bs ≠ [] → 16 ≤ a → e < 4294967296 →
  0 ≤ size → size `mod` 4 = 0 → (length bs < fuel)%nat →
  match alloc_at size a bs with
  | Some (p, bs') =>
      ∃ m', kmalloc_loop fuel m a size = Some (p, m') ∧
        heap_post m m' a e (live_byte a bs) bs'
  | None => kmalloc_loop fuel m a size = Some (0, m)
  end.
Proof.
  revert a fuel. induction bs as [|b rest IH]; intros a fuel Hc Hne Ha He Hs Hm Hf; [done|].
  destruct fuel as [|fuel]; [simpl in Hf; lia|].
  pose proof (chain_bound _ _ _ _ Hc) as Hbd. pose proof Hc as [Hh Hc'].
  pose proof (chain_bound _ _ _ _ Hc') as Hbd'.
  pose proof (hdr_free_decide _ _ _ _ Hh) as Hfree.
  assert (hdr_size m a = b_size b) as Hsz by apply Hh.
  rewrite alloc_at_cons. simpl. rewrite (decide_False (P := a = 0)) by lia.
  rewrite Hsz. destruct (decide (b_free b = true ∧ size ≤ b_size b)) as [[Hb Hle]|Hno].
  - rewrite decide_True by tauto. exists (take_block m a size).
    assert (0 ≤ b_size b) by (unfold_hdr; tauto).
    rewrite u32_small by (unfold_hdr; simpl in *; word_lia). split; [done|]. split.
    + apply take_block_chain; auto; unfold_hdr; simpl in *; lia.
    + intros x Hx. apply (take_block_frame _ _ _ b); auto; unfold_hdr; simpl in *; try lia.
      destruct Hx as [?|[?|[[? _]|Hl]]]; [lia..|congruence|].
      pose proof (live_byte_bound _ _ _ _ _ Hc' Hl). unfold_hdr. lia.
  - rewrite decide_False by tauto.
    rewrite (chain_next _ _ _ _ _ Hc) by done.
    destruct rest as [|c rest].
    { destruct fuel as [|fuel]; [simpl in Hf; lia|]. done. }
    assert (0 ≤ b_size b) by (unfold_hdr; tauto).
    specialize (IH (a + HDR + b_size b) fuel Hc').
    destruct (alloc_at size (a + HDR + b_size b) (c :: rest)) as [[p bs']|] eqn:Hal; simpl.
    + destruct IH as (m' & Hm' & Hpost & Hfr); try done; try (unfold_hdr; simpl in *; lia).
      exists m'. split; [done|]. split.
      * split; [|done]. destruct bs' as [|b' bs'].
        { by apply alloc_at_nonempty in Hal. }
        eapply hdr_ok_ext; [|done]. intros x Hx. apply Hfr. unfold_hdr; lia.
      * intros x Hx. apply Hfr. destruct Hx as [?|[?|[[? Hx]|?]]]; auto; left; unfold_hdr; lia.
    + apply IH; try done; unfold_hdr; simpl in *; lia.
Qed.

(** ** [kfree] refines marking and merging *)

Lemma merge_from_nonempty b rest : merge_from b rest ≠ [].
Proof.
  revert b. induction rest as [|c rest IH]; intros b; simpl; [done|].
  case_decide; [apply IH|done].
Qed.

Lemma absorb_next_frame m a x :
  x < a ∨ a + HDR ≤ x → load8 (absorb_next m a) x = load8 m x.
Proof. intros Hx. unfold absorb_next. unfold_hdr. by mem_simpl. Qed.

Lemma absorb_next_chain m a b c rest e :
  chain m a (b :: c :: rest) e → b_free b = true → 16 ≤ a → e < 4294967296 →
  chain (absorb_next m a) a (Blk (b_size b + (HDR + b_size c)) true :: rest) e.
Proof.
  intros [Hh [Hh2 Hc2]] Hb Ha He. pose proof (chain_bound _ _ _ _ Hc2) as Hbd2.
  assert (0 ≤ b_size b ∧ 0 ≤ b_size c) as [Hb0 Hc0] by (unfold_hdr; tauto).
  split.
  - unfold absorb_next. unfold_hdr. simpl in *.
    destruct Hh as (H1 & H2 & H3 & H4 & H5 & H6), Hh2 as (J1 & J2 & J3 & J4 & J5 & J6).
    rewrite H1, H4, J1. rewrite (u32_small (16 + b_size c)) by word_lia.
    rewrite (u32_small (b_size b + (16 + b_size c))) by word_lia.
    assert (is_u32 (load32 m (a + 16 + b_size b + 12)))
      by (rewrite J4; unfold is_u32; destruct rest; lia).
    unfold is_u32 in *. mem_simpl. rewrite H4. mem_simpl.
    rewrite H2, H3, Hb, J4. split_and!; try done; try lia; [|zdm].
    destruct rest; lia.
  - simpl. replace (a + HDR + (b_size b + (HDR + b_size c)))
      with (a + HDR + b_size b + HDR + b_size c) by lia.
    eapply chain_ext; [|exact Hc2]. intros x Hx.
    pose proof (hdr_byte_bound _ _ _ _ _ Hc2 Hx). apply absorb_next_frame. unfold HDR in *. lia.
Qed.

Lemma kfree_merge_refines m a b rest e fuel :
  chain m a (b :: rest) e → 16 ≤ a → e < 4294967296 →
  (length rest < fuel)%nat →
  ∃ m', kfree_merge fuel m a = Some m' ∧
    heap_post m m' a e (live_byte a (b :: rest)) (merge_from b rest).
Proof.
  revert m a b fuel. induction rest as [|c rest IH]; intros m a b fuel Hc Ha He Hf;
    (destruct fuel as [|fuel]; [simpl in Hf; lia|]); simpl.
  { rewrite decide_True by (right; apply (chain_next _ _ _ _ _ Hc Ha)).
    exists m. by split. }
  rewrite (chain_next _ _ _ _ _ Hc) by done.
  pose proof Hc as [Hh [Hh2 Hc2]]. pose proof (proj2 Hc) as Hc1.
  pose proof (chain_bound _ _ _ _ Hc2) as Hbd2.
  pose proof (hdr_free_decide _ _ _ _ Hh) as Hf1. pose proof (hdr_free_decide _ _ _ _ Hh2) as Hf2.
  assert (0 ≤ b_size b ∧ 0 ≤ b_size c) as [Hb0 Hc0] by (split; [apply Hh|apply Hh2]).
  unfold HDR in Hbd2. rewrite decide_False by (unfold HDR; lia).
  destruct (decide (b_free b = true ∧ b_free c = true)) as [[Hb Hcf]|Hno].
  - rewrite decide_True by tauto.
    destruct (IH (absorb_next m a) a (Blk (b_size b + (HDR + b_size c)) true) fuel)
      as (m' & Hrun & Hch & Hfr); try done; [by apply absorb_next_chain|simpl in *; lia|].
    exists m'. split; [done|]. split; [done|]. intros x Hx.
    assert (x < a ∨ e ≤ x ∨ live_byte (a + HDR + b_size b + HDR + b_size c) rest x) as Hx'.
    { destruct Hx as [?|[?|[[? ?]|[[? ?]|Hl]]]]; auto; congruence. }
    rewrite Hfr.
    + apply absorb_next_frame. destruct Hx' as [?|[?|Hl]]; [by left|unfold HDR; lia|].
      pose proof (live_byte_bound _ _ _ _ _ Hc2 Hl). unfold HDR in *; lia.
    + destruct Hx' as [?|[?|Hl]]; [by left|by right; left|]. right; right. right. simpl.
      by replace (a + HDR + (b_size b + (HDR + b_size c)))
        with (a + HDR + b_size b + HDR + b_size c) by lia.
  - rewrite decide_False by tauto.
    destruct (IH m (a + HDR + b_size b) c fuel Hc1) as (m' & Hrun & Hch & Hfr);
      [unfold HDR in *; simpl in *; lia..|].
    exists m'. split; [done|]. split.
    + split; [|done]. destruct (merge_from c rest) eqn:Hmf; [by apply merge_from_nonempty in Hmf|].
      eapply hdr_ok_ext; [|done]. intros x Hx. apply Hfr. unfold HDR in *. lia.
    + intros x Hx. apply Hfr. destruct Hx as [?|[?|[[? Hx]|?]]]; auto; left; unfold HDR in *; lia.
Qed.

Lemma mark_free_chain m a bs e p sz :
  chain m a bs e → live_block a bs p sz →
  chain (set_free m (p - HDR) 1) a (mark_free p a bs) e.
Proof.
  revert a. induction bs as [|b rest IH]; intros a Hc Hl; [done|].
  pose proof Hc as [Hh Hc']. pose proof (chain_bound _ _ _ _ Hc') as Hbd.
  simpl. destruct (decide (p = a + HDR)) as [->|Hne].
  - replace (a + HDR - HDR) with a by lia.
    split; [|eapply chain_ext; [|exact Hc']].
    + unfold_hdr. simpl. destruct Hh as (H1 & H2 & H3 & H4 & H5 & H6). by mem_simpl.
    + intros x Hx. pose proof (hdr_byte_bound _ _ _ _ _ Hc' Hx).
      destruct Hh as (_ & _ & _ & _ & Hb0 & _).
      unfold set_free, HDR in *. by mem_simpl.
  - destruct Hl as [(_ & ? & _)|Hl]; [done|].
    assert (a + HDR + b_size b + HDR ≤ p) as Hp.
    { clear -Hc' Hl. revert Hc' Hl. generalize (a + HDR + b_size b).
      induction rest as [|c rest IH]; intros q; simpl; [done|].
      intros [(_ & _ & _ & _ & Hc0 & _) Hc] [(_ & -> & _)|Hl]; [lia|].
      pose proof (IH _ Hc Hl). unfold HDR in *; lia. }
    split; [|by apply IH].
    replace (match mark_free p (a + HDR + b_size b) rest with [] => 0 | _ => a + HDR + b_size b end)
      with (match rest with [] => 0 | _ => a + HDR + b_size b end)
      by (destruct rest; simpl; [done|case_decide; done]).
    eapply hdr_ok_ext; [|exact Hh]. intros x Hx. destruct Hh as (_ & _ & _ & _ & Hb0 & _).
    unfold set_free, HDR in *. by mem_simpl.
Qed.

(** ** Facts about the block lists *)

Lemma no_adj_free_cons b rest :
  no_adj_free (b :: rest) ↔
  (∀ c rest', rest = c :: rest' → ¬ (b_free b = true ∧ b_free c = true)) ∧ no_adj_free rest.
Proof. simpl. destruct rest as [|c rest]; naive_solver. Qed.

Lemma alloc_at_no_adj size a bs p bs' :
  no_adj_free bs → alloc_at size a bs = Some (p, bs') → no_adj_free bs'.
Proof.
  revert a bs'. induction bs as [|b rest IH]; intros a bs' Hn Hal; [done|].
  rewrite alloc_at_cons in Hal. rewrite no_adj_free_cons in Hn. destruct Hn as [Hn1 Hn2].
  case_decide as Hd.
  - simplify_eq. destruct Hd as [Hb _]. unfold carve.
    case_decide; simpl; (destruct rest as [|c rest]; [naive_solver|]);
      specialize (Hn1 c rest eq_refl); naive_solver.
  - destruct (alloc_at size (a + HDR + b_size b) rest) as [[q r]|] eqn:Hr; simplify_eq/=.
    specialize (IH _ _ Hn2 Hr). split; [|done].
    destruct r as [|c r]; [done|]. intros [Hb Hc].
    destruct rest as [|d rest]; [done|]. rewrite alloc_at_cons in Hr.
    case_decide as Hd2.
    + simplify_eq. unfold carve in *. case_decide; simplify_eq/=; done.
    + destruct (alloc_at size _ rest) as [[? ?]|]; simplify_eq/=.
      by apply (Hn1 c rest).
Qed.

Lemma merge_from_no_adj b rest : no_adj_free (merge_from b rest).
Proof.
  revert b. induction rest as [|c rest IH]; intros b; simpl; [done|].
  case_decide as Hd; [apply IH|]. apply no_adj_free_cons. split; [|apply IH].
  intros d r Hr [Hb Hf]. apply Hd. split; [done|].
  clear -Hr Hf. revert c Hr. induction rest as [|c' rest IH]; intros c; simpl.
  { intros [= -> _]. done. }
  case_decide as Hd2; [|by intros [= -> _]]. naive_solver.
Qed.

Lemma merge_no_adj bs : no_adj_free (merge bs).
Proof. destruct bs; [done|]. apply merge_from_no_adj. Qed.

(** A list without adjacent free blocks is a fixed point of merging. *)
Lemma merge_from_id b rest : no_adj_free (b :: rest) → merge_from b rest = b :: rest.
Proof.
  revert b. induction rest as [|c rest IH]; intros b; [done|].
  rewrite no_adj_free_cons. intros [H1 H2]. cbn [merge_from].
  rewrite decide_False by (by eapply H1). by rewrite IH.
Qed.

Lemma merge_cons b c rest :
  ¬ (b_free b = true ∧ b_free c = true) → merge (b :: c :: rest) = b :: merge (c :: rest).
Proof. intros H. simpl. by rewrite decide_False. Qed.

(** Bytes taken by a list of blocks, headers included. *)
Fixpoint span (bs : list blk) : Z :=
  match bs with [] => 0 | b :: rest => HDR + b_size b + span rest end.

(** What [alloc_at] does, without its recursion: the first free block that is
    large enough is replaced. *)
Lemma alloc_at_Some size a bs p bs' :
  alloc_at size a bs = Some (p, bs') →
  ∃ pre b post, bs = pre ++ b :: post ∧ bs' = pre ++ carve size b ++ post ∧
    p = a + span pre + HDR ∧ b_free b = true ∧ size ≤ b_size b ∧
    ∀ c, c ∈ pre → ¬ (b_free c = true ∧ size ≤ b_size c).
Proof.
  revert a bs'. induction bs as [|b rest IH]; intros a bs' Hal; [done|].
  rewrite alloc_at_cons in Hal. case_decide as Hd.
  - simplify_eq. exists [], b, rest. split_and!; try tauto; [simpl; lia|]. set_solver.
  - destruct (alloc_at size (a + HDR + b_size b) rest) as [[q r]|] eqn:Hr; simplify_eq/=.
    destruct (IH _ _ Hr) as (pre & c & post & -> & -> & -> & H1 & H2 & H3).
    exists (b :: pre), c, post. split_and!; try done; [simpl; lia|].
    intros d [->|Hin]%elem_of_cons; [done|by apply H3].
Qed.

Lemma alloc_at_None size a bs :
  alloc_at size a bs = None ↔ ∀ b, b ∈ bs → ¬ (b_free b = true ∧ size ≤ b_size b).
Proof.
  revert a. induction bs as [|b rest IH]; intros a; [set_solver|].
  rewrite alloc_at_cons. case_decide as Hd; [set_solver|].
  specialize (IH (a + HDR + b_size b)).
  destruct (alloc_at size (a + HDR + b_size b) rest) as [[q r]|]; simpl; set_solver.
Qed.

Definition sizes_ok (bs : list blk) : Prop := ∀ b, b ∈ bs → 0 ≤ b_size b.

Lemma sizes_ok_chain m a bs e : chain m a bs e → sizes_ok bs.
Proof.
  revert a. induction bs as [|b rest IH]; intros a; [set_solver|].
  intros [(_ & _ & _ & _ & Hb & _) Hc] c [->|Hin]%elem_of_cons; [done|by apply (IH _ Hc)].
Qed.

Lemma span_nonneg bs : sizes_ok bs → 0 ≤ span bs.
Proof.
  induction bs as [|b rest IH]; intros H; simpl; [lia|].
  assert (0 ≤ b_size b) by (apply H; left). assert (0 ≤ span rest) by (apply IH; intros ??; apply H; by right).
  unfold HDR. lia.
Qed.

Lemma mark_free_app a pre b post :
  sizes_ok pre →
  mark_free (a + span pre + HDR) a (pre ++ b :: post) = pre ++ Blk (b_size b) true :: post.
Proof.
  revert a. induction pre as [|c pre IH]; intros a Hp; simpl.
  - by rewrite decide_True by lia.
  - assert (0 ≤ b_size c) by (apply Hp; left).
    assert (sizes_ok pre) as Hp' by (intros ??; apply Hp; by right).
    pose proof (span_nonneg _ Hp').
    rewrite decide_False by (unfold HDR; lia). f_equal.
    rewrite <-(IH (a + HDR + b_size c)) by done. f_equal. lia.
Qed.

Lemma merge_split_back pre b post s1 s2 :
  no_adj_free (pre ++ b :: post) → b_free b = true → s1 + (HDR + s2) = b_size b →
  merge (pre ++ Blk s1 true :: Blk s2 true :: post) = pre ++ b :: post.
Proof.
  intros Hn Hb Hs. induction pre as [|c pre IH]; simpl app in *.
  - cbn [merge merge_from]. rewrite decide_True by done. cbn [b_size]. rewrite Hs.
    destruct b as [sz fr]; simpl in *; subst. by apply merge_from_id.
  - apply no_adj_free_cons in Hn as [H1 H2]. rewrite <-(IH H2).
    destruct pre as [|d pre]; cbn [app]; apply merge_cons.
    + specialize (H1 b post eq_refl). simpl. naive_solver.
    + by apply (H1 _ (pre ++ b :: post)).
Qed.

Lemma merge_id bs : no_adj_free bs → merge bs = bs.
Proof. destruct bs; [done|]. apply merge_from_id. Qed.

(** Freeing what was just allocated gives back the original list. *)
Lemma merge_mark_alloc size a bs p bs' :
  no_adj_free bs → sizes_ok bs → alloc_at size a bs = Some (p, bs') →
  merge (mark_free p a bs') = bs.
Proof.
  intros Hn Hpos (pre & b & post & -> & -> & -> & Hb & Hsz & _)%alloc_at_Some.
  assert (sizes_ok pre) by (intros ??; apply Hpos; set_solver).
  unfold carve. case_decide; simpl app; rewrite mark_free_app by done; simpl b_size.
  - apply merge_split_back; [done..|]. lia.
  - destruct b as [sz fr]; simpl in *; subst. by apply merge_id.
Qed.

Lemma live_block_bound a bs p sz :
  sizes_ok bs → live_block a bs p sz → a + HDR ≤ p ∧ p + sz ≤ a + span bs ∧ 0 ≤ sz.
Proof.
  revert a. induction bs as [|b rest IH]; intros a Hs; simpl; [done|].
  assert (0 ≤ b_size b) by (apply Hs; left).
  assert (sizes_ok rest) as Hs' by (intros ??; apply Hs; by right).
  pose proof (span_nonneg _ Hs').
  intros [(_ & -> & ->)|Hl]; [unfold HDR; lia|].
  destruct (IH _ Hs' Hl) as (? & ? & ?). unfold HDR in *. lia.
Qed.

Lemma live_byte_block a bs x :
  live_byte a bs x ↔ ∃ p sz, live_block a bs p sz ∧ p ≤ x < p + sz.
Proof.
  revert a. induction bs as [|b rest IH]; intros a; simpl; [naive_solver|].
  rewrite IH. naive_solver.
Qed.

(** Two live blocks are the same block or do not overlap. *)
Lemma live_block_disjoint a bs p s q t :
  sizes_ok bs → live_block a bs p s → live_block a bs q t →
  (p = q ∧ s = t) ∨ p + s + HDR ≤ q ∨ q + t + HDR ≤ p.
Proof.
  revert a. induction bs as [|b rest IH]; intros a Hs; simpl; [done|].
  assert (sizes_ok rest) as Hs' by (intros ??; apply Hs; by right).
  intros [(? & -> & ->)|Hl] [(? & -> & ->)|Hl']; [auto|..].
  - right; left. destruct (live_block_bound _ _ _ _ Hs' Hl') as [? _]. lia.
  - right; right. destruct (live_block_bound _ _ _ _ Hs' Hl) as [? _]. lia.
  - by apply (IH (a + HDR + b_size b)).
Qed.

Lemma live_block_merge_from a b rest p sz :
  live_block a (merge_from b rest) p sz ↔ live_block a (b :: rest) p sz.
Proof.
  revert a b. induction rest as [|c rest IH]; intros a b; cbn [merge_from]; [done|].
  case_decide as Hd.
  - rewrite IH. destruct Hd as [Hb Hc]. simpl. rewrite Hb, Hc.
    replace (a + HDR + (b_size b + (HDR + b_size c)))
      with (a + HDR + b_size b + HDR + b_size c) by lia. naive_solver.
  - cbn [live_block]. rewrite IH. done.
Qed.

Lemma live_block_merge a bs p sz : live_block a (merge bs) p sz ↔ live_block a bs p sz.
Proof. destruct bs; [done|]. apply live_block_merge_from. Qed.

Lemma live_block_mark_free a bs p q sz :
  sizes_ok bs →
  live_block a (mark_free p a bs) q sz ↔ live_block a bs q sz ∧ q ≠ p.
Proof.
  revert a. induction bs as [|b rest IH]; intros a Hs; simpl; [naive_solver|].
  assert (sizes_ok rest) as Hs' by (intros ??; apply Hs; by right).
  assert (0 ≤ b_size b) by (apply Hs; left).
  case_decide as Hp; subst; simpl.
  - split; [|naive_solver]. intros [(? & _)|Hl]; [done|]. split; [by right|].
    destruct (live_block_bound _ _ _ _ Hs' Hl) as [? _]. unfold HDR in *. lia.
  - rewrite IH by done. naive_solver.
Qed.

Lemma live_block_app a l1 l2 p sz :
  live_block a (l1 ++ l2) p sz ↔ live_block a l1 p sz ∨ live_block (a + span l1) l2 p sz.
Proof.
  revert a. induction l1 as [|b l1 IH]; intros a; simpl.
  - rewrite Z.add_0_r. naive_solver.
  - rewrite IH. replace (a + HDR + b_size b + span l1) with (a + (HDR + b_size b + span l1)) by lia.
    naive_solver.
Qed.

(** The size of the block given for a request of [size] bytes out of [b]. *)
Definition carved_size (size : Z) (b : blk) : Z :=
  if decide (size + HDR + 4 ≤ b_size b) then size else b_size b.

Lemma span_carve size b : span (carve size b) = HDR + b_size b.
Proof. unfold carve. case_decide; simpl; lia. Qed.

Lemma live_block_carve a size b p sz :
  live_block a (carve size b) p sz ↔ p = a + HDR ∧ sz = carved_size size b.
Proof. unfold carve, carved_size. case_decide; simpl; naive_solver. Qed.

Lemma alloc_at_Some_fits size a bs p bs' :
  alloc_at size a bs = Some (p, bs') → ∃ b, b ∈ bs ∧ b_free b = true ∧ size ≤ b_size b.
Proof.
  intros Hal. destruct (decide (Exists (λ b, b_free b = true ∧ size ≤ b_size b) bs)) as [He|He].
  - apply Exists_exists in He as (b & Hb & ? & ?). exists b. split; [by apply list_elem_of_In|done].
  - assert (alloc_at size a bs = None) as Hn; [|by rewrite Hn in Hal].
    apply alloc_at_None. intros b Hb Hp. apply He, Exists_exists. exists b.
    split; [by apply list_elem_of_In|done].
Qed.

Lemma alloc_at_live size a bs p bs' :
  alloc_at size a bs = Some (p, bs') →
  ∃ n, size ≤ n ∧ live_block a bs' p n ∧
    ∀ q sz, live_block a bs' q sz ↔ live_block a bs q sz ∨ (q = p ∧ sz = n).
Proof.
  intros (pre & b & post & -> & -> & -> & Hb & Hsz & _)%alloc_at_Some.
  exists (carved_size size b).
  assert (∀ q sz, live_block a (pre ++ carve size b ++ post) q sz ↔
    live_block a (pre ++ b :: post) q sz ∨
    (q = a + span pre + HDR ∧ sz = carved_size size b)) as Hiff.
  { intros q sz. rewrite !live_block_app, live_block_carve, span_carve. cbn [live_block].
    rewrite Hb, !Z.add_assoc. naive_solver. }
  split; [unfold carved_size; case_decide; lia|]. split; [|done].
  apply Hiff. by right.
Qed.

Lemma heap_fuel_Z : Z.of_nat heap_fuel = 16385.
Proof. unfold heap_fuel. by rewrite Z2Nat.id. Qed.

(** ** The heap as its clients see it *)

Section heap.
(** [heap_storage] lies in the kernel image, which is linked at 0x1000. *)
Context (heap_storage : Z).
Context (Hbase : 4096 ≤ heap_storage).
Context (Hend : heap_storage + HEAP_SIZE < 4294967296).
Local Abbreviation h := heap_storage.

(** The state holds the blocks [bs], without adjacent free blocks. *)
Definition heap_repr (s : kmem) (bs : list blk) : Prop :=
  heap_head s = h ∧ bs ≠ [] ∧ chain (heap_mem s) h bs (h + HEAP_SIZE) ∧ no_adj_free bs.

Lemma heap_repr_fuel s bs : heap_repr s bs → (length bs < heap_fuel)%nat.
Proof using Type.
  intros (_ & _ & Hc & _). apply chain_bound in Hc. pose proof heap_fuel_Z.
  unfold HDR, HEAP_SIZE in *. lia.
Qed.

Lemma chain_span m a bs e : chain m a bs e → a + span bs = e.
Proof using Type.
  revert a. induction bs as [|b rest IH]; intros a; simpl; [lia|].
  intros [_ Hc]. apply IH in Hc. lia.
Qed.

(** After [kmem_init] the heap is one free block that spans the whole
    array but its header. *)
Lemma kmem_init_repr s :
  heap_repr (kmem_init heap_storage s) [Blk (HEAP_SIZE - HDR) true].
Proof using Hbase Hend.
  unfold kmem_init, heap_repr, HEAP_SIZE in *. split_and!; try done.
  split; [|simpl; unfold HDR; lia].
  unfold_hdr. cbn [heap_mem b_size b_free Z.b2z]. mem_simpl. split_and!; try done; lia.
Qed.

Lemma kmalloc_refines s bs size :
  heap_repr s bs → 0 < size < 4294967296 →
  match alloc_at (round_up4 size) h bs with
  | Some (p, bs') =>
      ∃ s', kmalloc size s = Some (p, s') ∧ heap_repr s' bs' ∧
        ∀ x, x < h ∨ h + HEAP_SIZE ≤ x ∨ live_byte h bs x →
             load8 (heap_mem s') x = load8 (heap_mem s) x
  | None => kmalloc size s = Some (0, s)
  end.
Proof using Hbase Hend.
  intros Hr Hs. pose proof (heap_repr_fuel _ _ Hr) as Hf. destruct Hr as (Hh & Hne & Hc & Hn).
  destruct (round_up4_range size) as [Hr1 Hr2].
  pose proof (kmalloc_loop_refines _ _ _ _ (round_up4 size) heap_fuel Hc Hne
    ltac:(lia) Hend ltac:(lia) Hr2 Hf) as Href.
  unfold kmalloc. rewrite decide_False by lia. rewrite Hh.
  destruct (alloc_at (round_up4 size) h bs) as [[p bs']|] eqn:Hal.
  - destruct Href as (m' & -> & Hch & Hfr). simpl. eexists; split; [done|].
    split; [|done]. split_and!; try done; [by eapply alloc_at_nonempty|by eapply alloc_at_no_adj].
  - rewrite Href. simpl. rewrite <-Hh. by destruct s.
Qed.

Lemma kfree_refines s bs p sz :
  heap_repr s bs → live_block h bs p sz →
  ∃ s', kfree p s = Some s' ∧ heap_repr s' (merge (mark_free p h bs)) ∧
    ∀ x, x < h ∨ h + HEAP_SIZE ≤ x ∨ (live_byte h bs x ∧ ¬ (p ≤ x < p + sz)) →
         load8 (heap_mem s') x = load8 (heap_mem s) x.
Proof using Hbase Hend.
  intros Hr Hl. pose proof (heap_repr_fuel _ _ Hr) as Hf. destruct Hr as (Hh & Hne & Hc & Hn).
  pose proof (sizes_ok_chain _ _ _ _ Hc) as Hs.
  destruct (live_block_bound _ _ _ _ Hs Hl) as (Hp1 & Hp2 & Hp3).
  rewrite (chain_span _ _ _ _ Hc) in Hp2.
  pose proof (mark_free_chain _ _ _ _ _ _ Hc Hl) as Hm.
  assert (length (mark_free p h bs) = length bs) as Hlen.
  { clear. generalize h. induction bs as [|b rest IH]; intros a; simpl; [done|].
    case_decide; simpl; [done|]. by rewrite IH. }
  assert (hdr_magic (heap_mem s) (p - HDR) = HEAP_MAGIC ∧ hdr_free (heap_mem s) (p - HDR) = 0) as [Hmg Hfr].
  { clear -Hc Hl. revert Hc Hl. generalize h at 1 3. induction bs as [|b rest IH]; intros a; simpl; [done|].
    intros [Hk Hc] [(Hb & -> & ->)|Hl]; [|by eapply IH].
    replace (a + HDR - HDR) with a by lia. destruct Hk as (_ & Hk & ? & _). by rewrite Hk, Hb. }
  unfold kfree. rewrite decide_False by (unfold HDR in *; lia).
  rewrite u32_small by (unfold HDR in *; word_lia). rewrite decide_False by naive_solver.
  destruct (mark_free p h bs) as [|b rest] eqn:Hmk; [by destruct bs|].
  destruct (kfree_merge_refines _ _ _ _ _ heap_fuel Hm) as (m' & Hrun & Hch & Hfr'); [lia..|simpl in *; lia|].
  rewrite Hh, Hrun. simpl. eexists; split; [done|]. split.
  - split_and!; [done|apply merge_from_nonempty|done|apply merge_from_no_adj].
  - intros x Hx. cbn [heap_mem]. rewrite Hfr'.
    + assert (x < p - HDR ∨ p ≤ x) as Hx'.
      { destruct Hx as [?|[?|[(q & t & Hq & Hqx)%live_byte_block Hnx]]];
          [unfold HDR in *; lia..|].
        destruct (live_block_disjoint _ _ _ _ _ _ Hs Hl Hq) as [?|?]; unfold HDR in *; lia. }
      unfold set_free, HDR in *. by mem_simpl.
    + destruct Hx as [?|[?|[(q & t & Hq & Hqx)%live_byte_block Hnx]]]; [auto..|].
      right; right. rewrite <-Hmk. apply live_byte_block. exists q, t. split; [|done].
      apply live_block_mark_free; [done|]. split; [done|]. intros ->.
      destruct (live_block_disjoint _ _ _ _ _ _ Hs Hl Hq) as [?|?]; unfold HDR in *; lia.
Qed.

Lemma live_block_aligned m a bs e p sz :
  chain m a bs e → live_block a bs p sz → (p - a) `mod` 4 = 0.
Proof using Type.
  revert a. induction bs as [|b rest IH]; intros a; simpl; [done|].
  intros [(_ & _ & _ & _ & _ & Hb) Hc] [(_ & -> & _)|Hl]; unfold HDR in *; [zdm|].
  specialize (IH _ Hc Hl). zdm.
Qed.

Lemma heap_repr_live s bs p sz :
  heap_repr s bs → live_block h bs p sz →
  h + HDR ≤ p ∧ p + sz ≤ h + HEAP_SIZE ∧ (p - h) `mod` 4 = 0.
Proof using Type.
  intros (_ & _ & Hc & _) Hl. pose proof (sizes_ok_chain _ _ _ _ Hc) as Hs.
  destruct (live_block_bound _ _ _ _ Hs Hl) as (? & ? & _).
  pose proof (chain_span _ _ _ _ Hc). pose proof (live_block_aligned _ _ _ _ _ _ Hc Hl). lia.
Qed.

Lemma heap_repr_sizes s bs : heap_repr s bs → sizes_ok bs.
Proof using Type. intros (_ & _ & Hc & _). by eapply sizes_ok_chain. Qed.

(** ** Executions of the heap and its clients

    A client may write anything into the blocks it holds, and only there.
    The second component records the live allocations: pointer and
    requested size. *)
Inductive heap_step : kmem * gmap Z Z → kmem * gmap Z Z → Prop :=
| step_kmalloc size p s s' live :
    0 < size ≤ 4294967292 → kmalloc size s = Some (p, s') → p ≠ 0 →
    heap_step (s, live) (s', <[p := size]> live)
| step_kmalloc_null size s s' live :
    0 ≤ size ≤ 4294967292 → kmalloc size s = Some (0, s') → heap_step (s, live) (s', live)
| step_kfree p n s s' live :
    live !! p = Some n → kfree p s = Some s' → heap_step (s, live) (s', delete p live)
| step_kfree_null s s' live :
    kfree 0 s = Some s' → heap_step (s, live) (s', live)
| step_client_write x v p n s live :
    live !! p = Some n → p ≤ x < p + n →
    heap_step (s, live) (Kmem (store8 (heap_mem s) x v) (heap_head s), live).

(** The recorded allocations are exactly the live blocks. *)
Definition heap_inv (st : kmem * gmap Z Z) : Prop :=
  ∃ bs, heap_repr st.1 bs ∧
    (∀ p n, st.2 !! p = Some n → ∃ sz, live_block h bs p sz ∧ n ≤ sz) ∧
    (∀ p sz, live_block h bs p sz → is_Some (st.2 !! p)).

Lemma heap_inv_kmalloc s live size p s' :
  heap_inv (s, live) → 0 < size ≤ 4294967292 → kmalloc size s = Some (p, s') →
  (p = 0 ∧ s' = s) ∨ (p ≠ 0 ∧ live !! p = None ∧ heap_inv (s', <[p := size]> live)).
Proof using Hbase Hend.
  intros (bs & Hr & Hl1 & Hl2) Hs Hk. pose proof (kmalloc_refines s bs size Hr ltac:(lia)) as Href.
  destruct (alloc_at (round_up4 size) h bs) as [[q bs']|] eqn:Hal; [|naive_solver].
  destruct Href as (s1 & Hk1 & Hr' & _). rewrite Hk in Hk1. simplify_eq.
  destruct (alloc_at_live _ _ _ _ _ Hal) as (n & Hn & Hln & Hiff).
  destruct (round_up4_spec size Hs) as [? _].
  destruct (heap_repr_live _ _ _ _ Hr' Hln) as (Hq & _ & _). right.
  assert (∀ sz, ¬ live_block h bs q sz) as Hfresh.
  { intros sz Hb. destruct (alloc_at_Some _ _ _ _ _ Hal) as (pre & b & post & -> & _ & -> & Hb' & _).
    apply live_block_app in Hb. pose proof (heap_repr_sizes _ _ Hr) as Hsz.
    assert (sizes_ok pre) as Hsp by (intros ??; apply Hsz; set_solver).
    assert (sizes_ok post) as Hso by (intros ??; apply Hsz; set_solver).
    assert (0 ≤ b_size b) by (apply Hsz; set_solver).
    destruct Hb as [Hb|[(? & _)|Hb]]; [|congruence|].
    - destruct (live_block_bound _ _ _ _ Hsp Hb) as (_ & ? & ?). unfold HDR in *. lia.
    - destruct (live_block_bound _ _ _ _ Hso Hb) as (? & _). unfold HDR in *. lia. }
  split; [unfold HDR in *; lia|]. split.
  - destruct (live !! q) as [n'|] eqn:Hq'; [|done].
    destruct (Hl1 _ _ Hq') as (sz & Hb & _). by apply Hfresh in Hb.
  - exists bs'. split; [done|]. cbn [fst snd]. split.
    + intros p' n'. rewrite lookup_insert. case_decide; intros; simplify_eq.
      * exists n. split; [done|lia].
      * destruct (Hl1 p' n') as (sz & ? & ?); [done|]. exists sz. split; [apply Hiff; by left|done].
    + intros p' sz [Hb|[-> _]]%Hiff; rewrite lookup_insert; case_decide; by eauto.
Qed.

Lemma heap_inv_kfree s live p n s' :
  heap_inv (s, live) → live !! p = Some n → kfree p s = Some s' →
  heap_inv (s', delete p live).
Proof using Hbase Hend.
  intros (bs & Hr & Hl1 & Hl2) Hp Hk. destruct (Hl1 _ _ Hp) as (sz & Hlb & Hn).
  destruct (kfree_refines s bs p sz Hr Hlb) as (s1 & Hk1 & Hr' & _). simplify_eq.
  pose proof (heap_repr_sizes _ _ Hr) as Hs.
  exists (merge (mark_free p h bs)). split; [done|]. cbn [fst snd]. split.
  - intros q m. rewrite lookup_delete. case_decide as Hpq; [done|]. intros Hq.
    destruct (Hl1 _ _ Hq) as (t & Hq' & ?). exists t. split; [|done].
    apply live_block_merge, live_block_mark_free; [done|]. split; [done|congruence].
  - intros q t Hq. rewrite live_block_merge, live_block_mark_free in Hq by done.
    destruct Hq as [Hq Hne].
    rewrite lookup_delete_ne by congruence. by eapply Hl2.
Qed.

Lemma heap_inv_write s live x v p n :
  heap_inv (s, live) → live !! p = Some n → p ≤ x < p + n →
  heap_inv (Kmem (store8 (heap_mem s) x v) (heap_head s), live).
Proof using Type.
  intros (bs & (Hh & Hne & Hc & Hn) & Hl1 & Hl2) Hp Hx.
  exists bs. split; [|done]. split_and!; try done. cbn [fst heap_mem].
  destruct (Hl1 _ _ Hp) as (sz & Hlb & ?).
  eapply chain_ext; [|exact Hc]. intros y Hy. apply load8_store8_ne. intros ->.
  eapply live_not_hdr; [exact Hc| |exact Hy]. apply live_byte_block. exists p, sz. split; [done|lia].
Qed.

Lemma heap_step_inv st st' : heap_inv st → heap_step st st' → heap_inv st'.
Proof using Hbase Hend.
  intros Hi Hst. destruct Hst as [size p s s' live Hs Hk Hp|size s s' live Hs Hk
    |p n s s' live Hp Hk|s s' live Hk|x v p n s live Hp Hx].
  - destruct (heap_inv_kmalloc _ _ _ _ _ Hi Hs Hk) as [[? _]|(_ & _ & ?)]; done.
  - destruct (decide (size = 0)) as [->|].
    { unfold kmalloc in Hk. rewrite decide_True in Hk by done. by simplify_eq. }
    destruct (heap_inv_kmalloc _ _ size _ _ Hi ltac:(lia) Hk) as [[_ ->]|(? & _)]; done.
  - by eapply heap_inv_kfree.
  - unfold kfree in Hk. rewrite decide_True in Hk by done. by simplify_eq.
  - by eapply heap_inv_write.
Qed.

Lemma heap_reachable_inv s0 st : rtc heap_step (kmem_init heap_storage s0, ∅) st → heap_inv st.
Proof using Hbase Hend.
  intros Hrtc. assert (heap_inv (kmem_init heap_storage s0, ∅)) as H0.
  { eexists. split; [apply kmem_init_repr|]. cbn [fst snd]. split; [done|].
    simpl. intros p sz [(? & _)|?]; done. }
  revert H0. induction Hrtc; eauto using heap_step_inv.
Qed.
End heap.

(** ** Properties *)

(** C4: in every state reachable from [kmem_init] by any sequence of
    [kmalloc], [kfree] of live pointers and client writes inside live blocks,
    the live allocations lie inside [heap_storage], are 4-byte aligned within
    it and are pairwise disjoint; the allocator's loops terminate, and
    [kmalloc] never hands out memory that is still live. *)
Theorem heap_reachable_safe heap_storage s0 s live :
  4096 ≤ heap_storage → heap_storage + HEAP_SIZE < 4294967296 →
  rtc heap_step (kmem_init heap_storage s0, ∅) (s, live) →
  (∀ p n, live !! p = Some n →
     heap_storage + HDR ≤ p ∧ p + n ≤ heap_storage + HEAP_SIZE ∧
     (p - heap_storage) `mod` 4 = 0) ∧
  (∀ p n q m, live !! p = Some n → live !! q = Some m → p ≠ q → p + n ≤ q ∨ q + m ≤ p) ∧
  (∀ size, 0 < size ≤ 4294967292 → ∃ p s', kmalloc size s = Some (p, s') ∧
     (p ≠ 0 → ∀ q m, live !! q = Some m → p + size ≤ q ∨ q + m ≤ p)) ∧
  (∀ p n, live !! p = Some n → ∃ s', kfree p s = Some s').
Proof.
  intros Hb He Hrtc. apply (heap_reachable_inv heap_storage Hb He) in Hrtc as Hinv.
  assert (∀ live s, heap_inv heap_storage (s, live) → ∀ p n q m,
    live !! p = Some n → live !! q = Some m → p ≠ q → p + n ≤ q ∨ q + m ≤ p) as Hdisj.
  { clear. intros live s (bs & Hr & Hl1 & _) p n q m Hp Hq Hne.
    destruct (Hl1 _ _ Hp) as (sp & Hp1 & Hp2), (Hl1 _ _ Hq) as (sq & Hq1 & Hq2).
    destruct (live_block_disjoint _ _ _ _ _ _ (heap_repr_sizes _ _ _ Hr) Hp1 Hq1); unfold HDR in *; lia. }
  pose proof Hinv as (bs & Hr & Hl1 & _). split_and!.
  - intros p n Hp. destruct (Hl1 _ _ Hp) as (sz & Hl & ?).
    pose proof (heap_repr_live _ _ _ _ _ Hr Hl). lia.
  - by eapply Hdisj.
  - intros size Hs. pose proof (kmalloc_refines _ Hb He s bs size Hr ltac:(lia)) as Href.
    assert (∃ p s', kmalloc size s = Some (p, s')) as (p & s' & Hk)
      by (destruct (alloc_at (round_up4 size) heap_storage bs) as [[? ?]|]; naive_solver).
    exists p, s'. split; [done|]. intros Hp q m Hq.
    destruct (heap_inv_kmalloc _ Hb He _ _ _ _ _ Hinv Hs Hk) as [[? _]|(_ & Hnone & Hinv')]; [done|].
    apply (Hdisj _ _ Hinv' p size q m); [apply lookup_insert_eq| |congruence].
    rewrite lookup_insert_ne; congruence.
  - intros p n Hp. destruct (Hl1 _ _ Hp) as (sz & Hl & _).
    destruct (kfree_refines _ Hb He s bs p sz Hr Hl) as (s' & ? & _). eauto.
Qed.

(** A concrete heap, used by the witnesses. *)
Definition demo_base : Z := 131072.
Definition demo_init : kmem := kmem_init demo_base (Kmem ∅ 0).

Lemma heap_reachable_safe_witness :
  ∃ s, rtc heap_step (kmem_init demo_base (Kmem ∅ 0), ∅) (s, {[131088 := 10]}) ∧
    ∀ p n, ({[131088 := 10]} : gmap Z Z) !! p = Some n → p + n ≤ demo_base + HEAP_SIZE.
Proof.
  destruct (kmalloc 10 demo_init) as [[p s]|] eqn:Hk; [|vm_compute in Hk; discriminate Hk].
  assert (p = 131088) as -> by (vm_compute in Hk; congruence).
  assert (rtc heap_step (kmem_init demo_base (Kmem ∅ 0), ∅) (s, {[131088 := 10]})) as Hr.
  { eapply rtc_l; [|apply rtc_refl].
    apply (step_kmalloc 10 131088); [lia|exact Hk|lia]. }
  exists s. split; [exact Hr|]. intros p n Hp.
  destruct (heap_reachable_safe demo_base (Kmem ∅ 0) s {[131088 := 10]}) as [H _];
    [unfold demo_base, HEAP_SIZE; lia..|exact Hr|].
  destruct (H p n Hp) as (_ & H' & _). exact H'.
Defined.

(** C26: [kmalloc] on any well-formed heap, for every 32-bit request, returns a
    block or NULL.  NULL is returned exactly for size 0 or when no free block has
    the rounded size, and then nothing changes.  Otherwise the pointer starts a
    block of at least the rounded size, which for requests of up to 0xFFFFFFFC
    bytes is at least the requested one (for larger ones the rounding wraps,
    [kmalloc_huge_wraps]); the live blocks are the old ones and the new one, and
    no byte of a live block, nor any byte outside the heap, is modified. *)
Theorem kmalloc_sound heap_storage s bs size :
  4096 ≤ heap_storage → heap_storage + HEAP_SIZE < 4294967296 →
  heap_repr heap_storage s bs → 0 ≤ size < 4294967296 →
  ∃ p s', kmalloc size s = Some (p, s') ∧
    ((p = 0 ∧ s' = s ∧ (size = 0 ∨ ∀ b, b ∈ bs → b_free b = true → b_size b < round_up4 size)) ∨
     (p ≠ 0 ∧ size ≠ 0 ∧ (∃ b, b ∈ bs ∧ b_free b = true ∧ round_up4 size ≤ b_size b) ∧
      ∃ bs' n, heap_repr heap_storage s' bs' ∧ round_up4 size ≤ n ∧ (size ≤ 4294967292 → size ≤ n) ∧
        (∀ q sz, live_block heap_storage bs' q sz ↔
           live_block heap_storage bs q sz ∨ (q = p ∧ sz = n)) ∧
        (∀ x, x < heap_storage ∨ heap_storage + HEAP_SIZE ≤ x ∨ live_byte heap_storage bs x →
           load8 (heap_mem s') x = load8 (heap_mem s) x))).
Proof.
  intros Hb He Hr Hs. destruct (decide (size = 0)) as [->|Hz]; [exists 0, s; split; [done|]; left; eauto|].
  pose proof (kmalloc_refines _ Hb He s bs size Hr ltac:(lia)) as Href.
  destruct (alloc_at (round_up4 size) heap_storage bs) as [[p bs']|] eqn:Hal.
  - destruct Href as (s' & Hk & Hr' & Hfr). exists p, s'. split; [done|]. right.
    destruct (alloc_at_live _ _ _ _ _ Hal) as (n & Hn & Hl & Hiff).
    destruct (heap_repr_live _ _ _ _ _ Hr' Hl) as [? _]. split; [unfold HDR in *; lia|]. split; [done|].
    split; [by eapply alloc_at_Some_fits|].
    exists bs', n. split_and!; [done|done| |done..]. intros Hc.
    destruct (round_up4_spec size) as [? _]; lia.
  - exists 0, s. split; [done|]. left. split_and!; try done. right. intros b Hin Hf.
    destruct (decide (b_size b < round_up4 size)) as [|Hge]; [done|].
    destruct (proj1 (alloc_at_None _ _ _) Hal b Hin). split; [done|lia].
Qed.

Lemma demo_init_repr : heap_repr demo_base demo_init [Blk (HEAP_SIZE - HDR) true].
Proof. apply kmem_init_repr; unfold demo_base, HEAP_SIZE; lia. Defined.

Lemma kmalloc_sound_witness :
  heap_repr demo_base demo_init [Blk (HEAP_SIZE - HDR) true] ∧
  ∃ p s', kmalloc 10 demo_init = Some (p, s').
Proof.
  split; [exact demo_init_repr|].
  destruct (kmalloc_sound demo_base demo_init [Blk (HEAP_SIZE - HDR) true] 10)
    as (p & s' & Hk & _); [unfold demo_base, HEAP_SIZE; lia..|exact demo_init_repr|lia|].
  exists p, s'. exact Hk.
Defined.

(** [kfree] of a live block terminates, makes exactly that block free,
    leaves no two neighbouring free blocks, and modifies no byte outside the
    heap or in any other live block. *)
Theorem kfree_sound heap_storage s bs p sz :
  4096 ≤ heap_storage → heap_storage + HEAP_SIZE < 4294967296 →
  heap_repr heap_storage s bs → live_block heap_storage bs p sz →
  ∃ s' bs', kfree p s = Some s' ∧ heap_repr heap_storage s' bs' ∧ no_adj_free bs' ∧
    (∀ q n, live_block heap_storage bs' q n ↔ live_block heap_storage bs q n ∧ q ≠ p) ∧
    (∀ x, x < heap_storage ∨ heap_storage + HEAP_SIZE ≤ x ∨
          (live_byte heap_storage bs x ∧ ¬ (p ≤ x < p + sz)) →
       load8 (heap_mem s') x = load8 (heap_mem s) x).
Proof.
  intros Hb He Hr Hl. destruct (kfree_refines _ Hb He s bs p sz Hr Hl) as (s' & Hk & Hr' & Hfr).
  exists s', (merge (mark_free p heap_storage bs)). split_and!; try done; [apply merge_no_adj|].
  intros q n. rewrite live_block_merge. apply live_block_mark_free. by eapply heap_repr_sizes.
Qed.

Lemma kfree_sound_witness :
  ∃ p s1 s2, kmalloc 10 demo_init = Some (p, s1) ∧ kfree p s1 = Some s2.
Proof.
  assert (4096 ≤ demo_base ∧ demo_base + HEAP_SIZE < 4294967296) as [H1 H2]
    by (unfold demo_base, HEAP_SIZE; lia).
  pose proof (kmalloc_refines demo_base H1 H2 demo_init _ 10 demo_init_repr ltac:(lia)) as Hk.
  vm_compute (alloc_at _ _ _) in Hk. destruct Hk as (s1 & Hk & Hr & _).
  destruct (kfree_sound demo_base s1 _ 131088 12 H1 H2 Hr) as (s2 & bs2 & Hf & _).
  { left. unfold demo_base, HDR. simpl. lia. }
  exists 131088, s1, s2. split; [exact Hk|exact Hf].
Defined.

(** [kfree] after [kmalloc] is the identity on the block list: whatever
    was split is merged back, so that a heap never fragments by a matched
    allocate/release pair. *)
Theorem kmalloc_kfree_roundtrip heap_storage s bs size p s1 :
  4096 ≤ heap_storage → heap_storage + HEAP_SIZE < 4294967296 →
  heap_repr heap_storage s bs → 0 < size < 4294967296 →
  kmalloc size s = Some (p, s1) → p ≠ 0 →
  ∃ s2, kfree p s1 = Some s2 ∧ heap_repr heap_storage s2 bs.
Proof.
  intros Hb He Hr Hs Hk Hp. pose proof (kmalloc_refines _ Hb He s bs size Hr Hs) as Href.
  destruct (alloc_at (round_up4 size) heap_storage bs) as [[q bs']|] eqn:Hal; [|congruence].
  destruct Href as (s1' & Hk' & Hr1 & _). rewrite Hk in Hk'. simplify_eq.
  destruct (alloc_at_live _ _ _ _ _ Hal) as (n & _ & Hl & _).
  destruct (kfree_refines _ Hb He s1' bs' q n Hr1 Hl) as (s2 & Hf & Hr2 & _).
  exists s2. split; [done|].
  erewrite <-(merge_mark_alloc _ _ bs); [exact Hr2|apply Hr|by eapply heap_repr_sizes|done].
Qed.

Lemma kmalloc_kfree_roundtrip_witness :
  ∃ p s1 s2, kmalloc 100 demo_init = Some (p, s1) ∧ kfree p s1 = Some s2 ∧
    heap_repr demo_base s2 [Blk (HEAP_SIZE - HDR) true].
Proof.
  destruct (kmalloc 100 demo_init) as [[p s1]|] eqn:Hk; [|vm_compute in Hk; discriminate Hk].
  assert (p = 131088) as -> by (vm_compute in Hk; congruence).
  destruct (kmalloc_kfree_roundtrip demo_base demo_init [Blk (HEAP_SIZE - HDR) true] 100 131088 s1)
    as (s2 & Hf & Hr); [unfold demo_base, HEAP_SIZE; lia..|exact demo_init_repr|lia|exact Hk|lia|].
  exists 131088, s1, s2. split; [reflexivity|]. split; [exact Hf|exact Hr].
Defined.

(** Bytes in the blocks whose [free] flag is [f]. *)
Definition total (f : bool) (bs : list blk) : Z :=
  foldr (λ b acc, (if decide (b_free b = f) then b_size b else 0) + acc) 0 bs.

Lemma total_span bs : span bs = HDR * Z.of_nat (length bs) + total true bs + total false bs.
Proof.
  induction bs as [|b rest IH]; [done|]. unfold total in *. cbn [span length foldr]. rewrite IH.
  destruct (b_free b); simpl; unfold HDR; lia.
Qed.

Lemma total_nonneg f bs : sizes_ok bs → 0 ≤ total f bs.
Proof.
  induction bs as [|b rest IH]; intros Hs; [done|]. unfold total in *. cbn [foldr].
  assert (0 ≤ b_size b) by (apply Hs; left).
  specialize (IH ltac:(intros ??; apply Hs; by right)). case_decide; lia.
Qed.

Lemma kmem_info_loop_spec m a bs e fuel used free :
  chain m a bs e → bs ≠ [] → 16 ≤ a → (length bs < fuel)%nat →
  0 ≤ used → 0 ≤ free → used + free + span bs < 4294967296 →
  kmem_info_loop fuel m a used free = Some (used + total false bs, free + total true bs).
Proof.
  revert a fuel used free. induction bs as [|b rest IH]; intros a fuel used free Hc Hne Ha Hf Hu Hfr Hsum; [done|].
  destruct fuel as [|fuel]; [simpl in Hf; lia|].
  pose proof Hc as [Hh Hc']. pose proof (hdr_free_decide _ _ _ _ Hh) as Hfd.
  pose proof (sizes_ok_chain _ _ _ _ Hc') as Hs. pose proof (span_nonneg _ Hs).
  destruct Hh as (Hsz & _ & _ & _ & Hb0 & _).
  cbn [kmem_info_loop]. rewrite decide_False by lia. rewrite (chain_next _ _ _ _ _ Hc) by done.
  rewrite Hsz. cbn [span] in Hsum. unfold HDR in Hsum.
  assert (∀ used free, 0 ≤ used → 0 ≤ free → used + free + span rest < 4294967296 →
    kmem_info_loop fuel m (match rest with [] => 0 | _ => a + HDR + b_size b end) used free
    = Some (used + total false rest, free + total true rest)) as Hrec.
  { intros u f ???. destruct rest as [|c rest].
    - destruct fuel; [simpl in Hf; lia|]. cbn. by rewrite !Z.add_0_r.
    - apply IH; try done; [unfold HDR; lia|simpl in *; lia]. }
  unfold total in *. cbn [foldr].
  destruct (b_free b) eqn:Hb.
  - rewrite decide_True by tauto. rewrite u32_small by word_lia. rewrite Hrec by lia.
    simpl. do 2 f_equal; lia.
  - rewrite decide_False by (rewrite Hfd; done). rewrite u32_small by word_lia. rewrite Hrec by lia.
    simpl. do 2 f_equal; lia.
Qed.

(** [kmem_info] reports the bytes in allocated and in free blocks, and
    the two figures with one 16-byte header per block make up the whole heap. *)
Theorem kmem_info_accounts heap_storage s bs :
  4096 ≤ heap_storage → heap_repr heap_storage s bs →
  kmem_info s = Some (total false bs, total true bs, HEAP_SIZE) ∧
  total false bs + total true bs + HDR * Z.of_nat (length bs) = HEAP_SIZE.
Proof.
  intros Hb Hr. pose proof (heap_repr_fuel _ _ _ Hr) as Hf. pose proof Hr as (Hh & Hne & Hc & _).
  pose proof (chain_span _ _ _ _ Hc) as Hspan. pose proof (total_span bs) as Ht.
  assert (span bs = HEAP_SIZE) as Hsp by lia.
  unfold kmem_info. rewrite Hh.
  rewrite (kmem_info_loop_spec _ _ _ _ _ _ _ Hc Hne) by (unfold HEAP_SIZE in *; lia).
  split; [done|]. lia.
Qed.

Lemma kmem_info_accounts_witness : kmem_info demo_init = Some (0, 262128, HEAP_SIZE).
Proof.
  destruct (kmem_info_accounts demo_base demo_init [Blk (HEAP_SIZE - HDR) true]) as [H _];
    [unfold demo_base; lia|exact demo_init_repr|]. exact H.
Defined.

(** A request within 3 bytes of 2^32 is rounded up to 0 bytes, so that
    [kmalloc] succeeds and hands out a block that is far smaller than asked
    for: on a fresh heap the block has no data bytes at all. *)
Theorem kmalloc_huge_wraps heap_storage s0 size :
  4096 ≤ heap_storage → heap_storage + HEAP_SIZE < 4294967296 →
  4294967293 ≤ size < 4294967296 →
  ∃ s', kmalloc size (kmem_init heap_storage s0) = Some (heap_storage + HDR, s') ∧
    heap_repr heap_storage s' [Blk 0 false; Blk (HEAP_SIZE - HDR - HDR) true].
Proof.
  intros Hb He Hs.
  pose proof (kmalloc_refines _ Hb He _ _ size (kmem_init_repr _ Hb He s0) ltac:(lia)) as Href.
  assert (round_up4 size = 0) as H0.
  { unfold round_up4. rewrite land_not32_3 by apply u32_range.
    unfold u32. replace (size + 3) with (size + 3 - 4294967296 + 1 * 4294967296) by lia.
    rewrite Z.mod_add by lia. rewrite Z.mod_small by lia. zdm. }
  rewrite H0 in Href. cbn in Href. destruct Href as (s' & Hk & Hr & _). eauto.
Qed.

Lemma kmalloc_huge_wraps_witness :
  ∃ s', kmalloc 4294967295 demo_init = Some (demo_base + HDR, s').
Proof.
  destruct (kmalloc_huge_wraps demo_base (Kmem ∅ 0) 4294967295) as (s' & Hk & _);
    [unfold demo_base, HEAP_SIZE; lia..|]. exists s'. exact Hk.
Defined.
