(* ===== verification/Pmm.v ===== *)
(** * The physical memory manager ([src/kernel/pmm.c], [pmm.h])

    A bitmap of 1024 bytes, one bit per 4 KB frame (1 = used), and two
    counters.  The bit helpers fail when the byte index leaves the bitmap.

    [FrameAllocator] is the interface that paging relies on; the bitmap
    allocator is an instance of it. *)

From S2P Require Import Prelude.

Definition PMM_PAGE_SIZE : Z := 4096.
Definition PMM_MAX_PHYS : Z := 33554432.
Definition PMM_TOTAL_FRAMES : Z := 8192.
Definition E820_TYPE_USABLE : Z := 1.

Record e820_entry := E820 { e_base : Z; e_length : Z; e_type : Z }.

(** The map that the bootloader leaves at 0x0500: a count and the array of
    [entries] (32 slots). *)
Record boot_mmap := BootMmap { mm_count : Z; mm_entries : list e820_entry }.

Record pmm := Pmm { pmm_bitmap : list Z; pmm_free : Z; pmm_total : Z }.

(** ** Operations *)

Definition pmm_set_used (frame : Z) (s : pmm) : option pmm :=
  b ← aget (pmm_bitmap s) (Z.shiftr frame 3);
  bm ← aset (pmm_bitmap s) (Z.shiftr frame 3)
         (Z.lor b (u8 (Z.shiftl 1 (Z.land frame 7))));
  Some (Pmm bm (pmm_free s) (pmm_total s)).

Definition pmm_set_free (frame : Z) (s : pmm) : option pmm :=
  b ← aget (pmm_bitmap s) (Z.shiftr frame 3);
  bm ← aset (pmm_bitmap s) (Z.shiftr frame 3)
         (Z.land b (u8 (Z.lnot (Z.shiftl 1 (Z.land frame 7)))));
  Some (Pmm bm (pmm_free s) (pmm_total s)).

Definition pmm_is_used (frame : Z) (s : pmm) : option Z :=
  b ← aget (pmm_bitmap s) (Z.shiftr frame 3);
  Some (Z.land (Z.shiftr b (Z.land frame 7)) 1).

(** [if (pmm_free > 0) pmm_free--;] *)
Definition dec_free (s : pmm) : pmm :=
  if decide (0 < pmm_free s) then Pmm (pmm_bitmap s) (pmm_free s - 1) (pmm_total s) else s.
(** [pmm_free++;] *)
Definition inc_free (s : pmm) : pmm := Pmm (pmm_bitmap s) (u32 (pmm_free s + 1)) (pmm_total s).
(** [pmm_total += n;] *)
Definition add_total (n : Z) (s : pmm) : pmm := Pmm (pmm_bitmap s) (pmm_free s) (u32 (pmm_total s + n)).

(** The body of the loop of [pmm_reserve_range]. *)
Definition reserve_frame (f : Z) (s : pmm) : option pmm :=
  u ← pmm_is_used f s;
  if decide (u = 0) then s' ← pmm_set_used f s; Some (dec_free s') else Some s.

Definition pmm_reserve_range (base len : Z) (s : pmm) : option pmm :=
  if decide (PMM_MAX_PHYS ≤ base) then Some s
  else
    let len := if decide (PMM_MAX_PHYS < u64 (base + len)) then u64 (PMM_MAX_PHYS - base) else len in
    let start := u32 (base `div` PMM_PAGE_SIZE) in
    let stop := u32 (u64 (base + len + PMM_PAGE_SIZE - 1) `div` PMM_PAGE_SIZE) in
    let stop := if decide (PMM_TOTAL_FRAMES < stop) then PMM_TOTAL_FRAMES else stop in
    for_u32_opt start stop reserve_frame s.

(** [pmm_set_free(f); pmm_free++;] *)
Definition release_frame (f : Z) (s : pmm) : option pmm :=
  s' ← pmm_set_free f s; Some (inc_free s').

(** The frames of a usable entry: start rounded up, end rounded down. *)
Definition entry_start_frame (e : e820_entry) : Z :=
  u32 (u64 (u64 (e_base e + PMM_PAGE_SIZE) - 1) `div` PMM_PAGE_SIZE).
Definition entry_end_frame (e : e820_entry) : Z :=
  let stop := u64 (e_base e + e_length e) in
  let stop := if decide (PMM_MAX_PHYS < stop) then PMM_MAX_PHYS else stop in
  let f := u32 (stop `div` PMM_PAGE_SIZE) in
  if decide (PMM_TOTAL_FRAMES < f) then PMM_TOTAL_FRAMES else f.

(** One iteration of the loop over the E820 entries. *)
Definition process_entry (e : e820_entry) (s : pmm) : option pmm :=
  if decide (e_type e ≠ E820_TYPE_USABLE) then Some s
  else if decide (PMM_MAX_PHYS ≤ e_base e) then Some s
  else
    s' ← for_u32_opt (entry_start_frame e) (entry_end_frame e) release_frame s;
    Some (add_total (u32 (entry_end_frame e - entry_start_frame e)) s').

Definition pmm_init (mmap : boot_mmap) : option pmm :=
  let s := Pmm (replicate 1024 255) 0 0 in
  if decide (mm_count mmap = 0) then
    s' ← for_u32_opt 256 PMM_TOTAL_FRAMES
           (λ f s, s' ← release_frame f s; Some (add_total 1 s')) s;
    Some (add_total 256 s')
  else
    s' ← for_u32_opt 0 (mm_count mmap)
           (λ i s, e ← aget (mm_entries mmap) i; process_entry e s) s;
    pmm_reserve_range 0 1048576 s'.

(** [pmm_alloc_frame]: first-fit scan from frame [f]. *)
Fixpoint alloc_scan (f : Z) (n : nat) (s : pmm) : option (Z * pmm) :=
  match n with
  | O => Some (0, s)
  | S n' =>
      u ← pmm_is_used f s;
      if decide (u = 0) then
        s' ← pmm_set_used f s; Some (u32 (f * PMM_PAGE_SIZE), dec_free s')
      else alloc_scan (f + 1) n' s
  end.

Definition pmm_alloc_frame (s : pmm) : option (Z * pmm) :=
  alloc_scan 0 (Z.to_nat PMM_TOTAL_FRAMES) s.

Definition pmm_free_frame (phys_addr : Z) (s : pmm) : option pmm :=
  let f := phys_addr `div` PMM_PAGE_SIZE in
  if decide (PMM_TOTAL_FRAMES ≤ f) then Some s
  else
    u ← pmm_is_used f s;
    if decide (u ≠ 0) then s' ← pmm_set_free f s; Some (inc_free s') else Some s.

Definition pmm_free_frames (s : pmm) : Z := pmm_free s.
Definition pmm_total_frames (s : pmm) : Z := pmm_total s.

(** ** The bitmap as a set of frames *)

Definition used (s : pmm) (f : Z) : bool :=
  Z.testbit (default 0 (aget (pmm_bitmap s) (f `div` 8))) (f `mod` 8).

Definition bitmap_ok (s : pmm) : Prop :=
  length (pmm_bitmap s) = 1024%nat ∧ Forall is_u8 (pmm_bitmap s).

(** The number of free frames, sealed so that no conversion check counts up
    to 8192. *)
Definition nfree_def (s : pmm) : Z := count (λ f, negb (used s f)) (Z.to_nat PMM_TOTAL_FRAMES).
Definition nfree_seal : seal (@nfree_def).
Proof. by eexists. Qed.
Definition nfree : pmm → Z := nfree_seal.(unseal).
Lemma nfree_eq : nfree = nfree_def.
Proof. exact nfree_seal.(seal_eq). Qed.

Definition frame_ok (f : Z) : Prop := 0 ≤ f < PMM_TOTAL_FRAMES.

Lemma frame_index f : frame_ok f →
  Z.shiftr f 3 = f `div` 8 ∧ Z.land f 7 = f `mod` 8 ∧ 0 ≤ f `div` 8 < 1024 ∧ 0 ≤ f `mod` 8 < 8.
Proof.
  unfold frame_ok, PMM_TOTAL_FRAMES. intros. rewrite Z.shiftr_div_pow2 by lia.
  change 7 with (Z.ones 3). rewrite Z.land_ones by lia. change (2 ^ 3) with 8. zdm.
Qed.

Lemma bitmap_byte s f : bitmap_ok s → frame_ok f →
  ∃ b, aget (pmm_bitmap s) (f `div` 8) = Some b ∧ is_u8 b.
Proof.
  intros [Hl Hf] H. destruct (frame_index f H) as (_ & _ & Hd & _).
  destruct (aget_is_Some (pmm_bitmap s) (f `div` 8)) as [b Hb]; [rewrite Hl; lia|].
  exists b. split; [done|]. unfold aget in Hb. rewrite decide_True in Hb by lia.
  by eapply Forall_lookup_1.
Qed.

Lemma pmm_is_used_spec s f : bitmap_ok s → frame_ok f → pmm_is_used f s = Some (Z.b2z (used s f)).
Proof.
  intros Hok H.
  unfold pmm_is_used, used. destruct (bitmap_byte s f Hok H) as (b & Hb & _).
  destruct (frame_index f H) as (-> & -> & _ & _). rewrite Hb. simpl. f_equal.
  rewrite Z.land_comm. change 1 with (Z.ones 1). rewrite Z.land_comm, Z.land_ones by lia.
  rewrite <-Z.bit0_mod, Z.shiftr_spec by lia. by rewrite Z.add_0_l.
Qed.

(** Writing a byte whose bits differ from the old one at most at bit [f mod 8]
    changes the used-ness of frame [f] only. *)
Lemma used_update s f b b' fr tot g :
  bitmap_ok s → frame_ok f → frame_ok g →
  aget (pmm_bitmap s) (f `div` 8) = Some b →
  (∀ k, 0 ≤ k < 8 → k ≠ f `mod` 8 → Z.testbit b' k = Z.testbit b k) →
  used (Pmm (<[Z.to_nat (f `div` 8) := b']> (pmm_bitmap s)) fr tot) g =
  if decide (g = f) then Z.testbit b' (f `mod` 8) else used s g.
Proof.
  intros [Hl _] Hf Hg Hb Hk. unfold used. cbn [pmm_bitmap].
  destruct (frame_index f Hf) as (_ & _ & Hd & Hm), (frame_index g Hg) as (_ & _ & Hd' & Hm').
  destruct (decide (f `div` 8 = g `div` 8)) as [Heq|Hne].
  - rewrite <-Heq, aget_insert_eq, Hb by (rewrite Hl; lia). simpl.
    case_decide as Hgf; [by subst|]. apply Hk; [done|].
    intros ?. apply Hgf. rewrite (Z.div_mod f 8), (Z.div_mod g 8) by lia. congruence.
  - rewrite aget_insert_ne by lia. by rewrite decide_False by congruence.
Qed.

Lemma mask_bit k j : 0 ≤ k < 8 → 0 ≤ j < 8 → Z.testbit (u8 (Z.shiftl 1 k)) j = bool_decide (j = k).
Proof.
  intros. rewrite testbit_u8_low, Z.shiftl_1_l, Z.pow2_bits_eqb by lia.
  case_bool_decide; lia.
Qed.

Lemma nmask_bit k j :
  0 ≤ k < 8 → 0 ≤ j < 8 → Z.testbit (u8 (Z.lnot (Z.shiftl 1 k))) j = bool_decide (j ≠ k).
Proof.
  intros. rewrite testbit_u8_low, Z.lnot_spec, Z.shiftl_1_l, Z.pow2_bits_eqb by lia.
  case_bool_decide; lia.
Qed.

(** [setf s f v]: what setting frame [f] to used-ness [v] means. *)
Definition setf (s s' : pmm) (f : Z) (v : bool) : Prop :=
  bitmap_ok s' ∧ pmm_free s' = pmm_free s ∧ pmm_total s' = pmm_total s ∧
  ∀ g, frame_ok g → used s' g = if decide (g = f) then v else used s g.

Lemma pmm_set_used_spec s f : bitmap_ok s → frame_ok f →
  ∃ s', pmm_set_used f s = Some s' ∧ setf s s' f true.
Proof.
  intros Hok Hf. destruct (bitmap_byte s f Hok Hf) as (b & Hb & Hbu).
  destruct (frame_index f Hf) as (Hs & Hl & Hd & Hm). pose proof Hok as [Hlen Hall].
  unfold pmm_set_used. rewrite Hs, Hl, Hb. cbn [mbind option_bind].
  rewrite aset_Some by (rewrite Hlen; lia). simpl. eexists; split; [done|].
  split_and!; try done.
  - split; cbn [pmm_bitmap]; [by rewrite length_insert|]. apply Forall_insert; [done|].
    apply (bits_small_lor 8); [lia|done|apply u8_range].
  - intros g Hg. erewrite used_update; [..|exact Hb|]; try done.
    + case_decide; [|done]. rewrite Z.lor_spec, mask_bit by lia.
      by rewrite bool_decide_eq_true_2, orb_true_r.
    + intros k Hk Hne. rewrite Z.lor_spec, mask_bit by lia.
      by rewrite bool_decide_eq_false_2, orb_false_r.
Qed.

Lemma pmm_set_free_spec s f : bitmap_ok s → frame_ok f →
  ∃ s', pmm_set_free f s = Some s' ∧ setf s s' f false.
Proof.
  intros Hok Hf. destruct (bitmap_byte s f Hok Hf) as (b & Hb & Hbu).
  destruct (frame_index f Hf) as (Hs & Hl & Hd & Hm). pose proof Hok as [Hlen Hall].
  unfold pmm_set_free. rewrite Hs, Hl, Hb. cbn [mbind option_bind].
  rewrite aset_Some by (rewrite Hlen; lia). simpl. eexists; split; [done|].
  split_and!; try done.
  - split; cbn [pmm_bitmap]; [by rewrite length_insert|]. apply Forall_insert; [done|].
    apply (bits_small_land 8); [lia|apply u8_range].
  - intros g Hg. erewrite used_update; [..|exact Hb|]; try done.
    + case_decide; [|done]. rewrite Z.land_spec, nmask_bit by lia.
      rewrite bool_decide_eq_false_2 by tauto. apply andb_false_r.
    + intros k Hk Hne. rewrite Z.land_spec, nmask_bit by lia.
      by rewrite bool_decide_eq_true_2, andb_true_r.
Qed.

(** ** The allocator's invariant and its counters *)

(** The bitmap is well formed, the counter is exact and frames below 1 MB
    (kernel, BIOS) are never free. *)
Definition pmm_wf (s : pmm) : Prop :=
  bitmap_ok s ∧ pmm_free s = nfree s ∧ ∀ f, 0 ≤ f < 256 → used s f = true.

Lemma nfree_set s s' f v : frame_ok f →
  (∀ g, frame_ok g → used s' g = if decide (g = f) then v else used s g) →
  nfree s' = nfree s - Z.b2z (negb (used s f)) + Z.b2z (negb v).
Proof.
  intros Hf Hu. rewrite nfree_eq. unfold nfree_def.
  assert (Z.of_nat (Z.to_nat PMM_TOTAL_FRAMES) = PMM_TOTAL_FRAMES) as HN by (by apply Z2Nat.id).
  rewrite (count_update (λ f, negb (used s f)) (λ f, negb (used s' f)) _ f).
  - rewrite (Hu f Hf), decide_True by done. done.
  - rewrite HN. done.
  - rewrite HN. intros j Hj Hne. rewrite Hu by done. by rewrite decide_False.
Qed.

Lemma nfree_bound s : 0 ≤ nfree s ≤ PMM_TOTAL_FRAMES.
Proof.
  rewrite nfree_eq. unfold nfree_def. pose proof (count_bound (λ f, negb (used s f)) (Z.to_nat PMM_TOTAL_FRAMES)).
  rewrite Z2Nat.id in H by done. done.
Qed.

Lemma nfree_pos s f : frame_ok f → used s f = false → 0 < nfree s.
Proof.
  intros Hf Hu. rewrite nfree_eq. unfold nfree_def. apply (count_pos _ _ f); [by rewrite Z2Nat.id|by rewrite Hu].
Qed.

Lemma nfree_bitmap s s' : pmm_bitmap s = pmm_bitmap s' → nfree s = nfree s'.
Proof. rewrite nfree_eq. intros H. apply count_ext. intros i _. unfold used. by rewrite H. Qed.

Lemma nfree_all_used s : (∀ f, frame_ok f → used s f = true) → nfree s = 0.
Proof. rewrite nfree_eq. intros H. apply count_zero. rewrite Z2Nat.id by done. intros f Hf. by rewrite H. Qed.


Lemma used_dec_free s f : used (dec_free s) f = used s f.
Proof. unfold dec_free. by case_decide. Qed.

Lemma bitmap_ok_dec_free s : bitmap_ok s → bitmap_ok (dec_free s).
Proof. unfold dec_free. by case_decide. Qed.

(** Taking a free frame keeps the counter exact. *)
Lemma dec_free_exact s s' f :
  frame_ok f → used s f = false → setf s s' f true → pmm_free s = nfree s →
  pmm_free (dec_free s') = pmm_free s - 1 ∧ pmm_free (dec_free s') = nfree (dec_free s').
Proof.
  intros Hf Hu (_ & Hfr & _ & Hset) Hn. pose proof (nfree_pos _ _ Hf Hu).
  assert (nfree (dec_free s') = nfree s - 1) as ->.
  { rewrite (nfree_set s _ f true); [rewrite Hu; simpl; lia|done|].
    intros g Hg. rewrite used_dec_free. by apply Hset. }
  unfold dec_free. rewrite Hfr, Hn. rewrite decide_True by lia. simpl. lia.
Qed.

Lemma inc_free_exact s s' f :
  frame_ok f → used s f = true → setf s s' f false → pmm_free s = nfree s →
  pmm_free (inc_free s') = pmm_free s + 1 ∧ pmm_free (inc_free s') = nfree (inc_free s').
Proof.
  intros Hf Hu (_ & Hfr & _ & Hset) Hn.
  assert (nfree (inc_free s') = nfree s + 1) as Heq.
  { rewrite (nfree_set s _ f false); [rewrite Hu; simpl; lia|done|]. intros g Hg. by apply Hset. }
  pose proof (nfree_bound (inc_free s')) as Hb. rewrite Heq in *.
  unfold inc_free. simpl. rewrite Hfr, Hn.
  unfold PMM_TOTAL_FRAMES in Hb. pose proof (nfree_bound s).
  rewrite u32_small by (unfold is_u32; lia). lia.
Qed.

Lemma alloc_scan_spec s f n :
  bitmap_ok s → 0 ≤ f → f + Z.of_nat n = PMM_TOTAL_FRAMES →
  (alloc_scan f n s = Some (0, s) ∧ ∀ g, f ≤ g < PMM_TOTAL_FRAMES → used s g = true) ∨
  (∃ g s1, f ≤ g < PMM_TOTAL_FRAMES ∧ used s g = false ∧
     (∀ j, f ≤ j < g → used s j = true) ∧ setf s s1 g true ∧
     alloc_scan f n s = Some (g * PMM_PAGE_SIZE, dec_free s1)).
Proof.
  intros Hok. revert f. induction n as [|n IH]; intros f Hf Hn; cbn [alloc_scan].
  { left. split; [done|]. intros; lia. }
  assert (frame_ok f) as Hfo by (unfold frame_ok; lia).
  rewrite pmm_is_used_spec by done. cbn [mbind option_bind].
  destruct (used s f) eqn:Hu; simpl.
  - destruct (IH (f + 1)) as [[-> Hall]|(g & s1 & Hg & Hug & Hj & Hs1 & ->)]; [lia..| |].
    + left. split; [done|]. intros g Hg. destruct (decide (g = f)) as [->|]; [done|]. apply Hall. lia.
    + right. exists g, s1. split_and!; try done; try lia.
      intros j Hjr. destruct (decide (j = f)) as [->|]; [done|]. apply Hj. lia.
  - right. destruct (pmm_set_used_spec s f Hok Hfo) as (s1 & -> & Hs1). exists f, s1.
    split_and!; try done; try lia. simpl. unfold PMM_PAGE_SIZE, PMM_TOTAL_FRAMES in *.
    by rewrite u32_small by (unfold is_u32; lia).
Qed.

(** Two well-formed bitmaps with the same used frames are equal. *)
Lemma bitmap_ext s1 s2 :
  bitmap_ok s1 → bitmap_ok s2 → (∀ f, frame_ok f → used s1 f = used s2 f) →
  pmm_bitmap s1 = pmm_bitmap s2.
Proof.
  intros H1 H2 Hu. apply list_eq_same_length with (n := 1024%nat); [apply H2|apply H1|].
  intros i x y Hi Hx Hy.
  assert (aget (pmm_bitmap s1) (Z.of_nat i) = Some x ∧ aget (pmm_bitmap s2) (Z.of_nat i) = Some y) as [Ax Ay]
    by (by rewrite !aget_nat).
  assert (is_u8 x) as Hxu by (destruct H1 as [_ H1]; by eapply Forall_lookup_1).
  assert (is_u8 y) as Hyu by (destruct H2 as [_ H2]; by eapply Forall_lookup_1).
  apply Z.bits_inj_iff. intros k. destruct (decide (0 ≤ k < 8)) as [Hk|Hk].
  - assert (frame_ok (8 * Z.of_nat i + k)) as Hf by (unfold frame_ok, PMM_TOTAL_FRAMES; lia).
    specialize (Hu _ Hf). unfold used in Hu.
    replace ((8 * Z.of_nat i + k) `div` 8) with (Z.of_nat i) in Hu by zdm.
    replace ((8 * Z.of_nat i + k) `mod` 8) with k in Hu by zdm.
    by rewrite Ax, Ay in Hu.
  - destruct (decide (k < 0)); [by rewrite !Z.testbit_neg_r by lia|].
    rewrite <-(Z.mod_small x (2 ^ 8)), <-(Z.mod_small y (2 ^ 8)) by done.
    by rewrite !Z.mod_pow2_bits_high by lia.
Qed.

Lemma pmm_alloc_lemma s :
  pmm_wf s →
  ∃ p s', pmm_alloc_frame s = Some (p, s') ∧ pmm_wf s' ∧
    ((p = 0 ∧ s' = s ∧ nfree s = 0) ∨
     ∃ f s1, p = f * PMM_PAGE_SIZE ∧ 256 ≤ f < PMM_TOTAL_FRAMES ∧ used s f = false ∧
       (∀ g, 0 ≤ g < f → used s g = true) ∧
       s' = dec_free s1 ∧ setf s s1 f true ∧ pmm_free s' = pmm_free s - 1).
Proof.
  intros (Hok & Hn & Hlow). unfold pmm_alloc_frame.
  destruct (alloc_scan_spec s 0 (Z.to_nat PMM_TOTAL_FRAMES) Hok) as
    [[-> Hall]|(g & s1 & Hg & Hug & Hj & Hs1 & ->)]; [lia|by rewrite Z2Nat.id| |].
  - exists 0, s. split; [done|]. split; [done|]. left. split_and!; try done.
    apply nfree_all_used. intros i Hi. by apply Hall.
  - exists (g * PMM_PAGE_SIZE), (dec_free s1). split; [done|].
    assert (frame_ok g) as Hgo by done.
    destruct (dec_free_exact _ _ _ Hgo Hug Hs1 Hn) as [Hd1 Hd2].
    assert (256 ≤ g). { destruct (decide (256 ≤ g)); [done|]. rewrite Hlow in Hug; [done|lia]. }
    split.
    + split_and!; [by apply bitmap_ok_dec_free; apply Hs1|done|].
      intros f Hf. destruct Hs1 as (_ & _ & _ & Hset). rewrite used_dec_free, Hset by (unfold frame_ok, PMM_TOTAL_FRAMES; lia).
      case_decide; [done|]. by apply Hlow.
    + right. exists g, s1. split_and!; try done; lia.
Qed.

(** Returning a frame at or above 1 MB. *)
Lemma pmm_free_lemma s p :
  pmm_wf s → 1048576 ≤ p < 4294967296 →
  ∃ s', pmm_free_frame p s = Some s' ∧ pmm_wf s' ∧
    (if decide (frame_ok (p `div` PMM_PAGE_SIZE) ∧ used s (p `div` PMM_PAGE_SIZE) = true)
     then ∃ s1, s' = inc_free s1 ∧ setf s s1 (p `div` PMM_PAGE_SIZE) false ∧ pmm_free s' = pmm_free s + 1
     else s' = s).
Proof.
  intros (Hok & Hn & Hlow) Hp. unfold pmm_free_frame.
  assert (256 ≤ p `div` PMM_PAGE_SIZE) as Hf by (unfold PMM_PAGE_SIZE; zdm).
  destruct (decide (PMM_TOTAL_FRAMES ≤ p `div` PMM_PAGE_SIZE)) as [Hge|Hlt].
  { exists s. split; [done|]. split; [done|]. rewrite decide_False; [done|]. unfold frame_ok. lia. }
  set (f := p `div` PMM_PAGE_SIZE) in *.
  assert (frame_ok f) as Hfo by (unfold frame_ok; lia).
  rewrite pmm_is_used_spec by done. cbn [mbind option_bind].
  destruct (decide (frame_ok f ∧ used s f = true)) as [[_ Hu]|Hu].
  - rewrite Hu. cbn [Z.b2z]. rewrite decide_True by lia.
    destruct (pmm_set_free_spec s f Hok Hfo) as (s1 & -> & Hs1).
    exists (inc_free s1). split; [done|].
    destruct (inc_free_exact _ _ _ Hfo Hu Hs1 Hn) as [Hi1 Hi2]. split; [|by exists s1].
    destruct Hs1 as (Hok1 & _ & _ & Hset). split_and!; [done|done|].
    intros g Hg. change (used s1 g = true). rewrite Hset by (unfold frame_ok, PMM_TOTAL_FRAMES; lia).
    rewrite decide_False by lia. by apply Hlow.
  - destruct (used s f); [by destruct Hu|]. exists s. done.
Qed.

(** ** Initialisation from the E820 map *)

Definition e820_ok (e : e820_entry) : Prop :=
  is_u64 (e_base e) ∧ is_u64 (e_length e) ∧ is_u64 (e_base e + e_length e).

(** The frames an entry gives to the allocator: those that lie entirely in a
    usable region. *)
Definition covers (e : e820_entry) (f : Z) : Prop :=
  e_type e = E820_TYPE_USABLE ∧ e_base e ≤ f * PMM_PAGE_SIZE ∧
  (f + 1) * PMM_PAGE_SIZE ≤ e_base e + e_length e.

Lemma entry_frames e f :
  e820_ok e → e_base e < PMM_MAX_PHYS → frame_ok f →
  (entry_start_frame e ≤ f < entry_end_frame e ↔
   e_base e ≤ f * PMM_PAGE_SIZE ∧ (f + 1) * PMM_PAGE_SIZE ≤ e_base e + e_length e).
Proof.
  intros (Hb & Hl & Hs) Hm Hf.
  unfold entry_start_frame, entry_end_frame, frame_ok, PMM_MAX_PHYS, PMM_TOTAL_FRAMES,
    PMM_PAGE_SIZE in *.
  rewrite (u64_small (e_base e + e_length e)) by done.
  rewrite (u64_small (e_base e + 4096)), u64_small by word_lia.
  repeat case_decide; rewrite ?u32_small in * by word_lia; zdm.
Qed.

Lemma entry_frames_bounds e :
  e_base e < PMM_MAX_PHYS → is_u64 (e_base e) →
  0 ≤ entry_start_frame e ≤ PMM_TOTAL_FRAMES ∧ 0 ≤ entry_end_frame e ≤ PMM_TOTAL_FRAMES.
Proof.
  unfold entry_start_frame, entry_end_frame, PMM_MAX_PHYS, PMM_TOTAL_FRAMES, PMM_PAGE_SIZE.
  intros Hm Hb. rewrite (u64_small (e_base e + 4096)), u64_small by word_lia.
  split; [word_lia|]. repeat case_decide; unfold u32, u64 in *; zdm.
Qed.

(** A step of initialisation: the used frames become [u]; the counter stays
    exact when [fresh] holds. *)
Definition init_post (s s' : pmm) (u : Z → bool) (fresh : Prop) : Prop :=
  bitmap_ok s' ∧ (∀ g, frame_ok g → used s' g = u g) ∧
  (fresh → pmm_free s = nfree s → pmm_free s' = nfree s').

Lemma release_loop s start stop :
  bitmap_ok s → 0 ≤ start → start ≤ stop ≤ PMM_TOTAL_FRAMES →
  ∃ s', for_u32_opt start stop release_frame s = Some s' ∧
    init_post s s' (λ g, if decide (start ≤ g < stop) then false else used s g)
      (∀ g, start ≤ g < stop → used s g = true).
Proof.
  intros Hok H0 Hr.
  apply (for_u32_opt_inv (λ i s', init_post s s'
    (λ g, if decide (start ≤ g < i) then false else used s g)
    (∀ g, start ≤ g < stop → used s g = true)) _ start stop); [lia| |].
  { split; [done|]. split; [|done]. intros g Hg. by rewrite decide_False by lia. }
  intros i s1 Hi (Hok1 & Hu1 & Hc1).
  assert (frame_ok i) as Hfi by (unfold frame_ok; lia).
  destruct (pmm_set_free_spec s1 i Hok1 Hfi) as (s2 & Hs2 & Hset).
  unfold release_frame. rewrite Hs2. cbn [mbind option_bind]. eexists; split; [done|].
  split; [apply Hset|]. split.
  - intros g Hg. change (used s2 g = if decide (start ≤ g < i + 1) then false else used s g).
    destruct Hset as (_ & _ & _ & Hset). rewrite Hset, Hu1 by done.
    repeat case_decide; try done; lia.
  - intros Hfresh Hn. specialize (Hc1 Hfresh Hn).
    destruct (inc_free_exact s1 s2 i); try done.
    rewrite Hu1 by done. rewrite decide_False by lia. by apply Hfresh.
Qed.

Lemma process_entry_spec e s :
  e820_ok e → bitmap_ok s →
  ∃ s', process_entry e s = Some s' ∧ bitmap_ok s' ∧
    (∀ g, frame_ok g → used s' g = false ↔ used s g = false ∨ covers e g) ∧
    ((∀ g, frame_ok g → covers e g → used s g = true) →
       pmm_free s = nfree s → pmm_free s' = nfree s').
Proof.
  intros He Hok. unfold process_entry, covers.
  destruct (decide (e_type e ≠ E820_TYPE_USABLE)).
  { exists s. split; [done|]. split; [done|]. split; [naive_solver|done]. }
  destruct (decide (PMM_MAX_PHYS ≤ e_base e)).
  { exists s. split; [done|]. split; [done|]. split; [|done].
    intros g Hg. split; [naive_solver|]. intros [?|(_ & ? & _)]; [done|].
    unfold frame_ok, PMM_TOTAL_FRAMES, PMM_MAX_PHYS, PMM_PAGE_SIZE in *. lia. }
  pose proof (entry_frames e) as Hef.
  destruct (entry_frames_bounds e) as [Hs1 Hs2]; [lia|apply He|].
  destruct (decide (entry_start_frame e ≤ entry_end_frame e)) as [Hle|Hgt].
  - destruct (release_loop s (entry_start_frame e) (entry_end_frame e)) as (s' & -> & Hok' & Hu & Hc);
      [done|lia..|].
    cbn [mbind option_bind]. eexists; split; [done|]. split; [done|]. split.
    + intros g Hg. change (used s' g = false ↔ used s g = false ∨ e_type e = E820_TYPE_USABLE ∧ e_base e ≤ g * PMM_PAGE_SIZE ∧ (g + 1) * PMM_PAGE_SIZE ≤ e_base e + e_length e).
      rewrite Hu, <-Hef by (done || lia). case_decide as Hd; [|naive_solver].
      split; [|done]. right. split; [lia|done].
    + intros Hfresh Hn. rewrite (nfree_bitmap _ s') by done. apply Hc; [|done].
      intros g Hg. assert (frame_ok g) as Hgo by (unfold frame_ok; lia).
      apply Hfresh; [done|]. split; [lia|]. apply Hef; [done|lia|done|done].
  - rewrite for_u32_opt_empty by lia. cbn [mbind option_bind].
    eexists; split; [done|]. split; [done|]. split; [|intros; by rewrite (nfree_bitmap _ s)].
    intros g Hg. change (used s g = false ↔ used s g = false ∨ e_type e = E820_TYPE_USABLE ∧ e_base e ≤ g * PMM_PAGE_SIZE ∧ (g + 1) * PMM_PAGE_SIZE ≤ e_base e + e_length e).
    rewrite <-Hef by (done || lia). split; [naive_solver|]. intros [?|(_ & ?)]; [done|lia].
Qed.

Lemma reserve_loop s stop :
  bitmap_ok s → 0 ≤ stop ≤ PMM_TOTAL_FRAMES →
  ∃ s', for_u32_opt 0 stop reserve_frame s = Some s' ∧
    init_post s s' (λ g, if decide (g < stop) then true else used s g) True.
Proof.
  intros Hok Hr.
  apply (for_u32_opt_inv (λ i s', init_post s s'
    (λ g, if decide (g < i) then true else used s g) True) _ 0 stop); [lia| |].
  { split; [done|]. split; [|done]. intros g Hg. unfold frame_ok in Hg. by rewrite decide_False by lia. }
  intros i s1 Hi (Hok1 & Hu1 & Hc1).
  assert (frame_ok i) as Hfi by (unfold frame_ok; lia).
  unfold reserve_frame. rewrite pmm_is_used_spec by done. cbn [mbind option_bind].
  destruct (used s1 i) eqn:Hui; cbn [Z.b2z].
  - rewrite decide_False by lia. exists s1. split; [done|]. split; [done|]. split; [|done].
    intros g Hg. rewrite Hu1 by done. repeat case_decide; try done; try lia.
    assert (g = i) as -> by lia. rewrite Hu1, decide_False in Hui by (done || lia). done.
  - rewrite decide_True by done.
    destruct (pmm_set_used_spec s1 i Hok1 Hfi) as (s2 & -> & Hset). cbn [mbind option_bind].
    eexists; split; [done|]. split; [apply bitmap_ok_dec_free, Hset|]. split.
    + intros g Hg. rewrite used_dec_free. destruct Hset as (_ & _ & _ & Hset).
      rewrite Hset, Hu1 by done. repeat case_decide; try done; lia.
    + intros _ Hn. by destruct (dec_free_exact s1 s2 i Hfi Hui Hset (Hc1 I Hn)).
Qed.

Lemma bitmap_full_ok fr tot : bitmap_ok (Pmm (replicate 1024 255) fr tot).
Proof.
  split; [apply length_replicate|]. cbn [pmm_bitmap]. apply Forall_replicate. unfold is_u8. lia.
Qed.

Lemma used_full fr tot f : frame_ok f → used (Pmm (replicate 1024 255) fr tot) f = true.
Proof.
  intros Hf. destruct (frame_index f Hf) as (_ & _ & Hd & Hm). unfold used, aget. cbn [pmm_bitmap].
  rewrite decide_True by lia. rewrite lookup_replicate_2 by lia. cbn [default].
  change 255 with (Z.ones 8). apply Z.ones_spec_low. lia.
Qed.

Lemma nfree_full fr tot : nfree (Pmm (replicate 1024 255) fr tot) = 0.
Proof.
  apply nfree_all_used. intros f Hf. by apply used_full.
Qed.

(** The usable regions of the first [n] entries do not overlap. *)
Definition e820_disjoint (es : list e820_entry) (n : Z) : Prop :=
  ∀ i j a b, 0 ≤ i < j → j < n → aget es i = Some a → aget es j = Some b →
    ∀ f, covers a f → covers b f → False.

Lemma entries_loop es n s :
  0 ≤ n ≤ Z.of_nat (length es) → Forall e820_ok (take (Z.to_nat n) es) → bitmap_ok s →
  (∀ g, frame_ok g → used s g = true) →
  ∃ s', for_u32_opt 0 n (λ i s, e ← aget es i; process_entry e s) s = Some s' ∧
    bitmap_ok s' ∧
    (∀ g, frame_ok g → used s' g = false ↔ ∃ i e, 0 ≤ i < n ∧ aget es i = Some e ∧ covers e g) ∧
    (e820_disjoint es n → pmm_free s = nfree s → pmm_free s' = nfree s').
Proof.
  intros Hn Hes Hok Hfull.
  apply (for_u32_opt_inv (λ i s', bitmap_ok s' ∧
    (∀ g, frame_ok g → used s' g = false ↔ ∃ k e, 0 ≤ k < i ∧ aget es k = Some e ∧ covers e g) ∧
    (e820_disjoint es n → pmm_free s = nfree s → pmm_free s' = nfree s')) _ 0 n); [lia| |].
  { split; [done|]. split; [|done]. intros g Hg. rewrite Hfull by done. split; [done|].
    intros (k & e & ? & _). lia. }
  intros i s1 Hi (Hok1 & Hu1 & Hc1).
  destruct (aget_is_Some es i) as [e He]; [lia|]. rewrite He. cbn [mbind option_bind].
  assert (e820_ok e) as Hee.
  { unfold aget in He. rewrite decide_True in He by lia. apply (Forall_lookup_1 _ _ (Z.to_nat i) _ Hes).
    by rewrite lookup_take_lt by lia. }
  destruct (process_entry_spec e s1 Hee Hok1) as (s2 & -> & Hok2 & Hu2 & Hc2).
  exists s2. split; [done|]. split; [done|]. split.
  - intros g Hg. rewrite Hu2, Hu1 by done. split.
    + intros [(k & e' & Hk & ? & ?)|?]; [exists k, e'|exists i, e]; split_and!; try done; lia.
    + intros (k & e' & Hk & Hek & Hcov). destruct (decide (k = i)) as [->|].
      * right. by simplify_eq.
      * left. exists k, e'. split_and!; try done; lia.
  - intros Hd Hnn. apply Hc2; [|by apply Hc1].
    intros g Hg Hcov. destruct (used s1 g) eqn:Hug; [done|].
    apply Hu1 in Hug as (k & e' & Hk & Hek & Hcov'); [|done].
    destruct (Hd k i e' e) with (f := g); try done; lia.
Qed.

(** The counter of all frames stays a 32-bit number. *)
Lemma set_free_total f s s' : pmm_set_free f s = Some s' → pmm_total s' = pmm_total s.
Proof. unfold pmm_set_free. intros (b & _ & (bm & _ & [= <-])%bind_Some)%bind_Some. done. Qed.

Lemma release_total f s s' : release_frame f s = Some s' → pmm_total s' = pmm_total s.
Proof. unfold release_frame. intros (s1 & H & [= <-])%bind_Some. simpl. by apply set_free_total in H. Qed.

Lemma reserve_total f s s' : reserve_frame f s = Some s' → pmm_total s' = pmm_total s.
Proof.
  unfold reserve_frame. intros (u & _ & H)%bind_Some. case_decide; [|by injection H as <-].
  apply bind_Some in H as (s1 & H & [= <-]). unfold pmm_set_used in H.
  apply bind_Some in H as (b & _ & (bm & _ & [= <-])%bind_Some). unfold dec_free. by case_decide.
Qed.

Lemma pmm_init_total mmap s : pmm_init mmap = Some s → is_u32 (pmm_total s).
Proof.
  unfold pmm_init. case_decide.
  - intros (s1 & _ & [= <-])%bind_Some. apply u32_range.
  - intros (s1 & H1 & H2)%bind_Some. unfold pmm_reserve_range in H2. rewrite decide_False in H2 by (unfold PMM_MAX_PHYS; lia).
    rewrite (for_u32_opt_keeps pmm_total _ _ _ _ _ reserve_total H2).
    refine (for_u32_opt_pres (λ s, is_u32 (pmm_total s)) _ _ _ _ _ _ H1 _); [|by vm_compute].
    intros i a b (e & _ & He)%bind_Some Ha. unfold process_entry in He.
    case_decide; [by injection He as <-|]. case_decide; [by injection He as <-|].
    apply bind_Some in He as (c & _ & [= <-]). apply u32_range.
Qed.

Lemma pmm_init_lemma mmap :
  0 < mm_count mmap ≤ 32 → length (mm_entries mmap) = 32%nat →
  Forall e820_ok (take (Z.to_nat (mm_count mmap)) (mm_entries mmap)) →
  ∃ s, pmm_init mmap = Some s ∧ bitmap_ok s ∧
    (∀ f, frame_ok f → used s f = false ↔
       256 ≤ f ∧ ∃ i e, 0 ≤ i < mm_count mmap ∧ aget (mm_entries mmap) i = Some e ∧ covers e f) ∧
    (e820_disjoint (mm_entries mmap) (mm_count mmap) → pmm_wf s).
Proof.
  intros Hn Hl Hes. unfold pmm_init. rewrite decide_False by lia.
  destruct (entries_loop (mm_entries mmap) (mm_count mmap) (Pmm (replicate 1024 255) 0 0))
    as (s1 & -> & Hok1 & Hu1 & Hc1); [lia|done|apply bitmap_full_ok|intros; by apply used_full|].
  cbn [mbind option_bind].
  change (pmm_reserve_range 0 1048576 s1) with (for_u32_opt 0 256 reserve_frame s1).
  destruct (reserve_loop s1 256) as (s2 & -> & Hok2 & Hu2 & Hc2); [done|unfold PMM_TOTAL_FRAMES; lia|].
  exists s2. split; [done|]. split; [done|]. split.
  - intros f Hf. rewrite Hu2 by done. case_decide.
    + split; [done|]. lia.
    + rewrite Hu1 by done. split; [|naive_solver]. intros ?. split; [lia|done].
  - intros Hd. split_and!; [done| |].
    + apply Hc2; [done|]. apply Hc1; [done|]. by rewrite nfree_full.
    + intros f Hf. rewrite Hu2 by (unfold frame_ok, PMM_TOTAL_FRAMES; lia). by rewrite decide_True by lia.
Qed.

(** [pmm_init] on any E820 map of at most 32 entries whose regions do not
    wrap around 2^64: a frame is free afterwards exactly when it is at or
    above 1 MB and lies entirely inside a usable entry; when the usable
    regions do not overlap the free counter is exact, and the allocator
    invariant holds. *)
Theorem pmm_init_spec mmap :
  0 < mm_count mmap ≤ 32 → length (mm_entries mmap) = 32%nat →
  Forall e820_ok (take (Z.to_nat (mm_count mmap)) (mm_entries mmap)) →
  ∃ s, pmm_init mmap = Some s ∧ bitmap_ok s ∧
    (∀ f, frame_ok f → used s f = false ↔
       256 ≤ f ∧ ∃ i e, 0 ≤ i < mm_count mmap ∧ aget (mm_entries mmap) i = Some e ∧ covers e f) ∧
    (e820_disjoint (mm_entries mmap) (mm_count mmap) → pmm_wf s).
Proof. apply pmm_init_lemma. Qed.

(** A map such as QEMU gives for 32 MB: low memory, a hole, and the rest. *)
Definition demo_mmap : boot_mmap :=
  BootMmap 3 ([E820 0 654336 1; E820 983040 65536 2; E820 1048576 32505856 1]
              ++ replicate 29 (E820 0 0 0)).

Lemma pmm_init_spec_witness :
  ∃ s, pmm_init demo_mmap = Some s ∧ bitmap_ok s.
Proof.
  destruct (pmm_init_spec demo_mmap) as (s & Hs & Hok & _).
  - simpl. lia.
  - reflexivity.
  - apply Forall_take. repeat constructor; unfold e820_ok, is_u64; simpl; lia.
  - exists s. split; [exact Hs|exact Hok].
Defined.

Lemma fixed_layout_loop stop :
  256 ≤ stop ≤ PMM_TOTAL_FRAMES →
  ∃ s, for_u32_opt 256 stop (λ f s, s' ← release_frame f s; Some (add_total 1 s'))
         (Pmm (replicate 1024 255) 0 0) = Some s ∧
    bitmap_ok s ∧ pmm_free s = nfree s ∧ pmm_free s = stop - 256 ∧ pmm_total s = stop - 256 ∧
    ∀ g, frame_ok g → used s g = bool_decide (¬ (256 ≤ g < stop)).
Proof.
  intros Hstop.
  apply (for_u32_opt_inv (λ i s, bitmap_ok s ∧ pmm_free s = nfree s ∧ pmm_free s = i - 256 ∧
    pmm_total s = i - 256 ∧ ∀ g, frame_ok g → used s g = bool_decide (¬ (256 ≤ g < i))) _ 256 stop); [lia| |].
  { split; [apply bitmap_full_ok|]. rewrite nfree_full. split_and!; [done..|].
    intros g Hg. rewrite used_full by done. by rewrite bool_decide_eq_true_2 by lia. }
  intros i s Hi (Hok & Hn & Hfr & Htot & Hu).
  assert (frame_ok i) as Hfi by (unfold frame_ok; lia).
  destruct (pmm_set_free_spec s i Hok Hfi) as (s2 & Hs2 & Hset).
  assert (used s i = true) as Hui by (rewrite Hu by done; apply bool_decide_eq_true_2; lia).
  destruct (inc_free_exact s s2 i Hfi Hui Hset Hn) as [Hi1 Hi2].
  unfold release_frame. rewrite Hs2. cbn [mbind option_bind]. eexists; split; [done|].
  destruct Hset as (Hok2 & _ & Ht2 & Hset). split; [done|]. split.
  { rewrite (nfree_bitmap _ (inc_free s2)) by done. done. }
  split; [cbn [add_total pmm_free] in *; lia|]. split.
  { cbn [add_total inc_free pmm_total]. rewrite Ht2, Htot. unfold PMM_TOTAL_FRAMES in *.
    rewrite u32_small by (unfold is_u32; lia). lia. }
  intros g Hg. change (used s2 g = bool_decide (¬ (256 ≤ g < i + 1))).
  rewrite Hset, Hu by done. repeat case_decide; repeat case_bool_decide; try done; lia.
Qed.

Lemma pmm_init_fixed es :
  ∃ s, pmm_init (BootMmap 0 es) = Some s ∧ pmm_wf s ∧ pmm_free s = 7936 ∧ pmm_total s = 8192 ∧
    ∀ f, frame_ok f → used s f = bool_decide (f < 256).
Proof.
  unfold pmm_init. cbn [mm_count]. rewrite decide_True by done.
  destruct (fixed_layout_loop PMM_TOTAL_FRAMES) as (s & -> & Hok & Hn & Hfr & Htot & Hu);
    [unfold PMM_TOTAL_FRAMES; lia|].
  cbn [mbind option_bind]. eexists; split; [done|].
  assert (∀ f, frame_ok f → used (add_total 256 s) f = bool_decide (f < 256)) as Hu'.
  { intros f Hf. change (used s f = bool_decide (f < 256)). rewrite Hu by done.
    unfold frame_ok in Hf. repeat case_bool_decide; try done; lia. }
  split; [split; [done|split]|split; [done|split; [|done]]].
  - by rewrite (nfree_bitmap _ s).
  - intros f Hf. rewrite Hu' by (unfold frame_ok, PMM_TOTAL_FRAMES; lia).
    apply bool_decide_eq_true_2. lia.
  - cbn [add_total pmm_total]. rewrite Htot. done.
Qed.

(** Without an E820 map, [pmm_init] makes exactly the frames from 1 MB to
    32 MB free; its counters are 7936 free frames of 8192. *)
Theorem pmm_init_fixed_layout es :
  ∃ s, pmm_init (BootMmap 0 es) = Some s ∧ pmm_wf s ∧
    pmm_free_frames s = 7936 ∧ pmm_total_frames s = 8192 ∧
    ∀ f, frame_ok f → used s f = bool_decide (f < 256).
Proof. apply pmm_init_fixed. Qed.

(** C27: [pmm_alloc_frame] keeps the invariant; it returns 0 exactly when no
    frame is free, and otherwise the lowest free frame, which is at or above
    1 MB, becomes used, while no other frame changes. *)
Theorem pmm_alloc_frame_spec s :
  pmm_wf s →
  ∃ p s', pmm_alloc_frame s = Some (p, s') ∧ pmm_wf s' ∧
    ((p = 0 ∧ s' = s ∧ pmm_free_frames s = 0) ∨
     ∃ f, p = f * PMM_PAGE_SIZE ∧ 256 ≤ f < PMM_TOTAL_FRAMES ∧ used s f = false ∧
       (∀ g, 0 ≤ g < f → used s g = true) ∧
       (∀ g, frame_ok g → used s' g = if decide (g = f) then true else used s g) ∧
       pmm_free_frames s' = pmm_free_frames s - 1).
Proof.
  intros Hwf. destruct (pmm_alloc_lemma s Hwf) as
    (p & s' & Ha & Hwf' & [(-> & -> & Hn)|(f & s1 & -> & Hf & Hu & Hj & -> & Hset & Hfr)]).
  - exists 0, s. split; [done|]. split; [done|]. left. split_and!; try done.
    unfold pmm_free_frames. by rewrite (proj1 (proj2 Hwf)).
  - exists (f * PMM_PAGE_SIZE), (dec_free s1). split; [done|]. split; [done|]. right.
    exists f. split_and!; try done; try lia.
    intros g Hg. rewrite used_dec_free. by apply Hset.
Qed.

Definition demo_pmm : pmm := default (Pmm [] 0 0) (pmm_init (BootMmap 0 [])).

Lemma demo_pmm_wf : pmm_wf demo_pmm.
Proof.
  unfold demo_pmm. destruct (pmm_init_fixed []) as (s & -> & Hwf & _). exact Hwf.
Defined.

Lemma pmm_alloc_frame_spec_witness :
  pmm_wf demo_pmm ∧ ∃ p s', pmm_alloc_frame demo_pmm = Some (p, s').
Proof.
  split; [exact demo_pmm_wf|].
  destruct (pmm_alloc_frame_spec demo_pmm demo_pmm_wf) as (p & s' & H & _).
  exists p, s'. exact H.
Defined.

(** [pmm_free_frame] of a frame at or above 1 MB keeps the invariant; a
    used frame becomes free and is counted, while an address outside the
    tracked 32 MB or a frame that is already free is ignored. *)
Theorem pmm_free_frame_spec s p :
  pmm_wf s → 1048576 ≤ p < 4294967296 →
  ∃ s', pmm_free_frame p s = Some s' ∧ pmm_wf s' ∧
    let f := p `div` PMM_PAGE_SIZE in
    (PMM_TOTAL_FRAMES ≤ f ∨ used s f = false → s' = s) ∧
    (f < PMM_TOTAL_FRAMES → used s f = true →
       pmm_free_frames s' = pmm_free_frames s + 1 ∧
       ∀ g, frame_ok g → used s' g = if decide (g = f) then false else used s g).
Proof.
  intros Hwf Hp. destruct (pmm_free_lemma s p Hwf Hp) as (s' & Hf & Hwf' & Hcase).
  exists s'. split; [done|]. split; [done|]. cbv zeta.
  set (f := p `div` PMM_PAGE_SIZE) in *.
  assert (0 ≤ f) by (unfold f, PMM_PAGE_SIZE; zdm).
  destruct (decide (frame_ok f ∧ used s f = true)) as [[Hfo Hu]|Hno].
  - destruct Hcase as (s1 & -> & Hset & Hfr). unfold frame_ok in Hfo. split.
    + intros [?|?]; [lia|congruence].
    + intros _ _. split; [done|]. intros g Hg. by apply Hset.
  - subst s'. split; [done|]. intros ? ?. destruct Hno. unfold frame_ok. split; [lia|done].
Qed.

Lemma pmm_free_frame_spec_witness :
  pmm_wf demo_pmm ∧ ∃ s', pmm_free_frame 1048576 demo_pmm = Some s'.
Proof.
  split; [exact demo_pmm_wf|].
  destruct (pmm_free_frame_spec demo_pmm 1048576 demo_pmm_wf) as (s' & H & _); [lia|].
  exists s'. exact H.
Defined.

(** Freeing the frame just allocated restores the allocator exactly,
    bitmap and counters. *)
Theorem pmm_alloc_free_roundtrip s p s' :
  pmm_wf s → pmm_alloc_frame s = Some (p, s') → p ≠ 0 → pmm_free_frame p s' = Some s.
Proof.
  intros Hwf Ha Hp. destruct (pmm_alloc_lemma s Hwf) as
    (p1 & s2 & Ha' & Hwf' & [(? & ? & ?)|(f & s1 & Hpf & Hf & Hu & _ & Hs2 & Hset & Hfr)]);
    simplify_eq.
  unfold PMM_TOTAL_FRAMES, PMM_PAGE_SIZE in *.
  destruct (pmm_free_lemma (dec_free s1) (f * 4096) Hwf') as (s3 & Hfree & Hwf3 & Hcase); [lia|].
  rewrite Hfree. unfold PMM_PAGE_SIZE in *. rewrite Z.div_mul in Hcase by lia.
  destruct Hset as (_ & _ & Htot & Hset).
  assert (frame_ok f) as Hfo by (unfold frame_ok, PMM_TOTAL_FRAMES; lia).
  rewrite decide_True in Hcase.
  2: { split; [done|]. rewrite used_dec_free, Hset by done. by rewrite decide_True. }
  destruct Hcase as (s4 & -> & (Hok4 & _ & Htot4 & Hset4) & Hfr4).
  assert (pmm_bitmap s4 = pmm_bitmap s) as Hbm.
  { apply bitmap_ext; [done|apply Hwf|]. intros g Hg. rewrite Hset4, used_dec_free, Hset by done.
    repeat case_decide; subst; done. }
  assert (pmm_total (inc_free s4) = pmm_total s) as Ht.
  { cbn [inc_free pmm_total]. rewrite Htot4, <-Htot. unfold dec_free. by case_decide. }
  assert (pmm_free (inc_free s4) = pmm_free s) as Hfr' by lia.
  f_equal. destruct s as [bm fr tot], (inc_free s4) as [bm' fr' tot'] eqn:He.
  cbn in *. assert (bm' = pmm_bitmap s4) by (by injection He). congruence.
Qed.

Lemma pmm_alloc_free_roundtrip_witness :
  ∃ p s', pmm_alloc_frame demo_pmm = Some (p, s') ∧ pmm_free_frame p s' = Some demo_pmm.
Proof.
  assert (fst <$> pmm_alloc_frame demo_pmm = Some 1048576) as Hp by (vm_compute; reflexivity).
  destruct (pmm_alloc_frame demo_pmm) as [[p s']|] eqn:Ha; [|discriminate Hp].
  exists p, s'. split; [reflexivity|].
  apply (pmm_alloc_free_roundtrip demo_pmm p s' demo_pmm_wf Ha).
  intros ->. discriminate Hp.
Defined.

(** A usable E820 entry that contains no whole page, such as one strictly
    inside a page, makes [pmm_total] wrap around below zero although no frame
    becomes free. *)
Theorem pmm_total_underflow base len s :
  0 < base `mod` PMM_PAGE_SIZE → 0 < len → base `mod` PMM_PAGE_SIZE + len < PMM_PAGE_SIZE →
  0 ≤ base → base + PMM_PAGE_SIZE ≤ PMM_MAX_PHYS → pmm_total s = 0 →
  ∃ s', process_entry (E820 base len E820_TYPE_USABLE) s = Some s' ∧
    pmm_total_frames s' = 4294967295 ∧ pmm_bitmap s' = pmm_bitmap s.
Proof.
  unfold PMM_PAGE_SIZE, PMM_MAX_PHYS. intros Hm Hl Hp Hb Hb' Ht.
  unfold process_entry. cbn [e_type e_base]. rewrite decide_False by tauto.
  rewrite decide_False by (unfold PMM_MAX_PHYS; lia).
  assert (entry_start_frame (E820 base len E820_TYPE_USABLE) = base `div` 4096 + 1) as ->.
  { unfold entry_start_frame, PMM_PAGE_SIZE. cbn [e_base].
    rewrite (u64_small (base + 4096)), u64_small by word_lia. rewrite u32_small by word_lia. zdm. }
  assert (entry_end_frame (E820 base len E820_TYPE_USABLE) = base `div` 4096) as ->.
  { unfold entry_end_frame, PMM_PAGE_SIZE, PMM_MAX_PHYS, PMM_TOTAL_FRAMES. cbn [e_base e_length].
    rewrite (u64_small (base + len)) by word_lia.
    rewrite (decide_False (P := 33554432 < base + len)) by zdm.
    rewrite u32_small by word_lia. rewrite decide_False by zdm. zdm. }
  rewrite for_u32_opt_empty by lia. cbn [mbind option_bind]. eexists; split; [done|].
  unfold pmm_total_frames, add_total. cbn [pmm_total pmm_bitmap]. rewrite Ht. split; [|done].
  replace (base `div` 4096 - (base `div` 4096 + 1)) with (-1) by lia. done.
Qed.

Lemma pmm_total_underflow_witness :
  ∃ s', process_entry (E820 4097 16 E820_TYPE_USABLE) (Pmm (replicate 1024 255) 0 0) = Some s' ∧
    pmm_total_frames s' = 4294967295.
Proof.
  destruct (pmm_total_underflow 4097 16 (Pmm (replicate 1024 255) 0 0)) as (s' & H & Ht & _);
    [unfold PMM_PAGE_SIZE, PMM_MAX_PHYS; simpl; try lia; reflexivity ..|].
  exists s'. split; [exact H|exact Ht].
Defined.

(** ** The interface to paging *)

(** What paging relies on: allocation gives an available, page-aligned frame
    at or above 1 MB and below 32 MB, or 0 without effect; release makes a
    frame available again. *)
Class FrameAllocator (A : Type) := {
  fa_alloc : A → option (Z * A);
  fa_release : Z → A → option A;
  fa_inv : A → Prop;
  fa_avail : A → Z → Prop;
  fa_alloc_spec a :
    fa_inv a → ∃ p a', fa_alloc a = Some (p, a') ∧ fa_inv a' ∧
      ((p = 0 ∧ a' = a ∧ ∀ q, ¬ fa_avail a q) ∨
       (fa_avail a p ∧ p `mod` 4096 = 0 ∧ 1048576 ≤ p < 33554432 ∧
        ∀ q, fa_avail a' q ↔ fa_avail a q ∧ q ≠ p));
  fa_release_spec a p :
    fa_inv a → p `mod` 4096 = 0 → 1048576 ≤ p < 33554432 →
    ∃ a', fa_release p a = Some a' ∧ fa_inv a' ∧
      ∀ q, fa_avail a' q ↔ fa_avail a q ∨ q = p;
  fa_avail_range a p :
    fa_inv a → fa_avail a p → p `mod` 4096 = 0 ∧ 1048576 ≤ p < 33554432
}.

Definition pmm_avail (s : pmm) (p : Z) : Prop :=
  p `mod` 4096 = 0 ∧ 0 ≤ p < 33554432 ∧ used s (p `div` 4096) = false.

Lemma pmm_alloc_interface s :
  pmm_wf s → ∃ p s', pmm_alloc_frame s = Some (p, s') ∧ pmm_wf s' ∧
    ((p = 0 ∧ s' = s ∧ ∀ q, ¬ pmm_avail s q) ∨
     (pmm_avail s p ∧ p `mod` 4096 = 0 ∧ 1048576 ≤ p < 33554432 ∧
      ∀ q, pmm_avail s' q ↔ pmm_avail s q ∧ q ≠ p)).
Proof.
  intros Hwf. destruct (pmm_alloc_lemma s Hwf) as
    (p & s' & Ha & Hwf' & [(-> & -> & Hn)|(f & s1 & -> & Hf & Hu & Hj & -> & Hset & Hfr)]).
  - exists 0, s. split; [done|]. split; [done|]. left. split; [done|]. split; [done|].
    intros q (Hq & Hr & Hu). assert (frame_ok (q `div` 4096)) as Hfo
      by (unfold frame_ok, PMM_TOTAL_FRAMES; zdm).
    pose proof (nfree_pos _ _ Hfo Hu). lia.
  - exists (f * PMM_PAGE_SIZE), (dec_free s1). split; [done|]. split; [done|]. right.
    unfold PMM_PAGE_SIZE, PMM_TOTAL_FRAMES, pmm_avail in *.
    rewrite Z.mod_mul, Z.div_mul by lia. split_and!; try done; try lia.
    intros q. rewrite used_dec_free.
    split; intros H; (assert (frame_ok (q `div` 4096)) as Hq
      by (unfold frame_ok, PMM_TOTAL_FRAMES; zdm)); destruct Hset as (_ & _ & _ & Hset).
    + destruct H as (H1 & H2 & H3). rewrite Hset in H3 by done.
      case_decide as Hd; [done|]. split; [done|]. intros ->. rewrite Z.div_mul in Hd by lia. done.
    + destruct H as ((H1 & H2 & H3) & H4). split_and!; try done; try lia.
      rewrite Hset by done. rewrite decide_False; [done|]. intros Heq. apply H4. zdm.
Qed.

Lemma pmm_release_interface s p :
  pmm_wf s → p `mod` 4096 = 0 → 1048576 ≤ p < 33554432 →
  ∃ s', pmm_free_frame p s = Some s' ∧ pmm_wf s' ∧ ∀ q, pmm_avail s' q ↔ pmm_avail s q ∨ q = p.
Proof.
  intros Hwf Hm Hp. destruct (pmm_free_lemma s p Hwf) as (s' & Hf & Hwf' & Hcase); [lia|].
  exists s'. split; [done|]. split; [done|]. unfold PMM_PAGE_SIZE, pmm_avail in *.
  assert (frame_ok (p `div` 4096)) as Hfo by (unfold frame_ok, PMM_TOTAL_FRAMES; zdm).
  intros q. case_decide as Hd.
  - destruct Hcase as (s1 & -> & (_ & _ & _ & Hset) & _).
    change (used (inc_free s1)) with (used s1). split.
    + intros (H1 & H2 & H3). rewrite Hset in H3 by (unfold frame_ok, PMM_TOTAL_FRAMES; zdm).
      case_decide as Hq; [right; zdm|by left].
    + intros [(H1 & H2 & H3)| ->]; split_and!; try done; try lia;
        rewrite Hset by (unfold frame_ok, PMM_TOTAL_FRAMES; zdm); by case_decide.
  - subst. split; [by left|]. intros [?|Heq]; [done|]. subst. split_and!; try done; try lia.
    destruct (used s (p `div` 4096)); [by destruct Hd|done].
Qed.

Lemma pmm_avail_range s p :
  pmm_wf s → pmm_avail s p → p `mod` 4096 = 0 ∧ 1048576 ≤ p < 33554432.
Proof.
  intros (_ & _ & Hlow) (Hm & Hp & Hu). split; [done|]. split; [|lia].
  destruct (decide (1048576 ≤ p)); [done|]. rewrite Hlow in Hu by zdm. done.
Qed.

#[export] Instance pmm_frame_allocator : FrameAllocator pmm := {
  fa_alloc := pmm_alloc_frame;
  fa_release := pmm_free_frame;
  fa_inv := pmm_wf;
  fa_avail := pmm_avail;
  fa_alloc_spec := pmm_alloc_interface;
  fa_release_spec := pmm_release_interface;
  fa_avail_range := pmm_avail_range
}.

(** A memory map with a single usable region, page-aligned and above 1 MB. *)
Definition one_region (base len : Z) : boot_mmap :=
  BootMmap 1 (E820 base len 1 :: replicate 31 (E820 0 0 0)).

Lemma one_region_pmm base len :
  1048576 ≤ base → base `mod` 4096 = 0 → len `mod` 4096 = 0 → 0 ≤ len → base + len ≤ 33554432 →
  ∃ s, pmm_init (one_region base len) = Some s ∧ pmm_wf s ∧
    ∀ q, pmm_avail s q ↔ q `mod` 4096 = 0 ∧ base ≤ q < base + len.
Proof.
  intros Hb Hba Hla Hl Hm. destruct (pmm_init_lemma (one_region base len)) as (s & E & _ & Hu & Hwf).
  - simpl. lia.
  - reflexivity.
  - repeat constructor; unfold e820_ok, is_u64; simpl; lia.
  - exists s. split; [done|]. clear E. split.
    { apply Hwf. intros i j a b Hi Hj. simpl in Hj. lia. }
    clear Hwf. intros q. unfold pmm_avail. split.
    + intros (Hal & Hr & Hq). apply Hu in Hq as (_ & i & e & Hi & He & Hc);
        [|unfold frame_ok, PMM_TOTAL_FRAMES; zdm].
      simpl in Hi. assert (i = 0) as -> by lia. injection He as <-.
      destruct Hc as (_ & Hc1 & Hc2). unfold PMM_PAGE_SIZE in *. simpl in *. clear Hu. zdm.
    + intros [Hal Hr]. split; [done|]. split; [lia|].
      apply Hu; [clear Hu; unfold frame_ok, PMM_TOTAL_FRAMES; zdm|]. clear Hu.
      split; [zdm|]. exists 0, (E820 base len 1). split; [simpl; lia|]. split; [reflexivity|].
      unfold covers, PMM_PAGE_SIZE. simpl. split; [reflexivity|]. zdm.
Qed.

(** A machine with 8 MB of memory, and one whose frames below 8 MB are all in
    use. *)
Definition small_pmm : pmm := default (Pmm [] 0 0) (pmm_init (one_region 1048576 7340032)).
Definition high_pmm : pmm := default (Pmm [] 0 0) (pmm_init (one_region 8388608 25165824)).

Lemma small_pmm_wf : pmm_wf small_pmm ∧ ∀ q, pmm_avail small_pmm q → q < 8388608.
Proof.
  destruct (one_region_pmm 1048576 7340032) as (s & E & Hwf & Ha); [lia|done|done|lia|lia|].
  unfold small_pmm. rewrite E. split; [exact Hwf|]. intros q [_ Hq]%Ha. lia.
Qed.

Lemma high_pmm_wf :
  pmm_wf high_pmm ∧ (∀ q, pmm_avail high_pmm q → 8388608 ≤ q) ∧ pmm_avail high_pmm 8388608.
Proof.
  destruct (one_region_pmm 8388608 25165824) as (s & E & Hwf & Ha); [lia|done|done|lia|lia|].
  unfold high_pmm. rewrite E. split; [exact Hwf|]. split.
  - intros q [_ Hq]%Ha. lia.
  - apply Ha. split; [reflexivity|lia].
Qed.
