(* ===== verification/Paging.v ===== *)
(** * Paging ([src/kernel/paging.c], [paging.h])

    Page directories and page tables are 1024-entry arrays of [uint32_t] in
    the byte memory, reached by physical address: the kernel dereferences the
    physical address of a directory or table, which works for the identity-mapped
    first 8 MB only.  [touch] is that condition; an access to a frame above it
    page-faults, which halts the kernel, and is [None] here.  The frame allocator
    is any [FrameAllocator]; the kernel uses the bitmap allocator of [Pmm.v],
    which hands out frames up to 32 MB.

    [mmu_walk] is the two-level translation that the i386 performs; it is the
    meaning against which the operations are specified.  The
    translation buffer of the processor is added in [Tlb]. *)

From S2P Require Import Prelude Mem Pmm.

Definition PT_ENTRIES : Z := 1024.
Definition PD_ENTRIES : Z := 1024.
Definition PAGE_SIZE : Z := 4096.
Definition PAGE_PRESENT : Z := 1.
Definition PAGE_WRITABLE : Z := 2.
Definition PAGE_USER : Z := 4.

(** The machine state that paging touches: memory, frame allocator, and the
    control registers. *)
Record vm (A : Type) := Vm { v_mem : mem; v_fa : A; v_cr3 : Z; v_cr0 : Z }.
Arguments Vm {A} _ _ _ _.
Arguments v_mem {A} _.
Arguments v_fa {A} _.
Arguments v_cr3 {A} _.
Arguments v_cr0 {A} _.

(** Entry [i] of the directory or table at address [a]. *)
Definition ent (m : mem) (a i : Z) : Z := load32 m (a + 4 * i).
Definition set_ent (m : mem) (a i v : Z) : mem := store32 m (a + 4 * i) v.

Definition pd_index (virt : Z) : Z := Z.shiftr virt 22.
Definition pt_index (virt : Z) : Z := Z.land (Z.shiftr virt 12) 1023.

(** ** Hardware translation *)

(** The page-table entry that the i386 uses for [virt] under directory [pd]. *)
Definition mmu_pte (m : mem) (pd virt : Z) : option Z :=
  let pde := ent m pd (pd_index virt) in
  if decide (Z.land pde PAGE_PRESENT = 0) then None
  else
    let pte := ent m (Z.land pde (not32 4095)) (pt_index virt) in
    if decide (Z.land pte PAGE_PRESENT = 0) then None else Some pte.

(** The physical address of [virt], [None] for a page fault. *)
Definition mmu_walk (m : mem) (pd virt : Z) : option Z :=
  pte ← mmu_pte m pd virt; Some (Z.land pte (not32 4095) + virt `mod` 4096).

(** ** Operations *)

Section paging.
(** The addresses the linker gives to [page_directory] and [page_tables]. *)
Context (page_directory page_tables : Z).
Context {A : Type} `{!FrameAllocator A}.

(** Entry [i] of page table [t] of the identity map. *)
Definition init_pte (t i : Z) : Z :=
  Z.lor (Z.lor (u32 (t * 4194304 + i * PAGE_SIZE)) PAGE_PRESENT) PAGE_WRITABLE.

Definition init_table (t : Z) (m : mem) : mem :=
  let m := for_u32 0 PT_ENTRIES (λ i m, set_ent m (page_tables + t * 4096) i (init_pte t i)) m in
  set_ent m page_directory t
    (Z.lor (Z.lor (page_tables + t * 4096) PAGE_PRESENT) PAGE_WRITABLE).

Definition paging_init (v : vm A) : vm A :=
  let m := mem_set (v_mem v) page_directory 0 (Z.to_nat 4096) in
  let m := for_u32 0 2 init_table m in
  Vm m (v_fa v) page_directory (Z.lor (v_cr0 v) 2147483648).

Definition paging_map_page (virt phys flags : Z) (v : vm A) : vm A :=
  let m := v_mem v in
  let pde := ent m page_directory (pd_index virt) in
  if decide (Z.land pde PAGE_PRESENT = 0) then v
  else
    let pt := Z.land pde (not32 4095) in
    let pte := Z.lor (Z.lor (Z.land phys (not32 4095)) PAGE_PRESENT) (Z.land flags 4094) in
    Vm (set_ent m pt (pt_index virt) pte) (v_fa v) (v_cr3 v) (v_cr0 v).

Definition paging_switch (pd_phys : Z) (v : vm A) : vm A :=
  Vm (v_mem v) (v_fa v) pd_phys (v_cr0 v).
Definition paging_get_cr3 (v : vm A) : Z := v_cr3 v.
Definition paging_get_kernel_pd_phys : Z := page_directory.

(** [uint32_t p = pmm_alloc_frame();] *)
Definition vm_alloc (v : vm A) : option (Z * vm A) :=
  '(p, a) ← fa_alloc (v_fa v); Some (p, Vm (v_mem v) a (v_cr3 v) (v_cr0 v)).
Definition vm_release (p : Z) (v : vm A) : option (vm A) :=
  a ← fa_release p (v_fa v); Some (Vm (v_mem v) a (v_cr3 v) (v_cr0 v)).
Definition vm_with_mem (v : vm A) (m : mem) : vm A := Vm m (v_fa v) (v_cr3 v) (v_cr0 v).

(** An access to the page at [p] through the identity map. *)
Definition touch (p : Z) : option unit :=
  if decide (0 ≤ p ∧ p + PAGE_SIZE ≤ 8388608) then Some () else None.

Definition paging_create_pd (v : vm A) : option (Z * vm A) :=
  '(pd_phys, v) ← vm_alloc v;
  if decide (pd_phys = 0) then Some (0, v)
  else
    _ ← touch pd_phys;
    let m := mem_set (v_mem v) pd_phys 0 (Z.to_nat PAGE_SIZE) in
    let m := set_ent m pd_phys 0 (ent m page_directory 0) in
    let m := set_ent m pd_phys 1 (ent m page_directory 1) in
    Some (pd_phys, vm_with_mem v m).

(** The part of an iteration of [paging_alloc_user_pages] that makes sure the
    page table of [pdi] exists; [false] when no frame is left. *)
Definition ensure_table (pd pdi : Z) (v : vm A) : option (bool * vm A) :=
  _ ← touch pd;
  if decide (Z.land (ent (v_mem v) pd pdi) PAGE_PRESENT = 0) then
    '(pt_phys, v) ← vm_alloc v;
    if decide (pt_phys = 0) then Some (false, v)
    else
      _ ← touch pt_phys;
      let m := mem_set (v_mem v) pt_phys 0 (Z.to_nat PAGE_SIZE) in
      let m := set_ent m pd pdi
                 (Z.lor (Z.lor (Z.lor pt_phys PAGE_PRESENT) PAGE_WRITABLE) PAGE_USER) in
      Some (true, vm_with_mem v m)
  else Some (true, v).

(** One iteration: map [virt] to a new frame. *)
Definition alloc_user_page (pd virt : Z) (v : vm A) : option (bool * vm A) :=
  let pdi := pd_index virt in
  let pti := pt_index virt in
  '(ok, v) ← ensure_table pd pdi v;
  if ok : bool then
    '(frame_phys, v) ← vm_alloc v;
    if decide (frame_phys = 0) then Some (false, v)
    else
      let pt := Z.land (ent (v_mem v) pd pdi) (not32 4095) in
      _ ← touch pt;
      let m := set_ent (v_mem v) pt pti
                 (Z.lor (Z.lor (Z.lor frame_phys PAGE_PRESENT) PAGE_WRITABLE) PAGE_USER) in
      Some (true, vm_with_mem v m)
  else Some (false, v).

Fixpoint alloc_pages_loop (pd virt_base i : Z) (n : nat) (v : vm A) : option (Z * vm A) :=
  match n with
  | O => Some (0, v)
  | S n' =>
      '(ok, v) ← alloc_user_page pd (u32 (virt_base + i * PAGE_SIZE)) v;
      if ok : bool then alloc_pages_loop pd virt_base (i + 1) n' v else Some (-1, v)
  end.

(** [paging_alloc_user_pages]: 0 on success, -1 when frames run out. *)
Definition paging_alloc_user_pages (pd_phys virt_base n_pages : Z) (v : vm A) : option (Z * vm A) :=
  alloc_pages_loop pd_phys virt_base 0 (Z.to_nat n_pages) v.

(** Release the frames mapped by the page table [pt]. *)
Definition release_table_frames (pt : Z) (v : vm A) : option (vm A) :=
  _ ← touch pt;
  for_u32_opt 0 PT_ENTRIES (λ j v,
    if decide (Z.land (ent (v_mem v) pt j) PAGE_PRESENT = 0) then Some v
    else vm_release (Z.land (ent (v_mem v) pt j) (not32 4095)) v) v.

Definition destroy_pde (pd i : Z) (v : vm A) : option (vm A) :=
  if decide (Z.land (ent (v_mem v) pd i) PAGE_PRESENT = 0) then Some v
  else
    let pt_phys := Z.land (ent (v_mem v) pd i) (not32 4095) in
    v ← release_table_frames pt_phys v;
    vm_release pt_phys v.

Definition paging_destroy_pd (pd_phys : Z) (v : vm A) : option (vm A) :=
  _ ← touch pd_phys;
  v ← for_u32_opt 2 PD_ENTRIES (destroy_pde pd_phys) v;
  vm_release pd_phys v.
End paging.

(** ** Entries: an aligned frame address with flags *)

Lemma lor_flags base fl : base `mod` 4096 = 0 → 0 ≤ fl < 4096 → Z.lor base fl = base + fl.
Proof.
  intros Hb Hf.
  assert (Z.land base fl = 0) as Hl.
  { apply Z.bits_inj'. intros k Hk. rewrite Z.land_spec, Z.bits_0.
    destruct (decide (k < 12)).
    - assert (Z.testbit base k = false) as ->; [|done].
      replace base with (base `div` 4096 * 2 ^ 12) by (change (2 ^ 12) with 4096; zdm).
      apply Z.mul_pow2_bits_low. lia.
    - assert (Z.testbit fl k = false) as ->; [|apply andb_false_r].
      rewrite <-(Z.mod_small fl (2 ^ 12)) by lia. apply Z.mod_pow2_bits_high. lia. }
  by rewrite <-Z.lxor_lor, <-Z.add_nocarry_lxor.
Qed.

Lemma pte_addr base fl :
  base `mod` 4096 = 0 → 0 ≤ fl < 4096 → is_u32 base → Z.land (base + fl) (not32 4095) = base.
Proof.
  intros Hb Hf Hu. rewrite land_not32_4095 by word_lia. word_lia.
Qed.

Lemma pte_present base fl :
  base `mod` 4096 = 0 → 0 ≤ fl < 4096 → Z.land (base + fl) PAGE_PRESENT = fl `mod` 2.
Proof.
  intros Hb Hf. change PAGE_PRESENT with (Z.ones 1). rewrite Z.land_ones by lia.
  change (2 ^ 1) with 2. zdm.
Qed.

(** [frame | PAGE_PRESENT | PAGE_WRITABLE] and [... | PAGE_USER]. *)
Lemma kernel_pte_eq base :
  base `mod` 4096 = 0 → Z.lor (Z.lor base PAGE_PRESENT) PAGE_WRITABLE = base + 3.
Proof. intros. rewrite <-Z.lor_assoc. by apply lor_flags. Qed.

Lemma user_pte_eq base :
  base `mod` 4096 = 0 →
  Z.lor (Z.lor (Z.lor base PAGE_PRESENT) PAGE_WRITABLE) PAGE_USER = base + 7.
Proof. intros. rewrite <-!Z.lor_assoc. by apply lor_flags. Qed.

Lemma pd_index_range virt : is_u32 virt → 0 ≤ pd_index virt < 1024.
Proof. intros. unfold pd_index. rewrite Z.shiftr_div_pow2 by lia. change (2 ^ 22) with 4194304. word_lia. Qed.

Lemma pt_index_eq virt : pt_index virt = (virt `div` 4096) `mod` 1024.
Proof.
  unfold pt_index. rewrite Z.shiftr_div_pow2 by lia. change 1023 with (Z.ones 10).
  by rewrite Z.land_ones by lia.
Qed.

Lemma pd_index_eq virt : pd_index virt = virt `div` 4194304.
Proof. unfold pd_index. by rewrite Z.shiftr_div_pow2 by lia. Qed.

Lemma ent_set_eq m a i v : is_u32 v → ent (set_ent m a i v) a i = v.
Proof. apply load32_store32_eq. Qed.

Lemma ent_set_ne m a i b j v :
  b + 4 * j + 4 ≤ a + 4 * i ∨ a + 4 * i + 4 ≤ b + 4 * j →
  ent (set_ent m a i v) b j = ent m b j.
Proof. apply load32_store32_ne. Qed.

Lemma ent_ext m m' a i :
  (∀ b, a + 4 * i ≤ b < a + 4 * i + 4 → load8 m' b = load8 m b) → ent m' a i = ent m a i.
Proof. apply load32_ext. Qed.

(** ** The identity map *)

Definition aligned (a : Z) : Prop := a `mod` 4096 = 0.

Section init.
Context (page_directory page_tables : Z).
Context (Hpd : aligned page_directory ∧ 4096 ≤ page_directory < 1048576).
Context (Hpt : aligned page_tables ∧ 4096 ≤ page_tables < 1048576 - 4096).
Context (Hdisj : page_directory + 4096 ≤ page_tables ∨ page_tables + 8192 ≤ page_directory).
Context {A : Type} `{!FrameAllocator A}.

Lemma init_pte_eq t i : 0 ≤ t < 2 → 0 ≤ i < 1024 → init_pte t i = t * 4194304 + i * 4096 + 3.
Proof using Type.
  intros. unfold init_pte, PAGE_SIZE. rewrite u32_small by (unfold is_u32; lia).
  apply kernel_pte_eq. zdm.
Qed.

Lemma init_loop_spec t m :
  0 ≤ t < 2 →
  let T := page_tables + t * 4096 in
  let m' := for_u32 0 PT_ENTRIES (λ i m, set_ent m T i (init_pte t i)) m in
  (∀ i, 0 ≤ i < 1024 → ent m' T i = init_pte t i) ∧
  (∀ b, b < T ∨ T + 4096 ≤ b → load8 m' b = load8 m b).
Proof using Type.
  intros Ht T m'.
  assert ((∀ i, 0 ≤ i < PT_ENTRIES → ent m' T i = init_pte t i) ∧
    (∀ b, b < T ∨ T + 4096 ≤ b → load8 m' b = load8 m b)) as H; [|exact H].
  apply (for_u32_inv (λ k m', (∀ i, 0 ≤ i < k → ent m' T i = init_pte t i) ∧
    (∀ b, b < T ∨ T + 4096 ≤ b → load8 m' b = load8 m b))); [unfold PT_ENTRIES; lia|split; [lia|done]|].
  intros k m1 Hk [H1 H2]. unfold PT_ENTRIES in Hk. split.
  - intros i Hi. destruct (decide (i = k)) as [->|].
    + apply ent_set_eq. rewrite init_pte_eq by lia. unfold is_u32. lia.
    + rewrite ent_set_ne by lia. apply H1. lia.
  - intros b Hb. unfold set_ent. rewrite load8_store32_ne by lia. by apply H2.
Qed.

Lemma init_table_spec t m :
  0 ≤ t < 2 →
  let T := page_tables + t * 4096 in
  let m' := init_table page_directory page_tables t m in
  (∀ i, 0 ≤ i < 1024 → ent m' T i = t * 4194304 + i * 4096 + 3) ∧
  ent m' page_directory t = T + 3 ∧
  (∀ b, (b < T ∨ T + 4096 ≤ b) → (b < page_directory + 4 * t ∨ page_directory + 4 * t + 4 ≤ b) →
     load8 m' b = load8 m b).
Proof using Hpd Hpt Hdisj.
  intros Ht T m'. destruct (init_loop_spec t m Ht) as [H1 H2]. fold T in H1, H2.
  unfold aligned in *.
  assert (Z.lor (Z.lor T PAGE_PRESENT) PAGE_WRITABLE = T + 3) as Hp
    by (apply kernel_pte_eq; subst T; zdm).
  unfold m', init_table. fold T. rewrite Hp. split_and!.
  - intros i Hi. rewrite ent_set_ne by lia. rewrite H1 by done. by apply init_pte_eq.
  - apply ent_set_eq. unfold is_u32. lia.
  - intros b Hb1 Hb2. unfold set_ent. rewrite load8_store32_ne by lia. by apply H2.
Qed.

(** The two tables and the directory after [paging_init]. *)
Lemma paging_init_entries (v : vm A) :
  let m := v_mem (paging_init page_directory page_tables v) in
  (∀ t i, 0 ≤ t < 2 → 0 ≤ i < 1024 → ent m (page_tables + t * 4096) i = t * 4194304 + i * 4096 + 3) ∧
  (∀ t, 0 ≤ t < 2 → ent m page_directory t = page_tables + t * 4096 + 3) ∧
  (∀ i, 2 ≤ i < 1024 → ent m page_directory i = 0).
Proof using Hpd Hpt Hdisj.
  cbn [paging_init v_mem]. set (m0 := mem_set _ _ _ _).
  change (for_u32 0 2 (init_table page_directory page_tables) m0)
    with (init_table page_directory page_tables 1 (init_table page_directory page_tables 0 m0)).
  set (m1 := init_table page_directory page_tables 0 m0).
  destruct (init_table_spec 0 m0) as (A1 & A2 & A3); [lia|].
  destruct (init_table_spec 1 m1) as (B1 & B2 & B3); [lia|]. fold m1 in A1, A2, A3.
  split_and!.
  - intros t i Ht Hi. destruct (decide (t = 0)) as [->|].
    + rewrite (ent_ext m1) by (intros; apply B3; lia). by apply A1.
    + replace t with 1 by lia. by apply B1.
  - intros t Ht. destruct (decide (t = 0)) as [->|].
    + rewrite (ent_ext m1) by (intros; apply B3; lia). by apply A2.
    + replace t with 1 by lia. by apply B2.
  - intros i Hi. rewrite (ent_ext m1) by (intros; apply B3; lia).
    rewrite (ent_ext m0) by (intros; apply A3; lia).
    unfold m0, ent. apply load32_mem_set_0; [lia|]. rewrite Z2Nat.id by lia. lia.
Qed.
End init.

(** A memory that holds the identity map of the first 8 MB under [pd]. *)
Definition identity_map (m : mem) (pd pts : Z) : Prop :=
  (∀ t i, 0 ≤ t < 2 → 0 ≤ i < 1024 → ent m (pts + t * 4096) i = t * 4194304 + i * 4096 + 3) ∧
  (∀ t, 0 ≤ t < 2 → ent m pd t = pts + t * 4096 + 3).

Lemma bit2_clear x : x `mod` 8 = 3 → Z.land x PAGE_USER = 0.
Proof.
  intros Hx. change PAGE_USER with (Z.shiftl 1 2).
  apply Z.bits_inj'. intros k Hk. rewrite Z.land_spec, Z.bits_0, Z.shiftl_1_l, Z.pow2_bits_eqb by lia.
  destruct (Z.eqb_spec 2 k) as [<-|]; [|apply andb_false_r]. rewrite andb_true_r.
  rewrite Z.testbit_false by lia. change (2 ^ 2) with 4. zdm.
Qed.

Lemma mmu_pte_absent m pd virt : ent m pd (pd_index virt) = 0 → mmu_pte m pd virt = None.
Proof. intros H. unfold mmu_pte. rewrite H. by rewrite decide_True. Qed.

(** A present directory entry: the table it points to decides. *)
Lemma mmu_pte_table m pd virt T fl :
  aligned T → is_u32 T → 0 ≤ fl < 4096 → fl `mod` 2 = 1 →
  ent m pd (pd_index virt) = T + fl →
  mmu_pte m pd virt =
    let pte := ent m T (pt_index virt) in
    if decide (Z.land pte PAGE_PRESENT = 0) then None else Some pte.
Proof.
  intros HT Hu Hf Hp He. unfold mmu_pte. rewrite He, pte_present by done.
  rewrite decide_False by lia. by rewrite pte_addr.
Qed.

Lemma identity_map_pte m pd pts virt :
  aligned pts → 4096 ≤ pts < 1048576 - 4096 → identity_map m pd pts →
  0 ≤ virt < 8388608 → mmu_pte m pd virt = Some (4096 * (virt `div` 4096) + 3).
Proof.
  intros Ha Hr [E1 E2] Hv. unfold aligned in Ha.
  rewrite (mmu_pte_table _ _ _ (pts + virt `div` 4194304 * 4096) 3).
  - cbv zeta. rewrite pt_index_eq, E1 by zdm.
    replace (virt `div` 4194304 * 4194304 + (virt `div` 4096) `mod` 1024 * 4096)
      with (4096 * (virt `div` 4096)) by zdm.
    rewrite pte_present; [done|zdm|lia].
  - unfold aligned. zdm.
  - unfold is_u32. zdm.
  - lia.
  - done.
  - rewrite pd_index_eq. apply E2. zdm.
Qed.

(** After [paging_init] the processor translates every address below 8 MB
    to itself, with supervisor-only pages, and faults on every other address;
    CR3 holds the kernel directory and CR0.PG is set. *)
Theorem paging_init_identity (page_directory page_tables : Z)
    (A : Type) (FA : FrameAllocator A) (v : vm A) :
  aligned page_directory ∧ 4096 ≤ page_directory < 1048576 →
  aligned page_tables ∧ 4096 ≤ page_tables < 1048576 - 4096 →
  page_directory + 4096 ≤ page_tables ∨ page_tables + 8192 ≤ page_directory →
  let v' := paging_init page_directory page_tables v in
  v_cr3 v' = page_directory ∧ Z.testbit (v_cr0 v') 31 = true ∧
  ∀ virt, is_u32 virt →
    mmu_walk (v_mem v') (v_cr3 v') virt = (if decide (virt < 8388608) then Some virt else None) ∧
    ∀ pte, mmu_pte (v_mem v') (v_cr3 v') virt = Some pte → Z.land pte PAGE_USER = 0.
Proof.
  intros Hpd Hpt Hd v'. split; [done|]. split.
  { change (v_cr0 v') with (Z.lor (v_cr0 v) 2147483648). rewrite Z.lor_spec. apply orb_true_r. }
  intros virt Hv. destruct (paging_init_entries _ _ Hpd Hpt Hd v) as (E1 & E2 & E3).
  fold v' in E1, E2, E3. change (v_cr3 v') with page_directory.
  revert E1 E2 E3. generalize (v_mem v'). clear v'. intros m E1 E2 E3.
  unfold mmu_walk. case_decide as Hlt.
  - destruct Hpt as [Ha Hr].
    rewrite (identity_map_pte m page_directory page_tables) by (done || (unfold is_u32 in Hv; lia)).
    simpl. rewrite pte_addr; [|zdm|lia|word_lia]. split; [f_equal; zdm|].
    intros pte [= <-]. apply bit2_clear. zdm.
  - rewrite mmu_pte_absent; [done|]. apply E3. rewrite pd_index_eq. word_lia.
Qed.

Lemma paging_init_identity_witness :
  mmu_walk (v_mem (paging_init 65536 69632 (Vm ∅ demo_pmm 0 0))) 65536 5000000 = Some 5000000.
Proof.
  destruct (paging_init_identity 65536 69632 pmm pmm_frame_allocator (Vm ∅ demo_pmm 0 0))
    as (_ & _ & H); [split; [reflexivity|lia]..|lia|].
  destruct (H 5000000) as [H1 _]; [unfold is_u32; lia|]. exact H1.
Defined.

(** ** The frames of an address space *)

(** A frame between 1 MB and the end of the identity map. *)
Definition frame (p : Z) : Prop := aligned p ∧ 1048576 ≤ p < 8388608.

(** A directory owns frames: itself, its page tables ([NPt i]), and the frames
    these map ([NFr i j]).  Entries 0 and 1 are the kernel's. *)
Inductive node := NPd | NPt (i : Z) | NFr (i j : Z).

#[export] Instance node_eq_dec : EqDecision node.
Proof. solve_decision. Defined.

Inductive owns (m : mem) (pd : Z) : node → Z → Prop :=
| owns_pd : frame pd → owns m pd NPd pd
| owns_pt i T : 2 ≤ i < 1024 → frame T → ent m pd i = T + 7 → owns m pd (NPt i) T
| owns_fr i T j F :
    owns m pd (NPt i) T → 0 ≤ j < 1024 → frame F → ent m T j = F + 7 → owns m pd (NFr i j) F.

(** A user entry: empty, or a frame that is present, writable and [PAGE_USER]. *)
Definition slot_ok (e : Z) : Prop := e = 0 ∨ ∃ F, frame F ∧ e = F + 7.

Definition page_of (b : Z) : Z := 4096 * (b `div` 4096).

Lemma owns_frame m pd n p : owns m pd n p → frame p.
Proof. by destruct 1. Qed.

Lemma owns_fun m pd n p q : owns m pd n p → owns m pd n q → p = q.
Proof.
  intros Hp. revert q. induction Hp as [Hf|i T Hi Hf E|i T j F HT IH Hj Hf E]; intros q Hq.
  - by inversion Hq.
  - inversion Hq; subst. lia.
  - inversion Hq as [| |i' T' j' F' HT' Hj' Hf' E']; subst. rewrite <-(IH _ HT') in E'. lia.
Qed.

Lemma frame_present p : frame p → Z.land (p + 7) PAGE_PRESENT ≠ 0.
Proof. intros [Ha ?]. rewrite pte_present by (done || lia). by vm_compute. Qed.

Lemma frame_u32 p : frame p → is_u32 p ∧ is_u32 (p + 7).
Proof. intros [_ ?]. unfold is_u32. lia. Qed.

Lemma frame_addr p : frame p → Z.land (p + 7) (not32 4095) = p.
Proof. intros Hp. apply pte_addr; [apply Hp|lia|]. by apply frame_u32. Qed.

Lemma slot_absent e : slot_ok e → Z.land e PAGE_PRESENT = 0 → e = 0.
Proof. intros [->|(F & HF & ->)] Hp; [done|]. by destruct (frame_present F). Qed.

Lemma slot_present e : slot_ok e → Z.land e PAGE_PRESENT ≠ 0 → ∃ F, frame F ∧ e = F + 7.
Proof. intros [->|HF] Hp; [by destruct Hp|done]. Qed.

Lemma page_of_in a b : aligned a → a ≤ b < a + 4096 → page_of b = a.
Proof. unfold aligned, page_of. intros. zdm. Qed.

Lemma page_of_bounds b : page_of b ≤ b < page_of b + 4096.
Proof. unfold page_of. zdm. Qed.

Lemma aligned_apart a b : aligned a → aligned b → a ≠ b → a + 4096 ≤ b ∨ b + 4096 ≤ a.
Proof. unfold aligned. intros. zdm. Qed.

Section address_space.
Context {A : Type} `{!FrameAllocator A}.

(** All available frames are in the first 8 MB, which are identity-mapped.  The code
    relies on it and does not check it: with more memory it holds of the lower frames
    only, which the allocator hands out first, and when they are used up the kernel
    faults ([create_pd_high_frame_faults]). *)
Definition fa_low (v : vm A) : Prop := ∀ q, fa_avail (v_fa v) q → q < 8388608.

(** The invariant of an address space: entries are empty or user mappings of
    frames, the frames it owns are all different and none is available in the
    allocator, which has identity-mapped frames only. *)
Record pd_wf (v : vm A) (pd : Z) : Prop := PdWf {
  wf_fa : fa_inv (v_fa v);
  wf_low : fa_low v;
  wf_pd : frame pd;
  wf_pdes : ∀ i, 2 ≤ i < 1024 → slot_ok (ent (v_mem v) pd i);
  wf_ptes : ∀ i T j, owns (v_mem v) pd (NPt i) T → 0 ≤ j < 1024 → slot_ok (ent (v_mem v) T j);
  wf_used : ∀ n p, owns (v_mem v) pd n p → ¬ fa_avail (v_fa v) p;
  wf_inj : ∀ n1 n2 p, owns (v_mem v) pd n1 p → owns (v_mem v) pd n2 p → n1 = n2
}.

(** What building an address space may do to the machine: take available
    frames, all of which end up owned, and write to these and to the
    directory and its tables. *)
Record grows (pd : Z) (v v' : vm A) : Prop := Grows {
  gr_mem : ∀ b, ¬ fa_avail (v_fa v) (page_of b) → page_of b ≠ pd →
    (∀ i, ¬ owns (v_mem v) pd (NPt i) (page_of b)) → load8 (v_mem v') b = load8 (v_mem v) b;
  gr_kernel : ∀ i, 0 ≤ i < 2 → ent (v_mem v') pd i = ent (v_mem v) pd i;
  gr_avail : ∀ q, fa_avail (v_fa v') q → fa_avail (v_fa v) q;
  gr_owns : ∀ n q, owns (v_mem v) pd n q → owns (v_mem v') pd n q;
  gr_new : ∀ n q, owns (v_mem v') pd n q → owns (v_mem v) pd n q ∨ fa_avail (v_fa v) q;
  gr_noleak : ∀ q, fa_avail (v_fa v) q → fa_avail (v_fa v') q ∨ ∃ n, owns (v_mem v') pd n q
}.

#[export] Instance grows_preorder pd : PreOrder (grows pd).
Proof.
  split.
  - intros v. constructor; eauto.
  - intros v1 v2 v3 [M1 K1 A1 O1 N1 L1] [M2 K2 A2 O2 N2 L2]. constructor; eauto.
    + intros b Hb Hp Hn. rewrite M2; [by apply M1|eauto|done|].
      intros i Ho. destruct (N1 _ _ Ho); [by eapply Hn|done].
    + intros i Hi. by rewrite K2, K1.
    + intros n q Ho. destruct (N2 _ _ Ho) as [?|?]; eauto.
    + intros q Hq. destruct (L1 _ Hq) as [?|[n ?]]; eauto.
Qed.

(** A change that adds one owned frame, taken from the allocator, keeps the
    invariant. *)
Lemma grow_one pd v v' n0 p0 :
  pd_wf v pd → fa_inv (v_fa v') → fa_avail (v_fa v) p0 →
  (∀ q, fa_avail (v_fa v') q ↔ fa_avail (v_fa v) q ∧ q ≠ p0) →
  (∀ n q, owns (v_mem v') pd n q ↔ owns (v_mem v) pd n q ∨ n = n0 ∧ q = p0) →
  (∀ i, 2 ≤ i < 1024 → slot_ok (ent (v_mem v') pd i)) →
  (∀ i T j, owns (v_mem v') pd (NPt i) T → 0 ≤ j < 1024 → slot_ok (ent (v_mem v') T j)) →
  (∀ b, ¬ fa_avail (v_fa v) (page_of b) → page_of b ≠ pd →
    (∀ i, ¬ owns (v_mem v) pd (NPt i) (page_of b)) → load8 (v_mem v') b = load8 (v_mem v) b) →
  (∀ i, 0 ≤ i < 2 → ent (v_mem v') pd i = ent (v_mem v) pd i) →
  pd_wf v' pd ∧ grows pd v v'.
Proof.
  intros [_ Hlow Hpd _ _ Hu Hi] Hfa Hav Ha Ho H1 H2 Hm Hk. split; constructor; auto.
  - intros q. rewrite Ha. intros [? _]. by apply Hlow.
  - intros n p. rewrite Ho, Ha. intros [Hn|[-> ->]]; [|tauto]. intros [? _]. by eapply Hu.
  - intros n1 n2 p. rewrite !Ho. intros [O1|[-> ->]] [O2|[-> E]]; subst; eauto;
      exfalso; eapply Hu; eauto.
  - intros q. rewrite Ha. tauto.
  - intros n q. rewrite Ho. tauto.
  - intros n q. rewrite Ho. intros [?|[_ ->]]; eauto.
  - intros q Hq. destruct (decide (q = p0)) as [->|]; [|left; by apply Ha].
    right. exists n0. apply Ho. auto.
Qed.

Lemma touch_frame p : frame p → touch p = Some ().
Proof.
  intros [Ha Hr]. unfold touch, PAGE_SIZE. rewrite decide_True; [done|]. unfold aligned in Ha. zdm.
Qed.

Lemma vm_alloc_spec v :
  fa_inv (v_fa v) → fa_low v →
  ∃ p v', vm_alloc v = Some (p, v') ∧ fa_inv (v_fa v') ∧ v_mem v' = v_mem v ∧
    ((p = 0 ∧ v' = v ∧ ∀ q, ¬ fa_avail (v_fa v) q) ∨
     (fa_avail (v_fa v) p ∧ frame p ∧ p ≠ 0 ∧
      ∀ q, fa_avail (v_fa v') q ↔ fa_avail (v_fa v) q ∧ q ≠ p)).
Proof.
  intros Hi Hlow. destruct (fa_alloc_spec (v_fa v) Hi) as (p & a & Ha & Hi' & Hc).
  unfold vm_alloc. rewrite Ha. exists p, (Vm (v_mem v) a (v_cr3 v) (v_cr0 v)).
  split; [done|]. split; [done|]. split; [done|].
  destruct Hc as [(-> & -> & Hn)|(Hav & Hal & Hr & Hq)].
  - left. by destruct v.
  - right. pose proof (Hlow p Hav). unfold frame, aligned. split_and!; try done; lia.
Qed.

(** Directory entries and tables are apart from each other. *)
Lemma owned_apart v pd n1 n2 p q :
  pd_wf v pd → owns (v_mem v) pd n1 p → owns (v_mem v) pd n2 q → n1 ≠ n2 →
  p + 4096 ≤ q ∨ q + 4096 ≤ p.
Proof.
  intros Hwf H1 H2 Hn.
  apply aligned_apart; [by eapply owns_frame|by eapply owns_frame|].
  intros ->. by destruct Hn; eapply (wf_inj v pd).
Qed.

Lemma avail_apart v pd n p q :
  pd_wf v pd → owns (v_mem v) pd n p → frame q → fa_avail (v_fa v) q →
  p + 4096 ≤ q ∨ q + 4096 ≤ p.
Proof.
  intros Hwf H1 Hq Hav. apply aligned_apart; [by eapply owns_frame|apply Hq|].
  intros ->. by eapply (wf_used v pd).
Qed.

Lemma pt_in_range m pd i T : owns m pd (NPt i) T → 2 ≤ i < 1024.
Proof. by inversion 1. Qed.

(** A new, empty page table for entry [pdi]. *)
Lemma add_table v v1 pd pdi T :
  pd_wf v pd → 2 ≤ pdi < 1024 → ent (v_mem v) pd pdi = 0 →
  fa_avail (v_fa v) T → frame T → fa_inv (v_fa v1) →
  (∀ q, fa_avail (v_fa v1) q ↔ fa_avail (v_fa v) q ∧ q ≠ T) →
  let m' := set_ent (mem_set (v_mem v) T 0 (Z.to_nat 4096)) pd pdi (T + 7) in
  let v' := vm_with_mem v1 m' in
  (∀ i, 0 ≤ i < 1024 → ent m' pd i = if decide (i = pdi) then T + 7 else ent (v_mem v) pd i) ∧
  (∀ j, 0 ≤ j < 1024 → ent m' T j = 0) ∧
  (∀ n p j, owns (v_mem v) pd n p → n ≠ NPd → 0 ≤ j < 1024 → ent m' p j = ent (v_mem v) p j) ∧
  pd_wf v' pd ∧ grows pd v v'.
Proof.
  intros Hwf Hi H0 Hav HT Hfa Ha m' v'.
  assert (owns (v_mem v) pd NPd pd) as Hpd by (constructor; apply Hwf).
  pose proof (avail_apart _ _ _ _ _ Hwf Hpd HT Hav) as Hap.
  pose proof (frame_u32 T HT) as [_ Hu].
  assert (∀ i, 0 ≤ i < 1024 → ent m' pd i = if decide (i = pdi) then T + 7 else ent (v_mem v) pd i) as E1.
  { intros i Hr. unfold m'. case_decide as Hd; [subst; by apply ent_set_eq|].
    rewrite ent_set_ne by lia. apply load32_mem_set_ne. lia. }
  assert (∀ j, 0 ≤ j < 1024 → ent m' T j = 0) as E2.
  { intros j Hr. unfold m'. rewrite ent_set_ne by lia. apply load32_mem_set_0; lia. }
  assert (∀ n p j, owns (v_mem v) pd n p → n ≠ NPd → 0 ≤ j < 1024 →
    ent m' p j = ent (v_mem v) p j) as E3.
  { intros n p j Ho Hn Hj. pose proof (owned_apart _ _ _ _ _ _ Hwf Ho Hpd Hn).
    pose proof (avail_apart _ _ _ _ _ Hwf Ho HT Hav).
    unfold m'. rewrite ent_set_ne by lia. apply load32_mem_set_ne. lia. }
  assert (∀ n q, owns m' pd n q ↔ owns (v_mem v) pd n q ∨ n = NPt pdi ∧ q = T) as Ho.
  { intros n q. split.
    - induction 1 as [Hf|i U Hr Hf E|i U j F HU IH Hj Hf E]; [left; by constructor| |].
      + rewrite E1 in E by lia. case_decide; [right; subst; split; [done|lia]|left; by constructor].
      + destruct IH as [IH|[[= ->] ->]].
        * left. rewrite (E3 (NPt i)) in E by done. by econstructor.
        * rewrite E2 in E by done. unfold frame in Hf. lia.
    - intros [Hn|[-> ->]].
      + induction Hn as [Hf|i U Hr Hf E|i U j F HU IH Hj Hf E]; [by constructor| |].
        * constructor; [done..|]. rewrite E1 by lia. rewrite decide_False; [done|].
          intros ->. unfold frame in Hf. lia.
        * econstructor; [done..|]. by rewrite (E3 (NPt i)).
      + constructor; [done..|]. rewrite E1 by lia. by rewrite decide_True. }
  split; [done|]. split; [done|]. split; [done|].
  apply (grow_one pd v v' (NPt pdi) T); try assumption.
  - intros i Hr. simpl. rewrite E1 by lia. case_decide; [right; eauto|by apply Hwf].
  - simpl. intros i U j HU Hj. apply Ho in HU as [HU|[_ ->]]; [|rewrite E2 by done; by left].
    rewrite (E3 (NPt i)) by done. by eapply (wf_ptes v pd).
  - intros b Hb Hp Hn. simpl. unfold m', set_ent. pose proof (page_of_bounds b).
    assert (page_of b ≠ T) by (intros E; by rewrite E in Hb).
    rewrite load8_store32_ne.
    + rewrite load8_mem_set, decide_False; [done|]. intros Hin.
      apply (page_of_in T) in Hin; [done|apply HT].
    + destruct (decide (pd ≤ b < pd + 4096)) as [Hin|]; [|lia].
      apply page_of_in in Hin; [done|apply Hwf].
  - intros i Hr. simpl. rewrite E1 by lia. by rewrite decide_False by lia.
Qed.

(** Map slot [pti] of the table [T] of entry [pdi] to a new frame. *)
Lemma add_frame v v1 pd pdi T pti F :
  pd_wf v pd → owns (v_mem v) pd (NPt pdi) T → 0 ≤ pti < 1024 → ent (v_mem v) T pti = 0 →
  fa_avail (v_fa v) F → frame F → fa_inv (v_fa v1) →
  (∀ q, fa_avail (v_fa v1) q ↔ fa_avail (v_fa v) q ∧ q ≠ F) →
  let m' := set_ent (v_mem v) T pti (F + 7) in
  let v' := vm_with_mem v1 m' in
  (∀ i, 0 ≤ i < 1024 → ent m' pd i = ent (v_mem v) pd i) ∧
  (∀ i p j, owns (v_mem v) pd (NPt i) p → 0 ≤ j < 1024 →
     ent m' p j = if decide (i = pdi ∧ j = pti) then F + 7 else ent (v_mem v) p j) ∧
  owns m' pd (NFr pdi pti) F ∧
  pd_wf v' pd ∧ grows pd v v'.
Proof.
  intros Hwf HT Hi H0 Hav HF Hfa Ha m' v'.
  assert (owns (v_mem v) pd NPd pd) as Hpd by (constructor; apply Hwf).
  pose proof (owned_apart _ _ _ _ _ _ Hwf Hpd HT ltac:(done)) as Hap.
  pose proof (frame_u32 F HF) as [_ Hu].
  assert (∀ i, 0 ≤ i < 1024 → ent m' pd i = ent (v_mem v) pd i) as E1.
  { intros i Hr. apply ent_set_ne. lia. }
  assert (∀ i p j, owns (v_mem v) pd (NPt i) p → 0 ≤ j < 1024 →
     ent m' p j = if decide (i = pdi ∧ j = pti) then F + 7 else ent (v_mem v) p j) as E2.
  { intros i p j Ho Hj. unfold m'. case_decide as Hd.
    - destruct Hd as [-> ->]. rewrite (owns_fun _ _ _ _ _ Ho HT). by apply ent_set_eq.
    - apply ent_set_ne. destruct (decide (i = pdi)) as [->|Hne].
      + rewrite (owns_fun _ _ _ _ _ Ho HT). assert (j ≠ pti) by naive_solver. lia.
      + pose proof (owned_apart _ _ _ _ _ _ Hwf Ho HT ltac:(congruence)). lia. }
  assert (∀ i U, owns m' pd (NPt i) U ↔ owns (v_mem v) pd (NPt i) U) as Ht.
  { intros i U. split; inversion 1 as [|? ? Hr ? E|]; subst;
      (constructor; [done..|]); [rewrite <-E1 by lia|rewrite E1 by lia]; done. }
  assert (∀ n q, owns m' pd n q ↔ owns (v_mem v) pd n q ∨ n = NFr pdi pti ∧ q = F) as Ho.
  { intros n q. split.
    - inversion 1 as [Hf|i U Hr Hf E|i U j G HU Hj Hf E]; subst; [left; by constructor| |].
      + left. by apply Ht.
      + apply Ht in HU. rewrite (E2 i) in E by done. case_decide as Hd.
        * destruct Hd as [-> ->]. right. split; [done|lia].
        * left. by econstructor.
    - intros [Hn|[-> ->]].
      + inversion Hn as [Hf|i U Hr Hf E|i U j G HU Hj Hf E]; subst; [by constructor|by apply Ht|].
        econstructor; [by apply Ht|done..|]. rewrite (E2 i) by done.
        rewrite decide_False; [done|]. intros [-> ->].
        rewrite (owns_fun _ _ _ _ _ HU HT) in E. unfold frame in Hf. lia.
      + econstructor; [by apply Ht|done..|]. rewrite (E2 pdi) by done. by rewrite decide_True. }
  split; [done|]. split; [done|]. split; [apply Ho; auto|].
  apply (grow_one pd v v' (NFr pdi pti) F); try done.
  - intros i Hr. simpl. rewrite E1 by lia. by apply Hwf.
  - simpl. intros i U j HU Hj. apply Ht in HU. rewrite (E2 i) by done.
    case_decide; [right; eauto|]. by eapply (wf_ptes v pd).
  - intros b Hb Hp Hn. simpl. unfold m', set_ent. rewrite load8_store32_ne; [done|].
    destruct (decide (T ≤ b < T + 4096)) as [Hin|]; [|lia].
    apply page_of_in in Hin; [subst|by eapply owns_frame]. by destruct (Hn pdi).
  - intros i Hr. apply E1. lia.
Qed.

Lemma pd_index_user virt : is_u32 virt → 8388608 ≤ virt → 2 ≤ pd_index virt < 1024.
Proof. intros. rewrite pd_index_eq. word_lia. Qed.

Lemma pt_index_range virt : 0 ≤ pt_index virt < 1024.
Proof. rewrite pt_index_eq. zdm. Qed.

(** Translation of user addresses, in terms of the owned frames. *)
Lemma user_pte_iff v pd virt e :
  pd_wf v pd → is_u32 virt → 8388608 ≤ virt →
  mmu_pte (v_mem v) pd virt = Some e ↔
  ∃ F, owns (v_mem v) pd (NFr (pd_index virt) (pt_index virt)) F ∧ e = F + 7.
Proof.
  intros Hwf Hv Hu. pose proof (pd_index_user virt Hv Hu) as Hi.
  pose proof (pt_index_range virt) as Hj. destruct (wf_pdes v pd Hwf _ Hi) as [E|(T & HT & E)].
  - rewrite mmu_pte_absent by done. split; [done|]. intros (F & Ho & _).
    inversion Ho as [| |? ? ? ? HP]; subst. inversion HP as [|? ? ? [_ ?]|]; subst. lia.
  - rewrite (mmu_pte_table _ _ _ T 7); [|apply HT|by apply frame_u32|lia|done|done]. cbv zeta.
    assert (owns (v_mem v) pd (NPt (pd_index virt)) T) as HP by (by constructor).
    split.
    + case_decide; [done|]. intros [= <-].
      destruct (slot_present (ent (v_mem v) T (pt_index virt))) as (F & HF & EF);
        [by eapply (wf_ptes v pd)|done|].
      exists F. split; [|done]. by econstructor.
    + intros (F & Ho & ->). inversion Ho as [| |? T' ? ? HP' ? HF EF]; subst.
      rewrite (owns_fun _ _ _ _ _ HP' HP) in EF. rewrite EF, decide_False; [done|].
      by apply frame_present.
Qed.

(** The page table of [pdi] exists afterwards, or no frame is left. *)
Lemma ensure_table_spec v pd pdi :
  pd_wf v pd → 2 ≤ pdi < 1024 →
  ∃ ok v', ensure_table pd pdi v = Some (ok, v') ∧ pd_wf v' pd ∧ grows pd v v' ∧
    (∀ i j F, owns (v_mem v') pd (NFr i j) F → owns (v_mem v) pd (NFr i j) F) ∧
    (ok = true → ∃ T, owns (v_mem v') pd (NPt pdi) T ∧ ent (v_mem v') pd pdi = T + 7) ∧
    (ok = false → ∀ q, ¬ fa_avail (v_fa v') q).
Proof.
  intros Hwf Hi. unfold ensure_table. rewrite touch_frame by apply Hwf. cbn [mbind option_bind].
  case_decide as Hp.
  - apply slot_absent in Hp; [|by apply Hwf].
    destruct (vm_alloc_spec v (wf_fa v pd Hwf) (wf_low v pd Hwf)) as (T & v1 & -> & Hfa & Hm & Hc).
    cbn [mbind option_bind].
    destruct Hc as [(-> & -> & Hn)|(Hav & HT & Hne & Ha)].
    + exists false, v. split; [done|]. split; [done|]. split; [done|]. naive_solver.
    + rewrite decide_False by done. rewrite touch_frame by done. cbn [mbind option_bind].
      rewrite user_pte_eq by apply HT. rewrite Hm.
      pose proof (add_table v v1 pd pdi T Hwf Hi Hp Hav HT Hfa Ha) as HA. cbv zeta in HA.
      change PAGE_SIZE with 4096. revert HA.
      generalize (set_ent (mem_set (v_mem v) T 0 (Z.to_nat 4096)) pd pdi (T + 7)).
      intros m' (E1 & E2 & E3 & Hwf' & Hg).
      eexists true, _. split; [reflexivity|]. split; [done|]. split; [done|].
      assert (ent m' pd pdi = T + 7) as E by (rewrite E1 by lia; by rewrite decide_True).
      split_and!; [|intros _; exists T; split; [by constructor|done]|done].
      intros i j F Ho. simpl in Ho. inversion Ho as [| |? U ? ? HU ? ? EF]; subst.
      inversion HU as [|? ? ? ? EU|]; subst. rewrite E1 in EU by lia.
      case_decide as Hd; [|assert (owns (v_mem v) pd (NPt i) U) as HU' by (by constructor);
        rewrite (E3 (NPt i)) in EF by done; by econstructor].
      assert (U = T) as -> by lia. rewrite E2 in EF by done. unfold frame in *. lia.
  - exists true, v. split; [done|]. split; [done|]. split; [done|]. split; [done|]. split; [|done].
    intros _. apply slot_present in Hp as (T & HT & E); [|by apply Hwf].
    exists T. split; [by constructor|done].
Qed.

(** One page: mapped to a new frame, or no frame is left. *)
Lemma alloc_user_page_spec v pd virt :
  pd_wf v pd → is_u32 virt → 8388608 ≤ virt →
  let n0 := NFr (pd_index virt) (pt_index virt) in
  (∀ F, ¬ owns (v_mem v) pd n0 F) →
  ∃ ok v', alloc_user_page pd virt v = Some (ok, v') ∧ pd_wf v' pd ∧ grows pd v v' ∧
    (∀ i j F, owns (v_mem v') pd (NFr i j) F →
       owns (v_mem v) pd (NFr i j) F ∨ ok = true ∧ NFr i j = n0) ∧
    (ok = true → ∃ F, owns (v_mem v') pd n0 F) ∧
    (ok = false → ∀ q, ¬ fa_avail (v_fa v') q).
Proof.
  intros Hwf Hv Hu n0 Hno. pose proof (pd_index_user virt Hv Hu) as Hi.
  pose proof (pt_index_range virt) as Hj. unfold alloc_user_page.
  destruct (ensure_table_spec v pd _ Hwf Hi) as (ok & v1 & -> & Hwf1 & Hg1 & Hf1 & Ht & Hn).
  simpl. destruct ok.
  2:{ exists false, v1. split; [done|]. naive_solver. }
  destruct (Ht eq_refl) as (T & HT & ET). clear Ht Hn.
  destruct (vm_alloc_spec v1 (wf_fa v1 pd Hwf1) (wf_low v1 pd Hwf1)) as (F & v2 & -> & Hfa & Hm & Hc). simpl.
  destruct Hc as [(-> & -> & Hn)|(Hav & HF & Hne & Ha)].
  { exists false, v1. split; [done|]. naive_solver. }
  rewrite decide_False by done. rewrite user_pte_eq by apply HF. rewrite Hm, ET.
  rewrite frame_addr by (by eapply owns_frame). rewrite touch_frame by (by eapply owns_frame).
  cbn [mbind option_bind].
  assert (ent (v_mem v1) T (pt_index virt) = 0) as E0.
  { destruct (wf_ptes v1 pd Hwf1 _ _ _ HT Hj) as [?|(G & HG & EG)]; [done|].
    destruct (Hno G). apply Hf1. by econstructor. }
  destruct (add_frame v1 v2 pd _ T _ F Hwf1 HT Hj E0 Hav HF Hfa Ha) as (E1 & E2 & Ho & Hwf2 & Hg2).
  eexists true, _. split; [done|]. split; [done|]. split; [by etrans|].
  split_and!; [|by eauto|done]. intros i j G HG. simpl in HG.
  destruct (decide (NFr i j = n0)) as [->|Hd]; [by right|left].
  inversion HG as [| |? U ? ? HU ? ? EF]; subst. apply Hf1.
  assert (owns (v_mem v1) pd (NPt i) U) as HU1.
  { inversion HU; subst. constructor; [done..|]. by rewrite <-E1 by lia. }
  econstructor; [done..|]. rewrite (E2 i) in EF by done. rewrite decide_False in EF; [done|].
  intros [-> ->]. by destruct Hd.
Qed.

(** The address of page [k] of a request. *)
Definition page_at (virt_base k : Z) : Z := virt_base + k * 4096.

Lemma page_at_index virt_base k l :
  is_u32 (page_at virt_base k) → is_u32 (page_at virt_base l) →
  NFr (pd_index (page_at virt_base k)) (pt_index (page_at virt_base k)) =
  NFr (pd_index (page_at virt_base l)) (pt_index (page_at virt_base l)) → k = l.
Proof. unfold page_at. rewrite !pd_index_eq, !pt_index_eq. intros ? ? [= H1 H2]. word_lia. Qed.

Lemma alloc_pages_loop_spec pd virt_base n :
  8388608 ≤ virt_base → ∀ i v, 0 ≤ i → virt_base + (i + Z.of_nat n) * 4096 ≤ 4294967296 →
  pd_wf v pd →
  let nd k := NFr (pd_index (page_at virt_base k)) (pt_index (page_at virt_base k)) in
  (∀ k F, i ≤ k < i + Z.of_nat n → ¬ owns (v_mem v) pd (nd k) F) →
  ∃ r v', alloc_pages_loop pd virt_base i n v = Some (r, v') ∧ pd_wf v' pd ∧ grows pd v v' ∧
    (∀ x y F, owns (v_mem v') pd (NFr x y) F →
       owns (v_mem v) pd (NFr x y) F ∨ ∃ k, i ≤ k < i + Z.of_nat n ∧ NFr x y = nd k) ∧
    (r = 0 ∧ (∀ k, i ≤ k < i + Z.of_nat n → ∃ F, owns (v_mem v') pd (nd k) F) ∨
     r = -1 ∧ ∀ q, ¬ fa_avail (v_fa v') q).
Proof.
  intros Hb. induction n as [|n IH]; intros i v Hi Hr Hwf nd Hno.
  { exists 0, v. split; [done|]. split; [done|]. split; [done|]. split; [auto|].
    left. split; [done|]. lia. }
  cbn [alloc_pages_loop]. unfold PAGE_SIZE.
  assert (is_u32 (page_at virt_base i)) as Hu by (unfold is_u32, page_at; lia).
  change (virt_base + i * 4096) with (page_at virt_base i). rewrite u32_small by done.
  destruct (alloc_user_page_spec v pd (page_at virt_base i) Hwf Hu) as
    (ok & v1 & -> & Hwf1 & Hg1 & Hf1 & Ht & Hn); [unfold page_at; lia|intros F; apply (Hno i); lia|].
  cbn [mbind option_bind]. destruct ok.
  2:{ exists (-1), v1. split; [done|]. split; [done|]. split; [done|].
      split; [intros x y F Ho; destruct (Hf1 _ _ _ Ho) as [?|[? _]]; auto; done|]. auto. }
  destruct (IH (i + 1) v1) as (r & v2 & Hl & Hwf2 & Hg2 & Hf2 & Hc); [lia|lia|done| |].
  { intros k F Hk Ho. destruct (Hf1 _ _ _ Ho) as [?|[_ E]]; [by eapply Hno; [|done]; lia|].
    apply page_at_index in E; [lia|unfold is_u32, page_at; lia|done]. }
  exists r, v2. split; [done|]. split; [done|]. split; [by etrans|]. split.
  - intros x y F Ho. destruct (Hf2 _ _ _ Ho) as [Ho1|(k & Hk & E)]; [|right; exists k; split; [lia|done]].
    destruct (Hf1 _ _ _ Ho1) as [?|[_ E]]; [by left|]. right. exists i. split; [lia|done].
  - destruct Hc as [[-> Hc]|Hc]; [left; split; [done|]|by right].
    intros k Hk. destruct (decide (k = i)) as [E|Hne].
    2:{ exact (Hc k ltac:(lia)). }
    rewrite E.
    destruct (Ht eq_refl) as [F HF]. exists F. by apply Hg2.
Qed.

Lemma mmu_pte_other pd v v' virt :
  pd_wf v pd → pd_wf v' pd → grows pd v v' → is_u32 virt → 8388608 ≤ virt →
  (∀ F, owns (v_mem v') pd (NFr (pd_index virt) (pt_index virt)) F →
        owns (v_mem v) pd (NFr (pd_index virt) (pt_index virt)) F) →
  mmu_pte (v_mem v') pd virt = mmu_pte (v_mem v) pd virt.
Proof.
  intros Hwf Hwf' Hg Hv Hu H. apply option_eq. intros e. rewrite !user_pte_iff by done.
  split; intros (F & HF & ->); exists F; (split; [|done]); [by apply H|by apply Hg].
Qed.

(** The identity map survives: its tables lie below 1 MB. *)
Lemma identity_map_grows pd pts v v' :
  pd_wf v pd → grows pd v v' → 4096 ≤ pts < 1048576 - 4096 → aligned pts →
  identity_map (v_mem v) pd pts → identity_map (v_mem v') pd pts.
Proof.
  intros Hwf Hg Hr Hal [I1 I2]. split.
  - intros t i Ht Hi. rewrite <-I1 by done. apply ent_ext. intros b Hb.
    unfold aligned in Hal.
    assert (page_of b < 1048576) as Hlow by (unfold page_of; zdm).
    apply Hg.
    + intros Hav. destruct (fa_avail_range _ _ (wf_fa v pd Hwf) Hav). lia.
    + pose proof (wf_pd v pd Hwf) as [_ ?]. lia.
    + intros k Ho. apply owns_frame in Ho as [_ ?]. lia.
  - intros t Ht. rewrite (gr_kernel _ _ _ Hg) by done. by apply I2.
Qed.

Lemma user_range_frames (v v' : vm A) pd virt_base n :
  pd_wf v' pd → aligned virt_base → 8388608 ≤ virt_base → virt_base + n * 4096 ≤ 4294967296 →
  (∀ k, 0 ≤ k < n → ∃ F,
     owns (v_mem v') pd (NFr (pd_index (page_at virt_base k)) (pt_index (page_at virt_base k))) F ∧
     fa_avail (v_fa v) F) →
  ∃ F : Z → Z,
    (∀ k, 0 ≤ k < n → frame (F k) ∧ fa_avail (v_fa v) (F k) ∧ ¬ fa_avail (v_fa v') (F k)) ∧
    (∀ k l, 0 ≤ k < n → 0 ≤ l < n → F k = F l → k = l) ∧
    (∀ virt, virt_base ≤ virt < virt_base + n * 4096 →
       mmu_pte (v_mem v') pd virt = Some (F ((virt - virt_base) `div` 4096) + 7)).
Proof.
  intros Hwf Hal Hb Hr Hown. unfold aligned in Hal.
  pose (F k := default 0 (mmu_pte (v_mem v') pd (page_at virt_base k)) - 7).
  assert (∀ k, 0 ≤ k < n → owns (v_mem v') pd
    (NFr (pd_index (page_at virt_base k)) (pt_index (page_at virt_base k))) (F k) ∧
    fa_avail (v_fa v) (F k)) as HF.
  { intros k Hk. destruct (Hown k Hk) as (G & HG & Hav). unfold F.
    assert (mmu_pte (v_mem v') pd (page_at virt_base k) = Some (G + 7)) as ->.
    { apply user_pte_iff; [done|unfold is_u32, page_at; lia..|]. eauto. }
    simpl. by replace (G + 7 - 7) with G by lia. }
  clearbody F. exists F. split; [|split].
  - intros k Hk. destruct (HF k Hk). split; [by eapply owns_frame|]. split; [done|].
    by eapply (wf_used v' pd).
  - intros k l Hk Hl E. destruct (HF k Hk) as [Ok _], (HF l Hl) as [Ol _]. rewrite <-E in Ol.
    apply (page_at_index virt_base); [unfold is_u32, page_at; lia..|].
    by eapply (wf_inj v' pd).
  - intros virt Hv. apply user_pte_iff; [done|unfold is_u32; lia|lia|]. eexists. split; [|done].
    replace (pd_index virt) with (pd_index (page_at virt_base ((virt - virt_base) `div` 4096)))
      by (rewrite !pd_index_eq; unfold page_at; zdm).
    replace (pt_index virt) with (pt_index (page_at virt_base ((virt - virt_base) `div` 4096)))
      by (rewrite !pt_index_eq; unfold page_at; zdm).
    apply HF. zdm.
Qed.
End address_space.

(** C24: [paging_alloc_user_pages] on a well-formed address space, for a page-aligned
    range at or above 8 MB that is not mapped yet, on a machine whose free frames are all
    below 8 MB ([fa_low] in [pd_wf]; with a free frame above, the code may fault instead,
    [create_pd_high_frame_faults]): when it returns 0, every page of the
    range is mapped user-writable to a frame taken from the allocator, two pages
    never to the same frame; when it returns -1 the allocator is exhausted; in
    both cases the translation of every other address is unchanged, the kernel
    identity map included, and the address space is well-formed. *)
Theorem paging_alloc_user_pages_spec (A : Type) (FA : FrameAllocator A) (v : vm A)
    (pd pts virt_base n_pages : Z) :
  pd_wf v pd → identity_map (v_mem v) pd pts → aligned pts → 4096 ≤ pts < 1048576 - 4096 →
  aligned virt_base → 8388608 ≤ virt_base → 0 ≤ n_pages →
  virt_base + n_pages * 4096 ≤ 4294967296 →
  (∀ virt, virt_base ≤ virt < virt_base + n_pages * 4096 → mmu_pte (v_mem v) pd virt = None) →
  ∃ r v', paging_alloc_user_pages pd virt_base n_pages v = Some (r, v') ∧ pd_wf v' pd ∧
    (∀ virt, is_u32 virt → ¬ virt_base ≤ virt < virt_base + n_pages * 4096 →
       mmu_pte (v_mem v') pd virt = mmu_pte (v_mem v) pd virt) ∧
    (r = 0 ∧ (∃ F : Z → Z,
       (∀ k, 0 ≤ k < n_pages → frame (F k) ∧ fa_avail (v_fa v) (F k) ∧ ¬ fa_avail (v_fa v') (F k)) ∧
       (∀ k l, 0 ≤ k < n_pages → 0 ≤ l < n_pages → F k = F l → k = l) ∧
       (∀ virt, virt_base ≤ virt < virt_base + n_pages * 4096 →
          mmu_pte (v_mem v') pd virt = Some (F ((virt - virt_base) `div` 4096) + 7))) ∨
     r = -1 ∧ ∀ q, ¬ fa_avail (v_fa v') q).
Proof.
  intros Hwf Hid Hpa Hpr Hal Hb Hn Hr Hno.
  destruct (alloc_pages_loop_spec pd virt_base (Z.to_nat n_pages) Hb 0 v) as
    (r & v' & Hl & Hwf' & Hg & Hf & Hc); [lia|lia|done| |].
  { intros k F Hk Ho. rewrite Z2Nat.id in Hk by lia.
    assert (mmu_pte (v_mem v) pd (page_at virt_base k) = Some (F + 7)) as E.
    { apply user_pte_iff; [done|unfold is_u32, page_at; lia..|]. eauto. }
    rewrite Hno in E; [done|]. unfold page_at. lia. }
  rewrite Z2Nat.id in Hf, Hc by lia. exists r, v'. split; [done|]. split; [done|]. split.
  { intros virt Hv Hout. destruct (decide (virt < 8388608)).
    - unfold is_u32 in Hv. rewrite (identity_map_pte _ pd pts) by (done || lia || by apply (identity_map_grows pd pts v)).
      by rewrite (identity_map_pte _ pd pts) by (done || lia).
    - apply mmu_pte_other; [done..|lia|]. intros F Ho.
      destruct (Hf _ _ _ Ho) as [?|(k & Hk & [= E1 E2])]; [done|]. exfalso.
      rewrite !pd_index_eq in E1. rewrite !pt_index_eq in E2.
      unfold page_at, aligned in *. clear -Hv Hout E1 E2 Hk Hr Hb Hal. word_lia. }
  destruct Hc as [[-> Hc]|Hc]; [left; split; [done|]|by right].
  apply user_range_frames with (v := v); try done. intros k Hk.
  destruct (Hc k) as [F HF]; [lia|]. exists F. split; [done|].
  destruct (gr_new _ _ _ Hg _ _ HF) as [Ho|Hav]; [|done]. exfalso.
  assert (mmu_pte (v_mem v) pd (page_at virt_base k) = Some (F + 7)) as E.
  { apply user_pte_iff; [done|unfold is_u32, page_at; lia..|]. eauto. }
  rewrite Hno in E; [done|]. unfold page_at. lia.
Qed.

(** ** Creating and destroying an address space *)

Section lifecycle.
Context (page_directory pts : Z).
Context (Hkd : aligned page_directory ∧ 4096 ≤ page_directory < 1048576).
Context (Hkt : aligned pts ∧ 4096 ≤ pts < 1048576 - 4096).
Context {A : Type} `{!FrameAllocator A}.

(** The three writes of [paging_create_pd], on any frame [p]. *)
Lemma create_pd_mem (m : mem) p :
  frame p → identity_map m page_directory pts →
  let m0 := mem_set m p 0 (Z.to_nat 4096) in
  let m1 := set_ent m0 p 0 (ent m0 page_directory 0) in
  let m2 := set_ent m1 p 1 (ent m1 page_directory 1) in
  identity_map m2 p pts ∧ (∀ i, 2 ≤ i < 1024 → ent m2 p i = 0) ∧
  (∀ b, b < p ∨ p + 4096 ≤ b → load8 m2 b = load8 m b).
Proof using Hkd Hkt.
  intros [Hal Hr] [I1 I2] m0 m1 m2.
  assert (page_directory + 4096 ≤ p ∧ pts + 8192 ≤ p) as [Hd1 Hd2] by (unfold aligned in *; zdm).
  assert (∀ b, b < p ∨ p + 4096 ≤ b → load8 m2 b = load8 m b) as Hm.
  { intros b Hb. unfold m2, m1, m0, set_ent. rewrite !load8_store32_ne by lia.
    rewrite load8_mem_set. by rewrite decide_False by lia. }
  assert (ent m0 page_directory 0 = pts + 3) as E0.
  { unfold m0, ent. rewrite load32_mem_set_ne by lia.
    pose proof (I2 0 ltac:(lia)) as E. unfold ent in E. rewrite E. lia. }
  assert (ent m1 page_directory 1 = pts + 4096 + 3) as E1.
  { unfold m1, m0. rewrite ent_set_ne by lia. unfold ent. rewrite load32_mem_set_ne by lia.
    pose proof (I2 1 ltac:(lia)) as E. unfold ent in E. rewrite E. lia. }
  split; [split|split; [|done]].
  - intros t i Ht Hi. rewrite <-I1 by done. apply ent_ext. intros b Hb. apply Hm. left. lia.
  - intros t Ht. unfold m2. destruct (decide (t = 1)) as [->|].
    + rewrite ent_set_eq; rewrite E1; unfold is_u32; lia.
    + replace t with 0 by lia. rewrite ent_set_ne by lia. unfold m1.
      rewrite ent_set_eq; rewrite E0; unfold is_u32; lia.
  - intros i Hi. unfold m2, m1, m0. rewrite !ent_set_ne by lia. apply load32_mem_set_0; lia.
Qed.

(** A directory without user entries owns its own frame only. *)
Lemma empty_pd_owns (m : mem) p n q :
  (∀ i, 2 ≤ i < 1024 → ent m p i = 0) → owns m p n q → n = NPd ∧ q = p.
Proof using Type.
  intros Hz Ho. induction Ho as [|i T Hi [_ Hf] E|i T j F HT [? _]]; [done| |done].
  rewrite Hz in E by done. lia.
Qed.

Lemma empty_pd_wf (v : vm A) p :
  fa_inv (v_fa v) → fa_low v → frame p → ¬ fa_avail (v_fa v) p → (∀ i, 2 ≤ i < 1024 → ent (v_mem v) p i = 0) →
  pd_wf v p.
Proof using Type.
  intros Hi Hlow HF Ha Hz. pose proof (empty_pd_owns (v_mem v) p) as Ho. constructor; [done..| | | |].
  - intros i Hr. left. by apply Hz.
  - intros i T j HT. by apply Ho in HT as [? _].
  - intros n q Hq. by apply Ho in Hq as [_ ->].
  - intros n1 n2 q H1 H2. by apply Ho in H1 as [-> _], H2 as [-> _].
Qed.

(** A fresh directory: well-formed, with the kernel's identity map and no
    user mapping; only its own frame was taken and written. *)
Lemma create_pd_lemma (v : vm A) :
  fa_inv (v_fa v) → fa_low v → identity_map (v_mem v) page_directory pts →
  ∃ p v', paging_create_pd page_directory v = Some (p, v') ∧
    ((p = 0 ∧ v' = v ∧ ∀ q, ¬ fa_avail (v_fa v) q) ∨
     (fa_avail (v_fa v) p ∧ pd_wf v' p ∧ identity_map (v_mem v') p pts ∧
      (∀ i, 2 ≤ i < 1024 → ent (v_mem v') p i = 0) ∧
      (∀ q, fa_avail (v_fa v') q ↔ fa_avail (v_fa v) q ∧ q ≠ p) ∧
      (∀ b, b < p ∨ p + 4096 ≤ b → load8 (v_mem v') b = load8 (v_mem v) b))).
Proof using Hkd Hkt.
  intros Hi Hlow Hid. unfold paging_create_pd.
  destruct (vm_alloc_spec v Hi Hlow) as (p & v1 & -> & Hfa & Hm & Hc). cbn [mbind option_bind].
  destruct Hc as [(-> & -> & Hn)|(Hav & HF & Hne & Ha)].
  { exists 0, v. rewrite decide_True by done. auto. }
  rewrite decide_False by done. rewrite touch_frame by done. cbn [mbind option_bind].
  rewrite Hm. change PAGE_SIZE with 4096.
  pose proof (create_pd_mem (v_mem v) p HF Hid) as HM. cbv zeta in HM |- *. revert HM.
  match goal with |- context [vm_with_mem v1 ?m] => generalize m end.
  intros m2 (Hid2 & Hz & Hout). eexists p, _. split; [reflexivity|]. right.
  split_and!; [done| |done..]. apply empty_pd_wf; [done| |done|simpl; rewrite Ha; tauto|done].
  intros q. simpl. rewrite Ha. intros [? _]. by apply Hlow.
Qed.
End lifecycle.

(** ** Releasing *)

Section release.
Context {A : Type} `{!FrameAllocator A}.

Lemma vm_release_spec (v : vm A) p :
  fa_inv (v_fa v) → frame p →
  ∃ v', vm_release p v = Some v' ∧ fa_inv (v_fa v') ∧ v_mem v' = v_mem v ∧ v_cr3 v' = v_cr3 v ∧
    ∀ q, fa_avail (v_fa v') q ↔ fa_avail (v_fa v) q ∨ q = p.
Proof.
  intros Hi [Hal Hr]. destruct (fa_release_spec _ p Hi Hal ltac:(lia)) as (a & Ha & Hi' & Hq).
  unfold vm_release. rewrite Ha. eexists. split; [reflexivity|]. done.
Qed.

(** What a release loop maintains: the memory is untouched and the available
    frames are those of before together with [R]. *)
Definition released (v : vm A) (R : Z → Prop) (v' : vm A) : Prop :=
  fa_inv (v_fa v') ∧ v_mem v' = v_mem v ∧ v_cr3 v' = v_cr3 v ∧
  ∀ q, fa_avail (v_fa v') q ↔ fa_avail (v_fa v) q ∨ R q.

Lemma released_refl v : fa_inv (v_fa v) → released v (λ _, False) v.
Proof. intros. unfold released. naive_solver. Qed.

Lemma released_step v v' R p :
  released v R v' → frame p → ∃ v'', vm_release p v' = Some v'' ∧ released v (λ q, R q ∨ q = p) v''.
Proof.
  intros (Hi & Hm & Hc & Ha) HF. destruct (vm_release_spec v' p Hi HF) as (v'' & Hr & Hi' & Hm' & Hc' & Ha').
  exists v''. split; [done|]. split; [done|]. split; [congruence|]. split; [congruence|].
  intros q. rewrite Ha', Ha. tauto.
Qed.

Lemma released_iff v v' R R' : (∀ q, R q ↔ R' q) → released v R v' → released v R' v'.
Proof.
  intros HR (Hi & Hm & Hc & Ha). split_and!; [done..|]. intros q. by rewrite Ha, HR.
Qed.

Lemma release_table_frames_spec v v1 R T :
  released v R v1 → frame T → (∀ j, 0 ≤ j < 1024 → slot_ok (ent (v_mem v) T j)) →
  ∃ v', release_table_frames T v1 = Some v' ∧
    released v (λ q, R q ∨ ∃ j, 0 ≤ j < 1024 ∧ frame q ∧ ent (v_mem v) T j = q + 7) v'.
Proof.
  intros HR HT Hs. unfold release_table_frames. rewrite touch_frame by done. cbn [mbind option_bind].
  apply (for_u32_opt_inv (λ k v', released v
    (λ q, R q ∨ ∃ j, 0 ≤ j < k ∧ frame q ∧ ent (v_mem v) T j = q + 7) v')); [done| |].
  { eapply released_iff; [|done]. intros q. split; [auto|]. intros [?|(j & ? & _)]; [done|lia]. }
  intros k v2 Hk H2. unfold PT_ENTRIES in Hk. assert (v_mem v2 = v_mem v) as -> by apply H2.
  case_decide as Hp.
  - exists v2. split; [done|]. apply slot_absent in Hp; [|by apply Hs].
    eapply released_iff; [|done]. intros q. split; (intros [?|(j & Hj & HF & E)]; [by left|]).
    + right. exists j. split; [lia|done].
    + right. exists j. split; [|done]. destruct (decide (j = k)) as [->|]; [|lia].
      unfold frame in HF. lia.
  - apply slot_present in Hp as (F & HF & E); [|by apply Hs].
    rewrite E, frame_addr by done. destruct (released_step _ _ _ F H2 HF) as (v3 & -> & H3).
    exists v3. split; [done|]. eapply released_iff; [|done]. intros q. split.
    + intros [[?|(j & Hj & Hq)]| ->]; [by left|right; exists j; split; [lia|done]|].
      right. exists k. split; [lia|done].
    + intros [?|(j & Hj & Hq & Eq)]; [by left; left|].
      destruct (decide (j = k)) as [->|]; [right; lia|]. left. right. exists j. split; [lia|done].
Qed.

Lemma destroy_pde_spec v v1 R pd i :
  pd_wf v pd → released v R v1 → 2 ≤ i < 1024 →
  ∃ v', destroy_pde pd i v1 = Some v' ∧
    released v (λ q, R q ∨ owns (v_mem v) pd (NPt i) q ∨ ∃ j, owns (v_mem v) pd (NFr i j) q) v'.
Proof.
  intros Hwf HR Hi. unfold destroy_pde. assert (v_mem v1 = v_mem v) as -> by apply HR.
  case_decide as Hp.
  - apply slot_absent in Hp; [|by apply Hwf]. exists v1. split; [done|].
    assert (∀ T, ¬ owns (v_mem v) pd (NPt i) T) as Hn.
    { intros T. inversion 1 as [|? ? ? [_ ?]|]; subst. lia. }
    eapply released_iff; [|done]. intros q. split; [auto|].
    intros [?|[H|[j H]]]; [done|by apply Hn in H|].
    inversion H as [| |? T ? ? HT]; subst. by apply Hn in HT.
  - apply slot_present in Hp as (T & HT & E); [|by apply Hwf]. rewrite E, frame_addr by done.
    assert (owns (v_mem v) pd (NPt i) T) as Ho by (by constructor).
    destruct (release_table_frames_spec v v1 R T HR HT) as (v2 & -> & H2).
    { intros j Hj. by eapply (wf_ptes v pd). }
    cbn [mbind option_bind]. destruct (released_step _ _ _ T H2 HT) as (v3 & -> & H3).
    exists v3. split; [done|]. eapply released_iff; [|done]. intros q. split.
    + intros [[?|(j & Hj & Hq & Eq)]| ->]; [by left| |auto].
      right; right. exists j. by econstructor.
    + intros [?|[Hq|[j Hq]]]; [auto|right; by eapply owns_fun|]. left; right. exists j.
      inversion Hq as [| |? U ? ? HU ? ? EF]; subst.
      rewrite (owns_fun _ _ _ _ _ HU Ho) in EF. done.
Qed.

(** Destroying releases all owned frames and nothing else. *)
Lemma destroy_pd_lemma v pd :
  pd_wf v pd →
  ∃ v', paging_destroy_pd pd v = Some v' ∧ released v (λ q, ∃ n, owns (v_mem v) pd n q) v'.
Proof.
  intros Hwf. unfold paging_destroy_pd. rewrite touch_frame by apply Hwf. cbn [mbind option_bind].
  destruct (for_u32_opt_inv (λ k v', released v (λ q, ∃ i, 2 ≤ i < k ∧
    (owns (v_mem v) pd (NPt i) q ∨ ∃ j, owns (v_mem v) pd (NFr i j) q)) v')
    (destroy_pde pd) 2 PD_ENTRIES v) as (v1 & -> & H1); [done| | |].
  - eapply released_iff; [|apply released_refl, Hwf]. intros q. split; [done|]. intros (i & ? & _). lia.
  - intros i v1 Hi H1. destruct (destroy_pde_spec v v1 _ pd i Hwf H1 Hi) as (v2 & -> & H2).
    exists v2. split; [done|]. eapply released_iff; [|done]. intros q. split.
    + intros [(k & Hk & Hq)|Hq]; [exists k; split; [lia|done]|exists i; split; [lia|done]].
    + intros (k & Hk & Hq). destruct (decide (k = i)) as [->|]; [by right|].
      left. exists k. split; [lia|done].
  - cbn [mbind option_bind]. destruct (released_step _ _ _ pd H1 (wf_pd v pd Hwf)) as (v2 & -> & H2).
    exists v2. split; [done|]. eapply released_iff; [|done]. intros q. split.
    + intros [(i & _ & [?|[j ?]])| ->]; [eauto..|]. exists NPd. constructor. apply Hwf.
    + intros (n & Hq). inversion Hq as [|i T Hi|i T j F HT]; subst; [by right| |].
      * left. exists i. split; [done|]. by left.
      * left. exists i. split; [by eapply pt_in_range|]. right. eauto.
Qed.
End release.

(** A directory made by [paging_create_pd] while the kernel's identity map
    is in place translates every address below 8 MB to itself and faults on
    every other address; only the directory's own page is written.  It returns
    0, and changes nothing, exactly when no frame is available. *)
Theorem paging_create_pd_spec (page_directory pts : Z) (A : Type) (FA : FrameAllocator A) (v : vm A) :
  aligned page_directory ∧ 4096 ≤ page_directory < 1048576 →
  aligned pts ∧ 4096 ≤ pts < 1048576 - 4096 →
  fa_inv (v_fa v) → fa_low v → identity_map (v_mem v) page_directory pts →
  ∃ p v', paging_create_pd page_directory v = Some (p, v') ∧
    ((p = 0 ∧ v' = v ∧ ∀ q, ¬ fa_avail (v_fa v) q) ∨
     (fa_avail (v_fa v) p ∧ pd_wf v' p ∧
      (∀ virt, is_u32 virt → mmu_walk (v_mem v') p virt =
         if decide (virt < 8388608) then Some virt else None) ∧
      (∀ b, b < p ∨ p + 4096 ≤ b → load8 (v_mem v') b = load8 (v_mem v) b))).
Proof.
  intros Hkd Hkt Hi Hlow Hid.
  destruct (create_pd_lemma _ _ Hkd Hkt v Hi Hlow Hid) as (p & v' & E & [?|(Ha & Hwf & Hid' & Hz & _ & Hm)]);
    exists p, v'; (split; [done|]); [by left|right].
  split; [done|]. split; [done|]. split; [|done]. intros virt Hv. unfold mmu_walk. case_decide.
  - rewrite (identity_map_pte _ p pts) by (apply Hkt || done || (unfold is_u32 in Hv; lia)).
    simpl. rewrite pte_addr; [f_equal; zdm|zdm|lia|word_lia].
  - rewrite mmu_pte_absent; [done|]. apply Hz. apply pd_index_user; [done|lia].
Qed.

(** A machine after [pmm_init] and [paging_init], with the kernel directory
    at 0x10000 and its tables behind it. *)
Definition demo_vm : vm pmm := paging_init 65536 69632 (Vm ∅ small_pmm 0 0).

Lemma demo_kd : aligned 65536 ∧ 4096 ≤ 65536 < 1048576.
Proof. by split; [|lia]. Qed.
Lemma demo_kt : aligned 69632 ∧ 4096 ≤ 69632 < 1048576 - 4096.
Proof. by split; [|lia]. Qed.
Lemma demo_identity : identity_map (v_mem demo_vm) 65536 69632.
Proof.
  destruct (paging_init_entries 65536 69632 demo_kd demo_kt ltac:(lia) (Vm ∅ small_pmm 0 0))
    as (H1 & H2 & _). by split.
Qed.

Lemma paging_create_pd_spec_witness :
  ∃ p v', paging_create_pd 65536 demo_vm = Some (p, v') ∧
    (p = 0 ∨ mmu_walk (v_mem v') p 4096 = Some 4096).
Proof.
  destruct (paging_create_pd_spec 65536 69632 pmm pmm_frame_allocator demo_vm) as
    (p & v' & E & H); [split; [reflexivity|lia]..|apply small_pmm_wf|exact (proj2 small_pmm_wf)|apply demo_identity|].
  exists p, v'. split; [exact E|]. destruct H as [(H & _)|(_ & _ & H & _)]; [by left|right].
  apply H. unfold is_u32. lia.
Defined.

Lemma demo_created :
  ∃ v, paging_create_pd 65536 demo_vm = Some (1048576, v) ∧ pd_wf v 1048576 ∧
    identity_map (v_mem v) 1048576 69632 ∧ ∀ i, 2 ≤ i < 1024 → ent (v_mem v) 1048576 i = 0.
Proof.
  assert (fst <$> paging_create_pd 65536 demo_vm = Some 1048576) as Hp by (vm_compute; reflexivity).
  destruct (create_pd_lemma 65536 69632 demo_kd demo_kt demo_vm) as
    (p & v & E & H); [apply small_pmm_wf|exact (proj2 small_pmm_wf)|apply demo_identity|].
  rewrite E in Hp. injection Hp as ->. exists v. split; [exact E|].
  destruct H as [(H & _)|(_ & H1 & H2 & H3 & _)]; [discriminate H|exact (conj H1 (conj H2 H3))].
Qed.

Lemma paging_alloc_user_pages_spec_witness :
  ∃ v r v', paging_create_pd 65536 demo_vm = Some (1048576, v) ∧
    paging_alloc_user_pages 1048576 134217728 3 v = Some (r, v') ∧ pd_wf v' 1048576.
Proof.
  destruct demo_created as (v & E & Hwf & Hid & Hz).
  destruct (paging_alloc_user_pages_spec pmm pmm_frame_allocator v 1048576 69632 134217728 3)
    as (r & v' & Hr & Hwf' & _); [done|done|reflexivity|lia|reflexivity|lia|lia|lia| |].
  { intros virt Hv. apply mmu_pte_absent, Hz, pd_index_user; [unfold is_u32|]; lia. }
  exact (ex_intro _ v (ex_intro _ r (ex_intro _ v' (conj E (conj Hr Hwf'))))).
Defined.

(** ** Memory changes outside the tables of an address space *)

Definition is_table (n : node) : Prop := match n with NFr _ _ => False | _ => True end.

Section same_tables.
Context {A : Type} `{!FrameAllocator A} (v v' : vm A) (pd : Z).
Hypothesis Hwf : pd_wf v pd.
Hypothesis Hb : ∀ n q b, owns (v_mem v) pd n q → is_table n → q ≤ b < q + 4096 →
  load8 (v_mem v') b = load8 (v_mem v) b.

Lemma same_tables_ent n q j :
  owns (v_mem v) pd n q → is_table n → 0 ≤ j < 1024 → ent (v_mem v') q j = ent (v_mem v) q j.
Proof using Hb. intros Ho Hn Hj. apply ent_ext. intros b Hr. apply (Hb n q); [done|done|lia]. Qed.

(** The same directory and tables own the same frames. *)
Lemma same_tables_owns n q : owns (v_mem v') pd n q ↔ owns (v_mem v) pd n q.
Proof using Hwf Hb.
  assert (owns (v_mem v) pd NPd pd) as Hpd by (constructor; apply Hwf).
  split; induction 1 as [Hf|i T Hi Hf E|i T j G HT IH Hj Hf E].
  - by constructor.
  - constructor; [done..|]. by rewrite <-(same_tables_ent NPd) by (done || lia).
  - econstructor; [done..|]. by rewrite <-(same_tables_ent (NPt i)) by done.
  - by constructor.
  - constructor; [done..|]. by rewrite (same_tables_ent NPd) by (done || lia).
  - econstructor; [done..|]. by rewrite (same_tables_ent (NPt i)) by done.
Qed.

(** They are well-formed for every allocator that keeps these frames. *)
Lemma same_tables_wf :
  fa_inv (v_fa v') → fa_low v' → (∀ n q, owns (v_mem v) pd n q → ¬ fa_avail (v_fa v') q) → pd_wf v' pd.
Proof using Hwf Hb.
  intros Hi Hlow Hu. assert (owns (v_mem v) pd NPd pd) as Hpd by (constructor; apply Hwf).
  constructor; [done|done|apply Hwf| | | |].
  - intros i Hr. rewrite (same_tables_ent NPd) by (done || lia). by apply Hwf.
  - intros i T j HT Hj. apply same_tables_owns in HT. rewrite (same_tables_ent (NPt i)) by done.
    by apply (wf_ptes v pd Hwf i).
  - intros n q Hq. apply same_tables_owns in Hq. by apply (Hu n).
  - intros n1 n2 q. rewrite !same_tables_owns. apply (wf_inj v pd Hwf).
Qed.
End same_tables.

(** And they translate user addresses alike. *)
Lemma same_tables_pte {A} `{!FrameAllocator A} (v v' : vm A) pd virt :
  pd_wf v pd →
  (∀ n q b, owns (v_mem v) pd n q → is_table n → q ≤ b < q + 4096 → load8 (v_mem v') b = load8 (v_mem v) b) →
  is_u32 virt → 8388608 ≤ virt → mmu_pte (v_mem v') pd virt = mmu_pte (v_mem v) pd virt.
Proof.
  intros Hwf Hb Hv Hu. pose (w := vm_with_mem v (v_mem v')).
  assert (pd_wf w pd) as Hw by (apply (same_tables_wf v w pd Hwf Hb); [apply Hwf|exact (wf_low v pd Hwf)|apply (wf_used v pd Hwf)]).
  apply option_eq. intros e. change (v_mem v') with (v_mem w). rewrite !user_pte_iff by done.
  f_equiv. intros F. by rewrite (same_tables_owns v w pd Hwf Hb).
Qed.

Section isolation.
Context {A : Type} `{!FrameAllocator A} (v v' : vm A) (pd pd2 : Z).
Context (Hwf : pd_wf v pd) (Hwf' : pd_wf v' pd) (Hwf2 : pd_wf v pd2) (Hg : grows pd v v').
Context (Hdis : ∀ n1 n2 q, owns (v_mem v) pd n1 q → owns (v_mem v) pd2 n2 q → False).

Lemma grows_other_mem n q b :
  owns (v_mem v) pd2 n q → q ≤ b < q + 4096 → load8 (v_mem v') b = load8 (v_mem v) b.
Proof using Hwf Hwf2 Hg Hdis.
  intros Ho Hq. apply page_of_in in Hq; [|by eapply owns_frame]. subst q.
  apply Hg; [by eapply (wf_used v pd2)| |intros i Hi; by eapply Hdis].
  intros E. eapply Hdis; [|done]. rewrite E. constructor. apply Hwf.
Qed.

Lemma grows_other_tables n q b :
  owns (v_mem v) pd2 n q → is_table n → q ≤ b < q + 4096 → load8 (v_mem v') b = load8 (v_mem v) b.
Proof using Hwf Hwf2 Hg Hdis. intros Ho _. by apply (grows_other_mem n). Qed.

Lemma grows_other_owns n q : owns (v_mem v') pd2 n q ↔ owns (v_mem v) pd2 n q.
Proof using Hwf Hwf2 Hg Hdis. apply same_tables_owns; [done|apply grows_other_tables]. Qed.

Lemma grows_other_wf : pd_wf v' pd2.
Proof using Hwf Hwf' Hwf2 Hg Hdis.
  apply (same_tables_wf v); [done|apply grows_other_tables|apply Hwf'|apply Hwf'|].
  intros n q Ho Hav. eapply (wf_used v pd2); [done..|]. by apply Hg.
Qed.

(** An address space that shares no frame with a growing one is unchanged. *)
Lemma grows_other :
  pd_wf v' pd2 ∧
  (∀ n q, owns (v_mem v') pd2 n q ↔ owns (v_mem v) pd2 n q) ∧
  (∀ virt, is_u32 virt → 8388608 ≤ virt →
     mmu_pte (v_mem v') pd2 virt = mmu_pte (v_mem v) pd2 virt) ∧
  (∀ n q b, owns (v_mem v) pd2 n q → q ≤ b < q + 4096 → load8 (v_mem v') b = load8 (v_mem v) b) ∧
  (∀ n1 n2 q, owns (v_mem v') pd n1 q → owns (v_mem v') pd2 n2 q → False).
Proof using Hwf Hwf' Hwf2 Hg Hdis.
  split; [apply grows_other_wf|]. split; [apply grows_other_owns|].
  split; [|split; [apply grows_other_mem|]].
  - intros virt. apply same_tables_pte; [done|apply grows_other_tables].
  - intros n1 n2 q H1 H2. apply grows_other_owns in H2.
    destruct (gr_new _ _ _ Hg _ _ H1) as [?|?]; [by eapply Hdis|]. by eapply (wf_used v pd2).
Qed.
End isolation.

(** Isolation.  Allocating user pages in one address space changes nothing
    of another one that shares no frame with it: its directory stays
    well-formed, every translation under it is the same, and so are the
    contents of all frames it owns.  The frames of the two stay disjoint. *)
Theorem paging_alloc_isolation (A : Type) (FA : FrameAllocator A) (v : vm A)
    (pd pd2 virt_base n_pages : Z) r v' :
  pd_wf v pd → pd_wf v pd2 →
  (∀ n1 n2 q, owns (v_mem v) pd n1 q → owns (v_mem v) pd2 n2 q → False) →
  8388608 ≤ virt_base → 0 ≤ n_pages → virt_base + n_pages * 4096 ≤ 4294967296 →
  (∀ k, 0 ≤ k < n_pages → mmu_pte (v_mem v) pd (page_at virt_base k) = None) →
  paging_alloc_user_pages pd virt_base n_pages v = Some (r, v') →
  pd_wf v' pd2 ∧
  (∀ n q, owns (v_mem v') pd2 n q ↔ owns (v_mem v) pd2 n q) ∧
  (∀ virt, is_u32 virt → 8388608 ≤ virt →
     mmu_pte (v_mem v') pd2 virt = mmu_pte (v_mem v) pd2 virt) ∧
  (∀ n q b, owns (v_mem v) pd2 n q → q ≤ b < q + 4096 → load8 (v_mem v') b = load8 (v_mem v) b) ∧
  (∀ n1 n2 q, owns (v_mem v') pd n1 q → owns (v_mem v') pd2 n2 q → False).
Proof.
  intros Hwf Hwf2 Hdis Hb Hn Hr Hno Hcall.
  destruct (alloc_pages_loop_spec pd virt_base (Z.to_nat n_pages) Hb 0 v) as
    (r' & v1 & Hl & Hwf' & Hg & _); [lia|lia|done| |].
  { intros k F Hk Ho. rewrite Z2Nat.id in Hk by lia.
    assert (mmu_pte (v_mem v) pd (page_at virt_base k) = Some (F + 7)) as E.
    { apply user_pte_iff; [done|unfold is_u32, page_at; lia..|]. eauto. }
    rewrite Hno in E; [done|lia]. }
  unfold paging_alloc_user_pages in Hcall. rewrite Hl in Hcall. injection Hcall as -> ->.
  by apply grows_other.
Qed.

(** Two directories created one after the other. *)
#[local] Opaque paging_create_pd.
Lemma created_twice (v0 : vm pmm) :
  fa_inv (v_fa v0) → fa_low v0 → identity_map (v_mem v0) 65536 69632 →
  fst <$> paging_create_pd 65536 v0 = Some 1048576 →
  (pr ← paging_create_pd 65536 v0; fst <$> paging_create_pd 65536 pr.2) = Some 1052672 →
  ∃ v2 : vm pmm, pd_wf v2 1048576 ∧ pd_wf v2 1052672 ∧
    (∀ i, 2 ≤ i < 1024 → ent (v_mem v2) 1048576 i = 0) ∧
    ∀ i, 2 ≤ i < 1024 → ent (v_mem v2) 1052672 i = 0.
Proof.
  intros Hi Hlow [I1 I2] Hp1 Hp2.
  destruct (create_pd_lemma 65536 69632 demo_kd demo_kt v0 Hi Hlow (conj I1 I2)) as (p & v & E0 & H0).
  rewrite E0 in Hp1, Hp2. cbn [fmap option_fmap option_map mbind option_bind fst snd] in Hp1, Hp2.
  injection Hp1 as ->. destruct H0 as [(H0 & _)|(_ & Hwf & _ & Hz & _ & Hm)]; [discriminate H0|].
  assert (identity_map (v_mem v) 65536 69632) as Hk.
  { split.
    - intros t i Ht Hr. rewrite <-(I1 t i) by done. apply ent_ext. intros b Hb. apply Hm. lia.
    - intros t Ht. rewrite <-(I2 t) by done. apply ent_ext. intros b Hb. apply Hm. lia. }
  destruct (create_pd_lemma 65536 69632 demo_kd demo_kt v (wf_fa _ _ Hwf) (wf_low _ _ Hwf) Hk) as (p & v2 & E2 & H2).
  rewrite E2 in Hp2. injection Hp2 as ->.
  destruct H2 as [(H2 & _)|(Hav & Hwf2 & _ & Hz2 & Ha2 & Hm2)]; [discriminate H2|].
  assert (∀ i, 2 ≤ i < 1024 → ent (v_mem v2) 1048576 i = 0) as Hz1.
  { intros i Hr. rewrite <-(Hz i) by done. apply ent_ext. intros b Hb. apply Hm2. lia. }
  assert (pd_wf v2 1048576) as Hwf1.
  { apply empty_pd_wf; [apply Hwf2|apply Hwf2|apply Hwf| |done]. rewrite Ha2. intros [Hx _].
    revert Hx. apply (wf_used v 1048576 Hwf NPd). constructor. apply Hwf. }
  exists v2. done.
Qed.

#[local] Transparent paging_create_pd.

Lemma paging_alloc_isolation_witness :
  ∃ v2 r v', paging_alloc_user_pages 1048576 134217728 3 v2 = Some (r, v') ∧
    pd_wf v2 1052672 ∧ pd_wf v' 1052672.
Proof.
  destruct (created_twice demo_vm) as (v2 & Hwf1 & Hwf2 & Hz1 & Hz2);
    [apply small_pmm_wf|exact (proj2 small_pmm_wf)|apply demo_identity|vm_compute; reflexivity..|].
  assert (∀ k, 0 ≤ k < 3 → mmu_pte (v_mem v2) 1048576 (page_at 134217728 k) = None) as Hno.
  { intros k Hk. apply mmu_pte_absent, Hz1, pd_index_user; unfold is_u32, page_at; lia. }
  destruct (alloc_pages_loop_spec 1048576 134217728 (Z.to_nat 3) ltac:(lia) 0 v2) as
    (r & v' & Hl & _ & _); [lia|lia|done| |].
  { intros k F Hk Ho. by apply empty_pd_owns in Ho as [? _]. }
  destruct (paging_alloc_isolation pmm pmm_frame_allocator v2 1048576 1052672 134217728 3 r v')
    as [Hwf' _]; [done|done| |lia|lia|lia|exact Hno|exact Hl|].
  { intros n1 n2 q H1 H2. apply empty_pd_owns in H1 as [_ ->]; [|done].
    apply empty_pd_owns in H2 as [_ ?]; done. }
  exact (ex_intro _ v2 (ex_intro _ r (ex_intro _ v' (conj Hl (conj Hwf2 Hwf'))))).
Defined.

(** C11: [paging_destroy_pd] on a well-formed address space returns exactly the
    frames it owns to the allocator: the directory, its page tables and every
    frame they map.  It writes no memory. *)
Theorem paging_destroy_pd_spec (A : Type) (FA : FrameAllocator A) (v : vm A) pd :
  pd_wf v pd →
  ∃ v', paging_destroy_pd pd v = Some v' ∧ fa_inv (v_fa v') ∧ v_mem v' = v_mem v ∧
    ∀ q, fa_avail (v_fa v') q ↔ fa_avail (v_fa v) q ∨ ∃ n, owns (v_mem v) pd n q.
Proof.
  intros Hwf. destruct (destroy_pd_lemma v pd Hwf) as (v' & E & Hi & Hm & _ & Ha).
  exists v'. done.
Qed.

Lemma paging_destroy_pd_spec_witness :
  ∃ v v', paging_create_pd 65536 demo_vm = Some (1048576, v) ∧
    paging_destroy_pd 1048576 v = Some v' ∧ fa_avail (v_fa v') 1048576.
Proof.
  destruct demo_created as (v & E & Hwf & _).
  destruct (paging_destroy_pd_spec pmm pmm_frame_allocator v 1048576 Hwf) as (v' & Hd & _ & _ & Ha).
  assert (fa_avail (v_fa v') 1048576) as Hq.
  { apply Ha. right. exists NPd. constructor. apply Hwf. }
  exact (ex_intro _ v (ex_intro _ v' (conj E (conj Hd Hq)))).
Defined.

(** The life of an address space leaks nothing: after creating a directory,
    populating it with any number of pages (whether or not that succeeds) and
    destroying it, exactly the same frames are available as before. *)
Theorem address_space_roundtrip (page_directory pts : Z) (A : Type) (FA : FrameAllocator A)
    (v v1 v2 v3 : vm A) pd virt_base n_pages r :
  aligned page_directory ∧ 4096 ≤ page_directory < 1048576 →
  aligned pts ∧ 4096 ≤ pts < 1048576 - 4096 →
  fa_inv (v_fa v) → fa_low v → identity_map (v_mem v) page_directory pts →
  8388608 ≤ virt_base → 0 ≤ n_pages → virt_base + n_pages * 4096 ≤ 4294967296 →
  paging_create_pd page_directory v = Some (pd, v1) → pd ≠ 0 →
  paging_alloc_user_pages pd virt_base n_pages v1 = Some (r, v2) →
  paging_destroy_pd pd v2 = Some v3 →
  ∀ q, fa_avail (v_fa v3) q ↔ fa_avail (v_fa v) q.
Proof.
  intros Hkd Hkt Hi Hlow Hid Hb Hn Hr Hc Hpd Hal Hde.
  destruct (create_pd_lemma _ _ Hkd Hkt v Hi Hlow Hid) as (p & v' & E & Hcase).
  rewrite E in Hc. injection Hc as -> ->.
  destruct Hcase as [(? & _)|(Hav & Hwf & _ & Hz & Ha & _)]; [done|].
  assert (∀ i T, ¬ owns (v_mem v1) pd (NPt i) T) as Hnt.
  { intros i T. inversion 1 as [|? ? ? [_ ?] E1|]; subst. rewrite Hz in E1 by done. lia. }
  destruct (alloc_pages_loop_spec pd virt_base (Z.to_nat n_pages) Hb 0 v1) as
    (r' & v' & Hl & Hwf2 & Hg & _); [lia|lia|done| |].
  { intros k F Hk Ho. inversion Ho as [| |? ? ? ? HT]; subst. by apply Hnt in HT. }
  unfold paging_alloc_user_pages in Hal. rewrite Hl in Hal. injection Hal as -> ->.
  destruct (destroy_pd_lemma v2 pd Hwf2) as (v' & E' & _ & _ & _ & Ha').
  rewrite E' in Hde. injection Hde as ->. intros q. rewrite Ha'. split.
  - intros [Hq|[n Ho]]; [by apply Ha, (gr_avail _ _ _ Hg)|].
    destruct (gr_new _ _ _ Hg _ _ Ho) as [Ho1|Hq]; [|by apply Ha].
    inversion Ho1 as [|i T ? ? E1|? ? ? ? HT]; subst; [done| |by apply Hnt in HT].
    by destruct (Hnt i q).
  - intros Hq. destruct (decide (q = pd)) as [->|Hne]; [right; exists NPd; constructor; apply Hwf|].
    apply (gr_noleak _ _ _ Hg). by apply Ha.
Qed.

Lemma address_space_roundtrip_witness :
  ∃ v1 r v2 v3, paging_create_pd 65536 demo_vm = Some (1048576, v1) ∧
    paging_alloc_user_pages 1048576 134217728 3 v1 = Some (r, v2) ∧
    paging_destroy_pd 1048576 v2 = Some v3 ∧
    (fa_avail (v_fa v3) 1048576 ↔ fa_avail (v_fa demo_vm) 1048576).
Proof.
  destruct demo_created as (v & E & Hwf & Hid & Hz).
  destruct (alloc_pages_loop_spec 1048576 134217728 (Z.to_nat 3) ltac:(lia) 0 v) as
    (r & v2 & Hl & Hwf2 & _); [lia|lia|done| |].
  { intros k F Hk Ho. inversion Ho as [| |? ? ? ? HT]; subst.
    inversion HT as [|? ? ? [_ ?] E1|]; subst. rewrite Hz in E1 by done. lia. }
  destruct (destroy_pd_lemma v2 1048576 Hwf2) as (v3 & Hd & _).
  exact (ex_intro _ v (ex_intro _ r (ex_intro _ v2 (ex_intro _ v3 (conj E (conj Hl (conj Hd
    (address_space_roundtrip 65536 69632 pmm pmm_frame_allocator demo_vm v v2 v3 1048576 134217728 3 r
       demo_kd demo_kt (proj1 small_pmm_wf) (proj2 small_pmm_wf) demo_identity ltac:(lia) ltac:(lia) ltac:(lia) E ltac:(lia)
       Hl Hd 1048576)))))))).
Defined.

(** The allocator hands out frames up to 32 MB, but the kernel can access only
    the first 8 MB.  Once every available frame lies above 8 MB,
    [paging_create_pd] page-faults on the frame it has just allocated instead of
    returning. *)
Theorem create_pd_high_frame_faults (page_directory : Z) (A : Type) (FA : FrameAllocator A) (v : vm A) q :
  fa_inv (v_fa v) → (∀ q, fa_avail (v_fa v) q → 8388608 ≤ q) → fa_avail (v_fa v) q →
  paging_create_pd page_directory v = None.
Proof.
  intros Hi Hhigh Hq. unfold paging_create_pd, vm_alloc.
  destruct (fa_alloc_spec (v_fa v) Hi) as (p & a & -> & _ & [(_ & _ & Hn)|(Hav & _ & Hr & _)]).
  { by destruct (Hn q). }
  cbn [mbind option_bind]. rewrite decide_False by lia. unfold touch, PAGE_SIZE.
  rewrite decide_False; [done|]. specialize (Hhigh p Hav). lia.
Qed.

Lemma create_pd_high_frame_faults_witness :
  paging_create_pd 65536 (Vm ∅ high_pmm 65536 0) = None.
Proof.
  apply (create_pd_high_frame_faults 65536 pmm pmm_frame_allocator (Vm ∅ high_pmm 65536 0) 8388608);
    apply high_pmm_wf.
Defined.
