(* ===== verification/Process.v ===== *)
(** * Processes and the scheduler ([src/kernel/process.c], [process.h],
    [process.asm], [tss.c])

    The process table is a list of 16 records; the kernel stacks, which are
    arrays inside [process_t], are ranges of the byte memory at the address the
    struct layout gives them.  [current_process] is an index into the table or
    [None] for NULL.

    [process_yield] is the assembly routine, instruction by instruction, on a
    record of the registers it uses.  What the C functions it calls leave below
    the stack pointer is dead when they return and is not modelled; everything
    the assembly pushes is. *)

From S2P Require Import Prelude Mem CString Pmm Paging.

Definition MAX_PROCESSES : Z := 16.
Definition PROCESS_KSTACK_SIZE : Z := 8192.

Inductive proc_state := PROC_UNUSED | PROC_READY | PROC_RUNNING | PROC_BLOCKED | PROC_ZOMBIE.
#[export] Instance proc_state_eq_dec : EqDecision proc_state.
Proof. solve_decision. Defined.

Record process := Process {
  p_esp : Z; p_pd_phys : Z; p_state : proc_state; p_pid : Z;
  p_is_user : Z; p_user_eip : Z; p_user_esp : Z; p_name : list Z
}.

Definition set_esp (esp : Z) (p : process) : process :=
  Process esp (p_pd_phys p) (p_state p) (p_pid p) (p_is_user p) (p_user_eip p) (p_user_esp p) (p_name p).
Definition set_pd_phys (pd : Z) (p : process) : process :=
  Process (p_esp p) pd (p_state p) (p_pid p) (p_is_user p) (p_user_eip p) (p_user_esp p) (p_name p).
Definition set_state (st : proc_state) (p : process) : process :=
  Process (p_esp p) (p_pd_phys p) st (p_pid p) (p_is_user p) (p_user_eip p) (p_user_esp p) (p_name p).

(** ** The scheduler: decisions on the table alone *)

(** [process_table[i].f = ...]; [None] outside of the table. *)
Definition upd (t : list process) (i : Z) (f : process → process) : option (list process) :=
  p ← aget t i; aset t i (f p).

Definition state_of (t : list process) (i : Z) : option proc_state := p_state <$> aget t i.

(** The slot that [alloc_slot] returns. *)
Definition alloc_slot (t : list process) : option Z :=
  find_range (λ i, bool_decide (state_of t i = Some PROC_UNUSED)) 0 (Z.to_nat MAX_PROCESSES).

(** [sched_next] when [current_process] is NULL. *)
Definition sched_bootstrap (t : list process) : option (Z * list process) :=
  let i := default 0 (find_range (λ i, bool_decide (state_of t i = Some PROC_READY) ||
                                       bool_decide (state_of t i = Some PROC_RUNNING))
                                 0 (Z.to_nat MAX_PROCESSES)) in
  t ← upd t i (set_state PROC_RUNNING);
  Some (i, t).

(** The table after the running process has been put back to READY. *)
Definition demote (t : list process) (c : Z) : option (list process) :=
  if decide (state_of t c = Some PROC_RUNNING) then upd t c (set_state PROC_READY) else Some t.

(** The first READY slot after [c], in cyclic order, the slot of [c] last. *)
Definition next_ready (t : list process) (c : Z) : option Z :=
  k ← find_range (λ k, bool_decide (state_of t ((c + k) `mod` MAX_PROCESSES) = Some PROC_READY))
        1 (Z.to_nat MAX_PROCESSES);
  Some ((c + k) `mod` MAX_PROCESSES).

Definition sched_next (t : list process) (current : option Z) : option (Z * list process) :=
  match current with
  | None => sched_bootstrap t
  | Some c =>
      t ← demote t c;
      let i := default 0 (next_ready t c) in
      t ← upd t i (set_state PROC_RUNNING);
      Some (i, t)
  end.

(** ** The machine *)

(** The registers that a context switch saves and loads. *)
Record cpu := Cpu { r_ebx : Z; r_esi : Z; r_edi : Z; r_ebp : Z; r_esp : Z; r_eip : Z }.

(** Kernel state: paging, the table, [current_process], [next_pid], and the
    [esp0] field of the TSS. *)
Record kst (A : Type) := Kst {
  k_vm : vm A; k_table : list process; k_current : option Z; k_next_pid : Z; k_esp0 : Z
}.
Arguments Kst {A} _ _ _ _ _.
Arguments k_vm {A} _.
Arguments k_table {A} _.
Arguments k_current {A} _.
Arguments k_next_pid {A} _.
Arguments k_esp0 {A} _.

Section process.
(** Addresses of [process_table], of the kernel page directory, and of the
    code of [user_mode_enter] and [idle_process_fn]. *)
Context (process_table page_directory user_mode_enter idle_process_fn : Z).
Context {A : Type} `{!FrameAllocator A}.

Definition with_vm (v : vm A) (s : kst A) : kst A :=
  Kst v (k_table s) (k_current s) (k_next_pid s) (k_esp0 s).
Definition with_table (t : list process) (s : kst A) : kst A :=
  Kst (k_vm s) t (k_current s) (k_next_pid s) (k_esp0 s).
Definition with_current (c : option Z) (s : kst A) : kst A :=
  Kst (k_vm s) (k_table s) c (k_next_pid s) (k_esp0 s).
Definition k_mem (s : kst A) : mem := v_mem (k_vm s).
Definition with_k_mem (m : mem) (s : kst A) : kst A := with_vm (vm_with_mem (k_vm s) m) s.

(** [&process_table[i]]: the struct has 8252 bytes. *)
Definition proc_addr (i : Z) : Z := process_table + i * 8252.
(** [p->kstack + PROCESS_KSTACK_SIZE]: [kstack] is at offset 60. *)
Definition kstack_top (i : Z) : Z := proc_addr i + 60 + PROCESS_KSTACK_SIZE.

Definition push (v esp : Z) (m : mem) : Z * mem :=
  let esp := u32 (esp - 4) in (esp, store32 m esp v).

Definition pop (m : mem) (esp : Z) : Z * Z := (load32 m esp, u32 (esp + 4)).

(** The frame that [process_yield] pops, with [ret_addr] as return address. *)
Definition build_initial_kstack (i ret_addr : Z) (m : mem) : Z * mem :=
  let stk := kstack_top i in
  let '(stk, m) := push ret_addr stk m in
  let '(stk, m) := push 0 stk m in
  let '(stk, m) := push 0 stk m in
  let '(stk, m) := push 0 stk m in
  push 0 stk m.

(** [strncpy(p->name, name, 31); p->name[31] = 0] *)
Definition set_name (buf name : list Z) : option (list Z) :=
  b ← strncpy buf name 31; aset b 31 0.

(** The part that [process_create] and [process_create_user] share: NULL
    ([None]) when the table is full. *)
Definition create_with (name : list Z) (is_user user_eip user_esp pd_phys ret_addr : Z)
    (s : kst A) : option (option Z * kst A) :=
  match alloc_slot (k_table s) with
  | None => Some (None, s)
  | Some i =>
      p ← aget (k_table s) i;
      let pid := u32 (k_next_pid s + 1) in
      nm ← set_name (p_name p) name;
      let '(esp, m) := build_initial_kstack i ret_addr (k_mem s) in
      t ← aset (k_table s) i (Process esp pd_phys PROC_READY pid is_user user_eip user_esp nm);
      Some (Some i, Kst (vm_with_mem (k_vm s) m) t (k_current s) pid (k_esp0 s))
  end.

Definition process_create (name : list Z) (entry : Z) : kst A → option (option Z * kst A) :=
  create_with name 0 0 0 0 entry.

Definition process_create_user (name : list Z) (user_eip user_esp pd_phys : Z) :
    kst A → option (option Z * kst A) :=
  create_with name 1 user_eip user_esp pd_phys user_mode_enter.

Definition init_slot (p : process) : process :=
  Process (p_esp p) 0 PROC_UNUSED 0 0 (p_user_eip p) (p_user_esp p) (p_name p).

Definition process_init (s : kst A) : option (kst A) :=
  t ← for_u32_opt 0 MAX_PROCESSES (λ i t, upd t i init_slot) (k_table s);
  '(_, s) ← process_create [105; 100; 108; 101; 0] idle_process_fn
              (Kst (k_vm s) t (k_current s) 0 (k_esp0 s));
  Some s.

Definition tss_set_kernel_stack (esp : Z) (s : kst A) : kst A :=
  Kst (k_vm s) (k_table s) (k_current s) (k_next_pid s) esp.

(** [process_before_switch(next)]: TSS.ESP0 and CR3 of the incoming process. *)
Definition process_before_switch (next : Z) (s : kst A) : option (kst A) :=
  p ← aget (k_table s) next;
  let s := tss_set_kernel_stack (kstack_top next) s in
  let target_pd := if decide (p_pd_phys p = 0) then paging_get_kernel_pd_phys page_directory
                   else p_pd_phys p in
  if decide (target_pd = paging_get_cr3 (k_vm s)) then Some s
  else Some (with_vm (paging_switch target_pd (k_vm s)) s).

(** The end of [process_yield]: load ESP from [esi->esp], pop the callee-saved
    registers, and return. *)
Definition restore_context (esi : Z) (s : kst A) : option (cpu * kst A) :=
  p ← aget (k_table s) esi;
  let '(ebx, esp) := pop (k_mem s) (p_esp p) in
  let '(esi, esp) := pop (k_mem s) esp in
  let '(edi, esp) := pop (k_mem s) esp in
  let '(ebp, esp) := pop (k_mem s) esp in
  let '(eip, esp) := pop (k_mem s) esp in
  Some (Cpu ebx esi edi ebp esp eip, s).

(** [process_yield] of [process.asm].  On entry [r_esp] points at the return
    address that the call pushed. *)
Definition process_yield (c : cpu) (s : kst A) : option (cpu * kst A) :=
  let '(esp, m) := push (r_ebp c) (r_esp c) (k_mem s) in
  let '(esp, m) := push (r_edi c) esp m in
  let '(esp, m) := push (r_esi c) esp m in
  let '(esp, m) := push (r_ebx c) esp m in
  let s := with_k_mem m s in
  t ← (match k_current s with
       | None => Some (k_table s)
       | Some i => upd (k_table s) i (set_esp esp)
       end);
  '(esi, t) ← sched_next t (k_current s);
  let s := with_current (Some esi) (with_table t s) in
  let '(_, m) := push (proc_addr esi) esp (k_mem s) in
  s ← process_before_switch esi (with_k_mem m s);
  restore_context esi s.

(** [if (p->pd_phys) { paging_destroy_pd(p->pd_phys); p->pd_phys = 0; }
    p->state = PROC_ZOMBIE;] *)
Definition reap (i : Z) (s : kst A) : option (kst A) :=
  p ← aget (k_table s) i;
  v ← (if decide (p_pd_phys p = 0) then Some (k_vm s) else paging_destroy_pd (p_pd_phys p) (k_vm s));
  t ← upd (k_table s) i (λ p, set_state PROC_ZOMBIE (set_pd_phys 0 p));
  Some (with_table t (with_vm v s)).

(** The state in which the processor leaves [process_exit]: its final loop is
    reached only if a zombie is scheduled again. *)
Definition process_exit (c : cpu) (s : kst A) : option (cpu * kst A) :=
  s ← (match k_current s with None => Some s | Some i => reap i s end);
  process_yield c s.

Definition killable (t : list process) (pid i : Z) : bool :=
  match aget t i with
  | Some p => bool_decide (p_pid p = pid) && bool_decide (p_state p ≠ PROC_UNUSED) &&
              bool_decide (p_state p ≠ PROC_ZOMBIE)
  | None => false
  end.

Definition process_kill (pid : Z) (s : kst A) : option (Z * kst A) :=
  match find_range (killable (k_table s) pid) 0 (Z.to_nat MAX_PROCESSES) with
  | None => Some (-1, s)
  | Some i => s ← reap i s; Some (0, s)
  end.

Definition process_block (c : cpu) (s : kst A) : option (cpu * kst A) :=
  t ← (match k_current s with
       | None => Some (k_table s)
       | Some i => upd (k_table s) i (set_state PROC_BLOCKED)
       end);
  process_yield c (with_table t s).

Definition wake (p : process) : process :=
  if decide (p_state p = PROC_BLOCKED) then set_state PROC_READY p else p.

(** [process_wake(p)], [None] for the NULL pointer. *)
Definition process_wake (i : option Z) (s : kst A) : option (kst A) :=
  match i with
  | None => Some s
  | Some i => t ← upd (k_table s) i wake; Some (with_table t s)
  end.

Definition process_wake_all_blocked (s : kst A) : option (kst A) :=
  t ← for_u32_opt 0 MAX_PROCESSES (λ i t, upd t i wake) (k_table s);
  Some (with_table t s).
End process.

(** ** The table *)

Lemma upd_Some (t : list process) i (p : process) (f : process → process) : aget t i = Some p → upd t i f = Some (<[Z.to_nat i := f p]> t).
Proof.
  intros Hp. unfold upd. rewrite Hp. simpl. apply aset_Some. by eapply aget_Some_lt.
Qed.

Lemma upd_inv (t : list process) i (f : process → process) (t' : list process) :
  upd t i f = Some t' → ∃ p, aget t i = Some p ∧ t' = <[Z.to_nat i := f p]> t.
Proof.
  unfold upd. destruct (aget t i) as [p|] eqn:Hp; [|done]. simpl. intros H.
  rewrite aset_Some in H by (by eapply aget_Some_lt). injection H as <-. eauto.
Qed.

Lemma aget_upd (t : list process) i (p : process) (f : process → process) j :
  aget t i = Some p →
  aget (<[Z.to_nat i := f p]> t) j = if decide (i = j) then Some (f p) else aget t j.
Proof.
  intros Hp. pose proof (aget_Some_lt _ _ _ Hp). case_decide as Hd.
  - subst. by apply aget_insert_eq.
  - apply aget_insert_ne; lia.
Qed.

Lemma aget_total {B} (t : list B) n i : length t = n → 0 ≤ i < Z.of_nat n → ∃ p, aget t i = Some p.
Proof. intros <- Hi. by apply aget_is_Some. Qed.

(** A process that [sched_next] may choose: READY, or the running one itself. *)
Definition eligible (t : list process) (c j : Z) : Prop :=
  state_of t j = Some PROC_READY ∨ j = c ∧ state_of t c = Some PROC_RUNNING.

(** How many slots [j] comes after [c] in cyclic order, from 1 to 16. *)
Definition dist (c j : Z) : Z := (j - c - 1) `mod` 16 + 1.

Lemma dist_spec c j k :
  0 ≤ c < 16 → 0 ≤ j < 16 → 1 ≤ k ≤ 16 → (c + k) `mod` 16 = j ↔ k = dist c j.
Proof. unfold dist. intros. zdm. Qed.

Lemma dist_range c j : 1 ≤ dist c j ≤ 16.
Proof. unfold dist. zdm. Qed.

(** Moving forward from [c] to [i] without passing [j] gets closer to [j]. *)
Lemma dist_closer c i j :
  0 ≤ c < 16 → 0 ≤ i < 16 → 0 ≤ j < 16 → dist c i ≤ dist c j → i ≠ j →
  dist i j = dist c j - dist c i.
Proof. unfold dist. intros. zdm. Qed.

Lemma state_of_upd (t : list process) i (p : process) (f : process → process) j :
  aget t i = Some p →
  state_of (<[Z.to_nat i := f p]> t) j = if decide (i = j) then Some (p_state (f p)) else state_of t j.
Proof. intros Hp. unfold state_of. rewrite (aget_upd _ _ _ _ _ Hp). by case_decide. Qed.

Lemma demote_spec t c :
  length t = 16%nat → 0 ≤ c < 16 →
  ∃ t', demote t c = Some t' ∧ length t' = 16%nat ∧
    (∀ j, state_of t' j = Some PROC_READY ↔ eligible t c j) ∧
    (∀ j, aget t' j = if decide (j = c ∧ state_of t c = Some PROC_RUNNING)
                      then set_state PROC_READY <$> aget t j else aget t j).
Proof.
  intros Hl Hc. unfold demote, eligible. destruct (aget_total t 16 c Hl Hc) as [p Hp].
  case_decide as Hs.
  - rewrite (upd_Some _ _ _ _ Hp). eexists. split; [reflexivity|]. split; [by len|]. split; intros j.
    + rewrite (state_of_upd _ _ _ _ _ Hp). case_decide; naive_solver.
    + rewrite (aget_upd _ _ _ _ _ Hp). repeat case_decide; try naive_solver.
      destruct_and?. subst. by rewrite Hp.
  - exists t. split; [done|]. split; [done|]. split; intros j; [naive_solver|].
    rewrite decide_False; [done|]. naive_solver.
Qed.

Lemma next_ready_Some t c i :
  0 ≤ c < 16 → 0 ≤ i < 16 →
  next_ready t c = Some i ↔
  state_of t i = Some PROC_READY ∧
  ∀ j, 0 ≤ j < 16 → dist c j < dist c i → state_of t j ≠ Some PROC_READY.
Proof.
  intros Hc Hi. unfold next_ready, MAX_PROCESSES. split.
  - destruct (find_range _ _ _) as [k|] eqn:Hf; [|done]. intros [= <-].
    apply find_range_Some in Hf as (Hk & Hr & Hn). apply bool_decide_eq_true in Hr.
    split; [done|]. intros j Hj Hd. pose proof (dist_range c j).
    assert (k = dist c ((c + k) `mod` 16)) as Ek by (apply dist_spec; lia || done).
    specialize (Hn (dist c j) ltac:(lia)). apply bool_decide_eq_false in Hn.
    by rewrite (proj2 (dist_spec c j (dist c j) Hc Hj ltac:(lia)) eq_refl) in Hn.
  - intros [Hr Hn]. pose proof (dist_range c i).
    pose proof (proj2 (dist_spec c i (dist c i) Hc Hi ltac:(lia)) eq_refl) as Ei.
    assert (find_range (λ k, bool_decide (state_of t ((c + k) `mod` 16) = Some PROC_READY))
      1 (Z.to_nat 16) = Some (dist c i)) as ->; [|simpl; by rewrite Ei].
    apply find_range_Some. split; [lia|]. split; [by rewrite Ei; apply bool_decide_eq_true|].
    intros k Hk. apply bool_decide_eq_false. apply Hn; [zdm|].
    assert (k = dist c ((c + k) `mod` 16)) as <- by (apply dist_spec; try zdm; done). lia.
Qed.

Lemma next_ready_None t c :
  0 ≤ c < 16 → next_ready t c = None → ∀ j, 0 ≤ j < 16 → state_of t j ≠ Some PROC_READY.
Proof.
  intros Hc H j Hj. unfold next_ready, MAX_PROCESSES in H.
  destruct (find_range _ _ _) as [k|] eqn:Hf; [done|]. pose proof (dist_range c j).
  apply (proj1 (find_range_None _ _ _)) with (j := dist c j) in Hf; [|lia].
  apply bool_decide_eq_false in Hf.
  by rewrite (proj2 (dist_spec c j (dist c j) Hc Hj ltac:(lia)) eq_refl) in Hf.
Qed.

Lemma next_ready_range t c i : next_ready t c = Some i → 0 ≤ i < 16.
Proof.
  unfold next_ready, MAX_PROCESSES. destruct (find_range _ _ _); [|done]. intros [= <-]. zdm.
Qed.

(** ** Round robin *)

Lemma sched_next_lemma t c :
  length t = 16%nat → 0 ≤ c < 16 →
  ∃ i t', sched_next t (Some c) = Some (i, t') ∧ 0 ≤ i < 16 ∧ length t' = 16%nat ∧
    (eligible t c i ∧ (∀ j, 0 ≤ j < 16 → eligible t c j → dist c i ≤ dist c j) ∨
     i = 0 ∧ ∀ j, 0 ≤ j < 16 → ¬ eligible t c j) ∧
    (∀ j, aget t' j =
       if decide (j = i) then set_state PROC_RUNNING <$> aget t j
       else if decide (j = c ∧ state_of t c = Some PROC_RUNNING)
       then set_state PROC_READY <$> aget t j else aget t j).
Proof.
  intros Hl Hc. unfold sched_next. destruct (demote_spec t c Hl Hc) as (t1 & -> & Hl1 & He & Ha).
  cbn [mbind option_bind].
  assert (∃ i, default 0 (next_ready t1 c) = i ∧ 0 ≤ i < 16 ∧
    (eligible t c i ∧ (∀ j, 0 ≤ j < 16 → eligible t c j → dist c i ≤ dist c j) ∨
     i = 0 ∧ ∀ j, 0 ≤ j < 16 → ¬ eligible t c j)) as (i & -> & Hi & Hpick).
  { destruct (next_ready t1 c) as [i|] eqn:Hn; simpl.
    - pose proof (next_ready_range _ _ _ Hn) as Hi. exists i. split; [done|]. split; [done|]. left.
      apply next_ready_Some in Hn as [Hr Hn]; [|done..]. rewrite He in Hr. split; [done|].
      intros j Hj Hel%He. destruct (decide (dist c j < dist c i)); [|lia].
      by destruct (Hn j).
    - exists 0. split; [done|]. split; [lia|]. right. split; [done|]. intros j Hj Hel%He.
      by apply (next_ready_None t1 c Hc Hn j Hj). }
  destruct (aget_total t1 16 i Hl1 Hi) as [p Hp]. rewrite (upd_Some _ _ _ _ Hp).
  eexists i, _. split; [reflexivity|]. split; [done|]. split; [by len|]. split; [done|].
  intros j. rewrite (aget_upd _ _ _ _ _ Hp). destruct (decide (i = j)) as [E|Hne].
  - rewrite (decide_True (P := j = i)) by done. subst j. rewrite Ha in Hp.
    case_decide; [|by rewrite Hp]. destruct (aget t i); [|done]. by injection Hp as <-.
  - rewrite (decide_False (P := j = i)) by done. apply Ha.
Qed.

(** C20: [sched_next] is round robin.  With a current process [c] it chooses the
    eligible process that comes first after [c] in cyclic order ([c] itself
    last), makes it RUNNING, puts a running [c] back to READY and changes no
    other slot and no other field; only if no process is eligible it falls
    back to slot 0. *)
Theorem sched_next_round_robin t c :
  length t = 16%nat → 0 ≤ c < 16 →
  ∃ i t', sched_next t (Some c) = Some (i, t') ∧ 0 ≤ i < 16 ∧ length t' = 16%nat ∧
    ((∃ j, 0 ≤ j < 16 ∧ eligible t c j) →
       eligible t c i ∧ ∀ j, 0 ≤ j < 16 → eligible t c j → dist c i ≤ dist c j) ∧
    (¬ (∃ j, 0 ≤ j < 16 ∧ eligible t c j) → i = 0) ∧
    (∀ j, aget t' j =
       if decide (j = i) then set_state PROC_RUNNING <$> aget t j
       else if decide (j = c ∧ state_of t c = Some PROC_RUNNING)
       then set_state PROC_READY <$> aget t j else aget t j).
Proof.
  intros Hl Hc. destruct (sched_next_lemma t c Hl Hc) as (i & t' & E & Hi & Hl' & Hp & Ha).
  exists i, t'. split_and!; try done; try lia.
  - intros (j & Hj & He). destruct Hp as [?|[_ Hn]]; [done|]. by destruct (Hn j).
  - intros Hn. destruct Hp as [[He _]|[-> _]]; [|done]. destruct Hn. eauto.
Qed.

Definition demo_proc (st : proc_state) (pid : Z) : process :=
  Process 0 0 st pid 0 0 0 (replicate 32 0).
(** Idle READY, a blocked process, the running one, a READY one. *)
Definition demo_table : list process :=
  [demo_proc PROC_READY 1; demo_proc PROC_BLOCKED 2; demo_proc PROC_RUNNING 3; demo_proc PROC_READY 4]
  ++ replicate 12 (demo_proc PROC_UNUSED 0).

Lemma sched_next_round_robin_witness :
  ∃ t', sched_next demo_table (Some 2) = Some (3, t') ∧ state_of t' 2 = Some PROC_READY.
Proof.
  destruct (sched_next_round_robin demo_table 2 eq_refl ltac:(lia)) as (i & t' & E & _ & _ & _ & _ & Ha).
  assert (fst <$> sched_next demo_table (Some 2) = Some 3) as H3 by reflexivity.
  rewrite E in H3. injection H3 as ->. exists t'. split; [exact E|].
  unfold state_of. rewrite Ha. reflexivity.
Defined.

(** C21: no READY process starves.  Whatever the running processes do to the
    table between two calls of the scheduler, as long as process [j] stays
    READY it is chosen within 16 calls. *)
Theorem sched_fair (tb : nat → list process) (cur : nat → Z) j :
  (∀ k, length (tb k) = 16%nat) → 0 ≤ cur 0%nat < 16 → 0 ≤ j < 16 →
  (∀ k, fst <$> sched_next (tb k) (Some (cur k)) = Some (cur (S k))) →
  (∀ k, (∀ l, (0 < l ≤ k)%nat → cur l ≠ j) → state_of (tb k) j = Some PROC_READY) →
  ∃ k, (0 < k ≤ 16)%nat ∧ cur k = j.
Proof.
  intros Hl H0 Hj Hn Hr.
  assert (∀ k, (∃ l, (0 < l ≤ k)%nat ∧ cur l = j) ∨
    (∀ l, (0 < l ≤ k)%nat → cur l ≠ j) ∧ 0 ≤ cur k < 16 ∧ 1 ≤ dist (cur k) j ≤ 16 - Z.of_nat k) as H.
  { induction k as [|k [(l & Hlk & E)|(Hno & Hc & Hd)]].
    - right. pose proof (dist_range (cur 0%nat) j). split; [lia|]. split; [done|lia].
    - left. exists l. split; [lia|done].
    - destruct (sched_next_lemma (tb k) (cur k) (Hl k) Hc) as (i & t' & E & Hi & _ & Hp & _).
      specialize (Hn k). rewrite E in Hn. injection Hn as Hi'.
      destruct (decide (i = j)) as [->|Hne].
      { left. exists (S k). split; [lia|done]. }
      right. rewrite <-Hi'. assert (dist (cur k) i ≤ dist (cur k) j) as Hle.
      { destruct Hp as [[_ Hp]|[_ Hp]]; [apply Hp|destruct (Hp j)]; try done; left; by apply Hr. }
      pose proof (dist_closer (cur k) i j Hc Hi Hj Hle Hne). pose proof (dist_range (cur k) i).
      pose proof (dist_range i j).
      split; [|split; [done|lia]]. intros l Hlk. destruct (decide (l = S k)) as [->|]; [congruence|].
      apply Hno. lia. }
  destruct (H 16%nat) as [(k & Hk & E)|(_ & _ & Hd)]; [eauto|lia].
Qed.

Lemma sched_fair_witness :
  ∃ k, (0 < k ≤ 16)%nat ∧ (λ k : nat, match k with O => 2 | _ => 3 end) k = 3.
Proof.
  apply (sched_fair (λ k, match k with
      | O => demo_table
      | _ => <[3%nat := demo_proc PROC_RUNNING 4]> (<[2%nat := demo_proc PROC_BLOCKED 3]>
             (<[0%nat := demo_proc PROC_ZOMBIE 1]> demo_table)) end)).
  - intros [|k]; reflexivity.
  - simpl. lia.
  - lia.
  - intros [|k]; reflexivity.
  - intros [|k] H; [reflexivity|]. destruct (H 1%nat); [lia|reflexivity].
Defined.

(** ** The table invariant *)

(** [process.name] holds the first 31 characters of the name. *)
Lemma set_name_spec buf name t :
  length buf = 32%nat → is_cstr name t →
  ∃ b, set_name buf name = Some b ∧ length b = 32%nat ∧ cstr b = take 31 t.
Proof.
  intros Hl Hn. unfold set_name. pose proof Hn as (rest & _ & Hf).
  destruct (decide (length t ≤ 31)%nat) as [Hle|Hgt].
  - rewrite (strncpy_fits _ _ t) by (done || lia). cbn [mbind option_bind].
    rewrite aset_Some by (len; lia). eexists. split; [done|]. split; [len; lia|].
    rewrite take_ge by lia. apply cstr_is_cstr.
    destruct (decide (length t = 31%nat)) as [E|Hne].
    + rewrite E. simpl. rewrite insert_app_r_alt by (rewrite E; lia). rewrite E.
      destruct (drop 31 buf) as [|d l] eqn:Ed; [apply (f_equal length) in Ed; revert Ed; len; simpl; lia|].
      exists l. split; [done|done].
    + destruct (31 - length t)%nat as [|k] eqn:Ek; [lia|]. simpl.
      rewrite insert_app_r_alt by lia.
      destruct (Z.to_nat 31 - length t)%nat as [|k'] eqn:Ek'; [lia|]. simpl. eexists. split; [done|done].
  - rewrite (strncpy_long _ _ t) by (done || lia). cbn [mbind option_bind].
    rewrite aset_Some by (len; lia). eexists. split; [done|]. split; [len; lia|].
    apply cstr_is_cstr. rewrite insert_app_r_alt by (len; lia).
    rewrite length_take_le by lia. simpl.
    destruct (drop 31 buf) as [|d l] eqn:Ed; [apply (f_equal length) in Ed; revert Ed; len; simpl; lia|].
    exists l. split; [done|]. by apply Forall_take.
Qed.

(** The invariant of the kernel's process table: slot [i] holds the process
    with pid [i+1] once [i+1] processes have been created, only the current
    process is RUNNING, and [current_process] points at a created slot. *)
Record kinv {A} (s : kst A) : Prop := Kinv {
  ki_len : length (k_table s) = 16%nat;
  ki_pid : 1 ≤ k_next_pid s ≤ 16;
  ki_slot : ∀ i p, aget (k_table s) i = Some p →
    length (p_name p) = 32%nat ∧
    (p_state p = PROC_UNUSED ↔ k_next_pid s ≤ i) ∧ (i < k_next_pid s → p_pid p = i + 1) ∧
    (k_next_pid s ≤ i → p_pid p = 0);
  ki_run : ∀ i, state_of (k_table s) i = Some PROC_RUNNING → k_current s = Some i;
  ki_cur : ∀ c, k_current s = Some c → 0 ≤ c < k_next_pid s
}.

(** A table update that keeps pids, names and which slots are in use keeps the
    invariant, if it leaves no stray RUNNING slot. *)
Lemma kinv_table {A} (s s' : kst A) :
  kinv s → length (k_table s') = 16%nat → k_next_pid s' = k_next_pid s →
  (∀ i p', aget (k_table s') i = Some p' → ∃ p, aget (k_table s) i = Some p ∧
     p_pid p' = p_pid p ∧ length (p_name p') = length (p_name p) ∧
     (p_state p' = PROC_UNUSED ↔ p_state p = PROC_UNUSED)) →
  (∀ i, state_of (k_table s') i = Some PROC_RUNNING → k_current s' = Some i) →
  (∀ c, k_current s' = Some c → 0 ≤ c < k_next_pid s) →
  kinv s'.
Proof.
  intros Hk Hl Hp Hs Hr Hc. constructor; [done|rewrite Hp; apply Hk| |done|by rewrite Hp].
  intros i p' Ha. destruct (Hs i p' Ha) as (p & Hp' & E1 & E2 & E3).
  destruct (ki_slot s Hk i p Hp') as (F1 & F2 & F3 & F4). rewrite Hp, E1, E2, E3. done.
Qed.

Lemma kinv_slot_used {A} (s : kst A) i :
  kinv s → 0 ≤ i < k_next_pid s →
  ∃ p, aget (k_table s) i = Some p ∧ p_state p ≠ PROC_UNUSED ∧ p_pid p = i + 1.
Proof.
  intros Hk Hi. destruct (aget_total (k_table s) 16 i) as [p Hp]; [apply Hk| |].
  { pose proof (ki_pid s Hk). lia. }
  exists p. destruct (ki_slot s Hk i p Hp) as (_ & H1 & H2 & _). split; [done|].
  split; [|apply H2; lia]. rewrite H1. lia.
Qed.

(** A single slot changed by [f], which keeps pid, name and use. *)
Lemma kinv_upd {A} (s : kst A) t i f :
  kinv s → upd (k_table s) i f = Some t →
  (∀ p, p_pid (f p) = p_pid p ∧ p_name (f p) = p_name p) →
  (∀ p, aget (k_table s) i = Some p → (p_state (f p) = PROC_UNUSED ↔ p_state p = PROC_UNUSED) ∧
    (p_state (f p) = PROC_RUNNING → p_state p = PROC_RUNNING)) →
  kinv (with_table t s).
Proof.
  intros Hk Hu Hf Hst. apply upd_inv in Hu as (p & Hp & ->). apply (kinv_table s); simpl; [done|len; apply Hk|done| | |apply Hk].
  - intros j q Hq. rewrite (aget_upd _ _ _ _ _ Hp) in Hq. case_decide.
    + subst. injection Hq as <-. exists p. destruct (Hf p) as [-> ->]. destruct (Hst p Hp). done.
    + exists q. done.
  - intros j Hj. rewrite (state_of_upd _ _ _ _ _ Hp) in Hj. case_decide; [|by apply Hk].
    subst. injection Hj as Hj. apply Hst in Hj; [|done]. apply Hk. unfold state_of. by rewrite Hp, <-Hj.
Qed.

(** ** Operations keep the invariant *)

Section kinv_ops.
Context (process_table page_directory user_mode_enter idle_process_fn : Z).
Context {A : Type} `{!FrameAllocator A}.
Implicit Types (s : kst A).

Lemma alloc_slot_kinv s :
  kinv s → alloc_slot (k_table s) = if decide (k_next_pid s < 16) then Some (k_next_pid s) else None.
Proof using Type.
  intros Hk. unfold alloc_slot, MAX_PROCESSES. pose proof (ki_pid s Hk).
  assert (∀ j, 0 ≤ j < 16 → state_of (k_table s) j = Some PROC_UNUSED ↔ k_next_pid s ≤ j) as Hst.
  { intros j Hj. destruct (aget_total (k_table s) 16 j (ki_len s Hk) Hj) as [p Hp].
    destruct (ki_slot s Hk j p Hp) as (_ & H1 & _). rewrite <-H1. unfold state_of. rewrite Hp.
    simpl. split; congruence. }
  case_decide.
  - apply find_range_Some. split; [lia|]. split; [apply bool_decide_eq_true, Hst; lia|].
    intros j Hj. apply bool_decide_eq_false. rewrite Hst by lia. lia.
  - apply find_range_None. intros j Hj. apply bool_decide_eq_false. rewrite Hst by lia. lia.
Qed.

Lemma create_with_spec s name t is_user ueip uesp pd ret :
  kinv s → is_cstr name t →
  let '(esp, m) := build_initial_kstack process_table (k_next_pid s) ret (k_mem s) in
  (k_next_pid s = 16 ∧ create_with process_table name is_user ueip uesp pd ret s = Some (None, s)) ∨
  (k_next_pid s < 16 ∧ ∃ nm s',
     create_with process_table name is_user ueip uesp pd ret s = Some (Some (k_next_pid s), s') ∧
     cstr nm = take 31 t ∧ kinv s' ∧ k_mem s' = m ∧ k_next_pid s' = k_next_pid s + 1 ∧
     k_current s' = k_current s ∧
     ∀ j, aget (k_table s') j =
       if decide (j = k_next_pid s)
       then Some (Process esp pd PROC_READY (k_next_pid s + 1) is_user ueip uesp nm)
       else aget (k_table s) j).
Proof using Type.
  intros Hk Hn. destruct (build_initial_kstack _ _ _ _) as [esp m] eqn:Hb.
  unfold create_with. rewrite (alloc_slot_kinv s Hk). pose proof (ki_pid s Hk) as Hpid.
  case_decide as Hlt; [right|left; split; [lia|done]]. split; [done|].
  destruct (aget_total (k_table s) 16 (k_next_pid s) (ki_len s Hk) ltac:(lia)) as [p Hp].
  rewrite Hp. cbn [mbind option_bind].
  destruct (ki_slot s Hk _ p Hp) as (Hln & _).
  destruct (set_name_spec (p_name p) name t Hln Hn) as (nm & -> & Hnl & Hnc). cbn [mbind option_bind].
  rewrite Hb. rewrite aset_Some by (by eapply aget_Some_lt).
  rewrite u32_small by (unfold is_u32; lia).
  cbn [mbind option_bind]. eexists nm, _. split; [reflexivity|]. split; [done|].
  set (q := Process esp pd PROC_READY (k_next_pid s + 1) is_user ueip uesp nm).
  assert (∀ j, aget (<[Z.to_nat (k_next_pid s) := q]> (k_table s)) j =
    if decide (j = k_next_pid s) then Some q else aget (k_table s) j) as Ha.
  { intros j. rewrite (aget_upd _ _ _ (λ _, q) j Hp). repeat case_decide; congruence. }
  split; [|done]. constructor; simpl; [len; apply Hk|lia| | |].
  - intros i r. rewrite Ha. case_decide as Hd.
    + intros [= <-]. simpl. split; [done|]. split; [split; [done|lia]|]. lia.
    + intros Hr. destruct (ki_slot s Hk i r Hr) as (F1 & F2 & F3 & F4). split; [done|].
      rewrite F2. split; [lia|]. split; [intros; apply F3; lia|intros; apply F4; lia].
  - intros i. unfold state_of. rewrite Ha. case_decide; [done|]. apply Hk.
  - intros c Hc. apply Hk in Hc. lia.
Qed.

(** ** The context switch *)

(** [q] is [p] with another state. *)
Definition same_but_state (p q : process) : Prop := q = set_state (p_state q) p.

Lemma same_but_state_refl p : same_but_state p p.
Proof using Type. by destruct p. Qed.
Lemma same_but_state_set p st : same_but_state p (set_state st p).
Proof using Type. done. Qed.
Hint Resolve same_but_state_refl same_but_state_set : core.

(** From [t] to [t'] process [i] has been chosen: states change, [i] alone runs. *)
Definition picked (t : list process) (i : Z) (t' : list process) : Prop :=
  ∀ j p', aget t' j = Some p' → ∃ p, aget t j = Some p ∧ same_but_state p p' ∧
    (p_state p' = PROC_RUNNING ↔ j = i) ∧
    (p_state p' = PROC_UNUSED → p_state p = PROC_UNUSED) ∧
    (p_state p = PROC_UNUSED → j ≠ i → p_state p' = PROC_UNUSED).

(** [sched_next] for either value of [current_process]: it changes states only,
    and leaves the chosen process as the only RUNNING one if at most the
    current one was. *)
Lemma sched_next_any t cur n :
  length t = 16%nat → 1 ≤ n ≤ 16 → (∀ c, cur = Some c → 0 ≤ c < n) →
  (∀ i, state_of t i = Some PROC_RUNNING → cur = Some i) →
  (∀ i, state_of t i = Some PROC_READY → i < n) →
  ∃ i t', sched_next t cur = Some (i, t') ∧ 0 ≤ i < n ∧ length t' = 16%nat ∧
    picked t i t'.
Proof using Type.
  intros Hl Hn Hc Hrun Hrd. destruct cur as [c|].
  - specialize (Hc c eq_refl).
    destruct (sched_next_lemma t c Hl ltac:(lia)) as (i & t' & E & Hi & Hl' & Hp & Ha).
    exists i, t'. split; [done|]. split.
    { destruct Hp as [[[He|[-> _]] _]|[-> _]]; [apply Hrd in He; lia|lia|lia]. }
    split; [done|]. intros j p'. rewrite Ha. clear Ha. destruct (decide (j = i)) as [Hd|Hd].
    { intros (p & Hj & ->)%fmap_Some. exists p. simpl. naive_solver. }
    destruct (decide (j = c ∧ _)) as [Hd2|Hd2].
    { intros (p & Hj & ->)%fmap_Some. exists p. simpl.
      destruct Hd2 as [-> Hs]. unfold state_of in Hs. rewrite Hj in Hs. injection Hs as Hs.
      split; [done|]. split; [done|]. split; [naive_solver|]. split; [done|]. congruence. }
    intros Hj. exists p'. split; [done|]. split; [done|]. split; [|naive_solver].
    split; [|done]. intros Hs. destruct Hd2.
    assert (state_of t j = Some PROC_RUNNING) as Hsj by (unfold state_of; rewrite Hj; simpl; congruence).
    apply Hrun in Hsj as Hcj. simplify_eq. done.
  - unfold sched_next, sched_bootstrap.
    set (fr := find_range _ _ _).
    assert (0 ≤ default 0 fr < n) as Hi.
    { destruct fr as [i|] eqn:Hf; simpl; [|lia]. apply find_range_Some in Hf as (Hr & Hs & _).
      apply orb_true_iff in Hs as [Hs|Hs]; apply bool_decide_eq_true in Hs;
        [apply Hrd in Hs; lia|by apply Hrun in Hs]. }
    revert Hi. generalize (default 0 fr). intros i Hi.
    destruct (aget_total t 16 i Hl ltac:(lia)) as [p Hp].
    rewrite (upd_Some _ _ _ _ Hp). eexists i, _. split; [reflexivity|]. split; [done|]. split; [by len|].
    intros j p'. rewrite (aget_upd _ _ _ _ _ Hp). destruct (decide (i = j)) as [Hd|Hd].
    + subst. intros [= <-]. exists p. simpl. naive_solver.
    + intros Hj. exists p'. split; [done|]. split; [done|]. split; [|naive_solver].
      split; [|done]. intros Hs.
      assert (state_of t j = Some PROC_RUNNING) as Hsj by (unfold state_of; rewrite Hj; simpl; congruence).
      by apply Hrun in Hsj.
Qed.

(** The table with the stack pointer of the current process saved. *)
Definition saved (t : list process) (cur : option Z) (esp : Z) : option (list process) :=
  match cur with None => Some t | Some i => upd t i (set_esp esp) end.

(** The registers that popping the frame at [esp] loads. *)
Definition frame_ctx (m : mem) (esp : Z) : cpu :=
  Cpu (load32 m esp) (load32 m (esp + 4)) (load32 m (esp + 8)) (load32 m (esp + 12))
      (esp + 20) (load32 m (esp + 16)).

(** The memory after the pushes of [process_yield]. *)
Definition pushed (c : cpu) (x : Z) (m : mem) : mem :=
  store32 (store32 (store32 (store32 (store32 m (r_esp c - 4) (r_ebp c)) (r_esp c - 8) (r_edi c))
    (r_esp c - 12) (r_esi c)) (r_esp c - 16) (r_ebx c)) (r_esp c - 20) x.

Lemma saved_kinv s esp :
  kinv s → ∃ t, saved (k_table s) (k_current s) esp = Some t ∧ kinv (with_table t s) ∧
    ∀ j, aget t j = if decide (k_current s = Some j) then set_esp esp <$> aget (k_table s) j
                    else aget (k_table s) j.
Proof using Type.
  intros Hk. destruct (k_current s) as [i|] eqn:Hc; simpl.
  - destruct (kinv_slot_used s i Hk) as (p & Hp & _); [by apply Hk|].
    pose proof (upd_Some _ _ _ (set_esp esp) Hp) as Hu. eexists. split; [exact Hu|]. split.
    + eapply kinv_upd; [done|exact Hu|done|done].
    + intros j. rewrite (aget_upd _ _ _ _ _ Hp). repeat case_decide; simplify_eq; [by rewrite Hp|done].
  - exists (k_table s). split; [done|]. split; [by destruct s|]. done.
Qed.

(** Saved stack pointers lie in the identity-mapped memory. *)
Definition esps_ok s : Prop :=
  ∀ j p, aget (k_table s) j = Some p → 0 ≤ p_esp p < 8388608.

Lemma restore_context_eq i s p :
  aget (k_table s) i = Some p → 0 ≤ p_esp p < 8388608 →
  restore_context i s = Some (frame_ctx (k_mem s) (p_esp p), s).
Proof using Type.
  intros Hp Hr. unfold restore_context, pop. rewrite Hp. cbn [mbind option_bind].
  assert (∀ x, 0 ≤ x < 4294967296 → u32 x = x) as Hsm by (intros; by apply u32_small).
  rewrite !(Hsm (p_esp p + 4)) by lia. rewrite !(Hsm (p_esp p + 4 + 4)) by lia.
  rewrite !(Hsm (p_esp p + 4 + 4 + 4)) by lia. rewrite !(Hsm (p_esp p + 4 + 4 + 4 + 4)) by lia.
  rewrite !(Hsm (p_esp p + 4 + 4 + 4 + 4 + 4)) by lia.
  unfold frame_ctx. by rewrite <-!Z.add_assoc.
Qed.

(** The pushes, and what follows them. *)
Lemma process_yield_eq c s :
  20 ≤ r_esp c < 8388608 →
  process_yield process_table page_directory c s =
    (t ← saved (k_table s) (k_current s) (r_esp c - 16);
     '(i, t') ← sched_next t (k_current s);
     s ← process_before_switch process_table page_directory i
           (with_k_mem (pushed c (proc_addr process_table i) (k_mem s)) (with_current (Some i) (with_table t' s)));
     restore_context i s).
Proof using Type.
  intros Hesp. unfold process_yield, push.
  rewrite !(u32_small (r_esp c - 4)) by (unfold is_u32; lia).
  rewrite !(u32_small (r_esp c - 4 - 4)) by (unfold is_u32; lia).
  rewrite !(u32_small (r_esp c - 4 - 4 - 4)) by (unfold is_u32; lia).
  rewrite !(u32_small (r_esp c - 4 - 4 - 4 - 4)) by (unfold is_u32; lia).
  rewrite !(u32_small (r_esp c - 4 - 4 - 4 - 4 - 4)) by (unfold is_u32; lia).
  replace (r_esp c - 4 - 4 - 4 - 4 - 4) with (r_esp c - 20) by lia.
  replace (r_esp c - 4 - 4 - 4 - 4) with (r_esp c - 16) by lia.
  replace (r_esp c - 4 - 4 - 4) with (r_esp c - 12) by lia.
  replace (r_esp c - 4 - 4) with (r_esp c - 8) by lia. reflexivity.
Qed.

(** The table after the choice of process [i]. *)
Lemma picked_kinv s t i t' m :
  kinv (with_table t s) → length t' = 16%nat → 0 ≤ i < k_next_pid s →
  picked t i t' →
  kinv (tss_set_kernel_stack (kstack_top process_table i) (with_k_mem m (with_current (Some i) (with_table t' s)))).
Proof using Type.
  intros Hkt Hl' Hi Ha'.
  apply (kinv_table (with_table t s)); [done|done|done| | |].
  - simpl. intros j q Hq. destruct (Ha' j q Hq) as (q0 & Hq0 & E & _ & E1 & E2). exists q0.
    split; [done|]. rewrite E. split; [done|]. split; [done|]. simpl. split; [done|].
    intros Hu. apply E2; [done|]. intros ->.
    destruct (ki_slot _ Hkt i q0 Hq0) as (_ & Hun & _). apply Hun in Hu. simpl in Hu. lia.
  - simpl. intros j Hj. unfold state_of in Hj. destruct (aget t' j) as [q|] eqn:Hq; [|done].
    injection Hj as Hj. destruct (Ha' j q Hq) as (_ & _ & _ & Hr & _). f_equal. symmetry. by apply Hr.
  - simpl. intros ? [= <-]. done.
Qed.

(** [process_yield] as a whole: who runs next, what it resumes with, and the
    CR3 and TSS.ESP0 it runs under. *)
Lemma process_yield_lemma c s :
  kinv s → 20 ≤ r_esp c < 8388608 → esps_ok s →
  ∃ t i t' s' p,
    saved (k_table s) (k_current s) (r_esp c - 16) = Some t ∧
    sched_next t (k_current s) = Some (i, t') ∧
    k_table s' = t' ∧ k_current s' = Some i ∧ k_next_pid s' = k_next_pid s ∧
    k_mem s' = pushed c (proc_addr process_table i) (k_mem s) ∧
    k_esp0 s' = kstack_top process_table i ∧
    aget t' i = Some p ∧ p_state p = PROC_RUNNING ∧
    v_cr3 (k_vm s') = (if decide (p_pd_phys p = 0) then page_directory else p_pd_phys p) ∧
    process_yield process_table page_directory c s = Some (frame_ctx (k_mem s') (p_esp p), s') ∧
    kinv s'.
Proof using Type.
  intros Hk Hesp Hpe. rewrite process_yield_eq by done.
  destruct (saved_kinv s (r_esp c - 16) Hk) as (t & Ht & Hkt & Hta). rewrite Ht. cbn [mbind option_bind].
  destruct (sched_next_any t (k_current s) (k_next_pid s)) as (i & t' & Hs & Hi & Hl' & Ha');
    [apply Hkt|apply Hk|apply Hk|apply Hkt| |].
  { intros j Hj. destruct (decide (j < k_next_pid s)); [done|].
    unfold state_of in Hj. destruct (aget t j) as [p|] eqn:Hp; [|done]. simplify_eq/=.
    destruct (ki_slot _ Hkt j p Hp) as (_ & Hun & _). simpl in Hun.
    rewrite (proj2 Hun) in Hj by lia. done. }
  rewrite Hs. cbn [mbind option_bind].
  destruct (aget_total t' 16 i Hl') as [p Hp]; [pose proof (ki_pid s Hk); lia|].
  destruct (Ha' i p Hp) as (p0 & Hp0 & Hsb & Hrun & _).
  assert (0 ≤ p_esp p < 8388608) as Hpesp.
  { rewrite Hsb. simpl. rewrite Hta in Hp0. destruct (aget (k_table s) i) as [q|] eqn:Hq;
      [|by case_decide]. case_decide; simplify_eq/=; [lia|by eapply Hpe]. }
  unfold process_before_switch, paging_get_kernel_pd_phys, paging_get_cr3.
  cbn [with_current with_table with_k_mem with_vm k_table k_vm v_mem vm_with_mem].
  rewrite Hp. cbn [mbind option_bind].
  set (pd := if decide (p_pd_phys p = 0) then page_directory else p_pd_phys p).
  pose (s1 := tss_set_kernel_stack (kstack_top process_table i)
    (with_k_mem (pushed c (proc_addr process_table i) (k_mem s)) (with_current (Some i) (with_table t' s)))).
  assert (kinv s1) as Hk1 by (by apply (picked_kinv s t i t')).
  assert (∀ s2 : kst A, k_table s2 = t' → restore_context i s2 = Some (frame_ctx (k_mem s2) (p_esp p), s2)) as Hres.
  { intros s2 Ht2. by apply restore_context_eq; [rewrite Ht2|]. }
  destruct (decide (pd = v_cr3 (k_vm s))) as [E|E].
  - exists t, i, t', s1, p. split_and!; try done; [by apply Hrun|].
    rewrite decide_True by exact E. exact (Hres s1 eq_refl).
  - exists t, i, t', (with_vm (paging_switch pd (k_vm s1)) s1), p. split_and!; try done.
    + by apply Hrun.
    + rewrite decide_False by exact E. exact (Hres (with_vm (paging_switch pd (k_vm s1)) s1) eq_refl).
    + by apply (kinv_table s1); try apply Hk1; try done; intros j q Hq; exists q.
Qed.

Definition regs_ok (c : cpu) : Prop :=
  is_u32 (r_ebx c) ∧ is_u32 (r_esi c) ∧ is_u32 (r_edi c) ∧ is_u32 (r_ebp c).

(** The context in which the caller of [process_yield] continues. *)
Definition resume_ctx (c : cpu) (m : mem) : cpu :=
  Cpu (r_ebx c) (r_esi c) (r_edi c) (r_ebp c) (r_esp c + 4) (load32 m (r_esp c)).

Lemma frame_ctx_ext (m m' : mem) esp :
  (∀ b, esp ≤ b < esp + 20 → load8 m' b = load8 m b) → frame_ctx m' esp = frame_ctx m esp.
Proof using Type.
  intros H. unfold frame_ctx. f_equal; apply load32_ext; intros; apply H; lia.
Qed.

Lemma pushed_frame c x m :
  regs_ok c → frame_ctx (pushed c x m) (r_esp c - 16) = resume_ctx c m.
Proof using Type.
  intros (H1 & H2 & H3 & H4). unfold frame_ctx, resume_ctx, pushed. f_equal; try lia.
  - rewrite load32_store32_ne by lia. by rewrite load32_store32_eq.
  - replace (r_esp c - 16 + 4) with (r_esp c - 12) by lia.
    rewrite !load32_store32_ne by lia. by rewrite load32_store32_eq.
  - replace (r_esp c - 16 + 8) with (r_esp c - 8) by lia.
    rewrite !load32_store32_ne by lia. by rewrite load32_store32_eq.
  - replace (r_esp c - 16 + 12) with (r_esp c - 4) by lia.
    rewrite !load32_store32_ne by lia. by rewrite load32_store32_eq.
  - rewrite !load32_store32_ne by lia. f_equal. lia.
Qed.

(** What a yield leaves behind for the process that called it. *)
(** Whoever is chosen, TSS.ESP0 is the top of its kernel stack. *)
Lemma yield_esp0 c s c' s' :
  process_yield process_table page_directory c s = Some (c', s') →
  ∃ j, k_current s' = Some j ∧ k_esp0 s' = kstack_top process_table j.
Proof using Type.
  unfold process_yield. cbn [push]. intros (t & _ & ([j t1] & _ & (s1 & Hb & Hr)%bind_Some)%bind_Some)%bind_Some.
  exists j. assert (s' = s1) as ->.
  { unfold restore_context in Hr. apply bind_Some in Hr as (p & _ & Hr). cbn [pop] in Hr. by injection Hr as <- <-. }
  unfold process_before_switch in Hb. apply bind_Some in Hb as (p & _ & Hb). cbv zeta in Hb.
  case_decide; injection Hb as <-; done.
Qed.

Lemma yield_saves c s i c' s' :
  kinv s → esps_ok s → 20 ≤ r_esp c < 8388608 → regs_ok c → k_current s = Some i →
  process_yield process_table page_directory c s = Some (c', s') →
  (p_esp <$> aget (k_table s') i = Some (r_esp c - 16)) ∧
  frame_ctx (k_mem s') (r_esp c - 16) = resume_ctx c (k_mem s).
Proof using Type.
  intros Hk Hes Hr Hrg Hc Hy.
  destruct (process_yield_lemma c s Hk Hr Hes) as
    (t & n & t' & s1 & p & Ht & Hs & Htab & _ & _ & Hm & _ & _ & _ & _ & Hy' & _).
  rewrite Hy in Hy'. injection Hy' as -> ->. split.
  - destruct (saved_kinv s (r_esp c - 16) Hk) as (t0 & Ht0 & Hkt & Hta).
    rewrite Ht in Ht0. injection Ht0 as <-.
    destruct (kinv_slot_used s i Hk) as (q & Hq & _); [by apply Hk|].
    assert (aget t i = Some (set_esp (r_esp c - 16) q)) as Hti
      by (rewrite Hta, decide_True by done; by rewrite Hq).
    rewrite Hc in Hs. destruct (sched_next_lemma t i) as (n' & t1 & E & _ & _ & _ & Ha);
      [apply Hkt|pose proof (ki_cur s Hk i Hc); pose proof (ki_pid s Hk); lia|].
    rewrite Hs in E. injection E as <- <-. rewrite Htab, Ha, Hti. by repeat case_decide.
  - rewrite Hm. by apply pushed_frame.
Qed.

(** The process switched to, if it is another one: only its state differs. *)
Lemma yield_target c s i q c' s' :
  kinv s → esps_ok s → 20 ≤ r_esp c < 8388608 → k_current s ≠ Some i →
  aget (k_table s) i = Some q →
  process_yield process_table page_directory c s = Some (c', s') → k_current s' = Some i →
  ∃ p, aget (k_table s') i = Some p ∧ same_but_state q p ∧ p_state p = PROC_RUNNING ∧
    c' = frame_ctx (k_mem s') (p_esp p) ∧ k_mem s' = pushed c (proc_addr process_table i) (k_mem s) ∧
    k_esp0 s' = kstack_top process_table i ∧
    v_cr3 (k_vm s') = (if decide (p_pd_phys p = 0) then page_directory else p_pd_phys p).
Proof using Type.
  intros Hk Hes Hr Hc Hq Hy Hi.
  destruct (process_yield_lemma c s Hk Hr Hes) as
    (t & n & t' & s1 & p & Ht & Hs & Htab & Hn & _ & Hm & H0 & Hp & Hst & Hcr & Hy' & _).
  rewrite Hy in Hy'. injection Hy' as -> ->. rewrite Hn in Hi. injection Hi as ->.
  exists p. rewrite Htab. split; [done|]. split; [|done].
  destruct (saved_kinv s (r_esp c - 16) Hk) as (t0 & Ht0 & Hkt & Hta).
  rewrite Ht in Ht0. injection Ht0 as <-.
  destruct (sched_next_any t (k_current s) (k_next_pid s)) as (i' & t1 & E & _ & _ & Ha);
    [apply Hkt|apply Hk|apply Hk|apply Hkt| |].
  { intros j Hj. destruct (decide (j < k_next_pid s)); [done|].
    unfold state_of in Hj. destruct (aget t j) as [r|] eqn:Hpj; [|done]. injection Hj as Hj.
    destruct (ki_slot _ Hkt j r Hpj) as (_ & Hun & _). simpl in Hun.
    rewrite (proj2 Hun) in Hj by lia. done. }
  rewrite Hs in E. injection E as <- <-. destruct (Ha i p Hp) as (p0 & Hp0 & Hsame & _).
  rewrite Hta, decide_False, Hq in Hp0 by done. by injection Hp0 as <-.
Qed.

(** A process switched to resumes from its saved frame, which the yielding
    process does not overwrite. *)
Lemma yield_loads c s i q c' s' :
  kinv s → esps_ok s → 20 ≤ r_esp c < 8388608 → k_current s ≠ Some i →
  aget (k_table s) i = Some q →
  p_esp q + 20 ≤ r_esp c - 20 ∨ r_esp c ≤ p_esp q →
  process_yield process_table page_directory c s = Some (c', s') → k_current s' = Some i →
  c' = frame_ctx (k_mem s) (p_esp q).
Proof using Type.
  intros Hk Hes Hr Hc Hq Hdis Hy Hi.
  destruct (yield_target c s i q c' s' Hk Hes Hr Hc Hq Hy Hi) as (p & _ & -> & _ & -> & Hm & _).
  rewrite Hm. apply frame_ctx_ext. intros b Hb. unfold pushed.
  by rewrite !load8_store32_ne by lia.
Qed.
End kinv_ops.

(** A context switch is transparent to the process that yields.  When a
    process [i] calls [process_yield] and later another process [j] yields to
    it, [i] continues at its return address with the same EBX, ESI, EDI, EBP and
    stack pointer, provided nothing has overwritten its saved frame meanwhile
    and each of the two runs on its own kernel stack. *)
Theorem context_switch_roundtrip (process_table page_directory : Z) (A : Type) (FA : FrameAllocator A)
    i j (c c1 c2 c3 : cpu) (s s1 s2 s3 : kst A) :
  0 ≤ process_table → process_table + 16 * 8252 < 8388608 → i ≠ j →
  kinv s → esps_ok s → regs_ok c → k_current s = Some i →
  proc_addr process_table i + 80 ≤ r_esp c ≤ kstack_top process_table i - 4 →
  process_yield process_table page_directory c s = Some (c1, s1) →
  kinv s2 → esps_ok s2 → k_current s2 = Some j →
  p_esp <$> aget (k_table s2) i = p_esp <$> aget (k_table s1) i →
  (∀ b, r_esp c - 16 ≤ b < r_esp c + 4 → load8 (k_mem s2) b = load8 (k_mem s1) b) →
  proc_addr process_table j + 80 ≤ r_esp c2 ≤ kstack_top process_table j →
  process_yield process_table page_directory c2 s2 = Some (c3, s3) → k_current s3 = Some i →
  c3 = resume_ctx c (k_mem s).
Proof.
  intros Ht0 Ht1 Hij Hk Hes Hrg Hc Hr Hy Hk2 Hes2 Hc2 Hesp Hfr Hr2 Hy2 Hc3.
  unfold kstack_top, PROCESS_KSTACK_SIZE, proc_addr in *.
  assert (0 ≤ i < 16 ∧ 0 ≤ j < 16) as [Hi Hj].
  { pose proof (ki_cur s Hk i Hc). pose proof (ki_cur s2 Hk2 j Hc2).
    pose proof (ki_pid s Hk). pose proof (ki_pid s2 Hk2). lia. }
  destruct (yield_saves process_table page_directory c s i c1 s1 Hk Hes ltac:(lia) Hrg Hc Hy) as [E1 E2].
  rewrite E1 in Hesp. apply fmap_Some in Hesp as (q & Hq & Eq).
  rewrite <-E2, (yield_loads process_table page_directory c2 s2 i q c3 s3 Hk2 Hes2 ltac:(lia)
    ltac:(congruence) Hq ltac:(nia) Hy2 Hc3).
  rewrite <-Eq. apply frame_ctx_ext. intros b Hb. apply Hfr. lia.
Qed.

(** ** A checker for the invariant, for concrete states *)

Definition slot_check (n : Z) (cur : option Z) (i : Z) (p : process) : bool :=
  bool_decide (length (p_name p) = 32%nat) &&
  bool_decide (0 ≤ p_esp p < 8388608) &&
  bool_decide (p_state p = PROC_UNUSED ↔ n ≤ i) &&
  bool_decide (p_pid p = if decide (i < n) then i + 1 else 0) &&
  (bool_decide (p_state p ≠ PROC_RUNNING) || bool_decide (cur = Some i)).

Definition kinv_check {A} (s : kst A) : bool :=
  bool_decide (length (k_table s) = 16%nat) && bool_decide (1 ≤ k_next_pid s ≤ 16) &&
  forallb (λ i, match k_table s !! i with
                | Some p => slot_check (k_next_pid s) (k_current s) (Z.of_nat i) p
                | None => false end) (seq 0 16) &&
  match k_current s with Some c => bool_decide (0 ≤ c < k_next_pid s) | None => true end.

Lemma kinv_check_sound {A} (s : kst A) : kinv_check s = true → kinv s ∧ esps_ok s.
Proof.
  unfold kinv_check. rewrite !andb_true_iff. intros (((H1 & H2) & H3) & H4).
  apply bool_decide_eq_true in H1, H2. rewrite forallb_forall in H3.
  assert (∀ i p, aget (k_table s) i = Some p → slot_check (k_next_pid s) (k_current s) i p = true) as Hs.
  { intros i p Hp. pose proof (aget_Some_lt _ _ _ Hp) as Hi. rewrite H1 in Hi.
    specialize (H3 (Z.to_nat i)). unfold aget in Hp. rewrite decide_True in Hp by lia.
    rewrite Hp, Z2Nat.id in H3 by lia. apply H3, in_seq. lia. }
  unfold slot_check in Hs. split; [constructor|]; [done|done| | | |].
  - intros i p Hp. specialize (Hs i p Hp). rewrite !andb_true_iff, !bool_decide_eq_true in Hs.
    destruct Hs as ((((? & ?) & ?) & Hpid) & _). split; [done|]. split; [done|].
    split; intros; rewrite Hpid; by case_decide; try lia.
  - intros i Hi. apply fmap_Some in Hi as (p & Hp & Hst). specialize (Hs i p Hp).
    rewrite !andb_true_iff, orb_true_iff, !bool_decide_eq_true in Hs. naive_solver.
  - intros c Hc. rewrite Hc in H4. by apply bool_decide_eq_true in H4.
  - intros i p Hp. specialize (Hs i p Hp). rewrite !andb_true_iff, !bool_decide_eq_true in Hs. tauto.
Qed.

(** Four processes with the table at 0x20000; process 3 (slot 2) is running. *)
Definition demo_kst : kst pmm := Kst (Vm ∅ (Pmm [] 0 0) 65536 0) demo_table (Some 2) 4 0.
Definition demo_cpu : cpu := Cpu 11 22 33 44 (kstack_top 131072 2 - 100) 0.
(** After its yield process 4 (slot 3) is running; idle is made to block. *)
Definition demo_kst1 : kst pmm := default demo_kst (snd <$> process_yield 131072 65536 demo_cpu demo_kst).
Definition demo_kst2 : kst pmm :=
  with_table (default [] (upd (k_table demo_kst1) 0 (set_state PROC_BLOCKED))) demo_kst1.
Definition demo_cpu2 : cpu := Cpu 0 0 0 0 (kstack_top 131072 3) 0.

Lemma context_switch_roundtrip_witness :
  fst <$> process_yield 131072 65536 demo_cpu2 demo_kst2 =
  Some (resume_ctx demo_cpu (k_mem demo_kst)).
Proof.
  destruct (process_yield 131072 65536 demo_cpu demo_kst) as [[c1 s1]|] eqn:E1;
    [|vm_compute in E1; discriminate E1].
  destruct (process_yield 131072 65536 demo_cpu2 demo_kst2) as [[c3 s3]|] eqn:E2;
    [|vm_compute in E2; discriminate E2].
  simpl. f_equal.
  assert (demo_kst1 = s1) as H1 by (unfold demo_kst1; rewrite E1; reflexivity).
  assert (k_current s3 = Some 2) as H3.
  { assert (k_current <$> (snd <$> process_yield 131072 65536 demo_cpu2 demo_kst2) = Some (Some 2))
      as H by (vm_compute; reflexivity). rewrite E2 in H. injection H as H. exact H. }
  apply (context_switch_roundtrip 131072 65536 pmm _ 2 3 demo_cpu c1 demo_cpu2 c3
           demo_kst s1 demo_kst2 s3); try exact E1; try exact E2; try exact H3; try rewrite <-H1.
  - lia.
  - lia.
  - lia.
  - apply kinv_check_sound. vm_compute. reflexivity.
  - apply kinv_check_sound. vm_compute. reflexivity.
  - unfold regs_ok, is_u32. simpl. lia.
  - reflexivity.
  - vm_compute. split; discriminate.
  - apply kinv_check_sound. vm_compute. reflexivity.
  - apply kinv_check_sound. vm_compute. reflexivity.
  - reflexivity.
  - vm_compute. reflexivity.
  - reflexivity.
  - vm_compute. split; discriminate.
Defined.

(** ** Creation *)

Lemma initial_frame process_table i ret m :
  20 ≤ kstack_top process_table i < 4294967296 → is_u32 ret →
  let '(esp, m') := build_initial_kstack process_table i ret m in
  esp = kstack_top process_table i - 20 ∧
  frame_ctx m' esp = Cpu 0 0 0 0 (kstack_top process_table i) ret ∧
  (∀ b, b < esp ∨ kstack_top process_table i ≤ b → load8 m' b = load8 m b).
Proof.
  intros Ht Hr. unfold build_initial_kstack, push.
  generalize dependent (kstack_top process_table i). intros top Ht.
  rewrite !(u32_small (top - 4)) by (unfold is_u32; lia).
  rewrite !(u32_small (top - 4 - 4)) by (unfold is_u32; lia).
  rewrite !(u32_small (top - 4 - 4 - 4)) by (unfold is_u32; lia).
  rewrite !(u32_small (top - 4 - 4 - 4 - 4)) by (unfold is_u32; lia).
  rewrite !(u32_small (top - 4 - 4 - 4 - 4 - 4)) by (unfold is_u32; lia).
  replace (top - 4 - 4 - 4 - 4 - 4) with (top - 20) by lia.
  replace (top - 4 - 4 - 4 - 4) with (top - 16) by lia.
  replace (top - 4 - 4 - 4) with (top - 12) by lia.
  replace (top - 4 - 4) with (top - 8) by lia.
  split; [done|]. split.
  - unfold frame_ctx. f_equal; try lia.
    + by rewrite load32_store32_eq.
    + replace (top - 20 + 4) with (top - 16) by lia.
      rewrite load32_store32_ne by lia. by rewrite load32_store32_eq.
    + replace (top - 20 + 8) with (top - 12) by lia.
      rewrite !load32_store32_ne by lia. by rewrite load32_store32_eq.
    + replace (top - 20 + 12) with (top - 8) by lia.
      rewrite !load32_store32_ne by lia. by rewrite load32_store32_eq.
    + replace (top - 20 + 16) with (top - 4) by lia.
      rewrite !load32_store32_ne by lia. by rewrite load32_store32_eq.
  - intros b Hb. by rewrite !load8_store32_ne by lia.
Qed.

(** [process_create] on a table with a free slot returns the slot
    [next_pid], whose process is READY with pid [next_pid + 1] and the first 31
    characters of the name; no other slot changes and only the new kernel stack
    is written.  The first switch to the process enters [entry] with all
    callee-saved registers 0 and an empty kernel stack.  When 16 processes have
    been created it returns NULL and changes nothing. *)
Theorem process_create_first_switch (process_table page_directory : Z) (A : Type)
    (FA : FrameAllocator A) (s : kst A) name nm entry :
  0 ≤ process_table → process_table + 16 * 8252 < 8388608 → is_u32 entry →
  kinv s → esps_ok s → is_cstr name nm →
  (k_next_pid s = 16 → process_create process_table name entry s = Some (None, s)) ∧
  (k_next_pid s < 16 → ∃ i s' p,
     process_create process_table name entry s = Some (Some i, s') ∧ i = k_next_pid s ∧
     kinv s' ∧ esps_ok s' ∧ aget (k_table s') i = Some p ∧
     p_state p = PROC_READY ∧ p_pid p = i + 1 ∧ cstr (p_name p) = take 31 nm ∧
     (∀ j, j ≠ i → aget (k_table s') j = aget (k_table s) j) ∧
     (∀ b, b < kstack_top process_table i - 20 ∨ kstack_top process_table i ≤ b →
        load8 (k_mem s') b = load8 (k_mem s) b) ∧
     (∀ j c c' s'', k_current s' = Some j →
        proc_addr process_table j + 80 ≤ r_esp c ≤ kstack_top process_table j →
        process_yield process_table page_directory c s' = Some (c', s'') → k_current s'' = Some i →
        c' = Cpu 0 0 0 0 (kstack_top process_table i) entry)).
Proof.
  intros Ht0 Ht1 He Hk Hes Hn. pose proof (ki_pid s Hk) as Hpid.
  pose proof (create_with_spec process_table s name nm 0 0 0 0 entry Hk Hn) as Hc.
  assert (20 ≤ kstack_top process_table (k_next_pid s) < 4294967296 + 8388608) as Htop
    by (unfold kstack_top, PROCESS_KSTACK_SIZE, proc_addr; lia).
  split.
  { intros E. destruct (build_initial_kstack _ _ _ _) as [esp m].
    destruct Hc as [[_ Hc]|[? _]]; [done|lia]. }
  intros Hlt. pose proof (initial_frame process_table (k_next_pid s) entry (k_mem s)) as Hf.
  assert (20 ≤ kstack_top process_table (k_next_pid s) < 8388608) as Htop'
    by (unfold kstack_top, PROCESS_KSTACK_SIZE, proc_addr; lia).
  destruct (build_initial_kstack _ _ _ _) as [esp m].
  destruct Hf as (-> & Hctx & Hmem); [lia|done|].
  destruct Hc as [[? _]|(_ & b & s' & Hc & Hb & Hk' & Hm & Hp' & Hcur & Ha)]; [lia|].
  set (i := k_next_pid s) in *. set (top := kstack_top process_table i) in *.
  pose proof (Ha i) as Hi. rewrite decide_True in Hi by done.
  assert (esps_ok s') as Hes'.
  { intros j p. rewrite Ha. case_decide; [intros [= <-]; simpl; lia|apply Hes]. }
  eexists i, s', _. split; [exact Hc|]. split; [done|]. split; [done|]. split; [done|].
  split; [exact Hi|]. simpl. split; [done|]. split; [done|]. split; [done|]. split.
  { intros j Hj. rewrite Ha. by rewrite decide_False. }
  split; [by rewrite Hm|].
  intros j c c' s'' Hj Hr Hy Hi''.
  assert (0 ≤ j < i) as Hji by (rewrite Hcur in Hj; apply (ki_cur s Hk j Hj)).
  unfold kstack_top, PROCESS_KSTACK_SIZE, proc_addr in *.
  rewrite (yield_loads process_table page_directory c s' i _ c' s'' Hk' Hes' ltac:(lia)
    ltac:(rewrite Hj; intros [= E]; lia) Hi ltac:(simpl; lia) Hy Hi'').
  simpl. rewrite Hm. exact Hctx.
Qed.

Lemma process_create_first_switch_witness :
  ∃ i s', process_create 131072 [115; 104; 0] 4660 demo_kst = Some (Some i, s') ∧ i = 4 ∧
    aget (k_table s') 3 = aget demo_table 3.
Proof.
  destruct (kinv_check_sound demo_kst ltac:(vm_compute; reflexivity)) as [Hk He].
  destruct (process_create_first_switch 131072 65536 pmm pmm_frame_allocator demo_kst
    [115; 104; 0] [115; 104] 4660) as [_ H];
    [lia|lia|unfold is_u32; lia|exact Hk|exact He|exists []; split; [reflexivity|by repeat constructor]|].
  destruct H as (i & s' & p & E & Hi & _ & _ & _ & _ & _ & _ & Ho & _); [vm_compute; reflexivity|].
  exists i, s'. split; [exact E|]. split; [exact Hi|]. apply Ho. rewrite Hi. simpl. lia.
Defined.

(** [process_yield] always switches: it returns in the context of a process
    that is RUNNING and current, with CR3 holding that process's page directory
    (the kernel's for kernel threads) and TSS.ESP0 the top of its kernel stack,
    and the table invariant holds again. *)
Theorem process_yield_total (process_table page_directory : Z) (A : Type) (FA : FrameAllocator A)
    (c : cpu) (s : kst A) :
  kinv s → esps_ok s → 20 ≤ r_esp c < 8388608 →
  ∃ i p s', process_yield process_table page_directory c s = Some (frame_ctx (k_mem s') (p_esp p), s') ∧
    kinv s' ∧ k_current s' = Some i ∧ aget (k_table s') i = Some p ∧ p_state p = PROC_RUNNING ∧
    k_esp0 s' = kstack_top process_table i ∧
    v_cr3 (k_vm s') = (if decide (p_pd_phys p = 0) then page_directory else p_pd_phys p).
Proof.
  intros Hk He Hr. destruct (process_yield_lemma process_table page_directory c s Hk Hr He) as
    (t & i & t' & s' & p & _ & _ & Htab & Hcur & _ & _ & H0 & Hp & Hst & Hcr & Hy & Hk').
  exists i, p, s'. by rewrite Htab.
Qed.

Lemma process_yield_total_witness :
  ∃ s', (∃ c', process_yield 131072 65536 demo_cpu demo_kst = Some (c', s')) ∧ kinv s'.
Proof.
  destruct (kinv_check_sound demo_kst ltac:(vm_compute; reflexivity)) as [Hk He].
  destruct (process_yield_total 131072 65536 pmm pmm_frame_allocator demo_cpu demo_kst Hk He)
    as (i & p & s' & E & Hk' & _); [vm_compute; split; [discriminate|reflexivity]|].
  exists s'. split; [eexists; exact E|exact Hk'].
Defined.

(** ** The kernel as a transition system *)

(** Apply [f] to every slot: the shape of the table loops. *)
Lemma table_loop (f : process → process) t :
  length t = 16%nat →
  ∃ t', for_u32_opt 0 MAX_PROCESSES (λ i t, upd t i f) t = Some t' ∧ length t' = 16%nat ∧
    ∀ j, aget t' j = f <$> aget t j.
Proof.
  intros Hl. destruct (for_u32_opt_inv (λ k t', length t' = 16%nat ∧
    ∀ j, aget t' j = if decide (j < k) then f <$> aget t j else aget t j)
    (λ i t, upd t i f) 0 MAX_PROCESSES t) as (t' & E & Hl' & Ha); [done| | |].
  - split; [done|]. intros j. case_decide; [|done]. unfold aget. by rewrite decide_False by lia.
  - intros i t1 Hi [Hl1 Ha1]. unfold MAX_PROCESSES in Hi.
    destruct (aget_total t1 16 i Hl1 Hi) as [p Hp]. rewrite (upd_Some _ _ _ _ Hp).
    eexists. split; [done|]. split; [by len|]. intros j. rewrite (aget_upd _ _ _ _ _ Hp), Ha1.
    rewrite Ha1, decide_False in Hp by lia. repeat case_decide; try lia; [subst; by rewrite Hp|done..].
  - exists t'. split; [done|]. split; [done|]. intros j. rewrite Ha. unfold MAX_PROCESSES.
    case_decide; [done|]. unfold aget. case_decide; [|done]. rewrite lookup_ge_None_2 by lia. done.
Qed.

Section steps.
Context (process_table page_directory user_mode_enter idle_process_fn : Z).
Context {A : Type} `{!FrameAllocator A}.
Implicit Types (s : kst A).

(** What can happen to the kernel: the calls that change the process table, made
    by whatever code is running, and [st_run], which lets that code change the
    registers, the memory and the rest of the paging state arbitrarily. *)
Inductive kstep : cpu * kst A → cpu * kst A → Prop :=
| st_run c c' s v : kstep (c, s) (c', with_vm v s)
| st_create c s name nm entry r s' :
    is_cstr name nm → process_create process_table name entry s = Some (r, s') → kstep (c, s) (c, s')
| st_create_user c s name nm eip esp pd r s' :
    is_cstr name nm → process_create_user process_table user_mode_enter name eip esp pd s = Some (r, s') →
    kstep (c, s) (c, s')
| st_yield c s c' s' :
    process_yield process_table page_directory c s = Some (c', s') → kstep (c, s) (c', s')
| st_exit c s c' s' :
    process_exit process_table page_directory c s = Some (c', s') → kstep (c, s) (c', s')
| st_block c s c' s' :
    process_block process_table page_directory c s = Some (c', s') → kstep (c, s) (c', s')
| st_kill c s pid r s' : process_kill pid s = Some (r, s') → kstep (c, s) (c, s')
| st_wake c s i s' : process_wake i s = Some s' → kstep (c, s) (c, s')
| st_wake_all c s s' : process_wake_all_blocked s = Some s' → kstep (c, s) (c, s').

(** The invariant survives a yield whatever the stack pointers are. *)
Lemma yield_kinv c s c' s' :
  kinv s → process_yield process_table page_directory c s = Some (c', s') →
  kinv s' ∧ k_next_pid s' = k_next_pid s.
Proof using Type.
  intros Hk. unfold process_yield. repeat (destruct (push _ _ _) as [? ?]).
  match goal with |- context [upd _ _ (set_esp ?e)] =>
    destruct (saved_kinv s e Hk) as (t & Ht & Hkt & Hta);
    change (match k_current (with_k_mem _ s) with Some i => upd _ i (set_esp e) | None => Some _ end)
      with (saved (k_table s) (k_current s) e) end.
  rewrite Ht. cbn [mbind option_bind with_k_mem with_vm k_current].
  destruct (sched_next_any t (k_current s) (k_next_pid s)) as (i & t' & -> & Hi & Hl' & Ha');
    [apply Hkt|apply Hk|apply Hk|apply Hkt| |].
  { intros j Hj. destruct (decide (j < k_next_pid s)); [done|].
    apply fmap_Some in Hj as (p & Hp & Hj). destruct (ki_slot _ Hkt j p Hp) as (_ & Hun & _).
    simpl in Hun. rewrite (proj2 Hun) in Hj by lia. done. }
  cbn [mbind option_bind]. destruct (push _ _ _) as [? m].
  match goal with |- context [process_before_switch _ _ i ?x] => set (s1 := x) end.
  assert (k_table s1 = t' ∧ k_current s1 = Some i ∧ k_next_pid s1 = k_next_pid s) as (E1 & E2 & E3) by done.
  assert (kinv s1) as Hk1.
  { apply (kinv_table (with_table t s)); rewrite ?E1, ?E2, ?E3; [done|done|done| | |].
    - simpl. intros j q Hq. destruct (Ha' j q Hq) as (q0 & Hq0 & E & _ & F1 & F2). exists q0.
      split; [done|]. rewrite E. split; [done|]. split; [done|]. simpl. split; [done|].
      intros Hu. apply F2; [done|]. intros ->.
      destruct (ki_slot _ Hkt i q0 Hq0) as (_ & Hun & _). apply Hun in Hu. simpl in Hu. lia.
    - intros j Hj. apply fmap_Some in Hj as (q & Hq & Hj).
      destruct (Ha' j q Hq) as (_ & _ & _ & Hr & _). f_equal. symmetry. by apply Hr.
    - simpl. intros ? [= <-]. done. }
  clearbody s1. unfold process_before_switch, restore_context.
  destruct (aget (k_table s1) i) as [p|] eqn:Hp; [|done]. cbn [mbind option_bind].
  intros Hy. assert (k_table s' = k_table s1 ∧ k_current s' = k_current s1 ∧
    k_next_pid s' = k_next_pid s1) as (F1 & F2 & F3).
  { case_decide; cbn in Hy; rewrite Hp in Hy; cbn in Hy; injection Hy as _ <-; done. }
  split; [|congruence]. apply (kinv_table s1); rewrite ?F1, ?F2; [done|apply Hk1|done| |apply Hk1|apply Hk1].
  intros j q Hq. exists q. done.
Qed.

Lemma reap_kinv i s s' :
  kinv s → 0 ≤ i < k_next_pid s → reap i s = Some s' →
  kinv s' ∧ k_next_pid s' = k_next_pid s ∧ k_current s' = k_current s.
Proof using Type.
  intros Hk Hi. destruct (kinv_slot_used s i Hk Hi) as (p & Hp & Hu & _).
  unfold reap. rewrite Hp. cbn [mbind option_bind].
  destruct (if decide _ then _ else _) as [v|]; [|done]. cbn [mbind option_bind].
  pose proof (upd_Some _ _ _ (λ p, set_state PROC_ZOMBIE (set_pd_phys 0 p)) Hp) as E. rewrite E.
  intros [= <-]. split; [|done].
  change (kinv (with_vm v (with_table (<[Z.to_nat i := set_state PROC_ZOMBIE (set_pd_phys 0 p)]> (k_table s)) s))).
  assert (kinv (with_table (<[Z.to_nat i := set_state PROC_ZOMBIE (set_pd_phys 0 p)]> (k_table s)) s)) as Hk'.
  { eapply kinv_upd; [done|exact E|done|]. intros q Hq. simpl. simplify_eq. done. }
  destruct Hk'. by constructor.
Qed.

Lemma create_kinv s name nm u eip esp pd ret r s' :
  is_cstr name nm → create_with process_table name u eip esp pd ret s = Some (r, s') → kinv s →
  kinv s' ∧ k_next_pid s ≤ k_next_pid s'.
Proof using Type.
  intros Hn Hc Hk. pose proof (create_with_spec process_table s name nm u eip esp pd ret Hk Hn) as Hs.
  destruct (build_initial_kstack _ _ _ _) as [e m].
  destruct Hs as [[_ E]|(_ & b & s1 & E & _ & Hk1 & _ & Hp & _)];
    rewrite E in Hc; injection Hc as <- <-; [done|]. split; [done|lia].
Qed.

Lemma exit_kinv c s c' s' :
  kinv s → process_exit process_table page_directory c s = Some (c', s') →
  kinv s' ∧ k_next_pid s' = k_next_pid s.
Proof using Type.
  intros Hk E. unfold process_exit in E. destruct (k_current s) as [i|] eqn:Hc; [|by eapply yield_kinv].
  destruct (reap i s) as [s1|] eqn:Hr; [|done]. cbn in E.
  destruct (reap_kinv i s s1 Hk) as (Hk1 & Hp1 & _); [by apply Hk|done|].
  destruct (yield_kinv c s1 c' s' Hk1 E). split; [done|congruence].
Qed.

Lemma block_kinv c s c' s' :
  kinv s → process_block process_table page_directory c s = Some (c', s') →
  kinv s' ∧ k_next_pid s' = k_next_pid s.
Proof using Type.
  intros Hk E. unfold process_block in E. destruct (k_current s) as [i|] eqn:Hc.
  - destruct (upd _ _ _) as [t|] eqn:Hu; [|done]. cbn in E.
    apply (yield_kinv c (with_table t s) c'); [|done]. eapply kinv_upd; [done..|]. intros p Hp. simpl.
    destruct (kinv_slot_used s i Hk) as (q & Hq & Hqu & _); [by apply Hk|]. simplify_eq. done.
  - cbn in E. apply (yield_kinv c (with_table (k_table s) s) c'); [by destruct s|done].
Qed.

(** The slot that [process_kill] finds. *)
Lemma killable_spec s pid i :
  kinv s → killable (k_table s) pid i = true ↔
  0 ≤ i < k_next_pid s ∧ pid = i + 1 ∧ state_of (k_table s) i ≠ Some PROC_ZOMBIE.
Proof using Type.
  intros Hk. unfold killable, state_of. destruct (aget (k_table s) i) as [p|] eqn:Hp.
  - destruct (ki_slot s Hk i p Hp) as (_ & Hun & H1 & H2). pose proof (aget_Some_lt _ _ _ Hp).
    rewrite !andb_true_iff, !bool_decide_eq_true. simpl. split.
    + intros [[E Hu] Hz]. assert (i < k_next_pid s) by (destruct (decide (i < k_next_pid s)); [done|];
        destruct Hu; apply Hun; lia). rewrite H1 in E by done. split; [lia|]. split; [done|congruence].
    + intros (Hi & -> & Hz). rewrite H1 by lia. split; [split; [done|]|congruence]. rewrite Hun. lia.
  - split; [done|]. intros (Hi & _ & _). destruct (kinv_slot_used s i Hk Hi) as (q & Hq & _). congruence.
Qed.

Lemma kill_kinv s pid r s' :
  kinv s → process_kill pid s = Some (r, s') → kinv s' ∧ k_next_pid s' = k_next_pid s.
Proof using Type.
  intros Hk E. unfold process_kill in E.
  destruct (find_range _ _ _) as [i|] eqn:Hf; [|by injection E as <- <-].
  destruct (reap i s) as [s1|] eqn:Hr; [|done]. injection E as <- <-.
  apply find_range_Some in Hf as (_ & Hkill & _). apply killable_spec in Hkill as (Hi & _); [|done].
  by destruct (reap_kinv i s s1 Hk Hi Hr) as (? & ? & _).
Qed.

Lemma wake_keeps p :
  (p_pid (wake p) = p_pid p ∧ p_name (wake p) = p_name p) ∧
  (p_state (wake p) = PROC_UNUSED ↔ p_state p = PROC_UNUSED) ∧
  (p_state (wake p) = PROC_RUNNING → p_state p = PROC_RUNNING).
Proof using Type. unfold wake. case_decide as Hb; simpl; [rewrite Hb|]; done. Qed.

Lemma wake_kinv s i s' :
  kinv s → process_wake i s = Some s' → kinv s' ∧ k_next_pid s' = k_next_pid s.
Proof using Type.
  intros Hk E. destruct i as [i|]; simpl in E; [|by injection E as <-].
  destruct (upd _ _ _) as [t|] eqn:Hu; [|done]. injection E as <-. split; [|done].
  eapply kinv_upd; [done..| |]; intros; apply wake_keeps.
Qed.

Lemma wake_all_kinv s s' :
  kinv s → process_wake_all_blocked s = Some s' → kinv s' ∧ k_next_pid s' = k_next_pid s.
Proof using Type.
  intros Hk E. unfold process_wake_all_blocked in E.
  destruct (table_loop wake (k_table s) (ki_len s Hk)) as (t & Ht & Hl & Ha).
  rewrite Ht in E. injection E as <-. split; [|done].
  apply (kinv_table s); simpl; [done..| | |apply Hk].
  - intros i p' Hp'. rewrite Ha in Hp'. apply fmap_Some in Hp' as (p & Hp & ->). exists p.
    destruct (wake_keeps p) as ([-> ->] & -> & _). done.
  - intros i Hi. apply Hk. apply fmap_Some in Hi as (p' & Hp' & Hs). rewrite Ha in Hp'.
    apply fmap_Some in Hp' as (p & Hp & ->). unfold state_of. rewrite Hp. simpl. f_equal.
    by apply wake_keeps.
Qed.

(** Every step keeps the invariant, and never lowers the number of processes
    created. *)
Lemma kstep_kinv x y :
  kstep x y → kinv x.2 → kinv y.2 ∧ k_next_pid x.2 ≤ k_next_pid y.2.
Proof using Type.
  destruct 1 as [c c' s v|c s name nm entry r s' Hn E|c s name nm eip esp pd r s' Hn E|c s c' s' E|
    c s c' s' E|c s c' s' E|c s pid r s' E|c s i s' E|c s s' E]; simpl; intros Hk.
  - split; [|done]. destruct Hk. by constructor.
  - by eapply create_kinv.
  - by eapply create_kinv.
  - destruct (yield_kinv c s c' s' Hk E). split; [done|lia].
  - destruct (exit_kinv c s c' s' Hk E). split; [done|lia].
  - destruct (block_kinv c s c' s' Hk E). split; [done|lia].
  - destruct (kill_kinv s pid r s' Hk E). split; [done|lia].
  - destruct (wake_kinv s i s' Hk E). split; [done|lia].
  - destruct (wake_all_kinv s s' Hk E). split; [done|lia].
Qed.

Lemma reachable_kinv x y :
  rtc kstep x y → kinv x.2 → kinv y.2 ∧ k_next_pid x.2 ≤ k_next_pid y.2.
Proof using Type.
  induction 1 as [x|x y z Hxy _ IH]; intros Hk; [split; [done|lia]|].
  destruct (kstep_kinv x y Hxy Hk) as [Hk1 Hn1]. destruct (IH Hk1). split; [done|lia].
Qed.

(** [process_init] on any table establishes the invariant with idle as pid 1. *)
Lemma process_init_kinv s :
  length (k_table s) = 16%nat → Forall (λ p, length (p_name p) = 32%nat) (k_table s) →
  k_current s = None →
  ∃ s', process_init process_table idle_process_fn s = Some s' ∧ kinv s' ∧ k_next_pid s' = 1 ∧
    k_current s' = None ∧ state_of (k_table s') 0 = Some PROC_READY ∧
    (let '(esp, m) := build_initial_kstack process_table 0 idle_process_fn (k_mem s) in
     k_vm s' = vm_with_mem (k_vm s) m ∧ p_esp <$> aget (k_table s') 0 = Some esp ∧ k_esp0 s' = k_esp0 s ∧
     ∀ j p, aget (k_table s') j = Some p → p_pd_phys p = 0 ∧
       (if decide (j = 0) then p_esp p = esp else p_esp <$> aget (k_table s) j = Some (p_esp p)) ∧
       (p_state p ≠ PROC_UNUSED → 0 ∈ p_name p)).
Proof using Type.
  intros Hl Hn Hc. unfold process_init.
  destruct (table_loop init_slot (k_table s) Hl) as (t & Ht & Hlt & Ha).
  rewrite Ht. cbn [mbind option_bind]. clear Ht.
  assert (∀ i p, aget t i = Some p → p_state p = PROC_UNUSED ∧ p_pid p = 0 ∧ length (p_name p) = 32%nat) as Hp.
  { intros i p Hi. rewrite Ha in Hi. apply fmap_Some in Hi as (q & Hq & ->). simpl.
    split; [done|]. split; [done|]. apply aget_Some_lt in Hq as Hr. unfold aget in Hq.
    rewrite decide_True in Hq by lia. rewrite Forall_lookup in Hn. by eapply Hn. }
  destruct (aget_total t 16 0 Hlt ltac:(lia)) as [p0 Hp0]. destruct (Hp 0 p0 Hp0) as (Hu & _ & Hnl).
  unfold process_create, create_with.
  assert (alloc_slot t = Some 0) as Hal.
  { apply find_range_Some. split; [unfold MAX_PROCESSES; lia|]. split; [|intros; lia].
    apply bool_decide_eq_true. unfold state_of. by rewrite Hp0; simpl; rewrite Hu. }
  cbn [k_table k_next_pid k_vm k_current k_esp0]. rewrite Hal, Hp0. cbn [mbind option_bind].
  destruct (set_name_spec (p_name p0) [105; 100; 108; 101; 0] [105; 100; 108; 101] Hnl) as (nm & -> & Hnm & Hcs).
  { exists []. split; [done|]. by repeat constructor. }
  cbn [mbind option_bind]. unfold k_mem at 1. cbn [k_vm]. fold (k_mem s).
  destruct (build_initial_kstack _ _ _ _) as [esp m].
  rewrite aset_Some by (rewrite Hlt; lia). cbn [mbind option_bind].
  set (q := Process esp _ _ _ _ _ _ _).
  assert (∀ j, aget (<[Z.to_nat 0 := q]> t) j = if decide (0 = j) then Some q else aget t j) as Hq
    by (intros j; apply (aget_upd _ _ _ (λ _, q) j Hp0)).
  eexists. split; [reflexivity|]. split; [|split; [done|split; [done|]]].
  2:{ simpl. unfold state_of. rewrite Hq. do 4 (split; [done|]). intros j p. rewrite Hq.
      destruct (decide (0 = j)) as [<-|]; [intros [= <-]; split_and!; [done..|]; intros _; apply cstr_short; simpl; rewrite Hcs, Hnm; simpl; lia|].
      rewrite decide_False by congruence. intros Hj. split_and!; [| |by destruct (Hp j p Hj)].
      - rewrite Ha in Hj. by apply fmap_Some in Hj as (r & Hr & ->).
      - rewrite Ha in Hj. apply fmap_Some in Hj as (r & Hr & ->). by rewrite Hr. }
  constructor; simpl; [by len|rewrite u32_small by (unfold is_u32; lia); lia| | |by rewrite Hc].
  - intros i p. rewrite Hq. change (u32 (0 + 1)) with 1. case_decide.
    + subst. intros [= <-]. simpl. split; [done|]. split; [split; [done|lia]|].
      split; [intros _; reflexivity|lia].
    + intros Hi. destruct (Hp i p Hi) as (H1 & H2 & H3). apply aget_Some_lt in Hi.
      split; [done|]. split; [split; [lia|done]|]. lia.
  - intros i. unfold state_of. rewrite Hq. case_decide; [done|]. intros Hi.
    apply fmap_Some in Hi as (p & Hi & Hs). destruct (Hp i p Hi) as (H1 & _). congruence.
Qed.
End steps.

(** In every state that the kernel can reach after [process_init], through any
    sequence of process creations, yields, exits, kills, blocks and wake-ups and
    whatever the running code does to registers and memory, the slots in use are
    exactly the first [next_pid] ones, slot [i] holds pid [i+1] (so pids are
    unique), at most the current process is RUNNING, and [current_process] is
    NULL or a created process. *)
Theorem process_table_reachable (process_table page_directory user_mode_enter idle_process_fn : Z)
    (A : Type) (FA : FrameAllocator A) (s0 s : kst A) c y :
  length (k_table s0) = 16%nat → Forall (λ p, length (p_name p) = 32%nat) (k_table s0) →
  k_current s0 = None → process_init process_table idle_process_fn s0 = Some s →
  rtc (kstep process_table page_directory user_mode_enter) (c, s) y →
  1 ≤ k_next_pid y.2 ≤ 16 ∧ length (k_table y.2) = 16%nat ∧
  (∀ i p, aget (k_table y.2) i = Some p →
     (p_state p ≠ PROC_UNUSED ↔ i < k_next_pid y.2) ∧ (p_state p ≠ PROC_UNUSED → p_pid p = i + 1)) ∧
  (∀ i j p q, aget (k_table y.2) i = Some p → aget (k_table y.2) j = Some q →
     p_state p = PROC_RUNNING → p_state q = PROC_RUNNING → i = j) ∧
  (∀ i, state_of (k_table y.2) i = Some PROC_RUNNING → k_current y.2 = Some i) ∧
  (∀ i, k_current y.2 = Some i → ∃ st, state_of (k_table y.2) i = Some st ∧ st ≠ PROC_UNUSED).
Proof.
  intros Hl Hn Hc Hi Hr.
  destruct (process_init_kinv process_table idle_process_fn s0 Hl Hn Hc) as (s1 & E & Hk & _).
  rewrite Hi in E. injection E as <-.
  destruct (reachable_kinv _ _ _ _ _ Hr Hk) as [Hk' _]. simpl in *.
  split; [apply Hk'|]. split; [apply Hk'|]. split; [|split; [|split; [apply Hk'|]]].
  - intros i p Hp. destruct (ki_slot _ Hk' i p Hp) as (_ & H1 & H2 & _). rewrite H1.
    split; [lia|]. intros. apply H2. lia.
  - intros i j p q Hp Hq Sp Sq.
    assert (k_current y.2 = Some i) by (apply Hk'; unfold state_of; rewrite Hp; simpl; congruence).
    assert (k_current y.2 = Some j) by (apply Hk'; unfold state_of; rewrite Hq; simpl; congruence).
    congruence.
  - intros i Hcur. destruct (kinv_slot_used _ i Hk') as (p & Hp & Hu & _); [by apply Hk'|].
    exists (p_state p). unfold state_of. by rewrite Hp.
Qed.

Definition boot_kst : kst pmm :=
  Kst (Vm ∅ (Pmm [] 0 0) 65536 0) (replicate 16 (demo_proc PROC_UNUSED 0)) None 0 0.

Lemma process_table_reachable_witness :
  ∃ s, process_init 131072 4096 boot_kst = Some s ∧ 1 ≤ k_next_pid s ≤ 16.
Proof.
  destruct (process_init_kinv 131072 4096 boot_kst) as (s & E & _);
    [reflexivity|by apply Forall_replicate|reflexivity|].
  exists s. split; [exact E|].
  apply (process_table_reachable 131072 65536 8192 4096 pmm pmm_frame_allocator boot_kst s demo_cpu
    (demo_cpu, s)); [reflexivity|by apply Forall_replicate|reflexivity|exact E|apply rtc_refl].
Defined.

(** Table slots are never reused.  Once 16 processes have been created, every
    later attempt to create one returns NULL, in every reachable state, even when
    all the other processes have exited. *)
Theorem process_table_exhausted (process_table page_directory user_mode_enter : Z)
    (A : Type) (FA : FrameAllocator A) (x y : cpu * kst A) :
  kinv x.2 → k_next_pid x.2 = 16 →
  rtc (kstep process_table page_directory user_mode_enter) x y →
  ∀ name nm, is_cstr name nm →
    (∀ entry, process_create process_table name entry y.2 = Some (None, y.2)) ∧
    (∀ eip esp pd, process_create_user process_table user_mode_enter name eip esp pd y.2 = Some (None, y.2)).
Proof.
  intros Hk H16 Hr name nm Hn. destruct (reachable_kinv _ _ _ _ _ Hr Hk) as [Hk' Hle].
  pose proof (ki_pid _ Hk').
  assert (∀ u e1 e2 pd ret, create_with process_table name u e1 e2 pd ret y.2 = Some (None, y.2)) as H1.
  { intros u e1 e2 pd ret.
    pose proof (create_with_spec process_table y.2 name nm u e1 e2 pd ret Hk' Hn) as Hs.
    destruct (build_initial_kstack _ _ _ _). destruct Hs as [[_ ?]|[? _]]; [done|lia]. }
  split; intros; apply H1.
Qed.

(** Idle and 15 zombies. *)
Definition full_kst : kst pmm :=
  Kst (Vm ∅ (Pmm [] 0 0) 65536 0)
    (demo_proc PROC_RUNNING 1 :: (demo_proc PROC_ZOMBIE <$> seqZ 2 15)) (Some 0) 16 0.

Lemma process_table_exhausted_witness :
  process_create 131072 [97; 0] 4096 full_kst = Some (None, full_kst).
Proof.
  apply (process_table_exhausted 131072 65536 8192 pmm pmm_frame_allocator (demo_cpu, full_kst)
    (demo_cpu, full_kst)) with (nm := [97]); [|reflexivity|apply rtc_refl|].
  - apply kinv_check_sound. vm_compute. reflexivity.
  - exists []. split; [reflexivity|by repeat constructor].
Defined.

(** The slot that a pid names. *)
Lemma find_killable {A} (s : kst A) i p :
  kinv s → aget (k_table s) i = Some p → i < k_next_pid s → p_state p ≠ PROC_ZOMBIE →
  find_range (killable (k_table s) (i + 1)) 0 (Z.to_nat MAX_PROCESSES) = Some i.
Proof.
  intros Hk Hp Hi Hz. pose proof (aget_Some_lt _ _ _ Hp) as Hr. rewrite (ki_len s Hk) in Hr.
  apply find_range_Some. unfold MAX_PROCESSES. split; [lia|]. split.
  - apply killable_spec; [done|]. split; [lia|]. split; [done|]. unfold state_of. rewrite Hp. simpl. congruence.
  - intros j Hj. apply not_true_is_false. intros Hkj. apply killable_spec in Hkj as (_ & ? & _); [lia|done].
Qed.

(** [process_kill pid] on a live process makes it a ZOMBIE without address
    space, returns exactly the frames of its address space to the allocator, and
    touches no other slot; it returns -1 and changes nothing when no process with
    that pid is alive. *)
Theorem process_kill_spec (A : Type) (FA : FrameAllocator A) (s : kst A) pid :
  kinv s →
  (∀ i p, aget (k_table s) i = Some p → p_pd_phys p ≠ 0 → pd_wf (k_vm s) (p_pd_phys p)) →
  (∀ i p, aget (k_table s) i = Some p → i < k_next_pid s → pid = i + 1 → p_state p ≠ PROC_ZOMBIE →
     ∃ s', process_kill pid s = Some (0, s') ∧ kinv s' ∧
       aget (k_table s') i = Some (set_state PROC_ZOMBIE (set_pd_phys 0 p)) ∧
       (∀ j, j ≠ i → aget (k_table s') j = aget (k_table s) j) ∧ k_mem s' = k_mem s ∧
       (p_pd_phys p = 0 → k_vm s' = k_vm s) ∧
       (p_pd_phys p ≠ 0 → ∀ q, fa_avail (v_fa (k_vm s')) q ↔
          fa_avail (v_fa (k_vm s)) q ∨ ∃ n, owns (k_mem s) (p_pd_phys p) n q)) ∧
  ((∀ i p, aget (k_table s) i = Some p → i < k_next_pid s → pid = i + 1 → p_state p = PROC_ZOMBIE) →
   process_kill pid s = Some (-1, s)).
Proof.
  intros Hk Hwf. split.
  - intros i p Hp Hi Hpid Hz. pose proof (aget_Some_lt _ _ _ Hp) as Hr. rewrite (ki_len s Hk) in Hr.
    assert (find_range (killable (k_table s) pid) 0 (Z.to_nat MAX_PROCESSES) = Some i) as Hf
      by (subst pid; by apply (find_killable s i p)).
    assert (∃ v, (if decide (p_pd_phys p = 0) then Some (k_vm s) else paging_destroy_pd (p_pd_phys p) (k_vm s)) = Some v ∧
      v_mem v = v_mem (k_vm s) ∧ (p_pd_phys p = 0 → v = k_vm s) ∧
      (p_pd_phys p ≠ 0 → ∀ q, fa_avail (v_fa v) q ↔
         fa_avail (v_fa (k_vm s)) q ∨ ∃ n, owns (v_mem (k_vm s)) (p_pd_phys p) n q)) as (v & Hv & Hm & H0 & H1).
    { case_decide as Hd; [by exists (k_vm s)|].
      destruct (destroy_pd_lemma (k_vm s) _ (Hwf i p Hp Hd)) as (v & E & _ & Hm & _ & Ha). by exists v. }
    set (f p := set_state PROC_ZOMBIE (set_pd_phys 0 p)).
    assert (reap i s = Some (with_table (<[Z.to_nat i := f p]> (k_table s)) (with_vm v s))) as Hreap.
    { unfold reap. rewrite Hp. cbn [mbind option_bind]. rewrite Hv. cbn [mbind option_bind].
      pose proof (upd_Some _ _ _ f Hp) as E. unfold f in E |- *. by rewrite E. }
    unfold process_kill. rewrite Hf, Hreap. eexists. split; [reflexivity|].
    split; [by eapply reap_kinv; [| |exact Hreap]; [done|lia]|]. simpl.
    split; [by rewrite (aget_upd _ _ _ f _ Hp), decide_True|].
    split; [intros j Hj; rewrite (aget_upd _ _ _ f _ Hp); by rewrite decide_False|].
    split; [exact Hm|]. done.
  - intros Hn. unfold process_kill.
    assert (find_range (killable (k_table s) pid) 0 (Z.to_nat MAX_PROCESSES) = None) as ->; [|done].
    apply find_range_None. intros j Hj. apply not_true_is_false. intros Hkj.
    apply killable_spec in Hkj as (Hjn & Hpid & Hz); [|done].
    destruct (kinv_slot_used s j Hk Hjn) as (p & Hp & _). destruct Hz. unfold state_of. rewrite Hp. simpl.
    f_equal. apply (Hn j p Hp); [lia|done].
Qed.

Lemma process_kill_spec_witness :
  ∃ s', process_kill 4 demo_kst = Some (0, s') ∧ state_of (k_table s') 3 = Some PROC_ZOMBIE.
Proof.
  destruct (process_kill_spec pmm pmm_frame_allocator demo_kst 4) as [H _].
  - apply kinv_check_sound. vm_compute. reflexivity.
  - intros i p Hp Hz. exfalso. apply Hz. unfold aget in Hp. case_decide; [|discriminate Hp].
    revert Hp. apply (Forall_lookup_1 (λ p, p_pd_phys p = 0) demo_table).
    by repeat constructor.
  - destruct (H 3 (demo_proc PROC_READY 4)) as (s' & E & _ & Ha & _); [reflexivity|reflexivity|reflexivity|discriminate|].
    exists s'. split; [exact E|]. unfold state_of. rewrite Ha. reflexivity.
Defined.

(** A yield while [current_process] is NULL records the caller nowhere: no
    saved stack pointer of the table changes, so the frame the caller pushed is
    never resumed through the table.  This is how the shell, which runs before
    any process is current, loses its context at its first yield. *)
Theorem yield_without_current (process_table page_directory : Z) (A : Type) (FA : FrameAllocator A)
    (c : cpu) (s : kst A) :
  kinv s → esps_ok s → 20 ≤ r_esp c < 8388608 → k_current s = None →
  ∃ c' s', process_yield process_table page_directory c s = Some (c', s') ∧
    ∀ j, p_esp <$> aget (k_table s') j = p_esp <$> aget (k_table s) j.
Proof.
  intros Hk He Hr Hc. destruct (process_yield_lemma process_table page_directory c s Hk Hr He) as
    (t & i & t' & s' & p & Ht & Hs & Htab & _ & _ & _ & _ & Hp & _ & _ & Hy & _).
  eexists _, s'. split; [exact Hy|]. intros j. rewrite Hc in Ht, Hs. injection Ht as <-.
  unfold sched_next, sched_bootstrap in Hs. cbv zeta in Hs. revert Hs. generalize (default 0 (find_range
    (λ i, bool_decide (state_of (k_table s) i = Some PROC_READY) ||
          bool_decide (state_of (k_table s) i = Some PROC_RUNNING)) 0 (Z.to_nat MAX_PROCESSES))).
  intros k Hs. destruct (upd (k_table s) k _) as [t1|] eqn:Hu; [|discriminate Hs].
  injection Hs as Ei Et. apply upd_inv in Hu as (q & Hq & Et1). rewrite Htab, <-Et, Et1.
  rewrite (aget_upd _ _ _ (set_state PROC_RUNNING) _ Hq). case_decide as Hd; [|done].
  rewrite <-Hd, Hq. done.
Qed.

(** The same processes, none of them current. *)
Definition shell_kst : kst pmm :=
  Kst (Vm ∅ (Pmm [] 0 0) 65536 0) (<[2%nat := demo_proc PROC_READY 3]> demo_table) None 4 0.

Lemma yield_without_current_witness :
  ∃ c' s', process_yield 131072 65536 demo_cpu shell_kst = Some (c', s') ∧
    p_esp <$> aget (k_table s') 0 = Some 0.
Proof.
  destruct (kinv_check_sound shell_kst ltac:(vm_compute; reflexivity)) as [Hk He].
  destruct (yield_without_current 131072 65536 pmm pmm_frame_allocator demo_cpu shell_kst Hk He)
    as (c' & s' & E & Ha); [vm_compute; split; [discriminate|reflexivity]|reflexivity|].
  exists c', s'. split; [exact E|]. rewrite Ha. reflexivity.
Defined.
