(* ===== verification/Pipe.v ===== *)
(** * Pipes ([src/kernel/pipe.c], [pipe.h])

    Eight pipes, each a ring buffer of 256 bytes with its head, tail and count.
    The abstract view of a pipe is the queue of its bytes.

    [pipe_read] may block.  A call that blocks leaves through [process_block],
    which switches to another process, and continues at its loop test when the
    caller is scheduled again: [pipe_read] is the code up to the first block or
    return, [pipe_read_resume] the code from the loop test on. *)

From S2P Require Import Prelude CString Mem Pmm Paging Process.

Definition MAX_PIPES : Z := 8.
Definition PIPE_BUF_SIZE : Z := 256.

Record pipe_t := Pipe { pb_buf : list Z; pb_head : Z; pb_tail : Z; pb_count : Z; pb_open : Z }.

(** [memset(&pipes[i], 0, sizeof(pipe_t))] *)
Definition zero_pipe : pipe_t := Pipe (replicate 256 0) 0 0 0 0.

Definition set_open (o : Z) (p : pipe_t) : pipe_t :=
  Pipe (pb_buf p) (pb_head p) (pb_tail p) (pb_count p) o.

Definition pipe_init : list pipe_t := replicate 8 zero_pipe.

(** ** Table operations *)

Definition is_open (pipes : list pipe_t) (i : Z) : bool :=
  match aget pipes i with Some p => bool_decide (pb_open p ≠ 0) | None => false end.

Definition pipe_alloc (pipes : list pipe_t) : option (Z * list pipe_t) :=
  match find_range (λ i, negb (is_open pipes i)) 0 (Z.to_nat MAX_PIPES) with
  | Some i => ps ← aset pipes i (set_open 1 zero_pipe); Some (i, ps)
  | None => Some (-1, pipes)
  end.

(** [id < 0 || (uint32_t)id >= MAX_PIPES || !pipes[id].open] *)
Definition bad_id (pipes : list pipe_t) (id : Z) : bool :=
  bool_decide (id < 0) || bool_decide (MAX_PIPES ≤ u32 id) || negb (is_open pipes id).

(** ** The ring buffer *)

(** [p->buf[p->tail] = b; p->tail = (p->tail + 1) % PIPE_BUF_SIZE; p->count++;] *)
Definition put_byte (b : Z) (p : pipe_t) : option pipe_t :=
  buf ← aset (pb_buf p) (pb_tail p) b;
  Some (Pipe buf (pb_head p) (u32 (pb_tail p + 1) `mod` PIPE_BUF_SIZE) (u32 (pb_count p + 1)) (pb_open p)).

(** [dst[i] = p->buf[p->head]; p->head = (p->head + 1) % PIPE_BUF_SIZE;
    p->count--;] *)
Definition get_byte (p : pipe_t) : option (Z * pipe_t) :=
  b ← aget (pb_buf p) (pb_head p);
  Some (b, Pipe (pb_buf p) (u32 (pb_head p + 1) `mod` PIPE_BUF_SIZE) (pb_tail p)
             (u32 (pb_count p - 1)) (pb_open p)).

(** The loop of [pipe_write]; [fuel] bounds the iterations. *)
Fixpoint write_loop (src : list Z) (len written : Z) (fuel : nat) (p : pipe_t) : option (Z * pipe_t) :=
  match fuel with
  | O => None
  | S fuel =>
      if decide (written < len ∧ pb_count p < PIPE_BUF_SIZE) then
        b ← aget src written;
        p ← put_byte b p;
        write_loop src len (written + 1) fuel p
      else Some (written, p)
  end.

(** The loop of [pipe_read]: [n] bytes to the front of [dst]. *)
Fixpoint read_loop (i : Z) (n : nat) (dst : list Z) (p : pipe_t) : option (list Z * pipe_t) :=
  match n with
  | O => Some (dst, p)
  | S n' =>
      '(b, p) ← get_byte p;
      dst ← aset dst i b;
      read_loop (i + 1) n' dst p
  end.

(** At most 256 bytes fit, so 257 loop tests are enough. *)
Definition WRITE_FUEL : nat := 257.

Section pipe.
Context (process_table page_directory : Z).
Context {A : Type} `{!FrameAllocator A}.

(** [pipe_write] with the bytes at [data]; the woken processes are in the
    kernel state. *)
Definition pipe_write (id : Z) (data : list Z) (len : Z) (ps : list pipe_t) (s : kst A) :
    option (Z * list pipe_t * kst A) :=
  if bad_id ps id then Some (-1, ps, s)
  else
    p ← aget ps id;
    '(written, p) ← write_loop data len 0 WRITE_FUEL p;
    ps ← aset ps id p;
    s ← (if decide (0 < written) then process_wake_all_blocked s else Some s);
    Some (s32 written, ps, s).

(** How [pipe_read] leaves: with a result, or into [process_block]. *)
Inductive read_exit :=
| RDone (r : Z) (dst : list Z) (ps : list pipe_t)
| RBlock.

(** From the test of [while (p->count == 0)] on. *)
Definition pipe_read_resume (id : Z) (dst : list Z) (len : Z) (ps : list pipe_t) (s : kst A) :
    option read_exit :=
  p ← aget ps id;
  if decide (pb_count p = 0) then
    if decide (pb_open p = 0) then Some (RDone (-1) dst ps)
    else if decide (k_current s = None) then Some (RDone (-1) dst ps)
    else Some RBlock
  else
    let to_read := if decide (len < pb_count p) then len else pb_count p in
    '(dst, p) ← read_loop 0 (Z.to_nat to_read) dst p;
    ps ← aset ps id p;
    Some (RDone (s32 to_read) dst ps).

Definition pipe_read (id : Z) (dst : list Z) (len : Z) (ps : list pipe_t) (s : kst A) : option read_exit :=
  if bad_id ps id then Some (RDone (-1) dst ps) else pipe_read_resume id dst len ps s.

Definition pipe_close (id : Z) (ps : list pipe_t) (s : kst A) : option (list pipe_t * kst A) :=
  if bool_decide (id < 0) || bool_decide (MAX_PIPES ≤ u32 id) then Some (ps, s)
  else
    p ← aget ps id;
    ps ← aset ps id (set_open 0 p);
    s ← process_wake_all_blocked s;
    Some (ps, s).
End pipe.

(** ** The queue of a pipe *)

(** Byte [k] of the queue. *)
Definition ring_at (p : pipe_t) (k : Z) : Z :=
  default 0 (aget (pb_buf p) ((pb_head p + k) `mod` PIPE_BUF_SIZE)).

Definition queue (p : pipe_t) : list Z := ring_at p <$> seqZ 0 (pb_count p).

Record pipe_wf (p : pipe_t) : Prop := PipeWf {
  pw_len : length (pb_buf p) = 256%nat;
  pw_head : 0 ≤ pb_head p < 256;
  pw_count : 0 ≤ pb_count p ≤ 256;
  pw_tail : pb_tail p = (pb_head p + pb_count p) `mod` 256
}.

Lemma queue_length p : pipe_wf p → Z.of_nat (length (queue p)) = pb_count p.
Proof. intros Hw. unfold queue. rewrite length_fmap, length_seqZ. destruct (pw_count p Hw). lia. Qed.

Lemma put_byte_spec b p :
  pipe_wf p → pb_count p < 256 →
  ∃ p', put_byte b p = Some p' ∧ pipe_wf p' ∧ pb_count p' = pb_count p + 1 ∧
    pb_open p' = pb_open p ∧ queue p' = queue p ++ [b].
Proof.
  intros Hw Hlt. destruct Hw as [Hl Hh Hc Ht]. unfold put_byte, PIPE_BUF_SIZE.
  assert (0 ≤ pb_tail p < 256) as Htr by (rewrite Ht; zdm).
  rewrite aset_Some by lia. eexists. split; [reflexivity|].
  rewrite (u32_small (pb_tail p + 1)), (u32_small (pb_count p + 1)) by (unfold is_u32; lia).
  split; [|split; [done|split; [done|]]].
  - constructor; simpl; [by len|lia|lia|]. rewrite Ht. zdm.
  - unfold queue. simpl. rewrite (seqZ_app 0 (pb_count p) 1), fmap_app by lia. f_equal.
    + apply list_fmap_ext. intros i k Hk. apply lookup_seqZ in Hk as [-> Hk].
      unfold ring_at, PIPE_BUF_SIZE. simpl. rewrite aget_insert_ne; [done|lia|]. rewrite Ht. zdm.
    + unfold ring_at, PIPE_BUF_SIZE. cbn [seqZ fmap list_fmap Z.to_nat seq pb_buf pb_head].
      change (seqZ (0 + pb_count p) 1) with [Z.of_nat 0 + (0 + pb_count p)].
      cbn [fmap list_fmap]. f_equal.
      replace (pb_head p + (Z.of_nat 0 + (0 + pb_count p))) with (pb_head p + pb_count p) by lia.
      rewrite <-Ht. by rewrite aget_insert_eq by lia.
Qed.

Lemma get_byte_spec p :
  pipe_wf p → 0 < pb_count p →
  ∃ b p', get_byte p = Some (b, p') ∧ pipe_wf p' ∧ pb_count p' = pb_count p - 1 ∧
    pb_open p' = pb_open p ∧ queue p = b :: queue p'.
Proof.
  intros [Hl Hh Hc Ht] Hpos. unfold get_byte, PIPE_BUF_SIZE.
  destruct (aget_is_Some (pb_buf p) (pb_head p)) as [b Hb]; [lia|]. rewrite Hb.
  eexists b, _. split; [reflexivity|].
  rewrite (u32_small (pb_head p + 1)), (u32_small (pb_count p - 1)) by (unfold is_u32; lia).
  split; [|split; [done|split; [done|]]].
  - constructor; simpl; [done|zdm|lia|]. rewrite Ht. zdm.
  - unfold queue. simpl. replace (pb_count p) with (Z.succ (pb_count p - 1)) at 1 by lia.
    rewrite seqZ_cons by lia. rewrite Z.pred_succ. simpl. f_equal.
    + unfold ring_at, PIPE_BUF_SIZE. rewrite Z.add_0_r, Z.mod_small, Hb by lia. done.
    + change (Z.succ 0) with (1 + 0). rewrite <-fmap_add_seqZ, <-list_fmap_compose. apply list_fmap_ext. intros i k _. simpl.
      unfold ring_at, PIPE_BUF_SIZE. simpl. do 2 f_equal. zdm.
Qed.

Lemma write_loop_spec src len fuel : ∀ written p,
  pipe_wf p → 0 ≤ written ≤ len → len ≤ Z.of_nat (length src) → 256 - pb_count p < Z.of_nat fuel →
  ∃ p', let k := Z.min (len - written) (256 - pb_count p) in
    write_loop src len written fuel p = Some (written + k, p') ∧ pipe_wf p' ∧
    pb_open p' = pb_open p ∧
    queue p' = queue p ++ take (Z.to_nat k) (drop (Z.to_nat written) src).
Proof.
  induction fuel as [|fuel IH]; intros written p Hw Hr Hl Hf; [destruct (pw_count p Hw); lia|].
  cbn [write_loop]. unfold PIPE_BUF_SIZE. case_decide as Hd.
  - destruct (aget_is_Some src written) as [b Hb]; [lia|]. rewrite Hb. cbn [mbind option_bind].
    destruct (put_byte_spec b p Hw) as (p1 & -> & Hw1 & Hc1 & Ho1 & Hq1); [lia|]. cbn [mbind option_bind].
    destruct (IH (written + 1) p1 Hw1) as (p' & E & Hw' & Ho' & Hq'); [lia|lia|lia|].
    exists p'. cbv zeta in *. rewrite E. split; [do 2 f_equal; lia|]. split; [done|]. split; [congruence|].
    rewrite Hq', Hq1, <-app_assoc. f_equal.
    assert (drop (Z.to_nat written) src = b :: drop (Z.to_nat (written + 1)) src) as ->.
    { unfold aget in Hb. rewrite decide_True in Hb by lia.
      rewrite (drop_S _ _ _ Hb). f_equal. f_equal. lia. }
    replace (Z.to_nat (Z.min (len - written) (256 - pb_count p)))
      with (S (Z.to_nat (Z.min (len - (written + 1)) (256 - pb_count p1)))) by lia. done.
  - exists p. cbv zeta. replace (Z.min (len - written) (256 - pb_count p)) with 0
      by (destruct (pw_count p Hw); lia).
    split; [do 2 f_equal; lia|]. split; [done|]. split; [done|]. by rewrite app_nil_r.
Qed.

Lemma read_loop_spec n : ∀ i dst p,
  pipe_wf p → Z.of_nat n ≤ pb_count p → 0 ≤ i → i + Z.of_nat n ≤ Z.of_nat (length dst) →
  ∃ p', read_loop i n dst p =
      Some (take (Z.to_nat i) dst ++ take n (queue p) ++ drop (Z.to_nat i + n) dst, p') ∧
    pipe_wf p' ∧ pb_open p' = pb_open p ∧ queue p' = drop n (queue p).
Proof.
  induction n as [|n IH]; intros i dst p Hw Hn Hi Hl; cbn [read_loop].
  { exists p. rewrite Nat.add_0_r, app_nil_l, take_drop. done. }
  destruct (get_byte_spec p Hw) as (b & p1 & -> & Hw1 & Hc1 & Ho1 & Hq1); [lia|]. cbn [mbind option_bind].
  rewrite aset_Some by lia. cbn [mbind option_bind].
  destruct (IH (i + 1) (<[Z.to_nat i := b]> dst) p1 Hw1) as (p' & -> & Hw' & Ho' & Hq');
    [lia|lia|len; lia|].
  exists p'. split; [|split; [done|split; [congruence|by rewrite Hq', Hq1]]].
  rewrite Hq1. replace (Z.to_nat (i + 1)) with (S (Z.to_nat i)) by lia.
  rewrite (take_S_r _ _ b) by (apply list_lookup_insert_eq; lia).
  rewrite take_insert_ge by lia. rewrite drop_insert_lt by lia.
  replace (Z.to_nat i + S n)%nat with (S (Z.to_nat i) + n)%nat by lia.
  by rewrite <-!app_assoc.
Qed.

(** ** The pipe table *)

Definition pipes_wf (ps : list pipe_t) : Prop := length ps = 8%nat ∧ Forall pipe_wf ps.

(** The queue of an open pipe; [None] for an id that is not open. *)
Definition pipe_queue (ps : list pipe_t) (id : Z) : option (list Z) :=
  p ← aget ps id; if decide (pb_open p = 0) then None else Some (queue p).

Lemma pipes_wf_get ps id p : pipes_wf ps → aget ps id = Some p → pipe_wf p.
Proof.
  intros [_ Hf] Hp. unfold aget in Hp. case_decide; [|done]. by eapply Forall_lookup_1.
Qed.

Lemma pipes_wf_set ps id p :
  pipes_wf ps → 0 ≤ id < 8 → pipe_wf p →
  ∃ ps', aset ps id p = Some ps' ∧ pipes_wf ps' ∧
    (∀ j, aget ps' j = if decide (j = id) then Some p else aget ps j).
Proof.
  intros [Hl Hf] Hi Hp. rewrite aset_Some by (rewrite Hl; lia). eexists. split; [done|]. split.
  - split; [by len|]. by apply Forall_insert.
  - intros j. case_decide as Hd; [subst; apply aget_insert_eq; rewrite Hl; lia|].
    apply aget_insert_ne; lia.
Qed.

Lemma bad_id_spec ps id :
  pipes_wf ps → - 2147483648 ≤ id < 2147483648 →
  if bad_id ps id then pipe_queue ps id = None
  else 0 ≤ id < 8 ∧ ∃ p, aget ps id = Some p ∧ pipe_wf p ∧ pb_open p ≠ 0 ∧
    pipe_queue ps id = Some (queue p).
Proof.
  intros Hw Hid. pose proof Hw as [Hl _]. unfold bad_id, pipe_queue, is_open, MAX_PIPES.
  destruct (decide (0 ≤ id < 8)) as [Hr|Hr].
  - destruct (aget_total ps 8 id Hl Hr) as [p Hp]. rewrite Hp. simpl.
    rewrite u32_small by (unfold is_u32; lia).
    rewrite (bool_decide_eq_false_2 (id < 0)), (bool_decide_eq_false_2 (8 ≤ id)) by lia. simpl.
    case_bool_decide as Ho; simpl.
    + split; [done|]. exists p. rewrite decide_False by done. split; [done|].
      split; [by eapply pipes_wf_get|]. done.
    + rewrite decide_True; [done|]. lia.
  - assert (bool_decide (id < 0) || bool_decide (8 ≤ u32 id) = true) as ->.
    { destruct (decide (id < 0)); [by rewrite bool_decide_eq_true_2|].
      rewrite u32_small by (unfold is_u32; lia). rewrite (bool_decide_eq_true_2 (8 ≤ id)) by lia.
      apply orb_true_r. }
    simpl. destruct (aget ps id) as [p|] eqn:Hp; [|done].
    apply aget_Some_lt in Hp. lia.
Qed.

Lemma pipe_queue_set ps ps' id p :
  (∀ j, aget ps' j = if decide (j = id) then Some p else aget ps j) →
  ∀ j, pipe_queue ps' j = if decide (j = id) then
    (if decide (pb_open p = 0) then None else Some (queue p)) else pipe_queue ps j.
Proof. intros H j. unfold pipe_queue. rewrite H. by case_decide. Qed.

(** What the wake-up after a write does to the table. *)
Lemma wake_all_spec {A} (s : kst A) :
  length (k_table s) = 16%nat →
  ∃ s', process_wake_all_blocked s = Some s' ∧ length (k_table s') = 16%nat ∧
    ∀ i, state_of (k_table s') i ≠ Some PROC_BLOCKED ∧
      (state_of (k_table s) i = Some PROC_BLOCKED → state_of (k_table s') i = Some PROC_READY).
Proof.
  intros Hl. destruct (table_loop wake (k_table s) Hl) as (t & Ht & Hl' & Ha).
  unfold process_wake_all_blocked. rewrite Ht. eexists. split; [done|]. split; [done|]. intros i.
  unfold state_of. simpl. rewrite Ha. destruct (aget (k_table s) i) as [p|]; [|done]. simpl.
  unfold wake. case_decide; simpl; split; congruence.
Qed.

Lemma pipe_write_lemma {A} (ps : list pipe_t) (s : kst A) id data len :
  pipes_wf ps → - 2147483648 ≤ id < 2147483648 → length (k_table s) = 16%nat →
  0 ≤ len ≤ Z.of_nat (length data) →
  ∃ r ps' s', pipe_write id data len ps s = Some (r, ps', s') ∧ pipes_wf ps' ∧
    length (k_table s') = 16%nat ∧
    (∀ j, j ≠ id → aget ps' j = aget ps j) ∧
    match pipe_queue ps id with
    | None => r = -1 ∧ ps' = ps ∧ s' = s
    | Some q =>
        r = Z.min len (256 - Z.of_nat (length q)) ∧
        pipe_queue ps' id = Some (q ++ take (Z.to_nat r) data) ∧
        (0 < r → ∀ i, state_of (k_table s') i ≠ Some PROC_BLOCKED) ∧
        (r = 0 → s' = s)
    end.
Proof.
  intros Hw Hid Hk Hl. unfold pipe_write. pose proof (bad_id_spec ps id Hw Hid) as Hb.
  destruct (bad_id ps id).
  { exists (-1), ps, s. rewrite Hb. done. }
  destruct Hb as (Hr & p & Hp & Hwp & Ho & Hq). rewrite Hp. cbn [mbind option_bind].
  pose proof (pw_count p Hwp) as Hc.
  destruct (write_loop_spec data len WRITE_FUEL 0 p Hwp) as (p' & E & Hw' & Ho' & Hq');
    [lia|lia|unfold WRITE_FUEL; lia|].
  cbv zeta in E, Hq'. rewrite E. cbn [mbind option_bind].
  rewrite Z.sub_0_r, Z.add_0_l in *. set (r := Z.min len (256 - pb_count p)) in *.
  destruct (pipes_wf_set ps id p' Hw Hr Hw') as (ps' & -> & Hw2 & Ha2). cbn [mbind option_bind].
  assert (∃ s', (if decide (0 < r) then process_wake_all_blocked s else Some s) = Some s' ∧
    length (k_table s') = 16%nat ∧ (0 < r → ∀ i, state_of (k_table s') i ≠ Some PROC_BLOCKED) ∧
    (r = 0 → s' = s)) as (s' & -> & Hk' & Hs1 & Hs2).
  { case_decide as Hd; [|exists s; split; [done|]; split; [done|]; split; [lia|done]].
    destruct (wake_all_spec s Hk) as (s' & -> & Hk' & Hs'). exists s'. split; [done|]. split; [done|].
    split; [intros _ i; apply Hs'|lia]. }
  exists (s32 r), ps', s'. rewrite s32_small by lia. split; [done|]. split; [done|]. split; [done|].
  split; [intros j Hj; rewrite Ha2; by rewrite decide_False|].
  rewrite Hq, queue_length by done. split; [done|]. split; [|done].
  rewrite (pipe_queue_set ps ps' id p' Ha2), decide_True, decide_False, Hq' by congruence. done.
Qed.

(** [pipe_write] appends to the queue of an open pipe as many of the given
    bytes as fit in 256, in order, and returns that number; it touches no other
    pipe, and if it wrote anything no process stays BLOCKED.  For an id that is
    out of range or not open it returns -1 and changes nothing. *)
Theorem pipe_write_refines (A : Type) (ps : list pipe_t) (s : kst A) id data len :
  pipes_wf ps → - 2147483648 ≤ id < 2147483648 → length (k_table s) = 16%nat →
  0 ≤ len ≤ Z.of_nat (length data) →
  ∃ r ps' s', pipe_write id data len ps s = Some (r, ps', s') ∧ pipes_wf ps' ∧
    length (k_table s') = 16%nat ∧
    (∀ j, j ≠ id → aget ps' j = aget ps j) ∧
    match pipe_queue ps id with
    | None => r = -1 ∧ ps' = ps ∧ s' = s
    | Some q =>
        r = Z.min len (256 - Z.of_nat (length q)) ∧
        pipe_queue ps' id = Some (q ++ take (Z.to_nat r) data) ∧
        (0 < r → ∀ i, state_of (k_table s') i ≠ Some PROC_BLOCKED) ∧
        (r = 0 → s' = s)
    end.
Proof. apply pipe_write_lemma. Qed.

Lemma pipe_read_lemma {A} (ps : list pipe_t) (s : kst A) id dst len :
  pipes_wf ps → - 2147483648 ≤ id < 2147483648 → 0 ≤ len ≤ Z.of_nat (length dst) →
  match pipe_queue ps id with
  | None => pipe_read id dst len ps s = Some (RDone (-1) dst ps)
  | Some [] => pipe_read id dst len ps s =
      Some (if decide (k_current s = None) then RDone (-1) dst ps else RBlock)
  | Some q =>
      let n := Z.min len (Z.of_nat (length q)) in
      ∃ ps', pipe_read id dst len ps s =
          Some (RDone n (take (Z.to_nat n) q ++ drop (Z.to_nat n) dst) ps') ∧
        pipes_wf ps' ∧ pipe_queue ps' id = Some (drop (Z.to_nat n) q) ∧
        ∀ j, j ≠ id → aget ps' j = aget ps j
  end.
Proof.
  intros Hw Hid Hl. unfold pipe_read. pose proof (bad_id_spec ps id Hw Hid) as Hb.
  destruct (bad_id ps id); [by rewrite Hb|].
  destruct Hb as (Hr & p & Hp & Hwp & Ho & Hq). rewrite Hq. unfold pipe_read_resume.
  rewrite Hp. cbn [mbind option_bind]. pose proof (queue_length p Hwp) as Hlen.
  pose proof (pw_count p Hwp) as Hc.
  destruct (queue p) as [|b q] eqn:Eq; rewrite <-?Eq in *.
  { rewrite Eq in Hlen. simpl in Hlen. rewrite decide_True by lia.
    rewrite decide_False by done. by case_decide. }
  assert (0 < pb_count p) as Hpos by (rewrite Eq in Hlen; simpl in Hlen; lia).
  rewrite decide_False by lia. cbv zeta. rewrite Hlen.
  replace (if decide (len < pb_count p) then len else pb_count p) with (Z.min len (pb_count p))
    by (case_decide; lia).
  set (n := Z.min len (pb_count p)).
  destruct (read_loop_spec (Z.to_nat n) 0 dst p Hwp) as (p' & -> & Hw' & Ho' & Hq'); [lia..|].
  cbn [mbind option_bind].
  destruct (pipes_wf_set ps id p' Hw Hr Hw') as (ps' & -> & Hw2 & Ha2). cbn [mbind option_bind].
  exists ps'. rewrite s32_small by lia. split; [done|]. split; [done|]. split.
  - rewrite (pipe_queue_set ps ps' id p' Ha2), decide_True, decide_False, Hq' by congruence. done.
  - intros j Hj. rewrite Ha2. by rewrite decide_False.
Qed.

(** [pipe_read] on an open pipe with bytes in it removes the first
    [min len count] bytes of its queue and returns them at the front of the
    buffer; on an empty pipe it blocks, or returns -1 without a current process;
    on a pipe that is not open it returns -1.  No other pipe changes. *)
Theorem pipe_read_refines (A : Type) (ps : list pipe_t) (s : kst A) id dst len :
  pipes_wf ps → - 2147483648 ≤ id < 2147483648 → 0 ≤ len ≤ Z.of_nat (length dst) →
  match pipe_queue ps id with
  | None => pipe_read id dst len ps s = Some (RDone (-1) dst ps)
  | Some [] => pipe_read id dst len ps s =
      Some (if decide (k_current s = None) then RDone (-1) dst ps else RBlock)
  | Some q =>
      let n := Z.min len (Z.of_nat (length q)) in
      ∃ ps', pipe_read id dst len ps s =
          Some (RDone n (take (Z.to_nat n) q ++ drop (Z.to_nat n) dst) ps') ∧
        pipes_wf ps' ∧ pipe_queue ps' id = Some (drop (Z.to_nat n) q) ∧
        ∀ j, j ≠ id → aget ps' j = aget ps j
  end.
Proof. apply pipe_read_lemma. Qed.

(** The reader that goes on after a wait, whatever has become of the pipe. *)
Lemma pipe_read_resume_total {A} (ps : list pipe_t) (s : kst A) id dst len :
  pipes_wf ps → 0 ≤ id < 8 → 0 ≤ len ≤ Z.of_nat (length dst) →
  ∃ x, pipe_read_resume id dst len ps s = Some x ∧
    match x with
    | RDone r dst' ps' => pipes_wf ps' ∧ length dst' = length dst
    | RBlock => k_current s ≠ None
    end.
Proof.
  intros Hw Hid Hl. destruct (aget_total ps 8 id (proj1 Hw) Hid) as [p Hp].
  pose proof (pipes_wf_get ps id p Hw Hp) as Hwp. pose proof (pw_count p Hwp) as Hc.
  unfold pipe_read_resume. rewrite Hp. cbn [mbind option_bind].
  case_decide; [repeat case_decide; by eexists|]. cbv zeta.
  set (n := if decide (len < pb_count p) then len else pb_count p).
  assert (0 ≤ n ≤ len ∧ n ≤ pb_count p) as Hn by (unfold n; case_decide; lia). clearbody n.
  destruct (read_loop_spec (Z.to_nat n) 0 dst p Hwp) as (p' & E & Hw' & _); [lia..|]. rewrite E. cbn [mbind option_bind].
  pose proof (queue_length p Hwp).
  destruct (pipes_wf_set ps id p' Hw Hid Hw') as (ps' & -> & Hw2 & _). cbn [mbind option_bind].
  eexists. split; [reflexivity|]. split; [done|]. rewrite !length_app, !length_take, length_drop. lia.
Qed.

Lemma pipe_read_total {A} (ps : list pipe_t) (s : kst A) id dst len :
  pipes_wf ps → - 2147483648 ≤ id < 2147483648 → 0 ≤ len ≤ Z.of_nat (length dst) →
  ∃ x, pipe_read id dst len ps s = Some x ∧
    match x with
    | RDone r dst' ps' => pipes_wf ps' ∧ length dst' = length dst
    | RBlock => k_current s ≠ None
    end.
Proof.
  intros Hw Hid Hl. unfold pipe_read. pose proof (bad_id_spec ps id Hw Hid) as Hb. destruct (bad_id ps id).
  - by eexists.
  - by apply pipe_read_resume_total; [|apply Hb|].
Qed.

(** A write wakes the blocked processes or leaves the table alone. *)
Lemma pipe_write_woken {A} id data len ps r ps' (s s' : kst A) :
  pipe_write id data len ps s = Some (r, ps', s') → s' = s ∨ process_wake_all_blocked s = Some s'.
Proof.
  unfold pipe_write. destruct (bad_id ps id); [by intros [= _ _ ->]; left|].
  intros (p & _ & ([w p'] & _ & (ps1 & _ & (s1 & Hs & [= _ _ <-])%bind_Some)%bind_Some)%bind_Some)%bind_Some.
  case_decide; [by right|injection Hs as <-; by left].
Qed.

(** ** Sequences of operations on one pipe *)

Inductive pipe_op := PWrite (data : list Z) | PRead (n : nat).

(** The bytes accepted and the bytes delivered by a sequence of calls; a read
    that blocks delivers nothing. *)
Fixpoint run_ops {A} (id : Z) (ops : list pipe_op) (ps : list pipe_t) (s : kst A) :
    option (list Z * list Z * list pipe_t) :=
  match ops with
  | [] => Some ([], [], ps)
  | PWrite data :: ops =>
      '(r, ps, s) ← pipe_write id data (Z.of_nat (length data)) ps s;
      '(w, d, ps) ← run_ops id ops ps s;
      Some (take (Z.to_nat r) data ++ w, d, ps)
  | PRead n :: ops =>
      e ← pipe_read id (replicate n 0) (Z.of_nat n) ps s;
      match e with
      | RDone r dst ps =>
          '(w, d, ps) ← run_ops id ops ps s;
          Some (w, take (Z.to_nat r) dst ++ d, ps)
      | RBlock => run_ops id ops ps s
      end
  end.

(** C23: a pipe is a FIFO channel: for every interleaving of writes and reads on an
    open pipe the bytes delivered are exactly the bytes accepted, in order,
    without loss or duplication; what has not been delivered yet is in the
    pipe. *)
Theorem pipe_fifo (A : Type) id ops : ∀ (ps : list pipe_t) (s : kst A) q,
  pipes_wf ps → length (k_table s) = 16%nat → - 2147483648 ≤ id < 2147483648 →
  pipe_queue ps id = Some q →
  ∃ w d ps' q', run_ops id ops ps s = Some (w, d, ps') ∧ pipes_wf ps' ∧
    pipe_queue ps' id = Some q' ∧ q ++ w = d ++ q'.
Proof.
  induction ops as [|[data|n] ops IH]; intros ps s q Hw Hk Hid Hq; cbn [run_ops].
  { exists [], [], ps, q. by rewrite app_nil_r. }
  - destruct (pipe_write_lemma ps s id data (Z.of_nat (length data))) as
      (r & ps1 & s1 & -> & Hw1 & Hk1 & _ & Hc); [done..|lia|]. cbn [mbind option_bind].
    rewrite Hq in Hc. destruct Hc as (_ & Hq1 & _).
    destruct (IH ps1 s1 _ Hw1 Hk1 Hid Hq1) as (w & d & ps' & q' & -> & Hw' & Hq' & E).
    eexists _, d, ps', q'. split; [reflexivity|]. split; [done|]. split; [done|].
    by rewrite app_assoc.
  - pose proof (pipe_read_lemma ps s id (replicate n 0) (Z.of_nat n) Hw Hid) as Hr.
    rewrite length_replicate in Hr. specialize (Hr ltac:(lia)). rewrite Hq in Hr.
    destruct q as [|b q].
    + rewrite Hr. cbn [mbind option_bind]. case_decide.
      * destruct (IH ps s _ Hw Hk Hid Hq) as (w & d & ps' & q' & -> & Hw' & Hq' & E).
        exists w, d, ps', q'. done.
      * apply (IH ps s _ Hw Hk Hid Hq).
    + cbv zeta in Hr. set (k := Z.min _ _) in Hr. destruct Hr as (ps1 & -> & Hw1 & Hq1 & _).
      cbn [mbind option_bind].
      destruct (IH ps1 s _ Hw1 Hk Hid Hq1) as (w & d & ps' & q' & -> & Hw' & Hq' & E).
      eexists w, _, ps', q'. split; [reflexivity|]. split; [done|]. split; [done|].
      rewrite <-app_assoc, <-E. rewrite take_app_le by (rewrite length_take; lia).
      rewrite take_take, Nat.min_id. rewrite app_assoc. by rewrite take_drop.
Qed.

Lemma zero_pipe_wf o : pipe_wf (set_open o zero_pipe).
Proof. constructor; simpl; [done|lia|lia|done]. Qed.

Lemma pipe_init_wf : pipes_wf pipe_init.
Proof. split; [done|]. apply Forall_replicate, (zero_pipe_wf 0). Qed.

(** [pipe_alloc] opens the lowest closed pipe with an empty queue and touches
    no other pipe, or returns -1 when all eight are open; [pipe_close] makes the
    pipe unavailable and wakes every blocked process, so that a blocked reader
    continues and, finding the pipe closed, returns -1. *)
Theorem pipe_alloc_close (A : Type) (ps : list pipe_t) (s : kst A) :
  pipes_wf ps → length (k_table s) = 16%nat →
  (∃ r ps', pipe_alloc ps = Some (r, ps') ∧ pipes_wf ps' ∧ (∀ j, j ≠ r → aget ps' j = aget ps j) ∧
     (r = -1 ∧ ps' = ps ∧ (∀ i, 0 ≤ i < 8 → pipe_queue ps i ≠ None) ∨
      0 ≤ r < 8 ∧ pipe_queue ps r = None ∧ pipe_queue ps' r = Some [] ∧
        ∀ i, 0 ≤ i < r → pipe_queue ps i ≠ None)) ∧
  (∀ id, 0 ≤ id < 8 → ∃ ps' s', pipe_close id ps s = Some (ps', s') ∧ pipes_wf ps' ∧
     pipe_queue ps' id = None ∧ (∀ j, j ≠ id → aget ps' j = aget ps j) ∧
     (∀ i, state_of (k_table s') i ≠ Some PROC_BLOCKED) ∧
     (pipe_queue ps id = Some [] → ∀ dst len,
        pipe_read_resume id dst len ps' s' = Some (RDone (-1) dst ps'))).
Proof.
  intros Hw Hk. pose proof Hw as [Hl _].
  assert (∀ i, 0 ≤ i < 8 → negb (is_open ps i) = true ↔ pipe_queue ps i = None) as Hopen.
  { intros i Hi. destruct (aget_total ps 8 i Hl Hi) as [p Hp]. unfold is_open, pipe_queue.
    rewrite Hp. simpl. destruct (decide (pb_open p = 0));
      [rewrite bool_decide_eq_false_2 by lia|rewrite bool_decide_eq_true_2 by lia]; done. }
  split.
  - unfold pipe_alloc, MAX_PIPES. destruct (find_range _ _ _) as [i|] eqn:Hf.
    + apply find_range_Some in Hf as (Hi & Hf & Hn). simpl in Hi.
      destruct (pipes_wf_set ps i _ Hw ltac:(lia) (zero_pipe_wf 1)) as (ps' & -> & Hw' & Ha).
      exists i, ps'. split; [done|]. split; [done|].
      split; [intros j Hj; rewrite Ha; by rewrite decide_False|]. right. split; [lia|].
      split; [by apply Hopen; [lia|]|]. split.
      * rewrite (pipe_queue_set ps ps' i _ Ha). by rewrite decide_True.
      * intros k Hk2 Hq. apply Hopen in Hq; [|lia]. rewrite Hn in Hq by lia. done.
    + exists (-1), ps. split; [done|]. split; [done|]. split; [done|]. left. split; [done|]. split; [done|].
      intros k Hk2 Hq. apply Hopen in Hq; [|lia].
      rewrite (proj1 (find_range_None _ _ _) Hf) in Hq by lia. done.
  - intros id Hid. unfold pipe_close, MAX_PIPES. rewrite u32_small by (unfold is_u32; lia).
    rewrite (bool_decide_eq_false_2 (id < 0)), (bool_decide_eq_false_2 (8 ≤ id)) by lia. simpl.
    destruct (aget_total ps 8 id Hl Hid) as [p Hp]. rewrite Hp. cbn [mbind option_bind].
    assert (pipe_wf (set_open 0 p)) as Hwp.
    { destruct (pipes_wf_get ps id p Hw Hp). by constructor. }
    destruct (pipes_wf_set ps id _ Hw Hid Hwp) as (ps' & -> & Hw' & Ha). cbn [mbind option_bind].
    destruct (wake_all_spec s Hk) as (s' & -> & _ & Hs'). exists ps', s'. split; [done|]. split; [done|].
    split; [rewrite (pipe_queue_set ps ps' id _ Ha); by rewrite decide_True|].
    split; [intros j Hj; rewrite Ha; by rewrite decide_False|]. split; [intros i; apply Hs'|].
    intros Hq dst len. unfold pipe_read_resume. rewrite Ha, (decide_True (P := id = id)) by done.
    cbn [mbind option_bind]. assert (pb_count p = 0) as Hc0.
    { unfold pipe_queue in Hq. rewrite Hp in Hq. simpl in Hq. case_decide; [done|]. injection Hq as Hq.
      rewrite <-(queue_length p (pipes_wf_get ps id p Hw Hp)). by rewrite Hq. }
    simpl. by rewrite decide_True.
Qed.

(** A freshly allocated pipe 0 and the processes of [demo_kst]. *)
Definition demo_pipes : list pipe_t := default [] (snd <$> pipe_alloc pipe_init).

Lemma demo_pipes_wf : pipes_wf demo_pipes.
Proof.
  split; [reflexivity|]. unfold demo_pipes.
  change (default [] (snd <$> pipe_alloc pipe_init)) with (set_open 1 zero_pipe :: replicate 7 zero_pipe).
  constructor; [apply zero_pipe_wf|]. apply Forall_replicate, (zero_pipe_wf 0).
Qed.

Lemma pipe_write_refines_witness :
  ∃ ps' s', pipe_write 0 [1; 2; 3; 4] 3 demo_pipes demo_kst = Some (3, ps', s') ∧
    pipe_queue ps' 0 = Some [1; 2; 3].
Proof.
  destruct (pipe_write_refines pmm demo_pipes demo_kst 0 [1; 2; 3; 4] 3 demo_pipes_wf)
    as (r & ps' & s' & E & _ & _ & _ & Hc); [lia|reflexivity|simpl; lia|].
  destruct Hc as (-> & Hq & _). exists ps', s'. split; [exact E|exact Hq].
Defined.

Lemma pipe_read_refines_witness :
  pipe_read 0 [9; 9] 2 demo_pipes demo_kst = Some RBlock ∧
  pipe_read 5 [9; 9] 2 demo_pipes demo_kst = Some (RDone (-1) [9; 9] demo_pipes).
Proof.
  split.
  - exact (pipe_read_refines pmm demo_pipes demo_kst 0 [9; 9] 2 demo_pipes_wf ltac:(lia) ltac:(simpl; lia)).
  - exact (pipe_read_refines pmm demo_pipes demo_kst 5 [9; 9] 2 demo_pipes_wf ltac:(lia) ltac:(simpl; lia)).
Defined.

Lemma pipe_fifo_witness :
  ∃ w d ps' q', run_ops 0 [PWrite [1; 2; 3]; PRead 2; PWrite [4]; PRead 9] demo_pipes demo_kst =
      Some (w, d, ps') ∧ pipes_wf ps' ∧ pipe_queue ps' 0 = Some q' ∧ [] ++ w = d ++ q'.
Proof.
  apply (pipe_fifo pmm 0 _ demo_pipes demo_kst []); [exact demo_pipes_wf|reflexivity|lia|reflexivity].
Defined.

Lemma pipe_alloc_close_witness :
  ∃ ps' s', pipe_close 0 demo_pipes demo_kst = Some (ps', s') ∧
    pipe_read_resume 0 [9] 1 ps' s' = Some (RDone (-1) [9] ps').
Proof.
  destruct (pipe_alloc_close pmm demo_pipes demo_kst demo_pipes_wf eq_refl) as [_ H].
  destruct (H 0) as (ps' & s' & E & _ & _ & _ & _ & Hr); [lia|].
  exists ps', s'. split; [exact E|]. apply Hr. reflexivity.
Defined.
