(* ===== verification/Keyboard.v ===== *)
(** * The keyboard driver ([src/kernel/keyboard.c], [keyboard.h])

    The IRQ1 handler is a state machine over scancodes (Shift held, 0xE0 prefix
    seen) that pushes characters into a ring buffer of 64 slots, from which
    [keyboard_getchar] takes them.  Characters are bytes (0..255). *)

From Stdlib Require Import String Ascii.
From S2P Require Import Prelude CString Mem Pmm Paging Process Pipe.

(** Characters by make code, without and with Shift. *)
Definition scancode_ascii : list Z :=
  [0; 0; 49; 50; 51; 52; 53; 54; 55; 56; 57; 48; 45; 61; 8; 9;
   113; 119; 101; 114; 116; 121; 117; 105; 111; 112; 91; 93; 10; 0; 97; 115;
   100; 102; 103; 104; 106; 107; 108; 59; 39; 96; 0; 92; 122; 120; 99; 118;
   98; 110; 109; 44; 46; 47; 0; 42; 0; 32].
Definition scancode_ascii_shift : list Z :=
  [0; 0; 33; 64; 35; 36; 37; 94; 38; 42; 40; 41; 95; 43; 8; 9;
   81; 87; 69; 82; 84; 89; 85; 73; 79; 80; 123; 125; 10; 0; 65; 83;
   68; 70; 71; 72; 74; 75; 76; 58; 34; 126; 0; 124; 90; 88; 67; 86;
   66; 78; 77; 60; 62; 63; 0; 42; 0; 32].

Definition KB_BUF_SIZE : Z := 64.
Definition KEY_UP : Z := 128.
Definition KEY_DOWN : Z := 129.
Definition KEY_LEFT : Z := 130.
Definition KEY_RIGHT : Z := 131.

Record kb := Kb { kb_buf : list Z; kb_head : Z; kb_tail : Z; shift_pressed : Z; extended_code : Z }.

Definition set_shift (v : Z) (k : kb) : kb := Kb (kb_buf k) (kb_head k) (kb_tail k) v (extended_code k).
Definition set_ext (v : Z) (k : kb) : kb := Kb (kb_buf k) (kb_head k) (kb_tail k) (shift_pressed k) v.

(** The driver state set up by [keyboard_init]; the buffer keeps its bytes. *)
Definition keyboard_init (k : kb) : kb := Kb (kb_buf k) 0 0 0 0.

(** The buffer part of [kb_push]: a full buffer drops the character. *)
Definition kb_store (c : Z) (k : kb) : option kb :=
  let next := u8 (u32 (kb_tail k + 1) `mod` KB_BUF_SIZE) in
  if decide (next ≠ kb_head k) then
    buf ← aset (kb_buf k) (kb_tail k) c;
    Some (Kb buf (kb_head k) next (shift_pressed k) (extended_code k))
  else Some k.

Section keyboard.
Context {A : Type}.

Definition kb_push (c : Z) (k : kb) (s : kst A) : option (kb * kst A) :=
  k ← kb_store c k;
  s ← process_wake_all_blocked s;
  Some (k, s).

(** The [switch] on extended make codes; 0 for the other keys. *)
Definition special_key (scancode : Z) : Z :=
  if decide (scancode = 72) then KEY_UP
  else if decide (scancode = 80) then KEY_DOWN
  else if decide (scancode = 75) then KEY_LEFT
  else if decide (scancode = 77) then KEY_RIGHT
  else 0.

(** The handler on the byte read from port 0x60. *)
Definition keyboard_irq_handler (scancode : Z) (k : kb) (s : kst A) : option (kb * kst A) :=
  if decide (scancode = 224) then Some (set_ext 1 k, s)
  else if decide (extended_code k ≠ 0) then
    let k := set_ext 0 k in
    if decide (Z.land scancode 128 = 0) then
      let special := special_key scancode in
      if decide (special ≠ 0) then kb_push special k s else Some (k, s)
    else Some (k, s)
  else if decide (Z.land scancode 128 ≠ 0) then
    let released := Z.land scancode 127 in
    if decide (released = 42 ∨ released = 54) then Some (set_shift 0 k, s) else Some (k, s)
  else if decide (scancode = 42 ∨ scancode = 54) then Some (set_shift 1 k, s)
  else if decide (scancode < Z.of_nat (length scancode_ascii)) then
    c ← (if decide (shift_pressed k ≠ 0) then aget scancode_ascii_shift scancode
         else aget scancode_ascii scancode);
    if decide (c ≠ 0) then kb_push c k s else Some (k, s)
  else Some (k, s).

(** How one pass of the loop of [keyboard_getchar] ends: a character, a block
    in [process_block], or a [hlt] when there is no current process. *)
Inductive getchar_exit := GChar (c : Z) (k : kb) | GBlock | GHalt.

Definition keyboard_getchar (k : kb) (s : kst A) : option getchar_exit :=
  if decide (kb_head k = kb_tail k) then
    Some (if decide (k_current s = None) then GHalt else GBlock)
  else
    c ← aget (kb_buf k) (kb_head k);
    Some (GChar c (Kb (kb_buf k) (u8 (u32 (kb_head k + 1) `mod` KB_BUF_SIZE)) (kb_tail k)
                     (shift_pressed k) (extended_code k))).
End keyboard.

(** ** The queue of characters *)

Definition kb_count (k : kb) : Z := (kb_tail k - kb_head k) `mod` 64.
Definition kb_at (k : kb) (i : Z) : Z := default 0 (aget (kb_buf k) ((kb_head k + i) `mod` 64)).
Definition kb_queue (k : kb) : list Z := kb_at k <$> seqZ 0 (kb_count k).

Record kb_wf (k : kb) : Prop := KbWf {
  kw_len : length (kb_buf k) = 64%nat;
  kw_head : 0 ≤ kb_head k < 64;
  kw_tail : 0 ≤ kb_tail k < 64
}.

Lemma kb_next x : 0 ≤ x < 64 → u8 (u32 (x + 1) `mod` 64) = (x + 1) `mod` 64.
Proof. intros. rewrite u32_small by (unfold is_u32; lia). apply u8_small. unfold is_u8. zdm. Qed.

Lemma kb_queue_length k : kb_wf k → Z.of_nat (length (kb_queue k)) = kb_count k.
Proof. intros Hw. unfold kb_queue. rewrite length_fmap, length_seqZ. unfold kb_count. zdm. Qed.

(** Appending, or dropping when 63 characters are waiting. *)
Lemma kb_store_spec c k :
  kb_wf k →
  ∃ k', kb_store c k = Some k' ∧ kb_wf k' ∧ shift_pressed k' = shift_pressed k ∧
    extended_code k' = extended_code k ∧
    kb_queue k' = if decide (length (kb_queue k) < 63)%nat then kb_queue k ++ [c] else kb_queue k.
Proof.
  intros Hw. pose proof (kb_queue_length k Hw) as Hl. destruct Hw as [Hb Hh Ht].
  unfold kb_store, KB_BUF_SIZE. cbv zeta. rewrite kb_next by done. unfold kb_count in Hl.
  destruct (decide (length (kb_queue k) < 63)%nat) as [Hlt|Hge].
  - rewrite decide_True by zdm. rewrite aset_Some by lia.
    eexists. split; [reflexivity|]. split; [constructor; simpl; [by len|done|zdm]|].
    split; [done|]. split; [done|]. unfold kb_queue, kb_count. simpl.
    replace (((kb_tail k + 1) `mod` 64 - kb_head k) `mod` 64)
      with ((kb_tail k - kb_head k) `mod` 64 + 1) by zdm.
    rewrite seqZ_app, fmap_app by zdm. f_equal.
    + apply list_fmap_ext. intros i x Hx. apply lookup_seqZ in Hx as [-> Hx].
      unfold kb_at. simpl. rewrite aget_insert_ne; [done|lia|]. zdm.
    + change (seqZ (0 + (kb_tail k - kb_head k) `mod` 64) 1)
        with [Z.of_nat 0 + (0 + (kb_tail k - kb_head k) `mod` 64)].
      cbn [fmap list_fmap]. f_equal. unfold kb_at. cbn [kb_buf kb_head].
      replace ((kb_head k + (Z.of_nat 0 + (0 + (kb_tail k - kb_head k) `mod` 64))) `mod` 64)
        with (kb_tail k) by zdm.
      by rewrite aget_insert_eq by lia.
  - rewrite decide_False by zdm. exists k. done.
Qed.

Lemma kb_getchar_spec {A} k (s : kst A) :
  kb_wf k →
  match kb_queue k with
  | [] => keyboard_getchar k s = Some (if decide (k_current s = None) then GHalt else GBlock)
  | c :: q => ∃ k', keyboard_getchar k s = Some (GChar c k') ∧ kb_wf k' ∧ kb_queue k' = q ∧
      shift_pressed k' = shift_pressed k ∧ extended_code k' = extended_code k
  end.
Proof.
  intros Hw. pose proof (kb_queue_length k Hw) as Hl. destruct Hw as [Hb Hh Ht].
  unfold keyboard_getchar, KB_BUF_SIZE. unfold kb_count in Hl. case_decide as Hd.
  - assert (kb_queue k = []) as ->; [|done]. apply nil_length_inv. zdm.
  - destruct (aget_is_Some (kb_buf k) (kb_head k)) as [c Hc]; [lia|]. rewrite Hc.
    cbn [mbind option_bind]. rewrite kb_next by done.
    set (k' := Kb _ _ _ _ _). assert (kb_queue k = c :: kb_queue k') as ->.
    { unfold kb_queue, kb_count, k'. simpl.
      replace ((kb_tail k - kb_head k) `mod` 64)
        with (Z.succ ((kb_tail k - (kb_head k + 1) `mod` 64) `mod` 64)) at 1 by zdm.
      rewrite seqZ_cons by zdm. rewrite Z.pred_succ. simpl. f_equal.
      - unfold kb_at. rewrite Z.add_0_r, Z.mod_small, Hc by lia. done.
      - change (Z.succ 0) with (1 + 0). rewrite <-fmap_add_seqZ, <-list_fmap_compose.
        apply list_fmap_ext. intros i x _. unfold kb_at. simpl. do 2 f_equal. zdm. }
    exists k'. split; [done|]. split; [constructor; simpl; [done|zdm|done]|]. done.
Qed.

(** ** Decoding *)

(** What a scancode means in a given Shift and prefix state: the next state and
    the character, if any. *)
Definition decode (shift ext scancode : Z) : Z * Z * option Z :=
  let char c := if decide (c ≠ 0) then Some c else None in
  if decide (scancode = 224) then (shift, 1, None)
  else if decide (ext ≠ 0) then
    (shift, 0, if decide (Z.land scancode 128 = 0) then char (special_key scancode) else None)
  else if decide (Z.land scancode 128 ≠ 0) then
    (if decide (Z.land scancode 127 = 42 ∨ Z.land scancode 127 = 54) then 0 else shift, 0, None)
  else if decide (scancode = 42 ∨ scancode = 54) then (1, 0, None)
  else (shift, 0, (if decide (shift ≠ 0) then aget scancode_ascii_shift scancode
                   else aget scancode_ascii scancode) ≫= char).

Lemma kb_push_spec {A} c k (s : kst A) :
  kb_wf k → length (k_table s) = 16%nat →
  ∃ k' s', kb_push c k s = Some (k', s') ∧ kb_wf k' ∧ length (k_table s') = 16%nat ∧
    shift_pressed k' = shift_pressed k ∧ extended_code k' = extended_code k ∧
    (∀ i, state_of (k_table s') i ≠ Some PROC_BLOCKED) ∧
    kb_queue k' = if decide (length (kb_queue k) < 63)%nat then kb_queue k ++ [c] else kb_queue k.
Proof.
  intros Hw Hk. unfold kb_push. destruct (kb_store_spec c k Hw) as (k' & -> & Hw' & H1 & H2 & Hq).
  destruct (wake_all_spec s Hk) as (s' & E & Hk' & Hb). cbn [mbind option_bind]. rewrite E.
  exists k', s'. split; [done|]. split; [done|]. split; [done|]. split; [done|]. split; [done|].
  split; [intros i; apply Hb|done].
Qed.

(** The state after the Shift and prefix state is set. *)
Lemma set_modes_wf k sh ex : kb_wf k → kb_wf (set_shift sh k) ∧ kb_wf (set_ext ex k).
Proof. intros []. by split; constructor. Qed.

(** The handler's result when a character [c] (0 for none) was decoded. *)
Lemma push_nonzero {A} c k (s : kst A) :
  kb_wf k → length (k_table s) = 16%nat →
  ∃ k' s', (if decide (c ≠ 0) then kb_push c k s else Some (k, s)) = Some (k', s') ∧ kb_wf k' ∧
    length (k_table s') = 16%nat ∧ shift_pressed k' = shift_pressed k ∧
    extended_code k' = extended_code k ∧
    match (if decide (c ≠ 0) then Some c else None) with
    | None => kb_queue k' = kb_queue k ∧ s' = s
    | Some c => (∀ i, state_of (k_table s') i ≠ Some PROC_BLOCKED) ∧
        kb_queue k' = if decide (length (kb_queue k) < 63)%nat then kb_queue k ++ [c] else kb_queue k
    end.
Proof.
  intros Hw Hk. destruct (decide (c ≠ 0)).
  - destruct (kb_push_spec c k s Hw Hk) as (k' & s' & E & Hw' & Hk' & H1 & H2 & Hb & Hq).
    exists k', s'. done.
  - exists k, s. done.
Qed.

Lemma irq_decodes {A} scancode k (s : kst A) :
  is_u8 scancode → kb_wf k → length (k_table s) = 16%nat →
  extended_code k = 0 ∨ extended_code k = 1 →
  let '(shift, ext, oc) := decode (shift_pressed k) (extended_code k) scancode in
  ∃ k' s', keyboard_irq_handler scancode k s = Some (k', s') ∧ kb_wf k' ∧
    length (k_table s') = 16%nat ∧ shift_pressed k' = shift ∧ extended_code k' = ext ∧
    match oc with
    | None => kb_queue k' = kb_queue k ∧ s' = s
    | Some c => (∀ i, state_of (k_table s') i ≠ Some PROC_BLOCKED) ∧
        kb_queue k' = if decide (length (kb_queue k) < 63)%nat then kb_queue k ++ [c] else kb_queue k
    end.
Proof.
  intros Hsc Hw Hk He. unfold decode, keyboard_irq_handler.
  destruct (set_modes_wf k 0 0 Hw) as [Hs0 He0]. destruct (set_modes_wf k 1 1 Hw) as [Hs1 He1].
  destruct (decide (scancode = 224)); [by exists (set_ext 1 k), s|].
  destruct (decide (extended_code k ≠ 0)) as [Hx|Hx].
  { destruct (decide (Z.land scancode 128 = 0)); [|by exists (set_ext 0 k), s].
    apply (push_nonzero (special_key scancode) (set_ext 0 k) s He0 Hk). }
  assert (extended_code k = 0) as E0 by lia.
  destruct (decide (Z.land scancode 128 ≠ 0)) as [Hbit|Hbit].
  { case_decide; [by exists (set_shift 0 k), s|by exists k, s]. }
  destruct (decide (scancode = 42 ∨ scancode = 54)); [by exists (set_shift 1 k), s|].
  change (Z.of_nat (length scancode_ascii)) with 58.
  destruct (decide (scancode < 58)) as [Hlt|Hge].
  - unfold is_u8 in Hsc.
    destruct (aget_is_Some scancode_ascii scancode) as [c Hc]; [simpl; lia|].
    destruct (aget_is_Some scancode_ascii_shift scancode) as [d Hd]; [simpl; lia|].
    rewrite Hc, Hd. destruct (decide (shift_pressed k ≠ 0)); cbn [mbind option_bind];
      [destruct (push_nonzero d k s Hw Hk) as (k' & s' & H)|destruct (push_nonzero c k s Hw Hk) as (k' & s' & H)];
      exists k', s'; by rewrite E0 in H.
  - assert ((if decide (shift_pressed k ≠ 0) then aget scancode_ascii_shift scancode
             else aget scancode_ascii scancode) = None) as ->.
    { unfold is_u8 in Hsc. assert (58 ≤ Z.to_nat scancode)%nat by lia. unfold aget.
      rewrite !(decide_True (P := 0 ≤ scancode)) by lia.
      destruct (decide (shift_pressed k ≠ 0)); by apply lookup_ge_None_2. }
    by exists k, s.
Qed.

Lemma decode_ext shift ext scancode : (decode shift ext scancode).1.2 = 0 ∨ (decode shift ext scancode).1.2 = 1.
Proof. unfold decode. repeat case_decide; simpl; auto. Qed.

(** Of the processes it at most wakes the blocked ones. *)
Lemma keyboard_irq_woken {A} sc k k' (s s' : kst A) :
  keyboard_irq_handler sc k s = Some (k', s') → s' = s ∨ process_wake_all_blocked s = Some s'.
Proof.
  assert (∀ c k k' (s s' : kst A), kb_push c k s = Some (k', s') → process_wake_all_blocked s = Some s') as Hp.
  { unfold kb_push. by intros c k0 k0' s0 s0' (k1 & _ & (s1 & H & [= <- <-])%bind_Some)%bind_Some. }
  unfold keyboard_irq_handler. intros H.
  repeat case_decide; try (injection H as <- <-; by left); try (right; by eapply Hp);
    apply bind_Some in H as (c & _ & H); case_decide; first [injection H as <- <-; by left | right; by eapply Hp].
Qed.

(** The IRQ1 handler decodes: on every scancode byte it moves to the next
    Shift and prefix state, and appends the decoded character to the queue of
    waiting characters (dropping it when 63 are waiting, and then waking the
    blocked processes); without a character the queue and the processes are
    unchanged. *)
Theorem keyboard_irq_decodes (A : Type) scancode k (s : kst A) :
  is_u8 scancode → kb_wf k → length (k_table s) = 16%nat →
  extended_code k = 0 ∨ extended_code k = 1 →
  let '(shift, ext, oc) := decode (shift_pressed k) (extended_code k) scancode in
  ∃ k' s', keyboard_irq_handler scancode k s = Some (k', s') ∧ kb_wf k' ∧
    length (k_table s') = 16%nat ∧ shift_pressed k' = shift ∧ extended_code k' = ext ∧
    match oc with
    | None => kb_queue k' = kb_queue k ∧ s' = s
    | Some c => (∀ i, state_of (k_table s') i ≠ Some PROC_BLOCKED) ∧
        kb_queue k' = if decide (length (kb_queue k) < 63)%nat then kb_queue k ++ [c] else kb_queue k
    end.
Proof. apply irq_decodes. Qed.

Definition demo_kb : kb := Kb (replicate 64 0) 0 0 0 0.
Lemma demo_kb_wf : kb_wf demo_kb.
Proof. by constructor. Qed.

Lemma keyboard_irq_decodes_witness :
  ∃ k' s', keyboard_irq_handler 30 demo_kb demo_kst = Some (k', s') ∧ kb_queue k' = [97].
Proof.
  destruct (keyboard_irq_decodes pmm 30 demo_kb demo_kst) as (k' & s' & E & _ & _ & _ & _ & _ & Hq);
    [unfold is_u8; lia|exact demo_kb_wf|reflexivity|by left|].
  exists k', s'. split; [exact E|exact Hq].
Defined.

(** ** Typing *)

(** A PS/2 keyboard with the US layout, scan code set 1, as its documentation lists the
    keys: the rows from the code of their first key on, what a key stands for, and what
    with Shift; then Backspace, Tab, Enter and the space bar. *)
Definition typed_row (first : Z) (plain shifted : list Z) : list (Z * Z * Z) :=
  imap (λ i '(a, b), (first + Z.of_nat i, a, b)) (zip plain shifted).

Definition letters (l : String.string) : list Z := (λ a, Z.of_nat (nat_of_ascii a)) <$> list_ascii_of_string l.

Definition us_keyboard : list (Z * Z * Z) :=
  typed_row 2 (letters "1234567890-=") (letters "!@#$%^&*()_+") ++
  typed_row 16 (letters "qwertyuiop[]") (letters "QWERTYUIOP{}") ++
  typed_row 30 (letters "asdfghjkl;'`") (letters "ASDFGHJKL:" ++ [34] ++ letters "~") ++
  typed_row 43 (letters "\zxcvbnm,./") (letters "|ZXCVBNM<>?") ++
  [(14, 8, 8); (15, 9, 9); (28, 10, 10); (57, 32, 32)].

(** What the keyboard sends when [c] is typed: press and release of its key (the code,
    and the code plus 128), with the left Shift key held where that is needed. *)
Definition keystroke (c : Z) : list Z :=
  match find (λ '(_, plain, _), plain =? c) us_keyboard, find (λ '(_, _, shifted), shifted =? c) us_keyboard with
  | Some (code, _, _), _ => [code; code + 128]
  | None, Some (code, _, _) => [42; code; code + 128; 42 + 128]
  | None, None => []
  end.

(** Backspace, Tab, Enter and the printable ASCII characters. *)
Definition typable (c : Z) : Prop := c = 8 ∨ c = 9 ∨ c = 10 ∨ 32 ≤ c < 127.

(** A scancode sequence decoded from the state with no key held. *)
Fixpoint decode_all (shift ext : Z) (scs : list Z) : Z * Z * list Z :=
  match scs with
  | [] => (shift, ext, [])
  | sc :: scs =>
      let '(shift, ext, oc) := decode shift ext sc in
      let '(shift, ext, cs) := decode_all shift ext scs in
      (shift, ext, from_option (λ c, [c]) [] oc ++ cs)
  end.

Fixpoint run_irqs {A} (scs : list Z) (k : kb) (s : kst A) : option (kb * kst A) :=
  match scs with
  | [] => Some (k, s)
  | sc :: scs => '(k, s) ← keyboard_irq_handler sc k s; run_irqs scs k s
  end.

Fixpoint getchars {A} (n : nat) (k : kb) (s : kst A) : option (list Z) :=
  match n with
  | O => Some []
  | S n' =>
      e ← keyboard_getchar k s;
      match e with GChar c k => cons c <$> getchars n' k s | _ => None end
  end.

Definition typable_codes : list Z := [8; 9; 10] ++ seqZ 32 95.

Lemma typable_elem c : typable c → c ∈ typable_codes.
Proof.
  unfold typable, typable_codes. rewrite elem_of_app, elem_of_seqZ, !elem_of_cons. intros; lia.
Qed.

Lemma keystroke_check :
  forallb (λ c, bool_decide (decode_all 0 0 (keystroke c) = (0, 0, [c])) &&
                forallb (λ sc, bool_decide (0 ≤ sc < 256)) (keystroke c)) typable_codes = true.
Proof. vm_compute. reflexivity. Qed.

Lemma keystroke_decodes c :
  typable c → decode_all 0 0 (keystroke c) = (0, 0, [c]) ∧ Forall is_u8 (keystroke c).
Proof.
  intros Hc%typable_elem. pose proof keystroke_check as H. rewrite forallb_forall in H.
  apply list_elem_of_In, H, andb_true_iff in Hc as [H1 H2]. apply bool_decide_eq_true in H1.
  split; [done|]. rewrite forallb_forall in H2. apply Forall_forall. intros sc Hsc.
  by apply H2, bool_decide_eq_true in Hsc.
Qed.

(** While the buffer has room, the queue grows by exactly the decoded
    characters. *)
Lemma run_irqs_spec {A} scs : ∀ k (s : kst A) sh ex cs,
  Forall is_u8 scs → kb_wf k → length (k_table s) = 16%nat →
  (extended_code k = 0 ∨ extended_code k = 1) →
  decode_all (shift_pressed k) (extended_code k) scs = (sh, ex, cs) →
  (length (kb_queue k) + length cs ≤ 63)%nat →
  ∃ k' s', run_irqs scs k s = Some (k', s') ∧ kb_wf k' ∧ length (k_table s') = 16%nat ∧
    shift_pressed k' = sh ∧ extended_code k' = ex ∧ kb_queue k' = kb_queue k ++ cs.
Proof.
  induction scs as [|sc scs IH]; intros k s sh ex cs Hf Hw Hk He Hd Hl.
  { simpl in Hd. injection Hd as <- <- <-. exists k, s. by rewrite app_nil_r. }
  apply Forall_cons_1 in Hf as [Hsc Hf]. cbn [decode_all] in Hd.
  pose proof (irq_decodes sc k s Hsc Hw Hk He) as Hi.
  assert (∀ a b c, decode (shift_pressed k) (extended_code k) sc = (a, b, c) → b = 0 ∨ b = 1) as Hb.
  { unfold decode. intros a b c. repeat case_decide; intros [= <- <- <-]; auto. }
  destruct (decode (shift_pressed k) (extended_code k) sc) as [[sh1 ex1] oc].
  destruct (decode_all sh1 ex1 scs) as [[sh2 ex2] cs2] eqn:Hd2. injection Hd as <- <- <-.
  destruct Hi as (k1 & s1 & E & Hw1 & Hk1 & <- & <- & Hq). cbn [run_irqs]. rewrite E. cbn [mbind option_bind].
  assert (kb_queue k1 = kb_queue k ++ from_option (λ c, [c]) [] oc) as Hq1.
  { destruct oc as [c|]; simpl in *; [|by destruct Hq as [-> _]; rewrite app_nil_r].
    destruct Hq as [_ ->]. by rewrite decide_True by lia. }
  destruct (IH k1 s1 sh2 ex2 cs2 Hf Hw1 Hk1) as (k' & s' & E' & Hw' & Hk' & H1 & H2 & Hq');
    [by eapply Hb|done|rewrite Hq1; revert Hl; len|].
  exists k', s'. split; [done|]. split; [done|]. split; [done|]. split; [done|]. split; [done|].
  by rewrite Hq', Hq1, app_assoc.
Qed.

Lemma getchars_queue {A} k (s : kst A) :
  kb_wf k → getchars (length (kb_queue k)) k s = Some (kb_queue k).
Proof.
  intros Hw. remember (kb_queue k) as q eqn:Hq. revert k Hw Hq.
  induction q as [|c q IH]; intros k Hw Hq; [done|]. cbn [length getchars].
  pose proof (kb_getchar_spec k s Hw) as Hg. rewrite <-Hq in Hg. destruct Hg as (k' & -> & Hw' & Hq' & _).
  cbn [mbind option_bind]. by rewrite (IH k').
Qed.

(** C30: typing works: for every text of at most 63 typable characters, the
    bytes that a PS/2 keyboard with the US layout sends in scan code set 1 for the
    presses and releases of its keys (with Shift where needed), arriving at an idle keyboard with an empty buffer, make
    [keyboard_getchar] return exactly that text, and leave no key held. *)
Theorem typing_roundtrip (A : Type) text k (s : kst A) :
  Forall typable text → (length text ≤ 63)%nat → kb_wf k → kb_queue k = [] →
  shift_pressed k = 0 → extended_code k = 0 → length (k_table s) = 16%nat →
  ∃ k' s', run_irqs (text ≫= keystroke) k s = Some (k', s') ∧ kb_wf k' ∧
    shift_pressed k' = 0 ∧ extended_code k' = 0 ∧ getchars (length text) k' s' = Some text.
Proof.
  intros Ht Hl Hw Hq Hs He Hk.
  assert (decode_all 0 0 (text ≫= keystroke) = (0, 0, text) ∧ Forall is_u8 (text ≫= keystroke)) as [Hd Hf].
  { clear Hl. induction Ht as [|c text Hc _ [IH1 IH2]]; [done|]. cbn [mbind list_bind].
    destruct (keystroke_decodes c Hc) as [Hkd Hku]. split; [|by apply Forall_app].
    assert (∀ l1 l2 a b c1 c2 sh ex, decode_all sh ex l1 = (a, b, c1) → decode_all a b l2 = (0, 0, c2) →
      decode_all sh ex (l1 ++ l2) = (0, 0, c1 ++ c2)) as Happ.
    { clear. induction l1 as [|x l1 IH]; intros l2 a b c1 c2 sh ex H1 H2; cbn [decode_all app] in *.
      - injection H1 as <- <- <-. done.
      - destruct (decode sh ex x) as [[sh1 ex1] oc]. destruct (decode_all sh1 ex1 l1) as [[sh2 ex2] cs] eqn:E.
        injection H1 as <- <- <-. rewrite (IH l2 sh2 ex2 cs c2 sh1 ex1 E H2). by rewrite <-app_assoc. }
    apply (Happ _ _ _ _ _ _ _ _ Hkd IH1). }
  destruct (run_irqs_spec (text ≫= keystroke) k s 0 0 text Hf Hw Hk) as
    (k' & s' & E & Hw' & _ & H1 & H2 & Hq'); [by left|by rewrite Hs, He|by rewrite Hq|].
  exists k', s'. split; [done|]. split; [done|]. split; [done|]. split; [done|].
  rewrite Hq in Hq'. simpl in Hq'. rewrite <-Hq'. by apply getchars_queue.
Qed.

(** The text "Hi!" and Enter. *)
Lemma typing_roundtrip_witness :
  ∃ k' s', run_irqs ([72; 105; 33; 10] ≫= keystroke) demo_kb demo_kst = Some (k', s') ∧
    getchars 4 k' s' = Some [72; 105; 33; 10].
Proof.
  destruct (typing_roundtrip pmm [72; 105; 33; 10] demo_kb demo_kst) as (k' & s' & E & _ & _ & _ & Hg);
    [repeat constructor; unfold typable; lia|simpl; lia|exact demo_kb_wf|reflexivity..|].
  exists k', s'. split; [exact E|exact Hg].
Defined.

(** ** The window between the test and the block

    [keyboard_getchar] tests for an empty buffer and then calls [process_block]
    with interrupts enabled.  [blocks_after_key sc] is the interleaving in which
    the interrupt of a key arrives in between. *)
Definition blocks_after_key {A} (process_table page_directory sc : Z) (c : cpu) (k : kb) (s : kst A) :
    option (cpu * kb * kst A) :=
  e ← keyboard_getchar k s;
  match e with
  | GBlock =>
      '(k, s) ← keyboard_irq_handler sc k s;
      '(c, s) ← process_block process_table page_directory c s;
      Some (c, k, s)
  | _ => None
  end.

Lemma sched_keeps_blocked t c i t' n :
  sched_next t (Some c) = Some (n, t') → length t = 16%nat → 0 ≤ c < 16 → 0 ≤ i < 16 →
  state_of t i = Some PROC_BLOCKED → (∃ j, 0 ≤ j < 16 ∧ state_of t j = Some PROC_READY) →
  state_of t' i = Some PROC_BLOCKED.
Proof.
  intros Hs Hl Hc Hi Hb (j & Hj & Hr). destruct (sched_next_lemma t c Hl Hc) as (n' & t1 & E & _ & _ & Hp & Ha).
  rewrite Hs in E. injection E as <- <-. unfold state_of in *. rewrite Ha.
  destruct (decide (i = n)) as [->|].
  - exfalso. destruct Hp as [[[He|[-> He]] _]|[_ Hn]]; unfold eligible, state_of in *.
    + congruence.
    + congruence.
    + destruct (Hn j Hj). by left.
  - rewrite decide_False; [done|]. intros [-> He]. congruence.
Qed.

Section lost_wakeup.
Context (process_table page_directory : Z) {A : Type} `{!FrameAllocator A}.
Implicit Types (s : kst A).

(** The table after a wake-up: invariant, stack pointers, and who is READY. *)
Lemma wake_all_keeps s s' :
  kinv s → esps_ok s → process_wake_all_blocked s = Some s' →
  kinv s' ∧ esps_ok s' ∧ k_current s' = k_current s ∧
  ∀ j, state_of (k_table s) j = Some PROC_READY → state_of (k_table s') j = Some PROC_READY.
Proof using Type.
  intros Hk He E. destruct (wake_all_kinv s s' Hk E) as [Hk' _].
  unfold process_wake_all_blocked in E.
  destruct (table_loop wake (k_table s) (ki_len s Hk)) as (t & Ht & _ & Ha).
  rewrite Ht in E. injection E as <-. split; [done|]. split; [|split; [done|]].
  - intros j p. simpl. rewrite Ha. intros (q & Hq & ->)%fmap_Some.
    unfold wake. case_decide; simpl; by eapply He.
  - intros j Hj. apply fmap_Some in Hj as (q & Hq & Hs). unfold state_of. simpl. rewrite Ha, Hq. simpl.
    unfold wake. case_decide; simpl; congruence.
Qed.

(** [process_block] leaves its caller BLOCKED if another process is READY. *)
Lemma block_leaves_blocked c s i :
  kinv s → esps_ok s → 20 ≤ r_esp c < 8388608 → k_current s = Some i →
  (∃ j, 0 ≤ j < 16 ∧ j ≠ i ∧ state_of (k_table s) j = Some PROC_READY) →
  ∃ c' s', process_block process_table page_directory c s = Some (c', s') ∧
    state_of (k_table s') i = Some PROC_BLOCKED.
Proof using Type.
  intros Hk He Hr Hc (j & Hj & Hji & Hrd). unfold process_block. rewrite Hc.
  pose proof (ki_cur s Hk i Hc) as Hi. pose proof (ki_pid s Hk) as Hpid.
  destruct (kinv_slot_used s i Hk Hi) as (p & Hp & Hu & _).
  pose proof (upd_Some _ _ _ (set_state PROC_BLOCKED) Hp) as Eu. rewrite Eu. cbn [mbind option_bind].
  set (s1 := with_table _ s).
  assert (kinv s1) as Hk1.
  { eapply kinv_upd; [done|exact Eu|done|]. intros q Hq. simpl. simplify_eq. done. }
  assert (esps_ok s1) as He1.
  { intros k q. simpl. rewrite (aget_upd _ _ _ _ _ Hp). case_decide; [intros [= <-]; simpl|]; by eapply He. }
  destruct (process_yield_lemma process_table page_directory c s1 Hk1 Hr He1) as
    (t & n & t' & s' & q & Ht & Hs & Htab & _ & _ & _ & _ & _ & _ & _ & Hy & _).
  rewrite Hy. eexists _, s'. split; [done|]. rewrite Htab.
  destruct (saved_kinv s1 (r_esp c - 16) Hk1) as (t0 & Ht0 & Hkt & Hta).
  rewrite Ht in Ht0. injection Ht0 as <-.
  assert (∀ k, state_of t k = state_of (k_table s1) k) as Hst.
  { intros k. unfold state_of. rewrite Hta. case_decide; [|done]. by destruct (aget (k_table s1) k). }
  assert (k_current s1 = Some i) as Hc1 by done. rewrite Hc1 in Hs.
  apply (sched_keeps_blocked t i i t' n Hs); [apply Hkt|lia|lia| |].
  - rewrite Hst. simpl. rewrite (state_of_upd _ _ _ _ _ Hp). by rewrite decide_True.
  - exists j. split; [done|]. rewrite Hst. simpl. rewrite (state_of_upd _ _ _ _ _ Hp).
    by rewrite decide_False by congruence.
Qed.
End lost_wakeup.

(** A wake-up can be lost.  If the interrupt of a character key arrives after
    [keyboard_getchar] has found the buffer empty and before [process_block]
    marks the process BLOCKED, the process ends up BLOCKED although the
    character is waiting for it, whenever another process is READY. *)
Theorem keyboard_lost_wakeup (process_table page_directory : Z) (A : Type) (FA : FrameAllocator A)
    sc ch c k (s : kst A) i :
  is_u8 sc → kb_wf k → kb_queue k = [] → extended_code k = 0 →
  (decode (shift_pressed k) 0 sc).2 = Some ch →
  kinv s → esps_ok s → 20 ≤ r_esp c < 8388608 → k_current s = Some i →
  (∃ j, 0 ≤ j < 16 ∧ j ≠ i ∧ state_of (k_table s) j = Some PROC_READY) →
  ∃ c' k' s', blocks_after_key process_table page_directory sc c k s = Some (c', k', s') ∧
    kb_queue k' = [ch] ∧ state_of (k_table s') i = Some PROC_BLOCKED.
Proof.
  intros Hsc Hw Hq Hx Hd Hk He Hr Hc (j & Hj & Hji & Hrd). unfold blocks_after_key.
  pose proof (kb_getchar_spec k s Hw) as Hg. rewrite Hq in Hg. rewrite Hg.
  cbn [mbind option_bind]. rewrite (decide_False (P := k_current s = None)) by congruence.
  pose proof (irq_decodes sc k s Hsc Hw (ki_len s Hk) ltac:(by left)) as Hi. rewrite Hx in Hi.
  destruct (decode (shift_pressed k) 0 sc) as [[sh ex] oc]. simpl in Hd. subst oc.
  destruct Hi as (k' & s1 & E & Hw' & Hk1 & _ & _ & _ & Hq'). rewrite E. cbn [mbind option_bind].
  rewrite Hq in Hq'. simpl in Hq'.
  assert (kinv s1 ∧ esps_ok s1 ∧ k_current s1 = k_current s ∧
    ∀ j, state_of (k_table s) j = Some PROC_READY → state_of (k_table s1) j = Some PROC_READY)
    as (Hk1' & He1 & Hc1 & Hr1).
  { unfold keyboard_irq_handler in E.
    assert (∀ x y, kb_push x y s = Some (k', s1) → process_wake_all_blocked s = Some s1) as Hpush.
    { intros x y Hp. unfold kb_push in Hp. destruct (kb_store x y) as [k2|]; [|done]. cbn in Hp.
      destruct (process_wake_all_blocked s) as [s2|]; [|done]. by injection Hp as -> ->. }
    repeat case_decide; try (injection E as <- <-; done);
      try (apply Hpush in E; by apply (wake_all_keeps s s1));
      match type of E with (?x ≫= _ = _) => destruct x as [y|]; [|done] end; cbn in E;
      (case_decide; [apply Hpush in E; by apply (wake_all_keeps s s1)|by injection E as <- <-]). }
  destruct (block_leaves_blocked process_table page_directory c s1 i Hk1' He1 Hr) as (c' & s' & -> & Hb);
    [congruence|exists j; auto|].
  exists c', k', s'. done.
Qed.

Lemma keyboard_lost_wakeup_witness :
  ∃ c' k' s', blocks_after_key 131072 65536 30 demo_cpu demo_kb demo_kst = Some (c', k', s') ∧
    kb_queue k' = [97] ∧ state_of (k_table s') 2 = Some PROC_BLOCKED.
Proof.
  destruct (kinv_check_sound demo_kst ltac:(vm_compute; reflexivity)) as [Hk He].
  apply (keyboard_lost_wakeup 131072 65536 pmm pmm_frame_allocator 30 97 demo_cpu demo_kb demo_kst 2);
    [unfold is_u8; lia|exact demo_kb_wf|reflexivity|reflexivity|reflexivity|exact Hk|exact He| |reflexivity|].
  - vm_compute. split; [discriminate|reflexivity].
  - exists 3. split; [lia|]. split; [lia|reflexivity].
Defined.
