(* ===== verification/Vga.v ===== *)
(** * The VGA text console ([src/kernel/vga.c], [vga.h])

    The 80x25 text buffer is the list of its 2000 cells; the state also has the
    software cursor, the attribute byte, and the cursor position held by the
    CRTC registers 0x0E and 0x0F.  Characters are bytes. *)

From S2P Require Import Prelude CString.

Definition VGA_COLS : Z := 80.
Definition VGA_ROWS : Z := 25.

Record vga := Vga { vga_buffer : list Z; vga_row : Z; vga_col : Z; vga_color : Z;
                    crtc_hi : Z; crtc_lo : Z }.

Definition set_buffer (b : list Z) (v : vga) : vga :=
  Vga b (vga_row v) (vga_col v) (vga_color v) (crtc_hi v) (crtc_lo v).
Definition set_pos (row col : Z) (v : vga) : vga :=
  Vga (vga_buffer v) row col (vga_color v) (crtc_hi v) (crtc_lo v).

Definition vga_entry (c color : Z) : Z := Z.lor (u8 c) (u16 (Z.shiftl color 8)).
Definition make_color (fg bg : Z) : Z := u8 (Z.lor (u8 fg) (Z.shiftl (u8 bg) 4)).

(** The four [outb] to the CRTC index and data ports. *)
Definition vga_update_cursor (v : vga) : vga :=
  let pos := u16 (vga_row v * VGA_COLS + vga_col v) in
  Vga (vga_buffer v) (vga_row v) (vga_col v) (vga_color v)
    (u8 (Z.land (Z.shiftr pos 8) 255)) (u8 (Z.land pos 255)).

(** [vga_buffer[i] = x;] *)
Definition poke (i x : Z) (v : vga) : option vga :=
  b ← aset (vga_buffer v) i x; Some (set_buffer b v).

Definition vga_scroll (v : vga) : option vga :=
  v ← for_u32_opt 0 (VGA_ROWS - 1) (λ row v,
        for_u32_opt 0 VGA_COLS (λ col v,
          x ← aget (vga_buffer v) ((row + 1) * VGA_COLS + col);
          poke (row * VGA_COLS + col) x v) v) v;
  v ← for_u32_opt 0 VGA_COLS (λ col v,
        poke ((VGA_ROWS - 1) * VGA_COLS + col) (vga_entry 32 (vga_color v)) v) v;
  Some (set_pos (VGA_ROWS - 1) (vga_col v) v).

Definition vga_set_color (fg bg : Z) (v : vga) : vga :=
  Vga (vga_buffer v) (vga_row v) (vga_col v) (make_color fg bg) (crtc_hi v) (crtc_lo v).

Definition vga_clear (v : vga) : option vga :=
  v ← for_u32_opt 0 VGA_ROWS (λ row v,
        for_u32_opt 0 VGA_COLS (λ col v,
          poke (row * VGA_COLS + col) (vga_entry 32 (vga_color v)) v) v) v;
  Some (vga_update_cursor (set_pos 0 0 v)).

Definition vga_init (v : vga) : option vga :=
  vga_clear (Vga (vga_buffer v) 0 0 (make_color 7 0) (crtc_hi v) (crtc_lo v)).

(** The first part of [vga_putchar]: the character's own effect. *)
Definition place_char (c : Z) (v : vga) : option vga :=
  if decide (c = 10) then Some (set_pos (vga_row v + 1) 0 v)
  else if decide (c = 13) then Some (set_pos (vga_row v) 0 v)
  else if decide (c = 8) then
    if decide (0 < vga_col v) then
      let v := set_pos (vga_row v) (vga_col v - 1) v in
      poke (vga_row v * VGA_COLS + vga_col v) (vga_entry 32 (vga_color v)) v
    else Some v
  else
    v ← poke (vga_row v * VGA_COLS + vga_col v) (vga_entry c (vga_color v)) v;
    Some (set_pos (vga_row v) (vga_col v + 1) v).

Definition vga_putchar (c : Z) (v : vga) : option vga :=
  v ← place_char c v;
  let v := if decide (VGA_COLS ≤ vga_col v) then set_pos (vga_row v + 1) 0 v else v in
  v ← (if decide (VGA_ROWS ≤ vga_row v) then vga_scroll v else Some v);
  Some (vga_update_cursor v).

(** [vga_puts] on the array that holds the string. *)
Fixpoint vga_puts (str : list Z) (v : vga) : option vga :=
  match str with
  | [] => None
  | c :: str => if decide (c = 0) then Some v else v ← vga_putchar c v; vga_puts str v
  end.

Definition vga_set_cursor (row col : Z) (v : vga) : vga :=
  if decide (0 ≤ row ∧ row < VGA_ROWS ∧ 0 ≤ col ∧ col < VGA_COLS)
  then vga_update_cursor (set_pos row col v) else v.
Definition vga_get_row (v : vga) : Z := vga_row v.
Definition vga_get_col (v : vga) : Z := vga_col v.

(** ** Numbers *)

(** [while (n > 0) { buf[i++] = '0' + n % 10; n /= 10; }] into a buffer of
    [size] bytes; a digit beyond it is out of bounds.  The result is [buf[0..i)]. *)
Fixpoint dec_loop (n : Z) (size fuel : nat) (buf : list Z) : option (list Z) :=
  match fuel with
  | O => None
  | S fuel =>
      if decide (0 < n) then
        if decide (length buf < size)%nat
        then dec_loop (n `div` 10) size fuel (buf ++ [u8 (48 + n `mod` 10)]) else None
      else Some buf
  end.

(** [for (int j = i - 1; j >= 0; j--) vga_putchar(buf[j]);] *)
Fixpoint put_all (cs : list Z) (v : vga) : option vga :=
  match cs with
  | [] => Some v
  | c :: cs => v ← vga_putchar c v; put_all cs v
  end.

(** A 32-bit number has at most 10 digits: 11 loop tests. *)
Definition vga_print_uint (n : Z) (v : vga) : option vga :=
  if decide (n = 0) then vga_putchar 48 v
  else buf ← dec_loop n 12 11 []; put_all (rev buf) v.

Definition hex_digit (nibble : Z) : Z := if decide (nibble < 10) then 48 + nibble else 65 + nibble - 10.

Definition vga_print_hex (n : Z) (v : vga) : option vga :=
  v ← vga_puts [48; 120; 0] v;
  put_all ((λ shift, hex_digit (Z.land (Z.shiftr n shift) 15)) <$> [28; 24; 20; 16; 12; 8; 4; 0]) v.

Definition lower_digits : list Z := [48; 49; 50; 51; 52; 53; 54; 55; 56; 57; 97; 98; 99; 100; 101; 102].
Definition upper_digits : list Z := [48; 49; 50; 51; 52; 53; 54; 55; 56; 57; 65; 66; 67; 68; 69; 70].

(** [while (n > 0 && i < 8) { buf[i++] = digits[n & 0xF]; n >>= 4; }] *)
Fixpoint hex_loop (digits : list Z) (n : Z) (fuel : nat) (buf : list Z) : option (list Z) :=
  match fuel with
  | O => None
  | S fuel =>
      if decide (0 < n ∧ (length buf < 8)%nat) then
        d ← aget digits (Z.land n 15);
        hex_loop digits (Z.shiftr n 4) fuel (buf ++ [d])
      else Some buf
  end.

Definition vga_puthex (n : Z) (upper : bool) (v : vga) : option vga :=
  let digits := if upper then upper_digits else lower_digits in
  if decide (n = 0) then vga_putchar 48 v
  else buf ← hex_loop digits n 9 []; put_all (rev buf) v.

Definition vga_print_uint_padded (n width : Z) (v : vga) : option vga :=
  buf ← (if decide (n = 0) then Some [48] else dec_loop n 10 11 []);
  v ← put_all (replicate (Z.to_nat (width - Z.of_nat (length buf))) 48) v;
  put_all (rev buf) v.

(** ** [vga_printf] *)

(** A variadic argument: an integer, or a [char *] (NULL or an array). *)
Inductive arg := AInt (z : Z) | AStr (s : option (list Z)).

(** [va_arg(ap, int)] and [va_arg(ap, const char * )]; a missing argument or one
    of the other kind is undefined behaviour. *)
Definition va_int (ap : list arg) : option (Z * list arg) :=
  match ap with AInt z :: ap => Some (z, ap) | _ => None end.
Definition va_str (ap : list arg) : option (option (list Z) * list arg) :=
  match ap with AStr s :: ap => Some (s, ap) | _ => None end.

(** [while (digit) width = width * 10 + ...]; overflow of [int] is undefined. *)
Fixpoint read_width (fmt : list Z) (width : Z) : option (Z * list Z) :=
  match fmt with
  | [] => None
  | c :: fmt' =>
      if decide (48 ≤ c ∧ c ≤ 57) then
        let w := width * 10 + (c - 48) in
        if decide (w < 2147483648) then read_width fmt' w else None
      else Some (width, fmt)
  end.

Definition null_str : list Z := [40; 110; 117; 108; 108; 41; 0].

(** The [switch (spec)]. *)
Definition put_spec (spec : Z) (zero_pad : bool) (width : Z) (ap : list arg) (v : vga) :
    option (list arg * vga) :=
  let padded (n : Z) := vga_print_uint_padded n (if zero_pad then width else 0) in
  if decide (spec = 99) then                                   (* 'c' *)
    '(z, ap) ← va_int ap; v ← vga_putchar (u8 z) v; Some (ap, v)
  else if decide (spec = 115) then                             (* 's' *)
    '(s, ap) ← va_str ap; v ← vga_puts (default null_str s) v; Some (ap, v)
  else if decide (spec = 100) then                             (* 'd' *)
    '(z, ap) ← va_int ap;
    let x := s32 z in
    if decide (x < 0) then
      v ← vga_putchar 45 v;
      _ ← (if decide (x = - 2147483648) then None else Some ());  (* -v overflows *)
      v ← vga_print_uint_padded (u32 (- x)) (if decide (1 < width) then width - 1 else 0) v;
      Some (ap, v)
    else v ← padded (u32 x) v; Some (ap, v)
  else if decide (spec = 117) then                             (* 'u' *)
    '(z, ap) ← va_int ap; v ← padded (u32 z) v; Some (ap, v)
  else if decide (spec = 120) then                             (* 'x' *)
    '(z, ap) ← va_int ap; v ← vga_puthex (u32 z) false v; Some (ap, v)
  else if decide (spec = 88) then                              (* 'X' *)
    '(z, ap) ← va_int ap; v ← vga_puthex (u32 z) true v; Some (ap, v)
  else if decide (spec = 37) then                              (* '%' *)
    v ← vga_putchar 37 v; Some (ap, v)
  else
    v ← vga_putchar 37 v;
    v ← (if zero_pad then vga_putchar 48 v else Some v);
    v ← (if decide (0 < width) then vga_putchar (u8 (48 + width `mod` 10)) v else Some v);
    v ← vga_putchar spec v;
    Some (ap, v).

(** The main loop; every iteration consumes at least one byte of the format. *)
Fixpoint printf_loop (fuel : nat) (fmt : list Z) (ap : list arg) (v : vga) : option vga :=
  match fuel with
  | O => None
  | S fuel =>
      match fmt with
      | [] => None
      | c :: fmt =>
          if decide (c = 0) then Some v
          else if decide (c ≠ 37) then v ← vga_putchar c v; printf_loop fuel fmt ap v
          else
            c1 ← head fmt;
            let zero_pad := bool_decide (c1 = 48) in
            let fmt := if zero_pad then tail fmt else fmt in
            '(width, fmt) ← read_width fmt 0;
            spec ← head fmt;
            '(ap, v) ← put_spec spec zero_pad width ap v;
            printf_loop fuel (tail fmt) ap v
      end
  end.

Definition vga_printf (fmt : list Z) (ap : list arg) (v : vga) : option vga :=
  printf_loop (S (length fmt)) fmt ap v.

(** ** The screen stays within bounds *)

Record vga_wf (v : vga) : Prop := VgaWf {
  vw_len : length (vga_buffer v) = 2000%nat;
  vw_row : 0 ≤ vga_row v < 25;
  vw_col : 0 ≤ vga_col v < 80
}.

(** Only the buffer differs. *)
Definition same_regs (v v' : vga) : Prop := v' = set_buffer (vga_buffer v') v.

Lemma poke_spec i x v :
  length (vga_buffer v) = 2000%nat → 0 ≤ i < 2000 →
  ∃ v', poke i x v = Some v' ∧ same_regs v v' ∧ length (vga_buffer v') = 2000%nat ∧
    ∀ j, aget (vga_buffer v') j = if decide (j = i) then Some x else aget (vga_buffer v) j.
Proof.
  intros Hl Hi. unfold poke. rewrite aset_Some by lia. eexists. split; [reflexivity|]. split; [done|].
  split; [simpl; by len|]. intros j. simpl. case_decide as Hd; [subst; apply aget_insert_eq; lia|].
  apply aget_insert_ne; lia.
Qed.

Lemma same_regs_trans v1 v2 v3 : same_regs v1 v2 → same_regs v2 v3 → same_regs v1 v3.
Proof. unfold same_regs. intros -> ->. done. Qed.

(** A loop that pokes cells [base .. base+n-1] with values [f]. *)
Lemma poke_loop body base n (f : Z → vga → option Z) v0 :
  (∀ i v, body i v = x ← f i v; poke (base + i) x v) →
  length (vga_buffer v0) = 2000%nat → 0 ≤ base → 0 ≤ n → base + n ≤ 2000 →
  ∀ g : Z → Z,
  (∀ i v, 0 ≤ i < n → same_regs v0 v → length (vga_buffer v) = 2000%nat →
     (∀ j, aget (vga_buffer v) j = if decide (base ≤ j < base + i) then Some (g (j - base))
                                   else aget (vga_buffer v0) j) →
     f i v = Some (g i)) →
  ∃ v', for_u32_opt 0 n body v0 = Some v' ∧ same_regs v0 v' ∧ length (vga_buffer v') = 2000%nat ∧
    ∀ j, aget (vga_buffer v') j = if decide (base ≤ j < base + n) then Some (g (j - base))
                                  else aget (vga_buffer v0) j.
Proof.
  intros Hbody Hl Hb Hn Hr g Hf.
  apply (for_u32_opt_inv (λ i v', same_regs v0 v' ∧ length (vga_buffer v') = 2000%nat ∧
    ∀ j, aget (vga_buffer v') j = if decide (base ≤ j < base + i) then Some (g (j - base))
                                  else aget (vga_buffer v0) j) body 0 n); [done| |].
  { split; [by destruct v0|]. split; [done|]. intros j. by rewrite decide_False by lia. }
  intros i v Hi (Hs & Hlv & Ha). rewrite Hbody, (Hf i v Hi Hs Hlv Ha). cbn [mbind option_bind].
  destruct (poke_spec (base + i) (g i) v Hlv) as (v' & -> & Hs' & Hl' & Ha'); [lia|].
  exists v'. split; [done|]. split; [by eapply same_regs_trans|]. split; [done|].
  intros j. rewrite Ha', Ha. repeat case_decide; try lia; try done. f_equal. f_equal. lia.
Qed.

Lemma cell_total v j : length (vga_buffer v) = 2000%nat → 0 ≤ j < 2000 →
  aget (vga_buffer v) j = Some (default 0 (aget (vga_buffer v) j)).
Proof. intros Hl Hj. destruct (aget_is_Some (vga_buffer v) j) as [x ->]; [lia|done]. Qed.

(** Scrolling: every row moves up by one, the last one becomes blank. *)
Lemma vga_scroll_spec v :
  length (vga_buffer v) = 2000%nat →
  ∃ v', vga_scroll v = Some v' ∧ length (vga_buffer v') = 2000%nat ∧ vga_row v' = 24 ∧
    vga_col v' = vga_col v ∧ vga_color v' = vga_color v ∧
    ∀ j, 0 ≤ j < 2000 → aget (vga_buffer v') j =
      if decide (j < 1920) then aget (vga_buffer v) (j + 80) else Some (vga_entry 32 (vga_color v)).
Proof.
  intros Hl. unfold vga_scroll, VGA_ROWS, VGA_COLS.
  destruct (for_u32_opt_inv (λ row v', same_regs v v' ∧ length (vga_buffer v') = 2000%nat ∧
    ∀ j, 0 ≤ j < 2000 → aget (vga_buffer v') j =
      if decide (j < row * 80) then aget (vga_buffer v) (j + 80) else aget (vga_buffer v) j)
    (λ row v, for_u32_opt 0 80 (λ col v, x ← aget (vga_buffer v) ((row + 1) * 80 + col);
          poke (row * 80 + col) x v) v) 0 (25 - 1) v) as (v1 & -> & Hs1 & Hl1 & Ha1); [lia| | |].
  { split; [by destruct v|]. split; [done|]. intros j Hj. by rewrite decide_False by lia. }
  { intros row v1 Hrow (Hs1 & Hl1 & Ha1).
    destruct (poke_loop (λ col v, x ← aget (vga_buffer v) ((row + 1) * 80 + col);
        poke (row * 80 + col) x v) (row * 80) 80 (λ col v, aget (vga_buffer v) ((row + 1) * 80 + col)) v1)
      with (g := λ i, default 0 (aget (vga_buffer v) (row * 80 + i + 80)))
      as (v2 & -> & Hs2 & Hl2 & Ha2); [done|done|lia|lia|lia| |].
    - intros i v2 Hi _ _ Ha2. rewrite Ha2, decide_False by lia. rewrite Ha1, decide_False by lia.
      replace ((row + 1) * 80 + i) with (row * 80 + i + 80) by lia. apply cell_total; [done|lia].
    - exists v2. split; [done|]. split; [by eapply same_regs_trans|]. split; [done|].
      intros j Hj. rewrite Ha2. destruct (decide (row * 80 ≤ j < row * 80 + 80)).
      + rewrite decide_True by lia. symmetry. replace (row * 80 + (j - row * 80) + 80) with (j + 80) by lia.
        apply cell_total; [done|lia].
      + rewrite Ha1 by done. destruct (decide (j < row * 80)), (decide (j < (row + 1) * 80)); done || lia. }
  cbn [mbind option_bind].
  destruct (poke_loop (λ col v, poke ((25 - 1) * 80 + col) (vga_entry 32 (vga_color v)) v) 1920 80
      (λ _ v, Some (vga_entry 32 (vga_color v))) v1) with (g := λ _ : Z, vga_entry 32 (vga_color v))
    as (v2 & -> & Hs2 & Hl2 & Ha2); [done|done|lia|lia|lia| |].
  { intros i v2 _ Hs2 _ _. rewrite Hs2, Hs1. done. }
  cbn [mbind option_bind]. eexists. split; [reflexivity|]. simpl. split; [done|]. split; [done|].
  rewrite Hs2, Hs1. split; [done|]. split; [done|]. intros j Hj. simpl. rewrite Ha2.
  destruct (decide (j < 1920)).
  - rewrite decide_False by lia. rewrite Ha1 by done. by rewrite decide_True by lia.
  - by rewrite decide_True by lia.
Qed.

(** ** The terminal as a linear tape

    The abstract view of the console: its cells and the cursor as an offset. *)
Definition vga_abs (v : vga) : list Z * Z := (vga_buffer v, vga_row v * 80 + vga_col v).

Definition term_place (color c : Z) (s : list Z * Z) : list Z * Z :=
  let '(b, pos) := s in
  if decide (c = 10) then (b, (pos `div` 80 + 1) * 80)
  else if decide (c = 13) then (b, pos `div` 80 * 80)
  else if decide (c = 8) then
    if decide (pos `mod` 80 = 0) then s else (<[Z.to_nat (pos - 1) := vga_entry 32 color]> b, pos - 1)
  else (<[Z.to_nat pos := vga_entry c color]> b, pos + 1).

(** Past the end the first row is dropped and a blank one appended. *)
Definition term_scroll (color : Z) (s : list Z * Z) : list Z * Z :=
  let '(b, pos) := s in
  if decide (pos < 2000) then s else (drop 80 b ++ replicate 80 (vga_entry 32 color), pos - 80).

Definition term_put (color c : Z) (s : list Z * Z) : list Z * Z := term_scroll color (term_place color c s).

Lemma aget_list_eq {A} (l1 l2 : list A) :
  length l1 = length l2 → (∀ j, 0 ≤ j < Z.of_nat (length l1) → aget l1 j = aget l2 j) → l1 = l2.
Proof.
  intros Hl H. apply list_eq_same_length with (n := length l1); [done..|].
  intros i x y Hi H1 H2. specialize (H (Z.of_nat i) ltac:(lia)). rewrite !aget_nat in H. congruence.
Qed.

Lemma scroll_buffer (b b' : list Z) x :
  length b = 2000%nat → length b' = 2000%nat →
  (∀ j, 0 ≤ j < 2000 → aget b' j = if decide (j < 1920) then aget b (j + 80) else Some x) →
  b' = drop 80 b ++ replicate 80 x.
Proof.
  intros Hl Hl' H. apply aget_list_eq; [by len|]. intros j Hj. rewrite Hl' in Hj. rewrite H by lia.
  unfold aget. destruct (decide (j < 1920)); rewrite !decide_True by lia.
  - rewrite lookup_app_l by (len; lia). rewrite lookup_drop. f_equal. lia.
  - rewrite lookup_app_r by (len; lia). len. symmetry. apply lookup_replicate_2. lia.
Qed.

Lemma cursor_regs row col :
  0 ≤ row < 25 → 0 ≤ col < 80 →
  let pos := u16 (row * 80 + col) in
  u8 (Z.land (Z.shiftr pos 8) 255) * 256 + u8 (Z.land pos 255) = row * 80 + col.
Proof.
  intros Hr Hc pos. unfold pos. rewrite u16_small by (unfold is_u16; lia).
  rewrite Z.shiftr_div_pow2 by lia. change 255 with (Z.ones 8). rewrite !Z.land_ones by lia.
  change (2 ^ 8) with 256. unfold u8. zdm.
Qed.

(** The character and the wrap at the right edge. *)
Lemma place_wrap_spec c v :
  vga_wf v →
  ∃ v1, place_char c v = Some v1 ∧
    let v2 := if decide (80 ≤ vga_col v1) then set_pos (vga_row v1 + 1) 0 v1 else v1 in
    length (vga_buffer v2) = 2000%nat ∧ 0 ≤ vga_row v2 ≤ 25 ∧ 0 ≤ vga_col v2 < 80 ∧
    (vga_row v2 = 25 → vga_col v2 = 0) ∧
    vga_color v2 = vga_color v ∧ vga_abs v2 = term_place (vga_color v) c (vga_abs v).
Proof.
  intros [Hl Hr Hc]. unfold place_char, vga_abs, term_place, VGA_COLS.
  destruct (decide (c = 10)).
  { eexists. split; [reflexivity|]. simpl. split_and!; try done; try lia. f_equal. zdm. }
  destruct (decide (c = 13)).
  { eexists. split; [reflexivity|]. simpl. split_and!; try done; try lia. f_equal. zdm. }
  destruct (decide (c = 8)).
  { destruct (decide (0 < vga_col v)).
    - cbv zeta. unfold poke. simpl. rewrite aset_Some by lia. eexists. split; [reflexivity|]. simpl.
      rewrite decide_False by lia. simpl. rewrite (decide_False (P := _ `mod` 80 = 0)) by zdm.
      split_and!; [by len|lia..|done|]. f_equal; [|lia]. do 2 f_equal. lia.
    - exists v. split; [done|]. cbv zeta. rewrite decide_False by lia. rewrite decide_True by zdm.
      split_and!; try done; lia. }
  unfold poke. rewrite aset_Some by lia. eexists. split; [reflexivity|]. simpl.
  case_decide; simpl; (split_and!; [by len|lia..|done|]); f_equal; lia.
Qed.

(** [vga_putchar] never leaves the buffer and implements the linear terminal. *)
Lemma vga_putchar_lemma c v :
  vga_wf v →
  ∃ v', vga_putchar c v = Some v' ∧ vga_wf v' ∧ vga_color v' = vga_color v ∧
    vga_abs v' = term_put (vga_color v) c (vga_abs v) ∧
    crtc_hi v' * 256 + crtc_lo v' = vga_row v' * 80 + vga_col v'.
Proof.
  intros Hw. unfold vga_putchar, VGA_COLS, VGA_ROWS, term_put.
  destruct (place_wrap_spec c v Hw) as (v1 & -> & H). cbn [mbind option_bind]. cbv zeta in *.
  revert H. generalize (if decide (80 ≤ vga_col v1) then set_pos (vga_row v1 + 1) 0 v1 else v1).
  intros v2 (Hl & Hr & Hc & Hz & Hcol & Habs). rewrite <-Habs. destruct (decide (25 ≤ vga_row v2)) as [Hge|Hlt].
  - destruct (vga_scroll_spec v2 Hl) as (v3 & -> & Hl3 & Hr3 & Hc3 & Hcol3 & Ha3). cbn [mbind option_bind].
    eexists. split; [reflexivity|].
    pose proof (scroll_buffer (vga_buffer v2) (vga_buffer v3) _ Hl Hl3 Ha3) as Hb.
    split; [constructor; simpl; [done|lia|lia]|]. split; [simpl; congruence|]. split.
    + unfold vga_abs, term_scroll. simpl. rewrite decide_False by lia. rewrite Hb, Hcol. f_equal. lia.
    + simpl. apply cursor_regs; lia.
  - cbn [mbind option_bind]. eexists. split; [reflexivity|].
    split; [constructor; simpl; [done|lia|lia]|]. split; [done|]. split.
    + unfold vga_abs, term_scroll. simpl. by rewrite decide_True by lia.
    + simpl. apply cursor_regs; lia.
Qed.

(** [vga_clear] blanks the screen in the current colour and homes both cursors. *)
Lemma vga_clear_spec v :
  length (vga_buffer v) = 2000%nat →
  vga_clear v = Some (Vga (replicate 2000 (vga_entry 32 (vga_color v))) 0 0 (vga_color v) 0 0).
Proof.
  intros Hl. unfold vga_clear.
  set (I := λ (n : Z) v', same_regs v v' ∧ length (vga_buffer v') = 2000%nat ∧
      ∀ j, aget (vga_buffer v') j = if decide (0 ≤ j < 80 * n) then Some (vga_entry 32 (vga_color v))
                                    else aget (vga_buffer v) j).
  assert (∃ v', for_u32_opt 0 25 (λ row v, for_u32_opt 0 80 (λ col v,
            poke (row * 80 + col) (vga_entry 32 (vga_color v)) v) v) v = Some v' ∧ I 25 v') as (v' & E & Hr & Hl' & Ha).
  { apply (for_u32_opt_inv I); [lia| |].
    - split; [by destruct v|]. split; [done|]. intros j. by rewrite decide_False by lia.
    - intros n v1 Hn (R1 & L1 & A1).
      destruct (poke_loop (λ col v, poke (n * 80 + col) (vga_entry 32 (vga_color v)) v) (n * 80) 80
        (λ _ v, Some (vga_entry 32 (vga_color v))) v1) with (g := λ _ : Z, vga_entry 32 (vga_color v))
        as (v2 & E2 & R2 & L2 & A2); [done|done|lia|lia|lia| |].
      + intros i u _ Ru _ _. rewrite Ru, R1. done.
      + exists v2. split; [done|]. split; [by eapply same_regs_trans|]. split; [done|].
        intros j. rewrite A2, A1. repeat case_decide; done || lia. }
  change VGA_ROWS with 25. change VGA_COLS with 80. rewrite E. cbn [mbind option_bind]. rewrite Hr.
  unfold vga_update_cursor, set_pos, set_buffer. cbn [vga_buffer vga_row vga_col vga_color crtc_hi crtc_lo].
  f_equal. f_equal.
  apply aget_list_eq; [by rewrite length_replicate|]. intros j Hj. rewrite Ha, decide_True by lia.
  unfold aget. rewrite decide_True by lia. symmetry. apply lookup_replicate_2. lia.
Qed.

(** [vga_putchar] on every byte stays inside the 80x25 buffer and implements a
    linear terminal: newline, carriage return and backspace move the cursor,
    any other character is stored with the current attribute, and past the last
    cell the screen scrolls by one row.  The CRTC cursor registers always hold
    the position of the software cursor. *)
Theorem vga_putchar_refines c v :
  vga_wf v →
  ∃ v', vga_putchar c v = Some v' ∧ vga_wf v' ∧ vga_color v' = vga_color v ∧
    vga_abs v' = term_put (vga_color v) c (vga_abs v) ∧
    crtc_hi v' * 256 + crtc_lo v' = vga_row v' * 80 + vga_col v'.
Proof. apply vga_putchar_lemma. Qed.

(** A blank screen with the cursor in the last cell. *)
Definition demo_vga : vga := Vga (replicate 2000 (vga_entry 32 7)) 24 79 7 0 0.
Lemma demo_vga_wf : vga_wf demo_vga.
Proof. constructor; [reflexivity|simpl; lia..]. Qed.

Lemma vga_putchar_refines_witness :
  ∃ v', vga_putchar 65 demo_vga = Some v' ∧ (vga_abs v').2 = 1920.
Proof.
  destruct (vga_putchar_refines 65 demo_vga demo_vga_wf) as (v' & E & _ & _ & Ha & _).
  exists v'. split; [exact E|]. rewrite Ha. reflexivity.
Defined.

(** ** Printing sequences of characters *)

Lemma put_all_app cs ds v : put_all (cs ++ ds) v = put_all cs v ≫= put_all ds.
Proof.
  revert v. induction cs as [|c cs IH]; intros v; [done|]. cbn [put_all app].
  destruct (vga_putchar c v); [|done]. apply IH.
Qed.

Lemma put_all_spec cs : ∀ v, vga_wf v →
  ∃ v', put_all cs v = Some v' ∧ vga_wf v' ∧ vga_color v' = vga_color v ∧
    vga_abs v' = foldl (λ s c, term_put (vga_color v) c s) (vga_abs v) cs.
Proof.
  induction cs as [|c cs IH]; intros v Hw; [by exists v|]. cbn [put_all foldl].
  destruct (vga_putchar_lemma c v Hw) as (v1 & -> & Hw1 & Hc1 & Ha1 & _). cbn [mbind option_bind].
  destruct (IH v1 Hw1) as (v' & E & Hw' & Hc' & Ha'). exists v'. rewrite E.
  split; [done|]. split; [done|]. split; [congruence|]. by rewrite Ha', Hc1, Ha1.
Qed.

Lemma vga_puts_cstr s t v : is_cstr s t → vga_puts s v = put_all t v.
Proof.
  intros (rest & -> & Ht). revert v. induction Ht as [|c t Hc Ht IH]; intros v; [done|].
  cbn [app vga_puts put_all]. rewrite decide_False by done.
  destruct (vga_putchar c v); [|done]. apply IH.
Qed.

(** ** Decimal numbers *)

(** The usual decimal notation, most significant digit first. *)
Fixpoint dec_str (fuel : nat) (n : Z) : list Z :=
  match fuel with
  | O => []
  | S fuel => if decide (n < 10) then [48 + n] else dec_str fuel (n `div` 10) ++ [48 + n `mod` 10]
  end.
Definition decimal (n : Z) : list Z := dec_str 10 n.

(** The number a sequence of digits denotes. *)
Definition dec_value (cs : list Z) : Z := foldl (λ a c, a * 10 + (c - 48)) 0 cs.

Lemma dec_value_snoc cs c : dec_value (cs ++ [c]) = dec_value cs * 10 + (c - 48).
Proof. unfold dec_value. by rewrite foldl_app. Qed.

Lemma dec_str_spec fuel : ∀ n, 0 ≤ n < 10 ^ Z.of_nat fuel → (0 < fuel)%nat →
  dec_value (dec_str fuel n) = n ∧ Forall (λ c, 48 ≤ c ≤ 57) (dec_str fuel n) ∧
  (0 < length (dec_str fuel n) ≤ fuel)%nat ∧ (0 < n → head (dec_str fuel n) ≠ Some 48).
Proof.
  induction fuel as [|fuel IH]; intros n Hn Hf; [lia|]. cbn [dec_str]. case_decide as Hlt.
  { split; [unfold dec_value; simpl; lia|]. split; [constructor; [lia|done]|]. split; [simpl; lia|].
    simpl. intros ? [= ?]. lia. }
  assert (0 < fuel)%nat as Hf' by (destruct fuel; [simpl in Hn; lia|lia]).
  assert (0 ≤ n `div` 10 < 10 ^ Z.of_nat fuel) as Hd.
  { rewrite Nat2Z.inj_succ, Z.pow_succ_r in Hn by lia. zdm. }
  destruct (IH (n `div` 10) Hd Hf') as (H1 & H2 & H3 & H4). split_and!.
  - rewrite dec_value_snoc, H1. zdm.
  - apply Forall_app. split; [done|]. constructor; [zdm|done].
  - rewrite length_app. simpl. lia.
  - rewrite length_app. simpl. lia.
  - intros _. destruct (dec_str fuel (n `div` 10)) as [|c l]; [simpl in H3; lia|]. simpl in *.
    apply H4. zdm.
Qed.

(** The loop of the kernel computes the digits in reverse. *)
Lemma dec_loop_spec size k : ∀ n fuel buf,
  0 < n < 10 ^ Z.of_nat k → (k < fuel)%nat → (length buf + k ≤ size)%nat →
  dec_loop n size fuel buf = Some (buf ++ rev (dec_str k n)).
Proof.
  induction k as [|k IH]; intros n fuel buf Hn Hf Hs; [simpl in Hn; lia|].
  destruct fuel as [|fuel]; [lia|]. cbn [dec_loop]. rewrite decide_True by lia.
  rewrite decide_True by lia. cbn [dec_str].
  rewrite u8_small by (unfold is_u8; zdm). case_decide as Hlt.
  - destruct fuel as [|fuel]; [lia|]. cbn [dec_loop]. replace (n `div` 10) with 0 by zdm.
    rewrite decide_False by lia. simpl. by replace (n `mod` 10) with n by zdm.
  - rewrite IH; [|split; [zdm|]|lia|rewrite length_app; simpl; lia].
    + rewrite rev_app_distr. simpl. by rewrite <-app_assoc.
    + rewrite Nat2Z.inj_succ, Z.pow_succ_r in Hn by lia. zdm.
Qed.

Lemma decimal_zero : decimal 0 = [48].
Proof. done. Qed.

Lemma print_uint_decimal n v : is_u32 n → vga_print_uint n v = put_all (decimal n) v.
Proof.
  intros Hn. unfold is_u32 in Hn. unfold vga_print_uint. case_decide as Hz.
  - subst. rewrite decimal_zero. cbn [put_all]. by destruct (vga_putchar 48 v).
  - rewrite (dec_loop_spec 12 10) by (simpl; lia). cbn [mbind option_bind app]. by rewrite rev_involutive.
Qed.

Definition zero_padded (n width : Z) : list Z :=
  replicate (Z.to_nat (width - Z.of_nat (length (decimal n)))) 48 ++ decimal n.

Lemma print_padded_decimal n width v :
  is_u32 n → vga_print_uint_padded n width v = put_all (zero_padded n width) v.
Proof.
  intros Hn. unfold is_u32 in Hn. unfold vga_print_uint_padded, zero_padded. rewrite put_all_app.
  assert ((if decide (n = 0) then Some [48] else dec_loop n 10 11 []) = Some (rev (decimal n))) as ->.
  { case_decide as Hz; [by subst|]. by rewrite (dec_loop_spec 10 10) by (simpl; lia). }
  cbn [mbind option_bind]. rewrite length_rev. destruct (put_all _ v); [|done].
  cbn [mbind option_bind]. by rewrite rev_involutive.
Qed.

(** The decimal printers print the number: [vga_print_uint n] prints digits
    that denote [n], at most ten and without leading zeros, and
    [vga_print_uint_padded n width] the same digits after zeros that fill up to
    the width; the digit buffers never overflow, and printing always succeeds. *)
Theorem print_uint_roundtrip n width v :
  is_u32 n → vga_wf v →
  dec_value (decimal n) = n ∧ Forall (λ c, 48 ≤ c ≤ 57) (decimal n) ∧
  (1 ≤ length (decimal n) ≤ 10)%nat ∧ (n ≠ 0 → head (decimal n) ≠ Some 48) ∧
  (∃ v', vga_print_uint n v = Some v' ∧ put_all (decimal n) v = Some v' ∧ vga_wf v') ∧
  (∃ v', vga_print_uint_padded n width v = Some v' ∧ vga_wf v' ∧
     put_all (replicate (Z.to_nat (width - Z.of_nat (length (decimal n)))) 48 ++ decimal n) v = Some v').
Proof.
  intros Hn Hw. destruct (dec_str_spec 10 n) as (H1 & H2 & H3 & H4);
    [unfold is_u32 in Hn; simpl; lia|lia|].
  split; [done|]. split; [done|]. split; [unfold decimal; lia|].
  split; [intros Hz; apply H4; unfold is_u32 in Hn; lia|].
  rewrite print_uint_decimal, print_padded_decimal by done. split.
  - destruct (put_all_spec (decimal n) v Hw) as (v' & E & Hw' & _). by exists v'.
  - destruct (put_all_spec (zero_padded n width) v Hw) as (v' & E & Hw' & _). by exists v'.
Qed.

Lemma print_uint_roundtrip_witness :
  ∃ v', vga_print_uint 4294967295 demo_vga = Some v' ∧ decimal 4294967295 = [52; 50; 57; 52; 57; 54; 55; 50; 57; 53].
Proof.
  destruct (print_uint_roundtrip 4294967295 0 demo_vga) as (_ & _ & _ & _ & (v' & E & _) & _);
    [unfold is_u32; lia|exact demo_vga_wf|].
  exists v'. split; [exact E|reflexivity].
Defined.

(** ** Hexadecimal numbers *)

Fixpoint hex_str (digits : list Z) (fuel : nat) (n : Z) : list Z :=
  match fuel with
  | O => []
  | S fuel =>
      let d := default 0 (aget digits (n `mod` 16)) in
      if decide (n < 16) then [d] else hex_str digits fuel (n `div` 16) ++ [d]
  end.
Definition hexadecimal (upper : bool) (n : Z) : list Z :=
  hex_str (if upper then upper_digits else lower_digits) 8 n.

Lemma hex_loop_spec digits k : ∀ n fuel buf,
  length digits = 16%nat → 0 < n < 16 ^ Z.of_nat k → (k < fuel)%nat → (length buf + k ≤ 8)%nat →
  hex_loop digits n fuel buf = Some (buf ++ rev (hex_str digits k n)).
Proof.
  induction k as [|k IH]; intros n fuel buf Hd Hn Hf Hs; [simpl in Hn; lia|].
  destruct fuel as [|fuel]; [lia|]. cbn [hex_loop]. rewrite decide_True by lia. cbn [hex_str].
  change 15 with (Z.ones 4). rewrite Z.land_ones, Z.shiftr_div_pow2 by lia. change (2 ^ 4) with 16.
  destruct (aget_is_Some digits (n `mod` 16)) as [d Hdg]; [rewrite Hd; zdm|]. rewrite Hdg.
  cbn [mbind option_bind default]. case_decide as Hlt.
  - destruct fuel as [|fuel]; [lia|]. cbn [hex_loop]. replace (n `div` 16) with 0 by zdm.
    rewrite decide_False by lia. done.
  - rewrite IH; [|done|split; [zdm|]|lia|rewrite length_app; simpl; lia].
    + rewrite rev_app_distr. simpl. by rewrite <-app_assoc.
    + rewrite Nat2Z.inj_succ, Z.pow_succ_r in Hn by lia. zdm.
Qed.

Lemma puthex_hexadecimal n upper v :
  is_u32 n → vga_puthex n upper v = put_all (hexadecimal upper n) v.
Proof.
  intros Hn. unfold is_u32 in Hn. unfold vga_puthex, hexadecimal. cbv zeta.
  destruct (decide (n = 0)) as [->|Hz].
  - assert (hex_str (if upper then upper_digits else lower_digits) 8 0 = [48]) as -> by (by destruct upper).
    cbn [put_all]. by destruct (vga_putchar 48 v).
  - rewrite (hex_loop_spec _ 8) by (destruct upper; simpl; done || lia).
    cbn [mbind option_bind app]. by rewrite rev_involutive.
Qed.

(** ** Formats *)

(** A format string as a sequence of items; width 0 stands for none.  [IOther]
    is a conversion whose letter is none of the supported ones. *)
Inductive item :=
| ILit (c : Z) | IChar | IStr | IDec (zero : bool) (width : Z) | IUns (zero : bool) (width : Z)
| IHex (upper : bool) | IPercent | IOther (zero : bool) (width : Z) (c : Z).

(** The supported formats: a width that an [int] holds, given together with the
    0 flag as the comment of [vga_printf] has it; an unsupported letter after a
    width of one digit. *)
Definition item_ok (i : item) : Prop :=
  match i with
  | ILit c => c ≠ 0 ∧ c ≠ 37
  | IDec z w | IUns z w => 0 ≤ w < 2147483648 ∧ (z = false → w = 0)
  | IOther z w c => 0 ≤ w ≤ 9 ∧ ¬ (48 ≤ c ≤ 57) ∧ c ∉ [0; 99; 115; 100; 117; 120; 88; 37]
  | _ => True
  end.

Definition show_width (zero : bool) (w : Z) : list Z :=
  (if zero then [48] else []) ++ (if decide (w = 0) then [] else decimal w).

Definition show_item (i : item) : list Z :=
  match i with
  | ILit c => [c]
  | IChar => [37; 99]
  | IStr => [37; 115]
  | IDec z w => 37 :: show_width z w ++ [100]
  | IUns z w => 37 :: show_width z w ++ [117]
  | IHex true => [37; 88]
  | IHex false => [37; 120]
  | IPercent => [37; 37]
  | IOther z w c => 37 :: show_width z w ++ [c]
  end.

(** The format string that the items spell, with its terminator. *)
Definition show_format (its : list item) : list Z := (its ≫= show_item) ++ [0].

(** The text of a signed number as C defines it for the 0 flag: the sign, zeros
    that fill the field up to the width, the sign counted, then the digits. *)
Definition signed_text (zero : bool) (w x : Z) : list Z :=
  let sign := if decide (x < 0) then [45] else [] in
  let field := if zero then w else 0 in
  sign ++ replicate (Z.to_nat (field - Z.of_nat (length sign) - Z.of_nat (length (decimal (Z.abs x))))) 48
    ++ decimal (Z.abs x).

(** What an item prints, and the arguments it leaves. *)
Definition item_text (i : item) (ap : list arg) : option (list Z * list arg) :=
  match i, ap with
  | ILit c, _ => Some ([c], ap)
  | IPercent, _ => Some ([37], ap)
  | IOther z w c, _ => Some (37 :: show_width z w ++ [c], ap)
  | IChar, AInt z :: ap => Some ([u8 z], ap)
  | IStr, AStr s :: ap => if decide (0 ∈ default null_str s) then Some (cstr (default null_str s), ap) else None
  | IDec z w, AInt x :: ap => if decide (s32 x = - 2147483648) then None else Some (signed_text z w (s32 x), ap)
  | IUns z w, AInt x :: ap => Some (zero_padded (u32 x) (if z then w else 0), ap)
  | IHex up, AInt x :: ap => Some (hexadecimal up (u32 x), ap)
  | _, _ => None
  end.

Fixpoint format_text (its : list item) (ap : list arg) : option (list Z) :=
  match its with
  | [] => Some []
  | i :: its => '(t, ap) ← item_text i ap; ts ← format_text its ap; Some (t ++ ts)
  end.

Lemma s32_range z : - 2147483648 ≤ s32 z < 2147483648.
Proof. unfold s32. pose proof (u32_range z) as H. unfold is_u32 in H. case_decide; lia. Qed.

(** Reading back the digits of a width. *)
Lemma read_width_digits k : ∀ w l,
  0 ≤ w < 10 ^ Z.of_nat k → w < 2147483648 → (0 < k)%nat → read_width (dec_str k w ++ l) 0 = read_width l w.
Proof.
  induction k as [|k IH]; intros w l Hw Hm Hk; [lia|]. cbn [dec_str]. case_decide as Hlt.
  { cbn [app read_width]. rewrite decide_True by lia. rewrite decide_True by lia. f_equal. lia. }
  assert (0 < k)%nat as Hk' by (destruct k; [simpl in Hw; lia|lia]).
  rewrite Nat2Z.inj_succ, Z.pow_succ_r in Hw by lia.
  rewrite <-app_assoc, IH by (lia || (split; zdm) || zdm). cbn [app read_width].
  rewrite decide_True by zdm. rewrite decide_True by zdm. f_equal. zdm.
Qed.

Lemma read_width_show zero w rest c :
  0 ≤ w < 2147483648 → ¬ (48 ≤ c ≤ 57) →
  let fmt := show_width zero w ++ c :: rest in
  ∃ c1, head fmt = Some c1 ∧
    let zp := bool_decide (c1 = 48) in
    zp = zero ∧ read_width (if zp then tail fmt else fmt) 0 = Some (w, c :: rest).
Proof.
  intros Hw Hc. unfold show_width. cbv zeta.
  assert (∀ n, read_width (c :: rest) n = Some (n, c :: rest)) as Hstop
    by (intros n; cbn [read_width]; by rewrite decide_False by lia).
  assert (read_width ((if decide (w = 0) then [] else decimal w) ++ c :: rest) 0 = Some (w, c :: rest)) as Hr.
  { case_decide as Hz; [subst; apply Hstop|]. unfold decimal.
    rewrite read_width_digits by (simpl; lia). apply Hstop. }
  destruct zero; cbn [app head].
  - exists 48. rewrite bool_decide_eq_true_2 by done. done.
  - destruct (decide (w = 0)) as [->|Hz]; cbn [app head] in *.
    + exists c. rewrite bool_decide_eq_false_2 by lia. done.
    + destruct (dec_str_spec 10 w) as (_ & _ & Hl & Hh); [simpl; lia|lia|]. specialize (Hh ltac:(lia)).
      fold (decimal w) in Hl, Hh. destruct (decimal w) as [|d ds]; [simpl in Hl; lia|]. cbn [app head] in *.
      exists d. rewrite bool_decide_eq_false_2 by (intros ->; by apply Hh). done.
Qed.

(** One conversion of the loop, after its flag and width have been read. *)
Lemma printf_conv fuel zero w spec rest ap v :
  0 ≤ w < 2147483648 → ¬ (48 ≤ spec ≤ 57) →
  printf_loop (S fuel) (37 :: show_width zero w ++ spec :: rest) ap v =
    ('(ap, v) ← put_spec spec zero w ap v; printf_loop fuel rest ap v).
Proof.
  intros Hw Hs. cbn [printf_loop]. rewrite decide_False by done. rewrite decide_False by (intros H; by apply H).
  destruct (read_width_show zero w rest spec Hw Hs) as (c1 & -> & Hz & Hr).
  cbn [mbind option_bind]. cbv zeta. rewrite Hr. cbn [mbind option_bind head tail]. by rewrite Hz.
Qed.

Lemma bind_pair {B C} (o : option B) (x : C) (f : C * B → option vga) :
  ((v ← o; Some (x, v)) ≫= f) = o ≫= λ v, f (x, v).
Proof. by destruct o. Qed.

(** What the code prints for %d, for any flag and width: a negative number is
    padded to the width whether or not the 0 flag is given. *)
Definition printed_signed (zero : bool) (w x : Z) : list Z :=
  if decide (x < 0) then 45 :: zero_padded (- x) (if decide (1 < w) then w - 1 else 0)
  else zero_padded x (if zero then w else 0).

Lemma put_dec zero w x ap v :
  s32 x ≠ - 2147483648 →
  put_spec 100 zero w (AInt x :: ap) v = (v ← put_all (printed_signed zero w (s32 x)) v; Some (ap, v)).
Proof.
  intros Hm. unfold put_spec, printed_signed. rewrite decide_False, decide_False, decide_True by done.
  cbn [va_int mbind option_bind]. cbv zeta.
  pose proof (s32_range x) as Hx. destruct (decide (s32 x < 0)) as [Hneg|Hpos].
  - cbn [put_all]. destruct (vga_putchar 45 v) as [v1|]; [|done]. cbn [mbind option_bind].
    rewrite (decide_False (P := s32 x = _)) by done. cbn [mbind option_bind].
    rewrite (u32_small (- s32 x)) by (unfold is_u32; lia).
    by rewrite print_padded_decimal by (unfold is_u32; lia).
  - rewrite (u32_small (s32 x)) by (unfold is_u32; lia).
    by rewrite print_padded_decimal by (unfold is_u32; lia).
Qed.

(** With the flag and the width as documented, that is what C prescribes. *)
Lemma printed_signed_text zero w x :
  0 ≤ w → (zero = false → w = 0) → printed_signed zero w x = signed_text zero w x.
Proof.
  intros Hw Hz. unfold printed_signed, signed_text, zero_padded.
  assert ((if zero then w else 0) = w) as -> by (destruct zero; [done|symmetry; by apply Hz]).
  destruct (decide (x < 0)).
  - replace (Z.abs x) with (- x) by lia. cbn [app length]. do 3 f_equal. case_decide; lia.
  - replace (Z.abs x) with x by lia. cbn [app length]. do 3 f_equal. lia.
Qed.

(** An unsupported conversion is printed as it stands. *)
Lemma put_other zero w c ap v :
  item_ok (IOther zero w c) →
  put_spec c zero w ap v = (v ← put_all (37 :: show_width zero w ++ [c]) v; Some (ap, v)).
Proof.
  intros (Hw & _ & Hc). rewrite !not_elem_of_cons in Hc. unfold put_spec. cbv zeta.
  rewrite !decide_False by apply Hc. unfold show_width. cbn [app put_all].
  destruct (vga_putchar 37 v) as [v1|]; [|done]. cbn [mbind option_bind].
  rewrite !put_all_app. destruct zero; cbn [put_all mbind option_bind].
  all: try (destruct (vga_putchar 48 v1) as [v2|]; [|done]; cbn [mbind option_bind]).
  all: destruct (decide (w = 0)) as [->|Hz]; [rewrite (decide_False (P := 0 < 0)) by lia|
    rewrite (decide_True (P := 0 < w)) by lia; rewrite Z.mod_small, u8_small by (unfold is_u8; lia);
    unfold decimal; cbn [dec_str]; rewrite (decide_True (P := w < 10)) by lia].
  all: cbn [put_all mbind option_bind].
  all: repeat (match goal with |- context [vga_putchar ?a ?b] => destruct (vga_putchar a b); [|done] end;
    cbn [mbind option_bind]); done.
Qed.

(** One item prints its text and consumes its argument. *)
Lemma printf_item i fuel rest ap t ap' v :
  item_ok i → item_text i ap = Some (t, ap') →
  printf_loop (S fuel) (show_item i ++ rest) ap v = put_all t v ≫= printf_loop fuel rest ap'.
Proof.
  intros Hi Ht. pose proof Hi as Hw. destruct i as [c| | |z w|z w|up| |z w c]; cbn [item_ok] in Hw.
  - injection Ht as <- <-. cbn [show_item app printf_loop put_all]. simpl in Hi.
    rewrite decide_False by apply Hi. rewrite decide_True by apply Hi. by destruct (vga_putchar c v).
  - destruct ap as [|[x|x] ap]; try done. injection Ht as <- <-.
    change (show_item IChar ++ rest) with (37 :: show_width false 0 ++ 99 :: rest).
    rewrite printf_conv by lia. unfold put_spec. rewrite decide_True by done.
    cbn [va_int mbind option_bind put_all]. by destruct (vga_putchar (u8 x) v).
  - destruct ap as [|[x|x] ap]; try done. cbn [item_text] in Ht. case_decide as H0; [|done].
    injection Ht as <- <-. change (show_item IStr ++ rest) with (37 :: show_width false 0 ++ 115 :: rest).
    rewrite printf_conv by lia. unfold put_spec. rewrite decide_False, decide_True by done.
    cbn [va_str mbind option_bind]. rewrite (vga_puts_cstr _ (cstr (default null_str x)))
      by (by apply is_cstr_exists). by destruct (put_all _ v).
  - destruct ap as [|[x|x] ap]; try done. cbn [item_text] in Ht. case_decide as Hm; [done|].
    injection Ht as <- <-. cbn [show_item]. rewrite <-app_comm_cons, <-app_assoc. cbn [app].
    rewrite printf_conv by lia. rewrite put_dec by done. rewrite printed_signed_text by naive_solver.
    by destruct (put_all _ v).
  - destruct ap as [|[x|x] ap]; try done. injection Ht as <- <-.
    cbn [show_item]. rewrite <-app_comm_cons, <-app_assoc. cbn [app].
    rewrite printf_conv by lia. unfold put_spec.
    rewrite decide_False, decide_False, decide_False, decide_True by done.
    cbn [va_int mbind option_bind]. cbv zeta.
    rewrite print_padded_decimal by apply u32_range. by destruct (put_all _ v).
  - destruct ap as [|[x|x] ap]; try by destruct up. injection Ht as <- <-.
    destruct up; cbn [show_item].
    + change ([37; 88] ++ rest) with (37 :: show_width false 0 ++ 88 :: rest).
      rewrite printf_conv by lia. unfold put_spec. rewrite !decide_False by done. rewrite decide_True by done.
      cbn [va_int mbind option_bind]. rewrite puthex_hexadecimal by apply u32_range. by destruct (put_all _ v).
    + change ([37; 120] ++ rest) with (37 :: show_width false 0 ++ 120 :: rest).
      rewrite printf_conv by lia. unfold put_spec. rewrite !decide_False by done. rewrite decide_True by done.
      cbn [va_int mbind option_bind]. rewrite puthex_hexadecimal by apply u32_range. by destruct (put_all _ v).
  - injection Ht as <- <-. change (show_item IPercent ++ rest) with (37 :: show_width false 0 ++ 37 :: rest).
    rewrite printf_conv by lia. unfold put_spec. rewrite !decide_False by done. rewrite decide_True by done.
    cbn [put_all]. by destruct (vga_putchar 37 v).
  - injection Ht as <- <-. cbn [show_item]. rewrite <-app_comm_cons, <-app_assoc. cbn [app].
    destruct (Hi) as (? & ? & _). rewrite printf_conv by lia. rewrite (put_other z w c ap v Hi).
    by destruct (put_all _ v).
Qed.

Lemma printf_items its : ∀ fuel ap text v,
  (length its < fuel)%nat → Forall item_ok its → format_text its ap = Some text →
  printf_loop fuel ((its ≫= show_item) ++ [0]) ap v = put_all text v.
Proof.
  induction its as [|i its IH]; intros fuel ap text v Hf Hok Ht.
  { injection Ht as <-. destruct fuel; [lia|]. done. }
  destruct fuel as [|fuel]; [simpl in Hf; lia|]. apply Forall_cons_1 in Hok as [Hi Hok].
  cbn [format_text] in Ht. destruct (item_text i ap) as [[t ap']|] eqn:Hit; [|done]. cbn in Ht.
  destruct (format_text its ap') as [ts|] eqn:Hts; [|done]. injection Ht as <-.
  cbn [mbind list_bind]. rewrite <-app_assoc, (printf_item i _ _ _ _ _ _ Hi Hit), put_all_app.
  destruct (put_all t v) as [v1|]; [|done]. cbn [mbind option_bind].
  apply (IH fuel ap' ts v1); [simpl in Hf; lia|done|done].
Qed.

Lemma show_item_length i : (1 ≤ length (show_item i))%nat.
Proof. destruct i as [| | | | |[]| |]; simpl; lia. Qed.

Lemma show_items_length its : (length its ≤ length (its ≫= show_item))%nat.
Proof.
  induction its as [|i its IH]; [simpl; lia|]. cbn [mbind list_bind length]. rewrite length_app.
  pose proof (show_item_length i). change (list_bind _ _ show_item its) with (its ≫= show_item). lia.
Qed.

(** C28: [vga_printf] prints the text that its format denotes.  For every
    format built from literal characters and the conversions %c, %s, %d, %u, %x,
    %X and %%, the width of %d and %u given with the 0 flag as the comment
    documents it ([item_ok]), and for arguments that match, those of %d other
    than INT32_MIN and those of %s null or terminated ([format_text] is defined),
    it returns and prints exactly the text of each item in order: numbers in
    decimal or hexadecimal without leading zeros, padded with zeros to the width,
    the sign counted; an unsupported conversion with at most one digit of width
    as it stands.  Outside are %d and %u with a width and no 0 flag
    ([printf_negative_zero_padded]), a format that ends in %, and mismatched
    arguments (undefined behaviour). *)
Theorem vga_printf_refines its ap text v :
  Forall item_ok its → format_text its ap = Some text → vga_wf v →
  ∃ v', vga_printf (show_format its) ap v = Some v' ∧ put_all text v = Some v' ∧ vga_wf v'.
Proof.
  intros Hok Ht Hw. unfold vga_printf, show_format.
  rewrite (printf_items its _ ap text v); [|clear|done|done].
  - destruct (put_all_spec text v Hw) as (v' & E & Hw' & _). by exists v'.
  - pose proof (show_items_length its). rewrite length_app. simpl. lia.
Qed.

(** ["%012d:%s"] with -7 and "ok". *)
Lemma vga_printf_refines_witness :
  ∃ v', vga_printf [37; 48; 49; 50; 100; 58; 37; 115; 0] [AInt (-7); AStr (Some [111; 107; 0])] demo_vga = Some v' ∧
    put_all ([45] ++ replicate 10 48 ++ [55; 58; 111; 107]) demo_vga = Some v'.
Proof.
  destruct (vga_printf_refines [IDec true 12; ILit 58; IStr] [AInt (-7); AStr (Some [111; 107; 0])]
    ([45] ++ replicate 10 48 ++ [55; 58; 111; 107]) demo_vga) as (v' & E1 & E2 & _);
    [repeat constructor; simpl; lia || done|reflexivity|exact demo_vga_wf|].
  exists v'. split; [exact E1|exact E2].
Defined.

(** A field width pads negative numbers with zeros even without the 0 flag,
    and other numbers not at all: the format "%5d" prints -7 as "-0007" and 7
    as "7". *)
Theorem printf_negative_zero_padded v :
  vga_printf [37; 53; 100; 0] [AInt (-7)] v = put_all [45; 48; 48; 48; 55] v ∧
  vga_printf [37; 53; 100; 0] [AInt 7] v = put_all [55] v.
Proof.
  assert (∀ x text, s32 x ≠ - 2147483648 → printed_signed false 5 (s32 x) = text →
    vga_printf [37; 53; 100; 0] [AInt x] v = put_all text v) as H; [|split; by apply H].
  intros x text Hx <-. unfold vga_printf.
  change [37; 53; 100; 0] with (37 :: show_width false 5 ++ 100 :: [0]).
  rewrite printf_conv, put_dec by (lia || done). by destruct (put_all _ v).
Qed.
