(* ===== verification/Console.v ===== *)
(** * Console output of the kernel's text-printing code

    The handlers, the shell and [kernel_main] print with runs of calls to the
    routines of [vga.c] on string literals, numbers and buffers.  [c_lit] is a C
    string literal, [pr] one such call, and [print] performs a run of calls on the
    console of [Vga].  [trace] is what a run writes: each character with its
    attribute; [print_spec] says that the screen is the terminal of [Vga] after
    these characters. *)

From Stdlib Require Import Ascii String.
From S2P Require Import Prelude CString Vga.

(** The array of a C string literal: the bytes, with the escape for newline, and
    the terminating NUL. *)
Fixpoint c_chars (s : string) : list Z :=
  match s with
  | String "\" (String "n" s) => 10 :: c_chars s
  | String c s => Z.of_N (N_of_ascii c) :: c_chars s
  | EmptyString => []
  end.
Definition c_lit (s : string) : list Z := c_chars s ++ [0].

(** Foreground colours ([vga_color_t] of [vga.h]); the background is black. *)
Definition VGA_COLOR_BLACK : Z := 0.
Definition VGA_COLOR_LIGHT_GREY : Z := 7.
Definition VGA_COLOR_DARK_GREY : Z := 8.
Definition VGA_COLOR_LIGHT_GREEN : Z := 10.
Definition VGA_COLOR_LIGHT_CYAN : Z := 11.
Definition VGA_COLOR_LIGHT_RED : Z := 12.
Definition VGA_COLOR_YELLOW : Z := 14.

(** One call: [vga_set_color(fg, VGA_COLOR_BLACK)], [vga_puts] of a literal or of a
    buffer, [vga_putchar], [vga_print_uint], [vga_print_hex], [vga_printf]. *)
Inductive pr :=
| Color (fg : Z)
| Puts (s : string)
| PutBuf (buf : list Z)
| Putc (c : Z)
| Uint (n : Z)
| Hex (n : Z)
| Printf (fmt : string) (ap : list arg).

Definition print1 (p : pr) (v : vga) : option vga :=
  match p with
  | Color fg => Some (vga_set_color fg VGA_COLOR_BLACK v)
  | Puts s => vga_puts (c_lit s) v
  | PutBuf buf => vga_puts buf v
  | Putc c => vga_putchar c v
  | Uint n => vga_print_uint n v
  | Hex n => vga_print_hex n v
  | Printf fmt ap => vga_printf (c_lit fmt) ap v
  end.

Fixpoint print (ps : list pr) (v : vga) : option vga :=
  match ps with [] => Some v | p :: ps => v ← print1 p v; print ps v end.

(** ** What is printed *)

(** The eight digits of [vga_print_hex], after its 0x. *)
Definition hex8 (n : Z) : list Z :=
  [48; 120] ++ ((λ k, hex_digit (Z.land (Z.shiftr n (4 * k)) 15)) <$> [7; 6; 5; 4; 3; 2; 1; 0]).

(** The items of a format whose conversions are all %u or zero-padded %u. *)
Fixpoint fmt_items (fmt : list Z) : list item :=
  match fmt with
  | [] => []
  | c :: fmt =>
      if decide (c = 37) then
        match fmt with
        | [] => []
        | d :: fmt =>
            if decide (d = 117) then IUns false 0 :: fmt_items fmt
            else match fmt with w :: _ :: fmt => IUns true (w - 48) :: fmt_items fmt | _ => [] end
        end
      else ILit c :: fmt_items fmt
  end.

Definition pr_chars (p : pr) : list Z :=
  match p with
  | Color _ => []
  | Puts s => c_chars s
  | PutBuf buf => cstr buf
  | Putc c => [c]
  | Uint n => decimal n
  | Hex n => hex8 n
  | Printf fmt ap => default [] (format_text (fmt_items (c_chars fmt)) ap)
  end.

Definition pr_ok (p : pr) : Prop :=
  match p with
  | Puts s => bool_decide (0 ∉ c_chars s) = true
  | PutBuf buf => 0 ∈ buf
  | Uint n => is_u32 n
  | Printf fmt ap =>
      show_format (fmt_items (c_chars fmt)) = c_lit fmt ∧ Forall item_ok (fmt_items (c_chars fmt)) ∧
      is_Some (format_text (fmt_items (c_chars fmt)) ap)
  | _ => True
  end.

(** The attribute after a call. *)
Definition pr_color (color : Z) (p : pr) : Z :=
  match p with Color fg => make_color fg VGA_COLOR_BLACK | _ => color end.

Fixpoint trace (color : Z) (ps : list pr) : list (Z * Z) :=
  match ps with
  | [] => []
  | p :: ps => ((λ c, (color, c)) <$> pr_chars p) ++ trace (pr_color color p) ps
  end.

(** The terminal after writing characters with attributes. *)
Definition term_run (t : list Z * Z) (tr : list (Z * Z)) : list Z * Z :=
  foldl (λ t x, term_put x.1 x.2 t) t tr.

(** The characters alone. *)
Definition text (tr : list (Z * Z)) : list Z := snd <$> tr.

(** [v'] is the console [v] after the characters [tr]. *)
Record prints (v : vga) (tr : list (Z * Z)) (v' : vga) : Prop := Prints {
  ps_wf : vga_wf v';
  ps_abs : vga_abs v' = term_run (vga_abs v) tr
}.

Lemma prints_trans v1 v2 v3 tr1 tr2 :
  prints v1 tr1 v2 → prints v2 tr2 v3 → prints v1 (tr1 ++ tr2) v3.
Proof.
  intros [W1 A1] [W2 A2]. constructor; [done|]. rewrite A2, A1. unfold term_run. by rewrite foldl_app.
Qed.

Lemma prints_refl v : vga_wf v → prints v [] v.
Proof. by constructor. Qed.

Lemma put_all_prints cs v :
  vga_wf v → ∃ v', put_all cs v = Some v' ∧ prints v ((λ c, (vga_color v, c)) <$> cs) v' ∧
    vga_color v' = vga_color v.
Proof.
  intros Hw. destruct (put_all_spec cs v Hw) as (v' & E & Hw' & Hc & Ha). exists v'. split; [done|].
  split; [|done]. constructor; [done|]. rewrite Ha. unfold term_run. by rewrite foldl_fmap.
Qed.

Lemma print_hex_chars n v : vga_print_hex n v = put_all (hex8 n) v.
Proof.
  unfold hex8. rewrite put_all_app. unfold vga_print_hex.
  rewrite (vga_puts_cstr [48; 120; 0] [48; 120]) by (exists []; split; [done|by repeat constructor]). done.
Qed.

Lemma print1_chars p v :
  pr_ok p → print1 p v = put_all (pr_chars p) (match p with Color fg => vga_set_color fg VGA_COLOR_BLACK v | _ => v end).
Proof.
  destruct p as [fg|s|buf|c|n|n|fmt ap]; intros Hok; cbn [print1 pr_chars pr_ok] in *.
  - done.
  - apply vga_puts_cstr. exists []. split; [done|]. apply bool_decide_eq_true in Hok.
    apply Forall_forall. intros x Hx ->. apply Hok. by apply list_elem_of_In.
  - by apply vga_puts_cstr, is_cstr_exists.
  - cbn [put_all]. by destruct (vga_putchar c v).
  - by apply print_uint_decimal.
  - apply print_hex_chars.
  - destruct Hok as (E & Hi & [t Ht]). rewrite <-E, Ht. unfold vga_printf.
    apply printf_items; [|done|done]. unfold show_format. rewrite length_app.
    pose proof (show_items_length (fmt_items (c_chars fmt))). simpl. lia.
Qed.

(** A run of calls always returns and writes its trace. *)
Lemma print_spec ps : ∀ v, vga_wf v → Forall pr_ok ps →
  ∃ v', print ps v = Some v' ∧ prints v (trace (vga_color v) ps) v' ∧
    vga_color v' = foldl pr_color (vga_color v) ps.
Proof.
  induction ps as [|p ps IH]; intros v Hw Hok; [exists v; split; [done|]; split; [by apply prints_refl|done]|].
  apply Forall_cons_1 in Hok as [Hp Hps]. cbn [print]. rewrite print1_chars by done.
  set (v1 := match p with Color fg => _ | _ => v end).
  assert (vga_wf v1 ∧ vga_abs v1 = vga_abs v ∧ vga_color v1 = pr_color (vga_color v) p) as (Hw1 & Ha1 & Hc1).
  { destruct p; simpl; try done. destruct Hw. split; [by constructor|done]. }
  destruct (put_all_prints (pr_chars p) v1 Hw1) as (v2 & -> & [W2 A2] & C2). simpl.
  destruct (IH v2 W2 Hps) as (v' & -> & [W3 A3] & C3). exists v'. split; [done|].
  rewrite C2, Hc1 in C3. rewrite C2, Hc1 in A3. split; [|done]. constructor; [done|].
  rewrite A3, A2, Ha1. unfold term_run. rewrite foldl_app. f_equal.
  rewrite Hc1. destruct p; cbn [pr_color]; reflexivity.
Qed.

(** The text of a run. *)
Lemma trace_text color ps : text (trace color ps) = ps ≫= pr_chars.
Proof.
  revert color. induction ps as [|p ps IH]; intros color; [done|]. cbn [trace mbind list_bind].
  unfold text in *. rewrite fmap_app, IH, <-list_fmap_compose. f_equal. apply list_fmap_id.
Qed.

(** The characters that a typed literal denotes. *)
Example c_lit_newline : c_lit "ab\n" = [97; 98; 10; 0].
Proof. reflexivity. Qed.

(** The condition on a format, by computation. *)
Definition item_check (i : item) : bool :=
  match i with
  | ILit c => negb (bool_decide (c = 0)) && negb (bool_decide (c = 37))
  | IDec z w | IUns z w => bool_decide (0 ≤ w ≤ 9) && (z || bool_decide (w = 0))
  | IOther _ _ _ => false
  | _ => true
  end.

Definition printf_check (fmt : string) (ap : list arg) : bool :=
  let its := fmt_items (c_chars fmt) in
  bool_decide (show_format its = c_lit fmt) && forallb item_check its && bool_decide (is_Some (format_text its ap)).

Lemma printf_check_ok fmt ap : printf_check fmt ap = true → pr_ok (Printf fmt ap).
Proof.
  unfold printf_check. intros H. apply andb_true_iff in H as [H H3]. apply andb_true_iff in H as [H1 H2].
  apply bool_decide_eq_true in H1, H3. split; [done|]. split; [|done]. rewrite forallb_forall in H2.
  apply List.Forall_forall. intros i Hi. specialize (H2 i Hi). destruct i; cbn [item_check item_ok] in *; try done.
  { apply andb_true_iff in H2 as [? ?]. by rewrite !negb_true_iff, !bool_decide_eq_false in *. }
  all: apply andb_true_iff in H2 as [Hw Hz]; apply bool_decide_eq_true in Hw; split; [lia|];
    intros ->; cbn [orb] in Hz; by apply bool_decide_eq_true in Hz.
Qed.

(** The conditions of a run of calls whose literals are closed; the numbers by
    arithmetic, the buffers by assumption. *)
Ltac pr_oks :=
  repeat (apply Forall_cons_2); try apply Forall_nil_2;
  first [exact I | assumption | reflexivity | (unfold pr_ok, is_u32 in *; lia) | idtac].
