(* ===== verification/Ports.v ===== *)
(** * Port instructions ([src/kernel/port_io.h])

    The interface between the drivers and the devices: [IN] and [OUT] on some
    device state.  A driver is written against [PortIO]; the files of the drivers
    give models of the devices as instances. *)

From S2P Require Import Prelude.

Class PortIO (D : Type) := {
  outb : Z → Z → D → D;
  inb : Z → D → Z * D;
  outw : Z → Z → D → D;
  inw : Z → D → Z * D
}.

(** A dummy write to port 0x80. *)
Definition io_wait {D : Type} `{!PortIO D} (d : D) : D := outb 128 0 d.
