(* ===== verification/Desc.v ===== *)
(** * Descriptor tables ([src/kernel/gdt.c], [tss.c], [idt.c] and their headers)

    Segment descriptors, the task state segment and interrupt gates as the structs
    of the code, with the functions that fill them.  What the processor makes of
    them is given by [seg_base], [seg_limit], [seg_dpl] and [gate_offset]
    ff., which follow the layout of the i386 manuals; the theorems relate the two.

    The addresses of the assembly stubs, of the tables and of the TSS are chosen by
    the linker and are parameters. *)

From S2P Require Import Prelude.

(** ** The task state segment *)

Definition GDT_SEL_KCODE : Z := 8.
Definition GDT_SEL_KDATA : Z := 16.
Definition GDT_SEL_UCODE : Z := 24.
Definition GDT_SEL_UDATA : Z := 32.
Definition GDT_SEL_TSS : Z := 40.
Definition GDT_USER_CS : Z := Z.lor GDT_SEL_UCODE 3.
Definition GDT_USER_DS : Z := Z.lor GDT_SEL_UDATA 3.

(** The fields of [tss_t] that are not always zero; the struct has 104 bytes. *)
Record tss := Tss { tss_esp0 : Z; tss_ss0 : Z; tss_iomap_base : Z }.
Definition TSS_SIZE : Z := 104.

Definition tss_init (kernel_esp : Z) : tss := Tss kernel_esp GDT_SEL_KDATA (u16 TSS_SIZE).
Definition tss_get_limit : Z := TSS_SIZE - 1.

(** ** Segment descriptors *)

Record gdt_entry := GdtEntry {
  limit_low : Z; base_low : Z; base_mid : Z; access : Z; flags_limit_high : Z; base_high : Z
}.

Definition zero_gdt_entry : gdt_entry := GdtEntry 0 0 0 0 0 0.

Definition make_gdt_entry (base limit acc flags : Z) : gdt_entry :=
  GdtEntry (u16 (Z.land limit 65535)) (u16 (Z.land base 65535))
    (u8 (Z.land (Z.shiftr base 16) 255)) acc
    (u8 (Z.lor (Z.land (Z.shiftr limit 16) 15) (Z.land flags 240)))
    (u8 (Z.land (Z.shiftr base 24) 255)).

Definition gdt_set_entry (idx base limit acc flags : Z) (t : list gdt_entry) : option (list gdt_entry) :=
  aset t idx (make_gdt_entry base limit acc flags).

(** The pointer record for LGDT and LIDT, and the segment registers that
    [gdt_init] loads. *)
Record desc_ptr := DescPtr { dp_limit : Z; dp_base : Z }.
Record segs := Segs { seg_cs : Z; seg_ds : Z; seg_es : Z; seg_fs : Z; seg_gs : Z; seg_ss : Z }.

Section tables.
(** Addresses of [gdt_table], [idt_table] and [tss], and of the stubs [isr0]..
    [isr19], [irq0]..[irq15] and [isr_syscall]. *)
Context (gdt_table_addr idt_table_addr tss_addr : Z) (isr irq : Z → Z) (isr_syscall : Z).

Definition tss_get_base : Z := tss_addr.

Definition gdt_init (t : list gdt_entry) : option (list gdt_entry * desc_ptr * segs) :=
  t ← gdt_set_entry 0 0 0 0 0 t;
  t ← gdt_set_entry 1 0 1048575 154 207 t;
  t ← gdt_set_entry 2 0 1048575 146 207 t;
  t ← gdt_set_entry 3 0 1048575 250 207 t;
  t ← gdt_set_entry 4 0 1048575 242 207 t;
  t ← gdt_set_entry 5 tss_get_base tss_get_limit 137 0 t;
  Some (t, DescPtr (u16 (6 * 8 - 1)) gdt_table_addr, Segs 8 16 16 16 16 16).

(** LTR with the selector of the TSS.  The processor faults unless the selector is inside
    the table and names a present TSS that is not busy; it marks the TSS as busy.  The
    result is the task register and the table. *)
Definition mark_busy (e : gdt_entry) : gdt_entry :=
  GdtEntry (limit_low e) (base_low e) (base_mid e) (Z.lor (access e) 2) (flags_limit_high e) (base_high e).
Definition tss_flush (t : list gdt_entry) : option (Z * list gdt_entry) :=
  e ← aget t (GDT_SEL_TSS `div` 8);
  if decide (Z.land (access e) 159 = 137) then t ← aset t (GDT_SEL_TSS `div` 8) (mark_busy e); Some (GDT_SEL_TSS, t)
  else None.

(** ** Interrupt gates *)

Definition IDT_ENTRIES : Z := 256.
Definition IDT_INTERRUPT_GATE : Z := 142.
Definition IDT_SYSCALL_GATE : Z := 238.

Record idt_entry := IdtEntry {
  offset_low : Z; selector : Z; gate_zero : Z; type_attr : Z; offset_high : Z
}.
Definition zero_idt_entry : idt_entry := IdtEntry 0 0 0 0 0.

Definition idt_set_gate (vector handler sel attr : Z) (t : list idt_entry) : option (list idt_entry) :=
  aset t vector (IdtEntry (u16 (Z.land handler 65535)) sel 0 attr (u16 (Z.land (Z.shiftr handler 16) 65535))).

Definition GATE (n : Z) (t : list idt_entry) : option (list idt_entry) :=
  idt_set_gate n (isr n) 8 IDT_INTERRUPT_GATE t.
Definition IRQGATE (n : Z) (t : list idt_entry) : option (list idt_entry) :=
  idt_set_gate (32 + n) (irq n) 8 IDT_INTERRUPT_GATE t.

Definition idt_init (t : list idt_entry) : option (list idt_entry * desc_ptr) :=
  t ← for_u32_opt 0 20 GATE t;
  t ← for_u32_opt 0 16 IRQGATE t;
  Some (t, DescPtr (u16 (IDT_ENTRIES * 8 - 1)) idt_table_addr).

Definition syscall_init (t : list idt_entry) : option (list idt_entry) :=
  idt_set_gate 128 isr_syscall 8 IDT_SYSCALL_GATE t.
End tables.

(** ** What the processor reads *)

Definition seg_base (e : gdt_entry) : Z := base_low e + 65536 * base_mid e + 16777216 * base_high e.
(** The 20-bit limit field; with the granularity flag it counts pages. *)
Definition seg_limit (e : gdt_entry) : Z := limit_low e + 65536 * (flags_limit_high e `mod` 16).
Definition seg_flags (e : gdt_entry) : Z := flags_limit_high e `div` 16.
Definition seg_last (e : gdt_entry) : Z :=
  if Z.testbit (flags_limit_high e) 7 then seg_limit e * 4096 + 4095 else seg_limit e.
Definition seg_dpl (e : gdt_entry) : Z := (access e `div` 32) `mod` 4.
Definition seg_present (e : gdt_entry) : bool := Z.testbit (access e) 7.

Definition gate_offset (e : idt_entry) : Z := offset_low e + 65536 * offset_high e.
Definition gate_present (e : idt_entry) : bool := Z.testbit (type_attr e) 7.
Definition gate_dpl (e : idt_entry) : Z := (type_attr e `div` 32) `mod` 4.
Definition gate_is_interrupt (e : idt_entry) : bool := bool_decide (type_attr e `mod` 32 = 14).

Lemma shr_land x k w : 0 ≤ k → 0 ≤ w → Z.land (Z.shiftr x k) (2 ^ w - 1) = (x `div` 2 ^ k) `mod` 2 ^ w.
Proof.
  intros Hk Hw. rewrite Z.shiftr_div_pow2 by done.
  replace (2 ^ w - 1) with (Z.ones w) by (rewrite Z.ones_equiv; lia). by apply Z.land_ones.
Qed.

Lemma land_mod x w : 0 ≤ w → Z.land x (2 ^ w - 1) = x `mod` 2 ^ w.
Proof. intros Hw. replace (2 ^ w - 1) with (Z.ones w) by (rewrite Z.ones_equiv; lia). by apply Z.land_ones. Qed.

(** The high nibble of the flags and four limit bits do not overlap. *)
Lemma nibbles lo fl : 0 ≤ lo < 16 → is_u8 fl → Z.lor lo (Z.land fl 240) = lo + 16 * (fl `div` 16).
Proof.
  intros Hl Hf. assert (Z.land fl 240 = 16 * (fl `div` 16)) as ->.
  { change 240 with (Z.land 255 (Z.shiftl 15 4)).
    apply Z.bits_inj'. intros n Hn.
    replace (16 * (fl `div` 16)) with (Z.shiftl (Z.shiftr fl 4) 4)
      by (rewrite Z.shiftl_mul_pow2, Z.shiftr_div_pow2 by lia; change (2 ^ 4) with 16; lia).
    rewrite Z.land_spec. destruct (decide (n < 4)) as [H|H].
    - rewrite (Z.shiftl_spec_low _ 4 n) by lia. rewrite Z.land_spec, (Z.shiftl_spec_low 15 4 n) by lia.
      by rewrite !andb_false_r.
    - rewrite Z.shiftl_spec by lia. rewrite Z.shiftr_spec by lia. replace (n - 4 + 4) with n by lia.
      destruct (decide (n < 8)) as [H8|H8].
      + assert (n = 4 ∨ n = 5 ∨ n = 6 ∨ n = 7) as [->|[->|[->| ->]]] by lia; by rewrite andb_true_r.
      + assert (Z.testbit fl n = false) as ->; [|done].
        unfold is_u8 in Hf. rewrite <-(Z.mod_small fl (2 ^ 8)) by lia. apply Z.mod_pow2_bits_high. lia. }
  rewrite <-Z.lxor_lor, <-Z.add_nocarry_lxor; [done|..]; apply Z.bits_inj'; intros n Hn;
    rewrite Z.land_spec, Z.bits_0; replace (16 * (fl `div` 16)) with (Z.shiftl (fl `div` 16) 4)
      by (rewrite Z.shiftl_mul_pow2 by lia; change (2 ^ 4) with 16; lia);
    (destruct (decide (n < 4)); [rewrite Z.shiftl_spec_low by lia; apply andb_false_r|]);
    (assert (Z.testbit lo n = false) as ->; [|done]);
    rewrite <-(Z.mod_small lo (2 ^ 4)) by lia; apply Z.mod_pow2_bits_high; lia.
Qed.

Lemma gdt_entry_decodes base limit acc flags :
  is_u32 base → is_u32 limit → is_u8 flags →
  let e := make_gdt_entry base limit acc flags in
  seg_base e = base ∧ seg_limit e = limit `mod` 1048576 ∧ access e = acc ∧ seg_flags e = flags `div` 16.
Proof.
  intros Hb Hl Hf e. unfold e, make_gdt_entry, seg_base, seg_limit, seg_flags. cbn [base_low base_mid base_high limit_low flags_limit_high access].
  change 65535 with (2 ^ 16 - 1). change 255 with (2 ^ 8 - 1). change 15 with (2 ^ 4 - 1).
  rewrite !shr_land, !land_mod by lia.
  change (2 ^ 16) with 65536. change (2 ^ 8) with 256. change (2 ^ 24) with 16777216. change (2 ^ 4) with 16.
  rewrite nibbles by (done || zdm). unfold is_u32, is_u8, u16, u8 in *. split_and!; zdm.
Qed.

(** A flat 4 GB segment of privilege [dpl]. *)
Definition flat (dpl : Z) (e : gdt_entry) : Prop :=
  seg_base e = 0 ∧ seg_last e = 4294967295 ∧ seg_dpl e = dpl ∧ seg_present e = true.

(** The table that [gdt_init] builds means what [gdt.h] says: the null
    descriptor is zero, the kernel and user code and data segments are present,
    flat over 4 GB and have privilege 0 and 3, the TSS descriptor has the base of
    the TSS and ends at its last byte, 103, and the table has 48 bytes.  The
    selectors loaded into the segment registers name kernel segments. *)
Theorem gdt_init_layout (gdt_addr tss_addr : Z) (t : list gdt_entry) :
  length t = 6%nat → is_u32 tss_addr →
  ∃ null kcode kdata ucode udata tssd,
    gdt_init gdt_addr tss_addr t =
      Some ([null; kcode; kdata; ucode; udata; tssd], DescPtr 47 gdt_addr, Segs 8 16 16 16 16 16) ∧
    null = zero_gdt_entry ∧ flat 0 kcode ∧ flat 0 kdata ∧ flat 3 ucode ∧ flat 3 udata ∧
    access kcode = 154 ∧ access kdata = 146 ∧ access ucode = 250 ∧ access udata = 242 ∧
    seg_base tssd = tss_addr ∧ seg_last tssd = 103 ∧ access tssd = 137.
Proof.
  intros Hl Ht. destruct t as [|? [|? [|? [|? [|? [|? [|]]]]]]]; simpl in Hl; try lia.
  eexists _, _, _, _, _, _. split; [reflexivity|]. split; [reflexivity|].
  do 8 (split; [repeat split; reflexivity|]).
  destruct (gdt_entry_decodes tss_addr 103 137 0) as (E1 & E2 & E3 & E4); [done|unfold is_u32; lia|unfold is_u8; lia|].
  split; [exact E1|]. split; [reflexivity|exact E3].
Qed.

Lemma gdt_init_layout_witness :
  ∃ t, gdt_init 4096 8192 (replicate 6 zero_gdt_entry) = Some (t, DescPtr 47 4096, Segs 8 16 16 16 16 16).
Proof.
  destruct (gdt_init_layout 4096 8192 (replicate 6 zero_gdt_entry)) as (a & b & c & d & e & f & E & _);
    [reflexivity|unfold is_u32; lia|].
  eexists. exact E.
Defined.

(** LTR accepts the descriptor of an available TSS and changes only its busy bit. *)
Lemma tss_flush_ok t e :
  aget t 5 = Some e → access e = 137 → tss_flush t = Some (40, <[5%nat := mark_busy e]> t) ∧
    seg_base (mark_busy e) = seg_base e ∧ seg_last (mark_busy e) = seg_last e ∧ access (mark_busy e) = 139.
Proof.
  intros He Ha. pose proof (aget_Some_lt _ _ _ He) as Hl. unfold tss_flush, GDT_SEL_TSS. change (40 `div` 8) with 5.
  rewrite He. cbn [mbind option_bind]. rewrite decide_True by (by rewrite Ha). unfold aset. rewrite decide_True by lia.
  split; [done|]. split; [done|]. split; [done|]. cbn [mark_busy access]. by rewrite Ha.
Qed.

(** ** Gates *)

Lemma gate_decodes handler sel attr :
  is_u32 handler →
  gate_offset (IdtEntry (u16 (Z.land handler 65535)) sel 0 attr (u16 (Z.land (Z.shiftr handler 16) 65535))) = handler.
Proof.
  intros Hh. unfold gate_offset. cbn [offset_low offset_high]. change 65535 with (2 ^ 16 - 1).
  rewrite shr_land, land_mod by lia. change (2 ^ 16) with 65536. unfold is_u32, u16 in *. zdm.
Qed.

(** The gate for [handler]. *)
Definition gate_to (handler dpl : Z) (e : idt_entry) : Prop :=
  gate_offset e = handler ∧ selector e = GDT_SEL_KCODE ∧ gate_present e = true ∧ gate_dpl e = dpl ∧
  gate_is_interrupt e = true ∧ gate_zero e = 0.

Lemma set_gate_spec vector handler attr t :
  length t = 256%nat → 0 ≤ vector < 256 →
  ∃ t' e, idt_set_gate vector handler 8 attr t = Some t' ∧ length t' = 256%nat ∧
    aget t' vector = Some e ∧ (∀ j, j ≠ vector → aget t' j = aget t j) ∧
    e = IdtEntry (u16 (Z.land handler 65535)) 8 0 attr (u16 (Z.land (Z.shiftr handler 16) 65535)).
Proof.
  intros Hl Hv. unfold idt_set_gate. rewrite aset_Some by lia. eexists _, _. split; [reflexivity|].
  split; [by rewrite length_insert|]. split; [apply aget_insert_eq; lia|]. split; [|done].
  intros j Hj. apply aget_insert_ne; lia.
Qed.

(** A loop over gates from [base] on. *)
Lemma gate_loop base n (stub : Z → Z) t0 :
  length t0 = 256%nat → 0 ≤ base → 0 ≤ n → base + n ≤ 256 → (∀ i, is_u32 (stub i)) →
  ∃ t, for_u32_opt 0 n (λ i, idt_set_gate (base + i) (stub i) 8 IDT_INTERRUPT_GATE) t0 = Some t ∧
    length t = 256%nat ∧
    (∀ i, 0 ≤ i < n → ∃ e, aget t (base + i) = Some e ∧ gate_to (stub i) 0 e) ∧
    (∀ j, j < base ∨ base + n ≤ j → aget t j = aget t0 j).
Proof.
  intros Hl Hb Hn Hr Hs.
  apply (for_u32_opt_inv (λ k t, length t = 256%nat ∧
    (∀ i, 0 ≤ i < k → ∃ e, aget t (base + i) = Some e ∧ gate_to (stub i) 0 e) ∧
    (∀ j, j < base ∨ base + k ≤ j → aget t j = aget t0 j))); [lia| |].
  - split; [done|]. split; [intros; lia|done].
  - intros k t Hk (H1 & H2 & H3).
    destruct (set_gate_spec (base + k) (stub k) IDT_INTERRUPT_GATE t H1) as (t' & e & -> & L & E & O & ->); [lia|].
    exists t'. split; [done|]. split; [done|]. split.
    + intros i Hi. destruct (decide (i = k)) as [->|Hne].
      * eexists. split; [exact E|]. split; [by apply gate_decodes|done].
      * rewrite O by lia. apply H2. lia.
    + intros j Hj. rewrite O by lia. apply H3. lia.
Qed.

(** After [idt_init] and [syscall_init] the processor enters the right stub:
    vectors 0 to 19 go to the exception stubs, 32 to 47 to the IRQ stubs, both with
    privilege 0, and vector 0x80 to the system-call stub with privilege 3, so that
    user code may use it and only it; all are 32-bit interrupt gates into the kernel
    code segment.  Every other vector is as before, that is, not present in the
    zeroed table. *)
Theorem idt_gates (idt_addr : Z) (isr irq : Z → Z) (isr_syscall : Z) :
  (∀ i, is_u32 (isr i)) → (∀ i, is_u32 (irq i)) → is_u32 isr_syscall →
  ∃ t1 t, idt_init idt_addr isr irq (replicate 256 zero_idt_entry) = Some (t1, DescPtr 2047 idt_addr) ∧
    syscall_init isr_syscall t1 = Some t ∧
    (∀ i, 0 ≤ i < 20 → ∃ e, aget t i = Some e ∧ gate_to (isr i) 0 e) ∧
    (∀ i, 0 ≤ i < 16 → ∃ e, aget t (32 + i) = Some e ∧ gate_to (irq i) 0 e) ∧
    (∃ e, aget t 128 = Some e ∧ gate_to isr_syscall 3 e) ∧
    (∀ j, 20 ≤ j < 32 ∨ 48 ≤ j < 128 ∨ 128 < j < 256 → ∃ e, aget t j = Some e ∧ gate_present e = false).
Proof.
  intros Hi Hq Hsys. set (t0 := replicate 256 zero_idt_entry). assert (length t0 = 256%nat) as Hl0 by done.
  unfold idt_init. destruct (gate_loop 0 20 isr t0) as (ta & Ea & La & Ha & Oa); [done|lia|lia|lia|done|].
  change (for_u32_opt 0 20 (GATE isr) t0) with (for_u32_opt 0 20 (λ i, idt_set_gate (0 + i) (isr i) 8 IDT_INTERRUPT_GATE) t0).
  rewrite Ea. cbn [mbind option_bind].
  destruct (gate_loop 32 16 irq ta) as (tb & Eb & Lb & Hb & Ob); [done|lia|lia|lia|done|].
  change (for_u32_opt 0 16 (IRQGATE irq) ta) with (for_u32_opt 0 16 (λ i, idt_set_gate (32 + i) (irq i) 8 IDT_INTERRUPT_GATE) ta).
  rewrite Eb. cbn [mbind option_bind].
  destruct (set_gate_spec 128 isr_syscall IDT_SYSCALL_GATE tb Lb) as (t & e & Es & Lt & Et & Ot & ->); [lia|].
  exists tb, t. split; [done|]. split; [done|]. split; [|split; [|split]].
  - intros i Hr. rewrite Ot, Ob by lia. apply (Ha i Hr).
  - intros i Hr. rewrite Ot by lia. by apply Hb.
  - eexists. split; [exact Et|]. split; [by apply gate_decodes|done].
  - intros j Hj. rewrite Ot, Ob, Oa by lia. exists zero_idt_entry. split; [|done].
    unfold aget. rewrite decide_True by lia. apply lookup_replicate_2. lia.
Qed.

Lemma idt_gates_witness :
  ∃ t1, idt_init 4096 (λ i, u32 (65536 + 16 * i)) (λ i, u32 (131072 + 16 * i)) (replicate 256 zero_idt_entry)
    = Some (t1, DescPtr 2047 4096).
Proof.
  destruct (idt_gates 4096 (λ i, u32 (65536 + 16 * i)) (λ i, u32 (131072 + 16 * i)) 200000) as (t1 & t & E & _);
    [intros; apply u32_range|intros; apply u32_range|unfold is_u32; lia|].
  exists t1. exact E.
Defined.
