(* ===== verification/Pic.v ===== *)
(** * The interrupt controllers ([src/kernel/pic.c], [pic.h])

    The driver for the two cascaded 8259A controllers, over [PortIO], and a model
    of the pair: the four initialisation words, the mask register, the in-service
    register, and the non-specific end-of-interrupt command.  [pic_ack] is the
    acknowledge cycle of the processor, which selects the vector. *)

From S2P Require Import Prelude Ports.

Definition PIC1_CMD : Z := 32.
Definition PIC1_DATA : Z := 33.
Definition PIC2_CMD : Z := 160.
Definition PIC2_DATA : Z := 161.
Definition PIC_EOI : Z := 32.
Definition PIC1_OFFSET : Z := 32.
Definition PIC2_OFFSET : Z := 40.

Section driver.
Context {D : Type} `{!PortIO D}.

Definition pic_init (d : D) : D :=
  let d := io_wait (outb PIC1_CMD 17 d) in
  let d := io_wait (outb PIC2_CMD 17 d) in
  let d := io_wait (outb PIC1_DATA PIC1_OFFSET d) in
  let d := io_wait (outb PIC2_DATA PIC2_OFFSET d) in
  let d := io_wait (outb PIC1_DATA 4 d) in
  let d := io_wait (outb PIC2_DATA 2 d) in
  let d := io_wait (outb PIC1_DATA 1 d) in
  let d := io_wait (outb PIC2_DATA 1 d) in
  let d := outb PIC1_DATA 255 d in
  outb PIC2_DATA 255 d.

Definition pic_send_eoi (irq : Z) (d : D) : D :=
  let d := if decide (8 ≤ irq) then outb PIC2_CMD PIC_EOI d else d in
  outb PIC1_CMD PIC_EOI d.

(** [value & ~(uint8_t)(1u << irq)], stored into a byte. *)
Definition clear_bit (value irq : Z) : Z := u8 (Z.land value (Z.lnot (u8 (Z.shiftl 1 irq)))).
Definition set_bit (value irq : Z) : Z := u8 (Z.lor value (u8 (Z.shiftl 1 irq))).

Definition pic_unmask_irq (irq : Z) (d : D) : D :=
  if decide (irq < 8) then
    let '(value, d) := inb PIC1_DATA d in outb PIC1_DATA (clear_bit value irq) d
  else
    let irq := u8 (irq - 8) in
    let '(master, d) := inb PIC1_DATA d in
    let d := outb PIC1_DATA (clear_bit master 2) d in
    let '(value, d) := inb PIC2_DATA d in outb PIC2_DATA (clear_bit value irq) d.

Definition pic_mask_irq (irq : Z) (d : D) : D :=
  if decide (irq < 8) then
    let '(value, d) := inb PIC1_DATA d in outb PIC1_DATA (set_bit value irq) d
  else
    let irq := u8 (irq - 8) in
    let '(value, d) := inb PIC2_DATA d in outb PIC2_DATA (set_bit value irq) d.
End driver.

(** ** A pair of 8259A *)

(** [c_step] counts the initialisation words still awaited: 0 in operation, 1, 2, 3
    before ICW2, ICW3, ICW4.  [c_base] is the vector of line 0, [c_wire] the
    cascade word, [c_isr] the lines in service. *)
Record chip := Chip { c_step : Z; c_base : Z; c_wire : Z; c_mask : Z; c_isr : list Z }.

(** The in-service list is kept in order of priority, lowest line first. *)
Definition chip_cmd (v : Z) (c : chip) : chip :=
  if Z.testbit v 4 then Chip 1 (c_base c) (c_wire c) 0 []
  else if decide (v = 32) then Chip (c_step c) (c_base c) (c_wire c) (c_mask c) (tail (c_isr c))
  else c.

Definition chip_data (v : Z) (c : chip) : chip :=
  if decide (c_step c = 1) then Chip 2 v (c_wire c) (c_mask c) (c_isr c)
  else if decide (c_step c = 2) then Chip 3 (c_base c) v (c_mask c) (c_isr c)
  else if decide (c_step c = 3) then Chip 0 (c_base c) (c_wire c) (c_mask c) (c_isr c)
  else Chip 0 (c_base c) (c_wire c) v (c_isr c).

Record pics := Pics { master : chip; slave : chip }.

Definition pics_outb (port v : Z) (d : pics) : pics :=
  if decide (port = PIC1_CMD) then Pics (chip_cmd v (master d)) (slave d)
  else if decide (port = PIC1_DATA) then Pics (chip_data v (master d)) (slave d)
  else if decide (port = PIC2_CMD) then Pics (master d) (chip_cmd v (slave d))
  else if decide (port = PIC2_DATA) then Pics (master d) (chip_data v (slave d))
  else d.

Definition pics_inb (port : Z) (d : pics) : Z * pics :=
  if decide (port = PIC1_DATA) then (c_mask (master d), d)
  else if decide (port = PIC2_DATA) then (c_mask (slave d), d)
  else (0, d).

#[export] Instance pics_ports : PortIO pics :=
  { outb := pics_outb; inb := pics_inb; outw := λ _ _ d, d; inw := λ _ d, (0, d) }.

(** A line may interrupt: not masked, and nothing of its priority or above in
    service. *)
Definition chip_ready (c : chip) (line : Z) : bool :=
  negb (Z.testbit (c_mask c) line) && bool_decide (Forall (λ l, line < l) (c_isr c)).

Definition serve (line : Z) (c : chip) : chip :=
  Chip (c_step c) (c_base c) (c_wire c) (c_mask c) (line :: c_isr c).

(** The acknowledge cycle for [irq]: the vector, with the line in service. *)
Definition pic_ack (irq : Z) (d : pics) : option (Z * pics) :=
  if decide (irq < 8) then
    if chip_ready (master d) irq then Some (c_base (master d) + irq, Pics (serve irq (master d)) (slave d)) else None
  else if chip_ready (master d) 2 && chip_ready (slave d) (irq - 8) then
    Some (c_base (slave d) + (irq - 8), Pics (serve 2 (master d)) (serve (irq - 8) (slave d)))
  else None.

(** ** The driver on the pair *)

(** In operation, remapped as [pic.h] says. *)
Record pics_wf (d : pics) : Prop := PicsWf {
  pw_step1 : c_step (master d) = 0; pw_step2 : c_step (slave d) = 0;
  pw_base1 : c_base (master d) = 32; pw_base2 : c_base (slave d) = 40;
  pw_wire1 : c_wire (master d) = 4; pw_wire2 : c_wire (slave d) = 2;
  pw_mask1 : is_u8 (c_mask (master d)); pw_mask2 : is_u8 (c_mask (slave d))
}.

(** The mask bit of [irq]. *)
Definition masked (d : pics) (irq : Z) : bool :=
  if decide (irq < 8) then Z.testbit (c_mask (master d)) irq else Z.testbit (c_mask (slave d)) (irq - 8).

Lemma pic_init_spec d :
  pics_wf (pic_init d) ∧ (∀ irq, 0 ≤ irq < 16 → masked (pic_init d) irq = true) ∧
  c_isr (master (pic_init d)) = [] ∧ c_isr (slave (pic_init d)) = [].
Proof.
  assert (pic_init d = Pics (Chip 0 32 4 255 []) (Chip 0 40 2 255 [])) as ->.
  { unfold pic_init, io_wait. destruct d as [[] []]. reflexivity. }
  split; [constructor; simpl; unfold is_u8; lia|]. split; [|done]. intros irq Hi.
  assert (∀ k, 0 ≤ k < 8 → Z.testbit 255 k = true) as Hb.
  { intros k Hk. change 255 with (Z.ones 8). apply Z.ones_spec_low. lia. }
  unfold masked. simpl. destruct (decide (irq < 8)); apply Hb; lia.
Qed.

Lemma u8_testbit v k : Z.testbit (u8 v) k = Z.testbit v k && bool_decide (k < 8).
Proof.
  unfold u8. change 256 with (2 ^ 8). destruct (decide (k < 8)) as [H|H].
  - rewrite bool_decide_true by done. rewrite andb_true_r. by apply Z.mod_pow2_bits_low.
  - rewrite bool_decide_false by done. rewrite andb_false_r. apply Z.mod_pow2_bits_high. lia.
Qed.

Lemma bit_mask line k : 0 ≤ line < 8 → 0 ≤ k < 8 → Z.testbit (u8 (Z.shiftl 1 line)) k = bool_decide (k = line).
Proof.
  intros Hl Hk. rewrite u8_testbit, (bool_decide_true (k < 8)) by lia. rewrite andb_true_r.
  rewrite Z.shiftl_1_l, Z.pow2_bits_eqb by lia. destruct (Z.eqb_spec line k); symmetry; by case_bool_decide.
Qed.

Lemma clear_bit_spec v line k :
  0 ≤ line < 8 → 0 ≤ k < 8 → Z.testbit (clear_bit v line) k = Z.testbit v k && negb (bool_decide (k = line)).
Proof.
  intros Hl Hk. unfold clear_bit. rewrite u8_testbit, (bool_decide_true (k < 8)) by lia. rewrite andb_true_r.
  rewrite Z.land_spec, Z.lnot_spec by lia. by rewrite bit_mask.
Qed.

Lemma set_bit_spec v line k :
  0 ≤ line < 8 → 0 ≤ k < 8 → Z.testbit (set_bit v line) k = Z.testbit v k || bool_decide (k = line).
Proof.
  intros Hl Hk. unfold set_bit. rewrite u8_testbit, (bool_decide_true (k < 8)) by lia. rewrite andb_true_r.
  rewrite Z.lor_spec. by rewrite bit_mask.
Qed.

Lemma chip_data_mask v c : c_step c = 0 → chip_data v c = Chip 0 (c_base c) (c_wire c) v (c_isr c).
Proof. intros H. unfold chip_data. rewrite H. by rewrite !decide_False by lia. Qed.

(** The state after masking or unmasking: only masks change. *)
Lemma pic_mask_ops d irq :
  pics_wf d → 0 ≤ irq < 16 →
  (pics_wf (pic_unmask_irq irq d) ∧
   (∀ j, 0 ≤ j < 16 → masked (pic_unmask_irq irq d) j =
      if decide (j = irq ∨ 8 ≤ irq ∧ j = 2) then false else masked d j) ∧
   c_isr (master (pic_unmask_irq irq d)) = c_isr (master d) ∧ c_isr (slave (pic_unmask_irq irq d)) = c_isr (slave d)) ∧
  (pics_wf (pic_mask_irq irq d) ∧
   (∀ j, 0 ≤ j < 16 → masked (pic_mask_irq irq d) j = if decide (j = irq) then true else masked d j)).
Proof.
  intros [S1 S2 B1 B2 W1 W2 M1 M2] Hi. destruct d as [[s1 b1 w1 m1 i1] [s2 b2 w2 m2 i2]]. simpl in *. subst.
  unfold pic_unmask_irq, pic_mask_irq. cbn [inb outb pics_ports]. unfold pics_inb, pics_outb.
  destruct (decide (irq < 8)) as [H|H]; simpl; rewrite ?chip_data_mask by done; simpl.
  - split; (split; [constructor; simpl; (done || apply u8_range)|]).
    + split; [|done]. intros j Hj. unfold masked. simpl. destruct (decide (j < 8)).
      * rewrite clear_bit_spec by lia. destruct (decide (j = irq ∨ 8 ≤ irq ∧ j = 2)) as [Hd|Hd].
        -- rewrite bool_decide_true by lia. apply andb_false_r.
        -- rewrite bool_decide_false by lia. apply andb_true_r.
      * by rewrite decide_False by lia.
    + intros j Hj. unfold masked. simpl. destruct (decide (j < 8)); [|by rewrite decide_False by lia].
      rewrite set_bit_spec by lia. destruct (decide (j = irq)).
      * rewrite bool_decide_true by done. apply orb_true_r.
      * rewrite bool_decide_false by done. apply orb_false_r.
  - rewrite (u8_small (irq - 8)) by (unfold is_u8; lia).
    split; (split; [constructor; simpl; (done || apply u8_range)|]).
    + split; [|done]. intros j Hj. unfold masked. simpl. destruct (decide (j < 8)); rewrite clear_bit_spec by lia.
      * destruct (decide (j = irq ∨ 8 ≤ irq ∧ j = 2)).
        -- rewrite bool_decide_true by lia. apply andb_false_r.
        -- rewrite bool_decide_false by lia. apply andb_true_r.
      * destruct (decide (j = irq ∨ 8 ≤ irq ∧ j = 2)).
        -- rewrite bool_decide_true by lia. apply andb_false_r.
        -- rewrite bool_decide_false by lia. apply andb_true_r.
    + intros j Hj. unfold masked. simpl. destruct (decide (j < 8)); [by rewrite decide_False by lia|].
      rewrite set_bit_spec by lia. destruct (decide (j = irq)).
      * rewrite bool_decide_true by lia. apply orb_true_r.
      * rewrite bool_decide_false by lia. apply orb_false_r.
Qed.

(** Acknowledge and end of interrupt cancel out. *)
Lemma pic_cycle d irq v d' :
  pics_wf d → 0 ≤ irq < 16 → pic_ack irq d = Some (v, d') →
  v = 32 + irq ∧ pics_wf d' ∧ pic_send_eoi irq d' = d.
Proof.
  intros [S1 S2 B1 B2 W1 W2 M1 M2] Hi. destruct d as [[s1 b1 w1 m1 i1] [s2 b2 w2 m2 i2]]. simpl in *. subst.
  unfold pic_ack. destruct (decide (irq < 8)) as [H|H]; simpl.
  - destruct (chip_ready _ _); [|done]. intros [= <- <-]. split; [done|]. split; [by constructor|].
    unfold pic_send_eoi. by rewrite decide_False by lia.
  - destruct (chip_ready _ _ && _); [|done]. intros [= <- <-]. split; [lia|]. split; [by constructor|].
    unfold pic_send_eoi. by rewrite decide_True by lia.
Qed.

(** Whatever the controllers did before, [pic_init] and [pic_unmask_irq] leave
    exactly the line [irq] enabled (with the cascade line for the slave's), its
    interrupt arrives at vector 32 + [irq], clear of the exception vectors, and
    [pic_send_eoi] ends it: the controllers are back in the state before, ready for
    the next one. *)
Theorem pic_irq_cycle d irq :
  0 ≤ irq < 16 →
  let d1 := pic_unmask_irq irq (pic_init d) in
  pics_wf d1 ∧
  (∀ j, 0 ≤ j < 16 → masked d1 j = negb (bool_decide (j = irq ∨ 8 ≤ irq ∧ j = 2))) ∧
  ∃ d2, pic_ack irq d1 = Some (32 + irq, d2) ∧ pic_send_eoi irq d2 = d1.
Proof.
  intros Hi d1. destruct (pic_init_spec d) as (Hw & Hm & I1 & I2).
  destruct (pic_mask_ops (pic_init d) irq Hw Hi) as [(Hw1 & Hm1 & E1 & E2) _]. fold d1 in Hw1, Hm1, E1, E2.
  split; [done|]. assert (∀ j, 0 ≤ j < 16 → masked d1 j = negb (bool_decide (j = irq ∨ 8 ≤ irq ∧ j = 2))) as Hmask.
  { intros j Hj. rewrite Hm1 by done. destruct (decide (j = irq ∨ 8 ≤ irq ∧ j = 2)).
    - by rewrite bool_decide_true.
    - rewrite bool_decide_false by done. by apply Hm. }
  split; [done|]. assert (∃ d2, pic_ack irq d1 = Some (32 + irq, d2)) as (d2 & E).
  { unfold pic_ack, chip_ready. rewrite E1, E2, I1, I2. rewrite (pw_base1 _ Hw1), (pw_base2 _ Hw1).
    pose proof (Hmask irq Hi) as H1. pose proof (Hmask 2 ltac:(lia)) as H2. unfold masked in H1, H2.
    rewrite (decide_True (P := 2 < 8)) in H2 by lia. rewrite (bool_decide_true (irq = irq ∨ _)) in H1 by lia.
    destruct (decide (irq < 8)) as [H|H].
    - rewrite H1. simpl. by eexists.
    - rewrite (bool_decide_true (2 = irq ∨ _)) in H2 by lia. rewrite H1, H2. simpl.
      eexists. f_equal. f_equal. lia. }
  exists d2. split; [done|]. by apply (pic_cycle d1 irq (32 + irq) d2).
Qed.

Lemma pic_irq_cycle_witness :
  ∃ d2, pic_ack 1 (pic_unmask_irq 1 (pic_init (Pics (Chip 0 8 0 0 []) (Chip 0 112 0 0 [])))) = Some (33, d2).
Proof.
  destruct (pic_irq_cycle (Pics (Chip 0 8 0 0 []) (Chip 0 112 0 0 [])) 1 ltac:(lia)) as (_ & _ & d2 & E & _).
  exists d2. exact E.
Defined.
