(* ===== verification/Rtc.v ===== *)
(** * The real-time clock ([src/kernel/rtc.c], [rtc.h])

    The driver over [PortIO], and a model of the CMOS chip: ports 0x70 and 0x71 select
    and read a register; status register A reports an update in progress for a
    number of reads.  The chip holds a time of day and a date and shows them in
    BCD or binary, with 24 or 12 hours, as its status register B says. *)

From S2P Require Import Prelude Ports.

Definition CMOS_IDX : Z := 112.
Definition CMOS_DATA : Z := 113.
Definition RTC_REG_SECOND : Z := 0.
Definition RTC_REG_MINUTE : Z := 2.
Definition RTC_REG_HOUR : Z := 4.
Definition RTC_REG_DAY : Z := 7.
Definition RTC_REG_MONTH : Z := 8.
Definition RTC_REG_YEAR : Z := 9.
Definition RTC_REG_STATUS_A : Z := 10.
Definition RTC_REG_STATUS_B : Z := 11.
Definition NMI_DISABLE : Z := 128.

Record rtc_time := RtcTime { t_year : Z; t_month : Z; t_day : Z; t_hour : Z; t_minute : Z; t_second : Z }.

Definition bcd_to_bin (bcd : Z) : Z := u8 (Z.land (Z.shiftr bcd 4) 15 * 10 + Z.land bcd 15).

(** The conversions of [rtc_read] after the registers have been read. *)
Definition rtc_convert (status_b second minute hour day month year : Z) : rtc_time :=
  let bcd := decide (Z.land status_b 4 = 0) in
  let conv x := if bcd then bcd_to_bin x else x in
  let hour := conv hour in
  let year := if bcd then u8 (bcd_to_bin (u8 year)) else year in
  let hour := if decide (Z.land status_b 2 = 0 ∧ Z.land hour 128 ≠ 0)
              then u8 ((Z.land hour 127 + 12) `mod` 24) else hour in
  RtcTime (u16 (year + if decide (year < 70) then 2000 else 1900))
    (conv month) (conv day) hour (conv minute) (conv second).

Section driver.
Context {D : Type} `{!PortIO D}.

Definition cmos_read (reg : Z) (d : D) : Z * D :=
  inb CMOS_DATA (outb CMOS_IDX (Z.lor NMI_DISABLE reg) d).

(** The wait for the update flag; [fuel] bounds the polls. *)
Fixpoint rtc_wait (fuel : nat) (d : D) : option D :=
  match fuel with
  | O => None
  | S fuel =>
      let '(a, d) := cmos_read RTC_REG_STATUS_A d in
      if decide (Z.land a 128 ≠ 0) then rtc_wait fuel d else Some d
  end.

Definition rtc_read (fuel : nat) (d : D) : option (rtc_time * D) :=
  d ← rtc_wait fuel d;
  let '(status_b, d) := cmos_read RTC_REG_STATUS_B d in
  let '(second, d) := cmos_read RTC_REG_SECOND d in
  let '(minute, d) := cmos_read RTC_REG_MINUTE d in
  let '(hour, d) := cmos_read RTC_REG_HOUR d in
  let '(day, d) := cmos_read RTC_REG_DAY d in
  let '(month, d) := cmos_read RTC_REG_MONTH d in
  let '(year, d) := cmos_read RTC_REG_YEAR d in
  Some (rtc_convert status_b second minute hour day month year, d).
End driver.

(** ** The chip *)

Record cmos := Cmos { cm_index : Z; cm_busy : nat; cm_status_b : Z; cm_time : rtc_time }.

Definition bin_to_bcd (x : Z) : Z := x `div` 10 * 16 + x `mod` 10.

Definition binary_mode (b : Z) : bool := Z.testbit b 2.
Definition hour24_mode (b : Z) : bool := Z.testbit b 1.

(** A value in the register format. *)
Definition shown (b x : Z) : Z := if binary_mode b then x else bin_to_bcd x.

(** The hour register: with 12 hours, 1 to 12 and bit 7 for PM. *)
Definition shown_hour (b h : Z) : Z :=
  if hour24_mode b then shown b h
  else shown b (if decide (h `mod` 12 = 0) then 12 else h `mod` 12) + (if decide (12 ≤ h) then 128 else 0).

Definition cmos_reg (d : cmos) : Z :=
  let r := cm_index d `mod` 128 in let b := cm_status_b d in let t := cm_time d in
  if decide (r = 0) then shown b (t_second t)
  else if decide (r = 2) then shown b (t_minute t)
  else if decide (r = 4) then shown_hour b (t_hour t)
  else if decide (r = 7) then shown b (t_day t)
  else if decide (r = 8) then shown b (t_month t)
  else if decide (r = 9) then shown b (t_year t `mod` 100)
  else if decide (r = 11) then b
  else 0.

Definition cmos_inb (port : Z) (d : cmos) : Z * cmos :=
  if decide (port = CMOS_DATA) then
    if decide (cm_index d `mod` 128 = 10) then
      match cm_busy d with
      | S n => (128, Cmos (cm_index d) n (cm_status_b d) (cm_time d))
      | O => (0, d)
      end
    else (cmos_reg d, d)
  else (0, d).

Definition cmos_outb (port v : Z) (d : cmos) : cmos :=
  if decide (port = CMOS_IDX) then Cmos v (cm_busy d) (cm_status_b d) (cm_time d) else d.

#[export] Instance cmos_ports : PortIO cmos :=
  { outb := cmos_outb; inb := cmos_inb; outw := λ _ _ d, d; inw := λ _ d, (0, d) }.

(** A time of the years 1970 to 2069. *)
Record time_ok (t : rtc_time) : Prop := TimeOk {
  tk_year : 1970 ≤ t_year t < 2070; tk_month : 1 ≤ t_month t ≤ 12; tk_day : 1 ≤ t_day t ≤ 31;
  tk_hour : 0 ≤ t_hour t < 24; tk_minute : 0 ≤ t_minute t < 60; tk_second : 0 ≤ t_second t < 60
}.

(** ** Reading *)

Lemma bcd_roundtrip x : 0 ≤ x < 100 → bcd_to_bin (bin_to_bcd x) = x.
Proof.
  intros Hx. assert (forallb (λ n, bcd_to_bin (bin_to_bcd (Z.of_nat n)) =? Z.of_nat n) (seq 0 100) = true) as H
    by (vm_compute; reflexivity).
  rewrite forallb_forall in H. specialize (H (Z.to_nat x)). rewrite Z2Nat.id in H by lia.
  apply Z.eqb_eq, H, in_seq. lia.
Qed.

Lemma rtc_wait_ok fuel : ∀ d, (cm_busy d < fuel)%nat →
  rtc_wait fuel d = Some (Cmos (Z.lor 128 10) 0 (cm_status_b d) (cm_time d)).
Proof.
  induction fuel as [|fuel IH]; intros d Hd; [lia|]. cbn [rtc_wait]. unfold cmos_read. cbn [inb outb cmos_ports].
  unfold cmos_outb, cmos_inb. rewrite !decide_True by done. cbn [cm_index cm_busy].
  destruct (cm_busy d) as [|n] eqn:E.
  - rewrite decide_False by (intros H; by apply H). done.
  - rewrite decide_True by done. rewrite IH by (simpl; lia). done.
Qed.

Lemma cmos_read_reg reg d :
  (reg = 0 ∨ reg = 2 ∨ reg = 4 ∨ reg = 7 ∨ reg = 8 ∨ reg = 9 ∨ reg = 11) →
  cmos_read reg d = (cmos_reg (Cmos (Z.lor 128 reg) (cm_busy d) (cm_status_b d) (cm_time d)),
                     Cmos (Z.lor 128 reg) (cm_busy d) (cm_status_b d) (cm_time d)).
Proof. intros [->|[->|[->|[->|[->|[->| ->]]]]]]; reflexivity. Qed.

Lemma land_bit b k : 0 ≤ k → Z.land b (2 ^ k) = 0 ↔ Z.testbit b k = false.
Proof.
  intros Hk. split.
  - intros H. assert (Z.testbit (Z.land b (2 ^ k)) k = false) as E by (rewrite H; apply Z.bits_0).
    rewrite Z.land_spec, Z.pow2_bits_true in E by done. by rewrite andb_true_r in E.
  - intros H. apply Z.bits_inj'. intros j Hj. rewrite Z.land_spec, Z.bits_0, Z.pow2_bits_eqb by done.
    destruct (Z.eqb_spec k j) as [<-|]; [by rewrite H|apply andb_false_r].
Qed.

(** What [rtc_read] returns for the registers that the chip shows. *)
Lemma rtc_read_regs fuel d :
  (cm_busy d < fuel)%nat →
  let b := cm_status_b d in let t := cm_time d in
  ∃ d', rtc_read fuel d = Some (rtc_convert b (shown b (t_second t)) (shown b (t_minute t)) (shown_hour b (t_hour t))
      (shown b (t_day t)) (shown b (t_month t)) (shown b (t_year t `mod` 100)), d') ∧ cm_busy d' = 0%nat.
Proof.
  intros Hd b t. unfold rtc_read. rewrite rtc_wait_ok by done. cbn [mbind option_bind].
  unfold RTC_REG_STATUS_B, RTC_REG_SECOND, RTC_REG_MINUTE, RTC_REG_HOUR, RTC_REG_DAY, RTC_REG_MONTH, RTC_REG_YEAR.
  do 7 (rewrite cmos_read_reg by tauto; cbn [cm_index cm_busy cm_status_b cm_time]). by eexists.
Qed.

Lemma shown_conv b x :
  0 ≤ x < 100 → (if decide (Z.land b 4 = 0) then bcd_to_bin (shown b x) else shown b x) = x.
Proof.
  intros Hx. change 4 with (2 ^ 2). unfold shown, binary_mode. destruct (decide (Z.land b (2 ^ 2) = 0)) as [H|H].
  - apply land_bit in H; [|lia]. rewrite H. by apply bcd_roundtrip.
  - destruct (Z.testbit b 2) eqn:E; [done|]. destruct H. by apply land_bit.
Qed.

Lemma rtc_exact fuel d :
  time_ok (cm_time d) → hour24_mode (cm_status_b d) = true → (cm_busy d < fuel)%nat →
  ∃ d', rtc_read fuel d = Some (cm_time d, d').
Proof.
  intros [H1 H2 H3 H4 H5 H6] H24 Hf. destruct (rtc_read_regs fuel d Hf) as (d' & E & _). exists d'. rewrite E. do 2 f_equal.
  destruct d as [idx busy b [y mo dy h mi se]]. simpl in *. unfold rtc_convert, shown_hour. rewrite H24. cbv zeta.
  rewrite !(shown_conv b) by lia.
  rewrite (decide_False (P := Z.land b 2 = 0 ∧ _)).
  2:{ intros [H _]. change 2 with (2 ^ 1) in H. apply land_bit in H; [|lia]. unfold hour24_mode in H24. congruence. }
  assert ((if decide (Z.land b 4 = 0) then u8 (bcd_to_bin (u8 (shown b (y `mod` 100)))) else shown b (y `mod` 100)) = y `mod` 100) as ->.
  { assert (0 ≤ y `mod` 100 < 100) as Hy by zdm. pose proof (shown_conv b (y `mod` 100) Hy) as Hs.
    destruct (decide (Z.land b 4 = 0)) as [H|H]; [|exact Hs].
    assert (is_u8 (shown b (y `mod` 100))) as Hu.
    { unfold shown, is_u8, bin_to_bcd. destruct (binary_mode b); zdm. }
    rewrite (u8_small (shown _ _)) by done. rewrite u8_small; [exact Hs|]. unfold bcd_to_bin. apply u8_range. }
  f_equal. unfold u16. destruct (decide (y `mod` 100 < 70)); zdm.
Qed.

(** On a chip with 24 hours, in BCD or binary, [rtc_read] returns exactly the
    date and time that the chip holds, for every time of the years 1970 to 2069,
    and however long the update flag stays set it ends after one poll more. *)
Theorem rtc_read_exact fuel d :
  time_ok (cm_time d) → hour24_mode (cm_status_b d) = true → (cm_busy d < fuel)%nat →
  ∃ d', rtc_read fuel d = Some (cm_time d, d').
Proof. apply rtc_exact. Qed.

Lemma rtc_read_exact_witness :
  ∃ d', rtc_read 10 (Cmos 0 5 2 (RtcTime 2025 12 31 23 59 58)) = Some (RtcTime 2025 12 31 23 59 58, d').
Proof.
  apply (rtc_read_exact 10 (Cmos 0 5 2 (RtcTime 2025 12 31 23 59 58)));
    [constructor; simpl; lia|reflexivity|simpl; lia].
Defined.

(** With 12 hours in BCD the PM bit is lost in the conversion: for every hour
    from noon on [rtc_read] returns an hour of at least 81, outside the 0 to 23 that
    [rtc.h] promises. *)
Theorem rtc_pm_bcd_out_of_range fuel d :
  time_ok (cm_time d) → binary_mode (cm_status_b d) = false → hour24_mode (cm_status_b d) = false →
  12 ≤ t_hour (cm_time d) → (cm_busy d < fuel)%nat →
  ∃ t d', rtc_read fuel d = Some (t, d') ∧
    t_hour t = 80 + (if decide (t_hour (cm_time d) = 12) then 12 else t_hour (cm_time d) - 12).
Proof.
  intros [H1 H2 H3 H4 H5 H6] Hbin H24 Hpm Hf. destruct (rtc_read_regs fuel d Hf) as (d' & E & _). eexists _, d'.
  split; [exact E|]. destruct d as [idx busy b [y mo dy h mi se]]. simpl in *.
  unfold rtc_convert, shown_hour, shown. rewrite H24, Hbin. cbv zeta. cbn [t_hour].
  rewrite (decide_True (P := Z.land b 4 = 0)) by (change 4 with (2 ^ 2); apply land_bit; [lia|done]).
  assert (h = 12 ∨ h = 13 ∨ h = 14 ∨ h = 15 ∨ h = 16 ∨ h = 17 ∨ h = 18 ∨ h = 19 ∨ h = 20 ∨ h = 21 ∨ h = 22 ∨ h = 23)
    as Hh by lia.
  rewrite decide_False; [|intros [_ X]; revert X]; destruct Hh as [->|[->|[->|[->|[->|[->|[->|[->|[->|[->|[->| ->]]]]]]]]]]];
    vm_compute; (reflexivity || (intros X; by apply X)).
Qed.

Lemma rtc_pm_bcd_out_of_range_witness :
  ∃ t d', rtc_read 1 (Cmos 0 0 0 (RtcTime 2025 6 1 15 0 0)) = Some (t, d') ∧ t_hour t = 83.
Proof.
  apply (rtc_pm_bcd_out_of_range 1 (Cmos 0 0 0 (RtcTime 2025 6 1 15 0 0)));
    [constructor; simpl; lia|reflexivity|reflexivity|simpl; lia|simpl; lia].
Defined.
