(* ===== verification/Timer.v ===== *)
(** * The timer ([src/kernel/timer.c], [timer.h]) and the table of interrupt handlers
    ([irq_register_handler] of [isr.c])

    The tick counter, the programming of the 8254 over [PortIO] with a model of its
    channel 0, and the sleep loop.  A [hlt] of the loop returns after an interrupt;
    what happens until then is a list of wake-ups, each with the number of timer
    ticks that passed: 0 for another interrupt, more than 1 when the sleeping
    process was preempted. *)

From S2P Require Import Prelude Ports Pic.

Definition TIMER_HZ : Z := 100.
Definition PIT_CHANNEL0 : Z := 64.
Definition PIT_CMD : Z := 67.
Definition PIT_FREQ : Z := 1193182.
Definition PIT_CMD_BYTE : Z := 52.
Definition PIT_DIVISOR : Z := PIT_FREQ `div` TIMER_HZ.
Definition SCHED_SLICE : Z := 5.

(** [irq_handlers[irq] = handler] for the 16 lines, [None] for NULL; other numbers are
    ignored. *)
Definition irq_register_handler {H : Type} (irq : Z) (handler : option H) (tbl : list (option H)) :
    option (list (option H)) :=
  if decide (irq < 16) then aset tbl irq handler else Some tbl.

Section timer.
Context {T : Type} `{!PortIO T} {P : Type} `{!PortIO P} {H : Type}.

(** [timer_init]: the counter, the interval timer, the handler table, and the
    interrupt controller; [timer_irq_handler] is the handler to be registered. *)
Definition timer_init (timer_irq_handler : H) (t : T) (tbl : list (option H)) (p : P) :
    option (Z * T * list (option H) * P) :=
  let t := outb PIT_CMD PIT_CMD_BYTE t in
  let t := outb PIT_CHANNEL0 (u8 (Z.land PIT_DIVISOR 255)) t in
  let t := outb PIT_CHANNEL0 (u8 (Z.land (Z.shiftr PIT_DIVISOR 8) 255)) t in
  tbl ← irq_register_handler 0 (Some timer_irq_handler) tbl;
  Some (0, t, tbl, pic_unmask_irq 0 p).
End timer.

Definition timer_get_ticks (ticks : Z) : Z := ticks.
Definition timer_get_uptime_sec (ticks : Z) : Z := ticks `div` TIMER_HZ.

Definition sleep_target (ticks ms : Z) : Z :=
  u32 (ticks + u32 (u32 (ms * TIMER_HZ) + 999) `div` 1000).

(** How the sleep loop goes on: it has returned, with the counter and the wake-ups
    still to come; it is in [hlt] with no more wake-ups listed; or it is in [hlt] with
    interrupts disabled, and nothing will ever wake the processor. *)
Inductive sleep_exit := Awake (ticks : Z) (wakes : list Z) | Asleep (ticks : Z) | Dead.

Fixpoint sleep_loop (target ticks : Z) (wakes : list Z) : sleep_exit :=
  if decide (ticks < target) then
    match wakes with
    | [] => Asleep ticks
    | w :: wakes => sleep_loop target (u32 (ticks + w)) wakes
    end
  else Awake ticks wakes.

(** [timer_sleep_ms] with the interrupt flag [iflag]. *)
Definition timer_sleep_ms (iflag : bool) (ms ticks : Z) (wakes : list Z) : sleep_exit :=
  let target := sleep_target ticks ms in
  if iflag then sleep_loop target ticks wakes
  else if decide (ticks < target) then Dead else Awake ticks wakes.

(** ** Channel 0 of the 8254 *)

(** Counting mode, the low byte of a reload value whose high byte is awaited, and
    the reload value. *)
Record pit := Pit { pit_mode : Z; pit_low : option Z; pit_reload : Z }.

(** A control word for channel 0 with access to low then high byte; writes of the
    counter in pairs. *)
Definition pit_outb (port v : Z) (d : pit) : pit :=
  if decide (port = 67) then
    if decide (Z.shiftr v 4 = 3) then Pit (Z.land (Z.shiftr v 1) 7) None (pit_reload d) else d
  else if decide (port = 64) then
    match pit_low d with
    | None => Pit (pit_mode d) (Some v) (pit_reload d)
    | Some low => Pit (pit_mode d) None (v * 256 + low)
    end
  else d.

#[export] Instance pit_ports : PortIO pit :=
  { outb := pit_outb; inb := λ _ d, (0, d); outw := λ _ _ d, d; inw := λ _ d, (0, d) }.

(** ** Correctness *)

Lemma irq_register_ok {H : Type} irq (h : option H) tbl :
  length tbl = 16%nat → 0 ≤ irq < 16 →
  ∃ tbl', irq_register_handler irq h tbl = Some tbl' ∧ length tbl' = 16%nat ∧
    ∀ j, aget tbl' j = if decide (j = irq) then Some h else aget tbl j.
Proof.
  intros Hl Hi. unfold irq_register_handler. rewrite decide_True by lia. rewrite aset_Some by lia.
  eexists. split; [reflexivity|]. split; [by len|]. intros j. case_decide.
  - subst. apply aget_insert_eq. lia.
  - apply aget_insert_ne; lia.
Qed.

(** [timer_init] resets the counter, programs channel 0 of the interval timer as
    a rate generator (mode 2) whose period is the input clock divided by 100 rounded
    down, registers the handler for line 0 alone, and enables that line. *)
Theorem timer_init_rate {H : Type} (h : H) d tbl p :
  length tbl = 16%nat → pics_wf p →
  ∃ d' tbl' p', timer_init h d tbl p = Some (0, d', tbl', p') ∧
    pit_mode d' = 2 ∧ pit_low d' = None ∧
    pit_reload d' * 100 ≤ PIT_FREQ < (pit_reload d' + 1) * 100 ∧
    length tbl' = 16%nat ∧ aget tbl' 0 = Some (Some h) ∧ (∀ j, j ≠ 0 → aget tbl' j = aget tbl j) ∧
    pics_wf p' ∧ ∀ j, 0 ≤ j < 16 → masked p' j = if decide (j = 0) then false else masked p j.
Proof.
  intros Hl Hp. unfold timer_init.
  destruct (irq_register_ok 0 (Some h) tbl Hl) as (tbl' & -> & Hlt & Ha); [lia|]. cbn [mbind option_bind].
  eexists _, _, _. split; [reflexivity|]. split; [reflexivity|]. split; [reflexivity|].
  split; [vm_compute; split; [discriminate|reflexivity]|]. split; [done|]. split; [by rewrite Ha|].
  split; [intros j Hj; rewrite Ha; by rewrite decide_False by done|].
  destruct (pic_mask_ops p 0 Hp ltac:(lia)) as [(Hw & Hm & _) _]. split; [done|].
  intros j Hj. rewrite Hm by done. destruct (decide (j = 0)).
  - by rewrite decide_True by lia.
  - by rewrite decide_False by lia.
Qed.

Lemma timer_init_rate_witness :
  ∃ d' tbl' p', timer_init true (Pit 0 None 0) (replicate 16 None) (pic_init (Pics (Chip 0 0 0 0 []) (Chip 0 0 0 0 [])))
    = Some (0, d', tbl', p') ∧ pit_reload d' = 11931 ∧ masked p' 0 = false.
Proof.
  destruct (timer_init_rate true (Pit 0 None 0) (replicate 16 None)
    (pic_init (Pics (Chip 0 0 0 0 []) (Chip 0 0 0 0 [])))) as (d' & tbl' & p' & E & _ & _ & Hr & _ & _ & _ & _ & Hm);
    [reflexivity|apply pic_init_spec|].
  exists d', tbl', p'. split; [exact E|]. split; [unfold PIT_FREQ in Hr; lia|]. apply (Hm 0). lia.
Defined.

(** The ticks that a sleep of [ms] milliseconds must span: 10 ms each, rounded up. *)
Definition sleep_ticks (ms : Z) : Z := (ms + 9) `div` 10.

Lemma sleep_target_exact ticks ms :
  0 ≤ ms → ms * 100 + 999 < 4294967296 → 0 ≤ ticks → ticks + sleep_ticks ms < 4294967296 →
  sleep_target ticks ms = ticks + sleep_ticks ms.
Proof.
  intros H1 H2 H3 H4. unfold sleep_target, TIMER_HZ, sleep_ticks in *.
  rewrite (u32_small (ms * 100)) by (unfold is_u32; lia).
  rewrite (u32_small (ms * 100 + 999)) by (unfold is_u32; lia).
  replace ((ms * 100 + 999) `div` 1000) with ((ms + 9) `div` 10) by (clear; zdm).
  apply u32_small. unfold is_u32. assert (0 ≤ (ms + 9) `div` 10) by zdm. lia.
Qed.

Definition sum_ticks (ws : list Z) : Z := foldr Z.add 0 ws.

(** The loop leaves at the first wake-up at which the target is reached. *)
Lemma sleep_loop_spec target : ∀ wakes ticks,
  Forall (λ w, 0 ≤ w) wakes → 0 ≤ ticks → ticks + sum_ticks wakes < 4294967296 → target ≤ ticks + sum_ticks wakes →
  ∃ past rest, wakes = past ++ rest ∧ sleep_loop target ticks wakes = Awake (ticks + sum_ticks past) rest ∧
    target ≤ ticks + sum_ticks past ∧
    ∀ k, (k < length past)%nat → ticks + sum_ticks (take k past) < target.
Proof.
  induction wakes as [|w wakes IH]; intros ticks Hw H0 Hb Ht; cbn [sleep_loop]; unfold sum_ticks in *; simpl in *.
  - rewrite decide_False by lia. exists [], []. simpl. split_and!; [done|f_equal; lia|lia|lia].
  - apply Forall_cons_1 in Hw as [Hw0 Hw].
    assert (0 ≤ foldr Z.add 0 wakes) as Hs.
    { clear -Hw. induction Hw; simpl; [lia|]. lia. }
    destruct (decide (ticks < target)) as [Hlt|Hge].
    + rewrite u32_small by (unfold is_u32; lia).
      destruct (IH (ticks + w)) as (past & rest & -> & E & Hp & Hk); [done|lia|lia|lia|].
      exists (w :: past), rest. split; [done|]. split; [rewrite E; f_equal; simpl; lia|].
      split; [simpl; lia|]. intros [|k] Hlen; simpl in *; [lia|]. specialize (Hk k ltac:(lia)). lia.
    + exists [], (w :: wakes). simpl. split_and!; [done|f_equal; lia|lia|lia].
Qed.

(** C36: with interrupts enabled, and as long as neither the product nor the counter
    passes 2^32, [timer_sleep_ms] returns at the first wake-up at which
    [ceil (ms / 10)] ticks have passed: not before, whatever other interrupts wake
    the processor, and always once that many ticks have come. *)
Theorem timer_sleep_exact ms ticks wakes :
  0 ≤ ms → ms * 100 + 999 < 4294967296 → 0 ≤ ticks → Forall (λ w, 0 ≤ w) wakes →
  ticks + sum_ticks wakes < 4294967296 → sleep_ticks ms ≤ sum_ticks wakes →
  ∃ past rest, wakes = past ++ rest ∧
    timer_sleep_ms true ms ticks wakes = Awake (ticks + sum_ticks past) rest ∧
    sleep_ticks ms ≤ sum_ticks past ∧
    ∀ k, (k < length past)%nat → sum_ticks (take k past) < sleep_ticks ms.
Proof.
  intros H1 H2 H3 Hw Hb Hs. unfold timer_sleep_ms. rewrite sleep_target_exact by lia.
  destruct (sleep_loop_spec (ticks + sleep_ticks ms) wakes ticks) as (past & rest & E1 & E2 & E3 & E4); [done|lia..|].
  exists past, rest. split; [done|]. split; [done|]. split; [lia|]. intros k Hk. specialize (E4 k Hk). lia.
Qed.

Lemma timer_sleep_exact_witness :
  ∃ past rest, [1; 0; 1; 1; 0; 1] = past ++ rest ∧
    timer_sleep_ms true 25 7 [1; 0; 1; 1; 0; 1] = Awake (7 + sum_ticks past) rest.
Proof.
  destruct (timer_sleep_exact 25 7 [1; 0; 1; 1; 0; 1]) as (past & rest & E1 & E2 & _);
    [lia|lia|lia|repeat constructor; lia|simpl; lia|vm_compute; discriminate|].
  exists past, rest. split; [exact E1|exact E2].
Defined.

(** Beyond that the sleep is cut short.  A sleep of 42949673 ms (12 hours) ends
    after a single tick, since [ms * TIMER_HZ] wraps around; and in the last ticks
    before the counter itself wraps around a sleep does not wait at all. *)
Theorem timer_sleep_wraps ticks wakes :
  0 ≤ ticks → ticks + 1 < 4294967296 →
  timer_sleep_ms true 42949673 ticks (1 :: wakes) = Awake (ticks + 1) wakes ∧
  timer_sleep_ms true 10000 (4294967295 - 999) wakes = Awake (4294967295 - 999) wakes.
Proof.
  intros H1 H2. split.
  - unfold timer_sleep_ms. assert (sleep_target ticks 42949673 = ticks + 1) as ->.
    { unfold sleep_target. replace (u32 (u32 (42949673 * TIMER_HZ) + 999) `div` 1000) with 1 by reflexivity.
      apply u32_small. unfold is_u32. lia. }
    cbn [sleep_loop]. rewrite decide_True by lia. rewrite u32_small by (unfold is_u32; lia).
    destruct wakes; cbn [sleep_loop]; by rewrite decide_False by lia.
  - unfold timer_sleep_ms. assert (sleep_target (4294967295 - 999) 10000 = 0) as -> by reflexivity.
    destruct wakes; reflexivity.
Qed.

Lemma timer_sleep_wraps_witness :
  timer_sleep_ms true 42949673 0 [1; 1; 1] = Awake 1 [1; 1].
Proof. apply (timer_sleep_wraps 0 [1; 1]); lia. Defined.
