(* ===== verification/Serial.v ===== *)
(** * The serial console ([src/kernel/serial.c], [serial.h])

    The driver over [PortIO], and a model of a 16550 that is busy for some reads of
    its line status register after each character. *)

From S2P Require Import Prelude CString Ports.

Definition COM1_DATA : Z := 1016.
Definition COM1_IER : Z := 1017.
Definition COM1_FCR : Z := 1018.
Definition COM1_LCR : Z := 1019.
Definition COM1_MCR : Z := 1020.
Definition COM1_LSR : Z := 1021.
Definition LSR_TX_EMPTY : Z := 32.
Definition BAUD_DIVISOR : Z := 1.

Section driver.
Context {D : Type} `{!PortIO D}.

Definition serial_init (d : D) : D :=
  let d := outb COM1_IER 0 d in
  let d := outb COM1_LCR 128 d in
  let d := outb COM1_DATA (u8 (Z.land BAUD_DIVISOR 255)) d in
  let d := outb COM1_IER (u8 (Z.shiftr BAUD_DIVISOR 8)) d in
  let d := outb COM1_LCR 3 d in
  let d := outb COM1_FCR 199 d in
  outb COM1_MCR 11 d.

Definition serial_tx_ready (d : D) : bool * D :=
  let '(v, d) := inb COM1_LSR d in (bool_decide (Z.land v LSR_TX_EMPTY ≠ 0), d).

(** [serial_putc]; [fuel] bounds the polls of the status register. *)
Fixpoint serial_putc (fuel : nat) (c : Z) (d : D) : option D :=
  match fuel with
  | O => None
  | S fuel =>
      let '(ready, d) := serial_tx_ready d in
      if ready : bool then Some (outb COM1_DATA (u8 c) d) else serial_putc fuel c d
  end.

Fixpoint serial_puts (fuel : nat) (s : list Z) (d : D) : option D :=
  match s with
  | [] => None
  | c :: s =>
      if decide (c = 0) then Some d
      else
        d ← (if decide (c = 10) then serial_putc fuel 13 d else Some d);
        d ← serial_putc fuel c d;
        serial_puts fuel s d
  end.
End driver.

(** ** A 16550 *)

(** Line control, divisor latch, interrupt enable, FIFO and modem control, polls
    until the transmitter is free, polls it takes for each further character, and the
    characters sent with the divisor and line format they were sent at. *)
Record uart := Uart {
  u_lcr : Z; u_divisor : Z; u_ier : Z; u_fcr : Z; u_mcr : Z; u_busy : nat; u_times : list nat;
  u_sent : list (Z * Z * Z)
}.

Definition dlab (d : uart) : bool := Z.testbit (u_lcr d) 7.

Definition uart_outb (port v : Z) (d : uart) : uart :=
  let 'Uart lcr dv ier fcr mcr busy times sent := d in
  if decide (port = 1016) then
    if dlab d then Uart lcr (dv `div` 256 * 256 + v) ier fcr mcr busy times sent
    else Uart lcr dv ier fcr mcr (hd O times) (tail times) (sent ++ [(dv, lcr, v)])
  else if decide (port = 1017) then
    if dlab d then Uart lcr (dv `mod` 256 + 256 * v) ier fcr mcr busy times sent
    else Uart lcr dv v fcr mcr busy times sent
  else if decide (port = 1018) then Uart lcr dv ier v mcr busy times sent
  else if decide (port = 1019) then Uart v dv ier fcr mcr busy times sent
  else if decide (port = 1020) then Uart lcr dv ier fcr v busy times sent
  else d.

Definition uart_inb (port : Z) (d : uart) : Z * uart :=
  if decide (port = 1021) then
    match u_busy d with
    | S n => (0, Uart (u_lcr d) (u_divisor d) (u_ier d) (u_fcr d) (u_mcr d) n (u_times d) (u_sent d))
    | O => (32, d)
    end
  else (0, d).

#[export] Instance uart_ports : PortIO uart :=
  { outb := uart_outb; inb := uart_inb; outw := λ _ _ d, d; inw := λ _ d, (0, d) }.

(** Set up as the kernel wants it: 115200 baud (divisor 1), 8N1, no interrupts. *)
Record uart_ready (d : uart) : Prop := UartReady {
  ur_lcr : u_lcr d = 3; ur_divisor : u_divisor d = 1; ur_ier : u_ier d = 0
}.

(** Busy times below [fuel]. *)
Definition prompt (fuel : nat) (d : uart) : Prop :=
  (u_busy d < fuel)%nat ∧ Forall (λ t, (t < fuel)%nat) (u_times d).

Lemma serial_init_ready d :
  dlab d = false → 0 ≤ u_divisor d < 65536 →
  uart_ready (serial_init d) ∧ u_sent (serial_init d) = u_sent d ∧
  u_busy (serial_init d) = u_busy d ∧ u_times (serial_init d) = u_times d.
Proof.
  intros Hl Hd. destruct d as [lcr dv ier fcr mcr busy times sent]. unfold dlab in Hl. cbn [u_lcr u_divisor] in Hl, Hd.
  assert (serial_init (Uart lcr dv ier fcr mcr busy times sent) =
    Uart 3 ((dv `div` 256 * 256 + 1) `mod` 256 + 0) 0 199 11 busy times sent) as ->.
  { unfold serial_init. cbn [outb uart_ports]. unfold uart_outb at 7, dlab. cbn [u_lcr]. rewrite Hl. reflexivity. }
  split; [|done]. constructor; simpl; [done|zdm|done].
Qed.

(** One character: the polls end, and it is sent with the settings of the line. *)
Lemma serial_putc_spec fuel c : ∀ d, (u_busy d < fuel)%nat → uart_ready d →
  ∃ d', serial_putc fuel c d = Some d' ∧ uart_ready d' ∧ u_busy d' = hd O (u_times d) ∧
    u_times d' = tail (u_times d) ∧ u_sent d' = u_sent d ++ [(1, 3, u8 c)].
Proof.
  induction fuel as [|fuel IH]; intros d Hb Hr; [lia|]. cbn [serial_putc]. unfold serial_tx_ready.
  cbn [inb uart_ports]. unfold uart_inb. rewrite decide_True by done.
  destruct d as [lcr dv ier fcr mcr busy times sent]. destruct Hr as [R1 R2 R3]. simpl in *. subst.
  destruct busy as [|n]; simpl.
  - eexists. split; [reflexivity|]. by repeat split.
  - apply (IH (Uart 3 1 0 fcr mcr n times sent)); simpl; [lia|by constructor].
Qed.

Lemma serial_putc_prompt fuel c d :
  prompt fuel d → uart_ready d →
  ∃ d', serial_putc fuel c d = Some d' ∧ uart_ready d' ∧ prompt fuel d' ∧ u_sent d' = u_sent d ++ [(1, 3, u8 c)].
Proof.
  intros [Hb Ht] Hr. destruct (serial_putc_spec fuel c d Hb Hr) as (d' & E & Hr' & E1 & E2 & E3).
  exists d'. split; [done|]. split; [done|]. split; [|done]. unfold prompt. rewrite E1, E2.
  destruct (u_times d) as [|t ts]; simpl; [split; [lia|done]|]. by apply Forall_cons_1 in Ht as [Ht Hts].
Qed.

(** The characters on the wire: a carriage return before each newline. *)
Definition crlf (t : list Z) : list Z := t ≫= λ c, if decide (c = 10) then [13; 10] else [u8 c].

Lemma serial_puts_spec fuel t : ∀ d, Forall (λ c, c ≠ 0) t → prompt fuel d → uart_ready d →
  ∀ rest, ∃ d', serial_puts fuel (t ++ 0 :: rest) d = Some d' ∧ uart_ready d' ∧ prompt fuel d' ∧
    u_sent d' = u_sent d ++ ((λ c, (1, 3, c)) <$> crlf t).
Proof.
  induction t as [|c t IH]; intros d Hz Hp Hr rest.
  - exists d. unfold crlf. simpl. by rewrite app_nil_r.
  - apply Forall_cons_1 in Hz as [Hc Hz]. cbn [app serial_puts]. rewrite decide_False by done.
    unfold crlf. cbn [mbind list_bind]. rewrite fmap_app. destruct (decide (c = 10)) as [->|Hn].
    + destruct (serial_putc_prompt fuel 13 d Hp Hr) as (d1 & -> & Hr1 & Hp1 & S1). cbn [mbind option_bind].
      destruct (serial_putc_prompt fuel 10 d1 Hp1 Hr1) as (d2 & -> & Hr2 & Hp2 & S2). cbn [mbind option_bind].
      destruct (IH d2 Hz Hp2 Hr2 rest) as (d' & E & Hr' & Hp' & S'). exists d'. split; [done|]. split; [done|].
      split; [done|]. rewrite S', S2, S1, <-!app_assoc. reflexivity.
    + cbn [mbind option_bind].
      destruct (serial_putc_prompt fuel c d Hp Hr) as (d2 & -> & Hr2 & Hp2 & S2). cbn [mbind option_bind].
      destruct (IH d2 Hz Hp2 Hr2 rest) as (d' & E & Hr' & Hp' & S'). exists d'. split; [done|]. split; [done|].
      split; [done|]. rewrite S', S2, <-!app_assoc. reflexivity.
Qed.

(** After [serial_init] on a UART out of reset, [serial_puts] sends exactly the
    characters of the string, with a carriage return before each newline, at 115200
    baud with 8 data bits and no parity, and returns, however long each character
    keeps the transmitter busy (up to the bound on the polls). *)
Theorem serial_puts_sends fuel s t d :
  is_cstr s t → dlab d = false → 0 ≤ u_divisor d < 65536 → prompt fuel d →
  ∃ d', serial_puts fuel s (serial_init d) = Some d' ∧ uart_ready d' ∧
    u_sent d' = u_sent d ++ ((λ c, (1, 3, c)) <$> crlf t).
Proof.
  intros (rest & -> & Ht) Hl Hd [Hb Hp]. destruct (serial_init_ready d Hl Hd) as (Hr & S & B & T).
  destruct (serial_puts_spec fuel t (serial_init d) Ht) with (rest := rest) as (d' & E & Hr' & _ & S');
    [split; by rewrite ?B, ?T|done|]. exists d'. by rewrite S', S.
Qed.

Lemma serial_puts_sends_witness :
  ∃ d', serial_puts 5 [86; 10; 0] (serial_init (Uart 0 0 0 0 0 2 [4%nat; 1%nat] [])) = Some d' ∧
    u_sent d' = [(1, 3, 86); (1, 3, 13); (1, 3, 10)].
Proof.
  destruct (serial_puts_sends 5 [86; 10; 0] [86; 10] (Uart 0 0 0 0 0 2 [4%nat; 1%nat] []))
    as (d' & E & _ & S); [exists []; split; [reflexivity|by repeat constructor]|reflexivity|simpl; lia
    |split; [simpl; lia|repeat constructor; lia]|].
  exists d'. split; [exact E|exact S].
Defined.
