(* ===== verification/Ata.v ===== *)
(** * The ATA PIO driver ([src/kernel/ata.c], [ata.h], [port_io.h])

    The driver is written against [PortIO].  [ide] is a device that behaves as the
    28-bit PIO protocol documents: it stays busy for a number of status reads,
    then raises DRQ for each sector of the transfer; commands that leave the disk
    set ERR, as do commands for the other drive or without the LBA bit.  The driver on this device is a [BlockDevice], the interface that the
    file system relies on. *)

From S2P Require Import Prelude Ports.

Definition ATA_SECTOR_SIZE : Z := 512.
Definition ATA_DATA : Z := 496.
Definition ATA_SECT_COUNT : Z := 498.
Definition ATA_LBA_LOW : Z := 499.
Definition ATA_LBA_MID : Z := 500.
Definition ATA_LBA_HIGH : Z := 501.
Definition ATA_DRIVE_HEAD : Z := 502.
Definition ATA_STATUS : Z := 503.
Definition ATA_COMMAND : Z := 503.
Definition ATA_ALT_STATUS : Z := 1014.
Definition ATA_SR_BSY : Z := 128.
Definition ATA_SR_DRQ : Z := 8.
Definition ATA_SR_ERR : Z := 1.
Definition ATA_CMD_READ : Z := 32.
Definition ATA_CMD_WRITE : Z := 48.
Definition ATA_CMD_IDENT : Z := 236.

(** The bound 0x100000 of the polling loops, sealed to keep it folded. *)
Definition poll_limit_def : nat := Z.to_nat 1048576.
Definition poll_limit_seal : seal poll_limit_def.
Proof. by eexists. Qed.
Definition POLL_LIMIT : nat := poll_limit_seal.(unseal).
Lemma poll_limit_eq : Z.of_nat POLL_LIMIT = 1048576.
Proof.
  unfold POLL_LIMIT. rewrite poll_limit_seal.(seal_eq). unfold poll_limit_def. by apply Z2Nat.id.
Qed.

(** ** The driver *)

Section driver.
Context {D : Type} `{!PortIO D}.

Definition ata_delay_400ns (d : D) : D :=
  let d := (inb ATA_ALT_STATUS d).2 in
  let d := (inb ATA_ALT_STATUS d).2 in
  let d := (inb ATA_ALT_STATUS d).2 in
  (inb ATA_ALT_STATUS d).2.

Fixpoint wait_not_busy (n : nat) (d : D) : Z * D :=
  match n with
  | O => (-1, d)
  | S n' =>
      let '(s, d) := inb ATA_STATUS d in
      if decide (Z.land s ATA_SR_BSY = 0) then (0, d) else wait_not_busy n' d
  end.
Definition ata_wait_not_busy : D → Z * D := wait_not_busy POLL_LIMIT.

Fixpoint wait_drq (n : nat) (d : D) : Z * D :=
  match n with
  | O => (-1, d)
  | S n' =>
      let '(s, d) := inb ATA_STATUS d in
      if decide (Z.land s ATA_SR_ERR ≠ 0) then (-1, d)
      else if decide (Z.land s ATA_SR_BSY = 0 ∧ Z.land s ATA_SR_DRQ ≠ 0) then (0, d)
      else wait_drq n' d
  end.
Definition ata_wait_drq : D → Z * D := wait_drq POLL_LIMIT.

(** [n] words read and dropped. *)
Fixpoint skip_words (n : nat) (d : D) : D :=
  match n with O => d | S n' => skip_words n' (inw ATA_DATA d).2 end.

Definition ata_init (d : D) : Z * D :=
  let d := ata_delay_400ns (outb ATA_DRIVE_HEAD 224 d) in
  let d := outb ATA_SECT_COUNT 0 d in
  let d := outb ATA_LBA_LOW 0 d in
  let d := outb ATA_LBA_MID 0 d in
  let d := outb ATA_LBA_HIGH 0 d in
  let d := outb ATA_COMMAND ATA_CMD_IDENT d in
  let '(status, d) := inb ATA_STATUS d in
  if decide (status = 0) then (0, d)
  else
    let '(r, d) := ata_wait_not_busy d in
    if decide (r ≠ 0) then (0, d)
    else
      let '(mid, d) := inb ATA_LBA_MID d in
      if decide (mid ≠ 0) then (0, d)
      else
        let '(hi, d) := inb ATA_LBA_HIGH d in
        if decide (hi ≠ 0) then (0, d)
        else
          let '(r, d) := ata_wait_drq d in
          if decide (r ≠ 0) then (0, d) else (1, skip_words 256 d).

(** The address and command part that reading and writing share. *)
Definition issue (lba count cmd : Z) (d : D) : D :=
  let d := outb ATA_DRIVE_HEAD (u8 (Z.lor 224 (Z.land (Z.shiftr lba 24) 15))) d in
  let d := outb ATA_SECT_COUNT count d in
  let d := outb ATA_LBA_LOW (u8 (Z.land lba 255)) d in
  let d := outb ATA_LBA_MID (u8 (Z.land (Z.shiftr lba 8) 255)) d in
  let d := outb ATA_LBA_HIGH (u8 (Z.land (Z.shiftr lba 16) 255)) d in
  outb ATA_COMMAND cmd d.

(** [*p++ = inw(ATA_DATA);] [n] times: the bytes, low byte first. *)
Fixpoint read_words (n : nat) (d : D) : list Z * D :=
  match n with
  | O => ([], d)
  | S n' =>
      let '(w, d) := inw ATA_DATA d in
      let '(l, d) := read_words n' d in
      (u8 w :: u8 (Z.shiftr w 8) :: l, d)
  end.

(** The sectors of a read; the result is the bytes read so far. *)
Fixpoint ata_read_loop (n : nat) (d : D) : Z * list Z * D :=
  match n with
  | O => (0, [], d)
  | S n' =>
      let '(r, d) := ata_wait_drq d in
      if decide (r ≠ 0) then (-1, [], d)
      else
        let '(l, d) := read_words 256 d in
        let d := ata_delay_400ns d in
        let '(r, ls, d) := ata_read_loop n' d in
        (r, l ++ ls, d)
  end.

(** [ata_read_sectors lba count buf]: the return value, the buffer afterwards,
    and the device; [None] when the sectors do not fit into the buffer. *)
Definition ata_read_sectors (lba count : Z) (buf : list Z) (d : D) : option (Z * list Z * D) :=
  if decide (count = 0) then Some (0, buf, d)
  else
    let '(r, d) := ata_wait_not_busy d in
    if decide (r ≠ 0) then Some (-1, buf, d)
    else
      let d := issue lba count ATA_CMD_READ d in
      let '(r, bytes, d) := ata_read_loop (Z.to_nat count) d in
      if decide (length bytes ≤ length buf)%nat
      then Some (r, bytes ++ drop (length bytes) buf, d) else None.

(** [outw(ATA_DATA, *p++);] [n] times from a byte buffer. *)
Fixpoint write_words (n : nat) (buf : list Z) (d : D) : option (list Z * D) :=
  match n with
  | O => Some (buf, d)
  | S n' =>
      match buf with
      | lo :: hi :: buf => write_words n' buf (outw ATA_DATA (lo + 256 * hi) d)
      | _ => None
      end
  end.

Fixpoint ata_write_loop (n : nat) (buf : list Z) (d : D) : option (Z * D) :=
  match n with
  | O => Some (0, d)
  | S n' =>
      let '(r, d) := ata_wait_drq d in
      if decide (r ≠ 0) then Some (-1, d)
      else '(buf, d) ← write_words 256 buf d; ata_write_loop n' buf (ata_delay_400ns d)
  end.

Definition ata_write_sectors (lba count : Z) (buf : list Z) (d : D) : option (Z * D) :=
  if decide (count = 0) then Some (0, d)
  else
    let '(r, d) := ata_wait_not_busy d in
    if decide (r ≠ 0) then Some (-1, d)
    else ata_write_loop (Z.to_nat count) buf (issue lba count ATA_CMD_WRITE d).
End driver.

(** ** A documented ATA disk *)

(** What the device is doing: idle, sending the bytes left of a sector with the
    sectors after it, or receiving [more] further sectors from [lba] on. *)
Inductive phase :=
| Idle
| Failed
| Sending (bytes : list Z) (rest : list (list Z))
| Receiving (acc : list Z) (lba more : Z).

(** The disk is the list of its sectors; [i_lat] is the number of busy status
    reads before each transfer, [i_wait] what is left of it. *)
Record ide := Ide {
  i_disk : list (list Z); i_lat : nat; i_wait : nat; i_phase : phase;
  i_count : Z; i_lo : Z; i_mid : Z; i_hi : Z; i_head : Z
}.

Definition ide_with (disk : list (list Z)) (wait : nat) (ph : phase) (d : ide) : ide :=
  Ide disk (i_lat d) wait ph (i_count d) (i_lo d) (i_mid d) (i_hi d) (i_head d).

Definition ide_lba (d : ide) : Z :=
  i_lo d + 256 * i_mid d + 65536 * i_hi d + 16777216 * (i_head d `mod` 16).

(** The answer to IDENTIFY DEVICE; the driver reads and drops it. *)
Definition ide_identity : list Z := replicate 512 0.

(** The drive register: bit 4 selects the second drive, which does not exist,
    and bit 6 LBA addressing. *)
Definition ide_selected (d : ide) : Prop := Z.testbit (i_head d) 4 = false.
Definition ide_lba_mode (d : ide) : Prop := Z.testbit (i_head d) 6 = true.

Definition ide_command (cmd : Z) (d : ide) : ide :=
  let lba := ide_lba d in
  if decide (¬ ide_selected d) then ide_with (i_disk d) 0 Failed d
  else if decide (cmd = ATA_CMD_IDENT) then ide_with (i_disk d) (i_lat d) (Sending ide_identity []) d
  else if decide (ide_lba_mode d ∧ lba + i_count d ≤ Z.of_nat (length (i_disk d))) then
    if decide (cmd = ATA_CMD_READ) then
      match take (Z.to_nat (i_count d)) (drop (Z.to_nat lba) (i_disk d)) with
      | s :: rest => ide_with (i_disk d) (i_lat d) (Sending s rest) d
      | [] => ide_with (i_disk d) 0 Failed d
      end
    else if decide (cmd = ATA_CMD_WRITE) then
      ide_with (i_disk d) (i_lat d) (Receiving [] lba (i_count d)) d
    else ide_with (i_disk d) 0 Failed d
  else ide_with (i_disk d) 0 Failed d.

Definition ide_outb (port v : Z) (d : ide) : ide :=
  let ph := i_phase d in let w := i_wait d in let k := i_disk d in let t := i_lat d in
  if decide (port = ATA_SECT_COUNT) then Ide k t w ph v (i_lo d) (i_mid d) (i_hi d) (i_head d)
  else if decide (port = ATA_LBA_LOW) then Ide k t w ph (i_count d) v (i_mid d) (i_hi d) (i_head d)
  else if decide (port = ATA_LBA_MID) then Ide k t w ph (i_count d) (i_lo d) v (i_hi d) (i_head d)
  else if decide (port = ATA_LBA_HIGH) then Ide k t w ph (i_count d) (i_lo d) (i_mid d) v (i_head d)
  else if decide (port = ATA_DRIVE_HEAD) then Ide k t w ph (i_count d) (i_lo d) (i_mid d) (i_hi d) v
  else if decide (port = ATA_COMMAND) then ide_command v d
  else d.

(** Reading the status counts down the busy time. *)
Definition ide_inb (port : Z) (d : ide) : Z * ide :=
  if decide (port = ATA_STATUS) then
    match i_wait d with
    | S w => (208, ide_with (i_disk d) w (i_phase d) d)
    | O => (match i_phase d with Idle => 64 | Failed => 65 | _ => 72 end, d)
    end
  else if decide (port = ATA_LBA_MID) then (i_mid d, d)
  else if decide (port = ATA_LBA_HIGH) then (i_hi d, d)
  else (0, d).

Definition ide_inw (port : Z) (d : ide) : Z * ide :=
  match i_phase d with
  | Sending (lo :: hi :: bytes) rest =>
      (lo + 256 * hi,
       match bytes, rest with
       | [], [] => ide_with (i_disk d) 0 Idle d
       | [], s :: rest => ide_with (i_disk d) (i_lat d) (Sending s rest) d
       | _, _ => ide_with (i_disk d) (i_wait d) (Sending bytes rest) d
       end)
  | _ => (0, d)
  end.

(** A sector is stored when its 512 bytes have arrived. *)
Definition ide_outw (port w : Z) (d : ide) : ide :=
  match i_phase d with
  | Receiving acc lba more =>
      let acc := acc ++ [w `mod` 256; w `div` 256] in
      if decide (length acc = 512%nat) then
        ide_with (<[Z.to_nat lba := acc]> (i_disk d)) (if decide (more = 1) then 0 else i_lat d)
          (if decide (more = 1) then Idle else Receiving [] (lba + 1) (more - 1)) d
      else ide_with (i_disk d) (i_wait d) (Receiving acc lba more) d
  | _ => d
  end.

#[export] Instance ide_ports : PortIO ide :=
  { outb := ide_outb; inb := ide_inb; outw := ide_outw; inw := ide_inw }.

(** ** Polling *)

Lemma wait_not_busy_ide n d :
  (i_wait d < n)%nat →
  wait_not_busy n d = (0, ide_with (i_disk d) 0 (i_phase d) d).
Proof.
  revert d. induction n as [|n IH]; intros d Hn; [lia|]. cbn [wait_not_busy inb ide_ports].
  unfold ide_inb. rewrite decide_True by done. destruct (i_wait d) as [|w] eqn:Hw.
  - rewrite decide_True by (by destruct (i_phase d)). destruct d; simpl in *; by subst.
  - rewrite decide_False by done. rewrite IH by (simpl; lia). done.
Qed.

(** A device that is ready to transfer. *)
Definition transferring (ph : phase) : Prop :=
  match ph with Sending _ _ | Receiving _ _ _ => True | _ => False end.

Lemma wait_drq_ide n d :
  (i_wait d < n)%nat → transferring (i_phase d) →
  wait_drq n d = (0, ide_with (i_disk d) 0 (i_phase d) d).
Proof.
  revert d. induction n as [|n IH]; intros d Hn Ht; [lia|]. cbn [wait_drq inb ide_ports].
  unfold ide_inb. rewrite decide_True by done. destruct (i_wait d) as [|w] eqn:Hw.
  - destruct (i_phase d) eqn:Hp; try done; (rewrite decide_False by (by vm_compute || (intros H; by destruct H)));
      rewrite decide_True by done; destruct d; simpl in *; by subst.
  - rewrite decide_False by (intros H; by destruct H).
    rewrite decide_False by (intros [H _]; done). rewrite IH by (simpl; done || lia). done.
Qed.

Lemma delay_ide d : ata_delay_400ns d = d.
Proof. done. Qed.

(** ** One sector *)

Definition sector_ok (s : list Z) : Prop := length s = 512%nat ∧ Forall is_u8 s.

Lemma word_bytes lo hi :
  is_u8 lo → is_u8 hi →
  u8 (lo + 256 * hi) = lo ∧ u8 (Z.shiftr (lo + 256 * hi) 8) = hi ∧
  (lo + 256 * hi) `mod` 256 = lo ∧ (lo + 256 * hi) `div` 256 = hi.
Proof.
  intros Hl Hh. rewrite Z.shiftr_div_pow2 by lia. change (2 ^ 8) with 256. unfold u8, is_u8 in *.
  repeat split; zdm.
Qed.

(** The state after the last word of a sector has been read. *)
Definition after_sector (rest : list (list Z)) (d : ide) : ide :=
  match rest with
  | [] => ide_with (i_disk d) 0 Idle d
  | s :: rest => ide_with (i_disk d) (i_lat d) (Sending s rest) d
  end.

Lemma read_words_ide n : ∀ d bytes rest,
  (0 < n)%nat → length bytes = (2 * n)%nat → Forall is_u8 bytes → i_phase d = Sending bytes rest →
  read_words n d = (bytes, after_sector rest d).
Proof.
  induction n as [|n IH]; intros d bytes rest Hn Hl Hf Hp; [lia|].
  destruct bytes as [|lo [|hi bytes]]; simpl in Hl; [lia|lia|].
  apply Forall_cons_1 in Hf as [Hlo Hf]. apply Forall_cons_1 in Hf as [Hhi Hf].
  destruct (word_bytes lo hi Hlo Hhi) as (E1 & E2 & _).
  cbn [read_words inw ide_ports]. unfold ide_inw. rewrite Hp. cbv beta iota zeta. rewrite E1, E2.
  destruct n as [|n].
  - assert (bytes = []) as -> by (apply nil_length_inv; lia). by destruct rest.
  - destruct bytes as [|b bytes]; [simpl in Hl; lia|].
    rewrite (IH _ (b :: bytes) rest) by (done || lia || (simpl in *; lia)). by destruct rest.
Qed.

(** ** Transfers *)

Lemma ata_read_loop_S {D} `{!PortIO D} n (d : D) :
  ata_read_loop (S n) d =
    (let '(r, d) := ata_wait_drq d in
     if decide (r ≠ 0) then (-1, [], d)
     else let '(l, d) := read_words 256 d in
          let '(r, ls, d) := ata_read_loop n (ata_delay_400ns d) in (r, l ++ ls, d)).
Proof. done. Qed.

Lemma ata_write_loop_S {D} `{!PortIO D} n buf (d : D) :
  ata_write_loop (S n) buf d =
    (let '(r, d) := ata_wait_drq d in
     if decide (r ≠ 0) then Some (-1, d)
     else '(buf, d) ← write_words 256 buf d; ata_write_loop n buf (ata_delay_400ns d)).
Proof. done. Qed.

Lemma read_loop_ide rest : ∀ s d,
  Forall sector_ok (s :: rest) → i_phase d = Sending s rest → (i_wait d < POLL_LIMIT)%nat →
  (i_lat d < POLL_LIMIT)%nat →
  ata_read_loop (S (length rest)) d = (0, concat (s :: rest), ide_with (i_disk d) 0 Idle d).
Proof.
  induction rest as [|s2 rest IH]; intros s d Hok Hp Hw Hlat;
    apply Forall_cons_1 in Hok as [[Hl Hf] Hok]; cbn [length]; rewrite ata_read_loop_S; unfold ata_wait_drq;
    rewrite (wait_drq_ide _ d Hw) by (by rewrite Hp); rewrite decide_False by (intros H; by apply H).
  - rewrite (read_words_ide 256 _ s []) by (done || lia || (simpl; done)). done.
  - rewrite (read_words_ide 256 _ s (s2 :: rest)) by (done || lia || (simpl; done)).
    rewrite delay_ide. cbn [after_sector]. rewrite (IH s2) by done. done.
Qed.

Lemma write_words_ide n : ∀ buf d acc lba more,
  (0 < n)%nat → (length acc + 2 * n = 512)%nat → (2 * n ≤ length buf)%nat → Forall is_u8 buf →
  i_phase d = Receiving acc lba more →
  write_words n buf d =
    Some (drop (2 * n) buf,
          ide_with (<[Z.to_nat lba := acc ++ take (2 * n) buf]> (i_disk d))
            (if decide (more = 1) then 0 else i_lat d)
            (if decide (more = 1) then Idle else Receiving [] (lba + 1) (more - 1)) d).
Proof.
  induction n as [|n IH]; intros buf d acc lba more Hn Hacc Hl Hf Hp; [lia|].
  destruct buf as [|lo [|hi buf]]; simpl in Hl; [lia|lia|].
  apply Forall_cons_1 in Hf as [Hlo Hf]. apply Forall_cons_1 in Hf as [Hhi Hf].
  destruct (word_bytes lo hi Hlo Hhi) as (_ & _ & E1 & E2).
  cbn [write_words outw ide_ports]. unfold ide_outw. rewrite Hp, E1, E2. cbv zeta.
  replace (2 * S n)%nat with (S (S (2 * n))) by lia. cbn [drop take].
  destruct n as [|n].
  - rewrite decide_True by (rewrite length_app; simpl; lia). done.
  - rewrite decide_False by (rewrite length_app; simpl; lia).
    rewrite (IH buf _ (acc ++ [lo; hi]) lba more);
      [|lia|rewrite length_app; simpl; lia|simpl in *; lia|done|done].
    by rewrite <-app_assoc.
Qed.

(** Cut a buffer into sectors. *)
Fixpoint chunks (n : nat) (buf : list Z) : list (list Z) :=
  match n with O => [] | S n' => take 512 buf :: chunks n' (drop 512 buf) end.

(** [list_inserts]-like update of consecutive sectors. *)
Fixpoint store_sectors (lba : Z) (ss : list (list Z)) (disk : list (list Z)) : list (list Z) :=
  match ss with [] => disk | s :: ss => store_sectors (lba + 1) ss (<[Z.to_nat lba := s]> disk) end.

Lemma write_loop_ide n : ∀ buf d lba,
  (512 * S n ≤ length buf)%nat → Forall is_u8 buf →
  i_phase d = Receiving [] lba (Z.of_nat (S n)) → (i_wait d < POLL_LIMIT)%nat → (i_lat d < POLL_LIMIT)%nat →
  ata_write_loop (S n) buf d =
    Some (0, ide_with (store_sectors lba (chunks (S n) buf) (i_disk d)) 0 Idle d).
Proof.
  induction n as [|n IH]; intros buf d lba Hl Hf Hp Hw Hlat; rewrite ata_write_loop_S; unfold ata_wait_drq;
    rewrite (wait_drq_ide _ d Hw) by (by rewrite Hp); rewrite decide_False by (intros H; by apply H).
  - rewrite (write_words_ide 256 buf _ [] lba 1) by (done || lia || (simpl; done || lia)).
    cbn [mbind option_bind]. rewrite delay_ide, decide_True by done. done.
  - rewrite (write_words_ide 256 buf _ [] lba (Z.of_nat (S (S n)))) by (done || lia || (simpl; done || lia)).
    cbn [mbind option_bind]. rewrite delay_ide, !decide_False by lia.
    rewrite (IH (drop (2 * 256) buf) _ (lba + 1)).
    + done.
    + rewrite length_drop. lia.
    + by apply Forall_drop.
    + simpl. f_equal. lia.
    + done.
    + done.
Qed.

(** The drive register that the driver sends: first drive, LBA. *)
Lemma drive_head_bits x :
  Z.testbit (u8 (Z.lor 224 (Z.land x 15))) 4 = false ∧ Z.testbit (u8 (Z.lor 224 (Z.land x 15))) 6 = true.
Proof.
  unfold u8. change 256 with (2 ^ 8). rewrite !Z.mod_pow2_bits_low by lia. rewrite !Z.lor_spec, !Z.land_spec.
  change (Z.testbit 15 4) with false. change (Z.testbit 15 6) with false. rewrite !andb_false_r. done.
Qed.

(** The registers after [issue] hold the address. *)
Lemma issue_ide lba count cmd d :
  0 ≤ lba < 268435456 →
  ∃ d', issue lba count cmd d = ide_command cmd d' ∧ ide_lba d' = lba ∧ i_count d' = count ∧
    i_disk d' = i_disk d ∧ i_lat d' = i_lat d ∧ i_wait d' = i_wait d ∧ i_phase d' = i_phase d ∧
    ide_selected d' ∧ ide_lba_mode d'.
Proof.
  intros Hlba. eexists. split; [reflexivity|]. split; [|do 5 (split; [reflexivity|]); apply drive_head_bits].
  unfold ide_lba. simpl.
  rewrite !Z.shiftr_div_pow2 by lia. change 255 with (Z.ones 8). change 15 with (Z.ones 4).
  rewrite !Z.land_ones by lia.
  change (2 ^ 8) with 256. change (2 ^ 16) with 65536. change (2 ^ 24) with 16777216. change (2 ^ 4) with 16.
  assert (Z.lor 224 ((lba `div` 16777216) `mod` 16) = 224 + (lba `div` 16777216) `mod` 16) as ->.
  { rewrite <-Z.lxor_lor, <-Z.add_nocarry_lxor; [done|..];
      (replace ((lba `div` 16777216) `mod` 16) with (Z.land ((lba `div` 16777216) `mod` 16) (Z.ones 4));
        [rewrite (Z.land_comm _ (Z.ones 4)), Z.land_assoc; done|
         rewrite Z.land_ones by lia; apply Z.mod_small; change (2 ^ 4) with 16; zdm]). }
  unfold u8. zdm.
Qed.

(** A transfer command for the disk in LBA mode. *)
Lemma ide_transfer cmd d :
  ide_selected d → ide_lba_mode d → cmd ≠ ATA_CMD_IDENT →
  ide_command cmd d =
    (let lba := ide_lba d in
     if decide (lba + i_count d ≤ Z.of_nat (length (i_disk d))) then
       if decide (cmd = ATA_CMD_READ) then
         match take (Z.to_nat (i_count d)) (drop (Z.to_nat lba) (i_disk d)) with
         | s :: rest => ide_with (i_disk d) (i_lat d) (Sending s rest) d
         | [] => ide_with (i_disk d) 0 Failed d
         end
       else if decide (cmd = ATA_CMD_WRITE) then
         ide_with (i_disk d) (i_lat d) (Receiving [] lba (i_count d)) d
       else ide_with (i_disk d) 0 Failed d
     else ide_with (i_disk d) 0 Failed d).
Proof.
  intros Hs Hm Hc. unfold ide_command. rewrite decide_False, decide_False by naive_solver. cbv zeta.
  destruct (decide (ide_lba d + i_count d ≤ _)); [by rewrite decide_True|by rewrite decide_False by naive_solver].
Qed.

(** ** The block-device interface *)

(** What the file system needs: reading and writing whole sectors of a disk that
    does not fail within its size, and refuses to write beyond it.  Sector contents are [bd_sectors]. *)
Class BlockDevice (D : Type) := {
  bd_read : Z → Z → list Z → D → option (Z * list Z * D);
  bd_write : Z → Z → list Z → D → option (Z * D);
  bd_inv : D → Prop;
  bd_sectors : D → list (list Z);
  bd_sector_ok d : bd_inv d → Forall sector_ok (bd_sectors d);
  bd_read_ok d lba count buf :
    bd_inv d → 0 ≤ lba → 1 ≤ count ≤ 255 → lba + count ≤ Z.of_nat (length (bd_sectors d)) →
    512 * count ≤ Z.of_nat (length buf) →
    ∃ d', bd_read lba count buf d =
        Some (0, concat (take (Z.to_nat count) (drop (Z.to_nat lba) (bd_sectors d)))
                 ++ drop (Z.to_nat (512 * count)) buf, d') ∧
      bd_inv d' ∧ bd_sectors d' = bd_sectors d;
  bd_write_ok d lba count buf :
    bd_inv d → 0 ≤ lba → 1 ≤ count ≤ 255 → lba + count ≤ Z.of_nat (length (bd_sectors d)) →
    512 * count ≤ Z.of_nat (length buf) → Forall is_u8 buf →
    ∃ d', bd_write lba count buf d = Some (0, d') ∧ bd_inv d' ∧
      bd_sectors d' = store_sectors lba (chunks (Z.to_nat count) buf) (bd_sectors d);
  bd_write_end d lba count buf :
    bd_inv d → 0 ≤ lba < 268435456 → 1 ≤ count ≤ 255 → Z.of_nat (length (bd_sectors d)) < lba + count →
    ∃ d', bd_write lba count buf d = Some (-1, d') ∧ bd_inv d' ∧ bd_sectors d' = bd_sectors d
}.

(** The device between commands. *)
Record ide_inv (d : ide) : Prop := IdeInv {
  ii_idle : i_phase d = Idle ∨ i_phase d = Failed;
  ii_wait : (i_wait d < POLL_LIMIT)%nat;
  ii_lat : (i_lat d < POLL_LIMIT)%nat;
  ii_disk : Forall sector_ok (i_disk d);
  ii_size : Z.of_nat (length (i_disk d)) ≤ 268435456
}.

Lemma chunks_ok n buf : (512 * n ≤ length buf)%nat → Forall is_u8 buf → Forall sector_ok (chunks n buf).
Proof.
  revert buf. induction n as [|n IH]; intros buf Hl Hf; [done|]. cbn [chunks]. constructor.
  - split; [rewrite length_take; lia|by apply Forall_take].
  - apply IH; [rewrite length_drop; lia|by apply Forall_drop].
Qed.

Lemma store_sectors_ok ss : ∀ lba disk,
  Forall sector_ok ss → Forall sector_ok disk →
  Forall sector_ok (store_sectors lba ss disk) ∧ length (store_sectors lba ss disk) = length disk.
Proof.
  induction ss as [|s ss IH]; intros lba disk Hs Hd; [done|]. apply Forall_cons_1 in Hs as [Hs1 Hs].
  cbn [store_sectors]. destruct (IH (lba + 1) (<[Z.to_nat lba := s]> disk) Hs) as [H1 H2];
    [by apply Forall_insert|]. split; [done|]. by rewrite H2, length_insert.
Qed.

Lemma length_store_sectors ss lba disk : length (store_sectors lba ss disk) = length disk.
Proof.
  revert lba disk. induction ss as [|s ss IH]; intros lba disk; [done|]. cbn [store_sectors].
  by rewrite IH, length_insert.
Qed.

Lemma sector_list_length ss : Forall sector_ok ss → length (concat ss) = (512 * length ss)%nat.
Proof.
  induction 1 as [|s ss [Hl _] _ IH]; [done|]. simpl. rewrite length_app, IH, Hl. lia.
Qed.

Lemma ata_read_ide d lba count buf :
  ide_inv d → 0 ≤ lba → 1 ≤ count ≤ 255 → lba + count ≤ Z.of_nat (length (i_disk d)) →
  512 * count ≤ Z.of_nat (length buf) →
  ∃ d', ata_read_sectors lba count buf d =
      Some (0, concat (take (Z.to_nat count) (drop (Z.to_nat lba) (i_disk d)))
               ++ drop (Z.to_nat (512 * count)) buf, d') ∧
    ide_inv d' ∧ i_disk d' = i_disk d.
Proof.
  intros [Hid Hw Hlat Hdk Hsz] Hlba Hc Hr Hb. unfold ata_read_sectors. rewrite decide_False by lia.
  unfold ata_wait_not_busy. rewrite (wait_not_busy_ide _ d Hw). rewrite decide_False by (intros H; by apply H).
  destruct (issue_ide lba count ATA_CMD_READ (ide_with (i_disk d) 0 (i_phase d) d)) as
    (d1 & -> & E1 & E2 & E3 & E4 & E5 & E6 & E7 & E8); [lia|].
  rewrite ide_transfer by done. rewrite E1, E2, E3.
  cbn [i_disk i_lat i_wait i_phase ide_with] in *. rewrite (decide_True (P := lba + count ≤ _)) by done.
  rewrite (decide_True (P := ATA_CMD_READ = _)) by done.
  set (ss := take (Z.to_nat count) (drop (Z.to_nat lba) (i_disk d))).
  assert (length ss = Z.to_nat count) as Hls by (unfold ss; rewrite length_take, length_drop; lia).
  assert (Forall sector_ok ss) as Hss by (unfold ss; by apply Forall_take, Forall_drop).
  destruct ss as [|s rest]; [simpl in Hls; lia|]. rewrite <-Hls. cbn [length].
  rewrite (read_loop_ide rest s); [|done|done|simpl; by rewrite E4|simpl; by rewrite E4].
  pose proof (sector_list_length _ Hss) as Hcl. rewrite Hls in Hcl.
  rewrite decide_True by (rewrite Hcl; lia). rewrite Hcl.
  replace (Z.to_nat (512 * count)) with (512 * Z.to_nat count)%nat by lia.
  eexists. split; [reflexivity|]. split; [|done].
  constructor; simpl; [by left|rewrite <-(Nat2Z.id POLL_LIMIT), poll_limit_eq; lia|by rewrite E4|done|done].
Qed.

Lemma ata_write_ide d lba count buf :
  ide_inv d → 0 ≤ lba → 1 ≤ count ≤ 255 → lba + count ≤ Z.of_nat (length (i_disk d)) →
  512 * count ≤ Z.of_nat (length buf) → Forall is_u8 buf →
  ∃ d', ata_write_sectors lba count buf d = Some (0, d') ∧ ide_inv d' ∧
    i_disk d' = store_sectors lba (chunks (Z.to_nat count) buf) (i_disk d).
Proof.
  intros [Hid Hw Hlat Hdk Hsz] Hlba Hc Hr Hb Hf. unfold ata_write_sectors. rewrite decide_False by lia.
  unfold ata_wait_not_busy. rewrite (wait_not_busy_ide _ d Hw). rewrite decide_False by (intros H; by apply H).
  destruct (issue_ide lba count ATA_CMD_WRITE (ide_with (i_disk d) 0 (i_phase d) d)) as
    (d1 & -> & E1 & E2 & E3 & E4 & E5 & E6 & E7 & E8); [lia|].
  rewrite ide_transfer by done. rewrite E1, E2, E3.
  cbn [i_disk i_lat i_wait i_phase ide_with] in *. rewrite (decide_True (P := lba + count ≤ _)) by done.
  rewrite (decide_False (P := ATA_CMD_WRITE = ATA_CMD_READ)) by done.
  rewrite (decide_True (P := ATA_CMD_WRITE = _)) by done.
  destruct (Z.to_nat count) as [|n] eqn:Hn; [lia|].
  rewrite (write_loop_ide n buf _ lba); [|lia|done|simpl; f_equal; lia|simpl; by rewrite E4|simpl; by rewrite E4].
  eexists. split; [done|]. simpl i_disk.
  destruct (store_sectors_ok (chunks (S n) buf) lba (i_disk d)) as [H1 H2];
    [apply chunks_ok; [lia|done]|done|].
  split; [|done]. constructor; simpl; [by left|rewrite <-(Nat2Z.id POLL_LIMIT), poll_limit_eq; lia|by rewrite E4|done|].
  change (Z.of_nat (length (store_sectors lba (chunks (S n) buf) (i_disk d))) ≤ 268435456). by rewrite H2.
Qed.

(** A device that has refused a command. *)
Lemma wait_drq_failed n d : (0 < n)%nat → i_wait d = O → i_phase d = Failed → wait_drq n d = (-1, d).
Proof.
  intros Hn Hw Hp. destruct n as [|n]; [lia|]. cbn [wait_drq inb ide_ports]. unfold ide_inb.
  rewrite decide_True, Hw, Hp by done. by rewrite decide_True by done.
Qed.

(** A transfer that leaves the disk fails with -1 and changes nothing on it. *)
Lemma ata_write_end d lba count buf :
  ide_inv d → 0 ≤ lba < 268435456 → 1 ≤ count ≤ 255 → Z.of_nat (length (i_disk d)) < lba + count →
  ∃ d', ata_write_sectors lba count buf d = Some (-1, d') ∧ ide_inv d' ∧ i_disk d' = i_disk d.
Proof.
  intros [Hid Hw Hlat Hdk Hsz] Hlba Hc Hr. unfold ata_write_sectors. rewrite decide_False by lia.
  unfold ata_wait_not_busy. rewrite (wait_not_busy_ide _ d Hw). rewrite decide_False by (intros H; by apply H).
  destruct (issue_ide lba count ATA_CMD_WRITE (ide_with (i_disk d) 0 (i_phase d) d) Hlba) as (d1 & -> & E1 & E2 & E3 & E4 & _ & _ & E7 & E8).
  rewrite ide_transfer by done. rewrite E1, E2, E3. cbn [i_disk i_lat ide_with] in *.
  rewrite (decide_False (P := lba + count ≤ _)) by lia. destruct (Z.to_nat count) as [|n] eqn:Hn; [lia|]. rewrite ata_write_loop_S.
  pose proof poll_limit_eq as HP. unfold ata_wait_drq. rewrite wait_drq_failed by (done || lia). rewrite decide_True by done.
  eexists. split; [reflexivity|]. split; [|done]. constructor; simpl; [by right|lia|by rewrite E4|done|done].
Qed.

(** Dropping a sector ends a transfer like reading it. *)
Lemma skip_words_ide n : ∀ d bytes,
  (0 < n)%nat → length bytes = (2 * n)%nat → i_phase d = Sending bytes [] →
  skip_words n d = ide_with (i_disk d) 0 Idle d.
Proof.
  induction n as [|n IH]; intros d bytes Hn Hl Hp; [lia|].
  destruct bytes as [|lo [|hi bytes]]; simpl in Hl; [lia|lia|].
  cbn [skip_words inw ide_ports]. unfold ide_inw. rewrite Hp. cbn [snd]. destruct n as [|n].
  - assert (bytes = []) as -> by (apply nil_length_inv; lia). done.
  - destruct bytes as [|b bytes]; [simpl in Hl; lia|].
    rewrite (IH _ (b :: bytes)) by (done || lia || (simpl in *; lia)). done.
Qed.

(** [ata_init] finds the disk and leaves it ready. *)
Lemma ata_init_ide d :
  ide_inv d → ∃ d', ata_init d = (1, d') ∧ ide_inv d' ∧ i_disk d' = i_disk d.
Proof.
  intros [Hid Hw Hlat Hdk Hsz]. unfold ata_init. rewrite delay_ide.
  set (d1 := outb ATA_COMMAND ATA_CMD_IDENT _).
  assert (d1 = Ide (i_disk d) (i_lat d) (i_lat d) (Sending ide_identity []) 0 0 0 0 224) as -> by reflexivity.
  cbn [inb ide_ports]. unfold ide_inb at 1. rewrite decide_True by done.
  cbn [i_wait i_disk i_phase].
  set (d2 := Ide (i_disk d) (i_lat d) (pred (i_lat d)) (Sending ide_identity []) 0 0 0 0 224).
  assert ((match i_lat d with
           | O => (72, Ide (i_disk d) (i_lat d) (i_lat d) (Sending ide_identity []) 0 0 0 0 224)
           | S w => (208, ide_with (i_disk d) w (Sending ide_identity [])
                            (Ide (i_disk d) (i_lat d) (i_lat d) (Sending ide_identity []) 0 0 0 0 224))
           end) = (if decide (i_lat d = O) then 72 else 208, d2)) as ->.
  { unfold d2. destruct (i_lat d); reflexivity. }
  rewrite decide_False by (destruct (decide _); done).
  unfold ata_wait_not_busy. rewrite wait_not_busy_ide by (simpl; lia). rewrite decide_False by (intros H; by apply H).
  cbn [inb ide_ports]. change (ide_inb ATA_LBA_MID ?d) with (0, d). cbv beta iota.
  rewrite decide_False by (intros H; by apply H). change (ide_inb ATA_LBA_HIGH ?d) with (0, d). cbv beta iota.
  rewrite decide_False by (intros H; by apply H). unfold ata_wait_drq.
  rewrite wait_drq_ide by (simpl; done || lia). rewrite decide_False by (intros H; by apply H).
  rewrite (skip_words_ide 256 _ ide_identity) by (done || lia). eexists. split; [reflexivity|].
  split; [|done]. constructor; simpl; [by left|lia|done|done|done].
Qed.

#[export] Instance ide_block_device : BlockDevice ide := {
  bd_read := ata_read_sectors; bd_write := ata_write_sectors;
  bd_inv := ide_inv; bd_sectors := i_disk;
  bd_sector_ok := ii_disk; bd_read_ok := ata_read_ide; bd_write_ok := ata_write_ide;
  bd_write_end := ata_write_end
}.

(** ** Sectors after a write *)

Lemma store_sectors_lookup ss : ∀ lba disk j,
  0 ≤ lba → lba + Z.of_nat (length ss) ≤ Z.of_nat (length disk) →
  store_sectors lba ss disk !! j =
    if decide (lba ≤ Z.of_nat j < lba + Z.of_nat (length ss)) then ss !! (j - Z.to_nat lba)%nat else disk !! j.
Proof.
  induction ss as [|s ss IH]; intros lba disk j Hl Hr; cbn [store_sectors length] in *.
  { by rewrite decide_False by lia. }
  rewrite IH by (rewrite ?length_insert; lia). destruct (decide (Z.of_nat j = lba)) as [E|E].
  - rewrite decide_False, decide_True by lia. replace (Z.to_nat lba) with j by lia.
    rewrite Nat.sub_diag. rewrite list_lookup_insert_eq by lia. done.
  - destruct (decide (lba + 1 ≤ Z.of_nat j < lba + 1 + Z.of_nat (length ss))).
    + rewrite decide_True by lia. replace (j - Z.to_nat lba)%nat with (S (j - Z.to_nat (lba + 1))) by lia. done.
    + rewrite decide_False by lia. apply list_lookup_insert_ne. lia.
Qed.

Lemma chunks_length n buf : length (chunks n buf) = n.
Proof. revert buf. induction n as [|n IH]; intros buf; simpl; [done|]. by rewrite IH. Qed.

Lemma chunks_concat n buf : (512 * n ≤ length buf)%nat → concat (chunks n buf) = take (512 * n) buf.
Proof.
  revert buf. induction n as [|n IH]; intros buf Hl; [done|]. cbn [chunks concat].
  rewrite IH by (rewrite length_drop; lia). replace (512 * S n)%nat with (512 + 512 * n)%nat by lia.
  apply (take_take_drop buf 512 (512 * n)).
Qed.

Lemma read_back lba ss disk :
  0 ≤ lba → lba + Z.of_nat (length ss) ≤ Z.of_nat (length disk) →
  take (length ss) (drop (Z.to_nat lba) (store_sectors lba ss disk)) = ss.
Proof.
  intros Hl Hr. apply list_eq. intros j. destruct (decide (j < length ss)%nat) as [Hj|Hj].
  - rewrite lookup_take_lt, lookup_drop, store_sectors_lookup, decide_True by lia. f_equal. lia.
  - rewrite lookup_take_ge by lia. symmetry. apply lookup_ge_None_2. lia.
Qed.

(** C29: on a documented ATA disk the driver stores and retrieves data: after
    [ata_write_sectors] of up to 255 sectors inside the disk, [ata_read_sectors]
    of the same sectors returns exactly the bytes written, whatever the busy time
    of the device below the polling limit; both return 0, and all other sectors
    are unchanged. *)
Theorem ata_write_read_roundtrip (d : ide) lba count data buf :
  ide_inv d → 0 ≤ lba → 1 ≤ count ≤ 255 → lba + count ≤ Z.of_nat (length (i_disk d)) →
  Z.of_nat (length data) = 512 * count → Forall is_u8 data → Z.of_nat (length buf) = 512 * count →
  ∃ d1 d2, ata_write_sectors lba count data d = Some (0, d1) ∧
    ata_read_sectors lba count buf d1 = Some (0, data, d2) ∧ ide_inv d2 ∧
    length (i_disk d2) = length (i_disk d) ∧
    ∀ j, (Z.of_nat j < lba ∨ lba + count ≤ Z.of_nat j) → i_disk d2 !! j = i_disk d !! j.
Proof.
  intros Hi Hl Hc Hr Hd Hf Hb.
  destruct (ata_write_ide d lba count data Hi Hl Hc Hr ltac:(lia) Hf) as (d1 & E1 & Hi1 & Hs1).
  assert (length (i_disk d1) = length (i_disk d)) as Hlen.
  { rewrite Hs1. apply store_sectors_ok; [apply chunks_ok; [lia|done]|apply Hi]. }
  destruct (ata_read_ide d1 lba count buf Hi1 Hl Hc) as (d2 & E2 & Hi2 & Hs2); [by rewrite Hlen|lia|].
  exists d1, d2. split; [done|]. split; [|split; [done|split; [congruence|]]].
  - rewrite E2, Hs1. do 3 f_equal. rewrite (drop_ge buf), app_nil_r by lia.
    pose proof (read_back lba (chunks (Z.to_nat count) data) (i_disk d)) as Hrb.
    rewrite chunks_length in Hrb. rewrite Hrb by lia. rewrite chunks_concat by lia. apply take_ge. lia.
  - intros j Hj. rewrite Hs2, Hs1, store_sectors_lookup by (rewrite ?chunks_length; lia).
    rewrite decide_False; [done|]. rewrite chunks_length. lia.
Qed.

(** A disk of 200 empty sectors that is busy for three polls. *)
Definition demo_ide : ide := Ide (replicate 200 (replicate 512 0)) 3 0 Idle 0 0 0 0 0.

Lemma demo_ide_inv : ide_inv demo_ide.
Proof.
  pose proof poll_limit_eq. constructor; simpl; [by left|lia|lia| |lia].
  apply (Forall_replicate sector_ok 200 (replicate 512 0)). split; [done|]. apply Forall_replicate.
  unfold is_u8. lia.
Qed.

Lemma ata_write_read_roundtrip_witness :
  ∃ d1 d2, ata_write_sectors 129 1 (replicate 512 7) demo_ide = Some (0, d1) ∧
    ata_read_sectors 129 1 (replicate 512 0) d1 = Some (0, replicate 512 7, d2).
Proof.
  destruct (ata_write_read_roundtrip demo_ide 129 1 (replicate 512 7) (replicate 512 0) demo_ide_inv)
    as (d1 & d2 & E1 & E2 & _);
    [lia|lia|simpl; lia|reflexivity|apply Forall_replicate; unfold is_u8; lia|reflexivity|].
  exists d1, d2. split; [exact E1|exact E2].
Defined.
