(* ===== verification/Fs.v ===== *)
(** * VesperFS ([src/kernel/fs.c], [fs.h])

    A flat file system over a [BlockDevice]: superblock at sector 129, a directory
    of 64 entries of 64 bytes in sectors 130 to 137, file data behind it.  The
    static buffers [dir_buf] and [sector_buf] are part of the state.  Entries are
    read and written at their byte offsets, as the packed structs lay them out.

    An uninitialised local buffer is a buffer of zeros; the code never reads it
    before it is filled. *)

From S2P Require Import Prelude CString Ata.

Definition FS_START_LBA : Z := 129.
Definition FS_DIR_SECTORS : Z := 8.
Definition FS_MAX_FILES : Z := 64.
Definition FS_NAME_MAX : Z := 31.
Definition FS_SUPER_LBA : Z := 129.
Definition FS_DIR_LBA : Z := 130.
Definition FS_DATA_LBA : Z := 138.
Definition FS_MAGIC : list Z := [86; 69; 83; 80; 69; 82; 70; 83].
Definition FS_VERSION : Z := 1.

Record fs (D : Type) := Fs { f_dev : D; f_dir : list Z; f_sec : list Z }.
Arguments Fs {D} _ _ _.
Arguments f_dev {D} _.
Arguments f_dir {D} _.
Arguments f_sec {D} _.

Record fs_file := FsFile { ff_start_lba : Z; ff_size : Z; ff_pos : Z; ff_valid : Z }.

(** ** Fields of packed structs *)

(** A little-endian [uint32_t] at an offset. *)
Definition get32 (l : list Z) (off : Z) : option Z :=
  b0 ← aget l off; b1 ← aget l (off + 1); b2 ← aget l (off + 2); b3 ← aget l (off + 3);
  Some (b0 + 256 * b1 + 65536 * b2 + 16777216 * b3).
Definition put32 (l : list Z) (off v : Z) : option (list Z) :=
  l ← aset l off (u8 v);
  l ← aset l (off + 1) (u8 (v `div` 256));
  l ← aset l (off + 2) (u8 (v `div` 65536));
  aset l (off + 3) (u8 (v `div` 16777216)).

(** Run a buffer routine at a pointer [off] bytes into an array. *)
Definition at_off (off : Z) (f : list Z → option (list Z)) (l : list Z) : option (list Z) :=
  r ← f (drop (Z.to_nat off) l); Some (take (Z.to_nat off) l ++ r).

(** [dir_entry(i)] and its fields. *)
Definition dirent (i : Z) : Z := i * 64.
Definition de_name (dir : list Z) (i : Z) : list Z := drop (Z.to_nat (dirent i)) dir.
Definition de_start (dir : list Z) (i : Z) : option Z := get32 dir (dirent i + 32).
Definition de_size (dir : list Z) (i : Z) : option Z := get32 dir (dirent i + 36).
Definition de_flags (dir : list Z) (i : Z) : option Z := get32 dir (dirent i + 40).

(** [!(e->name[0] == 0 || e->flags == 1)] *)
Definition de_active (dir : list Z) (i : Z) : option bool :=
  c ← head (de_name dir i);
  if decide (c = 0) then Some false
  else fl ← de_flags dir i; Some (bool_decide (fl ≠ 1)).

Section fs.
Context {D : Type} `{!BlockDevice D}.

Definition with_dev (d : D) (s : fs D) : fs D := Fs d (f_dir s) (f_sec s).

Definition read_super (s : fs D) : option (Z * list Z * fs D) :=
  '(r, sb, d) ← bd_read FS_SUPER_LBA 1 (replicate 512 0) (f_dev s);
  Some (if decide (r ≠ 0) then -1 else 0, sb, with_dev d s).
Definition write_super (sb : list Z) (s : fs D) : option (Z * fs D) :=
  '(r, d) ← bd_write FS_SUPER_LBA 1 sb (f_dev s); Some (r, with_dev d s).
Definition read_dir (s : fs D) : option (Z * fs D) :=
  '(r, dir, d) ← bd_read FS_DIR_LBA FS_DIR_SECTORS (f_dir s) (f_dev s); Some (r, Fs d dir (f_sec s)).
Definition write_dir (s : fs D) : option (Z * fs D) :=
  '(r, d) ← bd_write FS_DIR_LBA FS_DIR_SECTORS (f_dir s) (f_dev s); Some (r, with_dev d s).

Definition fs_format (s : fs D) : option (Z * fs D) :=
  sb ← memset (replicate 512 0) 0 512;
  sb ← memcpy sb FS_MAGIC 8;
  sb ← put32 sb 8 FS_VERSION;
  sb ← put32 sb 12 0;
  '(r, s) ← write_super sb s;
  if decide (r ≠ 0) then Some (-1, s)
  else
    dir ← memset (f_dir s) 0 4096;
    write_dir (Fs (f_dev s) dir (f_sec s)).

Definition fs_init (s : fs D) : option (Z * fs D) :=
  '(r, sb, s) ← read_super s;
  if decide (r ≠ 0) then Some (0, s)
  else
    c ← memcmp sb FS_MAGIC 8;
    v ← get32 sb 8;
    Some (Z.b2z (bool_decide (c = 0 ∧ v = FS_VERSION)), s).

(** The search loop of [fs_open] and [fs_delete]: the first active entry with
    the given name among [i .. i+n-1]. *)
Fixpoint find_file (dir name : list Z) (i : Z) (n : nat) : option (option Z) :=
  match n with
  | O => Some None
  | S n' =>
      act ← de_active dir i;
      if act : bool then
        c ← strcmp (de_name dir i) name;
        if decide (c = 0) then Some (Some i) else find_file dir name (i + 1) n'
      else find_file dir name (i + 1) n'
  end.

(** [fs_open(f, name)]: the handle is written on success only. *)
Definition fs_open (name : list Z) (f : fs_file) (s : fs D) : option (Z * fs_file * fs D) :=
  '(r, s) ← read_dir s;
  if decide (r ≠ 0) then Some (-1, f, s)
  else
    o ← find_file (f_dir s) name 0 (Z.to_nat FS_MAX_FILES);
    match o with
    | None => Some (-1, f, s)
    | Some i =>
        lba ← de_start (f_dir s) i; size ← de_size (f_dir s) i;
        Some (0, FsFile lba size 0 1, s)
    end.

(** The loop of [fs_read]: the bytes delivered and the rest.  Each iteration
    delivers at least one byte. *)
Fixpoint fs_read_loop (fuel : nat) (f : fs_file) (remaining : Z) (s : fs D) :
    option (list Z * Z * fs_file * fs D) :=
  match fuel with
  | O => None
  | S fuel =>
      if decide (0 < remaining) then
        let file_sector := ff_pos f `div` ATA_SECTOR_SIZE in
        let sector_offset := ff_pos f `mod` ATA_SECTOR_SIZE in
        let disk_lba := u32 (ff_start_lba f + file_sector) in
        '(r, sec, d) ← bd_read disk_lba 1 (f_sec s) (f_dev s);
        let s := Fs d (f_dir s) sec in
        if decide (r ≠ 0) then Some ([], remaining, f, s)
        else
          let chunk := ATA_SECTOR_SIZE - sector_offset in
          let chunk := if decide (remaining < chunk) then remaining else chunk in
          let out := take (Z.to_nat chunk) (drop (Z.to_nat sector_offset) sec) in
          let f := FsFile (ff_start_lba f) (ff_size f) (u32 (ff_pos f + chunk)) (ff_valid f) in
          '(l, rem, f, s) ← fs_read_loop fuel f (remaining - chunk) s;
          Some (out ++ l, rem, f, s)
      else Some ([], remaining, f, s)
  end.

(** [fs_read(f, buf, len)]: bytes read, the buffer afterwards, handle and
    state. *)
Definition fs_read (f : fs_file) (buf : list Z) (len : Z) (s : fs D) :
    option (Z * list Z * fs_file * fs D) :=
  if decide (ff_valid f = 0 ∨ ff_size f ≤ ff_pos f) then Some (0, buf, f, s)
  else
    let len := if decide (ff_size f - ff_pos f < len) then ff_size f - ff_pos f else len in
    '(out, remaining, f, s) ← fs_read_loop (Z.to_nat (len `div` 512 + 3)) f len s;
    if decide (length out ≤ length buf)%nat
    then Some (len - remaining, out ++ drop (length out) buf, f, s) else None.

Definition fs_close (f : fs_file) : fs_file := FsFile (ff_start_lba f) (ff_size f) (ff_pos f) 0.

(** The scan of [fs_write_new]: target slot, overwrite flag, next data sector. *)
Definition scan_entry (name : list Z) (dir : list Z) (i : Z) (a : Z * Z * Z) : option (Z * Z * Z) :=
  let '(target, over, next) := a in
  act ← de_active dir i;
  if act : bool then
    c ← strcmp (de_name dir i) name;
    let '(target, over) := if decide (c = 0) then (i, 1) else (target, over) in
    lba ← de_start dir i; size ← de_size dir i;
    let e := u32 (lba + u32 (size + 511) `div` ATA_SECTOR_SIZE) in
    Some (target, over, if decide (next < e) then e else next)
  else Some (if decide (target < 0) then i else target, over, next).

(** The data loop of [fs_write_new], sector [k] of [n]. *)
Fixpoint write_data (k : Z) (n : nat) (lba : Z) (src : list Z) (len written : Z) (s : fs D) :
    option (Z * fs D) :=
  match n with
  | O => Some (0, s)
  | S n' =>
      sec ← memset (f_sec s) 0 512;
      let chunk := if decide (ATA_SECTOR_SIZE < len - written) then ATA_SECTOR_SIZE else len - written in
      sec ← memcpy sec (drop (Z.to_nat written) src) (Z.to_nat chunk);
      '(r, d) ← bd_write (u32 (lba + k)) 1 sec (f_dev s);
      let s := Fs d (f_dir s) sec in
      if decide (r ≠ 0) then Some (-1, s)
      else write_data (k + 1) n' lba src len (written + chunk) s
  end.

(** The directory entry written for a file. *)
Definition put_dirent (dir : list Z) (i : Z) (name : list Z) (lba size : Z) : option (list Z) :=
  dir ← at_off (dirent i) (λ e, memset e 0 64) dir;
  dir ← at_off (dirent i) (λ e, strncpy e name 31) dir;
  dir ← aset dir (dirent i + FS_NAME_MAX) 0;
  dir ← put32 dir (dirent i + 32) lba;
  dir ← put32 dir (dirent i + 36) size;
  put32 dir (dirent i + 40) 0.

(** The part of [fs_write_new] after the scan: data, directory, superblock. *)
Definition write_entry (name data : list Z) (len : Z) (sb : list Z) (target over next : Z) (s : fs D) : option (Z * fs D) :=
  if decide (target < 0) then Some (-1, s)
  else
    let sectors_needed := u32 (len + 511) `div` ATA_SECTOR_SIZE in
    '(r, s) ← write_data 0 (Z.to_nat sectors_needed) next data len 0 s;
    if decide (r ≠ 0) then Some (-1, s)
    else
      dir ← put_dirent (f_dir s) target name next len;
      '(r, s) ← write_dir (Fs (f_dev s) dir (f_sec s));
      if decide (r ≠ 0) then Some (-1, s)
      else
        nf ← get32 sb 12;
        sb ← (if decide (over = 0) then put32 sb 12 (u32 (nf + 1)) else Some sb);
        write_super sb s.

Definition fs_write_new (name data : list Z) (len : Z) (s : fs D) : option (Z * fs D) :=
  c0 ← head name;
  if decide (c0 = 0) then Some (-1, s)
  else
    '(r, sb, s) ← read_super s;
    if decide (r ≠ 0) then Some (-1, s)
    else
      '(r, s) ← read_dir s;
      if decide (r ≠ 0) then Some (-1, s)
      else
        c ← memcmp sb FS_MAGIC 8;
        if decide (c ≠ 0) then Some (-1, s)
        else
          '(target, over, next) ←
            for_u32_opt 0 FS_MAX_FILES (scan_entry name (f_dir s)) (-1, 0, FS_DATA_LBA);
          write_entry name data len sb target over next s.

Definition fs_delete (name : list Z) (s : fs D) : option (Z * fs D) :=
  c0 ← head name;
  if decide (c0 = 0) then Some (-1, s)
  else
    '(r, s) ← read_dir s;
    if decide (r ≠ 0) then Some (-1, s)
    else
      o ← find_file (f_dir s) name 0 (Z.to_nat FS_MAX_FILES);
      match o with
      | None => Some (-1, s)
      | Some i =>
          dir ← put32 (f_dir s) (dirent i + 40) 1;
          '(r, s) ← write_dir (Fs (f_dev s) dir (f_sec s));
          if decide (r ≠ 0) then Some (-1, s)
          else
            '(r, sb, s) ← read_super s;
            nf ← get32 sb 12;
            if decide (r = 0 ∧ 0 < nf) then
              sb ← put32 sb 12 (nf - 1);
              '(_, s) ← write_super sb s;
              Some (0, s)
            else Some (0, s)
      end.
End fs.

(** ** Bytes at offsets *)

(** The little-endian bytes of a 32-bit value. *)
Definition le32 (v : Z) : list Z :=
  [u8 v; u8 (v `div` 256); u8 (v `div` 65536); u8 (v `div` 16777216)].

Lemma le32_bytes v : Forall is_u8 (le32 v).
Proof. repeat constructor; apply u8_range. Qed.

Lemma aget_app {A} (a b : list A) n k :
  Z.of_nat (length a) = n → 0 ≤ k → aget (a ++ b) (n + k) = aget b k.
Proof.
  intros Hn Hk. unfold aget. rewrite !decide_True by lia. rewrite lookup_app_r by lia. f_equal. lia.
Qed.

Lemma aset_app {A} (a b : list A) n k x :
  Z.of_nat (length a) = n → 0 ≤ k → aset (a ++ b) (n + k) x = app a <$> aset b k x.
Proof.
  intros Hn Hk. unfold aset. rewrite length_app.
  destruct (decide (0 ≤ k < Z.of_nat (length b))) as [H|H].
  - rewrite decide_True by lia. simpl. f_equal. rewrite insert_app_r_alt by lia. do 2 f_equal. lia.
  - by rewrite decide_False by lia.
Qed.

Lemma get32_app a b n k :
  Z.of_nat (length a) = n → 0 ≤ k → get32 (a ++ b) (n + k) = get32 b k.
Proof.
  intros Hn Hk. unfold get32. rewrite <-!(Z.add_assoc n k). by rewrite !(aget_app a b n) by lia.
Qed.

Lemma put32_app a b n k v :
  Z.of_nat (length a) = n → 0 ≤ k → put32 (a ++ b) (n + k) v = app a <$> put32 b k v.
Proof.
  intros Hn Hk. unfold put32. rewrite <-!(Z.add_assoc n k). rewrite (aset_app a b n) by lia.
  destruct (aset b k (u8 v)) as [b1|]; [|done]. cbn [fmap option_fmap option_map mbind option_bind].
  rewrite (aset_app a b1 n) by lia.
  destruct (aset b1 (k + 1) _) as [b2|]; [|done]. cbn [fmap option_fmap option_map mbind option_bind].
  rewrite (aset_app a b2 n) by lia.
  destruct (aset b2 (k + 2) _) as [b3|]; [|done]. cbn [fmap option_fmap option_map mbind option_bind].
  by rewrite (aset_app a b3 n) by lia.
Qed.

Lemma aget_take {A} (l : list A) n k : k < Z.of_nat n → aget (take n l) k = aget l k.
Proof. intros Hk. unfold aget. case_decide; [|done]. apply lookup_take_lt. lia. Qed.

Lemma get32_take l n k : k + 4 ≤ Z.of_nat n → get32 (take n l) k = get32 l k.
Proof. intros Hk. unfold get32. by rewrite !aget_take by lia. Qed.

Lemma get32_le32 v l : is_u32 v → get32 (le32 v ++ l) 0 = Some v.
Proof.
  intros Hv. change (Some (u8 v + 256 * u8 (v `div` 256) + 65536 * u8 (v `div` 65536)
    + 16777216 * u8 (v `div` 16777216)) = Some v). f_equal. word_lia.
Qed.

Lemma put32_head e v l : length e = 4%nat → put32 (e ++ l) 0 v = Some (le32 v ++ l).
Proof.
  intros He. destruct e as [|? [|? [|? [|? [|]]]]]; simpl in He; try lia. unfold put32.
  cbn [app]. rewrite aset_Some by (cbn [length]; lia). cbn [mbind option_bind].
  rewrite aset_Some by (rewrite length_insert; cbn [length]; lia). cbn [mbind option_bind].
  rewrite aset_Some by (rewrite !length_insert; cbn [length]; lia). cbn [mbind option_bind].
  rewrite aset_Some by (rewrite !length_insert; cbn [length]; lia). done.
Qed.

Lemma get32_Some l k :
  0 ≤ k → k + 4 ≤ Z.of_nat (length l) → ∃ v, get32 l k = Some v.
Proof.
  intros Hk Hl. unfold get32.
  destruct (aget_is_Some l k) as [? ->]; [lia|]. destruct (aget_is_Some l (k + 1)) as [? ->]; [lia|].
  destruct (aget_is_Some l (k + 2)) as [? ->]; [lia|]. destruct (aget_is_Some l (k + 3)) as [? ->]; [lia|].
  by eexists.
Qed.

Lemma get32_range l k v : Forall is_u8 l → get32 l k = Some v → is_u32 v.
Proof.
  intros Hf. assert (∀ i x, aget l i = Some x → is_u8 x) as Hb.
  { intros i x. unfold aget. case_decide; [|done]. apply Forall_lookup_1. done. }
  unfold get32.
  destruct (aget l k) as [b0|] eqn:E0; [|done]. destruct (aget l (k + 1)) as [b1|] eqn:E1; [|done].
  destruct (aget l (k + 2)) as [b2|] eqn:E2; [|done]. destruct (aget l (k + 3)) as [b3|] eqn:E3; [|done].
  intros [= <-]. apply Hb in E0, E1, E2, E3. unfold is_u8, is_u32 in *. lia.
Qed.

(** ** Directory slots *)

(** What an active entry says: name, first sector, size. *)
Record finfo := FInfo { fi_name : list Z; fi_lba : Z; fi_size : Z }.

(** Slot [i] of a directory; [None] when it is free or deleted. *)
Definition slot (dir : list Z) (i : nat) : option finfo :=
  match de_active dir (Z.of_nat i), de_start dir (Z.of_nat i), de_size dir (Z.of_nat i) with
  | Some true, Some l, Some z => Some (FInfo (cstr (take 32 (de_name dir (Z.of_nat i)))) l z)
  | _, _, _ => None
  end.

(** The 64 bytes of entry [i]. *)
Definition entry (dir : list Z) (i : nat) : list Z := take 64 (drop (64 * i) dir).

Lemma entry_split dir i :
  (64 * i + 64 ≤ length dir)%nat →
  dir = take (64 * i) dir ++ entry dir i ++ drop (64 * i + 64) dir.
Proof.
  intros Hl. unfold entry. rewrite <-drop_drop, take_drop, take_drop. done.
Qed.

Lemma de_name_nat dir i : de_name dir (Z.of_nat i) = drop (64 * i) dir.
Proof. unfold de_name, dirent. f_equal. lia. Qed.

Lemma get32_entry dir i k :
  (64 * i + 64 ≤ length dir)%nat → 0 ≤ k → k + 4 ≤ 64 →
  get32 dir (dirent (Z.of_nat i) + k) = get32 (entry dir i) k.
Proof.
  intros Hl Hk Hk2. unfold entry. rewrite get32_take by lia. unfold dirent.
  rewrite <-(take_drop (64 * i) dir) at 1.
  apply get32_app; [rewrite length_take; lia|lia].
Qed.

(** A slot is decided by the bytes of its entry. *)
Lemma slot_entry dir i :
  (64 * i + 64 ≤ length dir)%nat → slot dir i = slot (entry dir i) 0.
Proof.
  intros Hl. assert (length (entry dir i) = 64%nat) as He.
  { unfold entry. rewrite length_take, length_drop. lia. }
  unfold slot, de_active, de_start, de_size, de_flags. rewrite !(get32_entry dir i) by lia.
  change (Z.of_nat 0) with 0. change (dirent 0 + 32) with 32. change (dirent 0 + 36) with 36.
  change (dirent 0 + 40) with 40. rewrite de_name_nat.
  assert (take 32 (drop (64 * i) dir) = take 32 (de_name (entry dir i) 0)) as ->.
  { unfold de_name. change (Z.to_nat (dirent 0)) with O. rewrite drop_0. unfold entry. rewrite take_take. reflexivity. }
  assert (head (drop (64 * i) dir) = head (de_name (entry dir i) 0)) as ->; [|reflexivity].
  unfold de_name. change (Z.to_nat (dirent 0)) with O. rewrite drop_0. unfold entry.
  by destruct (drop (64 * i) dir).
Qed.

Lemma slot_ext dir dir' i :
  (64 * i + 64 ≤ length dir)%nat → (64 * i + 64 ≤ length dir')%nat → entry dir i = entry dir' i →
  slot dir i = slot dir' i.
Proof. intros H1 H2 E. by rewrite (slot_entry dir), (slot_entry dir'), E. Qed.

(** What the code reads of an entry. *)
Lemma slot_cases dir i :
  (64 * i + 64 ≤ length dir)%nat →
  (de_active dir (Z.of_nat i) = Some false ∧ slot dir i = None) ∨
  ∃ f, slot dir i = Some f ∧ de_active dir (Z.of_nat i) = Some true ∧
    de_start dir (Z.of_nat i) = Some (fi_lba f) ∧ de_size dir (Z.of_nat i) = Some (fi_size f) ∧
    fi_name f = cstr (take 32 (de_name dir (Z.of_nat i))).
Proof.
  intros Hl. unfold slot, de_start, de_size.
  destruct (get32_Some dir (dirent (Z.of_nat i) + 32)) as [l ->]; [unfold dirent; lia..|].
  destruct (get32_Some dir (dirent (Z.of_nat i) + 36)) as [z ->]; [unfold dirent; lia..|].
  unfold de_active, de_flags.
  destruct (get32_Some dir (dirent (Z.of_nat i) + 40)) as [fl ->]; [unfold dirent; lia..|].
  destruct (de_name dir (Z.of_nat i)) as [|c nm] eqn:En.
  { rewrite de_name_nat in En. apply (f_equal length) in En. rewrite length_drop in En. simpl in En. lia. }
  cbn [head mbind option_bind]. destruct (decide (c = 0)); [by left|].
  destruct (decide (fl ≠ 1)) as [Hf|Hf].
  - right. rewrite bool_decide_true by done. by eexists.
  - left. by rewrite bool_decide_false by done.
Qed.

(** ** Updating one entry *)

(** The directory with entry [i] replaced. *)
Definition set_entry (dir : list Z) (i : nat) (e : list Z) : list Z :=
  take (64 * i) dir ++ e ++ drop (64 * i + 64) dir.

Lemma set_entry_length dir i e :
  (64 * i + 64 ≤ length dir)%nat → length e = 64%nat → length (set_entry dir i e) = length dir.
Proof. intros Hl He. unfold set_entry. rewrite !length_app, length_take, length_drop. lia. Qed.

Lemma entry_set_eq dir i e :
  (64 * i + 64 ≤ length dir)%nat → length e = 64%nat → entry (set_entry dir i e) i = e.
Proof.
  intros Hl He. unfold entry, set_entry. rewrite drop_app_length' by (rewrite length_take; lia).
  by rewrite take_app_length'.
Qed.

Lemma entry_set_ne dir i j e :
  (64 * i + 64 ≤ length dir)%nat → length e = 64%nat → i ≠ j →
  entry (set_entry dir i e) j = entry dir j.
Proof.
  intros Hl He Hij. unfold entry. apply list_eq. intros k.
  destruct (decide (k < 64)%nat) as [Hk|Hk]; [|by rewrite !lookup_take_ge by lia].
  rewrite !lookup_take_lt, !lookup_drop by lia. unfold set_entry.
  destruct (decide (64 * j + k < 64 * i)%nat) as [H|H].
  - rewrite lookup_app_l by (rewrite length_take; lia). by rewrite lookup_take_lt by lia.
  - rewrite lookup_app_r by (rewrite length_take; lia). rewrite length_take, Nat.min_l by lia.
    rewrite lookup_app_r by lia. rewrite lookup_drop. f_equal. lia.
Qed.

Lemma slot_set_eq dir i e :
  (64 * i + 64 ≤ length dir)%nat → length e = 64%nat → slot (set_entry dir i e) i = slot e 0.
Proof.
  intros Hl He. rewrite slot_entry by (by rewrite set_entry_length). by rewrite entry_set_eq.
Qed.

Lemma slot_set_ne dir i j e :
  (64 * i + 64 ≤ length dir)%nat → (64 * j + 64 ≤ length dir)%nat → length e = 64%nat → i ≠ j →
  slot (set_entry dir i e) j = slot dir j.
Proof.
  intros Hi Hj He Hij. apply slot_ext; [by rewrite set_entry_length|done|by apply entry_set_ne].
Qed.

(** The name field: the first 31 characters, padded with zeros to 32 bytes. *)
Definition name_field (nm : list Z) : list Z := take 31 nm ++ replicate (32 - length (take 31 nm)) 0.

Lemma name_field_length nm : length (name_field nm) = 32%nat.
Proof. unfold name_field. rewrite length_app, length_replicate, length_take. lia. Qed.

Definition new_entry (nm : list Z) (lba size : Z) : list Z :=
  name_field nm ++ le32 lba ++ le32 size ++ le32 0 ++ replicate 20 0.

Lemma new_entry_length nm lba size : length (new_entry nm lba size) = 64%nat.
Proof. unfold new_entry. rewrite !length_app, name_field_length. done. Qed.

Lemma name_field_cstr nm : Forall (λ c, c ≠ 0) nm → is_cstr (name_field nm) (take 31 nm).
Proof.
  intros Hn. unfold name_field.
  destruct (32 - length (take 31 nm))%nat as [|k] eqn:E; [rewrite length_take in E; lia|].
  exists (replicate k 0). split; [done|]. by apply Forall_take.
Qed.

Lemma strncpy_name nm name rest :
  is_cstr name nm → strncpy (replicate 64 0 ++ rest) name 31 = Some (name_field nm ++ replicate 32 0 ++ rest).
Proof.
  intros Hn. unfold name_field. destruct (decide (length nm ≤ 31)%nat) as [Hl|Hl].
  - rewrite (strncpy_fits _ _ nm) by (first [done | lia | rewrite length_app, length_replicate; lia]).
    rewrite (take_ge nm) by lia. change (drop 31 (replicate 64 0 ++ rest)) with ([0] ++ replicate 32 0 ++ rest).
    rewrite <-app_assoc. do 2 f_equal. rewrite app_assoc. f_equal. change [0] with (replicate 1 0).
    rewrite <-replicate_add. f_equal. lia.
  - rewrite (strncpy_long _ _ nm) by (first [done | lia | rewrite length_app, length_replicate; lia]).
    rewrite length_take, Nat.min_l by lia. rewrite <-app_assoc. done.
Qed.

Lemma at_off_nat i f l :
  (64 * i ≤ length l)%nat →
  at_off (dirent (Z.of_nat i)) f l = app (take (64 * i) l) <$> f (drop (64 * i) l).
Proof.
  intros Hl. unfold at_off. replace (Z.to_nat (dirent (Z.of_nat i))) with (64 * i)%nat by (unfold dirent; lia).
  by destruct (f (drop (64 * i) l)).
Qed.

Lemma put_dirent_eq dir i name nm lba size :
  (64 * i + 64 ≤ length dir)%nat → is_cstr name nm →
  put_dirent dir (Z.of_nat i) name lba size = Some (set_entry dir i (new_entry nm lba size)).
Proof.
  intros Hl Hn. unfold put_dirent, FS_NAME_MAX. rewrite at_off_nat by lia.
  rewrite memset_Some by (rewrite length_drop; lia). cbn [fmap option_fmap option_map mbind option_bind].
  rewrite drop_drop. set (rest := drop (64 * i + 64) dir). change (u8 0) with 0.
  set (pre := take (64 * i) dir). assert (length pre = 64 * i)%nat as Hp by (unfold pre; rewrite length_take; lia).
  assert (Z.of_nat (length pre) = dirent (Z.of_nat i)) as Hz by (unfold dirent; lia).
  rewrite at_off_nat by (rewrite length_app; lia). rewrite take_app_length', drop_app_length' by done.
  rewrite (strncpy_name nm) by done. cbn [fmap option_fmap option_map mbind option_bind].
  assert (aset (pre ++ name_field nm ++ replicate 32 0 ++ rest) (dirent (Z.of_nat i) + 31) 0 =
    Some (pre ++ name_field nm ++ replicate 32 0 ++ rest)) as ->.
  { rewrite aset_app by (done || lia). rewrite aset_Some by (rewrite length_app, name_field_length; lia).
    simpl. do 2 f_equal. apply list_insert_id. change (Z.to_nat 31) with 31%nat.
    rewrite lookup_app_l by (rewrite name_field_length; lia). unfold name_field.
    rewrite lookup_app_r by (rewrite length_take; lia). apply lookup_replicate_2. rewrite length_take. lia. }
  cbn [mbind option_bind]. pose proof (name_field_length nm) as Hnl.
  change (replicate 32 0) with (replicate 4 0 ++ replicate 4 0 ++ replicate 4 0 ++ replicate 20 0).
  rewrite <-!app_assoc.
  rewrite (put32_app pre) by (done || lia). change 32 with (32 + 0) at 1.
  rewrite (put32_app (name_field nm)) by lia.
  rewrite put32_head by done. cbn [fmap option_fmap option_map mbind option_bind].
  rewrite (put32_app pre) by (done || lia). change 36 with (32 + (4 + 0)) at 1.
  rewrite (put32_app (name_field nm)) by lia. rewrite (put32_app (le32 lba)) by (done || lia).
  rewrite put32_head by done. cbn [fmap option_fmap option_map mbind option_bind].
  rewrite (put32_app pre) by (done || lia). change 40 with (32 + (4 + (4 + 0))) at 1.
  rewrite (put32_app (name_field nm)) by lia. rewrite (put32_app (le32 lba)) by (done || lia).
  rewrite (put32_app (le32 size)) by (done || lia).
  rewrite put32_head by done. cbn [fmap option_fmap option_map mbind option_bind].
  unfold set_entry, new_entry. by rewrite <-!app_assoc.
Qed.

Lemma head_name_field nm c : head nm = Some c → head (name_field nm) = Some c.
Proof. by destruct nm. Qed.

(** The new entry decodes to what was put in. *)
Lemma slot_new_entry nm lba size :
  Forall (λ c, c ≠ 0) nm → nm ≠ [] → is_u32 lba → is_u32 size →
  slot (new_entry nm lba size) 0 = Some (FInfo (take 31 nm) lba size).
Proof.
  intros Hn Hne Hl Hs. pose proof (name_field_length nm) as Hnl.
  unfold slot, de_active, de_start, de_size, de_flags, de_name. change (Z.of_nat 0) with 0.
  change (Z.to_nat (dirent 0)) with O. rewrite drop_0. unfold new_entry.
  change (dirent 0 + 32) with (32 + 0). change (dirent 0 + 36) with (32 + (4 + 0)).
  change (dirent 0 + 40) with (32 + (4 + (4 + 0))).
  rewrite !(get32_app (name_field nm)) by lia. rewrite !(get32_app (le32 lba)) by (done || lia).
  rewrite !(get32_app (le32 size)) by (done || lia). rewrite !get32_le32 by (done || word_lia).
  rewrite take_app_length' by done.
  destruct nm as [|c nm]; [done|]. apply Forall_cons_1 in Hn as [Hc Hn].
  assert (head (name_field (c :: nm) ++ le32 lba ++ le32 size ++ le32 0 ++ replicate 20 0) = Some c) as -> by done.
  cbn [mbind option_bind]. rewrite decide_False by done. rewrite bool_decide_true by done.
  rewrite (cstr_is_cstr _ (take 31 (c :: nm))); [done|]. apply name_field_cstr. by constructor.
Qed.

(** Setting the deleted flag frees the slot. *)
Lemma put_flag_eq dir i :
  (64 * i + 64 ≤ length dir)%nat →
  ∃ e, put32 dir (dirent (Z.of_nat i) + 40) 1 = Some (set_entry dir i e) ∧ length e = 64%nat ∧
    slot e 0 = None ∧ (Forall is_u8 dir → Forall is_u8 e).
Proof.
  intros Hl. set (E := entry dir i).
  assert (length E = 64%nat) as HE by (unfold E, entry; rewrite length_take, length_drop; lia).
  set (e := take 40 E ++ le32 1 ++ drop 44 E).
  assert (length e = 64%nat) as He by (unfold e; rewrite !length_app, length_take, length_drop, HE; done).
  exists e. split; [|split; [done|split]].
  - rewrite (entry_split dir i) at 1 by done. fold E.
    rewrite (put32_app (take (64 * i) dir)) by (rewrite ?length_take; unfold dirent; lia).
    assert (E = take 40 E ++ take 4 (drop 40 E) ++ drop 44 E) as ->.
    { change 44%nat with (40 + 4)%nat. by rewrite <-drop_drop, take_drop, take_drop. }
    rewrite <-!app_assoc. change 40 with (40 + 0) at 1.
    rewrite (put32_app (take 40 E)) by (rewrite ?length_take; lia).
    rewrite put32_head by (rewrite length_take, length_drop; lia).
    simpl fmap. unfold set_entry, e. by rewrite <-!app_assoc.
  - destruct (slot_cases e 0) as [[_ ?]|(f & _ & Ha & _)]; [lia|done|exfalso].
    revert Ha. unfold de_active, de_flags. destruct (head _) as [c|]; [|done]. cbn [mbind option_bind].
    case_decide; [done|]. change (dirent (Z.of_nat 0) + 40) with (40 + 0). unfold e.
    rewrite get32_app by (rewrite ?length_take; lia). by rewrite get32_le32 by word_lia.
  - intros Hf. unfold e. assert (Forall is_u8 E) by (by apply Forall_take, Forall_drop).
    repeat apply Forall_app_2; [by apply Forall_take|apply le32_bytes|by apply Forall_drop].
Qed.

Lemma set_entry_bytes dir i e : Forall is_u8 dir → Forall is_u8 e → Forall is_u8 (set_entry dir i e).
Proof.
  intros Hd He. unfold set_entry. repeat apply Forall_app_2; [by apply Forall_take|done|by apply Forall_drop].
Qed.

Lemma new_entry_bytes nm lba size : Forall is_u8 nm → Forall is_u8 (new_entry nm lba size).
Proof.
  intros Hn. assert (∀ k, Forall is_u8 (replicate k 0)) as H0 by (intros; apply Forall_replicate; unfold is_u8; lia).
  unfold new_entry, name_field.
  repeat apply Forall_app_2; try apply le32_bytes; try apply H0. by apply Forall_take.
Qed.

(** ** The file system on a disk

    The abstract view of a disk is a finite map from names to contents. *)

Definition dir_of (disk : list (list Z)) : list Z := concat (take 8 (drop 130 disk)).
Definition secs (size : Z) : Z := (size + 511) `div` 512.
Definition fend (f : finfo) : Z := fi_lba f + secs (fi_size f).
Definition content (disk : list (list Z)) (f : finfo) : list Z :=
  take (Z.to_nat (fi_size f))
    (concat (take (Z.to_nat (secs (fi_size f))) (drop (Z.to_nat (fi_lba f)) disk))).

Definition fs_map (disk : list (list Z)) : gmap (list Z) (list Z) :=
  list_to_map (omap (λ i, (λ f, (fi_name f, content disk f)) <$> slot (dir_of disk) i) (seq 0 64)).

(** A file lies inside the data area; its size does not overflow when rounded
    up. *)
Record file_ok (disk : list (list Z)) (f : finfo) : Prop := FileOk {
  fo_lba : 138 ≤ fi_lba f;
  fo_size : 0 ≤ fi_size f < 4294967296 - 511;
  fo_end : fend f ≤ Z.of_nat (length disk)
}.

(** Every active slot is a file with a terminated name, and no two slots have
    the same name. *)
Record dir_wf (disk : list (list Z)) : Prop := DirWf {
  dw_slots i f : (i < 64)%nat → slot (dir_of disk) i = Some f →
    0 ∈ take 32 (drop (64 * i) (dir_of disk)) ∧ file_ok disk f;
  dw_names i j f g : (i < 64)%nat → (j < 64)%nat → slot (dir_of disk) i = Some f →
    slot (dir_of disk) j = Some g → fi_name f = fi_name g → i = j
}.

(** The superblock has magic and version, and counts the files. *)
Definition super_wf (disk : list (list Z)) : Prop :=
  ∃ sb, disk !! 129%nat = Some sb ∧ take 8 sb = FS_MAGIC ∧ get32 sb 8 = Some FS_VERSION ∧
    get32 sb 12 = Some (Z.of_nat (size (fs_map disk))).

Record disk_wf (disk : list (list Z)) : Prop := DiskWf {
  kw_sectors : Forall sector_ok disk;
  kw_size : 138 ≤ Z.of_nat (length disk) ≤ 268435456;
  kw_dir : dir_wf disk;
  kw_super : super_wf disk
}.

Lemma dir_of_length disk :
  Forall sector_ok disk → 138 ≤ Z.of_nat (length disk) → length (dir_of disk) = 4096%nat.
Proof.
  intros Hs Hl. unfold dir_of. rewrite sector_list_length by (by apply Forall_take, Forall_drop).
  rewrite length_take, length_drop. lia.
Qed.

Lemma concat_bytes ss : Forall sector_ok ss → Forall is_u8 (concat ss).
Proof. induction 1 as [|s ss [_ Hs] _ IH]; [constructor|]. simpl. by apply Forall_app_2. Qed.

Lemma fs_map_Some disk nm c :
  dir_wf disk →
  fs_map disk !! nm = Some c ↔
  ∃ i f, (i < 64)%nat ∧ slot (dir_of disk) i = Some f ∧ fi_name f = nm ∧ content disk f = c.
Proof.
  intros Hw.
  assert (∀ nm c, (nm, c) ∈ omap (λ i, (λ f, (fi_name f, content disk f)) <$> slot (dir_of disk) i) (seq 0 64) ↔
    ∃ i f, (i < 64)%nat ∧ slot (dir_of disk) i = Some f ∧ fi_name f = nm ∧ content disk f = c) as Hel.
  { intros n k. rewrite list_elem_of_omap. split.
    - intros (i & Hi & Hs). apply elem_of_seq in Hi.
      destruct (slot (dir_of disk) i) as [f|] eqn:E; [|done]. injection Hs as <- <-.
      exists i, f. split; [lia|done].
    - intros (i & f & Hi & Hs & <- & <-). exists i. rewrite elem_of_seq. split; [lia|]. by rewrite Hs. }
  unfold fs_map. split.
  - intros H%elem_of_list_to_map_2. by apply Hel.
  - intros H. apply elem_of_list_to_map_1'; [|by apply Hel].
    intros c' Hc'. destruct H as (i & f & Hi & Hs & Hn & <-).
    apply Hel in Hc' as (j & g & Hj & Hs' & Hn' & <-).
    assert (i = j) as -> by (eapply (dw_names _ Hw); [| |exact Hs|exact Hs'|congruence]; done). congruence.
Qed.

Lemma fs_map_None disk nm :
  dir_wf disk →
  fs_map disk !! nm = None ↔ ∀ i f, (i < 64)%nat → slot (dir_of disk) i = Some f → fi_name f ≠ nm.
Proof.
  intros Hw. split.
  - intros Hn i f Hi Hs E. assert (fs_map disk !! nm = Some (content disk f)); [|congruence].
    apply fs_map_Some; [done|]. by exists i, f.
  - intros H. destruct (fs_map disk !! nm) as [c|] eqn:E; [|done].
    apply fs_map_Some in E as (i & f & Hi & Hs & Hn & _); [|done]. by destruct (H i f Hi Hs).
Qed.

Lemma fs_map_size disk : (size (fs_map disk) ≤ 64)%nat.
Proof.
  unfold fs_map. assert (∀ l : list (list Z * list Z), (size (list_to_map l : gmap (list Z) (list Z)) ≤ length l)%nat) as H.
  { induction l as [|[k v] l IH]; [done|]. simpl. rewrite map_size_insert. destruct (_ !! k); simpl; lia. }
  etransitivity; [apply H|]. assert (∀ {A B} (g : A → option B) l, (length (omap g l) ≤ length l)%nat) as Ho.
  { intros A B g l. induction l as [|x l IH]; [done|]. cbn. destruct (g x); cbn in *; lia. }
  etransitivity; [apply Ho|]. by rewrite length_seq.
Qed.

Lemma content_ext disk disk' f :
  0 ≤ fi_lba f → length disk = length disk' →
  (∀ j, fi_lba f ≤ Z.of_nat j < fend f → disk !! j = disk' !! j) →
  content disk f = content disk' f.
Proof.
  intros Hl Hlen H. unfold content. do 2 f_equal. apply list_eq. intros j.
  destruct (decide (j < Z.to_nat (secs (fi_size f)))%nat) as [Hj|Hj].
  - rewrite !lookup_take_lt, !lookup_drop by done. apply H. unfold fend. lia.
  - by rewrite !lookup_take_ge by lia.
Qed.

Lemma dir_of_ext disk disk' :
  (∀ j, (130 ≤ j < 138)%nat → disk !! j = disk' !! j) → dir_of disk = dir_of disk'.
Proof.
  intros H. unfold dir_of. f_equal. apply list_eq. intros j.
  destruct (decide (j < 8)%nat) as [Hj|Hj].
  - rewrite !lookup_take_lt, !lookup_drop by done. apply H. lia.
  - by rewrite !lookup_take_ge by lia.
Qed.

(** ** Sector transfers of the file system *)

Section fs_spec.
Context {D : Type} `{!BlockDevice D}.

Abbreviation disk s := (bd_sectors (f_dev s)).

(** The device is ready, the static buffers have their sizes. *)
Record fs_base (s : fs D) : Prop := FsBase {
  fb_inv : bd_inv (f_dev s);
  fb_dir : length (f_dir s) = 4096%nat;
  fb_sec : length (f_sec s) = 512%nat;
  fb_size : 138 ≤ Z.of_nat (length (disk s)) ≤ 268435456
}.

(** The invariant of the component. *)
Definition fs_wf (s : fs D) : Prop := fs_base s ∧ disk_wf (disk s).

Lemma fb_sectors s : fs_base s → Forall sector_ok (disk s).
Proof. intros H. apply bd_sector_ok, H. Qed.

Lemma fb_dir_of_length s : fs_base s → length (dir_of (disk s)) = 4096%nat.
Proof. intros H. apply dir_of_length; [by apply fb_sectors|apply H]. Qed.

Lemma fb_dir_of_bytes s : fs_base s → Forall is_u8 (dir_of (disk s)).
Proof. intros H. by apply concat_bytes, Forall_take, Forall_drop, fb_sectors. Qed.

Lemma read_one s lba buf :
  fs_base s → 0 ≤ lba < Z.of_nat (length (disk s)) → length buf = 512%nat →
  ∃ sec d, disk s !! Z.to_nat lba = Some sec ∧ sector_ok sec ∧
    bd_read lba 1 buf (f_dev s) = Some (0, sec, d) ∧ bd_inv d ∧ bd_sectors d = disk s.
Proof.
  intros Hb Hl Hlen. destruct (lookup_lt_is_Some_2 (disk s) (Z.to_nat lba)) as [sec Hsec]; [lia|].
  assert (sector_ok sec) as Hok by (eapply Forall_lookup_1; [by apply fb_sectors|done]).
  destruct (bd_read_ok (f_dev s) lba 1 buf (fb_inv s Hb)) as (d & E & Hi & Hs); [lia..|].
  exists sec, d. split; [done|]. split; [done|]. split; [|done]. rewrite E. do 3 f_equal.
  rewrite (drop_ge buf), app_nil_r by lia. rewrite (drop_S _ sec) by done. simpl. by rewrite app_nil_r.
Qed.

Lemma write_one s lba buf :
  fs_base s → 0 ≤ lba < Z.of_nat (length (disk s)) → sector_ok buf →
  ∃ d, bd_write lba 1 buf (f_dev s) = Some (0, d) ∧ bd_inv d ∧ bd_sectors d = <[Z.to_nat lba := buf]> (disk s).
Proof.
  intros Hb Hl [Hlen Hf]. destruct (bd_write_ok (f_dev s) lba 1 buf (fb_inv s Hb)) as (d & E & Hi & Hs); [lia..|done|].
  exists d. split; [done|]. split; [done|]. rewrite Hs. change (Z.to_nat 1) with 1%nat. cbn [chunks store_sectors].
  by rewrite take_ge by lia.
Qed.

Lemma base_dev s d dir sec :
  fs_base s → bd_inv d → length (bd_sectors d) = length (disk s) → length dir = 4096%nat →
  length sec = 512%nat → fs_base (Fs d dir sec).
Proof. intros [] Hd Hl Hdir Hsec. constructor; simpl; [done|done|done|by rewrite Hl]. Qed.

Lemma read_super_ok s :
  fs_base s →
  ∃ sb d, disk s !! 129%nat = Some sb ∧ sector_ok sb ∧ read_super s = Some (0, sb, with_dev d s) ∧
    fs_base (with_dev d s) ∧ bd_sectors d = disk s.
Proof.
  intros Hb. destruct (read_one s 129 (replicate 512 0)) as (sb & d & Hsb & Hok & E & Hi & Hs);
    [done|destruct Hb; lia|done|].
  exists sb, d. split; [done|]. split; [done|]. unfold read_super, FS_SUPER_LBA. rewrite E.
  cbn [mbind option_bind]. rewrite decide_False by (intros H; by apply H). split; [done|]. split; [|done].
  destruct Hb. apply (base_dev s); [done|done|by rewrite Hs|done|done].
Qed.

Lemma write_super_ok s sb :
  fs_base s → sector_ok sb →
  ∃ d, write_super sb s = Some (0, with_dev d s) ∧ fs_base (with_dev d s) ∧
    bd_sectors d = <[129%nat := sb]> (disk s).
Proof.
  intros Hb Hok. destruct (write_one s 129 sb) as (d & E & Hi & Hs); [done|destruct Hb; lia|done|].
  exists d. unfold write_super, FS_SUPER_LBA. rewrite E. cbn [mbind option_bind]. split; [done|].
  split; [|done]. destruct Hb. apply (base_dev s); [done|done|by rewrite Hs, length_insert|done|done].
Qed.

Lemma read_dir_ok s :
  fs_base s →
  ∃ d, read_dir s = Some (0, Fs d (dir_of (disk s)) (f_sec s)) ∧
    fs_base (Fs d (dir_of (disk s)) (f_sec s)) ∧ bd_sectors d = disk s.
Proof.
  intros Hb. pose proof (fb_dir_of_length s Hb) as Hdl. destruct Hb as [Hi Hd Hsec Hsz] eqn:HB.
  destruct (bd_read_ok (f_dev s) 130 8 (f_dir s) Hi) as (d & E & Hi' & Hs); [lia..|].
  exists d. unfold read_dir, FS_DIR_LBA, FS_DIR_SECTORS. rewrite E. cbn [mbind option_bind].
  split.
  - do 3 f_equal. change (Z.to_nat (512 * 8)) with (Z.to_nat 4096). rewrite (drop_ge (f_dir s)), app_nil_r by lia. done.
  - split; [|done]. apply (base_dev s); [done|done|by rewrite Hs|done|done].
Qed.

Lemma write_dir_ok s :
  fs_base s → Forall is_u8 (f_dir s) →
  ∃ d, write_dir s = Some (0, with_dev d s) ∧ fs_base (with_dev d s) ∧
    bd_sectors d = store_sectors 130 (chunks 8 (f_dir s)) (disk s).
Proof.
  intros Hb Hf. destruct Hb as [Hi Hd Hsec Hsz] eqn:HB.
  destruct (bd_write_ok (f_dev s) 130 8 (f_dir s) Hi) as (d & E & Hi' & Hs); [lia..|done|].
  exists d. unfold write_dir, FS_DIR_LBA, FS_DIR_SECTORS. rewrite E. cbn [mbind option_bind].
  split; [done|]. split; [|done]. apply (base_dev s); [done|done| |done|done].
  rewrite Hs. apply store_sectors_ok; [apply chunks_ok; [change (Z.to_nat 8) with 8%nat; lia|done]|by apply bd_sector_ok].
Qed.

(** The directory region after [write_dir]. *)
Lemma dir_of_store dir dk :
  length dir = 4096%nat → 138 ≤ Z.of_nat (length dk) →
  dir_of (store_sectors 130 (chunks 8 dir) dk) = dir.
Proof.
  intros Hd Hl. unfold dir_of. pose proof (read_back 130 (chunks 8 dir) dk) as Hrb.
  rewrite chunks_length in Hrb. change (Z.to_nat 130) with 130%nat in Hrb. rewrite Hrb by lia.
  rewrite chunks_concat by lia. apply take_ge. lia.
Qed.

Lemma store_dir_lookup dir dk j :
  138 ≤ Z.of_nat (length dk) → (j < 130 ∨ 138 ≤ j)%nat →
  store_sectors 130 (chunks 8 dir) dk !! j = dk !! j.
Proof.
  intros Hl Hj. rewrite store_sectors_lookup by (rewrite ?chunks_length; lia).
  rewrite chunks_length. by rewrite decide_False by lia.
Qed.

(** ** Searching and reading *)

Lemma slot_name_cstr dk i f :
  dir_wf dk → length (dir_of dk) = 4096%nat → (i < 64)%nat → slot (dir_of dk) i = Some f →
  is_cstr (de_name (dir_of dk) (Z.of_nat i)) (fi_name f) ∧ (length (fi_name f) ≤ 31)%nat.
Proof.
  intros Hw Hl Hi Hs. destruct (dw_slots _ Hw i f Hi Hs) as [H0 _].
  destruct (slot_cases (dir_of dk) i) as [[_ E]|(f' & E & _ & _ & _ & En)]; [lia|congruence|].
  assert (f' = f) as -> by congruence. rewrite de_name_nat in *. rewrite En.
  destruct (is_cstr_exists _ H0) as (rest & E1 & Hf). split.
  - exists (rest ++ drop 32 (drop (64 * i) (dir_of dk))). split; [|done].
    rewrite <-(take_drop 32 (drop (64 * i) (dir_of dk))) at 1. rewrite E1 at 1. by rewrite <-app_assoc.
  - apply (f_equal length) in E1. rewrite length_app, length_take in E1. cbn [length] in E1. lia.
Qed.

Lemma find_file_ok dk name nm n : ∀ i,
  dir_wf dk → length (dir_of dk) = 4096%nat → is_cstr name nm → (i + n ≤ 64)%nat →
  (∃ j f, (i ≤ j < i + n)%nat ∧ slot (dir_of dk) j = Some f ∧ fi_name f = nm ∧
     find_file (dir_of dk) name (Z.of_nat i) n = Some (Some (Z.of_nat j))) ∨
  (find_file (dir_of dk) name (Z.of_nat i) n = Some None ∧
     ∀ j f, (i ≤ j < i + n)%nat → slot (dir_of dk) j = Some f → fi_name f ≠ nm).
Proof.
  induction n as [|n IH]; intros i Hw Hl Hn Hi.
  { right. split; [done|]. intros; lia. }
  cbn [find_file]. replace (Z.of_nat i + 1) with (Z.of_nat (S i)) by lia.
  destruct (IH (S i)) as [(j & f & Hj & Hs & Hnm & E)|[E Hno]]; [done|done|done|lia| |];
    destruct (slot_cases (dir_of dk) i) as [[-> Hfree]|(g & Hg & -> & _)]; try lia; cbn [mbind option_bind];
    try (destruct (slot_name_cstr dk i g) as [Hc _]; [done|done|lia|done|];
         destruct (strcmp_cstr _ _ _ _ Hc Hn) as (r & -> & Hr); cbn [mbind option_bind];
         destruct (decide (r = 0)) as [Hr0|Hr0];
         [left; exists i, g; split; [lia|]; split; [done|]; split; [by apply Hr|done]|]).
  - left. exists j, f. split; [lia|done].
  - left. exists j, f. split; [lia|done].
  - right. split; [done|]. intros j f Hj Hs. destruct (decide (j = i)) as [->|]; [congruence|].
    apply (Hno j f); [lia|done].
  - right. split; [done|]. intros j f Hj Hs. destruct (decide (j = i)) as [->|].
    + assert (f = g) as -> by congruence. intros E'. by apply Hr0, Hr.
    + apply (Hno j f); [lia|done].
Qed.

(** The same against the abstract map. *)
Lemma find_file_map dk name nm :
  dir_wf dk → length (dir_of dk) = 4096%nat → is_cstr name nm →
  (∃ j f, (j < 64)%nat ∧ slot (dir_of dk) j = Some f ∧ fi_name f = nm ∧
     find_file (dir_of dk) name 0 (Z.to_nat FS_MAX_FILES) = Some (Some (Z.of_nat j)) ∧
     fs_map dk !! nm = Some (content dk f)) ∨
  (find_file (dir_of dk) name 0 (Z.to_nat FS_MAX_FILES) = Some None ∧ fs_map dk !! nm = None).
Proof.
  intros Hw Hl Hn. change (Z.to_nat FS_MAX_FILES) with 64%nat. change 0 with (Z.of_nat 0).
  destruct (find_file_ok dk name nm 64 0) as [(j & f & Hj & Hs & Hnm & E)|[E Hno]]; [done|done|done|lia| |].
  - left. exists j, f. split; [lia|]. do 3 (split; [done|]). apply fs_map_Some; [done|]. exists j, f. split; [lia|done].
  - right. split; [done|]. apply fs_map_None; [done|]. intros i f Hi. apply Hno. lia.
Qed.

(** An open handle at position [pos] of a file with content [c]. *)
Record opened (dk : list (list Z)) (f : fs_file) (c : list Z) (pos : Z) : Prop := Opened {
  op_valid : ff_valid f ≠ 0;
  op_pos : ff_pos f = pos;
  op_range : 0 ≤ pos ≤ ff_size f;
  op_len : ff_size f = Z.of_nat (length c);
  op_ok : file_ok dk (FInfo [] (ff_start_lba f) (ff_size f));
  op_content : content dk (FInfo [] (ff_start_lba f) (ff_size f)) = c
}.

Lemma secs_bounds n : 0 ≤ n → n ≤ 512 * secs n < n + 512 ∧ 0 ≤ secs n.
Proof. intros. unfold secs. zdm. Qed.

Lemma content_length dk f :
  Forall sector_ok dk → file_ok dk f → length (content dk f) = Z.to_nat (fi_size f).
Proof.
  intros Hs [Hl Hz He]. unfold content, fend in *. pose proof (secs_bounds (fi_size f)).
  rewrite length_take, sector_list_length by (by apply Forall_take, Forall_drop).
  rewrite length_take, length_drop. lia.
Qed.

Lemma fs_open_lemma s name nm f0 :
  fs_wf s → is_cstr name nm →
  ∃ r f s', fs_open name f0 s = Some (r, f, s') ∧ fs_wf s' ∧ disk s' = disk s ∧
    match fs_map (disk s) !! nm with
    | Some c => r = 0 ∧ opened (disk s) f c 0
    | None => r = -1 ∧ f = f0
    end.
Proof.
  intros [Hb Hk] Hn. destruct (read_dir_ok s Hb) as (d & E & Hb' & Hd).
  assert (fs_wf (Fs d (dir_of (disk s)) (f_sec s))) as Hwf by (split; [done|]; simpl; by rewrite Hd).
  unfold fs_open. rewrite E. cbn [mbind option_bind f_dir]. rewrite decide_False by (intros H; by apply H).
  pose proof (fb_dir_of_length s Hb) as Hl.
  destruct (find_file_map (disk s) name nm (kw_dir _ Hk) Hl Hn) as [(j & f & Hj & Hs & Hnm & -> & ->)|[-> ->]];
    cbn [mbind option_bind].
  - destruct (slot_cases (dir_of (disk s)) j) as [[_ ?]|(f' & Hs' & _ & -> & -> & _)]; [lia|congruence|].
    assert (f' = f) as -> by congruence. cbn [mbind option_bind].
    eexists _, _, _. split; [reflexivity|]. split; [done|]. split; [done|]. split; [done|].
    destruct (dw_slots _ (kw_dir _ Hk) j f Hj Hs) as [_ Hok].
    constructor; simpl; [done|done|destruct Hok; lia| |by destruct Hok|done].
    rewrite content_length by (done || apply Hk). destruct Hok; lia.
  - by eexists _, _, _.
Qed.

(** [fs_open] is lookup in the abstract map: for a name on the disk it returns
    0 and a handle at position 0 of exactly that content, for any other name it
    returns -1 and leaves the handle alone.  The disk is not changed. *)
Theorem fs_open_refines s name nm f0 :
  fs_wf s → is_cstr name nm →
  ∃ r f s', fs_open name f0 s = Some (r, f, s') ∧ fs_wf s' ∧ disk s' = disk s ∧
    match fs_map (disk s) !! nm with
    | Some c => r = 0 ∧ opened (disk s) f c 0
    | None => r = -1 ∧ f = f0
    end.
Proof. apply fs_open_lemma. Qed.

Lemma concat_slice ss : ∀ q sec off n,
  Forall sector_ok ss → ss !! q = Some sec → (off + n ≤ 512)%nat →
  take n (drop (512 * q + off) (concat ss)) = take n (drop off sec).
Proof.
  induction ss as [|s ss IH]; intros q sec off n Hf Hq Hn; [done|].
  apply Forall_cons_1 in Hf as [[Hl _] Hf]. cbn [concat]. destruct q as [|q]; simpl in Hq.
  - injection Hq as ->. replace (512 * 0 + off)%nat with off by lia.
    rewrite drop_app_le by lia. by rewrite take_app_le by (rewrite length_drop; lia).
  - rewrite drop_app_ge by lia. rewrite Hl. replace (512 * S q + off - 512)%nat with (512 * q + off)%nat by lia.
    by apply IH.
Qed.

Lemma take_drop_split {A} (l : list A) p m n :
  take m (drop p l) ++ take n (drop (p + m) l) = take (m + n) (drop p l).
Proof. rewrite <-drop_drop. apply take_take_drop. Qed.

(** The bytes of the sectors of an open file. *)
Definition file_bytes (dk : list (list Z)) (f : fs_file) : list Z :=
  concat (take (Z.to_nat (secs (ff_size f))) (drop (Z.to_nat (ff_start_lba f)) dk)).

Definition at_pos (f : fs_file) (pos : Z) : fs_file := FsFile (ff_start_lba f) (ff_size f) pos (ff_valid f).

(** One chunk of the read loop. *)
Lemma read_chunk s f :
  fs_base s → file_ok (disk s) (FInfo [] (ff_start_lba f) (ff_size f)) → 0 ≤ ff_pos f < ff_size f →
  ∃ sec d, bd_read (u32 (ff_start_lba f + ff_pos f `div` 512)) 1 (f_sec s) (f_dev s) = Some (0, sec, d) ∧
    fs_base (Fs d (f_dir s) sec) ∧ bd_sectors d = disk s ∧
    ∀ n, ff_pos f `mod` 512 + Z.of_nat n ≤ 512 →
      take n (drop (Z.to_nat (ff_pos f `mod` 512)) sec) = take n (drop (Z.to_nat (ff_pos f)) (file_bytes (disk s) f)).
Proof.
  intros Hb [H1 H2 H3] Hp. unfold fend in H3. cbn [fi_lba fi_size] in *.
  pose proof (secs_bounds (ff_size f)). pose proof (fb_size s Hb).
  assert (0 ≤ ff_pos f `div` 512 < secs (ff_size f)) as Hq by (split; zdm).
  rewrite (u32_small (ff_start_lba f + ff_pos f `div` 512)) by (unfold is_u32; lia).
  destruct (read_one s (ff_start_lba f + ff_pos f `div` 512) (f_sec s)) as (sec & d & Hsec & [Hl Hf] & E & Hi & Hs);
    [done|lia|apply Hb|].
  exists sec, d. split; [done|]. split.
  { apply (base_dev s); [done|done|by rewrite Hs|apply Hb|done]. }
  split; [done|]. intros n Hn.
  replace (Z.to_nat (ff_pos f)) with (512 * Z.to_nat (ff_pos f `div` 512) + Z.to_nat (ff_pos f `mod` 512))%nat by zdm.
  symmetry. apply concat_slice; [by apply Forall_take, Forall_drop, fb_sectors| |zdm].
  rewrite lookup_take_lt, lookup_drop by lia. rewrite <-Hsec. f_equal. lia.
Qed.

Lemma fs_read_loop_ok fuel : ∀ f remaining s,
  fs_base s → file_ok (disk s) (FInfo [] (ff_start_lba f) (ff_size f)) →
  0 ≤ ff_pos f → 0 ≤ remaining → ff_pos f + remaining ≤ ff_size f →
  (1 ≤ fuel)%nat → remaining = 0 ∨ remaining + ff_pos f `mod` 512 ≤ 512 * (Z.of_nat fuel - 1) →
  ∃ s', fs_read_loop fuel f remaining s =
      Some (take (Z.to_nat remaining) (drop (Z.to_nat (ff_pos f)) (file_bytes (disk s) f)), 0,
            at_pos f (ff_pos f + remaining), s') ∧
    fs_base s' ∧ disk s' = disk s.
Proof.
  induction fuel as [|fuel IH]; intros f remaining s Hb Hok Hp Hr Hsz Hfu Hm; [lia|]. cbn [fs_read_loop].
  destruct (decide (0 < remaining)) as [H|H].
  2:{ assert (remaining = 0) as -> by lia. exists s. rewrite Z.add_0_r. split; [|done]. by destruct f. }
  unfold ATA_SECTOR_SIZE. destruct (read_chunk s f Hb Hok) as (sec & d & -> & Hb' & Hd & Hslice); [lia|].
  cbn [mbind option_bind]. rewrite decide_False by (intros X; by apply X).
  set (chunk := if decide (remaining < 512 - ff_pos f `mod` 512) then remaining else 512 - ff_pos f `mod` 512).
  assert (0 < chunk ≤ remaining ∧ chunk ≤ 512 - ff_pos f `mod` 512 ∧
    (chunk = remaining ∨ chunk = 512 - ff_pos f `mod` 512)) as (Hc1 & Hc2 & Hc3).
  { unfold chunk. destruct (decide (remaining < 512 - ff_pos f `mod` 512)); zdm. }
  cbv zeta. destruct Hok as [Ho1 Ho2 Ho3]. cbn [fi_lba fi_size] in Ho1, Ho2.
  rewrite (u32_small (ff_pos f + chunk)) by (unfold is_u32; lia).
  destruct (IH (at_pos f (ff_pos f + chunk)) (remaining - chunk) (Fs d (f_dir s) sec)) as (s' & E & Hb2 & Hd2).
  - done.
  - simpl f_dev. rewrite Hd. by constructor.
  - simpl. lia.
  - lia.
  - simpl. lia.
  - zdm.
  - cbn [at_pos ff_pos]. destruct Hc3 as [->|Hc3]; [left; lia|right].
    assert ((ff_pos f + chunk) `mod` 512 = 0) as -> by (rewrite Hc3; zdm). destruct Hm; lia.
  - unfold at_pos at 1 in E. rewrite E. cbn [mbind option_bind]. exists s'. split; [|split; [done|by rewrite Hd2]].
    rewrite Hslice by lia. cbn [f_dev] in *. rewrite Hd. cbn [at_pos ff_pos ff_start_lba ff_size ff_valid].
    change (file_bytes (disk s) (at_pos f (ff_pos f + chunk))) with (file_bytes (disk s) f).
    replace (Z.to_nat (ff_pos f + chunk)) with (Z.to_nat (ff_pos f) + Z.to_nat chunk)%nat by lia.
    rewrite take_drop_split. replace (Z.to_nat chunk + Z.to_nat (remaining - chunk))%nat with (Z.to_nat remaining) by lia.
    unfold at_pos. cbn [ff_pos ff_start_lba ff_size ff_valid]. do 3 f_equal. f_equal. lia.
Qed.

Lemma fs_read_lemma s f c pos buf len :
  fs_wf s → opened (disk s) f c pos → is_u32 len → len ≤ Z.of_nat (length buf) →
  let n := Z.min len (Z.of_nat (length c) - pos) in
  ∃ f' s', fs_read f buf len s =
      Some (n, take (Z.to_nat n) (drop (Z.to_nat pos) c) ++ drop (Z.to_nat n) buf, f', s') ∧
    opened (disk s) f' c (pos + n) ∧ fs_wf s' ∧ disk s' = disk s.
Proof.
  intros [Hb Hk] Ho Hlen Hbuf n. pose proof Ho as [Hv Hp Hr Hl Hok Hc]. unfold fs_read.
  destruct (decide (ff_valid f = 0 ∨ ff_size f ≤ ff_pos f)) as [[?|Hend]|Hnot]; [done| |].
  { assert (n = 0) as -> by (unfold n, is_u32 in *; lia). exists f, s. rewrite Z.add_0_r. done. }
  set (len' := if decide (ff_size f - ff_pos f < len) then ff_size f - ff_pos f else len).
  assert (len' = n) as -> by (unfold len', n; destruct (decide (ff_size f - ff_pos f < len)); lia).
  assert (0 ≤ n ≤ ff_size f - ff_pos f) as Hn by (unfold n, is_u32 in *; lia). cbv zeta.
  destruct (fs_read_loop_ok (Z.to_nat (n `div` 512 + 3)) f n s) as (s' & E & Hb' & Hd');
    [done|done|lia|lia|lia|zdm|right; zdm|].
  rewrite E. cbn [mbind option_bind]. set (out := take _ _).
  assert (out = take (Z.to_nat n) (drop (Z.to_nat pos) c)) as Hout.
  { rewrite <-Hc. unfold out, content, file_bytes. cbn [fi_size fi_lba]. rewrite Hp.
    rewrite skipn_firstn_comm, take_take. f_equal. lia. }
  assert (length out = Z.to_nat n) as Hol by (rewrite Hout, length_take, length_drop; lia).
  rewrite Hol, Hout. rewrite decide_True by lia.
  exists (at_pos f (ff_pos f + n)), s'. rewrite Z.sub_0_r. split; [done|].
  split; [|split; [split; [done|by rewrite Hd']|done]].
  constructor; cbn [at_pos ff_valid ff_pos ff_size ff_start_lba]; [done|lia|lia|done|done|done].
Qed.

(** [fs_read] reads sequentially: from position [pos] of a file with content
    [c] it delivers the next [min len (|c| - pos)] bytes of [c] into the front of
    the buffer, leaves the rest of the buffer alone, returns their number (0 at the
    end of the file) and moves the handle behind them; any number of sectors is
    crossed, the loop terminates, and the disk is not changed. *)
Theorem fs_read_refines s f c pos buf len :
  fs_wf s → opened (disk s) f c pos → is_u32 len → len ≤ Z.of_nat (length buf) →
  let n := Z.min len (Z.of_nat (length c) - pos) in
  ∃ f' s', fs_read f buf len s =
      Some (n, take (Z.to_nat n) (drop (Z.to_nat pos) c) ++ drop (Z.to_nat n) buf, f', s') ∧
    opened (disk s) f' c (pos + n) ∧ fs_wf s' ∧ disk s' = disk s.
Proof. apply fs_read_lemma. Qed.

(** ** Changing one slot of a disk *)

Section one_slot.
Context (dk dk' : list (list Z)) (t : nat) (e : list Z).
Hypothesis Hw : dir_wf dk.
Hypothesis Hlen : length dk' = length dk.
Hypothesis Hdl : length (dir_of dk) = 4096%nat.
Hypothesis Ht : (t < 64)%nat.
Hypothesis He : length e = 64%nat.
Hypothesis Hdir : dir_of dk' = set_entry (dir_of dk) t e.
(** The data of the other files is left alone. *)
Hypothesis Hdata : ∀ i f j, (i < 64)%nat → i ≠ t → slot (dir_of dk) i = Some f →
  fi_lba f ≤ Z.of_nat j < fend f → dk' !! j = dk !! j.

Lemma slot_other i : (i < 64)%nat → i ≠ t → slot (dir_of dk') i = slot (dir_of dk) i.
Proof. intros Hi Hit. rewrite Hdir. apply slot_set_ne; [lia|lia|done|done]. Qed.

Lemma slot_this : slot (dir_of dk') t = slot e 0.
Proof. rewrite Hdir. apply slot_set_eq; [lia|done]. Qed.

Lemma content_other i f :
  (i < 64)%nat → i ≠ t → slot (dir_of dk) i = Some f → content dk' f = content dk f.
Proof.
  intros Hi Hit Hs. destruct (dw_slots _ Hw i f Hi Hs) as [_ Hok]. destruct Hok.
  apply content_ext; [lia|done|]. intros j Hj. by apply (Hdata i f).
Qed.

Lemma slot_ok_other i f :
  (i < 64)%nat → i ≠ t → slot (dir_of dk') i = Some f →
  0 ∈ take 32 (drop (64 * i) (dir_of dk')) ∧ file_ok dk' f.
Proof.
  intros Hi Hit Hs. rewrite slot_other in Hs by done. destruct (dw_slots _ Hw i f Hi Hs) as [H0 [H1 H2 H3]].
  split; [|constructor; [done|done|by rewrite Hlen]].
  assert (∀ dir, take 32 (drop (64 * i) dir) = take 32 (entry dir i)) as Hent
    by (intros; unfold entry; by rewrite take_take).
  rewrite Hent, Hdir, entry_set_ne, <-Hent by (done || lia). done.
Qed.

(** Writing a file into a free slot, or into the slot of the same name. *)
Lemma map_put g :
  slot e 0 = Some g → 0 ∈ take 32 e → file_ok dk' g →
  (∀ i f, (i < 64)%nat → i ≠ t → slot (dir_of dk) i = Some f → fi_name f ≠ fi_name g) →
  (∀ f, slot (dir_of dk) t = Some f → fi_name f = fi_name g) →
  dir_wf dk' ∧ fs_map dk' = <[fi_name g := content dk' g]> (fs_map dk).
Proof.
  intros Hg H0 Hgok Hfresh Hsame. assert (dir_wf dk') as Hw'.
  { constructor.
    - intros i f Hi Hs. destruct (decide (i = t)) as [->|Hit]; [|by apply slot_ok_other].
      rewrite slot_this, Hg in Hs. injection Hs as <-. split; [|done].
      pose proof (entry_set_eq (dir_of dk) t e) as E. rewrite <-Hdir in E. unfold entry in E.
      rewrite <-(take_take _ 32 64), E by (done || lia). done.
    - intros i j f f' Hi Hj Hs Hs' En. destruct (decide (i = t)) as [->|Hit], (decide (j = t)) as [->|Hjt]; [done|..].
      + rewrite slot_this, Hg in Hs. injection Hs as <-. rewrite slot_other in Hs' by done. by destruct (Hfresh j f').
      + rewrite slot_this, Hg in Hs'. injection Hs' as <-. rewrite slot_other in Hs by done. by destruct (Hfresh i f).
      + rewrite slot_other in Hs by done. rewrite slot_other in Hs' by done. by apply (dw_names _ Hw i j f f'). }
  split; [done|]. apply map_eq. intros nm. apply option_eq. intros c. rewrite fs_map_Some by done.
  destruct (decide (nm = fi_name g)) as [->|Hnm].
  - rewrite lookup_insert_eq. split.
    + intros (i & f & Hi & Hs & En & <-). destruct (decide (i = t)) as [->|Hit].
      * rewrite slot_this, Hg in Hs. congruence.
      * rewrite slot_other in Hs by done. by destruct (Hfresh i f).
    + intros [= <-]. exists t, g. by rewrite slot_this.
  - rewrite lookup_insert_ne by done. rewrite fs_map_Some by done. split.
    + intros (i & f & Hi & Hs & En & <-). destruct (decide (i = t)) as [->|Hit].
      * rewrite slot_this, Hg in Hs. congruence.
      * rewrite slot_other in Hs by done. exists i, f. by rewrite (content_other i).
    + intros (i & f & Hi & Hs & En & <-). destruct (decide (i = t)) as [->|Hit].
      * exfalso. apply Hnm. rewrite <-En. by apply Hsame.
      * exists i, f. rewrite slot_other by done. by rewrite (content_other i).
Qed.

(** Freeing a slot. *)
Lemma map_remove f0 :
  slot (dir_of dk) t = Some f0 → slot e 0 = None →
  dir_wf dk' ∧ fs_map dk' = delete (fi_name f0) (fs_map dk).
Proof.
  intros Hs0 Hnone. assert (∀ i f, (i < 64)%nat → slot (dir_of dk') i = Some f →
    i ≠ t ∧ slot (dir_of dk) i = Some f) as Hinv.
  { intros i f Hi Hs. destruct (decide (i = t)) as [->|Hit]; [by rewrite slot_this, Hnone in Hs|].
    split; [done|]. by rewrite slot_other in Hs. }
  assert (dir_wf dk') as Hw'.
  { constructor.
    - intros i f Hi Hs. destruct (Hinv i f Hi Hs) as [Hit _]. by apply slot_ok_other.
    - intros i j f f' Hi Hj Hs Hs' En. destruct (Hinv i f Hi Hs) as [_ H1]. destruct (Hinv j f' Hj Hs') as [_ H2].
      by apply (dw_names _ Hw i j f f'). }
  split; [done|]. apply map_eq. intros nm. apply option_eq. intros c. rewrite fs_map_Some by done.
  rewrite lookup_delete_Some, fs_map_Some by done. split.
  - intros (i & f & Hi & Hs & En & <-). destruct (Hinv i f Hi Hs) as [Hit H1].
    split; [|exists i, f; by rewrite (content_other i)].
    intros E. apply Hit. apply (dw_names _ Hw i t f f0); congruence.
  - intros (Hne & i & f & Hi & Hs & En & <-). destruct (decide (i = t)) as [->|Hit]; [congruence|].
    exists i, f. rewrite slot_other by done. by rewrite (content_other i).
Qed.
End one_slot.

(** Sectors before the directory do not matter, nor do those behind the last file. *)
Lemma map_same_upto dk dk' b :
  dir_wf dk → length dk' = length dk → 138 ≤ b → (∀ i f, (i < 64)%nat → slot (dir_of dk) i = Some f → fend f ≤ b) →
  (∀ j, (130 ≤ j)%nat → Z.of_nat j < b → dk' !! j = dk !! j) → dir_wf dk' ∧ fs_map dk' = fs_map dk.
Proof.
  intros Hw Hl Hb Hend Hj. assert (dir_of dk' = dir_of dk) as Hd by (apply dir_of_ext; intros; apply Hj; lia).
  assert (dir_wf dk') as Hw'.
  { constructor; rewrite Hd; [|apply Hw]. intros i f Hi Hs. destruct (dw_slots _ Hw i f Hi Hs) as [H0 [H1 H2 H3]].
    split; [done|]. constructor; [done|done|by rewrite Hl]. }
  split; [done|]. apply map_eq. intros nm. apply option_eq. intros c. rewrite !fs_map_Some by done. rewrite Hd.
  assert (∀ i f, (i < 64)%nat → slot (dir_of dk) i = Some f → content dk' f = content dk f) as Hc.
  { intros i f Hi Hs. destruct (dw_slots _ Hw i f Hi Hs) as [_ [H1 H2 H3]]. pose proof (Hend i f Hi Hs).
    apply content_ext; [lia|done|]. intros j Hjr. apply Hj; lia. }
  split; intros (i & f & Hi & Hs & En & <-); exists i, f; by rewrite (Hc i f Hi Hs).
Qed.

Lemma map_same dk dk' :
  dir_wf dk → length dk' = length dk → 138 ≤ Z.of_nat (length dk) → (∀ j, (130 ≤ j)%nat → dk' !! j = dk !! j) →
  dir_wf dk' ∧ fs_map dk' = fs_map dk.
Proof.
  intros Hw Hl Hsz Hj. apply (map_same_upto dk dk' (Z.of_nat (length dk))); [done|done|done| |by intros j H _; apply Hj].
  intros i f Hi Hs. apply (dw_slots _ Hw i f Hi Hs).
Qed.

(** ** Writing *)

(** What the scan has found among the first [i] slots. *)
Record scan_inv (dk : list (list Z)) (nm : list Z) (i : Z) (a : Z * Z * Z) : Prop := ScanInv {
  si_next : 138 ≤ a.2;
  si_used j f : Z.of_nat j < i → slot (dir_of dk) j = Some f → fend f ≤ a.2;
  si_tight : a.2 = 138 ∨ ∃ j f, (j < 64)%nat ∧ slot (dir_of dk) j = Some f ∧ a.2 = fend f;
  si_slot :
    (a.1.2 = 1 ∧ ∃ j f, a.1.1 = Z.of_nat j ∧ Z.of_nat j < i ∧ slot (dir_of dk) j = Some f ∧ fi_name f = nm) ∨
    (a.1.2 = 0 ∧ (∀ j f, Z.of_nat j < i → slot (dir_of dk) j = Some f → fi_name f ≠ nm) ∧
     ((a.1.1 = -1 ∧ ∀ j, Z.of_nat j < i → slot (dir_of dk) j ≠ None) ∨
      ∃ j, a.1.1 = Z.of_nat j ∧ Z.of_nat j < i ∧ slot (dir_of dk) j = None))
}.

Lemma scan_step dk name nm i a :
  dir_wf dk → length (dir_of dk) = 4096%nat → Z.of_nat (length dk) ≤ 268435456 → is_cstr name nm →
  0 ≤ i < 64 → scan_inv dk nm i a →
  ∃ a', scan_entry name (dir_of dk) i a = Some a' ∧ scan_inv dk nm (i + 1) a'.
Proof.
  intros Hw Hl Hdk Hn Hi [H1 H2 H3 H4]. destruct a as [[target over] next]. simpl in *.
  destruct (Z_of_nat_complete i) as [k ->]; [lia|]. unfold scan_entry.
  destruct (slot_cases (dir_of dk) k) as [[-> Hf]|(f & Hf & -> & -> & -> & _)]; [lia| |]; cbn [mbind option_bind].
  - eexists. split; [reflexivity|]. constructor; simpl; [done| |done|].
    + intros j f Hj Hs. apply (H2 j f); [|done]. assert (j ≠ k) by congruence. lia.
    + destruct H4 as [(-> & j & f & -> & Hj & Hs & Hnm)|(-> & Hno & Hfree)].
      * left. split; [done|]. exists j, f. rewrite decide_False by lia. split; [done|]. split; [lia|done].
      * right. split; [done|]. split.
        { intros j f Hj Hs. apply (Hno j f); [|done]. assert (j ≠ k) by congruence. lia. }
        right. destruct Hfree as [[-> _]|(j & -> & Hj & Hs)].
        -- exists k. rewrite decide_True by lia. split; [done|]. split; [lia|done].
        -- exists j. rewrite decide_False by lia. split; [done|]. split; [lia|done].
  - destruct (slot_name_cstr dk k f) as [Hc _]; [done|done|lia|done|].
    destruct (strcmp_cstr _ _ _ _ Hc Hn) as (r & -> & Hr). cbn [mbind option_bind].
    destruct (dw_slots _ Hw k f ltac:(lia) Hf) as [_ [F1 F2 F3]].
    assert (u32 (fi_lba f + u32 (fi_size f + 511) `div` ATA_SECTOR_SIZE) = fend f) as ->.
    { unfold ATA_SECTOR_SIZE. rewrite (u32_small (fi_size f + 511)) by word_lia. unfold fend, secs in *.
      apply u32_small. unfold is_u32. zdm. }
    assert (∀ o1 o2, ((o2 = 1 ∧ o1 = Z.of_nat k ∧ r = 0) ∨ (o1 = target ∧ o2 = over ∧ r ≠ 0)) →
      scan_inv dk nm (Z.of_nat k + 1) (o1, o2, if decide (next < fend f) then fend f else next)) as Hgo.
    { intros o1 o2 Ho. constructor; simpl.
      - destruct (decide (next < fend f)); lia.
      - intros j g Hj Hs. destruct (decide (j = k)) as [->|]; [assert (g = f) as -> by congruence|
          assert (fend g ≤ next) by (apply (H2 j g); [lia|done])]; destruct (decide (next < fend f)); lia.
      - destruct (decide (next < fend f)); [right; exists k, f; split; [lia|done]|done].
      - destruct Ho as [(-> & -> & Hr0)|(-> & -> & Hr0)].
        { left. split; [done|]. exists k, f. split; [done|]. split; [lia|]. split; [done|]. by apply Hr. }
        destruct H4 as [(-> & j & g & -> & Hj & Hs & Hnm)|(-> & Hno & Hfree)].
        { left. split; [done|]. exists j, g. split; [done|]. split; [lia|done]. }
        right. split; [done|]. split.
        { intros j g Hj Hs. destruct (decide (j = k)) as [->|]; [|apply (Hno j g); [lia|done]].
          assert (g = f) as -> by congruence. intros E. by apply Hr0, Hr. }
        destruct Hfree as [[-> Hall]|(j & -> & Hj & Hs)]; [left|right].
        + split; [done|]. intros j Hj. destruct (decide (j = k)) as [->|]; [congruence|]. apply Hall. lia.
        + exists j. split; [done|]. split; [lia|done]. }
    destruct (decide (r = 0)); (eexists; split; [reflexivity|apply Hgo; lia]).
Qed.

(** The result of the whole scan. *)
Lemma scan_ok dk name nm :
  dir_wf dk → length (dir_of dk) = 4096%nat → Z.of_nat (length dk) ≤ 268435456 → is_cstr name nm →
  ∃ a, for_u32_opt 0 FS_MAX_FILES (scan_entry name (dir_of dk)) (-1, 0, FS_DATA_LBA) = Some a ∧
    scan_inv dk nm 64 a.
Proof.
  intros Hw Hl Hdk Hn. apply (for_u32_opt_inv (scan_inv dk nm)); [done| |].
  - constructor; simpl; [done|intros; lia|by left|]. right. split; [done|]. split; [intros; lia|].
    left. split; [done|]. intros; lia.
  - intros i a Hi Ha. unfold FS_MAX_FILES in Hi. by apply scan_step.
Qed.

Lemma chunk_bytes (P : Z → Prop) src len written chunk :
  0 ≤ written → chunk + written ≤ len → Forall P (take (Z.to_nat len) src) →
  Forall P (take (Z.to_nat chunk) (drop (Z.to_nat written) src)).
Proof.
  intros Hw Hc Hf. apply (Forall_drop _ (Z.to_nat written)) in Hf. rewrite skipn_firstn_comm in Hf.
  apply (Forall_take _ (Z.to_nat chunk)) in Hf. rewrite take_take in Hf.
  by replace (Z.to_nat chunk `min` (Z.to_nat len - Z.to_nat written))%nat with (Z.to_nat chunk) in Hf by lia.
Qed.

(** The data loop stores the data, padded with zeros to whole sectors. *)
Lemma write_data_ok n : ∀ k lba src len written s,
  fs_base s → Forall is_u8 (take (Z.to_nat len) src) → 0 ≤ k → 0 ≤ lba → 0 ≤ written ≤ len → len ≤ Z.of_nat (length src) →
  secs (len - written) = Z.of_nat n → lba + k + Z.of_nat n ≤ Z.of_nat (length (disk s)) →
  let rem := take (Z.to_nat (len - written)) (drop (Z.to_nat written) src) in
  ∃ s', write_data k n lba src len written s = Some (0, s') ∧ fs_base s' ∧ f_dir s' = f_dir s ∧
    disk s' = store_sectors (lba + k) (chunks n (rem ++ replicate (512 * n - length rem) 0)) (disk s).
Proof.
  induction n as [|n IH]; intros k lba src len written s Hb Hsrc Hk Hlba Hwr Hlen Hsec Hfit rem.
  { exists s. done. }
  assert (length rem = Z.to_nat (len - written)) as Hrl by (unfold rem; rewrite length_take, length_drop; lia).
  cbn [write_data]. pose proof (fb_sec s Hb) as Hsl. pose proof (fb_size s Hb) as Hsz.
  rewrite memset_Some by (unfold lt in *; lia). cbn [mbind option_bind]. change (u8 0) with 0.
  rewrite (drop_ge (f_sec s)), app_nil_r by lia. unfold ATA_SECTOR_SIZE.
  set (chunk := if decide (512 < len - written) then 512 else len - written).
  assert (0 < len - written) as Hpos by (unfold secs in Hsec; zdm).
  assert (0 < chunk ≤ 512 ∧ chunk ≤ len - written ∧ (chunk = 512 ∨ chunk = len - written ∧ n = 0%nat)) as (Hc1 & Hc2 & Hc3).
  { unfold chunk, secs in *. destruct (decide (512 < len - written)); zdm. }
  rewrite memcpy_Some by (rewrite ?length_replicate, ?length_drop; lia). cbn [mbind option_bind].
  set (sec := take (Z.to_nat chunk) (drop (Z.to_nat written) src) ++ drop (Z.to_nat chunk) (replicate 512 0)).
  assert (sector_ok sec) as Hok.
  { split; [unfold sec; rewrite length_app, length_take, !length_drop, length_replicate; lia|].
    apply Forall_app_2; [by apply (chunk_bytes _ src len); [lia|lia|]|]. apply Forall_drop, Forall_replicate. unfold is_u8; lia. }
  rewrite (u32_small (lba + k)) by word_lia.
  destruct (write_one s (lba + k) sec Hb) as (d & -> & Hi & Hd); [lia|done|]. cbn [mbind option_bind].
  rewrite decide_False by (intros X; by apply X).
  assert (fs_base (Fs d (f_dir s) sec)) as Hb'.
  { apply (base_dev s); [done|done|by rewrite Hd, length_insert|apply Hb|apply Hok]. }
  destruct (IH (k + 1) lba src len (written + chunk) (Fs d (f_dir s) sec)) as (s' & -> & Hb2 & Hdir & Hs');
    [done|done|lia|lia|lia|lia| |simpl; rewrite Hd, length_insert; lia|].
  { unfold secs in *. destruct Hc3 as [->|[-> ->]]; zdm. }
  exists s'. split; [done|]. split; [done|]. split; [done|]. rewrite Hs'. simpl f_dev. rewrite Hd.
  cbn [chunks store_sectors]. replace (lba + (k + 1)) with (lba + k + 1) by lia.
  set (rem' := take (Z.to_nat (len - (written + chunk))) (drop (Z.to_nat (written + chunk)) src)).
  assert (sec = take 512 (rem ++ replicate (512 * S n - length rem) 0)) as <-.
  { unfold sec. rewrite drop_replicate. destruct Hc3 as [Hc|[Hc ->]].
    - rewrite take_app_le by lia. rewrite Hc. simpl. rewrite app_nil_r. unfold rem. rewrite take_take. f_equal. lia.
    - rewrite (take_ge (rem ++ _)) by (rewrite length_app, length_replicate; lia). unfold rem at 1. rewrite Hc. do 2 f_equal. lia. }
  f_equal. destruct Hc3 as [Hc|[Hc ->]]; [|done]. f_equal.
  assert (rem' = drop 512 rem) as Hrem'.
  { unfold rem', rem. rewrite skipn_firstn_comm, drop_drop. f_equal; [lia|]. f_equal. lia. }
  rewrite drop_app_le by lia. rewrite <-Hrem'. do 2 f_equal. rewrite Hrem', length_drop. lia.
Qed.

(** Data that do not fit run into the end of the disk: the driver reports the
    sector that is not there, and nothing below the first data sector changes. *)
Lemma write_data_end n : ∀ k lba src len written s,
  fs_base s → Forall is_u8 (take (Z.to_nat len) src) → 0 ≤ k → 0 ≤ lba → 0 ≤ written ≤ len → len ≤ Z.of_nat (length src) →
  secs (len - written) = Z.of_nat n → Z.of_nat (length (disk s)) < 268435456 →
  lba + k ≤ Z.of_nat (length (disk s)) < lba + k + Z.of_nat n →
  ∃ s', write_data k n lba src len written s = Some (-1, s') ∧ fs_base s' ∧ length (disk s') = length (disk s) ∧
    ∀ j, Z.of_nat j < lba + k → disk s' !! j = disk s !! j.
Proof.
  induction n as [|n IH]; intros k lba src len written s Hb Hsrc Hk Hlba Hwr Hlen Hsec Hsmall Hend; [lia|].
  cbn [write_data]. pose proof (fb_sec s Hb) as Hsl. pose proof (fb_size s Hb) as Hsz.
  rewrite memset_Some by (unfold lt in *; lia). cbn [mbind option_bind]. change (u8 0) with 0.
  rewrite (drop_ge (f_sec s)), app_nil_r by lia. unfold ATA_SECTOR_SIZE.
  set (chunk := if decide (512 < len - written) then 512 else len - written).
  assert (0 < len - written) as Hpos by (unfold secs in Hsec; zdm).
  assert (0 < chunk ≤ 512 ∧ chunk ≤ len - written ∧ secs (len - (written + chunk)) = Z.of_nat n) as (Hc1 & Hc2 & Hc3).
  { unfold chunk, secs in *. destruct (decide (512 < len - written)); zdm. }
  rewrite memcpy_Some by (rewrite ?length_replicate, ?length_drop; lia). cbn [mbind option_bind].
  set (sec := take (Z.to_nat chunk) (drop (Z.to_nat written) src) ++ drop (Z.to_nat chunk) (replicate 512 0)).
  assert (sector_ok sec) as Hok.
  { split; [unfold sec; rewrite length_app, length_take, !length_drop, length_replicate; lia|].
    apply Forall_app_2; [by apply (chunk_bytes _ src len); [lia|lia|]|]. apply Forall_drop, Forall_replicate. unfold is_u8; lia. }
  rewrite (u32_small (lba + k)) by word_lia. destruct (decide (lba + k = Z.of_nat (length (disk s)))) as [Heq|Hne].
  - destruct (bd_write_end (f_dev s) (lba + k) 1 sec) as (d & -> & Hi & Hd); [apply Hb|lia|lia|lia|].
    cbn [mbind option_bind]. rewrite decide_True by done. eexists. split; [reflexivity|]. cbn [f_dev]. rewrite Hd.
    split; [|done]. apply (base_dev s); [done|done|by rewrite Hd|apply Hb|apply Hok].
  - destruct (write_one s (lba + k) sec Hb) as (d & -> & Hi & Hd); [lia|done|]. cbn [mbind option_bind].
    rewrite decide_False by (intros X; by apply X).
    destruct (IH (k + 1) lba src len (written + chunk) (Fs d (f_dir s) sec)) as (s' & -> & Hb2 & Hl & Hs');
      [|done|lia|lia|lia|lia|done|simpl; rewrite Hd, length_insert; lia..|].
    { apply (base_dev s); [done|done|by rewrite Hd, length_insert|apply Hb|apply Hok]. }
    cbn [f_dev] in *. rewrite Hd in Hl, Hs'. rewrite length_insert in Hl. exists s'. split_and!; [done..|].
    intros j Hj. rewrite Hs' by lia. apply list_lookup_insert_ne. lia.
Qed.

(** The disk after data and directory have been written. *)
Lemma write_disk dk nm next t data :
  Forall sector_ok dk → 138 ≤ Z.of_nat (length dk) ≤ 268435456 → dir_wf dk →
  Forall (λ c, c ≠ 0) nm → nm ≠ [] → Z.of_nat (length data) < 4294967296 - 511 → Forall is_u8 data →
  138 ≤ next → next + secs (Z.of_nat (length data)) ≤ Z.of_nat (length dk) → (t < 64)%nat →
  (∀ i f, (i < 64)%nat → slot (dir_of dk) i = Some f → fend f ≤ next) →
  (∀ i f, (i < 64)%nat → i ≠ t → slot (dir_of dk) i = Some f → fi_name f ≠ take 31 nm) →
  (∀ f, slot (dir_of dk) t = Some f → fi_name f = take 31 nm) →
  let n := Z.to_nat (secs (Z.of_nat (length data))) in
  let dk1 := store_sectors next (chunks n (data ++ replicate (512 * n - length data) 0)) dk in
  let dk2 := store_sectors 130
    (chunks 8 (set_entry (dir_of dk) t (new_entry nm next (Z.of_nat (length data))))) dk1 in
  dir_wf dk2 ∧ fs_map dk2 = <[take 31 nm := data]> (fs_map dk) ∧ dk2 !! 129%nat = dk !! 129%nat.
Proof.
  intros Hsec Hsz Hw Hnm Hne Hdl Hdb Hnext Hfit Ht Hend Hfresh Hsame n dk1 dk2.
  set (e := new_entry nm next (Z.of_nat (length data))) in *.
  pose proof (secs_bounds (Z.of_nat (length data))) as Hsb.
  set (P := data ++ replicate (512 * n - length data) 0) in *.
  assert (length P = (512 * n)%nat) as HP by (unfold P; rewrite length_app, length_replicate; lia).
  assert (Forall is_u8 P) as HPb by (apply Forall_app_2; [done|]; apply Forall_replicate; unfold is_u8; lia).
  pose proof (dir_of_length dk Hsec ltac:(lia)) as Hdirl.
  assert (length e = 64%nat) as He by apply new_entry_length.
  assert (length dk1 = length dk) as Hl1
    by (apply store_sectors_ok; [apply chunks_ok; [lia|done]|done]).
  assert (∀ j, dk1 !! j = if decide (next ≤ Z.of_nat j < next + Z.of_nat n) then chunks n P !! (j - Z.to_nat next)%nat else dk !! j) as Hj1.
  { intros j. unfold dk1. rewrite store_sectors_lookup by (rewrite ?chunks_length; lia). by rewrite chunks_length. }
  assert (∀ j, (j < 130 ∨ 138 ≤ j)%nat → dk2 !! j = dk1 !! j) as Hj2.
  { intros j Hj. apply store_dir_lookup; [lia|done]. }
  assert (length dk2 = length dk) as Hl2.
  { rewrite <-Hl1. unfold dk2. apply length_store_sectors. }
  set (g := FInfo (take 31 nm) next (Z.of_nat (length data))).
  assert (content dk2 g = data) as Hcont.
  { rewrite (content_ext dk2 dk1); [|simpl; lia|lia|intros j Hj; apply Hj2; simpl in Hj; lia].
    unfold content. cbn [fi_lba fi_size]. fold n. pose proof (read_back next (chunks n P) dk) as Hrb.
    rewrite chunks_length in Hrb. fold dk1 in Hrb. unfold g. cbn [fi_lba fi_size]. fold n. rewrite Hrb by lia.
    rewrite chunks_concat by lia. rewrite (take_ge P) by lia. unfold P. rewrite Nat2Z.id. by apply take_app_length. }
  destruct (map_put dk dk2 t e Hw Hl2 Hdirl Ht He) with (g := g) as [Hw2 Hm2].
  - apply dir_of_store; [rewrite set_entry_length; lia|lia].
  - intros i f j Hi Hit Hs Hj. destruct (dw_slots _ Hw i f Hi Hs) as [_ [F1 F2 F3]].
    pose proof (Hend i f Hi Hs). rewrite Hj2, Hj1 by lia. by rewrite decide_False by lia.
  - apply slot_new_entry; [done|done|unfold is_u32; lia|unfold is_u32; lia].
  - unfold e, new_entry. rewrite take_app_length' by (symmetry; apply name_field_length).
    destruct (name_field_cstr nm Hnm) as (rest & -> & _). set_solver.
  - constructor; simpl; [lia|lia|]. rewrite Hl2. unfold fend, g. simpl. lia.
  - done.
  - done.
  - split; [done|]. split; [by rewrite Hm2, Hcont|]. rewrite Hj2, Hj1 by lia. by rewrite decide_False by lia.
Qed.

(** Updating the file count of a superblock. *)
Lemma put_count sb v :
  sector_ok sb → is_u32 v →
  ∃ sb', put32 sb 12 v = Some sb' ∧ sector_ok sb' ∧ take 8 sb' = take 8 sb ∧ get32 sb' 8 = get32 sb 8 ∧
    get32 sb' 12 = Some v.
Proof.
  intros [Hl Hf] Hv. exists (take 12 sb ++ le32 v ++ drop 16 sb).
  assert (sb = take 12 sb ++ take 4 (drop 12 sb) ++ drop 16 sb) as Hsb.
  { change 16%nat with (12 + 4)%nat. by rewrite <-drop_drop, take_drop, take_drop. }
  assert (length (take 12 sb) = 12%nat) as Ht by (rewrite length_take; lia).
  split; [|split; [|split; [|split]]].
  - rewrite Hsb at 1. change 12 with (12 + 0). rewrite (put32_app (take 12 sb)) by lia.
    by rewrite put32_head by (rewrite length_take, length_drop; lia).
  - split; [rewrite !length_app, Ht, length_drop, Hl; done|].
    repeat apply Forall_app_2; [by apply Forall_take|apply le32_bytes|by apply Forall_drop].
  - rewrite take_app_le by lia. rewrite take_take. done.
  - rewrite <-(get32_take _ 12 8) by lia. rewrite take_app_length' by done. by rewrite get32_take by lia.
  - change 12 with (12 + 0). rewrite get32_app by lia. by apply get32_le32.
Qed.

(** A disk whose superblock counts the files of its directory. *)
Lemma super_update dk sb m :
  Forall sector_ok dk → 138 ≤ Z.of_nat (length dk) ≤ 268435456 → dir_wf dk → fs_map dk = m → sector_ok sb →
  take 8 sb = FS_MAGIC → get32 sb 8 = Some FS_VERSION → get32 sb 12 = Some (Z.of_nat (size m)) →
  disk_wf (<[129%nat := sb]> dk) ∧ fs_map (<[129%nat := sb]> dk) = m.
Proof.
  intros Hsec Hsz Hw Hm Hsb H1 H2 H3.
  destruct (map_same dk (<[129%nat := sb]> dk) Hw) as [Hw' Hm'].
  - apply length_insert.
  - lia.
  - intros j Hj. apply list_lookup_insert_ne. lia.
  - rewrite Hm in Hm'. split; [|done]. constructor; [by apply Forall_insert|by rewrite length_insert|done|].
    exists sb. rewrite Hm'. split; [|done]. apply list_lookup_insert_eq. lia.
Qed.

(** There is space behind the last file for [len] more bytes. *)
Definition has_space (dk : list (list Z)) (len : Z) : Prop :=
  138 + secs len ≤ Z.of_nat (length dk) ∧
  ∀ i f, (i < 64)%nat → slot (dir_of dk) i = Some f → fend f + secs len ≤ Z.of_nat (length dk).

(** A slot for the name: its own, or a free one. *)
Definition has_slot (dk : list (list Z)) (nm : list Z) : Prop :=
  is_Some (fs_map dk !! nm) ∨ ∃ i, (i < 64)%nat ∧ slot (dir_of dk) i = None.

(** The slot chosen by the scan. *)
Lemma scan_target dk nm target over next :
  dir_wf dk → length (dir_of dk) = 4096%nat → scan_inv dk nm 64 (target, over, next) → has_slot dk nm →
  ((length nm ≤ 31)%nat ∨ fs_map dk !! take 31 nm = None) →
  ∃ t, target = Z.of_nat t ∧ (t < 64)%nat ∧
    (∀ i f, (i < 64)%nat → i ≠ t → slot (dir_of dk) i = Some f → fi_name f ≠ take 31 nm) ∧
    (∀ f, slot (dir_of dk) t = Some f → fi_name f = take 31 nm) ∧
    ((over = 1 ∧ is_Some (fs_map dk !! take 31 nm)) ∨ (over = 0 ∧ fs_map dk !! take 31 nm = None)).
Proof.
  intros Hw Hl [_ _ _ Hs] Hslot Hlong. simpl in Hs.
  destruct Hs as [(-> & t & f & -> & Ht & Hf & Hn)|(-> & Hno & Hfree)].
  - destruct (slot_name_cstr dk t f) as [_ Hnl]; [done|done|lia|done|].
    assert (take 31 nm = nm) as -> by (apply take_ge; congruence).
    exists t. split; [done|]. split; [lia|]. split; [|split].
    + intros i g Hi Hit Hg E. apply Hit. apply (dw_names _ Hw i t g f); (done || lia || congruence).
    + intros g Hg. congruence.
    + left. split; [done|]. exists (content dk f). apply fs_map_Some; [done|]. exists t, f. split; [lia|done].
  - assert (fs_map dk !! nm = None) as Hnone by (apply fs_map_None; [done|]; intros i f Hi; apply Hno; lia).
    assert (fs_map dk !! take 31 nm = None) as Hst.
    { destruct Hlong as [Hlong|]; [|done]. by rewrite take_ge. }
    destruct Hfree as [[_ Hall]|(t & -> & Ht & Hf)].
    { exfalso. destruct Hslot as [[c Hc]|(i & Hi & Hni)]; [congruence|]. by apply (Hall i); [lia|]. }
    exists t. split; [done|]. split; [lia|]. split; [|split].
    + intros i f Hi _ Hs. by apply (proj1 (fs_map_None dk _ Hw) Hst i f Hi).
    + intros f Hf'. congruence.
    + by right.
Qed.

Lemma cstr_head name nm c : is_cstr name nm → head nm = Some c → head name = Some c ∧ c ≠ 0.
Proof.
  intros (rest & -> & Hf) Hc. destruct nm as [|c' nm]; [done|]. injection Hc as ->.
  by apply Forall_cons_1 in Hf as [Hf _].
Qed.

(** The superblock, written last, with the count of the files in the directory. *)
Lemma write_super_map s sb m :
  fs_base s → dir_wf (disk s) → fs_map (disk s) = m → sector_ok sb → take 8 sb = FS_MAGIC →
  get32 sb 8 = Some FS_VERSION → get32 sb 12 = Some (Z.of_nat (size m)) →
  ∃ s', write_super sb s = Some (0, s') ∧ fs_wf s' ∧ fs_map (disk s') = m ∧ length (disk s') = length (disk s).
Proof.
  intros Hb Hw Hm Hok H1 H2 H3. destruct (write_super_ok s sb Hb Hok) as (d & -> & Hb' & Hd).
  destruct (super_update (disk s) sb m) as [Hk Hm']; [by apply (fb_sectors _ Hb)|apply (fb_size _ Hb)|done..|].
  eexists. split; [reflexivity|]. cbn [f_dev with_dev]. rewrite Hd, length_insert. split; [split; [done|]|done]. cbn [f_dev with_dev]. by rewrite Hd.
Qed.

(** The file count grows exactly when the name is new. *)
Lemma count_after_write dk sb over nm dat :
  sector_ok sb → take 8 sb = FS_MAGIC → get32 sb 8 = Some FS_VERSION →
  get32 sb 12 = Some (Z.of_nat (size (fs_map dk))) →
  ((over = 1 ∧ is_Some (fs_map dk !! nm)) ∨ (over = 0 ∧ fs_map dk !! nm = None)) →
  ∃ sb', (if decide (over = 0) then put32 sb 12 (u32 (Z.of_nat (size (fs_map dk)) + 1)) else Some sb) = Some sb' ∧
    sector_ok sb' ∧ take 8 sb' = FS_MAGIC ∧ get32 sb' 8 = Some FS_VERSION ∧
    get32 sb' 12 = Some (Z.of_nat (size (<[nm := dat]> (fs_map dk)))).
Proof.
  intros Hok Hmag Hver Hcnt Hover. pose proof (fs_map_size dk) as Hms.
  rewrite map_size_insert. destruct Hover as [[-> [c' Hc']]|[-> Hc']]; rewrite Hc'.
  - rewrite decide_False by done. by exists sb.
  - rewrite decide_True by done. rewrite (u32_small (_ + 1)) by (unfold is_u32; lia).
    destruct (put_count sb (Z.of_nat (size (fs_map dk)) + 1) Hok) as (sb' & E1 & E2 & E3 & E4 & E5);
      [unfold is_u32; lia|].
    exists sb'. split; [done|]. split; [done|]. split; [congruence|]. split; [congruence|]. rewrite E5. f_equal. lia.
Qed.

(** [fs_write_new] on a formatted disk up to the end of the scan. *)
Lemma fs_write_scan s name nm data len :
  fs_wf s → is_cstr name nm → nm ≠ [] →
  ∃ sb target over next d, let s2 := Fs d (dir_of (disk s)) (f_sec s) in
    fs_write_new name data len s = write_entry name data len sb target over next s2 ∧ fs_base s2 ∧ bd_sectors d = disk s ∧
    scan_inv (disk s) nm 64 (target, over, next) ∧ sector_ok sb ∧ take 8 sb = FS_MAGIC ∧
    get32 sb 8 = Some FS_VERSION ∧ get32 sb 12 = Some (Z.of_nat (size (fs_map (disk s)))).
Proof.
  intros [Hb Hk] Hn Hne. destruct nm as [|c nm0] eqn:Enm; [done|]. rewrite <-Enm in *.
  destruct (cstr_head name nm c Hn) as [Hhead Hc0]; [by rewrite Enm|].
  unfold fs_write_new. rewrite Hhead. cbn [mbind option_bind]. rewrite decide_False by done.
  destruct (read_super_ok s Hb) as (sb & d1 & Hsb & Hsbok & -> & Hb1 & Hd1). cbn [mbind option_bind].
  rewrite decide_False by (intros X; by apply X).
  destruct (read_dir_ok _ Hb1) as (d2 & -> & Hb2 & Hd2). cbn [mbind option_bind f_dev with_dev f_dir f_sec] in *.
  rewrite decide_False by (intros X; by apply X). rewrite Hd1 in *.
  destruct (kw_super _ Hk) as (sb' & Hsb' & Hmag & Hver & Hcnt). rewrite Hsb in Hsb'. injection Hsb' as <-.
  destruct (memcmp_eq_0 sb FS_MAGIC 8) as (r & -> & Hr); [destruct Hsbok as [-> _]; lia|done|].
  cbn [mbind option_bind]. assert (r = 0) as -> by (by apply Hr).
  rewrite decide_False by (intros X; by apply X). destruct Hk as [Hks Hksz Hkd _].
  destruct (scan_ok (disk s) name nm Hkd) as ([[target over] next] & -> & Hscan); [by apply fb_dir_of_length|lia|done|].
  cbn [mbind option_bind]. exists sb, target, over, next, d2. by split_and!.
Qed.

(** The scan's next free sector decides whether the data fit. *)
Lemma scan_space dk nm target over next len :
  scan_inv dk nm 64 (target, over, next) → 138 ≤ Z.of_nat (length dk) →
  has_space dk len ↔ next + secs len ≤ Z.of_nat (length dk).
Proof.
  intros [Hnext Hused Htight _] Hdk. simpl in *. split.
  - intros [H1 H2]. destruct Htight as [->|(j & f & Hj & Hs & ->)]; [done|]. by apply (H2 j).
  - intros H. split; [lia|]. intros i f Hi Hs. pose proof (Hused i f ltac:(lia) Hs). lia.
Qed.

Lemma scan_no_slot dk nm over next :
  dir_wf dk → scan_inv dk nm 64 (-1, over, next) → ¬ has_slot dk nm.
Proof.
  intros Hw [_ _ _ Hs] Hslot. simpl in Hs.
  destruct Hs as [(_ & t & f & Ht & _)|(_ & Hno & [[_ Hall]|(t & Ht & _)])]; [lia| |lia].
  destruct Hslot as [[c Hc]|(i & Hi & Hni)].
  - apply fs_map_Some in Hc as (i & f & Hi & Hs & En & _); [|done]. by apply (Hno i f); [lia|..].
  - by apply (Hall i); [lia|].
Qed.

Lemma scan_has_slot dk nm target over next :
  dir_wf dk → scan_inv dk nm 64 (target, over, next) → ¬ target < 0 → has_slot dk nm.
Proof.
  intros Hw [_ _ _ Hs] Ht. simpl in Hs.
  destruct Hs as [(_ & t & f & -> & Hlt & Hf & Hn)|(_ & _ & [[-> _]|(t & -> & Hlt & Hf)])]; [|lia|].
  - left. exists (content dk f). apply fs_map_Some; [done|]. exists t, f. split; [lia|done].
  - right. exists t. split; [lia|done].
Qed.

(** The next free sector is on the disk or just behind it. *)
Lemma scan_bound dk nm target over next :
  dir_wf dk → 138 ≤ Z.of_nat (length dk) → scan_inv dk nm 64 (target, over, next) → next ≤ Z.of_nat (length dk).
Proof.
  intros Hw Hdk [_ _ Ht _]. simpl in Ht. destruct Ht as [->|(j & f & Hj & Hs & ->)]; [done|].
  apply (dw_slots _ Hw j f Hj Hs).
Qed.

#[export] Instance has_space_dec dk len : Decision (has_space dk len).
Proof.
  unfold has_space. apply and_dec; [apply _|].
  destruct (decide (Forall (λ i, from_option (λ f, bool_decide (fend f + secs len ≤ Z.of_nat (length dk))) true (slot (dir_of dk) i) = true) (seq 0 64))) as [Hf|Hf].
  - left. intros i f Hi Hs. rewrite Forall_seq in Hf. specialize (Hf i ltac:(lia)). cbv beta in Hf. rewrite Hs in Hf. by apply bool_decide_eq_true in Hf.
  - right. intros Ha. apply Hf. apply Forall_seq. intros i Hi. destruct (slot _ i) eqn:E; [|done]. apply bool_decide_eq_true, (Ha i); [lia|done].
Defined.

#[export] Instance has_slot_dec dk nm : Decision (has_slot dk nm).
Proof.
  unfold has_slot. apply or_dec; [apply _|].
  destruct (decide (Exists (λ i, slot (dir_of dk) i = None) (seq 0 64))) as [Hf|Hf].
  - left. apply Exists_exists in Hf as (i & Hi%in_seq & E). exists i. split; [lia|done].
  - right. intros (i & Hi & E). apply Hf, Exists_exists. exists i. split; [apply in_seq; lia|done].
Defined.

Lemma fs_write_lemma s name nm data len :
  fs_wf s → is_cstr name nm → nm ≠ [] → Forall is_u8 nm → Forall is_u8 (take (Z.to_nat len) data) →
  0 ≤ len < 4294967296 - 511 → len ≤ Z.of_nat (length data) →
  has_space (disk s) len → has_slot (disk s) nm →
  ((length nm ≤ 31)%nat ∨ fs_map (disk s) !! take 31 nm = None) →
  ∃ s', fs_write_new name data len s = Some (0, s') ∧ fs_wf s' ∧
    fs_map (disk s') = <[take 31 nm := take (Z.to_nat len) data]> (fs_map (disk s)) ∧ length (disk s') = length (disk s).
Proof.
  intros Hwf Hn Hne Hnb Hdb Hlen Hdl Hsp Hslot Hlong.
  destruct (fs_write_scan s name nm data len Hwf Hn Hne)
    as (sb & target & over & next & d2 & -> & Hb2 & Hd2 & Hscan & Hsbok & Hmag & Hver & Hcnt).
  destruct Hwf as [Hb [Hks Hksz Hkd _]]. pose proof (fb_dir_of_length s Hb) as Hdirl.
  assert (next + secs len ≤ Z.of_nat (length (disk s))) as Hfit by (by apply (scan_space _ _ _ _ _ _ Hscan); [lia|]).
  destruct (scan_target _ _ _ _ _ Hkd Hdirl Hscan Hslot Hlong) as (t & -> & Ht & Hfresh & Hsame & Hover).
  destruct Hscan as [Hnext Hused Htight _]. simpl in Hnext, Hused, Htight.
  unfold write_entry. rewrite decide_False by lia. pose proof (secs_bounds len).
  assert (u32 (len + 511) `div` ATA_SECTOR_SIZE = secs len) as -> by (rewrite u32_small by word_lia; done).
  set (dat := take (Z.to_nat len) data).
  assert (Z.of_nat (length dat) = len) as Hdat by (unfold dat; rewrite length_take; lia).
  destruct (write_data_ok (Z.to_nat (secs len)) 0 next data len 0 (Fs d2 (dir_of (disk s)) (f_sec s)))
    as (s3 & -> & Hb3 & Hdir3 & Hd3); [done|done|lia|lia|lia|done|rewrite Z.sub_0_r; lia|simpl; rewrite Hd2; lia|].
  rewrite Z.sub_0_r, drop_0, Z.add_0_r in Hd3. fold dat in Hd3. cbn [mbind option_bind f_dir f_dev] in *.
  rewrite decide_False by (intros X; by apply X). rewrite Hdir3.
  rewrite (put_dirent_eq _ t name nm) by (done || lia). cbn [mbind option_bind].
  set (dir' := set_entry (dir_of (disk s)) t (new_entry nm next len)).
  assert (length dir' = 4096%nat) as Hdl' by (unfold dir'; rewrite set_entry_length; rewrite ?new_entry_length; lia).
  assert (fs_base (Fs (f_dev s3) dir' (f_sec s3))) as Hb3' by (destruct Hb3; by constructor).
  destruct (write_dir_ok (Fs (f_dev s3) dir' (f_sec s3)) Hb3') as (d4 & -> & Hb4 & Hd4).
  { apply set_entry_bytes; [by apply fb_dir_of_bytes|by apply new_entry_bytes]. }
  cbn [mbind option_bind f_dir f_dev with_dev f_sec] in *. rewrite decide_False by (intros X; by apply X).
  rewrite Hcnt. cbn [mbind option_bind].
  destruct (write_disk (disk s) nm next t dat) as (Hw4 & Hm4 & _).
  { done. } { done. } { done. } { by destruct Hn as (? & _ & ?). } { congruence. } { lia. } { done. }
  { done. } { by rewrite Hdat. } { done. } { intros i f Hi Hs. apply (Hused i f); [lia|done]. } { done. } { done. }
  rewrite Hdat in Hw4, Hm4. fold dir' in Hw4, Hm4. rewrite Hd2 in Hd3. rewrite <-Hd3, <-Hd4 in Hw4, Hm4.
  destruct (count_after_write (disk s) sb over (take 31 nm) dat Hsbok Hmag Hver Hcnt Hover)
    as (sb' & -> & Hok' & M1 & M2 & M3).
  cbn [mbind option_bind].
  destruct (write_super_map _ sb' _ Hb4 Hw4 Hm4 Hok' M1 M2 M3) as (s' & Es & Hwf' & Hm' & Hl').
  exists s'. split_and!; [done..|]. rewrite Hl'. cbn [f_dev with_dev]. by rewrite Hd4, length_store_sectors, Hd3, length_store_sectors.
Qed.

(** [fs_write_new] is insertion into the abstract map.  For a name of at most
    31 characters, with a slot and space behind the last file, it returns 0, the
    file then has exactly the [len] bytes given, every other file keeps its
    content, and the invariant holds again: well-formed distinct names, all files
    inside the disk, the superblock counting the files (also when an existing file
    is overwritten). *)
Theorem fs_write_new_refines s name nm data len :
  fs_wf s → is_cstr name nm → nm ≠ [] → (length nm ≤ 31)%nat → Forall is_u8 nm → Forall is_u8 data →
  0 ≤ len < 4294967296 - 511 → len ≤ Z.of_nat (length data) →
  has_space (disk s) len → has_slot (disk s) nm →
  ∃ s', fs_write_new name data len s = Some (0, s') ∧ fs_wf s' ∧
    fs_map (disk s') = <[nm := take (Z.to_nat len) data]> (fs_map (disk s)).
Proof.
  intros Hwf Hn Hne Hl Hnb Hdb Hlen Hdl Hsp Hslot.
  destruct (fs_write_lemma s name nm data len) as (s' & E & Hwf' & Hm & Hlen'); [(done || by apply Forall_take)..|by left|].
  exists s'. split; [done|]. split; [done|]. by rewrite Hm, take_ge.
Qed.

(** Data written at or behind sector [next], past the last file, change no file. *)
Lemma wf_kept s s' nm target over next :
  fs_wf s → scan_inv (disk s) nm 64 (target, over, next) → fs_base s' → length (disk s') = length (disk s) →
  (∀ j, Z.of_nat j < next → disk s' !! j = disk s !! j) →
  fs_wf s' ∧ fs_map (disk s') = fs_map (disk s) ∧ length (disk s') = length (disk s).
Proof.
  intros [Hb [Hks Hksz Hkd (sb & Hsb & Hsuper)]] [Hnext Hused _ _] Hb' Hl Hj. simpl in Hnext, Hused.
  destruct (map_same_upto (disk s) (disk s') next) as [Hw Hm]; [done|done|done| |by intros; apply Hj|].
  { intros i f Hi. apply Hused. lia. }
  split; [|split; [exact Hm|exact Hl]]. split; [done|]. constructor; [apply (fb_sectors _ Hb')|apply (fb_size _ Hb')|done|].
  exists sb. rewrite Hm. split; [|done]. rewrite Hj; [done|lia].
Qed.

(** A write that finds no slot, or no space, fails and changes no file. *)
Lemma fs_write_fails s name nm data len :
  fs_wf s → is_cstr name nm → Forall is_u8 (take (Z.to_nat len) data) →
  0 ≤ len < 4294967296 - 511 → len ≤ Z.of_nat (length data) → Z.of_nat (length (disk s)) < 268435456 →
  ¬ (nm ≠ [] ∧ has_space (disk s) len ∧ has_slot (disk s) nm) →
  ∃ s', fs_write_new name data len s = Some (-1, s') ∧ fs_wf s' ∧ fs_map (disk s') = fs_map (disk s) ∧
    length (disk s') = length (disk s).
Proof.
  intros Hwf Hn Hdb Hlen Hdl Hsmall Hnot. destruct (decide (nm = [])) as [->|Hne].
  { exists s. destruct Hn as (rest & -> & _). by unfold fs_write_new. }
  destruct (fs_write_scan s name nm data len Hwf Hn Hne) as (sb & target & over & next & d2 & -> & Hb2 & Hd2 & Hscan & _).
  unfold write_entry. case_decide as Ht.
  { eexists. split; [reflexivity|]. apply (wf_kept s _ nm target over next); [done..| |]; cbn [f_dev]; by rewrite Hd2. }
  pose proof Hwf as [Hb [Hks Hksz Hkd _]]. pose proof (si_next _ _ _ _ Hscan) as Hnext. simpl in Hnext.
  assert (next ≤ Z.of_nat (length (disk s))) as Hnl by (by apply (scan_bound (disk s) nm target over); [|lia|]).
  assert (Z.of_nat (length (disk s)) < next + secs len) as Hno.
  { apply Z.nle_gt. intros Hfit. apply Hnot. split; [done|].
    split; [by apply (scan_space _ _ _ _ _ _ Hscan); [lia|]|by apply (scan_has_slot (disk s) nm target over next)]. }
  assert (u32 (len + 511) `div` ATA_SECTOR_SIZE = secs len) as -> by (rewrite u32_small by word_lia; done).
  pose proof (secs_bounds len).
  destruct (write_data_end (Z.to_nat (secs len)) 0 next data len 0 (Fs d2 (dir_of (disk s)) (f_sec s)))
    as (s3 & -> & Hb3 & Hl3 & Hj3); [done|done|lia|lia|lia|done|rewrite Z.sub_0_r; lia|simpl; rewrite Hd2; lia..|].
  cbn [mbind option_bind f_dev] in *. rewrite decide_True by done. eexists. split; [reflexivity|].
  rewrite Hd2 in Hl3, Hj3. apply (wf_kept s _ nm target over next); [done..|]. intros j Hj. apply Hj3. lia.
Qed.

Lemma fs_write_total_lemma s name nm data len :
  fs_wf s → is_cstr name nm → (length nm ≤ 31)%nat → Forall is_u8 nm → Forall is_u8 (take (Z.to_nat len) data) →
  0 ≤ len < 4294967296 - 511 → len ≤ Z.of_nat (length data) → Z.of_nat (length (disk s)) < 268435456 →
  ∃ r s', fs_write_new name data len s = Some (r, s') ∧ fs_wf s' ∧ length (disk s') = length (disk s) ∧
    ((r = 0 ∧ nm ≠ [] ∧ has_space (disk s) len ∧ has_slot (disk s) nm ∧
      fs_map (disk s') = <[nm := take (Z.to_nat len) data]> (fs_map (disk s))) ∨
     (r = -1 ∧ ¬ (nm ≠ [] ∧ has_space (disk s) len ∧ has_slot (disk s) nm) ∧ fs_map (disk s') = fs_map (disk s))).
Proof.
  intros Hwf Hn Hl Hnb Hdb Hlen Hdl Hsmall.
  destruct (decide (nm ≠ [] ∧ has_space (disk s) len ∧ has_slot (disk s) nm)) as [(H1 & H2 & H3)|Hnot].
  - destruct (fs_write_lemma s name nm data len) as (s' & E & Hwf' & Hm & Hlen'); [done..|by left|].
    rewrite take_ge in Hm by done. exists 0, s'. auto 10.
  - destruct (fs_write_fails s name nm data len) as (s' & E & Hwf' & Hm & Hlen'); [done..|]. exists (-1), s'. auto 10.
Qed.

(** C10: [fs_write_new] as a total operation on the abstract map.  On a formatted
    disk of fewer than 2^28 sectors, for every name of at most 31 characters (a longer
    one is stored cut off, [fs_long_name_lost]) and
    every content of fewer than 2^32 - 511 bytes, it returns 0 and has inserted the file
    exactly when the name is
    not empty, there is a slot for it and the data fit behind the last file; in
    every other case it returns -1 and every file, also one of that name, still has
    the content it had before, although sectors behind the last file may have been
    written by then. *)
Theorem fs_write_new_total s name nm data len :
  fs_wf s → is_cstr name nm → (length nm ≤ 31)%nat → Forall is_u8 nm → Forall is_u8 (take (Z.to_nat len) data) →
  0 ≤ len < 4294967296 - 511 → len ≤ Z.of_nat (length data) → Z.of_nat (length (disk s)) < 268435456 →
  ∃ r s', fs_write_new name data len s = Some (r, s') ∧ fs_wf s' ∧
    ((r = 0 ∧ nm ≠ [] ∧ has_space (disk s) len ∧ has_slot (disk s) nm ∧
      fs_map (disk s') = <[nm := take (Z.to_nat len) data]> (fs_map (disk s))) ∨
     (r = -1 ∧ ¬ (nm ≠ [] ∧ has_space (disk s) len ∧ has_slot (disk s) nm) ∧ fs_map (disk s') = fs_map (disk s))).
Proof.
  intros Hwf Hn Hl Hnb Hdb Hlen Hdl Hsmall.
  destruct (fs_write_total_lemma s name nm data len) as (r & s' & E & Hwf' & _ & H); [done..|]. by exists r, s'.
Qed.

(** A name longer than 31 characters is stored cut off without an error:
    [fs_write_new] returns 0 and the file appears under the first 31 characters,
    but [fs_open] of the name just written returns -1. *)
Theorem fs_long_name_lost s name nm data len f :
  fs_wf s → is_cstr name nm → (31 < length nm)%nat → Forall is_u8 nm → Forall is_u8 data →
  0 ≤ len < 4294967296 - 511 → len ≤ Z.of_nat (length data) →
  has_space (disk s) len → has_slot (disk s) nm → fs_map (disk s) !! take 31 nm = None →
  ∃ s' s'', fs_write_new name data len s = Some (0, s') ∧
    fs_map (disk s') !! take 31 nm = Some (take (Z.to_nat len) data) ∧
    fs_open name f s' = Some (-1, f, s'').
Proof.
  intros Hwf Hn Hl Hnb Hdb Hlen Hdl Hsp Hslot Hfr.
  assert (nm ≠ []) as Hne by (by destruct nm; [simpl in Hl; lia|]).
  destruct (fs_write_lemma s name nm data len) as (s' & E & [Hb' Hk'] & Hm & _); [(done || by apply Forall_take)..|by right|].
  destruct (read_dir_ok s' Hb') as (d & Er & Hb2 & Hd).
  eexists s', _. split; [done|]. split; [by rewrite Hm, lookup_insert_eq|].
  unfold fs_open. rewrite Er. cbn [mbind option_bind f_dir]. rewrite decide_False by (intros X; by apply X).
  pose proof (fb_dir_of_length s' Hb') as Hdl'.
  destruct (find_file_map (disk s') name nm (kw_dir _ Hk') Hdl' Hn) as [(j & g & Hj & Hs & Hg & _ & _)|[-> _]]; [|done].
  destruct (slot_name_cstr (disk s') j g) as [_ Hgl]; [apply Hk'|done|done|done|]. subst. lia.
Qed.

Lemma fs_delete_lemma s name nm :
  fs_wf s → is_cstr name nm → nm ≠ [] →
  ∃ r s', fs_delete name s = Some (r, s') ∧ fs_wf s' ∧
    fs_map (disk s') = delete nm (fs_map (disk s)) ∧ length (disk s') = length (disk s) ∧
    (r = 0 ∧ is_Some (fs_map (disk s) !! nm) ∨
     r = -1 ∧ fs_map (disk s) !! nm = None ∧ disk s' = disk s).
Proof.
  intros [Hb Hk] Hn Hne. destruct nm as [|c nm0] eqn:Enm; [done|]. rewrite <-Enm in *.
  destruct (cstr_head name nm c Hn) as [Hhead Hc0]; [by rewrite Enm|].
  unfold fs_delete. rewrite Hhead. cbn [mbind option_bind]. rewrite decide_False by done.
  destruct (read_dir_ok s Hb) as (d1 & -> & Hb1 & Hd1). cbn [mbind option_bind f_dir].
  rewrite decide_False by (intros X; by apply X). pose proof (fb_dir_of_length s Hb) as Hdirl.
  destruct (find_file_map (disk s) name nm (kw_dir _ Hk) Hdirl Hn) as
    [(t & f & Ht & Hs & Hnm & -> & Hm)|[-> Hm]]; cbn [mbind option_bind].
  2:{ eexists _, _. split; [reflexivity|]. simpl f_dev. rewrite Hd1. split; [split; [done|]; simpl; by rewrite Hd1|].
      split; [by rewrite delete_id|]. split; [done|]. by right. }
  destruct (put_flag_eq (dir_of (disk s)) t) as (e & -> & He & Hnone & Heb); [lia|]. cbn [mbind option_bind f_dev f_sec].
  pose proof (fb_dir_of_bytes s Hb) as Hdb.
  set (dir' := set_entry (dir_of (disk s)) t e).
  assert (length dir' = 4096%nat) as Hdl' by (unfold dir'; rewrite set_entry_length; lia).
  assert (fs_base (Fs d1 dir' (f_sec s))) as Hb1' by (destruct Hb1; by constructor).
  destruct (write_dir_ok _ Hb1') as (d2 & -> & Hb2 & Hd2); [apply set_entry_bytes; [done|by apply Heb]|].
  cbn [mbind option_bind f_dir f_dev with_dev f_sec] in *. rewrite decide_False by (intros X; by apply X).
  destruct Hk as [Hks Hksz Hkd (sb & Hsb & Hmag & Hver & Hcnt)]. rewrite Hd1 in Hd2.
  destruct (map_remove (disk s) (bd_sectors d2) t e Hkd) with (f0 := f) as [Hw2 Hm2].
  { rewrite Hd2. apply length_store_sectors. } { done. } { done. } { done. }
  { rewrite Hd2. apply dir_of_store; [done|lia]. }
  { intros i g j Hi Hit Hg Hj. destruct (dw_slots _ Hkd i g Hi Hg) as [_ [F1 F2 F3]].
    rewrite Hd2. apply store_dir_lookup; lia. }
  { done. } { done. } rewrite Hnm in Hm2.
  destruct (read_super_ok _ Hb2) as (sb' & d3 & Hsb' & Hsok & -> & Hb3 & Hd3). cbn [mbind option_bind f_dev with_dev] in *.
  rewrite Hd2, store_dir_lookup, Hsb in Hsb' by lia. injection Hsb' as <-. rewrite Hcnt. cbn [mbind option_bind].
  pose proof (fs_map_size (disk s)) as Hms. pose proof (map_size_delete nm (fs_map (disk s))) as Hmsd.
  rewrite Hm in Hmsd. assert (size (fs_map (disk s)) ≠ 0)%nat as Hsz0.
  { intros E. apply map_size_empty_inv in E. rewrite E in Hm. by rewrite lookup_empty in Hm. }
  rewrite decide_True by lia.
  destruct (put_count sb (Z.of_nat (size (fs_map (disk s))) - 1) Hsok) as (sb' & -> & E2 & E3 & E4 & E5);
    [unfold is_u32; lia|]. cbn [mbind option_bind].
  rewrite <-Hd3 in Hw2, Hm2. destruct (write_super_map _ sb' _ Hb3 Hw2 Hm2 E2) as (s' & -> & Hwf & Hm' & Hl');
    [congruence|congruence|rewrite E5; f_equal; lia|].
  exists 0, s'. split; [done|]. split; [done|]. split; [done|]. split; [|left; by rewrite Hm].
  rewrite Hl'. cbn [f_dev with_dev]. by rewrite Hd3, Hd2, length_store_sectors.
Qed.

(** C22: [fs_delete] is deletion from the abstract map: an existing file is gone
    afterwards and all others keep their content, the return value is 0; for a
    name that is not there the return value is -1 and the disk is unchanged.  The
    invariant, with the file count of the superblock, is kept. *)
Theorem fs_delete_refines s name nm :
  fs_wf s → is_cstr name nm → nm ≠ [] →
  ∃ r s', fs_delete name s = Some (r, s') ∧ fs_wf s' ∧
    fs_map (disk s') = delete nm (fs_map (disk s)) ∧
    (r = 0 ∧ is_Some (fs_map (disk s) !! nm) ∨
     r = -1 ∧ fs_map (disk s) !! nm = None ∧ disk s' = disk s).
Proof.
  intros Hwf Hn Hne. destruct (fs_delete_lemma s name nm Hwf Hn Hne) as (r & s' & E & Hwf' & Hm & _ & H). by exists r, s'.
Qed.

Lemma slot_blank i : slot (replicate 4096 0) i = None.
Proof.
  unfold slot, de_active. rewrite de_name_nat, drop_replicate.
  by destruct (4096 - 64 * i)%nat.
Qed.

(** [fs_init] on any disk: it decides, and changes nothing on it. *)
Lemma fs_init_any s :
  fs_base s → ∃ r s', fs_init s = Some (r, s') ∧ fs_base s' ∧ disk s' = disk s ∧ (disk_wf (disk s) → r = 1).
Proof.
  intros Hb. unfold fs_init. destruct (read_super_ok s Hb) as (sb & d1 & Hsb & [Hl Hu] & -> & Hb1 & Hd1).
  cbn [mbind option_bind]. rewrite decide_False by (intros X; by apply X).
  destruct (memcmp_eq_0 sb FS_MAGIC 8) as (r & -> & Hr); [lia|done|]. cbn [mbind option_bind].
  destruct (get32_Some sb 8) as [v Hv]; [lia|lia|]. rewrite Hv. cbn [mbind option_bind].
  eexists _, _. split; [reflexivity|]. split; [done|]. split; [done|].
  intros Hk. destruct (kw_super _ Hk) as (sb' & Hsb' & Hmag & Hver & _). rewrite Hsb in Hsb'. injection Hsb' as <-.
  rewrite Hv in Hver. injection Hver as ->. by rewrite bool_decide_true by (split; [by apply Hr|done]).
Qed.

Lemma fs_init_lemma s :
  fs_wf s → ∃ s', fs_init s = Some (1, s') ∧ fs_wf s' ∧ disk s' = disk s.
Proof.
  intros [Hb Hk]. unfold fs_init. destruct (read_super_ok s Hb) as (sb & d1 & Hsb & Hsbok & -> & Hb1 & Hd1).
  cbn [mbind option_bind]. rewrite decide_False by (intros X; by apply X).
  destruct (kw_super _ Hk) as (sb' & Hsb' & Hmag & Hver & _). rewrite Hsb in Hsb'. injection Hsb' as <-.
  destruct (memcmp_eq_0 sb FS_MAGIC 8) as (r & -> & Hr); [destruct Hsbok as [-> _]; lia|done|].
  cbn [mbind option_bind]. rewrite Hver. cbn [mbind option_bind]. rewrite bool_decide_true by (split; [by apply Hr|done]).
  eexists. split; [reflexivity|]. cbn [f_dev with_dev]. split; [|done]. split; [done|]. cbn [f_dev with_dev]. by rewrite Hd1.
Qed.

Lemma fs_format_lemma s :
  fs_base s →
  ∃ s', fs_format s = Some (0, s') ∧ fs_wf s' ∧ fs_map (disk s') = ∅ ∧ dir_of (disk s') = replicate 4096 0 ∧
    length (disk s') = length (disk s).
Proof.
  intros Hb. unfold fs_format.
  set (sb := FS_MAGIC ++ le32 1 ++ le32 0 ++ replicate 496 0).
  assert (sector_ok sb) as Hok by (split; [done|]; by apply (bool_decide_unpack _); vm_compute).
  assert (memset (replicate 512 0) 0 512 = Some (replicate 512 0)) as -> by (vm_compute; reflexivity).
  cbn [mbind option_bind].
  assert (memcpy (replicate 512 0) FS_MAGIC 8 = Some (FS_MAGIC ++ replicate 504 0)) as -> by (vm_compute; reflexivity).
  cbn [mbind option_bind].
  assert (put32 (FS_MAGIC ++ replicate 504 0) 8 FS_VERSION = Some (FS_MAGIC ++ le32 1 ++ replicate 500 0)) as ->
    by (vm_compute; reflexivity). cbn [mbind option_bind].
  assert (put32 (FS_MAGIC ++ le32 1 ++ replicate 500 0) 12 0 = Some sb) as -> by (vm_compute; reflexivity).
  cbn [mbind option_bind].
  destruct (write_super_ok s sb Hb Hok) as (d1 & -> & Hb1 & Hd1). cbn [mbind option_bind f_dir f_dev f_sec with_dev] in *.
  rewrite decide_False by (intros X; by apply X). pose proof (fb_dir s Hb) as Hdl.
  rewrite memset_Some by (apply Nat.eq_le_incl; symmetry; exact Hdl). cbn [mbind option_bind]. change (u8 0) with 0.
  rewrite (drop_ge (f_dir s)), app_nil_r by (apply Nat.eq_le_incl; exact Hdl).
  assert (length (replicate 4096 0) = 4096%nat) as Hbl by apply length_replicate.
  assert (Forall is_u8 (replicate 4096 0)) as Hbf by (apply Forall_replicate; unfold is_u8; lia).
  assert (∀ i, slot (replicate 4096 0) i = None) as Hbs by apply slot_blank.
  remember (replicate 4096 0) as blank eqn:Hblank. clear Hblank.
  assert (fs_base (Fs d1 blank (f_sec s))) as Hb1' by (destruct Hb1; by constructor).
  destruct (write_dir_ok _ Hb1' Hbf) as (d2 & -> & Hb2 & Hd2). cbn [f_dir f_dev f_sec with_dev] in *.
  assert (length (bd_sectors d1) = length (disk s)) as Hl1 by (by rewrite Hd1, length_insert).
  assert (length (bd_sectors d2) = length (disk s)) as Hl2 by (by rewrite Hd2, length_store_sectors).
  pose proof (fb_size s Hb) as Hsz. assert (dir_of (bd_sectors d2) = blank) as Hdir by (rewrite Hd2; apply dir_of_store; lia).
  assert (dir_wf (bd_sectors d2)) as Hw by (constructor; intros *; rewrite Hdir, Hbs; done).
  assert (fs_map (bd_sectors d2) = ∅) as Hm.
  { apply map_empty. intros nm. apply fs_map_None; [done|]. intros i f _. by rewrite Hdir, Hbs. }
  eexists. split; [reflexivity|]. split; [|done]. split; [done|]. cbn [f_dev with_dev].
  constructor; [by apply (fb_sectors _ Hb2)|apply (fb_size _ Hb2)|done|].
  exists sb. rewrite Hm. split; [|split; [done|split; [by vm_compute|by vm_compute]]].
  rewrite Hd2, store_dir_lookup by lia. rewrite Hd1. apply list_lookup_insert_eq. lia.
Qed.

(** [fs_format] creates an empty file system on any disk of at least 138
    sectors, and [fs_init] then recognises it: it returns 1 on every well-formed
    disk. *)
Theorem fs_format_init s :
  fs_base s →
  ∃ s' s'', fs_format s = Some (0, s') ∧ fs_wf s' ∧ fs_map (disk s') = ∅ ∧
    fs_init s' = Some (1, s'') ∧ fs_wf s'' ∧ disk s'' = disk s'.
Proof.
  intros Hb. destruct (fs_format_lemma s Hb) as (s' & E & Hwf & Hm & _ & _).
  destruct (fs_init_lemma s' Hwf) as (s'' & E2 & Hwf2 & Hd). by exists s', s''.
Qed.
End fs_spec.

(** ** A formatted disk with one file *)

Definition demo_fs : fs ide := Fs demo_ide (replicate 4096 0) (replicate 512 0).
Definition demo_name : list Z := [97; 46; 116; 120; 116].
Definition demo_long : list Z := replicate 40 97.
Definition demo_data : list Z := replicate 600 7.

Lemma demo_fs_base : fs_base demo_fs.
Proof. constructor; [exact demo_ide_inv|apply length_replicate|apply length_replicate|by vm_compute]. Qed.

Lemma cstr_app_nul t : Forall (λ c, c ≠ 0) t → is_cstr (t ++ [0]) t.
Proof. intros Ht. by exists []. Qed.

Lemma demo_bytes n c : is_u8 c → Forall is_u8 (replicate n c).
Proof. intros. by apply Forall_replicate. Qed.

Lemma demo_name_bytes : Forall is_u8 demo_name.
Proof. repeat constructor; lia. Qed.

Lemma demo_formatted :
  ∃ s : fs ide, fs_wf s ∧ fs_map (bd_sectors (f_dev s)) = ∅ ∧ has_space (bd_sectors (f_dev s)) 600 ∧
    ∀ nm, has_slot (bd_sectors (f_dev s)) nm.
Proof.
  destruct (fs_format_lemma demo_fs demo_fs_base) as (s & _ & Hwf & Hm & Hd & Hl).
  assert (length (bd_sectors (f_dev s)) = 200%nat) as Hlen by (rewrite Hl; apply length_replicate).
  exists s. split; [exact Hwf|]. split; [exact Hm|]. split.
  - split; [rewrite Hlen; by vm_compute|]. intros i f _. rewrite Hd, slot_blank. discriminate.
  - intros nm. right. exists 0%nat. rewrite Hd. split; [lia|apply slot_blank].
Qed.

Definition demo_big : list Z := replicate (Z.to_nat 40000) 7.

Lemma demo_space_40000 dk : length dk = 200%nat → ¬ has_space dk 40000.
Proof. intros Hl [H _]. rewrite Hl in H. by vm_compute in H. Qed.

Lemma demo_formatted_200 : ∃ s : fs ide, fs_wf s ∧ length (bd_sectors (f_dev s)) = 200%nat.
Proof.
  destruct (fs_format_lemma demo_fs demo_fs_base) as (s & _ & Hwf & _ & _ & Hl).
  exists s. split; [exact Hwf|]. rewrite Hl. apply length_replicate.
Qed.

Lemma demo_written :
  ∃ s : fs ide, fs_wf s ∧ fs_map (bd_sectors (f_dev s)) = {[ demo_name := demo_data ]}.
Proof.
  destruct demo_formatted as (s & Hwf & Hm & Hsp & Hsl).
  destruct (fs_write_lemma s (demo_name ++ [0]) demo_name demo_data 600 Hwf) as (s' & _ & Hwf' & Hm' & _);
    [apply cstr_app_nul; by repeat constructor|discriminate|exact demo_name_bytes|apply Forall_take, demo_bytes; unfold is_u8; lia|
     lia|unfold demo_data; rewrite length_replicate; lia|exact Hsp|apply Hsl|left; simpl; lia|].
  exists s'. split; [exact Hwf'|]. rewrite Hm', Hm. reflexivity.
Qed.

Lemma fs_write_new_total_witness :
  ∃ (s s' : fs ide), fs_wf s ∧ fs_write_new (demo_name ++ [0]) demo_big 40000 s = Some (-1, s') ∧ fs_wf s' ∧
    fs_map (bd_sectors (f_dev s')) = fs_map (bd_sectors (f_dev s)).
Proof.
  destruct demo_formatted_200 as (s & Hwf & Hl). exists s.
  destruct (fs_write_new_total s (demo_name ++ [0]) demo_name demo_big 40000)
    as (r & s' & E & Hwf' & [(_ & _ & Hsp & _)|(-> & _ & Hm)]);
    [exact Hwf|apply cstr_app_nul; by repeat constructor|simpl; lia|exact demo_name_bytes|
     apply Forall_take, demo_bytes; unfold is_u8; lia|lia| |rewrite Hl; lia| |].
  - unfold demo_big. rewrite length_replicate. lia.
  - destruct (demo_space_40000 _ Hl Hsp).
  - exists s'. split; [exact Hwf|]. split; [exact E|]. split; [exact Hwf'|exact Hm].
Defined.

Lemma fs_write_new_refines_witness :
  ∃ s s' : fs ide, fs_write_new (demo_name ++ [0]) demo_data 600 s = Some (0, s') ∧
    fs_map (bd_sectors (f_dev s')) = {[ demo_name := demo_data ]}.
Proof.
  destruct demo_formatted as (s & Hwf & Hm & Hsp & Hsl).
  destruct (fs_write_new_refines s (demo_name ++ [0]) demo_name demo_data 600 Hwf) as (s' & E & _ & Hm');
    [apply cstr_app_nul; by repeat constructor|discriminate|simpl; lia|exact demo_name_bytes|
     apply demo_bytes; unfold is_u8; lia|lia|unfold demo_data; rewrite length_replicate; lia|exact Hsp|apply Hsl|].
  exists s, s'. split; [exact E|]. rewrite Hm', Hm. reflexivity.
Defined.

Lemma fs_open_refines_witness :
  ∃ (s s' : fs ide) f, fs_open (demo_name ++ [0]) (FsFile 0 0 0 0) s = Some (0, f, s') ∧ ff_size f = 600.
Proof.
  destruct demo_written as (s & Hwf & Hm).
  destruct (fs_open_refines s (demo_name ++ [0]) demo_name (FsFile 0 0 0 0) Hwf) as (r & f & s' & E & _ & _ & H);
    [apply cstr_app_nul; by repeat constructor|].
  rewrite Hm, lookup_singleton_eq in H. destruct H as [-> H]. exists s, s', f. split; [exact E|].
  rewrite (op_len _ _ _ _ H). reflexivity.
Defined.

Lemma fs_read_refines_witness :
  ∃ (s s' : fs ide) f f', fs_read f (replicate 1000 0) 1000 s = Some (600, demo_data ++ replicate 400 0, f', s').
Proof.
  destruct demo_written as (s & Hwf & Hm).
  destruct (fs_open_lemma s (demo_name ++ [0]) demo_name (FsFile 0 0 0 0) Hwf) as (r & f & s1 & E & _ & _ & H);
    [apply cstr_app_nul; by repeat constructor|].
  rewrite Hm, lookup_singleton_eq in H. destruct H as [-> H].
  destruct (fs_read_refines s f demo_data 0 (replicate 1000 0) 1000 Hwf H) as (f' & s' & E' & _);
    [unfold is_u32; lia|rewrite length_replicate; lia|].
  exists s, s', f, f'. exact E'.
Defined.

Lemma fs_delete_refines_witness :
  ∃ s s' : fs ide, fs_delete (demo_name ++ [0]) s = Some (0, s') ∧ fs_map (bd_sectors (f_dev s')) = ∅.
Proof.
  destruct demo_written as (s & Hwf & Hm).
  destruct (fs_delete_refines s (demo_name ++ [0]) demo_name Hwf) as (r & s' & E & _ & Hm' & Hr);
    [apply cstr_app_nul; by repeat constructor|discriminate|].
  rewrite Hm in Hm', Hr. rewrite delete_singleton_eq in Hm'. rewrite lookup_singleton_eq in Hr.
  destruct Hr as [[-> _]|(_ & [=] & _)]. exists s, s'. split; [exact E|exact Hm'].
Defined.

Lemma fs_long_name_lost_witness :
  ∃ s s' s'' : fs ide, fs_write_new (demo_long ++ [0]) demo_data 600 s = Some (0, s') ∧
    fs_open (demo_long ++ [0]) (FsFile 0 0 0 0) s' = Some (-1, FsFile 0 0 0 0, s'').
Proof.
  destruct demo_formatted as (s & Hwf & Hm & Hsp & Hsl).
  destruct (fs_long_name_lost s (demo_long ++ [0]) demo_long demo_data 600 (FsFile 0 0 0 0) Hwf) as (s' & s'' & E & _ & E');
    [apply cstr_app_nul, Forall_replicate; lia|unfold demo_long; rewrite length_replicate; lia|
     apply demo_bytes; unfold is_u8; lia|apply demo_bytes; unfold is_u8; lia|lia|
     unfold demo_data; rewrite length_replicate; lia|exact Hsp|apply Hsl|by rewrite Hm, lookup_empty|].
  exists s, s', s''. split; [exact E|exact E'].
Defined.

Lemma fs_format_init_witness :
  ∃ s' s'' : fs ide, fs_format demo_fs = Some (0, s') ∧ fs_init s' = Some (1, s'').
Proof.
  destruct (fs_format_init demo_fs demo_fs_base) as (s' & s'' & E & _ & _ & E' & _).
  exists s', s''. split; [exact E|exact E'].
Defined.
