(* ===== verification/Fd.v ===== *)
(** * File descriptors ([src/kernel/fd.c], [fd.h])

    The table of 16 open files over VesperFS; a descriptor is an index into it,
    and each entry records the process that opened it.  The state is the table and
    the file system below. *)

From S2P Require Import Prelude CString Ata Fs.

Definition FD_MAX : Z := 16.

Record fd_entry := FdEntry { fe_file : fs_file; fe_pid : Z; fe_used : Z }.

Definition zero_file : fs_file := FsFile 0 0 0 0.
Definition zero_entry : fd_entry := FdEntry zero_file 0 0.

Definition fd_init : list fd_entry := replicate (Z.to_nat FD_MAX) zero_entry.

(** [!fd_table[i].used] *)
Definition fd_free (t : list fd_entry) (i : Z) : bool :=
  match aget t i with Some e => bool_decide (fe_used e = 0) | None => false end.

Section fd.
Context {D : Type} `{!BlockDevice D}.

Definition fd_open (name : list Z) (pid : Z) (t : list fd_entry) (s : fs D) :
    option (Z * list fd_entry * fs D) :=
  match find_range (fd_free t) 0 (Z.to_nat FD_MAX) with
  | None => Some (-1, t, s)
  | Some slot =>
      e ← aget t slot;
      '(r, f, s) ← fs_open name (fe_file e) s;
      if decide (r ≠ 0) then t ← aset t slot (FdEntry f (fe_pid e) (fe_used e)); Some (-1, t, s)
      else t ← aset t slot (FdEntry f pid 1); Some (slot, t, s)
  end.

(** [fd < 0 || (uint32_t)fd >= FD_MAX], [!e->used || e->pid != pid] *)
Definition fd_denied (t : list fd_entry) (fd pid : Z) : option bool :=
  if decide (fd < 0 ∨ FD_MAX ≤ u32 fd) then Some true
  else e ← aget t fd; Some (bool_decide (fe_used e = 0 ∨ fe_pid e ≠ pid)).

(** [fd_read]: return value, buffer, table, file system. *)
Definition fd_read (fd : Z) (buf : list Z) (len pid : Z) (t : list fd_entry) (s : fs D) :
    option (Z * list Z * list fd_entry * fs D) :=
  denied ← fd_denied t fd pid;
  if denied : bool then Some (-1, buf, t, s)
  else
    e ← aget t fd;
    '(n, buf, f, s) ← fs_read (fe_file e) buf len s;
    t ← aset t fd (FdEntry f (fe_pid e) (fe_used e));
    Some (s32 n, buf, t, s).

Definition fd_close (fd pid : Z) (t : list fd_entry) : option (list fd_entry) :=
  denied ← fd_denied t fd pid;
  if denied : bool then Some t
  else e ← aget t fd; aset t fd (FdEntry (fs_close (fe_file e)) 0 0).

(** ** The abstract table

    An open descriptor is a process, a content and a position in it. *)

Abbreviation disk s := (bd_sectors (f_dev s)).

(** Descriptor [fd] is open for [pid] at position [pos] of [c]. *)
Definition fd_at (t : list fd_entry) (s : fs D) (fd pid : Z) (c : list Z) (pos : Z) : Prop :=
  ∃ e, aget t fd = Some e ∧ fe_used e ≠ 0 ∧ fe_pid e = pid ∧ opened (disk s) (fe_file e) c pos.

(** Every used entry is an open file. *)
Definition fd_wf (t : list fd_entry) (s : fs D) : Prop :=
  fs_wf s ∧ length t = 16%nat ∧
  ∀ fd e, aget t fd = Some e → fe_used e ≠ 0 → ∃ c pos, opened (disk s) (fe_file e) c pos.

(** Some process other than [pid] or nobody has [fd]. *)
Definition fd_foreign (t : list fd_entry) (fd pid : Z) : Prop :=
  ∀ e, aget t fd = Some e → fe_used e = 0 ∨ fe_pid e ≠ pid.

Lemma fd_wf_init s : fs_wf s → fd_wf fd_init s.
Proof.
  intros Hs. split; [done|]. split; [done|]. intros fd e He Hu. exfalso.
  unfold aget in He. case_decide; [|done]. apply lookup_replicate in He as [-> _]. by destruct Hu.
Qed.

(** Replacing one entry. *)
Lemma fd_set t s fd e :
  fd_wf t s → 0 ≤ fd < 16 → (fe_used e ≠ 0 → ∃ c pos, opened (disk s) (fe_file e) c pos) →
  ∃ t', aset t fd e = Some t' ∧ fd_wf t' s ∧ aget t' fd = Some e ∧ ∀ j, j ≠ fd → aget t' j = aget t j.
Proof.
  intros (Hs & Hl & Hw) Hfd He. exists (<[Z.to_nat fd := e]> t). split; [apply aset_Some; lia|].
  assert (aget (<[Z.to_nat fd := e]> t) fd = Some e) as E1 by (apply aget_insert_eq; lia).
  assert (∀ j, j ≠ fd → aget (<[Z.to_nat fd := e]> t) j = aget t j) as E2
    by (intros j Hj; apply aget_insert_ne; lia).
  split; [|done]. split; [done|]. split; [by rewrite length_insert|]. intros j e' Hj Hu.
  destruct (decide (j = fd)) as [->|Hne].
  - rewrite E1 in Hj. injection Hj as <-. by apply He.
  - rewrite E2 in Hj by done. by apply (Hw j).
Qed.

(** A disk that has not changed keeps descriptors open. *)
Lemma fd_same_disk t s s' :
  fd_wf t s → fs_wf s' → disk s' = disk s →
  fd_wf t s' ∧ ∀ fd pid c pos, fd_at t s' fd pid c pos ↔ fd_at t s fd pid c pos.
Proof.
  intros (Hs & Hl & Hw) Hs' Hd. unfold fd_wf, fd_at. rewrite Hd. split; [done|]. done.
Qed.

Lemma fd_at_other t t' s fd pid c pos :
  aget t' fd = aget t fd → fd_at t s fd pid c pos → fd_at t' s fd pid c pos.
Proof. intros E (e & He & H). exists e. by rewrite E. Qed.

Lemma fd_open_lemma t s name nm pid :
  fd_wf t s → is_cstr name nm →
  ∃ r t' s', fd_open name pid t s = Some (r, t', s') ∧ fd_wf t' s' ∧ disk s' = disk s ∧
    ((0 ≤ r < 16 ∧ fd_free t r = true ∧ (∀ j, 0 ≤ j < r → fd_free t j = false) ∧
      (∃ c, fs_map (disk s) !! nm = Some c ∧ fd_at t' s' r pid c 0) ∧
      ∀ j, j ≠ r → aget t' j = aget t j) ∨
     (r = -1 ∧ (∀ j, aget t' j = aget t j) ∧
      (fs_map (disk s) !! nm = None ∨ ∀ j, 0 ≤ j < 16 → fd_free t j = false))).
Proof.
  intros Hwf Hn. pose proof Hwf as (Hs & Hl & Hw). unfold fd_open.
  destruct (find_range (fd_free t) 0 (Z.to_nat FD_MAX)) as [i|] eqn:Hf.
  2:{ exists (-1), t, s. split; [done|]. split; [done|]. split; [done|]. right. split; [done|]. split; [done|].
      right. intros j Hj. apply (proj1 (find_range_None _ _ _) Hf). unfold FD_MAX. lia. }
  apply find_range_Some in Hf as (Hi & Hfree & Hlow). unfold FD_MAX in Hi.
  destruct (aget_is_Some t i) as [e He]; [lia|]. rewrite He. cbn [mbind option_bind].
  assert (fe_used e = 0) as Hu.
  { unfold fd_free in Hfree. rewrite He in Hfree. by apply bool_decide_eq_true in Hfree. }
  destruct (fs_open_lemma s name nm (fe_file e) Hs Hn) as (r & f & s' & -> & Hs' & Hd & Hr). cbn [mbind option_bind].
  destruct (fd_same_disk t s s' Hwf Hs' Hd) as [Hwf' _].
  destruct (fs_map (disk s) !! nm) as [c|] eqn:Hm; destruct Hr as [-> Hf].
  - rewrite decide_False by (intros X; by apply X). rewrite <-Hd in Hf.
    destruct (fd_set t s' i (FdEntry f pid 1) Hwf') as (t' & -> & Hwf2 & E1 & E2); [lia|by exists c, 0|].
    cbn [mbind option_bind]. exists i, t', s'. split; [done|]. split; [done|]. split; [done|]. left.
    split; [lia|]. split; [done|]. split; [done|]. split; [|done]. exists c. split; [done|].
    exists (FdEntry f pid 1). by split.
  - rewrite decide_True by done. subst f.
    destruct (fd_set t s' i (FdEntry (fe_file e) (fe_pid e) (fe_used e)) Hwf') as (t' & -> & Hwf2 & E1 & E2); [lia|done|].
    cbn [mbind option_bind]. exists (-1), t', s'. split; [done|]. split; [done|]. split; [done|]. right.
    split; [done|]. split; [|by left]. intros j. destruct (decide (j = i)) as [->|]; [|by apply E2].
    rewrite E1, He. by destruct e.
Qed.

(** Only the owner of a descriptor passes the check. *)
Lemma fd_denied_spec t fd pid :
  length t = 16%nat → - 2147483648 ≤ fd < 2147483648 →
  (∃ e, aget t fd = Some e ∧ fe_used e ≠ 0 ∧ fe_pid e = pid ∧ 0 ≤ fd < 16 ∧ fd_denied t fd pid = Some false) ∨
  (fd_foreign t fd pid ∧ fd_denied t fd pid = Some true).
Proof.
  intros Hl Hfd. unfold fd_denied, FD_MAX. destruct (decide (fd < 0 ∨ 16 ≤ u32 fd)) as [H|H].
  - right. split; [|done]. intros e He. exfalso. apply aget_Some_lt in He. destruct H as [H|H]; [lia|].
    rewrite u32_small in H by (unfold is_u32; lia). lia.
  - assert (0 ≤ fd < 16) as Hr.
    { assert (0 ≤ fd) by lia. rewrite u32_small in H by (unfold is_u32; lia). lia. }
    destruct (aget_is_Some t fd) as [e He]; [lia|]. rewrite He. cbn [mbind option_bind].
    destruct (decide (fe_used e = 0 ∨ fe_pid e ≠ pid)) as [Hd|Hd].
    + right. rewrite bool_decide_true by done. split; [|done]. intros e' He'. rewrite He in He'. by injection He' as <-.
    + left. exists e. rewrite bool_decide_false by done. split; [done|]. split; [tauto|]. split; [|done].
      destruct (decide (fe_pid e = pid)); tauto.
Qed.

Lemma fd_read_lemma t s fd pid c pos buf len :
  fd_wf t s → - 2147483648 ≤ fd < 2147483648 → fd_at t s fd pid c pos → is_u32 len →
  len ≤ Z.of_nat (length buf) →
  let n := Z.min len (Z.of_nat (length c) - pos) in
  ∃ t' s', fd_read fd buf len pid t s =
      Some (s32 n, take (Z.to_nat n) (drop (Z.to_nat pos) c) ++ drop (Z.to_nat n) buf, t', s') ∧
    fd_wf t' s' ∧ disk s' = disk s ∧ fd_at t' s' fd pid c (pos + n) ∧ ∀ j, j ≠ fd → aget t' j = aget t j.
Proof.
  intros Hwf Hfd (e & He & Hu & Hp & Ho) Hlen Hb n. pose proof Hwf as (Hs & Hl & Hw). unfold fd_read.
  destruct (fd_denied_spec t fd pid Hl Hfd) as [(e' & He' & _ & _ & Hr & ->)|[Hf _]].
  2:{ exfalso. by destruct (Hf e He). }
  cbn [mbind option_bind]. rewrite He. cbn [mbind option_bind].
  destruct (fs_read_lemma s (fe_file e) c pos buf len Hs Ho Hlen Hb) as (f & s' & -> & Ho' & Hs' & Hd).
  cbn [mbind option_bind]. destruct (fd_same_disk t s s' Hwf Hs' Hd) as [Hwf' _]. rewrite <-Hd in Ho'.
  destruct (fd_set t s' fd (FdEntry f (fe_pid e) (fe_used e)) Hwf') as (t' & -> & Hwf2 & E1 & E2);
    [done|by exists c, (pos + n)|].
  cbn [mbind option_bind]. exists t', s'. split; [done|]. split; [done|]. split; [done|]. split; [|done].
  exists (FdEntry f (fe_pid e) (fe_used e)). done.
Qed.

(** Another process's descriptor cannot be read or closed. *)
Lemma fd_foreign_lemma t s fd pid buf len :
  length t = 16%nat → - 2147483648 ≤ fd < 2147483648 → fd_foreign t fd pid →
  fd_read fd buf len pid t s = Some (-1, buf, t, s) ∧ fd_close fd pid t = Some t.
Proof.
  intros Hl Hfd Hf. unfold fd_read, fd_close.
  destruct (fd_denied_spec t fd pid Hl Hfd) as [(e & He & Hu & Hp & _)|[_ ->]]; [|done].
  exfalso. by destruct (Hf e He).
Qed.

Lemma fd_close_lemma t s fd pid c pos :
  fd_wf t s → - 2147483648 ≤ fd < 2147483648 → fd_at t s fd pid c pos →
  ∃ t', fd_close fd pid t = Some t' ∧ fd_wf t' s ∧ fd_free t' fd = true ∧ ∀ j, j ≠ fd → aget t' j = aget t j.
Proof.
  intros Hwf Hfd (e & He & Hu & Hp & Ho). pose proof Hwf as (Hs & Hl & Hw). unfold fd_close.
  destruct (fd_denied_spec t fd pid Hl Hfd) as [(e' & He' & _ & _ & Hr & ->)|[Hf _]].
  2:{ exfalso. by destruct (Hf e He). }
  cbn [mbind option_bind]. rewrite He. cbn [mbind option_bind].
  destruct (fd_set t s fd (FdEntry (fs_close (fe_file e)) 0 0) Hwf Hr) as (t' & -> & Hwf2 & E1 & E2); [done|].
  exists t'. split; [done|]. split; [done|]. split; [|done]. unfold fd_free. by rewrite E1.
Qed.

(** On every descriptor number reading and closing end. *)
Lemma fd_total t s fd pid buf len :
  fd_wf t s → - 2147483648 ≤ fd < 2147483648 → is_u32 len → len ≤ Z.of_nat (length buf) →
  (∃ r buf' t' s', fd_read fd buf len pid t s = Some (r, buf', t', s') ∧ fd_wf t' s' ∧ length buf' = length buf) ∧
  ∃ t', fd_close fd pid t = Some t' ∧ fd_wf t' s.
Proof.
  intros Hwf Hfd Hlen Hb. pose proof Hwf as (Hs & Hl & Hw).
  destruct (fd_denied_spec t fd pid Hl Hfd) as [(e & He & Hu & Hp & _)|[Hf _]].
  - destruct (Hw fd e He Hu) as (c & pos & Ho). assert (fd_at t s fd pid c pos) as Hat by (by exists e).
    pose proof Ho as [_ _ Hpos _ _ _].
    destruct (fd_read_lemma t s fd pid c pos buf len Hwf Hfd Hat Hlen Hb) as (t' & s' & E & Hw' & _).
    destruct (fd_close_lemma t s fd pid c pos Hwf Hfd Hat) as (t2 & E2 & Hw2 & _). split; [|by exists t2].
    eexists _, _, t', s'. split; [exact E|]. split; [done|].
    rewrite length_app, length_take, !length_drop. unfold is_u32 in *. lia.
  - destruct (fd_foreign_lemma t s fd pid buf len Hl Hfd Hf) as [E1 E2]. split; [by eexists _, _, _, _|by exists t].
Qed.

(** ** Sequences of calls *)

Inductive fd_op :=
| OpOpen (name : list Z) (pid : Z)
| OpRead (fd : Z) (n : nat) (pid : Z)
| OpClose (fd pid : Z).

(** The bytes that the reads of [fd0] by [pid0] deliver. *)
Fixpoint run_fds (fd0 pid0 : Z) (ops : list fd_op) (t : list fd_entry) (s : fs D) :
    option (list Z * list fd_entry * fs D) :=
  match ops with
  | [] => Some ([], t, s)
  | OpOpen name pid :: ops => '(_, t, s) ← fd_open name pid t s; run_fds fd0 pid0 ops t s
  | OpRead fd n pid :: ops =>
      '(r, buf, t, s) ← fd_read fd (replicate n 0) (Z.of_nat n) pid t s;
      '(l, t, s) ← run_fds fd0 pid0 ops t s;
      Some (if decide (fd = fd0 ∧ pid = pid0) then take (Z.to_nat r) buf ++ l else l, t, s)
  | OpClose fd pid :: ops => t ← fd_close fd pid t; run_fds fd0 pid0 ops t s
  end.

(** Calls with terminated names, [int] descriptors and sizes below 2 GB that do
    not close [fd0] in its owner's name. *)
Definition fd_op_ok (fd0 pid0 : Z) (op : fd_op) : Prop :=
  match op with
  | OpOpen name _ => ∃ nm, is_cstr name nm
  | OpRead fd n _ => - 2147483648 ≤ fd < 2147483648 ∧ Z.of_nat n < 2147483648
  | OpClose fd pid => - 2147483648 ≤ fd < 2147483648 ∧ (fd, pid) ≠ (fd0, pid0)
  end.

(** A call that is not a read of [fd0] by its owner leaves [fd0] where it is. *)
Lemma fd_read_other t s fd0 pid0 c pos fd pid n :
  fd_wf t s → fd_at t s fd0 pid0 c pos → - 2147483648 ≤ fd < 2147483648 → Z.of_nat n < 2147483648 →
  (fd, pid) ≠ (fd0, pid0) →
  ∃ r buf t' s', fd_read fd (replicate n 0) (Z.of_nat n) pid t s = Some (r, buf, t', s') ∧ fd_wf t' s' ∧
    fd_at t' s' fd0 pid0 c pos.
Proof.
  intros Hwf Hat Hfd Hn Hne. pose proof Hwf as (Hs & Hl & Hw).
  destruct (fd_denied_spec t fd pid Hl Hfd) as [(e & He & Hu & Hp & _)|[Hf _]].
  - destruct (Hw fd e He Hu) as (c' & pos' & Ho).
    destruct (fd_read_lemma t s fd pid c' pos' (replicate n 0) (Z.of_nat n)) as (t' & s' & -> & Hwf' & Hd & _ & Hj);
      [done|done|by exists e|unfold is_u32; lia|by rewrite length_replicate|].
    eexists _, _, t', s'. split; [reflexivity|]. split; [done|].
    apply (fd_at_other t); [|unfold fd_at in *; by rewrite Hd]. apply Hj. intros ->.
    destruct Hat as (e0 & He0 & _ & Hp0 & _). congruence.
  - destruct (fd_foreign_lemma t s fd pid (replicate n 0) (Z.of_nat n) Hl Hfd Hf) as [-> _].
    by eexists _, _, t, s.
Qed.

Lemma fd_close_other t s fd0 pid0 c pos fd pid :
  fd_wf t s → fd_at t s fd0 pid0 c pos → - 2147483648 ≤ fd < 2147483648 → (fd, pid) ≠ (fd0, pid0) →
  ∃ t', fd_close fd pid t = Some t' ∧ fd_wf t' s ∧ fd_at t' s fd0 pid0 c pos.
Proof.
  intros Hwf Hat Hfd Hne. pose proof Hwf as (Hs & Hl & Hw).
  destruct (fd_denied_spec t fd pid Hl Hfd) as [(e & He & Hu & Hp & _)|[Hf _]].
  - destruct (Hw fd e He Hu) as (c' & pos' & Ho).
    destruct (fd_close_lemma t s fd pid c' pos') as (t' & -> & Hwf' & _ & Hj); [done|done|by exists e|].
    exists t'. split; [done|]. split; [done|]. apply (fd_at_other t); [|done]. apply Hj. intros ->.
    destruct Hat as (e0 & He0 & _ & Hp0 & _). congruence.
  - destruct (fd_foreign_lemma t s fd pid [] 0 Hl Hfd Hf) as [_ ->]. by exists t.
Qed.

Lemma run_fds_ok fd0 pid0 c ops : ∀ t s pos,
  fd_wf t s → fd_at t s fd0 pid0 c pos → Forall (fd_op_ok fd0 pid0) ops →
  ∃ l t' s', run_fds fd0 pid0 ops t s = Some (l, t', s') ∧ fd_wf t' s' ∧
    fd_at t' s' fd0 pid0 c (pos + Z.of_nat (length l)) ∧ l = take (length l) (drop (Z.to_nat pos) c).
Proof.
  induction ops as [|op ops IH]; intros t s pos Hwf Hat Hok.
  { exists [], t, s. rewrite Z.add_0_r. done. }
  apply Forall_cons_1 in Hok as [Hop Hok]. destruct op as [name pid|fd n pid|fd pid]; cbn [run_fds].
  - destruct Hop as [nm Hn].
    destruct (fd_open_lemma t s name nm pid Hwf Hn) as (r & t' & s' & -> & Hwf' & Hd & Hc). cbn [mbind option_bind].
    apply (IH t' s' pos); [done| |done]. apply (fd_at_other t); [|unfold fd_at in *; by rewrite Hd].
    destruct Hc as [(_ & Hfree & _ & _ & Hj)|(_ & Hj & _)]; [|apply Hj]. apply Hj. intros <-.
    destruct Hat as (e & He & Hu & _). unfold fd_free in Hfree. rewrite He in Hfree.
    by apply bool_decide_eq_true in Hfree.
  - destruct Hop as [Hfd Hn]. destruct (decide (fd = fd0 ∧ pid = pid0)) as [[-> ->]|Hne].
    + destruct (fd_read_lemma t s fd0 pid0 c pos (replicate n 0) (Z.of_nat n)) as (t' & s' & -> & Hwf' & _ & Hat' & _);
        [done|done|done|unfold is_u32; lia|by rewrite length_replicate|].
      cbn [mbind option_bind]. set (k := Z.min _ _) in *.
      assert (0 ≤ pos ≤ Z.of_nat (length c)) as Hpos by (destruct Hat as (e & _ & _ & _ & []); lia).
      assert (0 ≤ k ≤ Z.of_nat (length c) - pos ∧ k ≤ Z.of_nat n) as Hk by (unfold k; lia).
      destruct (IH t' s' (pos + k) Hwf' Hat' Hok) as (l & t2 & s2 & -> & Hwf2 & Hat2 & Hl). cbn [mbind option_bind].
      rewrite s32_small by lia. rewrite take_app_le by (rewrite length_take, length_drop; lia).
      rewrite take_take, Nat.min_id. eexists _, t2, s2. split; [reflexivity|]. split; [done|].
      rewrite length_app, length_take, length_drop.
      replace (Z.to_nat k `min` (length c - Z.to_nat pos))%nat with (Z.to_nat k) by lia.
      split; [by replace (pos + Z.of_nat (Z.to_nat k + length l)) with (pos + k + Z.of_nat (length l)) by lia|].
      rewrite Hl at 1. replace (Z.to_nat (pos + k)) with (Z.to_nat pos + Z.to_nat k)%nat by lia.
      rewrite <-drop_drop. apply take_take_drop.
    + destruct (fd_read_other t s fd0 pid0 c pos fd pid n) as (r & buf & t' & s' & -> & Hwf' & Hat');
        [done|done|done|done|by intros [= -> ->]; apply Hne|].
      cbn [mbind option_bind]. destruct (IH t' s' pos Hwf' Hat' Hok) as (l & t2 & s2 & -> & H). by exists l, t2, s2.
  - destruct Hop as [Hfd Hne]. destruct (fd_close_other t s fd0 pid0 c pos fd pid) as (t' & -> & Hwf' & Hat'); [done..|].
    cbn [mbind option_bind]. by apply (IH t' s pos).
Qed.

(** C34: a descriptor reads its file in order whatever other processes do.  With a
    free entry, [fd_open] of a file with content [c] returns the lowest free
    descriptor; for every following interleaving of opens, reads and closes by any
    process that does not close this descriptor in its owner's name, the bytes
    delivered to the owner are exactly the first bytes of [c], in order. *)
Theorem fd_session t s name nm pid c :
  fd_wf t s → is_cstr name nm → fs_map (disk s) !! nm = Some c →
  (∃ i, 0 ≤ i < 16 ∧ fd_free t i = true) →
  ∃ fd t1 s1, fd_open name pid t s = Some (fd, t1, s1) ∧ 0 ≤ fd < 16 ∧ fd_free t fd = true ∧
    (∀ j, 0 ≤ j < fd → fd_free t j = false) ∧
    ∀ ops, Forall (fd_op_ok fd pid) ops →
      ∃ l t2 s2, run_fds fd pid ops t1 s1 = Some (l, t2, s2) ∧ fd_wf t2 s2 ∧ l = take (length l) c.
Proof.
  intros Hwf Hn Hm (i & Hi & Hfree).
  destruct (fd_open_lemma t s name nm pid Hwf Hn) as (fd & t1 & s1 & E & Hwf1 & Hd & Hc).
  destruct Hc as [(Hr & Hf & Hlow & (c' & Hc' & Hat) & _)|(_ & _ & [Hno|Hno])]; [|congruence|].
  2:{ rewrite Hno in Hfree by done. done. }
  assert (c' = c) as -> by congruence. exists fd, t1, s1. split; [done|]. split; [done|]. split; [done|].
  split; [done|]. intros ops Hops.
  destruct (run_fds_ok fd pid c ops t1 s1 0 Hwf1 Hat Hops) as (l & t2 & s2 & E2 & Hwf2 & _ & Hl).
  by exists l, t2, s2.
Qed.

(** C35: descriptors are private: [fd_read] and [fd_close] with a descriptor that
    is out of range, not open, or owned by another process change nothing, and
    the read returns -1. *)
Theorem fd_owner_only t s fd pid buf len :
  length t = 16%nat → - 2147483648 ≤ fd < 2147483648 → fd_foreign t fd pid →
  fd_read fd buf len pid t s = Some (-1, buf, t, s) ∧ fd_close fd pid t = Some t.
Proof. apply fd_foreign_lemma. Qed.
End fd.

Lemma fd_session_witness :
  ∃ (s s1 s2 : fs ide) t1 t2 l, fd_open (demo_name ++ [0]) 1 fd_init s = Some (0, t1, s1) ∧
    run_fds 0 1 [OpRead 0 100 1; OpRead 0 50 2; OpRead 0 700 1] t1 s1 = Some (l, t2, s2) ∧
    l = take (length l) demo_data.
Proof.
  destruct demo_written as (s & Hwf & Hm).
  destruct (fd_session fd_init s (demo_name ++ [0]) demo_name 1 demo_data) as (fd & t1 & s1 & E & Hr & _ & Hlow & H).
  - exact (fd_wf_init s Hwf).
  - apply cstr_app_nul. by repeat constructor.
  - rewrite Hm. apply lookup_singleton_eq.
  - exists 0. split; [lia|reflexivity].
  - assert (fd = 0) as ->.
    { destruct (decide (fd = 0)) as [|Hne]; [assumption|]. assert (fd_free fd_init 0 = false) as X by (apply Hlow; lia).
      vm_compute in X. discriminate X. }
    destruct (H [OpRead 0 100 1; OpRead 0 50 2; OpRead 0 700 1]) as (l & t2 & s2 & E2 & _ & Hl).
    { repeat constructor; simpl; lia. }
    exists s, s1, s2, t1, t2, l. split; [exact E|]. split; [exact E2|exact Hl].
Defined.

Lemma fd_owner_only_witness :
  fd_read 3 [1; 2] 2 7 fd_init demo_fs = Some (-1, [1; 2], fd_init, demo_fs).
Proof.
  apply (fd_owner_only fd_init demo_fs 3 7 [1; 2] 2); [reflexivity|lia|].
  intros e He. left. vm_compute in He. injection He as <-. reflexivity.
Defined.
