(* ===== verification/Elf.v ===== *)
(** * The ELF loader ([src/kernel/elf.c], [elf.h])

    The image lies in kernel memory at the address [data]; headers are read from
    there, again in every iteration as the code does, since the loader itself
    writes to memory.  The kernel reaches memory through the identity map of the
    first 8 MB: an access outside it page-faults, which is [None].
    [elf_load_user] works on the [vm] state of [Paging.v] and calls its
    [paging_alloc_user_pages]. *)

From S2P Require Import Prelude Mem Pmm Paging.

Definition ELF_CLASS32 : Z := 1.
Definition ELF_DATA2LSB : Z := 1.
Definition ELF_ET_EXEC : Z := 2.
Definition ELF_EM_386 : Z := 3.
Definition ELF_PT_LOAD : Z := 1.

Definition load16 (m : mem) (a : Z) : Z := load8 m a + 256 * load8 m (a + 1).

(** Fields of the ELF header at [d]. *)
Definition e_type (m : mem) (d : Z) : Z := load16 m (d + 16).
Definition e_machine (m : mem) (d : Z) : Z := load16 m (d + 18).
Definition e_entry (m : mem) (d : Z) : Z := load32 m (d + 24).
Definition e_phoff (m : mem) (d : Z) : Z := load32 m (d + 28).
Definition e_phentsize (m : mem) (d : Z) : Z := load16 m (d + 42).
Definition e_phnum (m : mem) (d : Z) : Z := load16 m (d + 44).

(** Fields of the program header at [ph]. *)
Definition p_type (m : mem) (ph : Z) : Z := load32 m ph.
Definition p_offset (m : mem) (ph : Z) : Z := load32 m (ph + 4).
Definition p_vaddr (m : mem) (ph : Z) : Z := load32 m (ph + 8).
Definition p_filesz (m : mem) (ph : Z) : Z := load32 m (ph + 16).
Definition p_memsz (m : mem) (ph : Z) : Z := load32 m (ph + 20).

(** [n] bytes from [a] on are identity-mapped. *)
Definition reach (a n : Z) : option unit :=
  if decide (0 ≤ a ∧ a + n ≤ 8388608) then Some () else None.

(** The checks of the header that both loaders make. *)
Definition elf_valid (m : mem) (data len : Z) : bool :=
  bool_decide (load8 m data = 127 ∧ load8 m (data + 1) = 69 ∧ load8 m (data + 2) = 76 ∧
    load8 m (data + 3) = 70) &&
  bool_decide (load8 m (data + 4) = ELF_CLASS32 ∧ load8 m (data + 5) = ELF_DATA2LSB ∧
    e_type m data = ELF_ET_EXEC ∧ e_machine m data = ELF_EM_386) &&
  bool_decide (e_phoff m data ≠ 0 ∧ e_phnum m data ≠ 0) &&
  bool_decide (u32 (e_phoff m data + u32 (e_phnum m data * 32)) ≤ len).

(** The program header of iteration [i]. *)
Definition phdr (m : mem) (data i : Z) : Z := u32 (data + e_phoff m data + i * e_phentsize m data).

(** ** Loading to the addresses of the image *)

Definition k_memcpy (m : mem) (dst src n : Z) : option mem :=
  _ ← reach dst n; _ ← reach src n; Some (mem_cpy m dst src (Z.to_nat n)).
Definition k_memset (m : mem) (dst n : Z) : option mem :=
  _ ← reach dst n; Some (mem_set m dst 0 (Z.to_nat n)).

(** Copy one segment and zero the rest of it. *)
Definition load_segment (m : mem) (data ph : Z) : option mem :=
  m ← k_memcpy m (p_vaddr m ph) (u32 (data + p_offset m ph)) (p_filesz m ph);
  if decide (p_filesz m ph < p_memsz m ph)
  then k_memset m (u32 (p_vaddr m ph + p_filesz m ph)) (p_memsz m ph - p_filesz m ph)
  else Some m.

Fixpoint elf_load_loop (fuel : nat) (data len i : Z) (m : mem) : option (Z * mem) :=
  match fuel with
  | O => None
  | S fuel =>
      if decide (i < e_phnum m data) then
        let ph := phdr m data i in
        _ ← reach ph 32;
        if decide (p_type m ph ≠ ELF_PT_LOAD) then elf_load_loop fuel data len (i + 1) m
        else if decide (p_filesz m ph = 0) then elf_load_loop fuel data len (i + 1) m
        else if decide (len < u32 (p_offset m ph + p_filesz m ph)) then Some (0, m)
        else m ← load_segment m data ph; elf_load_loop fuel data len (i + 1) m
      else Some (e_entry m data, m)
  end.

(** [e_phnum] has 16 bits, so that 65536 iterations are enough. *)
Definition ELF_FUEL : nat := Z.to_nat 65536.

Definition elf_load (data len : Z) (m : mem) : option (Z * mem) :=
  if decide (data = 0 ∨ len < 52) then Some (0, m)
  else
    _ ← reach data 52;
    if elf_valid m data len then elf_load_loop ELF_FUEL data len 0 m else Some (0, m).

(** ** Loading into a user address space *)

Section user.
Context {A : Type} `{!FrameAllocator A}.

Definition phys_of_virt (m : mem) (pd_phys virt : Z) : option Z :=
  _ ← touch pd_phys;
  let pde := ent m pd_phys (pd_index virt) in
  if decide (Z.land pde PAGE_PRESENT = 0) then Some 0
  else
    let pt := Z.land pde (not32 4095) in
    _ ← touch pt;
    let pte := ent m pt (pt_index virt) in
    if decide (Z.land pte PAGE_PRESENT = 0) then Some 0 else Some (Z.land pte (not32 4095)).

(** Zero the frame [dst] of the page [virt_page] and copy the file bytes that
    fall into it. *)
Definition fill_frame (m : mem) (data ph virt_page dst : Z) : option mem :=
  _ ← touch dst;
  let m := mem_set m dst 0 (Z.to_nat 4096) in
  let file_start := p_vaddr m ph in
  let file_end := u32 (p_vaddr m ph + p_filesz m ph) in
  let pg_end := u32 (virt_page + 4096) in
  if decide (file_end ≤ virt_page ∨ pg_end ≤ file_start) then Some m
  else
    let copy_vstart := if decide (file_start < virt_page) then virt_page else file_start in
    let copy_vend := if decide (pg_end < file_end) then pg_end else file_end in
    let dst_off := u32 (copy_vstart - virt_page) in
    let src_off := u32 (p_offset m ph + u32 (copy_vstart - p_vaddr m ph)) in
    let copy_len := u32 (copy_vend - copy_vstart) in
    k_memcpy m (u32 (dst + dst_off)) (u32 (data + src_off)) copy_len.

(** The page loop; [false] when a page is not mapped. *)
Fixpoint fill_pages (pd data ph page_start pg : Z) (n : nat) (m : mem) : option (bool * mem) :=
  match n with
  | O => Some (true, m)
  | S n' =>
      let virt_page := u32 (page_start + pg * 4096) in
      phys_page ← phys_of_virt m pd virt_page;
      if decide (phys_page = 0) then Some (false, m)
      else m ← fill_frame m data ph virt_page phys_page; fill_pages pd data ph page_start (pg + 1) n' m
  end.

Definition seg_start (m : mem) (ph : Z) : Z := Z.land (p_vaddr m ph) (not32 4095).
Definition seg_end (m : mem) (ph : Z) : Z :=
  Z.land (u32 (u32 (p_vaddr m ph + p_memsz m ph) + 4095)) (not32 4095).
Definition seg_pages (m : mem) (ph : Z) : Z := Z.shiftr (u32 (seg_end m ph - seg_start m ph)) 12.

(** Map and fill one segment. *)
Definition load_user_segment (pd data ph : Z) (v : vm A) : option (bool * vm A) :=
  let page_start := seg_start (v_mem v) ph in
  let n_pages := seg_pages (v_mem v) ph in
  '(r, v) ← paging_alloc_user_pages pd page_start n_pages v;
  if decide (r ≠ 0) then Some (false, v)
  else
    '(ok, m) ← fill_pages pd data ph page_start 0 (Z.to_nat n_pages) (v_mem v);
    Some (ok, vm_with_mem v m).

Fixpoint elf_user_loop (fuel : nat) (pd data len i : Z) (v : vm A) : option (Z * vm A) :=
  match fuel with
  | O => None
  | S fuel =>
      let m := v_mem v in
      if decide (i < e_phnum m data) then
        let ph := phdr m data i in
        _ ← reach ph 32;
        if decide (p_type m ph ≠ ELF_PT_LOAD ∨ p_memsz m ph = 0) then elf_user_loop fuel pd data len (i + 1) v
        else if decide (len < u32 (p_offset m ph + p_filesz m ph)) then Some (0, v)
        else
          '(ok, v) ← load_user_segment pd data ph v;
          if ok : bool then elf_user_loop fuel pd data len (i + 1) v else Some (0, v)
      else Some (e_entry m data, v)
  end.

Definition elf_load_user (data len pd_phys : Z) (v : vm A) : option (Z * vm A) :=
  if decide (data = 0 ∨ len < 52 ∨ pd_phys = 0) then Some (0, v)
  else
    _ ← reach data 52;
    if elf_valid (v_mem v) data len then elf_user_loop ELF_FUEL pd_phys data len 0 v else Some (0, v).
End user.

(** ** Writing to the frames of an address space *)

Section frames.
Context {A : Type} `{!FrameAllocator A}.

(** Memory below 1 MB, where the image is. *)
Definition low_same (m m' : mem) : Prop := ∀ b, b < 1048576 → load8 m' b = load8 m b.

#[export] Instance low_same_preorder : PreOrder low_same.
Proof. split; [by intros m b|]. intros m1 m2 m3 H1 H2 b Hb. by rewrite H2, H1. Qed.

(** Bytes below 1 MB are bytes. *)
Definition low_ok (m : mem) : Prop := ∀ b, b < 1048576 → is_u8 (load8 m b).

Lemma low_ok_same m m' : low_ok m → low_same m m' → low_ok m'.
Proof. intros H1 H2 b Hb. rewrite H2 by done. by apply H1. Qed.

Lemma low_load32_range m a : low_ok m → a + 4 ≤ 1048576 → is_u32 (load32 m a).
Proof.
  intros H Ha. unfold load32. pose proof (H a ltac:(lia)). pose proof (H (a + 1) ltac:(lia)).
  pose proof (H (a + 2) ltac:(lia)). pose proof (H (a + 3) ltac:(lia)). unfold is_u8, is_u32 in *. lia.
Qed.

(** Only the frame [F] changes. *)
Definition only_frame (F : Z) (m m' : mem) : Prop :=
  ∀ b, b < F ∨ F + 4096 ≤ b → load8 m' b = load8 m b.

Section one_frame.
Context (v : vm A) (pd x y F : Z) (m' : mem).
Hypothesis Hwf : pd_wf v pd.
Hypothesis HF : owns (v_mem v) pd (NFr x y) F.
Hypothesis Hm : only_frame F (v_mem v) m'.

Lemma frame_other_bytes n q b :
  owns (v_mem v) pd n q → n ≠ NFr x y → q ≤ b < q + 4096 → load8 m' b = load8 (v_mem v) b.
Proof.
  intros Hq Hn Hb. apply Hm. destruct (owned_apart v pd n (NFr x y) q F Hwf Hq HF Hn); lia.
Qed.

Lemma frame_tables n q b :
  owns (v_mem v) pd n q → is_table n → q ≤ b < q + 4096 → load8 m' b = load8 (v_mem v) b.
Proof. intros Ho Hn. apply (frame_other_bytes n); [done|]. by intros ->. Qed.

Lemma frame_owns n q : owns m' pd n q ↔ owns (v_mem v) pd n q.
Proof. apply (same_tables_owns v (vm_with_mem v m')); [done|exact frame_tables]. Qed.

Lemma frame_wf : pd_wf (vm_with_mem v m') pd.
Proof.
  apply (same_tables_wf v); [done|exact frame_tables|apply Hwf|exact (wf_low v pd Hwf)|exact (wf_used v pd Hwf)].
Qed.
End one_frame.

(** [phys_of_virt] is the walk of the hardware. *)
Lemma phys_of_virt_owned (v : vm A) pd virt F :
  pd_wf v pd → is_u32 virt → 8388608 ≤ virt →
  owns (v_mem v) pd (NFr (pd_index virt) (pt_index virt)) F →
  phys_of_virt (v_mem v) pd virt = Some F.
Proof.
  intros Hwf Hv Hu Ho. unfold phys_of_virt. rewrite (touch_frame pd) by apply Hwf. cbn [mbind option_bind].
  inversion Ho as [| |? T ? ? HT ? HF EF]; subst. inversion HT as [|? ? ? HTf ET|]; subst.
  rewrite ET. rewrite decide_False by (by apply frame_present). rewrite frame_addr by done.
  rewrite (touch_frame T) by done. cbn [mbind option_bind]. rewrite EF.
  rewrite decide_False by (by apply frame_present). by rewrite frame_addr.
Qed.
End frames.

(** ** Filling one frame *)

(** The byte that belongs at the address [virt] of the segment with header
    [ph]. *)
Definition seg_byte (m : mem) (data ph virt : Z) : Z :=
  if decide (p_vaddr m ph ≤ virt < p_vaddr m ph + p_filesz m ph)
  then load8 m (data + p_offset m ph + (virt - p_vaddr m ph)) else 0.

(** A loadable header of the image, inside the first 1 MB. *)
Record seg_ok (m : mem) (data len ph : Z) : Prop := SegOk {
  so_data : 0 < data ∧ data + len ≤ 1048576;
  so_ph : 0 ≤ ph ∧ ph + 32 ≤ 1048576;
  so_off : p_offset m ph + p_filesz m ph ≤ len;
  so_size : p_filesz m ph ≤ p_memsz m ph;
  so_user : 8388608 ≤ p_vaddr m ph;
  so_top : p_vaddr m ph + p_memsz m ph + 4095 < 4294967296
}.

Lemma low_load32 m m' a : low_same m m' → a + 4 ≤ 1048576 → load32 m' a = load32 m a.
Proof. intros H Ha. apply load32_ext. intros b Hb. apply H. lia. Qed.

Lemma low_ph m m' ph :
  low_same m m' → ph + 32 ≤ 1048576 →
  p_type m' ph = p_type m ph ∧ p_offset m' ph = p_offset m ph ∧ p_vaddr m' ph = p_vaddr m ph ∧
  p_filesz m' ph = p_filesz m ph ∧ p_memsz m' ph = p_memsz m ph.
Proof.
  intros H Hp. unfold p_type, p_offset, p_vaddr, p_filesz, p_memsz. by rewrite !(low_load32 m m') by (done || lia).
Qed.

Lemma seg_fields m data len ph :
  low_ok m → seg_ok m data len ph →
  is_u32 (p_offset m ph) ∧ is_u32 (p_vaddr m ph) ∧ is_u32 (p_filesz m ph) ∧ is_u32 (p_memsz m ph).
Proof.
  intros Hb [_ Hp _ _ _ _]. unfold p_offset, p_vaddr, p_filesz, p_memsz.
  split_and!; apply low_load32_range; (done || lia).
Qed.

(** A part of the file, from [cs] to [ce] in the segment, copied to its place in a page. *)
Lemma copy_window m m1 src F fs cs ce page :
  low_same m m1 → low_ok m1 → frame F → page ≤ cs → cs ≤ ce → src + (ce - fs) ≤ 1048576 →
  ∀ b, load8 (mem_cpy m1 (F + (cs - page)) (src + (cs - fs)) (Z.to_nat (ce - cs))) b =
    if decide (F + (cs - page) ≤ b < F + (ce - page)) then load8 m (src + (b - F + page - fs)) else load8 m1 b.
Proof.
  intros Hlow Hb1 [_ HF] C1 C2 C3 b. rewrite load8_mem_cpy by lia. rewrite Z2Nat.id by lia.
  destruct (decide (F + (cs - page) ≤ b < F + (ce - page))) as [Hb|Hb].
  - rewrite decide_True by lia. rewrite u8_small by (apply Hb1; lia). rewrite Hlow by lia. f_equal. lia.
  - by rewrite decide_False by lia.
Qed.

Lemma fill_frame_ok m data len ph page F :
  low_ok m → seg_ok m data len ph → aligned page → 8388608 ≤ page → page + 4096 < 4294967296 → frame F →
  ∃ m', fill_frame m data ph page F = Some m' ∧ only_frame F m m' ∧
    ∀ o, 0 ≤ o < 4096 → load8 m' (F + o) = seg_byte m data ph (page + o).
Proof.
  intros Hbytes Hseg Hal Hpg Hpt HF. pose proof (seg_fields m data len ph Hbytes Hseg) as (B1 & B2 & B3 & B4).
  destruct Hseg as [S1 S2 S3 S4 S5 S6]. unfold fill_frame. rewrite touch_frame by done. cbn [mbind option_bind].
  set (m1 := mem_set m F 0 (Z.to_nat 4096)).
  assert (∀ b, load8 m1 b = if decide (F ≤ b < F + 4096) then 0 else load8 m b) as H1.
  { intros b. unfold m1. rewrite load8_mem_set. by rewrite Z2Nat.id by lia. }
  assert (low_same m m1) as Hlow1.
  { intros b Hb. rewrite H1. rewrite decide_False; [done|]. destruct HF as [_ ?]. lia. }
  assert (low_ok m1) as Hb1 by (by apply (low_ok_same m)).
  clearbody m1. destruct (low_ph m m1 ph Hlow1) as (_ & -> & -> & -> & _); [lia|]. cbv zeta.
  unfold is_u32 in *. rewrite (u32_small (p_vaddr m ph + p_filesz m ph)) by (unfold is_u32; lia).
  rewrite (u32_small (page + 4096)) by (unfold is_u32; lia).
  set (fs := p_vaddr m ph) in *. set (fe := fs + p_filesz m ph).
  assert (∀ o, 0 ≤ o < 4096 → load8 m1 (F + o) = 0) as Hz by (intros o Ho; rewrite H1, decide_True by lia; done).
  destruct (decide (fe ≤ page ∨ page + 4096 ≤ fs)) as [Hout|Hin].
  - exists m1. split; [done|]. split; [intros b Hb; rewrite H1; by rewrite decide_False by lia|].
    intros o Ho. rewrite Hz by done. unfold seg_byte. fold fs fe. by rewrite decide_False by lia.
  - set (cs := if decide (fs < page) then page else fs). set (ce := if decide (page + 4096 < fe) then page + 4096 else fe).
    assert (page ≤ cs ∧ fs ≤ cs ∧ (cs = page ∨ cs = fs) ∧ ce ≤ page + 4096 ∧ ce ≤ fe ∧ (ce = page + 4096 ∨ ce = fe) ∧ cs ≤ ce)
      as (C1 & C2 & C3 & C4 & C5 & C6 & C7).
    { unfold cs, ce. destruct (decide (fs < page)), (decide (page + 4096 < fe)); lia. }
    clearbody cs ce. destruct HF as [HFa HFr]. unfold fe in *. unfold aligned in HFa.
    rewrite (u32_small (cs - page)) by (unfold is_u32; lia). rewrite (u32_small (cs - fs)) by (unfold is_u32; lia).
    rewrite (u32_small (p_offset m ph + (cs - fs))) by (unfold is_u32; lia).
    rewrite (u32_small (ce - cs)) by (unfold is_u32; lia).
    rewrite (u32_small (F + (cs - page))) by (unfold is_u32; lia).
    rewrite (u32_small (data + (p_offset m ph + (cs - fs)))) by (unfold is_u32; lia).
    assert (F + 4096 ≤ 8388608) as HF8 by zdm.
    unfold k_memcpy, reach. rewrite decide_True by lia. cbn [mbind option_bind].
    rewrite decide_True by lia. cbn [mbind option_bind]. eexists. split; [reflexivity|].
    pose proof (copy_window m m1 (data + p_offset m ph) F fs cs ce page Hlow1 Hb1 (conj HFa HFr) C1 C7 ltac:(lia)) as H2.
    rewrite <-(Z.add_assoc data) in H2.
    split.
    + intros b Hb. rewrite H2, decide_False by lia. rewrite H1. by rewrite decide_False by lia.
    + intros o Ho. rewrite H2. unfold seg_byte. fold fs.
      destruct (decide (fs ≤ page + o < fs + p_filesz m ph)) as [Hi|Hi].
      * rewrite decide_True by lia. f_equal. lia.
      * rewrite decide_False by lia. by apply Hz.
Qed.

Lemma only_frame_low F m m' : frame F → only_frame F m m' → low_same m m'.
Proof. intros [_ HF] H b Hb. apply H. lia. Qed.

Lemma seg_ok_low m m' data len ph : low_same m m' → seg_ok m data len ph → seg_ok m' data len ph.
Proof.
  intros H [S1 S2 S3 S4 S5 S6]. destruct (low_ph m m' ph H) as (_ & E1 & E2 & E3 & E4); [lia|].
  constructor; rewrite ?E1, ?E2, ?E3, ?E4; done.
Qed.

Lemma seg_byte_low m m' data len ph virt :
  low_ok m → low_same m m' → seg_ok m data len ph → seg_byte m' data ph virt = seg_byte m data ph virt.
Proof.
  intros Hb H Hs. pose proof (seg_fields m data len ph Hb Hs) as (B1 & B2 & B3 & B4).
  destruct Hs as [S1 S2 S3 S4 S5 S6]. destruct (low_ph m m' ph H) as (_ & E1 & E2 & E3 & _); [lia|].
  unfold seg_byte. rewrite E1, E2, E3. unfold is_u32 in *. case_decide; [|done]. apply H. lia.
Qed.

(** ** Filling the pages of a segment *)

Section fill.
Context {A : Type} `{!FrameAllocator A}.

Abbreviation nd virt := (NFr (pd_index virt) (pt_index virt)).

Lemma fill_pages_ok n : ∀ (v : vm A) pd data len ph start pg,
  pd_wf v pd → low_ok (v_mem v) → seg_ok (v_mem v) data len ph → aligned start → 8388608 ≤ start → 0 ≤ pg →
  start + (pg + Z.of_nat n) * 4096 < 4294967296 →
  (∀ k, pg ≤ k < pg + Z.of_nat n → ∃ F, owns (v_mem v) pd (nd (page_at start k)) F) →
  ∃ m', fill_pages pd data ph start pg n (v_mem v) = Some (true, m') ∧ pd_wf (vm_with_mem v m') pd ∧
    low_same (v_mem v) m' ∧ (∀ x q, owns m' pd x q ↔ owns (v_mem v) pd x q) ∧
    (∀ k F o, pg ≤ k < pg + Z.of_nat n → owns (v_mem v) pd (nd (page_at start k)) F → 0 ≤ o < 4096 →
       load8 m' (F + o) = seg_byte (v_mem v) data ph (page_at start k + o)) ∧
    (∀ x q b, owns (v_mem v) pd x q → (∀ k, pg ≤ k < pg + Z.of_nat n → x ≠ nd (page_at start k)) →
       q ≤ b < q + 4096 → load8 m' b = load8 (v_mem v) b) ∧
    (∀ b, (∀ k F, pg ≤ k < pg + Z.of_nat n → owns (v_mem v) pd (nd (page_at start k)) F → ¬ F ≤ b < F + 4096) →
       load8 m' b = load8 (v_mem v) b).
Proof.
  induction n as [|n IH]; intros v pd data len ph start pg Hwf Hlow Hseg Hal Hst Hpg Htop Hown.
  { exists (v_mem v). split; [done|]. split; [by destruct v|]. split; [done|]. split; [done|]. split; [intros; lia|done]. }
  cbn [fill_pages]. destruct (Hown pg) as [F HF]; [lia|].
  assert (is_u32 (page_at start pg)) as Hu by (unfold is_u32, page_at; lia).
  change (start + pg * 4096) with (page_at start pg). rewrite (u32_small (page_at start pg)) by done.
  rewrite (phys_of_virt_owned v pd _ F) by (done || unfold page_at; lia). cbn [mbind option_bind].
  pose proof (owns_frame _ _ _ _ HF) as HFf. rewrite decide_False by (destruct HFf; lia).
  destruct (fill_frame_ok (v_mem v) data len ph (page_at start pg) F) as (m1 & -> & Honly & Hbytes);
    [done|done|unfold aligned, page_at in *; zdm|unfold page_at; lia|unfold page_at; lia|done|].
  cbn [mbind option_bind]. pose proof (only_frame_low F _ _ HFf Honly) as Hl1.
  pose proof (frame_owns v pd _ _ F m1 Hwf HF Honly) as Hown1.
  destruct (IH (vm_with_mem v m1) pd data len ph start (pg + 1)) as (m' & E & Hwf' & Hl' & Hown' & Hin & Hout & Hrest).
  - by apply (frame_wf v pd _ _ F m1 Hwf HF).
  - by apply (low_ok_same (v_mem v)).
  - by apply (seg_ok_low (v_mem v)).
  - done.
  - done.
  - lia.
  - lia.
  - intros k Hk. destruct (Hown k) as [G HG]; [lia|]. exists G. by apply Hown1.
  - cbn [v_mem vm_with_mem] in *. exists m'. split; [done|]. split; [exact Hwf'|]. split; [by etrans|].
    split; [intros x q; by rewrite Hown', Hown1|]. split; [|split].
    + intros k G o Hk HG Ho. destruct (decide (k = pg)) as [->|Hne].
      * assert (G = F) as -> by (by apply (owns_fun _ _ _ _ _ HG HF)).
        rewrite (Hout (nd (page_at start pg)) F); [by apply Hbytes|by apply Hown1| |lia].
        intros k Hk2 Eq. assert (pg = k) by (apply (page_at_index start); [done|unfold is_u32, page_at; lia|done]). lia.
      * rewrite (Hin k) by (done || lia || by apply Hown1). by apply (seg_byte_low _ _ _ len).
    + intros x q b Hq Hx Hb. rewrite (Hout x q); [|by apply Hown1|intros k Hk; apply Hx; lia|done].
      apply (frame_other_bytes v pd _ _ F m1 Hwf HF Honly x q); [done|apply Hx; lia|done].
    + intros b Hb. rewrite Hrest.
      * apply Honly. pose proof (Hb pg F ltac:(lia) HF). lia.
      * intros k G Hk HG. apply (Hb k G); [lia|by apply Hown1].
Qed.

(** Building goes around the frames already mapped. *)
Lemma grows_frame_bytes (v v1 : vm A) pd x y F b :
  pd_wf v pd → grows pd v v1 → owns (v_mem v) pd (NFr x y) F → F ≤ b < F + 4096 →
  load8 (v_mem v1) b = load8 (v_mem v) b.
Proof.
  intros Hwf Hg Ho Hb. pose proof (owns_frame _ _ _ _ Ho) as [HFa _]. apply page_of_in in Hb; [|done]. apply Hg.
  - rewrite Hb. by apply (wf_used v pd Hwf (NFr x y)).
  - rewrite Hb. intros ->. assert (NFr x y = NPd) by (apply (wf_inj v pd Hwf _ _ pd Ho); constructor; apply Hwf). done.
  - rewrite Hb. intros i Hi. by assert (NFr x y = NPt i) by (by apply (wf_inj v pd Hwf _ _ F)).
Qed.

(** Filling frames that were available before adds nothing to what building the
    address space may do. *)
Lemma fill_grows (v v1 : vm A) pd m' (new : Z → Prop) :
  pd_wf v pd → pd_wf v1 pd → grows pd v v1 →
  (∀ F, new F → aligned F ∧ fa_avail (v_fa v) F) →
  (∀ b, (∀ F, new F → ¬ F ≤ b < F + 4096) → load8 m' b = load8 (v_mem v1) b) →
  (∀ x q, owns m' pd x q ↔ owns (v_mem v1) pd x q) →
  grows pd v (vm_with_mem v1 m').
Proof.
  intros Hwf Hwf1 [G1 G2 G3 G4 G5 G6] Hnew Hrest Hown.
  constructor; cbn [v_mem v_fa vm_with_mem].
  - intros b H1 H2 H3. rewrite Hrest; [by apply G1|]. intros F HF Hb. destruct (Hnew F HF) as [Ha Hav].
    apply H1. by rewrite (page_of_in F b).
  - intros i Hi. rewrite <-G2 by done. apply ent_ext. intros b Hb. apply Hrest. intros F HF Hr.
    destruct (Hnew F HF) as [Ha Hav]. destruct (wf_pd v pd Hwf) as [Hpa _].
    assert (F = pd) as ->.
    { rewrite <-(page_of_in F b Ha Hr). apply page_of_in; [done|lia]. }
    apply (wf_used v pd Hwf NPd pd); [|done]. constructor. apply Hwf.
  - done.
  - intros n q Hq. apply Hown. by apply G4.
  - intros n q. rewrite Hown. apply G5.
  - intros q Hq. destruct (G6 q Hq) as [?|[n Hn]]; [by left|right]. exists n. by apply Hown.
Qed.

(** The pages of a segment. *)
Lemma seg_geometry m data len ph :
  low_ok m → seg_ok m data len ph → p_memsz m ph ≠ 0 →
  seg_start m ph = 4096 * (p_vaddr m ph `div` 4096) ∧
  seg_end m ph = 4096 * ((p_vaddr m ph + p_memsz m ph + 4095) `div` 4096) ∧
  seg_start m ph + seg_pages m ph * 4096 = seg_end m ph ∧ 0 < seg_pages m ph ∧
  8388608 ≤ seg_start m ph ≤ p_vaddr m ph ∧ p_vaddr m ph + p_memsz m ph ≤ seg_end m ph < 4294967296.
Proof.
  intros Hb Hs Hnz. pose proof (seg_fields m data len ph Hb Hs) as (B1 & B2 & B3 & B4). destruct Hs as [_ _ _ _ S5 S6].
  assert (seg_start m ph = 4096 * (p_vaddr m ph `div` 4096)) as E1 by (unfold seg_start; by apply land_not32_4095).
  assert (seg_end m ph = 4096 * ((p_vaddr m ph + p_memsz m ph + 4095) `div` 4096)) as E2.
  { unfold seg_end, is_u32 in *. rewrite (u32_small (p_vaddr m ph + _)) by (unfold is_u32; lia).
    rewrite u32_small by (unfold is_u32; lia). apply land_not32_4095. unfold is_u32; lia. }
  split; [done|]. split; [done|]. unfold seg_pages. rewrite E1, E2. unfold is_u32 in *.
  rewrite u32_small by (unfold is_u32; zdm). rewrite Z.shiftr_div_pow2 by lia. change (2 ^ 12) with 4096.
  split_and!; zdm.
Qed.

Definition in_seg (m : mem) (ph virt : Z) : Prop := seg_start m ph ≤ virt < seg_end m ph.

(** The segment at [ph] of the memory [m0] is in place. *)
Definition seg_loaded (m0 : mem) (data ph : Z) (pd : Z) (m : mem) : Prop :=
  ∀ virt, in_seg m0 ph virt → ∃ F, owns m pd (nd virt) F ∧
    load8 m (F + virt `mod` 4096) = seg_byte m0 data ph virt.

(** The pages for a segment: fresh ones where it goes, nothing elsewhere. *)
Lemma alloc_segment_ok (v : vm A) pd start np :
  pd_wf v pd → 8388608 ≤ start → aligned start → 0 ≤ np → start + np * 4096 ≤ 4294967296 →
  (∀ k F, 0 ≤ k < np → ¬ owns (v_mem v) pd (nd (page_at start k)) F) →
  ∃ r v1, paging_alloc_user_pages pd start np v = Some (r, v1) ∧ pd_wf v1 pd ∧ grows pd v v1 ∧ low_same (v_mem v) (v_mem v1) ∧
    (∀ virt F, is_u32 virt → owns (v_mem v1) pd (nd virt) F → owns (v_mem v) pd (nd virt) F ∨ start ≤ virt < start + np * 4096) ∧
    (∀ x y F b, owns (v_mem v) pd (NFr x y) F → F ≤ b < F + 4096 → load8 (v_mem v1) b = load8 (v_mem v) b) ∧
    (r = 0 ∧ (∀ k, 0 ≤ k < np → ∃ F, owns (v_mem v1) pd (nd (page_at start k)) F) ∨ r = -1 ∧ ∀ q, ¬ fa_avail (v_fa v1) q).
Proof.
  intros Hwf Hst Hal Hnp Htop Hfree.
  destruct (alloc_pages_loop_spec pd start (Z.to_nat np) Hst 0 v) as (r & v1 & E & Hwf1 & Hg & Hnew & Hc); [lia|lia|done| |].
  { intros k F Hk. apply Hfree. lia. }
  rewrite Z2Nat.id in Hnew, Hc by lia. exists r, v1. split; [exact E|]. split; [done|]. split; [done|].
  split; [|split; [|split; [|exact Hc]]].
  - intros b Hb. pose proof (page_of_bounds b). apply Hg.
    + intros Hav. destruct (fa_avail_range _ _ (wf_fa v pd Hwf) Hav). lia.
    + destruct (wf_pd v pd Hwf). lia.
    + intros i Ho. apply owns_frame in Ho as [_ ?]. lia.
  - intros virt F Hv Ho. destruct (Hnew _ _ _ Ho) as [?|(k & Hk & [= E1 E2])]; [by left|right].
    rewrite !pd_index_eq in E1. rewrite !pt_index_eq in E2. unfold page_at, aligned, is_u32 in *.
    clear -Hv E1 E2 Hk Hal Hst Htop. zdm.
  - intros x y F b. by apply (grows_frame_bytes v v1 pd).
Qed.

(** The page of an address in the segment. *)
Lemma in_seg_page virt start n :
  aligned start → 8388608 ≤ start → start + n * 4096 < 4294967296 → start ≤ virt < start + n * 4096 →
  let k := (virt - start) `div` 4096 in
  0 ≤ k < n ∧ nd virt = nd (page_at start k) ∧ page_at start k + virt `mod` 4096 = virt.
Proof.
  intros Hal Hst Htop Hv k. unfold aligned in *. split; [unfold k; zdm|]. split; [|unfold k, page_at; zdm].
  rewrite !pd_index_eq, !pt_index_eq. unfold k, page_at. f_equal; zdm.
Qed.

Lemma load_user_segment_ok (v : vm A) pd data len ph :
  pd_wf v pd → low_ok (v_mem v) → seg_ok (v_mem v) data len ph → p_memsz (v_mem v) ph ≠ 0 →
  (∀ virt F, in_seg (v_mem v) ph virt → ¬ owns (v_mem v) pd (nd virt) F) →
  ∃ ok v', load_user_segment pd data ph v = Some (ok, v') ∧ pd_wf v' pd ∧ low_same (v_mem v) (v_mem v') ∧
    (∀ virt F, is_u32 virt → owns (v_mem v') pd (nd virt) F →
       owns (v_mem v) pd (nd virt) F ∨ in_seg (v_mem v) ph virt) ∧
    (∀ x y F, owns (v_mem v) pd (NFr x y) F → owns (v_mem v') pd (NFr x y) F ∧
       ∀ b, F ≤ b < F + 4096 → load8 (v_mem v') b = load8 (v_mem v) b) ∧
    (ok = true → seg_loaded (v_mem v) data ph pd (v_mem v')) ∧
    (ok = false → ∀ q, ¬ fa_avail (v_fa v') q) ∧ grows pd v v'.
Proof.
  intros Hwf Hlow Hseg Hnz Hfree.
  destruct (seg_geometry _ _ _ _ Hlow Hseg Hnz) as (G1 & G2 & G3 & G4 & G5 & G6).
  unfold load_user_segment. set (start := seg_start (v_mem v) ph) in *. set (np := seg_pages (v_mem v) ph) in *.
  assert (aligned start) as Hal by (unfold aligned; rewrite G1; zdm).
  assert (∀ virt, in_seg (v_mem v) ph virt ↔ start ≤ virt < start + np * 4096) as Hin
    by (intros virt; unfold in_seg; fold start; rewrite G3; done).
  destruct (alloc_segment_ok v pd start np Hwf ltac:(lia) Hal ltac:(lia) ltac:(lia)) as (r & v1 & -> & Hwf1 & Hg & Hl1 & Hnew & Hold1 & Hc).
  { intros k F Hk. apply Hfree, Hin. unfold page_at. lia. }
  cbn [mbind option_bind].
  assert (∀ virt F, is_u32 virt → owns (v_mem v1) pd (nd virt) F → owns (v_mem v) pd (nd virt) F ∨ in_seg (v_mem v) ph virt) as Hnew1.
  { intros virt F Hv Ho. rewrite Hin. by apply (Hnew virt F). }
  destruct Hc as [[-> Hown]|[-> Hno]].
  2:{ rewrite decide_True by done. exists false, v1. split; [done|]. split; [done|]. split; [done|]. split; [done|].
      split; [|done]. intros x y F Ho. split; [by apply Hg|]. intros b Hb. by apply (Hold1 x y F). }
  rewrite decide_False by (intros X; by apply X).
  destruct (fill_pages_ok (Z.to_nat np) v1 pd data len ph start 0) as (m' & -> & Hwf2 & Hl2 & Ho2 & Hfill & Hout2 & Hrest2).
  { done. } { by apply (low_ok_same (v_mem v)). } { by apply (seg_ok_low (v_mem v)). } { done. } { lia. } { lia. } { lia. }
  { intros k Hk. apply Hown. lia. }
  rewrite Z2Nat.id in Hfill, Hout2, Hrest2 by lia. cbn [mbind option_bind].
  exists true, (vm_with_mem v1 m'). split; [done|]. split; [done|]. cbn [v_mem vm_with_mem]. split; [by etrans|].
  split; [intros virt F Hv; rewrite Ho2; by apply Hnew1|]. split; [|split; [|split; [done|]]].
  - intros x y F Ho. assert (owns (v_mem v1) pd (NFr x y) F) as Ho1 by (by apply Hg). split; [by apply Ho2|].
    intros b Hb. rewrite (Hout2 (NFr x y) F); [by apply (Hold1 x y F)|done| |done].
    intros k Hk Eq. rewrite Eq in Ho. apply (Hfree (page_at start k) F); [|done]. apply Hin. unfold page_at. lia.
  - intros _ virt Hv. apply Hin in Hv.
    destruct (in_seg_page virt start np Hal) as (Hk & -> & Hpage); [lia|lia|done|].
    destruct (Hown ((virt - start) `div` 4096)) as [F HF]; [lia|]. exists F. split; [by apply Ho2|].
    rewrite (Hfill ((virt - start) `div` 4096) F) by (done || lia || zdm). rewrite Hpage.
    by apply (seg_byte_low _ _ _ len).
  - apply (fill_grows v v1 pd m' (λ F, ∃ k, 0 ≤ k < np ∧ owns (v_mem v1) pd (nd (page_at start k)) F)); [done|done|done| | |].
    + intros F (k & Hk & HF). pose proof (owns_frame _ _ _ _ HF) as [? _]. split; [done|].
      destruct (gr_new _ _ _ Hg _ _ HF) as [Ho|]; [|done].
      destruct (Hfree (page_at start k) F); [|done]. apply Hin. unfold page_at. lia.
    + intros b Hb. apply Hrest2. intros k F Hk HF Hr. by apply (Hb F); [exists k|].
    + done.
Qed.
End fill.

(** ** The image *)

Definition loadable (m : mem) (ph : Z) : Prop := p_type m ph = ELF_PT_LOAD ∧ p_memsz m ph ≠ 0.

(** A well-formed image in kernel memory: a valid header, program headers of 32
    bytes inside the file, every loadable segment inside the file, at or above 8 MB and
    with no more bytes in the file than in memory, and no page in two segments.  The
    loader checks the header only ([elf_valid]); the rest is what the theorems
    require of the file. *)
Record elf_image (m : mem) (data len : Z) : Prop := ElfImage {
  ei_data : 0 < data ∧ 52 ≤ len ∧ data + len ≤ 1048576;
  ei_valid : elf_valid m data len = true;
  ei_table : e_phentsize m data = 32 ∧ e_phoff m data + e_phnum m data * 32 ≤ len;
  ei_segs i : 0 ≤ i < e_phnum m data → loadable m (phdr m data i) → seg_ok m data len (phdr m data i);
  ei_apart i j virt : 0 ≤ i < e_phnum m data → 0 ≤ j < e_phnum m data →
    loadable m (phdr m data i) → loadable m (phdr m data j) →
    in_seg m (phdr m data i) virt → in_seg m (phdr m data j) virt → i = j
}.

Lemma low_load16 m m' a : low_same m m' → a + 2 ≤ 1048576 → load16 m' a = load16 m a.
Proof. intros H Ha. unfold load16. by rewrite !H by lia. Qed.

Lemma low_eh m m' data :
  low_same m m' → data + 52 ≤ 1048576 →
  e_entry m' data = e_entry m data ∧ e_phoff m' data = e_phoff m data ∧
  e_phentsize m' data = e_phentsize m data ∧ e_phnum m' data = e_phnum m data.
Proof.
  intros H Hd. unfold e_entry, e_phoff, e_phentsize, e_phnum.
  rewrite !(low_load32 m m'), !(low_load16 m m') by (done || lia). done.
Qed.

Lemma phdr_low m m' data i : low_same m m' → data + 52 ≤ 1048576 → phdr m' data i = phdr m data i.
Proof. intros H Hd. destruct (low_eh m m' data H Hd) as (_ & E1 & E2 & _). unfold phdr. by rewrite E1, E2. Qed.

Lemma phdr_range m data len i :
  low_ok m → elf_image m data len → 0 ≤ i < e_phnum m data →
  phdr m data i = data + e_phoff m data + i * 32 ∧ 0 ≤ phdr m data i ∧ phdr m data i + 32 ≤ 1048576.
Proof.
  intros Hb [Hd _ [He Ht] _ _] Hi. assert (is_u32 (e_phoff m data)) as Ho by (apply low_load32_range; [done|lia]).
  unfold is_u32 in Ho. assert (phdr m data i = data + e_phoff m data + i * 32) as E.
  { unfold phdr. rewrite He. apply u32_small. unfold is_u32. lia. }
  rewrite E. split; [done|lia].
Qed.

Section image.
Context {A : Type} `{!FrameAllocator A}.
Context (m0 : mem) (v0 : vm A) (data len pd : Z).
Hypothesis Himg : elf_image m0 data len.
Hypothesis Hlow0 : low_ok m0.

Abbreviation nd virt := (NFr (pd_index virt) (pt_index virt)).
Abbreviation ph i := (phdr m0 data i).

(** The state before iteration [i]. *)
Record load_inv (i : Z) (v : vm A) : Prop := LoadInv {
  li_wf : pd_wf v pd;
  li_low : low_same m0 (v_mem v);
  li_done j : 0 ≤ j < i → j < e_phnum m0 data → loadable m0 (ph j) → seg_loaded m0 data (ph j) pd (v_mem v);
  li_todo j virt F : i ≤ j < e_phnum m0 data → loadable m0 (ph j) → in_seg m0 (ph j) virt →
    ¬ owns (v_mem v) pd (nd virt) F;
  li_grows : grows pd v0 v;
  li_only virt F : is_u32 virt → owns (v_mem v) pd (nd virt) F →
    owns (v_mem v0) pd (nd virt) F ∨
    ∃ j, 0 ≤ j < e_phnum m0 data ∧ loadable m0 (ph j) ∧ in_seg m0 (ph j) virt
}.

Lemma in_seg_u32 j virt :
  0 ≤ j < e_phnum m0 data → loadable m0 (ph j) → in_seg m0 (ph j) virt → is_u32 virt ∧ 8388608 ≤ virt.
Proof.
  intros Hj [Ht Hl] Hv. destruct (seg_geometry m0 data len (ph j)) as (_ & _ & _ & _ & G5 & G6);
    [done|by apply Himg|done|]. unfold in_seg, is_u32 in *. lia.
Qed.

(** Loading the segment of iteration [i]. *)
Lemma load_inv_step i v :
  0 ≤ i < e_phnum m0 data → loadable m0 (ph i) → load_inv i v →
  ∃ ok v', load_user_segment pd data (ph i) v = Some (ok, v') ∧ pd_wf v' pd ∧ low_same m0 (v_mem v') ∧
    (ok = true → load_inv (i + 1) v') ∧ (ok = false → ∀ q, ¬ fa_avail (v_fa v') q) ∧ grows pd v0 v'.
Proof.
  intros Hi Hl [Hwf Hlow Hdone Htodo Hgr Honly].
  destruct (low_ph m0 (v_mem v) (ph i) Hlow) as (_ & E1 & E2 & E3 & E4); [by apply (phdr_range m0 data len i)|].
  assert (∀ virt, in_seg (v_mem v) (ph i) virt ↔ in_seg m0 (ph i) virt) as Hseg.
  { intros virt. unfold in_seg, seg_start, seg_end. by rewrite E2, E4. }
  destruct (load_user_segment_ok v pd data len (ph i)) as (ok & v' & E & Hwf' & Hl' & Hnew & Hold & Hok & Hno & Hg).
  { done. } { by apply (low_ok_same m0). } { apply (seg_ok_low m0); [done|by apply Himg]. }
  { rewrite E4. apply Hl. } { intros virt F Hv. apply (Htodo i); [lia|done|by apply Hseg]. }
  exists ok, v'. split; [done|]. split; [done|]. split; [by etrans|].
  split; [|split; [done|by etrans]]. intros ->.
  constructor; [done|by etrans| | |by etrans|].
  - intros j Hj Hjn Hjl virt Hv. destruct (decide (j = i)) as [->|Hne].
    + destruct (Hok eq_refl virt) as (F & HF & HB); [by apply Hseg|]. exists F. split; [done|]. rewrite HB.
      apply (seg_byte_low _ _ _ len); [done|done|by apply Himg].
    + destruct (Hdone j ltac:(lia) Hjn Hjl virt Hv) as (F & HF & HB). destruct (Hold _ _ _ HF) as [HF' Hb].
      exists F. split; [done|]. rewrite Hb; [done|]. zdm.
  - intros j virt F Hj Hjl Hv Ho. destruct (in_seg_u32 j virt ltac:(lia) Hjl Hv) as [Hvu _].
    destruct (Hnew virt F Hvu Ho) as [Ho'|Hin]; [by apply (Htodo j virt F); [lia|..]|].
    apply Hseg in Hin. assert (i = j) by (apply (ei_apart _ _ _ Himg i j virt); (done || lia)). lia.
  - intros virt F Hv Ho. destruct (Hnew virt F Hv Ho) as [Ho'|Hin]; [by apply (Honly virt F)|right].
    exists i. split; [done|]. split; [done|]. by apply Hseg.
Qed.

Lemma elf_user_loop_ok fuel : ∀ i v,
  0 ≤ i ≤ e_phnum m0 data → e_phnum m0 data - i < Z.of_nat fuel → load_inv i v →
  ∃ r v', elf_user_loop fuel pd data len i v = Some (r, v') ∧ pd_wf v' pd ∧ low_same m0 (v_mem v') ∧ grows pd v0 v' ∧
    (r = e_entry m0 data ∧ load_inv (e_phnum m0 data) v' ∨ r = 0 ∧ ∀ q, ¬ fa_avail (v_fa v') q).
Proof.
  induction fuel as [|fuel IH]; intros i v Hi Hf Hinv; [lia|]. pose proof Hinv as [Hwf Hlow Hdone Htodo Hgr Honly].
  pose proof (ei_data _ _ _ Himg) as Hd. cbn [elf_user_loop].
  destruct (low_eh m0 (v_mem v) data Hlow) as (E1 & _ & _ & E2); [lia|]. rewrite E1, E2, (phdr_low m0) by (done || lia).
  destruct (decide (i < e_phnum m0 data)) as [Hlt|Hge].
  2:{ exists (e_entry m0 data), v. split; [done|]. split; [done|]. split; [done|]. split; [done|]. left.
      by replace (e_phnum m0 data) with i by lia. }
  destruct (phdr_range m0 data len i Hlow0 Himg) as (_ & P1 & P2); [lia|].
  unfold reach. rewrite (decide_True (P := 0 ≤ ph i ∧ ph i + 32 ≤ 8388608)) by lia. cbn [mbind option_bind].
  destruct (low_ph m0 (v_mem v) (ph i) Hlow P2) as (F1 & F2 & F3 & F4 & F5). rewrite F1, F2, F4, F5.
  destruct (decide (p_type m0 (ph i) ≠ ELF_PT_LOAD ∨ p_memsz m0 (ph i) = 0)) as [Hskip|Hload].
  - apply IH; [lia|lia|]. constructor; [done|done| |intros j virt F Hj; apply Htodo; lia|done|done].
    intros j Hj Hjn Hjl. destruct (decide (j = i)) as [->|]; [exfalso; unfold loadable in Hjl; tauto|].
    apply Hdone; [lia|done|done].
  - assert (loadable m0 (ph i)) as Hl by (unfold loadable; destruct (decide (p_type m0 (ph i) = ELF_PT_LOAD)); tauto).
    assert (seg_ok m0 data len (ph i)) as Hs by (apply Himg; [lia|done]).
    pose proof (seg_fields m0 data len (ph i) Hlow0 Hs) as (B1 & B2 & B3 & B4). unfold is_u32 in *.
    pose proof (so_off _ _ _ _ Hs) as Hoff. rewrite u32_small by (unfold is_u32; lia). rewrite decide_False by lia.
    destruct (load_inv_step i v) as (ok & v' & -> & Hwf' & Hl' & Hok & Hno & Hg); [lia|done|done|].
    cbn [mbind option_bind]. destruct ok; [apply IH; [lia|lia|by apply Hok]|].
    exists 0, v'. split; [done|]. split; [done|]. split; [done|]. split; [done|]. right. split; [done|]. by apply Hno.
Qed.
End image.

Lemma e_phnum_range m data : low_ok m → data + 52 ≤ 1048576 → 0 ≤ e_phnum m data < 65536.
Proof.
  intros H Hd. unfold e_phnum, load16. pose proof (H (data + 44) ltac:(lia)). pose proof (H (data + 44 + 1) ltac:(lia)).
  unfold is_u8 in *. lia.
Qed.

(** [elf_load_user] on a well-formed image. *)
Lemma elf_load_user_lemma (A : Type) (FA : FrameAllocator A) (v : vm A) (data len pd : Z) :
  elf_image (v_mem v) data len → low_ok (v_mem v) → pd_wf v pd →
  (∀ i virt, 0 ≤ i < e_phnum (v_mem v) data → loadable (v_mem v) (phdr (v_mem v) data i) →
     in_seg (v_mem v) (phdr (v_mem v) data i) virt → mmu_pte (v_mem v) pd virt = None) →
  ∃ r v', elf_load_user data len pd v = Some (r, v') ∧ pd_wf v' pd ∧ low_same (v_mem v) (v_mem v') ∧ grows pd v v' ∧
    (r = e_entry (v_mem v) data ∧ load_inv (v_mem v) v data pd (e_phnum (v_mem v) data) v' ∨
     r = 0 ∧ ∀ q, ¬ fa_avail (v_fa v') q).
Proof.
  intros Himg Hlow Hwf Hfree. pose proof (ei_data _ _ _ Himg) as Hd. unfold elf_load_user.
  rewrite decide_False by (destruct (wf_pd v pd Hwf); lia). unfold reach. rewrite decide_True by lia.
  cbn [mbind option_bind]. rewrite (ei_valid _ _ _ Himg).
  pose proof (e_phnum_range (v_mem v) data Hlow ltac:(lia)) as Hn.
  apply (elf_user_loop_ok (v_mem v) v data len pd Himg Hlow ELF_FUEL 0 v).
  - lia.
  - unfold ELF_FUEL. rewrite Z2Nat.id; lia.
  - constructor; [done|done|intros; lia| |done|by left]. intros j virt F Hj Hl Hv Ho.
    destruct (in_seg_u32 (v_mem v) data len Himg Hlow j virt Hj Hl Hv) as [Hu Hb].
    assert (mmu_pte (v_mem v) pd virt = Some (F + 7)) as Ep by (apply user_pte_iff; eauto).
    by rewrite (Hfree j virt) in Ep.
Qed.

(** The bytes of a loaded segment, through the page tables. *)
Lemma loaded_bytes (A : Type) (FA : FrameAllocator A) (m : mem) (v0 v : vm A) (data len pd i virt : Z) :
  elf_image m data len → low_ok m → load_inv m v0 data pd (e_phnum m data) v →
  0 ≤ i < e_phnum m data → loadable m (phdr m data i) →
  p_vaddr m (phdr m data i) ≤ virt < p_vaddr m (phdr m data i) + p_memsz m (phdr m data i) →
  ∃ pa, mmu_walk (v_mem v) pd virt = Some pa ∧ load8 (v_mem v) pa = seg_byte m data (phdr m data i) virt.
Proof.
  intros Himg Hlow Hinv Hi Hl Hv.
  destruct (seg_geometry _ _ _ _ Hlow (ei_segs _ _ _ Himg i Hi Hl) (proj2 Hl)) as (_ & _ & _ & _ & G5 & G6).
  assert (in_seg m (phdr m data i) virt) as Hs by (unfold in_seg; lia).
  destruct (in_seg_u32 m data len Himg Hlow i virt Hi Hl Hs) as [Hu Hb].
  destruct Hinv as [Hwf _ Hdone _ _ _]. destruct (Hdone i ltac:(lia) ltac:(lia) Hl virt Hs) as (F & HF & HB).
  exists (F + virt `mod` 4096). split; [|done]. unfold mmu_walk.
  rewrite (proj2 (user_pte_iff v pd virt (F + 7) Hwf Hu Hb)) by eauto. cbn [mbind option_bind].
  by rewrite frame_addr by (by apply owns_frame in HF).
Qed.

(** ... which is in a frame that was available before and is not any more. *)
Lemma loaded_fresh (A : Type) (FA : FrameAllocator A) (m : mem) (v0 v : vm A) (data len pd i virt pa : Z) :
  elf_image m data len → low_ok m → load_inv m v0 data pd (e_phnum m data) v → pd_wf v0 pd →
  0 ≤ i < e_phnum m data → loadable m (phdr m data i) → in_seg m (phdr m data i) virt → mmu_pte (v_mem v0) pd virt = None →
  mmu_walk (v_mem v) pd virt = Some pa →
  mmu_pte (v_mem v) pd virt = Some (page_of pa + 7) ∧ fa_avail (v_fa v0) (page_of pa) ∧ ¬ fa_avail (v_fa v) (page_of pa).
Proof.
  intros Himg Hlow Hinv Hwf0 Hi Hl Hs Hno Hpa. destruct (in_seg_u32 m data len Himg Hlow i virt Hi Hl Hs) as [Hu Hb].
  destruct Hinv as [Hwf _ _ _ Hg _]. unfold mmu_walk in Hpa. destruct (mmu_pte (v_mem v) pd virt) as [e|] eqn:Ee; [|done].
  apply (user_pte_iff v pd virt e Hwf Hu Hb) in Ee as (F & HF & ->). cbn [mbind option_bind] in Hpa. injection Hpa as <-.
  pose proof (owns_frame _ _ _ _ HF) as HFf. rewrite frame_addr by done.
  rewrite (page_of_in F) by (try apply HFf; zdm). split; [done|]. split; [|by apply (wf_used _ _ Hwf) in HF].
  destruct (gr_new _ _ _ Hg _ _ HF) as [Ho|Hav]; [|done]. exfalso.
  assert (mmu_pte (v_mem v0) pd virt = Some (F + 7)) as E by (apply user_pte_iff; eauto). by rewrite Hno in E.
Qed.

(** C12: [elf_load_user] on a well-formed image below 1 MB ([elf_image]: valid header,
    32-byte program headers in the file, segments in the file, at or above 8 MB, with
    filesz at most memsz, no page in two segments; the loader does not check these) and
    a well-formed address space without
    mappings at its segments, on a machine whose free frames are all below 8 MB (in
    [pd_wf]): either it returns the entry point and every address
    of every loadable segment translates, user-writable, to a byte that is the
    byte of the file, or zero behind the file size (BSS), in a frame that was available
    before and is taken now, while every user page outside the segments is mapped as
    before; or it returns 0 and no
    frame is left.  The address space stays well-formed (so no two pages share a frame)
    and memory below 1 MB,
    with the kernel and the image, is not modified. *)
Theorem elf_load_user_spec (A : Type) (FA : FrameAllocator A) (v : vm A) (data len pd : Z) :
  elf_image (v_mem v) data len → low_ok (v_mem v) → pd_wf v pd →
  (∀ i virt, 0 ≤ i < e_phnum (v_mem v) data → loadable (v_mem v) (phdr (v_mem v) data i) →
     in_seg (v_mem v) (phdr (v_mem v) data i) virt → mmu_pte (v_mem v) pd virt = None) →
  ∃ r v', elf_load_user data len pd v = Some (r, v') ∧ pd_wf v' pd ∧ low_same (v_mem v) (v_mem v') ∧
    (r = e_entry (v_mem v) data ∧
     (∀ i virt, 0 ≤ i < e_phnum (v_mem v) data → loadable (v_mem v) (phdr (v_mem v) data i) →
        p_vaddr (v_mem v) (phdr (v_mem v) data i) ≤ virt
          < p_vaddr (v_mem v) (phdr (v_mem v) data i) + p_memsz (v_mem v) (phdr (v_mem v) data i) →
        ∃ pa, mmu_walk (v_mem v') pd virt = Some pa ∧
          load8 (v_mem v') pa = seg_byte (v_mem v) data (phdr (v_mem v) data i) virt ∧
          mmu_pte (v_mem v') pd virt = Some (page_of pa + 7) ∧
          fa_avail (v_fa v) (page_of pa) ∧ ¬ fa_avail (v_fa v') (page_of pa)) ∧
     (∀ virt, is_u32 virt → 8388608 ≤ virt →
        (∀ i, 0 ≤ i < e_phnum (v_mem v) data → loadable (v_mem v) (phdr (v_mem v) data i) →
           ¬ in_seg (v_mem v) (phdr (v_mem v) data i) virt) →
        mmu_pte (v_mem v') pd virt = mmu_pte (v_mem v) pd virt) ∨
     r = 0 ∧ ∀ q, ¬ fa_avail (v_fa v') q).
Proof.
  intros Himg Hlow Hwf Hfree. destruct (elf_load_user_lemma A FA v data len pd Himg Hlow Hwf Hfree)
    as (r & v' & E & Hwf' & Hl' & Hg & Hc). exists r, v'. split; [done|]. split; [done|]. split; [done|].
  destruct Hc as [[-> Hinv]|Hc]; [left|by right]. split; [done|]. split.
  - intros i virt Hi Hl Hv. destruct (loaded_bytes A FA (v_mem v) v v' data len pd i virt Himg Hlow Hinv Hi Hl Hv) as (pa & Hpa & Hby).
    exists pa. split; [done|]. split; [done|].
    assert (in_seg (v_mem v) (phdr (v_mem v) data i) virt) as Hs.
    { destruct (seg_geometry _ _ _ _ Hlow (ei_segs _ _ _ Himg i Hi Hl) (proj2 Hl)) as (_ & _ & _ & _ & G5 & G6). unfold in_seg. lia. }
    apply (loaded_fresh A FA (v_mem v) v v' data len pd i virt pa); try done. by apply (Hfree i).
  - intros virt Hu Hb Hout. apply mmu_pte_other; [done..|]. intros F HF.
    destruct (li_only _ _ _ _ _ _ Hinv virt F Hu HF) as [?|(j & Hj & Hl & Hs)]; [done|]. by destruct (Hout j Hj Hl).
Qed.

(** ** A small program

    One segment at 16 MB: four bytes of code and four bytes of BSS; the image is
    at 128 KB. *)
Definition demo_elf : list Z :=
  [127; 69; 76; 70; 1; 1; 1; 0; 0; 0; 0; 0; 0; 0; 0; 0;
   2; 0; 3; 0; 1; 0; 0; 0; 0; 0; 0; 1; 52; 0; 0; 0;
   0; 0; 0; 0; 0; 0; 0; 0; 52; 0; 32; 0; 1; 0; 0; 0; 0; 0; 0; 0;
   1; 0; 0; 0; 84; 0; 0; 0; 0; 0; 0; 1; 0; 0; 0; 1;
   4; 0; 0; 0; 8; 0; 0; 0; 5; 0; 0; 0; 0; 16; 0; 0;
   144; 144; 235; 254].

Definition demo_elf_mem : mem :=
  list_to_map (zip (seqZ 131072 88) demo_elf).
Definition demo_elf_vm : vm pmm := paging_init 65536 69632 (Vm demo_elf_mem small_pmm 0 0).

Lemma bytes_ok_paging_init (page_directory page_tables : Z) (A : Type) (v : vm A) :
  bytes_ok (v_mem v) → bytes_ok (v_mem (paging_init page_directory page_tables v)).
Proof.
  intros Hb. cbn [paging_init v_mem].
  apply (for_u32_inv (λ _ m, bytes_ok m)); [lia|by apply bytes_ok_mem_set|]. intros t m _ Hm. unfold init_table.
  apply bytes_ok_store32. apply (for_u32_inv (λ _ m, bytes_ok m)); [unfold PT_ENTRIES; lia|done|].
  intros i m' _ Hm'. by apply bytes_ok_store32.
Qed.

Lemma demo_elf_bytes : bytes_ok demo_elf_mem.
Proof.
  assert (Forall (λ p : Z * Z, is_u8 p.2) (zip (seqZ 131072 88) demo_elf)) as Hf
    by (repeat constructor; simpl; unfold is_u8; lia).
  intros a. unfold load8. destruct (demo_elf_mem !! a) as [x|] eqn:E; simpl; [|unfold is_u8; lia].
  apply elem_of_list_to_map_2 in E. apply list_elem_of_In in E. rewrite Forall_forall in Hf. exact (Hf (a, x) E).
Qed.

Lemma demo_elf_low : low_ok (v_mem demo_elf_vm).
Proof. intros b _. apply bytes_ok_paging_init, demo_elf_bytes. Qed.

Lemma demo_elf_image : elf_image (v_mem demo_elf_vm) 131072 88.
Proof.
  set (m := v_mem demo_elf_vm).
  assert (e_phnum m 131072 = 1) as En by (vm_compute; reflexivity).
  assert (phdr m 131072 0 = 131124) as Ep by (vm_compute; reflexivity).
  assert (p_offset m 131124 = 84 ∧ p_filesz m 131124 = 4 ∧ p_memsz m 131124 = 8 ∧ p_vaddr m 131124 = 16777216)
    as (E1 & E2 & E3 & E4) by (vm_compute; split_and!; reflexivity).
  constructor.
  - lia.
  - vm_compute. reflexivity.
  - rewrite En. assert (e_phentsize m 131072 = 32 ∧ e_phoff m 131072 = 52) as [-> ->] by (vm_compute; split; reflexivity). lia.
  - intros i Hi _. rewrite En in Hi. assert (i = 0) as -> by lia. rewrite Ep.
    constructor; rewrite ?E1, ?E2, ?E3, ?E4; lia.
  - intros i j virt Hi Hj _ _ _ _. rewrite En in Hi, Hj. lia.
Qed.

Lemma elf_valid_low m m' data len :
  low_same m m' → data + 52 ≤ 1048576 → elf_valid m' data len = elf_valid m data len.
Proof.
  intros H Hd. unfold elf_valid, e_type, e_machine. destruct (low_eh m m' data H Hd) as (_ & -> & _ & ->).
  by rewrite !(low_load16 m m'), !H by (done || lia).
Qed.

(** An image is decided by the memory below 1 MB. *)
Lemma elf_image_low m m' data len :
  low_ok m → low_same m m' → elf_image m data len → elf_image m' data len.
Proof.
  intros Hb H Himg. pose proof Himg as [H1 H2 H3 H4 H5].
  destruct (low_eh m m' data H) as (_ & E1 & E2 & E3); [lia|].
  assert (∀ i, phdr m' data i = phdr m data i) as E4 by (intros i; apply phdr_low; [done|lia]).
  assert (∀ i, 0 ≤ i < e_phnum m data → (loadable m' (phdr m data i) ↔ loadable m (phdr m data i)) ∧
    ∀ virt, in_seg m' (phdr m data i) virt ↔ in_seg m (phdr m data i) virt) as E5.
  { intros i Hi. destruct (phdr_range m data len i Hb Himg Hi) as (_ & _ & Hp).
    destruct (low_ph m m' (phdr m data i) H Hp) as (F1 & _ & F3 & _ & F5).
    unfold loadable, in_seg, seg_start, seg_end. by rewrite F1, F3, F5. }
  constructor; rewrite ?E1, ?E2, ?E3.
  - done.
  - by rewrite (elf_valid_low m) by (done || lia).
  - done.
  - intros i Hi. rewrite E4. intros Hl. apply (seg_ok_low m); [done|]. apply H4; [done|]. by apply E5.
  - intros i j virt Hi Hj. rewrite !E4. intros L1 L2 V1 V2. apply (H5 i j virt); [done|done|by apply E5..].
Qed.

(** The demo image with a new address space. *)
Lemma demo_elf_created :
  ∃ v : vm pmm, elf_image (v_mem v) 131072 88 ∧ low_ok (v_mem v) ∧ pd_wf v 1048576 ∧
    ∀ virt, is_u32 virt → 8388608 ≤ virt → mmu_pte (v_mem v) 1048576 virt = None.
Proof.
  assert (fst <$> paging_create_pd 65536 demo_elf_vm = Some 1048576) as Hp by (vm_compute; reflexivity).
  destruct (paging_init_entries 65536 69632 demo_kd demo_kt ltac:(lia) (Vm demo_elf_mem small_pmm 0 0)) as (I1 & I2 & _).
  destruct (create_pd_lemma 65536 69632 demo_kd demo_kt demo_elf_vm) as (p & v & E & H);
    [apply small_pmm_wf|exact (proj2 small_pmm_wf)|by split|].
  rewrite E in Hp. injection Hp as ->. destruct H as [(H & _)|(_ & Hwf & _ & Hz & _ & Hm)]; [discriminate H|].
  assert (low_same (v_mem demo_elf_vm) (v_mem v)) as Hl by (intros b Hb; apply Hm; lia).
  exists v. split; [exact (elf_image_low _ _ _ _ demo_elf_low Hl demo_elf_image)|].
  split; [exact (low_ok_same _ _ demo_elf_low Hl)|]. split; [exact Hwf|].
  intros virt Hv Hu. apply mmu_pte_absent, Hz. by apply pd_index_user.
Qed.

Lemma elf_load_user_spec_witness :
  ∃ (v v' : vm pmm) r, elf_load_user 131072 88 1048576 v = Some (r, v') ∧
    (r = e_entry (v_mem v) 131072 ∨ ∀ q, ¬ fa_avail (v_fa v') q).
Proof.
  destruct demo_elf_created as (v & Himg & Hlow & Hwf & Hfree).
  destruct (elf_load_user_spec pmm pmm_frame_allocator v 131072 88 1048576 Himg Hlow Hwf) as (r & v' & E & _ & _ & H).
  - intros i virt Hi Hl Hv. destruct (in_seg_u32 (v_mem v) 131072 88 Himg Hlow i virt Hi Hl Hv) as [Hu Hb].
    exact (Hfree virt Hu Hb).
  - exists v, v', r. split; [exact E|]. destruct H as [[H _]|[_ H]]; [left; exact H|right; exact H].
Defined.
