(* ===== verification/UserMem.v ===== *)
(** * Buffers of user programs

    The kernel dereferences the pointers that a process passes in its registers
    under the page directory of that process.  [vread] and [vwrite] are these
    accesses: byte by byte through the translation of the processor, in supervisor
    mode with CR0.WP clear, so that every present page can be read and written. *)

From S2P Require Import Prelude Mem CString Pmm Paging Elf.

Section user_mem.
Context {A : Type} `{!FrameAllocator A}.

(** The physical address under the current directory, [None] for a page fault. *)
Definition vaddr (v : vm A) (a : Z) : option Z := mmu_walk (v_mem v) (v_cr3 v) (u32 a).

(** The accessible bytes from [a] on, at most [n]. *)
Fixpoint vread (v : vm A) (a : Z) (n : nat) : list Z :=
  match n with
  | O => []
  | S n => match vaddr v a with
           | None => []
           | Some p => load8 (v_mem v) p :: vread v (a + 1) n
           end
  end.

Fixpoint vwrite (v : vm A) (a : Z) (bs : list Z) : option (vm A) :=
  match bs with
  | [] => Some v
  | b :: bs => p ← vaddr v a; vwrite (vm_with_mem v (store8 (v_mem v) p b)) (a + 1) bs
  end.

(** ** User space *)

(** [a], [n] bytes long, lies in user space and is mapped. *)
Definition user_range (v : vm A) (a n : Z) : Prop :=
  8388608 ≤ a ∧ 0 ≤ n ∧ a + n ≤ 4294967296 ∧ ∀ x, a ≤ x < a + n → is_Some (vaddr v x).

Lemma user_walk (v : vm A) pd virt p :
  pd_wf v pd → is_u32 virt → 8388608 ≤ virt →
  mmu_walk (v_mem v) pd virt = Some p ↔
  ∃ F, owns (v_mem v) pd (NFr (pd_index virt) (pt_index virt)) F ∧ p = F + virt `mod` 4096.
Proof.
  intros Hwf Hv Hu. unfold mmu_walk. split.
  - intros (e & He & [= <-])%bind_Some. apply user_pte_iff in He as (F & Ho & ->); [|done..].
    exists F. split; [done|]. by rewrite frame_addr by (by apply owns_frame in Ho).
  - intros (F & Ho & ->). rewrite (proj2 (user_pte_iff v pd virt (F + 7) Hwf Hv Hu)) by eauto.
    cbn [mbind option_bind]. by rewrite frame_addr by (by apply owns_frame in Ho).
Qed.

(** Distinct user addresses have distinct bytes. *)
Lemma user_walk_inj (v : vm A) pd x y p :
  pd_wf v pd → is_u32 x → is_u32 y → 8388608 ≤ x → 8388608 ≤ y →
  mmu_walk (v_mem v) pd x = Some p → mmu_walk (v_mem v) pd y = Some p → x = y.
Proof.
  intros Hwf Hx Hy Ux Uy. rewrite !user_walk by done. intros (F & OF & ->) (G & OG & E).
  pose proof (owns_frame _ _ _ _ OF) as [AF _]. pose proof (owns_frame _ _ _ _ OG) as [AG _].
  unfold aligned in AF, AG. assert (F = G) as <- by zdm.
  pose proof (wf_inj v pd Hwf _ _ _ OF OG) as [= E1 E2]. rewrite !pd_index_eq in E1. rewrite !pt_index_eq in E2.
  unfold is_u32 in *. zdm.
Qed.

Lemma user_walk_high (v : vm A) pd virt p :
  pd_wf v pd → is_u32 virt → 8388608 ≤ virt → mmu_walk (v_mem v) pd virt = Some p → 1048576 ≤ p < 8388608.
Proof.
  intros Hwf Hv Hu. rewrite user_walk by done. intros (F & Ho & ->).
  apply owns_frame in Ho as [Ha Hr]. unfold aligned in Ha. zdm.
Qed.

(** One byte stored through a user address. *)
Lemma user_store (v : vm A) virt p b :
  pd_wf v (v_cr3 v) → is_u32 virt → 8388608 ≤ virt → vaddr v virt = Some p →
  let v' := vm_with_mem v (store8 (v_mem v) p b) in
  pd_wf v' (v_cr3 v') ∧
  (∀ x, is_u32 x → 8388608 ≤ x → vaddr v' x = vaddr v x) ∧
  low_same (v_mem v) (v_mem v').
Proof.
  intros Hwf Hv Hu Hp v'. unfold vaddr in Hp. rewrite u32_small in Hp by done.
  pose proof Hp as Hp0. apply user_walk in Hp as (F & Ho & ->); [|done..].
  assert (only_frame F (v_mem v) (store8 (v_mem v) (F + virt `mod` 4096) b)) as Hof.
  { intros c Hc. apply load8_store8_ne. zdm. }
  assert (pd_wf v' (v_cr3 v')) as Hwf' by exact (frame_wf v (v_cr3 v) _ _ F _ Hwf Ho Hof).
  split; [done|]. split.
  - intros x Hx Ux. unfold vaddr. rewrite u32_small by done. apply option_eq. intros q.
    rewrite (user_walk v' (v_cr3 v')), (user_walk v) by done.
    f_equiv. intros G. subst v'. cbn [v_mem v_cr3 vm_with_mem]. by rewrite (frame_owns v (v_cr3 v) _ _ F _ Hwf Ho Hof).
  - intros c Hc. simpl. apply load8_store8_ne. apply owns_frame in Ho as [_ ?]. pose proof (Z.mod_pos_bound virt 4096). lia.
Qed.

Lemma vread_nth (v : vm A) n : ∀ a, (∀ x, a ≤ x < a + Z.of_nat n → is_Some (vaddr v x)) →
  length (vread v a n) = n ∧
  ∀ k, 0 ≤ k < Z.of_nat n → aget (vread v a n) k = load8 (v_mem v) <$> vaddr v (a + k).
Proof.
  induction n as [|n IH]; intros a Ha; [split; [done|intros; lia]|]. cbn [vread].
  destruct (Ha a) as [p Hp]; [lia|]. rewrite Hp. destruct (IH (a + 1)) as [El Ek]; [intros x Hx; apply Ha; lia|].
  split; [simpl; by rewrite El|]. intros k Hk. destruct (decide (k = 0)) as [->|Hn].
  - rewrite Z.add_0_r, Hp. done.
  - specialize (Ek (k - 1) ltac:(lia)). replace (a + 1 + (k - 1)) with (a + k) in Ek by lia. rewrite <-Ek.
    unfold aget. rewrite !decide_True by lia. replace (Z.to_nat k) with (S (Z.to_nat (k - 1))) by lia. done.
Qed.

(** Two memories that agree on the translations and bytes of a range. *)
Lemma vread_ext (v v' : vm A) n : ∀ a,
  (∀ x, a ≤ x < a + Z.of_nat n → vaddr v' x = vaddr v x ∧
     ∀ p, vaddr v x = Some p → load8 (v_mem v') p = load8 (v_mem v) p) →
  vread v' a n = vread v a n.
Proof.
  induction n as [|n IH]; intros a Ha; [done|]. cbn [vread]. destruct (Ha a) as [-> Hb]; [lia|].
  destruct (vaddr v a) as [p|]; [|done]. rewrite Hb by done. f_equal. apply IH. intros x Hx. apply Ha. lia.
Qed.

(** Writing a user buffer: the bytes are there, and no other user byte, nor memory
    below 1 MB, is changed. *)
Lemma vwrite_spec bs : ∀ (v : vm A) a,
  pd_wf v (v_cr3 v) → user_range v a (Z.of_nat (length bs)) →
  ∃ v', vwrite v a bs = Some v' ∧ pd_wf v' (v_cr3 v') ∧ v_cr3 v' = v_cr3 v ∧ v_cr0 v' = v_cr0 v ∧ v_fa v' = v_fa v ∧
    (∀ x, is_u32 x → 8388608 ≤ x → vaddr v' x = vaddr v x) ∧
    (∀ x p, is_u32 x → 8388608 ≤ x → vaddr v x = Some p →
       load8 (v_mem v') p = if decide (a ≤ x < a + Z.of_nat (length bs))
                            then u8 (default 0 (aget bs (x - a))) else load8 (v_mem v) p) ∧
    low_same (v_mem v) (v_mem v').
Proof.
  induction bs as [|b bs IH]; intros v a Hwf (Ha & Hn & Ht & Hm).
  - exists v. cbn [vwrite]. split_and!; try done. intros x p Hx Ux Hp. rewrite decide_False by (simpl in *; lia). done.
  - cbn [vwrite length] in *. destruct (Hm a) as [p Hp]; [lia|]. rewrite Hp. cbn [mbind option_bind].
    destruct (user_store v a p b Hwf ltac:(unfold is_u32; lia) ltac:(lia) Hp) as (Hwf1 & Hv1 & Hl1).
    set (v1 := vm_with_mem v (store8 (v_mem v) p b)) in *.
    destruct (IH v1 (a + 1) Hwf1) as (v' & E & Hwf' & E3 & E0 & Ef & Hv' & Hb' & Hl').
    { split_and!; [lia|lia|lia|]. intros x Hx. rewrite Hv1 by (unfold is_u32; lia). apply Hm. lia. }
    exists v'. split; [done|]. split; [done|]. split; [done|]. split; [done|]. split; [done|]. split.
    { intros x Hx Ux. by rewrite Hv', Hv1. }
    split; [|by etrans]. intros x q Hx Ux Hq. rewrite (Hb' x q) by (done || by rewrite Hv1).
    destruct (decide (x = a)) as [->|Hne].
    + rewrite Hp in Hq. injection Hq as <-. rewrite decide_False by lia. rewrite decide_True by lia.
      replace (a - a) with 0 by lia. apply load8_store8_eq.
    + destruct (decide (a + 1 ≤ x < _)) as [H1|H1].
      * rewrite decide_True by lia. f_equal. f_equal. unfold aget. rewrite !decide_True by lia.
        replace (Z.to_nat (x - a)) with (S (Z.to_nat (x - (a + 1)))) by lia. done.
      * rewrite decide_False by lia. apply load8_store8_ne. intros <-. apply Hne.
        unfold vaddr in Hp, Hq. rewrite u32_small in Hp, Hq by (done || (unfold is_u32; lia)).
        apply (user_walk_inj v (v_cr3 v) x a p); try done. unfold is_u32; lia.
Qed.

(** What was written can be read back. *)
Lemma vread_vwrite (v v' : vm A) a bs :
  pd_wf v (v_cr3 v) → user_range v a (Z.of_nat (length bs)) → vwrite v a bs = Some v' →
  Forall is_u8 bs → vread v' a (length bs) = bs.
Proof.
  intros Hwf Hr E Hb. destruct (vwrite_spec bs v a Hwf Hr) as (v2 & E2 & _ & _ & _ & _ & Hv & Hl & _).
  rewrite E in E2. injection E2 as <-. destruct Hr as (Ha & Hn & Ht & Hm).
  destruct (vread_nth v' (length bs) a) as [Len Nth].
  { intros x Hx. rewrite Hv by (unfold is_u32; lia). by apply Hm. }
  apply list_eq. intros i. destruct (decide (i < length bs)%nat) as [Hi|Hi].
  - rewrite <-(aget_nat (vread v' a (length bs))), Nth by lia. destruct (Hm (a + Z.of_nat i)) as [p Hp]; [lia|].
    rewrite Hv by (unfold is_u32; lia). rewrite Hp. cbn [fmap option_fmap option_map].
    rewrite (Hl (a + Z.of_nat i) p) by (done || unfold is_u32; lia). rewrite decide_True by lia.
    replace (a + Z.of_nat i - a) with (Z.of_nat i) by lia. rewrite aget_nat.
    destruct (lookup_lt_is_Some_2 bs i Hi) as [y Hy]. rewrite Hy. simpl. f_equal. apply u8_small.
    rewrite Forall_lookup in Hb. by apply (Hb i).
  - rewrite !lookup_ge_None_2; [done|lia|lia].
Qed.

(** Growing an address space leaves the first megabyte alone. *)
Lemma grows_low pd (v v' : vm A) : pd_wf v pd → grows pd v v' → low_same (v_mem v) (v_mem v').
Proof.
  intros Hwf Hg b Hb. assert (page_of b < 1048576) as Hp by (unfold page_of; zdm). apply (gr_mem _ _ _ Hg).
  - intros Hav. destruct (fa_avail_range _ _ (wf_fa v pd Hwf) Hav). lia.
  - intros E. destruct (wf_pd v pd Hwf). lia.
  - intros i [_ ?]%owns_frame. lia.
Qed.

(** ** Kernel memory below 1 MB

    A store there leaves every address space as it is. *)
Section low_store.
Context (v : vm A) (m' : mem) (pd : Z).
Hypothesis Hwf : pd_wf v pd.
Hypothesis Hm : ∀ b, 1048576 ≤ b → load8 m' b = load8 (v_mem v) b.

Lemma low_store_ent q j : frame q → 0 ≤ j < 1024 → ent m' q j = ent (v_mem v) q j.
Proof. intros [_ Hq] Hj. apply ent_ext. intros b Hb. apply Hm. lia. Qed.

Lemma low_store_tables n q b :
  owns (v_mem v) pd n q → is_table n → q ≤ b < q + 4096 → load8 m' b = load8 (v_mem v) b.
Proof. intros [_ Hq]%owns_frame _ Hb. apply Hm. lia. Qed.

Lemma low_store_owns n q : owns m' pd n q ↔ owns (v_mem v) pd n q.
Proof. apply (same_tables_owns v (vm_with_mem v m')); [done|exact low_store_tables]. Qed.

Lemma low_store_wf : pd_wf (vm_with_mem v m') pd.
Proof.
  apply (same_tables_wf v); [done|exact low_store_tables|apply Hwf|exact (wf_low v pd Hwf)|exact (wf_used v pd Hwf)].
Qed.

Lemma low_store_walk x :
  is_u32 x → 8388608 ≤ x → mmu_walk m' pd x = mmu_walk (v_mem v) pd x ∧
  ∀ p, mmu_walk (v_mem v) pd x = Some p → load8 m' p = load8 (v_mem v) p.
Proof.
  intros Hx Ux. split.
  - apply option_eq. intros q. rewrite (user_walk v) by done.
    change m' with (v_mem (vm_with_mem v m')). rewrite (user_walk (vm_with_mem v m')) by (done || apply low_store_wf).
    f_equiv. intros G. by rewrite low_store_owns.
  - intros p Hp. apply Hm. apply (user_walk_high v pd x p) in Hp; [lia|done..].
Qed.
End low_store.

Lemma low_store_user (v : vm A) m' :
  pd_wf v (v_cr3 v) → (∀ b, 1048576 ≤ b → load8 m' b = load8 (v_mem v) b) →
  let v' := vm_with_mem v m' in
  pd_wf v' (v_cr3 v') ∧
  (∀ x, is_u32 x → 8388608 ≤ x → vaddr v' x = vaddr v x ∧
     ∀ p, vaddr v x = Some p → load8 (v_mem v') p = load8 (v_mem v) p).
Proof.
  intros Hwf Hm v'. split; [exact (low_store_wf v m' (v_cr3 v) Hwf Hm)|]. intros x Hx Ux. unfold vaddr.
  rewrite u32_small by done. exact (low_store_walk v m' (v_cr3 v) Hwf Hm x Hx Ux).
Qed.
End user_mem.
