(* ===== verification/Spaces.v ===== *)
(** * The address spaces of all processes

    The invariant that ties the process table to the page tables and the frame
    allocator: every process with a page directory has a well-formed address space that
    maps the kernel, no two processes share a frame, and CR3 holds the directory of the
    current process.  Every operation of [Process] and every store through a user address
    keeps it. *)

From S2P Require Import Prelude Mem Pmm Paging Process Elf UserMem.

Section spaces.
Context (process_table page_directory page_tables : Z).
Implicit Types (k : kst pmm).

(** Where the linker has put the paging structures and the process table. *)
Record placed : Prop := Placed {
  pl_pd : aligned page_directory ∧ 4096 ≤ page_directory < 1048576;
  pl_pt : aligned page_tables ∧ 4096 ≤ page_tables < 1048576 - 4096;
  pl_table : 0 < process_table ∧ process_table + 16 * 8252 ≤ 1048576;
  pl_pd_apart : page_directory + 4096 ≤ process_table ∨ process_table + 16 * 8252 ≤ page_directory;
  pl_pt_apart : page_tables + 8192 ≤ process_table ∨ process_table + 16 * 8252 ≤ page_tables
}.

(** Bytes that the translation of addresses depends on, or that frames hold. *)
Definition paging_byte (b : Z) : Prop :=
  1048576 ≤ b ∨ page_directory ≤ b < page_directory + 4096 ∨ page_tables ≤ b < page_tables + 8192.

(** The kernel directory maps nothing above 8 MB. *)
Definition kernel_only (m : mem) : Prop := ∀ n, 2 ≤ n < 1024 → ent m page_directory n = 0.

(** [pd] is the directory of the process in slot [i]. *)
Definition space_of k (i pd : Z) : Prop := ∃ p, aget (k_table k) i = Some p ∧ p_pd_phys p = pd ∧ pd ≠ 0.

Record spaces_ok k : Prop := SpacesOk {
  sp_fa : fa_inv (v_fa (k_vm k));
  sp_low : fa_low (k_vm k);
  sp_kernel : identity_map (k_mem k) page_directory page_tables;
  sp_wf i pd : space_of k i pd → pd_wf (k_vm k) pd;
  sp_maps i pd : space_of k i pd → identity_map (k_mem k) pd page_tables;
  sp_apart i j pd pd' n n' q : i ≠ j → space_of k i pd → space_of k j pd' →
    owns (k_mem k) pd n q → owns (k_mem k) pd' n' q → False
}.

(** CR3 is the directory of the current process, or the kernel's. *)
Definition cr3_ok k : Prop :=
  v_cr3 (k_vm k) =
    match k_current k with
    | Some i => match aget (k_table k) i with
                | Some p => if decide (p_pd_phys p = 0) then page_directory else p_pd_phys p
                | None => page_directory
                end
    | None => page_directory
    end.

Lemma space_fun k i pd pd' : space_of k i pd → space_of k i pd' → pd = pd'.
Proof. intros (p & Hp & <- & _) (q & Hq & <- & _). congruence. Qed.

Lemma cr3_space k i pd : cr3_ok k → k_current k = Some i → space_of k i pd → v_cr3 (k_vm k) = pd.
Proof. unfold cr3_ok. intros -> -> (p & -> & Hpd & Hz). by rewrite decide_False by congruence. Qed.

(** ** Memory *)

(** The identity map is kept by a change elsewhere. *)
Lemma identity_same (m m' : mem) pd :
  (∀ b, pd ≤ b < pd + 8 → load8 m' b = load8 m b) →
  (∀ b, page_tables ≤ b < page_tables + 8192 → load8 m' b = load8 m b) →
  identity_map m pd page_tables → identity_map m' pd page_tables.
Proof.
  intros H1 H2 [I1 I2]. split.
  - intros t i Ht Hi. rewrite <-(I1 t i) by done. apply ent_ext. intros b Hb. apply H2. lia.
  - intros t Ht. rewrite <-(I2 t) by done. apply ent_ext. intros b Hb. apply H1. lia.
Qed.

(** A memory in which all directories and tables are the same. *)
Lemma spaces_mem k m' :
  placed → spaces_ok k →
  (∀ b, b < 1048576 → paging_byte b → load8 m' b = load8 (k_mem k) b) →
  (∀ i pd n q b, space_of k i pd → owns (k_mem k) pd n q → is_table n → q ≤ b < q + 4096 →
     load8 m' b = load8 (k_mem k) b) →
  spaces_ok (with_k_mem m' k) ∧
  ∀ i pd n q, space_of k i pd → owns m' pd n q ↔ owns (k_mem k) pd n q.
Proof.
  intros [Hpd Hpt _ _ _] [Hi Hlow Hk Hwf Hmap Hap] Hm Ht.
  assert (∀ i pd n q, space_of k i pd → owns m' pd n q ↔ owns (k_mem k) pd n q) as Ho.
  { intros i pd n q Hs. apply (same_tables_owns (k_vm k) (vm_with_mem (k_vm k) m')); [by apply (Hwf i)|].
    intros n' q' b. by apply (Ht i). }
  assert (∀ b, page_tables ≤ b < page_tables + 8192 → load8 m' b = load8 (k_mem k) b) as Hmt.
  { intros b Hb. apply Hm; [unfold aligned in Hpt; zdm|]. unfold paging_byte. lia. }
  split; [|exact Ho]. constructor.
  - exact Hi.
  - exact Hlow.
  - apply (identity_same (k_mem k)); [|done|done]. intros b Hb. apply Hm; [unfold aligned in Hpd; zdm|unfold paging_byte; lia].
  - intros i pd Hs. apply (same_tables_wf (k_vm k)); [by apply (Hwf i)| |exact Hi|exact Hlow|by apply (wf_used _ _ (Hwf i pd Hs))].
    intros n q b. by apply (Ht i).
  - intros i pd Hs. apply (identity_same (k_mem k)); [|done|by apply (Hmap i)]. intros b Hb.
    apply (Ht i pd NPd pd); [done|constructor; by apply (wf_pd _ _ (Hwf i pd Hs))|done|lia].
  - intros i j pd pd' n n' q Hij Hs Hs' H1 H2. apply (Ho i) in H1; [|done]. apply (Ho j) in H2; [|done].
    by apply (Hap i j pd pd' n n' q).
Qed.

(** Writes to kernel memory other than the paging structures. *)
Lemma spaces_low k m' :
  placed → spaces_ok k → (∀ b, paging_byte b → load8 m' b = load8 (k_mem k) b) → spaces_ok (with_k_mem m' k).
Proof.
  intros Hp Hs Hm. apply spaces_mem; [done|done|auto|].
  intros i pd n q b _ Ho _ Hb. apply Hm. left. apply owns_frame in Ho as [_ ?]. lia.
Qed.

(** A store through an address of one process: every other process has its memory. *)
Lemma spaces_store k i pd x p c :
  placed → spaces_ok k → space_of k i pd → is_u32 x → 8388608 ≤ x → mmu_walk (k_mem k) pd x = Some p →
  let m' := store8 (k_mem k) p c in
  spaces_ok (with_k_mem m' k) ∧
  (∀ j pd' n q, space_of k j pd' → owns m' pd' n q ↔ owns (k_mem k) pd' n q) ∧
  (∀ j pd' n q b, j ≠ i → space_of k j pd' → owns (k_mem k) pd' n q → q ≤ b < q + 4096 →
     load8 m' b = load8 (k_mem k) b) ∧
  low_same (k_mem k) m'.
Proof.
  intros Hpl Hs Hi Hx Ux Hw m'. pose proof (sp_wf k Hs i pd Hi) as Hwf.
  apply (user_walk (k_vm k)) in Hw as (F & HF & ->); [|done..]. pose proof (owns_frame _ _ _ _ HF) as [HFa HFr].
  assert (∀ b, b < F ∨ F + 4096 ≤ b → load8 m' b = load8 (k_mem k) b) as Hm.
  { intros b Hb. apply load8_store8_ne. zdm. }
  assert (∀ j pd' n q b, j ≠ i ∨ is_table n → space_of k j pd' → owns (k_mem k) pd' n q → q ≤ b < q + 4096 →
    load8 m' b = load8 (k_mem k) b) as Ho.
  { intros j pd' n q b Hj Hsj Hq Hb. apply Hm. pose proof (owns_frame _ _ _ _ Hq) as [Hqa _].
    destruct (aligned_apart q F Hqa HFa); [|lia|lia]. intros ->. destruct (decide (j = i)) as [->|Hne].
    - assert (pd' = pd) as -> by (by apply (space_fun k i)).
      destruct Hj as [Hj|Hj]; [by destruct Hj|]. by rewrite (wf_inj _ _ Hwf _ _ _ Hq HF) in Hj.
    - by apply (sp_apart k Hs j i pd' pd n (NFr (pd_index x) (pt_index x)) F). }
  destruct (spaces_mem k m' Hpl Hs) as [H1 H2].
  { intros b Hb _. apply Hm. lia. }
  { intros j pd' n q b Hsj Hq Hn Hb. apply (Ho j pd' n q); [by right|done..]. }
  split; [done|]. split; [done|]. split; [intros j pd' n q b Hj; apply (Ho j pd' n q); by left|].
  intros b Hb. apply Hm. lia.
Qed.

(** ** Operations *)

(** Changes of the table and of registers that add no directory. *)
Lemma spaces_table k k' :
  spaces_ok k → k_mem k' = k_mem k → v_fa (k_vm k') = v_fa (k_vm k) →
  (∀ i pd, space_of k' i pd → space_of k i pd) → spaces_ok k'.
Proof.
  intros [H1 H2 H3 H4 H5 H6] Em Ef Hs.
  assert (fa_low (k_vm k')) as Hlow by (unfold fa_low; by rewrite Ef).
  constructor; rewrite ?Em, ?Ef; [done|done|done| | |].
  - intros i pd Hi. pose proof (H4 i pd (Hs i pd Hi)) as Hwf. apply (same_tables_wf (k_vm k)); [done| |by rewrite Ef|done|].
    + intros n q b _ _ _. fold (k_mem k'). by rewrite Em.
    + rewrite Ef. apply Hwf.
  - intros i pd Hi. by eapply H5, Hs.
  - intros i j pd pd' n n' q Hij Hi Hj. exact (H6 i j pd pd' n n' q Hij (Hs i pd Hi) (Hs j pd' Hj)).
Qed.

(** Releasing the space of one process leaves those of the others. *)
Lemma spaces_release k k' i pd v' :
  spaces_ok k → space_of k i pd → paging_destroy_pd pd (k_vm k) = Some v' → v_mem (k_vm k') = v_mem v' →
  v_fa (k_vm k') = v_fa v' → (∀ j pd', space_of k' j pd' → j ≠ i ∧ space_of k j pd') → spaces_ok k'.
Proof.
  intros [H1 H2 H3 H4 H5 H6] Hi Hd Em Ef Hs.
  destruct (destroy_pd_lemma (k_vm k) pd (H4 i pd Hi)) as (v1 & E & Hfa & Hm & _ & Ha). rewrite Hd in E. injection E as <-.
  assert (k_mem k' = k_mem k) as Ek by (unfold k_mem; by rewrite Em, Hm).
  assert (fa_low (k_vm k')) as Hlow.
  { unfold fa_low. rewrite Ef. intros q. rewrite Ha. intros [Hq|[n Hq]]; [by apply H2|]. apply owns_frame in Hq as [_ ?]. lia. }
  constructor; rewrite ?Ek, ?Ef; [done|done|done| | |].
  - intros j pd' [Hj Hsj]%Hs. apply (same_tables_wf (k_vm k)); [by apply (H4 j)| |by rewrite Ef|done|].
    + intros n q b _ _ _. by rewrite Em, Hm.
    + intros n q Hq. rewrite Ef, Ha. intros [Hav|[n' Hq']]; [by apply (wf_used _ _ (H4 j pd' Hsj) n q)|].
      by apply (H6 j i pd' pd n n' q).
  - intros j pd' [Hj Hsj]%Hs. by apply (H5 j).
  - intros j1 j2 p1 p2 n n' q Hne [_ Hs1]%Hs [_ Hs2]%Hs. by apply (H6 j1 j2).
Qed.
End spaces.
