(* ===== verification/Coroutines.v ===== *)
(** * Processes as coroutines

    Over the context switch of [Process]: [procs_ok G k] says that the process table,
    the address spaces and the kernel stacks of [k] are in order, and that every
    process that is not running will resume with the context [G] has for it.  A yield
    refines the abstract switch: the context of the yielding process is recorded, and
    the processor continues with the recorded context of the process chosen. *)

From S2P Require Import Prelude Mem CString Pmm Paging Process Pipe Elf UserMem Spaces.

Section coroutines.
Context (process_table page_directory page_tables : Z).
Implicit Types (k : kst pmm) (G : Z → cpu).

Abbreviation placed := (placed process_table page_directory page_tables).
Abbreviation spaces_ok := (spaces_ok page_directory page_tables).
Abbreviation cr3_ok := (cr3_ok page_directory).
Abbreviation yield := (process_yield process_table page_directory).
Abbreviation proc_addr := (proc_addr process_table).
Abbreviation kstack_top := (kstack_top process_table).

(** The kernel stack of slot [i]. *)
Definition in_kstack (i b : Z) : Prop := proc_addr i + 60 ≤ b < kstack_top i.

(** Saved contexts: on the process's own stack, and equal to the recorded one. *)
Definition ctx_ok G k : Prop :=
  ∀ i p, aget (k_table k) i = Some p → p_state p ≠ PROC_UNUSED → k_current k ≠ Some i →
    proc_addr i + 60 ≤ p_esp p ∧ p_esp p + 20 ≤ kstack_top i ∧ frame_ctx (k_mem k) (p_esp p) = G i.

(** What holds whenever the kernel calls [process_yield]... *)
Record procs_pre G k : Prop := ProcsPre {
  pr_kinv : kinv k;
  pr_spaces : spaces_ok k;
  pr_esps : esps_ok k;
  pr_ctx : ctx_ok G k
}.

(** ... and in the rest of the time. *)
Record procs_ok G k : Prop := ProcsOk {
  pr_pre : procs_pre G k;
  pr_cr3 : cr3_ok k;
  pr_run : ∀ i, k_current k = Some i → state_of (k_table k) i = Some PROC_RUNNING
}.

(** The context at a call of [process_yield] on the stack of [i]. *)
Record on_kstack (i : Z) (c : cpu) : Prop := OnKstack {
  ok_regs : regs_ok c;
  ok_esp : proc_addr i + 80 ≤ r_esp c ≤ kstack_top i - 4
}.

Definition record_ctx (i : Z) (c : cpu) G : Z → cpu := λ j, if decide (j = i) then c else G j.

Lemma kstack_apart i j b : i ≠ j → in_kstack i b → in_kstack j b → False.
Proof. unfold in_kstack, Process.kstack_top, PROCESS_KSTACK_SIZE, Process.proc_addr. nia. Qed.

Lemma kstack_low i b : placed → 0 ≤ i < 16 → in_kstack i b → 0 < b < 1048576 ∧ ¬ paging_byte page_directory page_tables b.
Proof.
  intros [_ _ Ht H1 H2] Hi. unfold in_kstack, paging_byte, Process.kstack_top, PROCESS_KSTACK_SIZE, Process.proc_addr. lia.
Qed.

(** ** What a yield leaves alone *)

Lemma yield_fa c k c' k' : yield c k = Some (c', k') → v_fa (k_vm k') = v_fa (k_vm k).
Proof.
  unfold process_yield. repeat (destruct (push _ _ _) as [? ?]). intros (t & _ & ([i t'] & _ & H)%bind_Some)%bind_Some.
  destruct (push _ _ _) as [? ?]. apply bind_Some in H as (k1 & H1 & H2).
  unfold process_before_switch in H1. apply bind_Some in H1 as (p & _ & H1).
  unfold restore_context in H2. apply bind_Some in H2 as (q & _ & H2).
  repeat (destruct (pop _ _) as [? ?]). injection H2 as _ <-. destruct (decide _) in H1; by injection H1 as <-.
Qed.

(** Every slot keeps all but its state, the yielding one also its stack pointer. *)
Lemma yield_slots c k c' k' :
  kinv k → esps_ok k → 20 ≤ r_esp c < 8388608 → yield c k = Some (c', k') →
  ∃ i p, k_current k' = Some i ∧ 0 ≤ i < k_next_pid k ∧ k_next_pid k' = k_next_pid k ∧
    aget (k_table k') i = Some p ∧ p_state p = PROC_RUNNING ∧
    c' = frame_ctx (k_mem k') (p_esp p) ∧ k_mem k' = pushed c (proc_addr i) (k_mem k) ∧ cr3_ok k' ∧ kinv k' ∧
    ∀ j q', aget (k_table k') j = Some q' → ∃ q, aget (k_table k) j = Some q ∧
      same_but_state (if decide (k_current k = Some j) then set_esp (r_esp c - 16) q else q) q' ∧
      (p_state q' = PROC_UNUSED ↔ p_state q = PROC_UNUSED).
Proof.
  intros Hk Hes Hr Hy.
  destruct (process_yield_lemma process_table page_directory c k Hk Hr Hes) as
    (t & i & t' & s1 & p & Ht & Hs & Htab & Hn & Hnp & Hm & _ & Hp & Hst & Hcr & Hy' & Hk').
  rewrite Hy in Hy'. injection Hy' as -> ->.
  destruct (saved_kinv k (r_esp c - 16) Hk) as (t0 & Ht0 & Hkt & Hta). rewrite Ht in Ht0. injection Ht0 as <-.
  destruct (sched_next_any t (k_current k) (k_next_pid k)) as (i' & t1 & E & Hi & _ & Ha);
    [apply Hkt|apply Hk|apply Hk|apply Hkt| |].
  { intros j Hj. destruct (decide (j < k_next_pid k)); [done|].
    unfold state_of in Hj. destruct (aget t j) as [r|] eqn:Hpj; [|done]. injection Hj as Hj.
    destruct (ki_slot _ Hkt j r Hpj) as (_ & Hun & _). simpl in Hun. rewrite (proj2 Hun) in Hj by lia. done. }
  rewrite Hs in E. injection E as <- <-. exists i, p. split; [done|]. split; [done|]. split; [done|].
  split; [by rewrite Htab|]. split; [done|]. split; [done|]. split; [done|].
  split; [unfold Spaces.cr3_ok; by rewrite Hcr, Hn, Htab, Hp|]. split; [done|].
  intros j q'. rewrite Htab. intros Hj. destruct (Ha j q' Hj) as (q0 & Hq0 & Hsame & _ & U1 & U2). rewrite Hta in Hq0.
  assert (∀ q, aget (k_table k) j = Some q → p_state q0 = p_state q → p_state q' = PROC_UNUSED ↔ p_state q = PROC_UNUSED) as Hun.
  { intros q Hq Eq. rewrite <-Eq. split; [done|]. intros Hu. apply U2; [done|]. intros ->.
    destruct (ki_slot k Hk i q Hq) as (_ & Hx & _). rewrite <-Eq in Hx. apply Hx in Hu. lia. }
  destruct (decide (k_current k = Some j)).
  - apply fmap_Some in Hq0 as (q & Hq & ->). exists q. split; [done|]. split; [done|]. by apply Hun.
  - exists q0. split; [done|]. split; [done|]. by apply Hun.
Qed.

(** The spaces are those from before. *)
Lemma yield_space c k c' k' j pd :
  kinv k → esps_ok k → 20 ≤ r_esp c < 8388608 → yield c k = Some (c', k') → space_of k' j pd ↔ space_of k j pd.
Proof.
  intros Hk Hes Hr Hy. destruct (yield_slots c k c' k' Hk Hes Hr Hy) as (i & p & _ & _ & _ & _ & _ & _ & _ & _ & Hk' & Hsl).
  split.
  - intros (q' & Hq' & Hpd & Hz). destruct (Hsl j q' Hq') as (q & Hq & Hsame & _). exists q. split; [done|]. split; [|done].
    rewrite <-Hpd, Hsame. by case_decide.
  - intros (q & Hq & Hpd & Hz). pose proof (aget_Some_lt _ _ _ Hq) as Hlt. rewrite (ki_len k Hk) in Hlt.
    destruct (aget_total (k_table k') 16 j (ki_len k' Hk') ltac:(lia)) as [q' Hq'].
    destruct (Hsl j q' Hq') as (q1 & Hq1 & Hsame & _). rewrite Hq in Hq1. injection Hq1 as <-.
    exists q'. split; [done|]. split; [|done]. rewrite <-Hpd, Hsame. by case_decide.
Qed.

(** ** Processes that do not run *)

(** What happens to process [j] while others run: nothing, as long as it lives. *)
Record keeps (j : Z) k k' : Prop := Keeps {
  kp_next : k_next_pid k ≤ k_next_pid k';
  kp_back pd : j < k_next_pid k → space_of k' j pd → space_of k j pd;
  kp_frames pd n q : j < k_next_pid k → space_of k j pd → space_of k' j pd → owns (k_mem k) pd n q →
    owns (k_mem k') pd n q ∧ ∀ b, q ≤ b < q + 4096 → load8 (k_mem k') b = load8 (k_mem k) b
}.

Lemma keeps_refl j k : keeps j k k.
Proof. by constructor. Qed.

Lemma keeps_trans j k1 k2 k3 : keeps j k1 k2 → keeps j k2 k3 → keeps j k1 k3.
Proof.
  intros [N1 B1 F1] [N2 B2 F2]. constructor; [lia| |].
  - intros pd Hlt H. apply B1; [done|]. apply B2; [lia|done].
  - intros pd n q Hlt H1 H3 Ho. assert (space_of k2 j pd) as H2 by (apply B2; [lia|done]).
    destruct (F1 pd n q Hlt H1 H2 Ho) as [Ho2 Hb2]. destruct (F2 pd n q ltac:(lia) H2 H3 Ho2) as [Ho3 Hb3]. split; [done|].
    intros b Hb. by rewrite Hb3, Hb2.
Qed.

(** Changes below 1 MB. *)
Lemma keeps_low j k k' :
  spaces_ok k → k_next_pid k ≤ k_next_pid k' → (∀ pd, space_of k' j pd → space_of k j pd) →
  (∀ b, 1048576 ≤ b → load8 (k_mem k') b = load8 (k_mem k) b) → keeps j k k'.
Proof.
  intros Hs Hn Hb Hm. constructor; [done|by intros pd _; apply Hb|]. intros pd n q _ Hsp _ Ho. split.
  - apply (same_tables_owns (k_vm k) (k_vm k')); [by apply (sp_wf _ _ _ Hs j)| |done].
    intros n' q' b [_ Hq]%owns_frame _ Hb'. apply Hm. lia.
  - intros b Hb'. apply Hm. apply owns_frame in Ho as [_ ?]. lia.
Qed.

(** ** The switch *)

(** What the abstract machine records at a yield: nothing for the caller before the
    first process. *)
Definition yield_ctx (c : cpu) k G : Z → cpu :=
  match k_current k with Some i => record_ctx i (resume_ctx c (k_mem k)) G | None => G end.

(** The bytes that a yield pushes are nobody else's. *)
Definition own_stack (c : cpu) k : Prop :=
  20 ≤ r_esp c < 8388608 ∧
  (∀ b, r_esp c - 20 ≤ b < r_esp c → ¬ paging_byte page_directory page_tables b) ∧
  ∀ j b, 0 ≤ j < 16 → r_esp c - 20 ≤ b < r_esp c → k_current k ≠ Some j → ¬ in_kstack j b.

Lemma pushed_elsewhere c x m b : b < r_esp c - 20 ∨ r_esp c ≤ b → load8 (pushed c x m) b = load8 m b.
Proof. intros Hb. unfold pushed. by rewrite !load8_store32_ne by lia. Qed.

Lemma frame_elsewhere j c x k p :
  own_stack c k → 0 ≤ j < 16 → k_current k ≠ Some j → proc_addr j + 60 ≤ p_esp p → p_esp p + 20 ≤ kstack_top j →
  frame_ctx (pushed c x (k_mem k)) (p_esp p) = frame_ctx (k_mem k) (p_esp p).
Proof.
  intros (_ & _ & Ho) Hr16 Hj H1 H2. apply frame_ctx_ext. intros b Hb. apply pushed_elsewhere.
  destruct (decide (r_esp c - 20 ≤ b < r_esp c)) as [Hr|]; [|lia].
  destruct (Ho j b Hr16 Hr Hj). unfold in_kstack. lia.
Qed.

Lemma procs_yield G k c :
  placed → procs_pre G k → regs_ok c → own_stack c k →
  (∀ i, k_current k = Some i → proc_addr i + 80 ≤ r_esp c ≤ kstack_top i - 4) →
  ∃ j c' k', yield c k = Some (c', k') ∧ k_current k' = Some j ∧ procs_ok (yield_ctx c k G) k' ∧
    c' = yield_ctx c k G j ∧ (∀ i pd, space_of k' i pd ↔ space_of k i pd) ∧ k_next_pid k' = k_next_pid k ∧
    ∀ b, b < r_esp c - 20 ∨ r_esp c ≤ b → load8 (k_mem k') b = load8 (k_mem k) b.
Proof.
  intros Hpl [Hk Hs Hes Hctx] Hrg Hown Hcur. pose proof Hown as (Hr & Hpb & _).
  destruct (process_yield_lemma process_table page_directory c k Hk Hr Hes) as
    (_ & _ & _ & k' & p0 & _ & _ & _ & _ & _ & _ & _ & _ & _ & _ & Hy & _).
  destruct (yield_slots c k _ _ Hk Hes Hr Hy) as (j & p & Hj & Hjr & Hnp & Hp & Hst & Ec & Hm & Hcr & Hk' & Hsl).
  pose proof (yield_fa _ _ _ _ Hy) as Hfa. pose proof (λ i pd, yield_space c k _ k' i pd Hk Hes Hr Hy) as Hsp.
  assert (∀ i q q', aget (k_table k) i = Some q → p_state q' ≠ PROC_UNUSED →
    same_but_state (if decide (k_current k = Some i) then set_esp (r_esp c - 16) q else q) q' →
    (p_state q' = PROC_UNUSED ↔ p_state q = PROC_UNUSED) →
    proc_addr i + 60 ≤ p_esp q' ∧ p_esp q' + 20 ≤ kstack_top i ∧
    frame_ctx (k_mem k') (p_esp q') = yield_ctx c k G i) as Hfr.
  { intros i q q' Hq Hu Hsame Huu. rewrite Hsame, Hm. unfold yield_ctx.
    destruct (decide (k_current k = Some i)) as [Hci|Hci]; cbn [p_esp set_state set_esp].
    - specialize (Hcur i Hci). rewrite Hci. unfold record_ctx. rewrite decide_True by done.
      split; [lia|]. split; [lia|]. by apply pushed_frame.
    - destruct (Hctx i q Hq) as (B1 & B2 & B3); [by intros E; apply Hu, Huu|done|]. split; [done|]. split; [done|].
      pose proof (aget_Some_lt _ _ _ Hq) as Hlt. rewrite (ki_len k Hk) in Hlt. rewrite (frame_elsewhere i) by (done || lia). rewrite B3. destruct (k_current k) as [i'|]; [|done].
      unfold record_ctx. by rewrite decide_False by congruence. }
  eexists j, _, k'. split; [exact Hy|]. split; [done|].
  assert (∀ b, b < r_esp c - 20 ∨ r_esp c ≤ b → load8 (k_mem k') b = load8 (k_mem k) b) as Hout
    by (intros b Hb; rewrite Hm; by apply pushed_elsewhere).
  split; [|split; [|done]].
  - constructor; [constructor; [done| | |]|done|].
    + apply (spaces_table _ _ (with_k_mem (k_mem k') k)); [|done|done|by intros i pd; rewrite Hsp].
      apply (spaces_low process_table); [done|done|]. intros b Hb. apply Hout.
      destruct (decide (r_esp c - 20 ≤ b < r_esp c)) as [Hrb|]; [|lia]. by destruct (Hpb b Hrb).
    + intros i q' Hq'. destruct (Hsl i q' Hq') as (q & Hq & -> & _). case_decide; simpl; [lia|by apply (Hes i)].
    + intros i q' Hq' Hu Hi. destruct (Hsl i q' Hq') as (q & Hq & Hsame & Huu). by apply (Hfr i q).
    + intros i Hi. rewrite Hj in Hi. injection Hi as <-. unfold state_of. rewrite Hp. simpl. by rewrite Hst.
  - rewrite Ec. destruct (Hsl j p Hp) as (q & Hq & Hsame & Huu). apply (Hfr j q); [done| |done|done].
    by rewrite Hst.
Qed.
(** ** Changes of the table *)

(** A change of states and directories only keeps the contexts. *)
Lemma ctx_table G k k' :
  k_mem k' = k_mem k → k_current k' = k_current k →
  (∀ j q', aget (k_table k') j = Some q' → ∃ q, aget (k_table k) j = Some q ∧ p_esp q' = p_esp q ∧
     (p_state q = PROC_UNUSED → p_state q' = PROC_UNUSED)) →
  (ctx_ok G k → ctx_ok G k') ∧ (esps_ok k → esps_ok k').
Proof.
  intros Em Ec Hsl. split.
  - intros H i p' Hp' Hu Hi. destruct (Hsl i p' Hp') as (p & Hp & -> & Huu). rewrite Em. rewrite Ec in Hi.
    apply H; [done|by intros E; apply Hu, Huu|done].
  - intros H i p' Hp'. destruct (Hsl i p' Hp') as (p & Hp & -> & _). by apply (H i).
Qed.

Lemma reap_ok G k i :
  procs_pre G k → 0 ≤ i < k_next_pid k →
  ∃ p k', aget (k_table k) i = Some p ∧ reap i k = Some k' ∧ procs_pre G k' ∧ k_current k' = k_current k ∧ k_mem k' = k_mem k ∧
    v_cr3 (k_vm k') = v_cr3 (k_vm k) ∧ k_next_pid k' = k_next_pid k ∧
    (∀ j, aget (k_table k') j = if decide (i = j) then Some (set_state PROC_ZOMBIE (set_pd_phys 0 p)) else aget (k_table k) j) ∧
    ∀ j pd, space_of k' j pd ↔ j ≠ i ∧ space_of k j pd.
Proof.
  intros [Hk Hs Hes Hctx] Hi. destruct (kinv_slot_used k i Hk Hi) as (p & Hp & Hu & _).
  assert (∃ v, (if decide (p_pd_phys p = 0) then Some (k_vm k) else paging_destroy_pd (p_pd_phys p) (k_vm k)) = Some v ∧
    v_mem v = v_mem (k_vm k) ∧ v_cr3 v = v_cr3 (k_vm k)) as (v & Hv & Hm & H3).
  { case_decide as Hd; [by exists (k_vm k)|].
    destruct (destroy_pd_lemma (k_vm k) _ (sp_wf _ _ _ Hs i _ (ex_intro _ p (conj Hp (conj eq_refl Hd))))) as (v & E & _ & Hm & H3 & _).
    by exists v. }
  set (f p := set_state PROC_ZOMBIE (set_pd_phys 0 p)). set (k' := with_table (<[Z.to_nat i := f p]> (k_table k)) (with_vm v k)).
  assert (reap i k = Some k') as Hreap.
  { unfold reap. rewrite Hp. cbn [mbind option_bind]. rewrite Hv. cbn [mbind option_bind].
    pose proof (upd_Some _ _ _ f Hp) as E. unfold f in E |- *. by rewrite E. }
  destruct (reap_kinv i k k' Hk Hi Hreap) as (Hk' & Hn' & Hc').
  assert (∀ j, aget (k_table k') j = if decide (i = j) then Some (f p) else aget (k_table k) j) as Ha
    by (intros j; apply (aget_upd _ _ _ f _ Hp)).
  assert (∀ j pd, space_of k' j pd ↔ j ≠ i ∧ space_of k j pd) as Hsp.
  { intros j pd. unfold space_of. rewrite Ha. destruct (decide (i = j)) as [->|Hne].
    - split; [|tauto]. by intros (q & [= <-] & <- & Hz).
    - split; [by intros H; split|by intros [_ H]]. }
  exists p, k'. split; [done|]. split; [done|]. split; [|done]. destruct (ctx_table G k k') as [C1 C2]; [exact Hm|done| |].
  { intros j q'. rewrite Ha. destruct (decide (i = j)) as [->|]; [|by exists q'].
    intros [= <-]. exists p. split; [done|]. split; [done|]. intros E. by destruct Hu. }
  constructor; [done| |by apply C2|by apply C1]. destruct (decide (p_pd_phys p = 0)) as [Hd|Hd].
  - injection Hv as <-. apply (spaces_table _ _ k); [done|done|done|]. intros j pd. rewrite Hsp. tauto.
  - apply (spaces_release _ _ k k' i (p_pd_phys p) v); [done|by exists p|done|done|done|]. intros j pd. by rewrite Hsp.
Qed.
(** ** The calls that give up the processor *)

Lemma kinv_cur k i : kinv k → k_current k = Some i → 0 ≤ i < 16.
Proof. intros Hk Hi. pose proof (ki_cur k Hk i Hi). pose proof (ki_pid k Hk). lia. Qed.

Lemma on_kstack_own i c k :
  placed → kinv k → k_current k = Some i → on_kstack i c → own_stack c k.
Proof.
  intros Hpl Hk Hc [_ He]. pose proof (kinv_cur k i Hk Hc) as Hi.
  assert (∀ b, r_esp c - 20 ≤ b < r_esp c → in_kstack i b) as Hin by (unfold in_kstack; lia).
  assert (in_kstack i (r_esp c - 20)) as H1 by (apply Hin; lia).
  assert (in_kstack i (r_esp c - 1)) as H2 by (apply Hin; lia).
  destruct (kstack_low i _ Hpl Hi H1) as [? _], (kstack_low i _ Hpl Hi H2) as [? _]. split; [lia|]. split.
  - intros b Hb. apply (kstack_low i b Hpl Hi), Hin, Hb.
  - intros j b _ Hb Hj Hjb. apply (kstack_apart j i b); [congruence|done|by apply Hin].
Qed.

(** How a call by process [i] that yields ends: in the context recorded for the process
    chosen; only the stack of [i] has been written. *)
Record switch_to (i : Z) (c : cpu) G k (c' : cpu) k' : Prop := SwitchTo {
  sw_next : ∃ j, k_current k' = Some j ∧ c' = record_ctx i (resume_ctx c (k_mem k)) G j;
  sw_ok : procs_ok (record_ctx i (resume_ctx c (k_mem k)) G) k';
  sw_mem b : ¬ in_kstack i b → load8 (k_mem k') b = load8 (k_mem k) b;
  sw_keeps j : keeps j k k'
}.

Lemma process_yield_ok G k i c :
  placed → procs_pre G k → k_current k = Some i → on_kstack i c →
  ∃ c' k', yield c k = Some (c', k') ∧ switch_to i c G k c' k' ∧ ∀ j pd, space_of k' j pd ↔ space_of k j pd.
Proof.
  intros Hpl Hpre Hc Hon. pose proof (pr_kinv _ _ Hpre) as Hk. pose proof (on_kstack_own i c k Hpl Hk Hc Hon) as Hown.
  destruct (procs_yield G k c Hpl Hpre (ok_regs _ _ Hon) Hown) as (j & c' & k' & E & Hj & Hok & Hc' & Hsp & Hn & Hm).
  { intros i' Hi'. rewrite Hc in Hi'. injection Hi' as <-. apply Hon. }
  unfold yield_ctx in Hok, Hc'. rewrite Hc in Hok, Hc'. exists c', k'. split; [done|]. split; [|done].
  assert (∀ b, ¬ in_kstack i b → load8 (k_mem k') b = load8 (k_mem k) b) as Hst
    by (intros b Hb; apply Hm; destruct Hon as [_ Hon]; unfold in_kstack in Hb; lia).
  constructor; [by exists j|done|exact Hst|]. intros j'. apply keeps_low; [apply Hpre|by rewrite Hn|by intros pd; rewrite Hsp|].
  intros b Hb. apply Hst. intros Hin. apply (kstack_low i b Hpl) in Hin; [lia|by apply (kinv_cur k)].
Qed.

(** A change of the own state before the yield. *)
Lemma block_pre G k i :
  procs_pre G k → k_current k = Some i →
  ∃ t, upd (k_table k) i (set_state PROC_BLOCKED) = Some t ∧ procs_pre G (with_table t k) ∧
    ∀ j pd, space_of (with_table t k) j pd ↔ space_of k j pd.
Proof.
  intros [Hk Hs Hes Hctx] Hc. destruct (kinv_slot_used k i Hk (ki_cur k Hk i Hc)) as (p & Hp & Hu & _).
  pose proof (upd_Some _ _ _ (set_state PROC_BLOCKED) Hp) as E. set (t := <[_ := _]> _) in E. exists t. split; [done|].
  assert (∀ j, aget t j = if decide (i = j) then Some (set_state PROC_BLOCKED p) else aget (k_table k) j) as Ha
    by (intros j; apply (aget_upd _ _ _ (set_state PROC_BLOCKED) _ Hp)).
  assert (∀ j pd, space_of (with_table t k) j pd ↔ space_of k j pd) as Hsp.
  { intros j pd. unfold space_of. cbn [k_table with_table]. rewrite Ha. destruct (decide (i = j)) as [<-|]; [|done].
    rewrite Hp. split; intros (q & [= <-] & H); by eexists. }
  split; [|exact Hsp]. destruct (ctx_table G k (with_table t k)) as [C1 C2]; [done|done| |].
  { intros j q'. cbn [k_table with_table]. rewrite Ha. destruct (decide (i = j)) as [<-|]; [|by exists q'].
    intros [= <-]. exists p. split; [done|]. split; [done|]. intros X. by destruct Hu. }
  constructor; [| |by apply C2|by apply C1].
  - apply (kinv_upd k t i (set_state PROC_BLOCKED)); [done|done|done|]. intros q Hq. rewrite Hp in Hq. injection Hq as <-.
    simpl. split; [|done]. split; [done|]. intros X. by destruct Hu.
  - apply (spaces_table _ _ k); [done|done|done|]. intros j pd. by rewrite Hsp.
Qed.

Lemma process_block_ok G k i c :
  placed → procs_pre G k → k_current k = Some i → on_kstack i c →
  ∃ c' k', process_block process_table page_directory c k = Some (c', k') ∧ switch_to i c G k c' k' ∧
    ∀ j pd, space_of k' j pd ↔ space_of k j pd.
Proof.
  intros Hpl Hpre Hc Hon. destruct (block_pre G k i Hpre Hc) as (t & E & Hpre' & Hsp). unfold process_block. rewrite Hc, E.
  cbn [mbind option_bind]. destruct (process_yield_ok G (with_table t k) i c Hpl Hpre' Hc Hon) as (c' & k' & Ey & [H1 H2 H3 H4] & Hsp').
  exists c', k'. split; [done|]. split; [constructor; [done..|]|intros j pd; by rewrite Hsp'].
  intros j. apply (keeps_trans j k (with_table t k)); [|done]. apply keeps_low; [apply Hpre|done|by intros pd; rewrite Hsp|done].
Qed.

(** [process_exit] also gives up the address space of the caller. *)
Lemma process_exit_ok G k i c :
  placed → procs_pre G k → k_current k = Some i → on_kstack i c →
  ∃ c' k', process_exit process_table page_directory c k = Some (c', k') ∧ switch_to i c G k c' k' ∧
    ∀ j pd, space_of k' j pd ↔ j ≠ i ∧ space_of k j pd.
Proof.
  intros Hpl Hpre Hc Hon. pose proof (ki_cur _ (pr_kinv _ _ Hpre) i Hc) as Hi.
  destruct (reap_ok G k i Hpre Hi) as (p & k1 & _ & E & Hpre1 & Hc1 & Hm1 & _ & Hn1 & _ & Hsp1).
  unfold process_exit. rewrite Hc, E. cbn [mbind option_bind]. rewrite Hc in Hc1.
  destruct (process_yield_ok G k1 i c Hpl Hpre1 Hc1 Hon) as (c' & k' & Ey & [H1 H2 H3 H4] & Hsp'). rewrite Hm1 in H1, H2, H3.
  exists c', k'. split; [done|]. split; [constructor; [done..|]|intros j pd; by rewrite Hsp', Hsp1].
  intros j. apply (keeps_trans j k k1); [|done]. apply keeps_low; [apply Hpre|by rewrite Hn1|by intros pd; rewrite Hsp1; intros [_ ?]|by rewrite Hm1].
Qed.

(** ** The calls that return *)

(** What such a call leaves alone. *)
Record same_procs k k' : Prop := SameProcs {
  sm_cur : k_current k' = k_current k;
  sm_mem : k_mem k' = k_mem k;
  sm_cr3 : v_cr3 (k_vm k') = v_cr3 (k_vm k);
  sm_keeps j : keeps j k k'
}.

(** Killing a process other than the caller. *)
Lemma process_kill_ok G k i pid :
  procs_ok G k → k_current k = Some i → pid ≠ i + 1 →
  ∃ r k', process_kill pid k = Some (r, k') ∧ (r = 0 ∨ r = -1) ∧ procs_ok G k' ∧ same_procs k k' ∧
    ∀ j pd, j + 1 ≠ pid → space_of k' j pd ↔ space_of k j pd.
Proof.
  intros [Hpre Hcr Hrun] Hc Hpid. pose proof (pr_kinv _ _ Hpre) as Hk. unfold process_kill.
  destruct (find_range _ _ _) as [n|] eqn:Hf.
  2:{ exists (-1), k. split; [done|]. split; [by right|]. split; [by constructor|]. split; [constructor; done || apply keeps_refl|done]. }
  apply find_range_Some in Hf as (_ & Hkill & _). apply killable_spec in Hkill as (Hn & -> & _); [|done].
  destruct (reap_ok G k n Hpre Hn) as (p & k' & Hp & -> & Hpre' & Hc' & Hm' & H3 & Hn' & Ha & Hsp).
  cbn [mbind option_bind]. exists 0, k'. split; [done|]. split; [by left|]. split; [constructor; [done| |]|].
  - unfold Spaces.cr3_ok in *. rewrite H3, Hcr, Hc', Hc, Ha. by rewrite decide_False by lia.
  - intros j Hj. rewrite Hc' in Hj. unfold state_of. rewrite Ha, decide_False by (rewrite Hc in Hj; injection Hj as <-; lia).
    by apply Hrun.
  - split; [constructor; [done..|]; intros j; apply keeps_low; [apply Hpre|by rewrite Hn'|by intros pd; rewrite Hsp; intros [_ ?]|by rewrite Hm']|].
    intros j pd Hj. rewrite Hsp. split; [tauto|]. intros H. split; [lia|done].
Qed.

Lemma wake_all_ok G k :
  procs_ok G k →
  ∃ k', process_wake_all_blocked k = Some k' ∧ procs_ok G k' ∧ same_procs k k' ∧
    (∀ j pd, space_of k' j pd ↔ space_of k j pd) ∧ ∀ i, state_of (k_table k') i ≠ Some PROC_BLOCKED.
Proof.
  intros [[Hk Hs Hes Hctx] Hcr Hrun]. destruct (table_loop wake (k_table k) (ki_len k Hk)) as (t & Ht & Hl & Ha).
  assert (process_wake_all_blocked k = Some (with_table t k)) as E by (unfold process_wake_all_blocked; by rewrite Ht).
  destruct (wake_all_kinv k _ Hk E) as [Hk' _]. exists (with_table t k). split; [done|].
  assert (∀ j q', aget t j = Some q' → ∃ q, aget (k_table k) j = Some q ∧ q' = wake q) as Hsl.
  { intros j q'. rewrite Ha. intros (q & Hq & ->)%fmap_Some. by exists q. }
  assert (∀ p, p_esp (wake p) = p_esp p ∧ p_pd_phys (wake p) = p_pd_phys p) as Hw by (intros p; unfold wake; by case_decide).
  assert (∀ j pd, space_of (with_table t k) j pd ↔ space_of k j pd) as Hsp.
  { intros j pd. unfold space_of. cbn [k_table with_table]. rewrite Ha. split.
    - intros (q' & (q & Hq & ->)%fmap_Some & <- & Hz). exists q. rewrite (proj2 (Hw q)) in *. done.
    - intros (q & Hq & <- & Hz). exists (wake q). rewrite Hq, (proj2 (Hw q)). done. }
  destruct (ctx_table G k (with_table t k)) as [C1 C2]; [done|done| |].
  { intros j q' (q & Hq & ->)%Hsl. exists q. split; [done|]. split; [apply Hw|]. apply wake_keeps. }
  split; [|split; [constructor; [done..|intros j; apply keeps_low; [done|done|by intros pd; rewrite Hsp|done]]|split; [exact Hsp|]]].
  - constructor; [constructor; [done| |by apply C2|by apply C1]| |].
    + apply (spaces_table _ _ k); [done|done|done|]. intros j pd. by rewrite Hsp.
    + unfold Spaces.cr3_ok in *. cbn [k_vm k_current k_table with_table]. rewrite Hcr. destruct (k_current k) as [i|]; [|done].
      rewrite Ha. destruct (aget (k_table k) i) as [p|]; [|done]. simpl. by rewrite (proj2 (Hw p)).
    + intros i Hi. specialize (Hrun i Hi). unfold state_of in *. cbn [k_table with_table]. rewrite Ha.
      destruct (aget (k_table k) i) as [p|]; [|done]. simpl in *. injection Hrun as Hr. unfold wake. by rewrite decide_False, Hr by congruence.
  - intros i. unfold state_of. cbn [k_table with_table]. rewrite Ha. destruct (aget (k_table k) i) as [p|]; [|done]. simpl.
    unfold wake. case_decide; simpl; congruence.
Qed.

(** ** Memory *)

(** Writes to kernel memory that is no paging structure and no stack of another
    process. *)
Lemma procs_mem G k m' :
  placed → procs_ok G k → (∀ b, paging_byte page_directory page_tables b → load8 m' b = load8 (k_mem k) b) →
  (∀ j b, 0 ≤ j < 16 → k_current k ≠ Some j → in_kstack j b → load8 m' b = load8 (k_mem k) b) →
  procs_ok G (with_k_mem m' k).
Proof.
  intros Hpl [[Hk Hs Hes Hctx] Hcr Hrun] Hp Hst. constructor; [constructor|done|done].
  - destruct Hk. by constructor.
  - by apply (spaces_low process_table).
  - done.
  - intros i p Ha Hu Hi. destruct (Hctx i p Ha Hu Hi) as (B1 & B2 & B3). split; [done|]. split; [done|]. rewrite <-B3.
    apply frame_ctx_ext. intros b Hb. pose proof (aget_Some_lt _ _ _ Ha) as Hlt. cbn [k_table with_k_mem with_vm] in Hlt.
    rewrite (ki_len k Hk) in Hlt. apply (Hst i b); [lia|done|unfold in_kstack; lia].
Qed.

(** The tables that CR3 points to, if it is the directory of a process. *)
Definition own_tables k k' : Prop :=
  1048576 ≤ v_cr3 (k_vm k) → ∀ n q, owns (k_mem k') (v_cr3 (k_vm k)) n q ↔ owns (k_mem k) (v_cr3 (k_vm k)) n q.

Lemma own_tables_trans k1 k2 k3 :
  own_tables k1 k2 → v_cr3 (k_vm k2) = v_cr3 (k_vm k1) → own_tables k2 k3 → own_tables k1 k3.
Proof.
  intros H1 E H2 Hc n q. unfold own_tables in *. rewrite E in H2. etrans; [by apply H2|by apply H1].
Qed.

Lemma cur_space G k i :
  placed → procs_ok G k → k_current k = Some i → 1048576 ≤ v_cr3 (k_vm k) → space_of k i (v_cr3 (k_vm k)).
Proof.
  intros [Hpd _ _ _ _] [Hpre Hcr _] Hc Hlt. destruct (kinv_slot_used k i (pr_kinv _ _ Hpre) (ki_cur _ (pr_kinv _ _ Hpre) i Hc)) as (p & Hp & _).
  unfold Spaces.cr3_ok in Hcr. rewrite Hc, Hp in Hcr. exists p. split; [done|]. case_decide; [lia|]. by rewrite Hcr.
Qed.

Lemma own_tables_high G k i k' :
  placed → procs_ok G k → k_current k = Some i → (∀ b, 1048576 ≤ b → load8 (k_mem k') b = load8 (k_mem k) b) → own_tables k k'.
Proof.
  intros Hpl Hok Hc Hm Hlt n q. pose proof (cur_space G k i Hpl Hok Hc Hlt) as Hsp.
  apply (same_tables_owns (k_vm k) (k_vm k')); [by apply (sp_wf _ _ _ (pr_spaces _ _ (pr_pre _ _ Hok)) i)|].
  intros n' q' b [_ Hq]%owns_frame _ Hb. apply Hm. lia.
Qed.

(** Anything on the stack of the current process. *)
Lemma procs_own_stack G k i m' :
  placed → procs_ok G k → k_current k = Some i → (∀ b, ¬ in_kstack i b → load8 m' b = load8 (k_mem k) b) →
  procs_ok G (with_k_mem m' k) ∧ (∀ j, keeps j k (with_k_mem m' k)) ∧ own_tables k (with_k_mem m' k).
Proof.
  intros Hpl Hok Hc Hm. pose proof (kinv_cur k i (pr_kinv _ _ (pr_pre _ _ Hok)) Hc) as Hi.
  assert (∀ b, 1048576 ≤ b → load8 m' b = load8 (k_mem k) b) as Hhigh
    by (intros b Hb; apply Hm; intros Hin; apply (kstack_low i b Hpl Hi) in Hin; lia).
  split; [|split; [|by apply (own_tables_high G k i)]].
  - apply procs_mem; [done|done| |]; [intros b Hb|intros j b Hj Hcj Hb]; apply Hm; intros Hin.
    + by apply (kstack_low i b Hpl Hi) in Hin as [_ ?].
    + apply (kstack_apart i j b); [congruence|done..].
  - intros j. by apply keeps_low; [apply Hok|..].
Qed.

(** A byte stored by the current process through one of its addresses. *)
Lemma procs_store G k i pd x p c :
  placed → procs_ok G k → k_current k = Some i → space_of k i pd → is_u32 x → 8388608 ≤ x →
  mmu_walk (k_mem k) pd x = Some p →
  let k' := with_k_mem (store8 (k_mem k) p c) k in
  procs_ok G k' ∧ (∀ j, j ≠ i → keeps j k k') ∧ low_same (k_mem k) (k_mem k') ∧ own_tables k k'.
Proof.
  intros Hpl [[Hk Hs Hes Hctx] Hcr Hrun] Hc Hsp Hx Ux Hw k'.
  destruct (spaces_store process_table page_directory page_tables k i pd x p c Hpl Hs Hsp Hx Ux Hw) as (Hs' & Ho & Hb & Hl).
  split; [|split; [|split; [done|]]].
  3:{ intros _ n q. rewrite (cr3_space _ _ _ _ Hcr Hc Hsp). by apply (Ho i). }
  - constructor; [constructor|done|done]; [by destruct Hk; constructor|done|done|].
    intros j q Hq Hu Hj. destruct (Hctx j q Hq Hu Hj) as (B1 & B2 & B3). split; [done|]. split; [done|]. rewrite <-B3.
    apply frame_ctx_ext. intros b Hbb. apply Hl. pose proof (aget_Some_lt _ _ _ Hq) as Hlt. change (k_table k') with (k_table k) in Hlt.
    rewrite (ki_len k Hk) in Hlt. apply (kstack_low j b Hpl); [lia|unfold in_kstack; lia].
  - intros j Hj. constructor; [done|done|]. intros pd' n q _ Hsj _ Hq. split; [by apply (Ho j)|]. intros b Hbb. by apply (Hb j pd' n q).
Qed.

(** A buffer filled by the current process. *)
Lemma procs_vwrite G i pd bs : ∀ k a,
  placed → procs_ok G k → k_current k = Some i → space_of k i pd → user_range (k_vm k) a (Z.of_nat (length bs)) →
  ∃ v', vwrite (k_vm k) a bs = Some v' ∧ procs_ok G (with_vm v' k) ∧ (∀ j, j ≠ i → keeps j k (with_vm v' k)) ∧
    low_same (k_mem k) (v_mem v') ∧ v_cr3 v' = v_cr3 (k_vm k) ∧ own_tables k (with_vm v' k).
Proof.
  induction bs as [|b bs IH]; intros k a Hpl Hok Hc Hsp Hr.
  { exists (k_vm k). split; [done|]. replace (with_vm (k_vm k) k) with k by (by destruct k). done. }
  destruct Hr as (A1 & A2 & A3 & A4). cbn [length] in *. cbn [vwrite].
  pose proof (sp_wf _ _ _ (pr_spaces _ _ (pr_pre _ _ Hok)) i pd Hsp) as Hwf.
  pose proof (cr3_space _ _ _ _ (pr_cr3 _ _ Hok) Hc Hsp) as H3.
  destruct (A4 a) as [p Hp]; [lia|]. rewrite Hp. cbn [mbind option_bind].
  assert (is_u32 a) as Ha by (unfold is_u32; lia).
  destruct (user_store (k_vm k) a p b) as (_ & Hv & _); [by rewrite H3|done|done|done|].
  unfold vaddr in Hp. rewrite u32_small, H3 in Hp by done.
  destruct (procs_store G k i pd a p b Hpl Hok Hc Hsp Ha A1 Hp) as (Hok1 & Hk1 & Hl1 & Ht1).
  set (k1 := with_k_mem (store8 (k_mem k) p b) k) in *.
  destruct (IH k1 (a + 1) Hpl Hok1 Hc Hsp) as (v' & E & Hok' & Hk' & Hl' & H3' & Ht').
  { split; [lia|]. split; [lia|]. split; [lia|]. intros x Hx. change (k_vm k1) with (vm_with_mem (k_vm k) (store8 (k_mem k) p b)).
    rewrite Hv by (unfold is_u32; lia). apply A4. lia. }
  exists v'. split; [exact E|]. split; [exact Hok'|]. split; [|split; [|split; [exact H3'|]]].
  - intros j Hj. by apply (keeps_trans j k k1), Hk'; [apply Hk1|].
  - intros x Hx. by rewrite Hl', Hl1.
  - by apply (own_tables_trans k k1).
Qed.
End coroutines.
