(* ===== verification/System.v ===== *)
(** * Interrupts and system calls ([src/kernel/isr.c], [isr.h], [syscall.c], [syscall.h])

    The state of the whole kernel, the dispatcher of interrupts with the handlers of
    the timer and the keyboard, and the dispatcher of system calls.  The handlers run
    on the register frame that the stubs of [isr.asm] build on the kernel stack:
    [regs] is its address, and its fields are words of the memory.

    A handler ends in one of three ways ([exit]): it returns to the stub; it gives
    up the processor in [process_yield], with the context in which the processor
    continues (another process); or it halts the machine. *)

From Stdlib Require Import String.
From S2P Require Import Prelude Mem CString Kmem Pmm Paging Process Pipe Keyboard Vga.
From S2P Require Import Console Ports Pic Rtc Timer Ata Fs Fd UserMem.

(** The functions that [irq_register_handler] is called with. *)
Inductive irq_fn := TimerIrq | KeyboardIrq.

(** All global variables of the kernel: processes with memory and paging, console,
    keyboard buffer, tick counter, handler table, pipes, descriptors, file system with
    its disk, heap; and the interrupt controllers and the clock chip. *)
Record sys (D P R : Type) := Sys {
  y_k : kst pmm; y_vga : vga; y_kb : kb; y_ticks : Z; y_irq : list (option irq_fn);
  y_pic : P; y_rtc : R; y_pipes : list pipe_t; y_fd : list fd_entry; y_fs : fs D; y_heap : kmem
}.
Arguments Sys {D P R} _ _ _ _ _ _ _ _ _ _ _.
Arguments y_k {D P R} _.
Arguments y_vga {D P R} _.
Arguments y_kb {D P R} _.
Arguments y_ticks {D P R} _.
Arguments y_irq {D P R} _.
Arguments y_pic {D P R} _.
Arguments y_rtc {D P R} _.
Arguments y_pipes {D P R} _.
Arguments y_fd {D P R} _.
Arguments y_fs {D P R} _.
Arguments y_heap {D P R} _.

Inductive exit (S : Type) := Returned (s : S) | Switched (c : cpu) (s : S) | Halted (s : S).
Arguments Returned {S} _.
Arguments Switched {S} _ _.
Arguments Halted {S} _.

(** Fields of [registers_t]. *)
Definition reg_ebx (m : mem) (regs : Z) : Z := load32 m (regs + 32).
Definition reg_edx (m : mem) (regs : Z) : Z := load32 m (regs + 36).
Definition reg_ecx (m : mem) (regs : Z) : Z := load32 m (regs + 40).
Definition reg_eax (m : mem) (regs : Z) : Z := load32 m (regs + 44).
Definition reg_int_no (m : mem) (regs : Z) : Z := load32 m (regs + 48).
Definition reg_err_code (m : mem) (regs : Z) : Z := load32 m (regs + 52).
Definition reg_eip (m : mem) (regs : Z) : Z := load32 m (regs + 56).
Definition reg_eflags (m : mem) (regs : Z) : Z := load32 m (regs + 64).

Definition exception_names : list string :=
  ["#DE Divide-by-Zero"; "#DB Debug"; "Non-Maskable Interrupt"; "#BP Breakpoint"; "#OF Overflow";
   "#BR Bound Range Exceeded"; "#UD Invalid Opcode"; "#NM Device Not Available"; "#DF Double Fault";
   "Coprocessor Segment Overrun"; "#TS Invalid TSS"; "#NP Segment Not Present"; "#SS Stack-Segment Fault";
   "#GP General Protection Fault"; "#PF Page Fault"; "Reserved"; "#MF x87 FPU Error"; "#AC Alignment Check";
   "#MC Machine Check"; "#XM SIMD FP Exception"]%string.

Definition SYS_EXIT : Z := 0.
Definition SYS_WRITE : Z := 1.
Definition SYS_GETPID : Z := 2.
Definition SYS_SLEEP : Z := 3.
Definition SYS_YIELD : Z := 4.
Definition SYS_KILL : Z := 5.
Definition SYS_OPEN : Z := 6.
Definition SYS_READ : Z := 7.
Definition SYS_CLOSE : Z := 8.
Definition SYS_GETTIME : Z := 9.
Definition SYS_PIPE_CREATE : Z := 10.
Definition SYS_PIPE_WRITE : Z := 11.
Definition SYS_PIPE_READ : Z := 12.

(** The bytes of a file name that [fs_open] can look at: [strcmp] compares with names
    inside the 4096 bytes of the directory buffer. *)
Definition NAME_FUEL : nat := 4097.

Section system.
Context (process_table page_directory : Z) (rtc_fuel : nat).
Context {D : Type} `{!BlockDevice D} {P : Type} `{!PortIO P} {R : Type} `{!PortIO R}.

Definition set_k (x : kst pmm) (s : sys D P R) : sys D P R :=
  Sys x (y_vga s) (y_kb s) (y_ticks s) (y_irq s) (y_pic s) (y_rtc s) (y_pipes s) (y_fd s) (y_fs s) (y_heap s).
Definition set_vga (x : vga) (s : sys D P R) : sys D P R :=
  Sys (y_k s) x (y_kb s) (y_ticks s) (y_irq s) (y_pic s) (y_rtc s) (y_pipes s) (y_fd s) (y_fs s) (y_heap s).
Definition set_kb (x : kb) (s : sys D P R) : sys D P R :=
  Sys (y_k s) (y_vga s) x (y_ticks s) (y_irq s) (y_pic s) (y_rtc s) (y_pipes s) (y_fd s) (y_fs s) (y_heap s).
Definition set_ticks (x : Z) (s : sys D P R) : sys D P R :=
  Sys (y_k s) (y_vga s) (y_kb s) x (y_irq s) (y_pic s) (y_rtc s) (y_pipes s) (y_fd s) (y_fs s) (y_heap s).
Definition set_pic (x : P) (s : sys D P R) : sys D P R :=
  Sys (y_k s) (y_vga s) (y_kb s) (y_ticks s) (y_irq s) x (y_rtc s) (y_pipes s) (y_fd s) (y_fs s) (y_heap s).
Definition set_rtc (x : R) (s : sys D P R) : sys D P R :=
  Sys (y_k s) (y_vga s) (y_kb s) (y_ticks s) (y_irq s) (y_pic s) x (y_pipes s) (y_fd s) (y_fs s) (y_heap s).
Definition set_pipes (x : list pipe_t) (s : sys D P R) : sys D P R :=
  Sys (y_k s) (y_vga s) (y_kb s) (y_ticks s) (y_irq s) (y_pic s) (y_rtc s) x (y_fd s) (y_fs s) (y_heap s).
Definition set_fd (x : list fd_entry) (s : sys D P R) : sys D P R :=
  Sys (y_k s) (y_vga s) (y_kb s) (y_ticks s) (y_irq s) (y_pic s) (y_rtc s) (y_pipes s) x (y_fs s) (y_heap s).
Definition set_fs (x : fs D) (s : sys D P R) : sys D P R :=
  Sys (y_k s) (y_vga s) (y_kb s) (y_ticks s) (y_irq s) (y_pic s) (y_rtc s) (y_pipes s) (y_fd s) x (y_heap s).

Definition y_mem (s : sys D P R) : mem := k_mem (y_k s).
Definition y_vm (s : sys D P R) : vm pmm := k_vm (y_k s).
Definition set_vm (v : vm pmm) (s : sys D P R) : sys D P R := set_k (with_vm v (y_k s)) s.

Definition console (ps : list pr) (s : sys D P R) : option (sys D P R) :=
  v ← print ps (y_vga s); Some (set_vga v s).

(** ** Interrupts *)

Definition isr_handler (regs : Z) (s : sys D P R) : option (exit (sys D P R)) :=
  let m := y_mem s in
  name ← (if decide (reg_int_no m regs < 20) then aget exception_names (reg_int_no m regs)
          else Some "(reserved)"%string);
  s ← console [Color VGA_COLOR_LIGHT_RED; Puts "\n*** KERNEL EXCEPTION ***\n"; Puts "  Vector   : ";
               Uint (reg_int_no m regs); Puts "\n  Name     : "; Puts name;
               Puts "\n  EIP      : "; Hex (reg_eip m regs); Puts "\n  Error    : "; Hex (reg_err_code m regs);
               Puts "\n  EFLAGS   : "; Hex (reg_eflags m regs); Puts "\n\nSystem halted.\n";
               Color VGA_COLOR_LIGHT_GREY] s;
  Some (Halted s).

(** [timer_irq_handler]; [c] is the context at its call of [process_yield]. *)
Definition timer_irq_handler (c : cpu) (s : sys D P R) : option (exit (sys D P R)) :=
  let s := set_ticks (u32 (y_ticks s + 1)) s in
  if decide (y_ticks s `mod` SCHED_SLICE = 0 ∧ k_current (y_k s) ≠ None) then
    let s := set_pic (pic_send_eoi 0 (y_pic s)) s in
    '(c, k) ← process_yield process_table page_directory c (y_k s);
    Some (Switched c (set_k k s))
  else Some (Returned s).

(** [keyboard_irq_handler] on the byte [sc] that port 0x60 delivers. *)
Definition keyboard_irq (sc : Z) (s : sys D P R) : option (exit (sys D P R)) :=
  '(k, ks) ← keyboard_irq_handler sc (y_kb s) (y_k s);
  Some (Returned (set_k ks (set_kb k s))).

Definition call_irq (f : irq_fn) (sc : Z) (c : cpu) (s : sys D P R) : option (exit (sys D P R)) :=
  match f with TimerIrq => timer_irq_handler c s | KeyboardIrq => keyboard_irq sc s end.

(** The end of [irq_handler]; also what remains to be done when a process that was
    preempted in the timer handler is resumed. *)
Definition irq_return (irq : Z) (s : sys D P R) : sys D P R := set_pic (pic_send_eoi irq (y_pic s)) s.

Definition irq_handler (regs sc : Z) (c : cpu) (s : sys D P R) : option (exit (sys D P R)) :=
  let irq := u8 (reg_int_no (y_mem s) regs - 32) in
  x ← (if decide (irq < 16) then
         h ← aget (y_irq s) irq;
         match h with Some f => call_irq f sc c s | None => Some (Returned s) end
       else Some (Returned s));
  match x with
  | Returned s => Some (Returned (irq_return irq s))
  | x => Some x
  end.

Definition interrupt_handler (regs sc : Z) (c : cpu) (s : sys D P R) : option (exit (sys D P R)) :=
  if decide (reg_int_no (y_mem s) regs < 32) then isr_handler regs s else irq_handler regs sc c s.

(** One turn of [idle_process_fn]: [sti; hlt] waits for an interrupt, whose handler
    runs with the frame at [regs]; when it returns, the idle process yields in the
    context [c].  A handler that switches away comes back to this point later. *)
Definition idle_turn (regs sc : Z) (ci c : cpu) (s : sys D P R) : option (exit (sys D P R)) :=
  x ← interrupt_handler regs sc ci s;
  match x with
  | Returned s => '(c, k) ← process_yield process_table page_directory c (y_k s); Some (Switched c (set_k k s))
  | x => Some x
  end.

(** ** System calls *)

Definition set_eax (regs v : Z) (s : sys D P R) : sys D P R :=
  set_k (with_k_mem (store32 (y_mem s) (regs + 44) v) (y_k s)) s.

(** [current_process ? current_process->pid : 0] *)
Definition current_pid (s : sys D P R) : option Z :=
  match k_current (y_k s) with
  | None => Some 0
  | Some i => p ← aget (k_table (y_k s)) i; Some (p_pid p)
  end.

(** [for (i = 0; i < len; i++) vga_putchar(buf[i]);] *)
Fixpoint write_chars (v : vm pmm) (buf : Z) (n : nat) (con : vga) : option vga :=
  match n with
  | O => Some con
  | S n => p ← vaddr v buf; con ← vga_putchar (load8 (v_mem v) p) con; write_chars v (buf + 1) n con
  end.

(** The bytes that a read with result [r] has stored. *)
Definition filled (r : Z) (buf : list Z) : list Z :=
  if decide (r = -1) then [] else take (Z.to_nat (u32 r)) buf.

(** The end of SYS_PIPE_READ, or the switch to another process in [process_block];
    when the process runs again it goes on with [pipe_read_resume]. *)
Definition pipe_read_exit (regs buf : Z) (c : cpu) (x : read_exit) (s : sys D P R) : option (exit (sys D P R)) :=
  match x with
  | RDone r dst ps =>
      v ← vwrite (y_vm s) buf (filled r dst);
      Some (Returned (set_eax regs (u32 r) (set_vm v (set_pipes ps s))))
  | RBlock =>
      '(c, k) ← process_block process_table page_directory c (y_k s);
      Some (Switched c (set_k k s))
  end.

Definition syscall_unknown (num regs : Z) (s : sys D P R) : option (exit (sys D P R)) :=
  s ← console [Color VGA_COLOR_LIGHT_RED; Puts "[syscall] unknown: "; Uint num; Putc 10;
               Color VGA_COLOR_LIGHT_GREY] s;
  Some (Returned (set_eax regs (u32 (-1)) s)).

(** [syscall_handler].  INT 0x80 goes through an interrupt gate, so that it runs with
    interrupts disabled. *)
Definition syscall_handler (regs : Z) (c : cpu) (s : sys D P R) : option (exit (sys D P R)) :=
  let num := reg_eax (y_mem s) regs in
  let ebx := reg_ebx (y_mem s) regs in
  let ecx := reg_ecx (y_mem s) regs in
  let edx := reg_edx (y_mem s) regs in
  let s := set_eax regs 0 s in
  if decide (num = SYS_EXIT) then
    '(c, k) ← process_exit process_table page_directory c (y_k s); Some (Switched c (set_k k s))
  else if decide (num = SYS_WRITE) then
    con ← write_chars (y_vm s) ebx (Z.to_nat ecx) (y_vga s);
    Some (Returned (set_eax regs ecx (set_vga con s)))
  else if decide (num = SYS_GETPID) then
    pid ← current_pid s; Some (Returned (set_eax regs pid s))
  else if decide (num = SYS_SLEEP) then
    match timer_sleep_ms false ebx (y_ticks s) [] with
    | Awake t _ => Some (Returned (set_ticks t s))
    | Asleep _ => None
    | Dead => Some (Halted s)
    end
  else if decide (num = SYS_YIELD) then
    '(c, k) ← process_yield process_table page_directory c (y_k s); Some (Switched c (set_k k s))
  else if decide (num = SYS_KILL) then
    '(r, k) ← process_kill ebx (y_k s); Some (Returned (set_eax regs (u32 r) (set_k k s)))
  else if decide (num = SYS_OPEN) then
    pid ← current_pid s;
    '(r, t, f) ← fd_open (vread (y_vm s) ebx NAME_FUEL) pid (y_fd s) (y_fs s);
    Some (Returned (set_eax regs (u32 r) (set_fs f (set_fd t s))))
  else if decide (num = SYS_READ) then
    pid ← current_pid s;
    '(r, buf, t, f) ← fd_read (s32 ebx) (vread (y_vm s) edx (Z.to_nat ecx)) ecx pid (y_fd s) (y_fs s);
    v ← vwrite (y_vm s) edx (filled r buf);
    Some (Returned (set_eax regs (u32 r) (set_vm v (set_fs f (set_fd t s)))))
  else if decide (num = SYS_CLOSE) then
    pid ← current_pid s;
    t ← fd_close (s32 ebx) pid (y_fd s); Some (Returned (set_fd t s))
  else if decide (num = SYS_GETTIME) then
    '(t, r) ← rtc_read rtc_fuel (y_rtc s);
    Some (Returned (set_eax regs (u32 (t_hour t * 3600 + t_minute t * 60 + t_second t)) (set_rtc r s)))
  else if decide (num = SYS_PIPE_CREATE) then
    '(r, ps) ← pipe_alloc (y_pipes s); Some (Returned (set_eax regs (u32 r) (set_pipes ps s)))
  else if decide (num = SYS_PIPE_WRITE) then
    '(r, ps, k) ← pipe_write (s32 ebx) (vread (y_vm s) edx (Z.to_nat ecx)) ecx (y_pipes s) (y_k s);
    Some (Returned (set_eax regs (u32 r) (set_k k (set_pipes ps s))))
  else if decide (num = SYS_PIPE_READ) then
    x ← pipe_read (s32 ebx) (vread (y_vm s) edx (Z.to_nat ecx)) ecx (y_pipes s) (y_k s);
    pipe_read_exit regs edx c x s
  else syscall_unknown num regs s.

(** The resumption of a SYS_PIPE_READ that had blocked. *)
Definition syscall_pipe_read_resume (regs ebx ecx edx : Z) (c : cpu) (s : sys D P R) : option (exit (sys D P R)) :=
  x ← pipe_read_resume (s32 ebx) (vread (y_vm s) edx (Z.to_nat ecx)) ecx (y_pipes s) (y_k s);
  pipe_read_exit regs edx c x s.
End system.

(** Printing changes the console only, and writes the trace. *)
Lemma console_spec {D P R : Type} ps (s : sys D P R) :
  vga_wf (y_vga s) → Forall pr_ok ps →
  ∃ v', console ps s = Some (set_vga v' s) ∧ prints (y_vga s) (trace (vga_color (y_vga s)) ps) v' ∧
    vga_color v' = foldl pr_color (vga_color (y_vga s)) ps.
Proof.
  intros Hw Hok. unfold console. destruct (print_spec ps (y_vga s) Hw Hok) as (v' & -> & Hp & Hc). eauto.
Qed.
