(* ===== verification/Irqs.v ===== *)
(** * Interrupts, from the line to the handler and back

    The dispatcher of [System] on the interrupt controllers of [Pic]: the report of a
    processor exception, a key stroke, and a timer tick with preemption. *)

From Stdlib Require Import String.
From S2P Require Import Prelude Mem CString Kmem Pmm Paging Process Pipe Keyboard Vga.
From S2P Require Import Console Ports Pic Rtc Timer Ata Fs Fd System.

Section irqs.
Context (process_table page_directory : Z).
Context {D : Type} `{!BlockDevice D} {R : Type} `{!PortIO R}.
Implicit Types (s : sys D pics R).

(** ** Exceptions *)

Definition exception_name (n : Z) : string := default "(reserved)"%string (aget exception_names n).

Lemma exception_name_ok n : pr_ok (Puts (exception_name n)).
Proof.
  assert (Forall (λ x : string, pr_ok (Puts x)) ("(reserved)"%string :: exception_names)) as H
    by (repeat constructor; vm_compute; reflexivity).
  apply Forall_cons_1 in H as [H0 H]. unfold exception_name.
  destruct (aget exception_names n) as [x|] eqn:E; simpl; [|exact H0]. unfold aget in E. case_decide; [|done].
  rewrite Forall_lookup in H. exact (H _ _ E).
Qed.

(** A processor exception (vector below 32) is reported on the console, in light
    red: the vector, its name ("(reserved)" for the vectors without one), EIP, error
    code and EFLAGS of the frame; nothing else of the kernel's state changes, and the
    machine halts. *)
Theorem exception_reported regs sc c s :
  vga_wf (y_vga s) → 0 ≤ reg_int_no (y_mem s) regs < 32 →
  ∃ v' tr, interrupt_handler process_table page_directory regs sc c s = Some (Halted (set_vga v' s)) ∧
    prints (y_vga s) tr v' ∧ Forall (λ x, x.1 = make_color VGA_COLOR_LIGHT_RED VGA_COLOR_BLACK) tr ∧
    text tr = c_chars "\n*** KERNEL EXCEPTION ***\n  Vector   : " ++ decimal (reg_int_no (y_mem s) regs) ++
      c_chars "\n  Name     : " ++ c_chars (exception_name (reg_int_no (y_mem s) regs)) ++
      c_chars "\n  EIP      : " ++ hex8 (reg_eip (y_mem s) regs) ++
      c_chars "\n  Error    : " ++ hex8 (reg_err_code (y_mem s) regs) ++
      c_chars "\n  EFLAGS   : " ++ hex8 (reg_eflags (y_mem s) regs) ++ c_chars "\n\nSystem halted.\n".
Proof.
  intros Hw Hn. unfold interrupt_handler. rewrite decide_True by lia. unfold isr_handler.
  set (n := reg_int_no (y_mem s) regs) in *.
  assert ((if decide (n < 20) then aget exception_names n else Some "(reserved)"%string) = Some (exception_name n)) as ->.
  { unfold exception_name. destruct (decide (n < 20)).
    - destruct (aget_is_Some exception_names n) as [x ->]; [simpl; lia|done].
    - unfold aget. rewrite decide_True by lia. rewrite lookup_ge_None_2 by (simpl; lia). done. }
  pose proof (exception_name_ok n) as Hname. revert Hname. generalize (exception_name n). intros name Hname.
  cbn [mbind option_bind].
  match goal with |- context [console ?l s] => set (ps := l) end.
  destruct (console_spec ps s Hw) as (v' & -> & Hp & _).
  { unfold ps. pr_oks. }
  cbn [mbind option_bind]. exists v', (trace (vga_color (y_vga s)) ps). split; [done|]. split; [done|]. split.
  - unfold ps. cbn [trace pr_color]. cbn [pr_chars fmap list_fmap app].
    rewrite app_nil_r. repeat (apply Forall_app; split); apply Forall_fmap, Forall_true; done.
  - rewrite trace_text. unfold ps. cbn [mbind list_bind pr_chars app]. rewrite ?app_nil_r.
    replace (c_chars "\n*** KERNEL EXCEPTION ***\n  Vector   : ")
      with (c_chars "\n*** KERNEL EXCEPTION ***\n" ++ c_chars "  Vector   : ") by reflexivity.
    by rewrite <-?app_assoc.
Qed.

(** ** Key strokes *)

(** A key stroke, from the interrupt line to the buffer.  The controllers deliver
    line 1 at vector 33; the dispatcher calls the registered driver on the scancode,
    which decodes it, queues the character and wakes the blocked processes; and the
    handler returns with the controllers exactly as they were before the interrupt,
    ready for the next one.  Nothing else changes. *)
Theorem keyboard_interrupt regs sc c s d :
  pics_wf d → pic_ack 1 d = Some (reg_int_no (y_mem s) regs, y_pic s) →
  aget (y_irq s) 1 = Some (Some KeyboardIrq) →
  is_u8 sc → kb_wf (y_kb s) → extended_code (y_kb s) = 0 ∨ extended_code (y_kb s) = 1 →
  length (k_table (y_k s)) = 16%nat →
  ∃ k' ks', interrupt_handler process_table page_directory regs sc c s =
      Some (Returned (set_pic d (set_k ks' (set_kb k' s)))) ∧ kb_wf k' ∧
    let '(shift, ext, oc) := decode (shift_pressed (y_kb s)) (extended_code (y_kb s)) sc in
    shift_pressed k' = shift ∧ extended_code k' = ext ∧
    match oc with
    | None => kb_queue k' = kb_queue (y_kb s) ∧ ks' = y_k s
    | Some ch => (∀ i, state_of (k_table ks') i ≠ Some PROC_BLOCKED) ∧
        kb_queue k' = if decide (length (kb_queue (y_kb s)) < 63)%nat then kb_queue (y_kb s) ++ [ch]
                      else kb_queue (y_kb s)
    end.
Proof.
  intros Hd Hack Hirq Hsc Hkb Hext Hlen.
  destruct (pic_cycle d 1 _ _ Hd ltac:(lia) Hack) as (Hno & _ & Heoi). unfold interrupt_handler.
  rewrite Hno. rewrite decide_False by lia. unfold irq_handler. rewrite Hno. change (u8 (32 + 1 - 32)) with 1.
  rewrite decide_True by lia. rewrite Hirq. cbn [mbind option_bind call_irq]. unfold keyboard_irq.
  pose proof (irq_decodes sc (y_kb s) (y_k s) Hsc Hkb Hlen Hext) as H.
  destruct (decode _ _ sc) as [[shift ext] oc]. destruct H as (k' & ks' & -> & Hw & _ & H1 & H2 & H3).
  cbn [mbind option_bind]. exists k', ks'. split; [|done]. unfold irq_return.
  change (y_pic (set_k ks' (set_kb k' s))) with (y_pic s). by rewrite Heoi.
Qed.

(** ** Timer ticks *)

(** An end of interrupt with nothing in service changes nothing. *)
Lemma eoi_idle irq d :
  c_isr (master d) = [] → c_isr (slave d) = [] → pic_send_eoi irq d = d.
Proof.
  destruct d as [[s1 b1 w1 m1 i1] [s2 b2 w2 m2 i2]]. simpl. intros -> ->. unfold pic_send_eoi.
  by destruct (decide (8 ≤ irq)).
Qed.

(** A timer tick counts, and preempts at the end of a time slice.  Every tick
    increments the counter.  At every fifth count, if a process is current, the
    controllers are first given the end of interrupt, so that ticks go on arriving in
    the next process, and the processor then runs the process that the scheduler
    chooses after the preempted one, whose stack pointer is saved; the second end of
    interrupt that the preempted process sends when it is resumed changes nothing as
    long as nothing is in service.  Otherwise the handler returns, with the
    controllers as before the interrupt. *)
Theorem timer_interrupt regs sc c s d :
  pics_wf d → pic_ack 0 d = Some (reg_int_no (y_mem s) regs, y_pic s) →
  aget (y_irq s) 0 = Some (Some TimerIrq) →
  kinv (y_k s) → esps_ok (y_k s) → 20 ≤ r_esp c < 8388608 →
  let t := u32 (y_ticks s + 1) in
  if decide (t `mod` 5 = 0 ∧ k_current (y_k s) ≠ None) then
    ∃ c' k' tbl j, interrupt_handler process_table page_directory regs sc c s =
        Some (Switched c' (set_k k' (set_pic d (set_ticks t s)))) ∧
      saved (k_table (y_k s)) (k_current (y_k s)) (r_esp c - 16) = Some tbl ∧
      sched_next tbl (k_current (y_k s)) = Some (j, k_table k') ∧
      k_current k' = Some j ∧ state_of (k_table k') j = Some PROC_RUNNING ∧ kinv k' ∧
      ∀ s', c_isr (master (y_pic s')) = [] → c_isr (slave (y_pic s')) = [] → y_pic (irq_return 0 s') = y_pic (s' : sys D pics R)
  else interrupt_handler process_table page_directory regs sc c s = Some (Returned (set_pic d (set_ticks t s))).
Proof.
  intros Hd Hack Hirq Hk He Hr t.
  destruct (pic_cycle d 0 _ _ Hd ltac:(lia) Hack) as (Hno & _ & Heoi). unfold interrupt_handler.
  rewrite Hno. rewrite (decide_False (P := 32 + 0 < 32)) by lia. unfold irq_handler. rewrite Hno. change (u8 (32 + 0 - 32)) with 0.
  rewrite (decide_True (P := 0 < 16)) by lia. rewrite Hirq. cbn [mbind option_bind call_irq]. unfold timer_irq_handler.
  change (y_ticks (set_ticks (u32 (y_ticks s + 1)) s)) with t. unfold SCHED_SLICE.
  change (k_current (y_k (set_ticks (u32 (y_ticks s + 1)) s))) with (k_current (y_k s)).
  change (y_pic (set_ticks (u32 (y_ticks s + 1)) s)) with (y_pic s). rewrite Heoi.
  destruct (decide (t `mod` 5 = 0 ∧ k_current (y_k s) ≠ None)) as [Hs|Hs].
  - change (y_k (set_pic d (set_ticks (u32 (y_ticks s + 1)) s))) with (y_k s).
    destruct (process_yield_lemma process_table page_directory c (y_k s) Hk Hr He)
      as (tbl & j & t' & k' & p & H1 & H2 & H3 & H4 & _ & _ & _ & Hp & Hst & _ & Hy & Hk').
    rewrite Hy. cbn [mbind option_bind]. eexists _, k', tbl, j. split; [reflexivity|]. rewrite H3.
    split; [done|]. split; [done|]. split; [done|]. split; [unfold state_of; rewrite Hp; simpl; by rewrite Hst|].
    split; [done|]. intros s' I1 I2. unfold irq_return. cbn [y_pic set_pic]. by apply eoi_idle.
  - cbn [mbind option_bind]. unfold irq_return.
    change (y_pic (set_ticks (u32 (y_ticks s + 1)) s)) with (y_pic s). by rewrite Heoi.
Qed.
End irqs.

(** ** Concrete states *)

(** The kernel of the examples, interrupted on [irq] with the frame at [0x20000]. *)
Definition demo_pics : pics := pic_unmask_irq 1 (pic_unmask_irq 0 (pic_init (Pics (Chip 0 0 0 0 []) (Chip 0 0 0 0 [])))).

Definition demo_time : rtc_time := RtcTime 2024 5 17 13 37 42.

Definition demo_sys (m : mem) (p : pics) : sys ide pics cmos :=
  Sys (with_k_mem m demo_kst) demo_vga demo_kb 4 (Some TimerIrq :: Some KeyboardIrq :: replicate 14 None) p
    (Cmos 0 3 2 demo_time) pipe_init fd_init demo_fs demo_init.

Definition demo_irq (irq : Z) : sys ide pics cmos :=
  demo_sys (store32 ∅ (524288 + 48) (32 + irq)) (default demo_pics (snd <$> pic_ack irq demo_pics)).

Lemma demo_pics_wf : pics_wf demo_pics.
Proof. constructor; vm_compute; first [reflexivity|split; [discriminate|reflexivity]]. Qed.

Lemma demo_kst_ok m : kinv (with_k_mem m demo_kst) ∧ esps_ok (with_k_mem m demo_kst).
Proof. apply kinv_check_sound. vm_compute. reflexivity. Qed.

Lemma keyboard_interrupt_witness :
  ∃ k' ks', interrupt_handler 131072 65536 524288 30 demo_cpu (demo_irq 1) =
      Some (Returned (set_pic demo_pics (set_k ks' (set_kb k' (demo_irq 1))))) ∧ kb_queue k' = [97].
Proof.
  destruct (keyboard_interrupt 131072 65536 524288 30 demo_cpu (demo_irq 1) demo_pics) as (k' & ks' & E & _ & H).
  - exact demo_pics_wf.
  - vm_compute. reflexivity.
  - reflexivity.
  - unfold is_u8; lia.
  - exact demo_kb_wf.
  - left. reflexivity.
  - reflexivity.
  - exists k', ks'. split; [exact E|]. destruct H as (_ & _ & _ & H). exact H.
Defined.

Lemma timer_interrupt_witness :
  ∃ c' s', interrupt_handler 131072 65536 524288 0 demo_cpu (demo_irq 0) = Some (Switched c' s') ∧
    y_ticks s' = 5 ∧ y_pic s' = demo_pics.
Proof.
  assert (pic_ack 0 demo_pics = Some (reg_int_no (y_mem (demo_irq 0)) 524288, y_pic (demo_irq 0))) as Ha
    by (vm_compute; reflexivity).
  destruct (demo_kst_ok (store32 ∅ (524288 + 48) (32 + 0))) as [Hk He].
  assert (20 ≤ r_esp demo_cpu < 8388608) as Hr by (vm_compute; split; [discriminate|reflexivity]).
  pose proof (timer_interrupt 131072 65536 524288 0 demo_cpu (demo_irq 0) demo_pics demo_pics_wf Ha eq_refl Hk He Hr) as H.
  cbv zeta in H. rewrite decide_True in H by (split; [reflexivity|discriminate]).
  destruct H as (c' & k' & tbl & j & E & _). eexists c', _. split; [exact E|]. split; reflexivity.
Defined.

Lemma exception_reported_witness :
  ∃ v', interrupt_handler 131072 65536 524288 0 demo_cpu
    (demo_sys (store32 ∅ (524288 + 48) 14) demo_pics) = Some (Halted (set_vga v' (demo_sys (store32 ∅ (524288 + 48) 14) demo_pics))).
Proof.
  destruct (exception_reported 131072 65536 524288 0 demo_cpu (demo_sys (store32 ∅ (524288 + 48) 14) demo_pics))
    as (v' & tr & E & _); [exact demo_vga_wf|vm_compute; split; [discriminate|reflexivity]|].
  exists v'. exact E.
Defined.
