(* ===== verification/Syscalls.v ===== *)
(** * System calls

    The dispatcher of [System] for a process with a well-formed address space: what
    each call returns, what it does to the caller's buffers, and what it leaves
    alone.  The register frame is on the kernel stack, below 1 MB; buffers are in user
    space, above 8 MB. *)

From Stdlib Require Import String.
From S2P Require Import Prelude Mem CString Kmem Pmm Paging Process Pipe Keyboard Vga Console.
From S2P Require Import Ports Pic Rtc Timer Ata Fs Fd Elf UserMem System.

Section syscalls.
Context (process_table page_directory : Z) (rtc_fuel : nat).
Context {D : Type} `{!BlockDevice D} {P : Type} `{!PortIO P} {R : Type} `{!PortIO R}.
Implicit Types (s : sys D P R).

Abbreviation handler := (syscall_handler process_table page_directory rtc_fuel).

(** A frame in the kernel's memory, and the caller's address space. *)
Record user_call (regs : Z) s : Prop := UserCall {
  uc_frame : 0 ≤ regs ∧ regs + 68 ≤ 1048576;
  uc_space : pd_wf (y_vm s) (v_cr3 (y_vm s))
}.

(** Storing the result leaves the caller's address space alone. *)
Lemma set_eax_user regs v s :
  user_call regs s →
  let s1 := set_eax regs v s in
  user_call regs s1 ∧
  (∀ x, is_u32 x → 8388608 ≤ x → vaddr (y_vm s1) x = vaddr (y_vm s) x ∧
     ∀ p, vaddr (y_vm s) x = Some p → load8 (v_mem (y_vm s1)) p = load8 (v_mem (y_vm s)) p).
Proof.
  intros [Hf Hwf] s1. destruct (low_store_user (y_vm s) (store32 (y_mem s) (regs + 44) v) Hwf) as [Hwf' Hx].
  { intros b Hb. apply load8_store32_ne. lia. }
  split; [by constructor|exact Hx].
Qed.

Lemma eax_range regs v s a n : user_call regs s → user_range (y_vm s) a n → user_range (y_vm (set_eax regs v s)) a n.
Proof.
  intros Hc (H1 & H2 & H3 & H4). destruct (set_eax_user regs v s Hc) as [_ Hx]. split_and!; [done..|].
  intros x Hr. destruct (Hx x) as [-> _]; [unfold is_u32; lia|lia|]. by apply H4.
Qed.

Lemma eax_vread regs v s a n :
  user_call regs s → 8388608 ≤ a → a + Z.of_nat n ≤ 4294967296 →
  vread (y_vm (set_eax regs v s)) a n = vread (y_vm s) a n.
Proof.
  intros Hc Ha Hn. destruct (set_eax_user regs v s Hc) as [_ Hx]. apply vread_ext. intros x Hr.
  apply Hx; [unfold is_u32; lia|lia].
Qed.

Lemma eax_get regs v s : is_u32 v → reg_eax (y_mem (set_eax regs v s)) regs = v.
Proof. intros Hv. by apply load32_store32_eq. Qed.

(** ** Console output *)

Lemma write_chars_spec (v : vm pmm) n : ∀ a con,
  (∀ x, a ≤ x < a + Z.of_nat n → is_Some (vaddr v x)) →
  write_chars v a n con = put_all (vread v a n) con.
Proof.
  induction n as [|n IH]; intros a con Ha; [done|]. cbn [write_chars vread]. destruct (Ha a) as [p Hp]; [lia|].
  rewrite Hp. cbn [mbind option_bind put_all]. destruct (vga_putchar _ con) as [con'|]; [|done].
  cbn [mbind option_bind]. apply IH. intros x Hx. apply Ha. lia.
Qed.

(** SYS_WRITE prints exactly the bytes of the caller's buffer, in the current
    attribute, and returns their number; of the kernel's state only the console and
    the result register of the frame change. *)
Theorem sys_write_prints regs c s :
  user_call regs s → reg_eax (y_mem s) regs = SYS_WRITE →
  user_range (y_vm s) (reg_ebx (y_mem s) regs) (reg_ecx (y_mem s) regs) → vga_wf (y_vga s) →
  let n := reg_ecx (y_mem s) regs in
  ∃ con, handler regs c s = Some (Returned (set_eax regs n (set_vga con (set_eax regs 0 s)))) ∧
    prints (y_vga s) ((λ ch, (vga_color (y_vga s), ch)) <$> vread (y_vm s) (reg_ebx (y_mem s) regs) (Z.to_nat n)) con ∧
    reg_eax (y_mem (set_eax regs n (set_vga con (set_eax regs 0 s)))) regs = n.
Proof.
  intros Hc Hnum Hr Hw n. unfold syscall_handler. rewrite Hnum.
  rewrite decide_False, decide_True by done. fold n. pose proof (eax_range regs 0 s _ _ Hc Hr) as (A1 & A2 & A3 & A4).
  fold n in A2, A3, A4. rewrite write_chars_spec by (intros x Hx; apply A4; lia).
  rewrite eax_vread by (done || lia).
  destruct (put_all_prints (vread (y_vm s) (reg_ebx (y_mem s) regs) (Z.to_nat n)) (y_vga s) Hw) as (con & E & Hp & _).
  change (y_vga (set_eax regs 0 s)) with (y_vga s). rewrite E. cbn [mbind option_bind].
  exists con. split; [done|]. split; [done|]. apply eax_get. unfold is_u32. lia.
Qed.

(** ** Files *)

Lemma opened_bytes (d : fs D) f c pos : fs_wf d → opened (bd_sectors (f_dev d)) f c pos → Forall is_u8 c.
Proof.
  intros [Hb _] Ho. rewrite <-(op_content _ _ _ _ Ho). unfold content.
  apply Forall_take, concat_bytes, Forall_take, Forall_drop, bd_sector_ok, Hb.
Qed.

(** The part of SYS_READ after the descriptor has been read. *)
Definition user_same s s' (a n : Z) : Prop :=
  ∀ x, is_u32 x → 8388608 ≤ x → vaddr (y_vm s') x = vaddr (y_vm s) x ∧
    ∀ p, vaddr (y_vm s) x = Some p → ¬ a ≤ x < a + n → load8 (y_mem s') p = load8 (y_mem s) p.

(** Delivering bytes into the caller's buffer, and the result. *)
Lemma deliver regs v s bs a r :
  user_call regs s → user_range (y_vm s) a (Z.of_nat (length bs)) → Forall is_u8 bs → is_u32 r →
  vwrite (y_vm s) a bs = Some v →
  let s' := set_eax regs r (set_vm v s) in
  user_call regs s' ∧ reg_eax (y_mem s') regs = r ∧ vread (y_vm s') a (length bs) = bs ∧
  user_same s s' a (Z.of_nat (length bs)).
Proof.
  intros Hc Hr Hb Hu E s'. pose proof Hc as [Hf Hwf].
  destruct (vwrite_spec bs (y_vm s) a Hwf Hr) as (v' & E' & Hwf' & _ & _ & _ & Hv & Hl & _).
  rewrite E in E'. injection E' as <-.
  assert (user_call regs (set_vm v s)) as Hc' by (constructor; [done|exact Hwf']).
  destruct (set_eax_user regs r (set_vm v s) Hc') as [Hc2 Hx]. split; [done|]. split; [by apply eax_get|].
  destruct Hr as (A1 & A2 & A3 & A4). split.
  - rewrite (eax_vread regs r (set_vm v s)) by (done || lia). change (y_vm (set_vm v s)) with v.
    by apply (vread_vwrite (y_vm s)).
  - intros x Hx1 Hx2. destruct (Hx x Hx1 Hx2) as [E1 E2]. change (y_vm (set_vm v s)) with v in E1, E2.
    rewrite (Hv x Hx1 Hx2) in E1, E2. split; [done|]. intros p Hp Hn. change (y_mem s') with (v_mem (y_vm s')).
    rewrite E2 by done. rewrite (Hl x p Hx1 Hx2 Hp). by rewrite decide_False.
Qed.

Lemma u32_s32 z : u32 (s32 z) = u32 z.
Proof. unfold s32. case_decide; word_lia. Qed.

Lemma s32_bounds z : - 2147483648 ≤ s32 z < 2147483648.
Proof. unfold s32. case_decide; word_lia. Qed.

Lemma filled_app n bs rest :
  0 ≤ n < 4294967295 → Z.of_nat (length bs) = n → filled (s32 n) (bs ++ rest) = bs.
Proof.
  intros Hn Hl. unfold filled. assert (u32 (s32 n) = n) as E by (rewrite u32_s32; apply u32_small; unfold is_u32; lia).
  rewrite decide_False by (intros E1; rewrite E1 in E; vm_compute in E; lia).
  rewrite E. rewrite take_app_le by lia. apply take_ge. lia.
Qed.

Lemma user_range_sub (v : vm pmm) a n k : user_range v a n → 0 ≤ k ≤ n → user_range v a k.
Proof. intros (H1 & H2 & H3 & H4) Hk. split_and!; [lia..|]. intros x Hx. apply H4. lia. Qed.

Lemma range_vread (v : vm pmm) a n : user_range v a n → Z.of_nat (length (vread v a (Z.to_nat n))) = n.
Proof.
  intros (H1 & H2 & H3 & H4). destruct (vread_nth v (Z.to_nat n) a) as [-> _]; [intros x Hx; apply H4; lia|]. lia.
Qed.

(** Clearing the result before a call does not matter to the caller's memory. *)
Lemma user_same_eax regs s s' a n v s1 :
  user_call regs s → y_vm s1 = y_vm (set_eax regs v s) → user_same s1 s' a n → user_same s s' a n.
Proof.
  intros Hc E1 H x Hx Ux. destruct (H x Hx Ux) as [F1 F2]. destruct (set_eax_user regs v s Hc) as [_ Hs].
  destruct (Hs x Hx Ux) as [G1 G2]. rewrite E1 in F1, F2. change (y_mem s1) with (v_mem (y_vm s1)) in F2. rewrite E1 in F2.
  split; [by rewrite F1, G1|]. intros p Hp Hn. rewrite F2; [by apply G2|by rewrite G1|done].
Qed.

(** C25: SYS_READ delivers the file.  For a descriptor that the caller has open at
    position [pos] of a file, and a buffer in its address space, the call stores the
    next bytes of the file, as many as asked for and left, at the buffer's addresses,
    returns their number, and advances the position by it; no other byte of the
    caller's memory changes, and the other descriptors and the console stay as they
    are. *)
Theorem sys_read_delivers regs c s pid content pos :
  user_call regs s → reg_eax (y_mem s) regs = SYS_READ →
  user_range (y_vm s) (reg_edx (y_mem s) regs) (reg_ecx (y_mem s) regs) →
  current_pid s = Some pid → fd_wf (y_fd s) (y_fs s) →
  fd_at (y_fd s) (y_fs s) (s32 (reg_ebx (y_mem s) regs)) pid content pos →
  let n := Z.min (reg_ecx (y_mem s) regs) (Z.of_nat (length content) - pos) in
  ∃ s', handler regs c s = Some (Returned s') ∧ user_call regs s' ∧ reg_eax (y_mem s') regs = n ∧
    vread (y_vm s') (reg_edx (y_mem s) regs) (Z.to_nat n) = take (Z.to_nat n) (drop (Z.to_nat pos) content) ∧
    user_same s s' (reg_edx (y_mem s) regs) n ∧
    fd_wf (y_fd s') (y_fs s') ∧ fd_at (y_fd s') (y_fs s') (s32 (reg_ebx (y_mem s) regs)) pid content (pos + n) ∧
    (∀ j, j ≠ s32 (reg_ebx (y_mem s) regs) → aget (y_fd s') j = aget (y_fd s) j) ∧ y_vga s' = y_vga s.
Proof.
  intros Hc Hnum Hr Hpid Hfd Hat n. unfold syscall_handler. rewrite Hnum.
  rewrite !decide_False by done. rewrite decide_True by done.
  change (current_pid (set_eax regs 0 s)) with (current_pid s). rewrite Hpid. cbn [mbind option_bind].
  set (a := reg_edx (y_mem s) regs) in *. set (len := reg_ecx (y_mem s) regs) in *.
  set (fd := s32 (reg_ebx (y_mem s) regs)) in *. set (s1 := set_eax regs 0 s).
  assert (user_call regs s1) as Hc1 by (by apply set_eax_user).
  assert (user_range (y_vm s1) a len) as Hr1 by (by apply eax_range).
  pose proof Hr as (A1 & A2 & A3 & _). pose proof Hat as (e & _ & _ & _ & Ho). pose proof Ho as [_ _ Hpos Hlen _ _].
  change (y_fd s1) with (y_fd s). change (y_fs s1) with (y_fs s).
  destruct (fd_read_lemma (y_fd s) (y_fs s) fd pid content pos (vread (y_vm s1) a (Z.to_nat len)) len Hfd)
    as (t & f & -> & Hfd' & _ & Hat' & Hoth).
  { apply s32_bounds. } { done. } { unfold is_u32; lia. } { rewrite range_vread by done. lia. }
  fold n. fold n in Hat'. cbn [mbind option_bind].
  set (bs := take (Z.to_nat n) (drop (Z.to_nat pos) content)).
  assert (Z.of_nat (length bs) = n) as Hbs by (unfold bs; rewrite length_take, length_drop; lia).
  rewrite filled_app by lia.
  assert (Forall is_u8 bs) as Hby by (apply Forall_take, Forall_drop; eapply opened_bytes; [apply Hfd|exact Ho]).
  assert (user_range (y_vm s1) a (Z.of_nat (length bs))) as Hrb by (apply (user_range_sub _ _ len); [done|lia]).
  destruct (vwrite_spec bs (y_vm s1) a (uc_space _ _ Hc1) Hrb) as (v & E & _). rewrite E. cbn [mbind option_bind].
  rewrite u32_s32, u32_small by (unfold is_u32; lia).
  destruct (deliver regs v (set_fs f (set_fd t s1)) bs a n) as (D1 & D2 & D3 & D4);
    [constructor; apply Hc1|exact Hrb|done|unfold is_u32; lia|exact E|].
  eexists. split; [reflexivity|]. split; [done|]. split; [done|]. split.
  { replace (Z.to_nat n) with (length bs) by lia. exact D3. }
  split; [|split_and!; done]. rewrite Hbs in D4. by apply (user_same_eax regs s _ _ _ 0 (set_fs f (set_fd t s1))).
Qed.

(** System calls do not check the pointers that they are given.  SYS_READ of one
    byte into any kernel address (one that is mapped to itself, for the supervisor
    only) makes the kernel overwrite its own memory there with a byte of the caller's
    choice, the next one of the file, and reports success. *)
Theorem sys_read_overwrites_kernel regs c s pid content pos a b :
  reg_eax (y_mem s) regs = SYS_READ → reg_ecx (y_mem s) regs = 1 → reg_edx (y_mem s) regs = a →
  is_u32 a → a < regs + 44 ∨ regs + 48 ≤ a → vaddr (y_vm (set_eax regs 0 s)) a = Some a →
  current_pid s = Some pid → fd_wf (y_fd s) (y_fs s) →
  fd_at (y_fd s) (y_fs s) (s32 (reg_ebx (y_mem s) regs)) pid content pos → aget content pos = Some b →
  ∃ s', handler regs c s = Some (Returned s') ∧ load8 (y_mem s') a = b ∧ reg_eax (y_mem s') regs = 1.
Proof.
  intros Hnum Hecx Hedx Ha Hne Hv Hpid Hfd Hat Hb. unfold syscall_handler. rewrite Hnum, Hecx, Hedx.
  rewrite !decide_False by done. rewrite decide_True by done.
  change (current_pid (set_eax regs 0 s)) with (current_pid s). rewrite Hpid. cbn [mbind option_bind].
  set (fd := s32 (reg_ebx (y_mem s) regs)) in *. set (s1 := set_eax regs 0 s) in *.
  change (y_fd s1) with (y_fd s). change (y_fs s1) with (y_fs s).
  pose proof Hat as (e & _ & _ & _ & Ho). pose proof Ho as [_ _ Hpos Hlen _ _].
  pose proof (aget_Some_lt _ _ _ Hb) as Hp. change (Z.to_nat 1) with 1%nat. cbn [vread]. rewrite Hv.
  destruct (fd_read_lemma (y_fd s) (y_fs s) fd pid content pos [load8 (v_mem (y_vm s1)) a] 1 Hfd)
    as (t & f & -> & _); [apply s32_bounds|done|unfold is_u32; lia|simpl; lia|].
  replace (Z.min 1 (Z.of_nat (length content) - pos)) with 1 by lia. cbn [mbind option_bind].
  assert (take (Z.to_nat 1) (drop (Z.to_nat pos) content) = [b]) as ->.
  { unfold aget in Hb. rewrite decide_True in Hb by lia. rewrite (drop_S _ b) by done. done. }
  rewrite filled_app by (simpl; lia). cbn [vwrite]. change (y_vm (set_fs f (set_fd t s1))) with (y_vm s1).
  rewrite Hv. cbn [mbind option_bind]. eexists. split; [reflexivity|].
  assert (is_u8 b) as Hb8.
  { pose proof (opened_bytes _ _ _ _ (proj1 Hfd) Ho) as Hall. rewrite Forall_lookup in Hall. unfold aget in Hb.
    rewrite decide_True in Hb by lia. by apply (Hall (Z.to_nat pos)). }
  split; [|by apply eax_get]. unfold set_eax at 1, y_mem, k_mem.
  cbn [set_k y_k with_k_mem with_vm k_vm vm_with_mem v_mem]. rewrite load8_store32_ne by lia.
  cbn [set_vm set_k y_k with_vm k_vm y_mem k_mem vm_with_mem v_mem]. rewrite load8_store8_eq. by apply u8_small.
Qed.
(** ** Pipes *)

Lemma sys_pipe_write_lemma regs c s q :
  user_call regs s → reg_eax (y_mem s) regs = SYS_PIPE_WRITE →
  user_range (y_vm s) (reg_edx (y_mem s) regs) (reg_ecx (y_mem s) regs) →
  pipes_wf (y_pipes s) → length (k_table (y_k s)) = 16%nat →
  pipe_queue (y_pipes s) (s32 (reg_ebx (y_mem s) regs)) = Some q →
  let r := Z.min (reg_ecx (y_mem s) regs) (256 - Z.of_nat (length q)) in
  ∃ s', handler regs c s = Some (Returned s') ∧ reg_eax (y_mem s') regs = r ∧ pipes_wf (y_pipes s') ∧
    pipe_queue (y_pipes s') (s32 (reg_ebx (y_mem s) regs)) =
      Some (q ++ take (Z.to_nat r) (vread (y_vm s) (reg_edx (y_mem s) regs) (Z.to_nat (reg_ecx (y_mem s) regs)))) ∧
    (0 < r → ∀ i, state_of (k_table (y_k s')) i ≠ Some PROC_BLOCKED).
Proof.
  intros Hc Hnum Hr Hw Hl Hq r. unfold syscall_handler. rewrite Hnum. rewrite !decide_False by done.
  rewrite decide_True by done. set (s1 := set_eax regs 0 s). pose proof Hr as (A1 & A2 & A3 & _).
  set (len := reg_ecx (y_mem s) regs) in *. set (a := reg_edx (y_mem s) regs) in *.
  change (y_pipes s1) with (y_pipes s). rewrite (eax_vread regs 0 s) by (done || lia).
  destruct (pipe_write_lemma (y_pipes s) (y_k s1) (s32 (reg_ebx (y_mem s) regs)) (vread (y_vm s) a (Z.to_nat len)) len)
    as (r' & ps & k & E & Hw' & _ & _ & Hm); [done|apply s32_bounds|done|rewrite range_vread by done; lia|].
  rewrite E. cbn [mbind option_bind]. rewrite Hq in Hm. destruct Hm as (-> & Hq' & Hb & _). fold r in Hq', Hb.
  assert (0 ≤ r < 4294967296) as Hrr.
  { pose proof (bad_id_spec (y_pipes s) (s32 (reg_ebx (y_mem s) regs)) Hw ltac:(apply s32_bounds)) as Hid.
    destruct (bad_id _ _); [congruence|]. destruct Hid as (_ & p & _ & Hp & _ & Hq2). rewrite Hq in Hq2. injection Hq2 as ->.
    pose proof (queue_length p Hp). pose proof (pw_count p Hp). lia. }
  eexists. split; [reflexivity|]. fold r. split; [rewrite eax_get by apply u32_range; by apply u32_small|]. done.
Qed.

Lemma sys_pipe_read_lemma regs c s q :
  user_call regs s → reg_eax (y_mem s) regs = SYS_PIPE_READ →
  user_range (y_vm s) (reg_edx (y_mem s) regs) (reg_ecx (y_mem s) regs) →
  pipes_wf (y_pipes s) → pipe_queue (y_pipes s) (s32 (reg_ebx (y_mem s) regs)) = Some q → q ≠ [] → Forall is_u8 q →
  let n := Z.min (reg_ecx (y_mem s) regs) (Z.of_nat (length q)) in
  ∃ s', handler regs c s = Some (Returned s') ∧ reg_eax (y_mem s') regs = n ∧ pipes_wf (y_pipes s') ∧
    vread (y_vm s') (reg_edx (y_mem s) regs) (Z.to_nat n) = take (Z.to_nat n) q ∧
    user_same s s' (reg_edx (y_mem s) regs) n ∧
    pipe_queue (y_pipes s') (s32 (reg_ebx (y_mem s) regs)) = Some (drop (Z.to_nat n) q).
Proof.
  intros Hc Hnum Hr Hw Hq Hne Hby n. unfold syscall_handler. rewrite Hnum. rewrite !decide_False by done.
  rewrite decide_True by done. set (s1 := set_eax regs 0 s).
  assert (user_call regs s1) as Hc1 by (by apply set_eax_user).
  set (len := reg_ecx (y_mem s) regs) in *. set (a := reg_edx (y_mem s) regs) in *.
  assert (user_range (y_vm s1) a len) as Hr1 by (by apply eax_range). pose proof Hr as (A1 & A2 & A3 & _).
  change (y_pipes s1) with (y_pipes s).
  pose proof (pipe_read_lemma (y_pipes s) (y_k s1) (s32 (reg_ebx (y_mem s) regs)) (vread (y_vm s1) a (Z.to_nat len)) len Hw
    ltac:(apply s32_bounds) ltac:(rewrite range_vread by done; lia)) as H.
  rewrite Hq in H. destruct q as [|x q]; [done|]. destruct H as (ps & -> & Hw' & Hq' & _). fold n in Hq'. fold n.
  cbn [mbind option_bind pipe_read_exit].
  set (bs := take (Z.to_nat n) (x :: q)) in *. assert (Z.of_nat (length bs) = n) as Hbs by (unfold bs; rewrite length_take; lia).
  assert (0 ≤ n < 4294967295) as Hn by lia.
  assert (filled n (bs ++ drop (Z.to_nat n) (vread (y_vm s1) a (Z.to_nat len))) = bs) as ->.
  { unfold filled. rewrite decide_False by lia. rewrite u32_small by (unfold is_u32; lia). rewrite take_app_le by lia.
    apply take_ge. lia. }
  assert (user_range (y_vm s1) a (Z.of_nat (length bs))) as Hrb by (apply (user_range_sub _ _ len); [done|lia]).
  destruct (vwrite_spec bs (y_vm s1) a (uc_space _ _ Hc1) Hrb) as (v & E & _). rewrite E. cbn [mbind option_bind].
  rewrite u32_small by (unfold is_u32; lia).
  destruct (deliver regs v (set_pipes ps s1) bs a n) as (D1 & D2 & D3 & D4);
    [constructor; apply Hc1|exact Hrb|by apply Forall_take|unfold is_u32; lia|exact E|].
  eexists. split; [reflexivity|]. split; [done|]. split; [done|]. split.
  { replace (Z.to_nat n) with (length bs) by lia. exact D3. }
  split; [|done]. rewrite Hbs in D4. by apply (user_same_eax regs s _ _ _ 0 (set_pipes ps s1)).
Qed.

(** C17: a message through a pipe, from the memory of one process to the memory of
    another.  SYS_PIPE_WRITE takes as many bytes of the writer's buffer as fit behind
    those waiting, returns their number and leaves no process blocked; whatever else
    has happened in between, SYS_PIPE_READ by a process in its own address space then
    stores the oldest waiting bytes in its buffer, in order, returns their number,
    and changes no other byte of the reader's memory. *)
Theorem sys_pipe_message regs c s q regs2 c2 :
  user_call regs s → reg_eax (y_mem s) regs = SYS_PIPE_WRITE →
  user_range (y_vm s) (reg_edx (y_mem s) regs) (reg_ecx (y_mem s) regs) →
  pipes_wf (y_pipes s) → length (k_table (y_k s)) = 16%nat →
  Forall is_u8 (vread (y_vm s) (reg_edx (y_mem s) regs) (Z.to_nat (reg_ecx (y_mem s) regs))) →
  pipe_queue (y_pipes s) (s32 (reg_ebx (y_mem s) regs)) = Some q → Forall is_u8 q →
  let r := Z.min (reg_ecx (y_mem s) regs) (256 - Z.of_nat (length q)) in
  let waiting := q ++ take (Z.to_nat r) (vread (y_vm s) (reg_edx (y_mem s) regs) (Z.to_nat (reg_ecx (y_mem s) regs))) in
  ∃ s', handler regs c s = Some (Returned s') ∧ reg_eax (y_mem s') regs = r ∧
    (0 < r → ∀ i, state_of (k_table (y_k s')) i ≠ Some PROC_BLOCKED) ∧
    ∀ s2, y_pipes s2 = y_pipes s' → user_call regs2 s2 → reg_eax (y_mem s2) regs2 = SYS_PIPE_READ →
      s32 (reg_ebx (y_mem s2) regs2) = s32 (reg_ebx (y_mem s) regs) →
      user_range (y_vm s2) (reg_edx (y_mem s2) regs2) (reg_ecx (y_mem s2) regs2) → waiting ≠ [] →
      let n := Z.min (reg_ecx (y_mem s2) regs2) (Z.of_nat (length waiting)) in
      ∃ s3, handler regs2 c2 s2 = Some (Returned s3) ∧ reg_eax (y_mem s3) regs2 = n ∧
        vread (y_vm s3) (reg_edx (y_mem s2) regs2) (Z.to_nat n) = take (Z.to_nat n) waiting ∧
        user_same s2 s3 (reg_edx (y_mem s2) regs2) n ∧
        pipe_queue (y_pipes s3) (s32 (reg_ebx (y_mem s) regs)) = Some (drop (Z.to_nat n) waiting).
Proof.
  intros Hc Hnum Hr Hw Hl Hbo Hq Hby r waiting.
  destruct (sys_pipe_write_lemma regs c s q Hc Hnum Hr Hw Hl Hq) as (s' & E & Ea & Hw' & Hq' & Hb).
  exists s'. split; [done|]. split; [done|]. split; [done|].
  intros s2 Hp Hc2 Hnum2 Hid Hr2 Hne n. fold r in Hq'. fold waiting in Hq'. rewrite <-Hp, <-Hid in Hq'. rewrite <-Hp in Hw'.
  destruct (sys_pipe_read_lemma regs2 c2 s2 waiting Hc2 Hnum2 Hr2 Hw' Hq' Hne) as (s3 & E3 & Ea3 & _ & Hv3 & Hs3 & Hq3).
  { apply Forall_app_2; [done|]. by apply Forall_take. }
  rewrite Hid in Hq3. exists s3. done.
Qed.

(** ** Sleeping *)

(** SYS_SLEEP never returns.  The gate of INT 0x80 is an interrupt gate, so the
    handler runs with interrupts disabled; for every duration of at least a
    millisecond (and below the overflow of [timer_sleep_ms]) it executes [hlt] with
    interrupts disabled, and no timer tick can end the sleep. *)
Theorem sys_sleep_never_returns regs c s :
  reg_eax (y_mem s) regs = SYS_SLEEP → 1 ≤ reg_ebx (y_mem s) regs → reg_ebx (y_mem s) regs * 100 + 999 < 4294967296 →
  0 ≤ y_ticks s → y_ticks s + sleep_ticks (reg_ebx (y_mem s) regs) < 4294967296 →
  handler regs c s = Some (Halted (set_eax regs 0 s)).
Proof.
  intros Hnum H1 H2 H3 H4. unfold syscall_handler. rewrite Hnum. rewrite !decide_False by done. rewrite decide_True by done.
  unfold timer_sleep_ms. change (y_ticks (set_eax regs 0 s)) with (y_ticks s). rewrite sleep_target_exact by lia.
  rewrite decide_True; [done|]. unfold sleep_ticks in *. zdm.
Qed.

(** ** The other calls *)

(** A number that is no system call is reported on the console, returns
    0xFFFFFFFF, and changes nothing else. *)
Theorem sys_unknown_rejected regs c s :
  vga_wf (y_vga s) → 12 < reg_eax (y_mem s) regs < 4294967296 →
  ∃ con tr, handler regs c s = Some (Returned (set_eax regs 4294967295 (set_vga con (set_eax regs 0 s)))) ∧
    prints (y_vga s) tr con ∧ text tr = c_chars "[syscall] unknown: " ++ decimal (reg_eax (y_mem s) regs) ++ [10].
Proof.
  intros Hw Hn. unfold syscall_handler. set (n := reg_eax (y_mem s) regs) in *.
  rewrite !decide_False by (unfold SYS_EXIT, SYS_WRITE, SYS_GETPID, SYS_SLEEP, SYS_YIELD, SYS_KILL, SYS_OPEN, SYS_READ,
    SYS_CLOSE, SYS_GETTIME, SYS_PIPE_CREATE, SYS_PIPE_WRITE, SYS_PIPE_READ; lia).
  unfold syscall_unknown, console. match goal with |- context [print ?l _] => set (ps := l) end.
  destruct (print_spec ps (y_vga s) Hw) as (con & E & Hp & _); [unfold ps; pr_oks|].
  change (y_vga (set_eax regs 0 s)) with (y_vga s). rewrite E. cbn [mbind option_bind].
  exists con, (trace (vga_color (y_vga s)) ps). split; [reflexivity|]. split; [done|].
  rewrite trace_text. unfold ps. cbn [mbind list_bind pr_chars app]. by rewrite ?app_nil_r.
Qed.
End syscalls.

(** ** Concrete calls *)

(** An address space with one page at 16 MB, loaded in CR3. *)
Definition demo_space : option (Z * vm pmm) :=
  '(pd, v) ← paging_create_pd 65536 demo_vm; paging_alloc_user_pages pd 16777216 1 (paging_switch pd v).
Definition demo_user_vm : vm pmm := default demo_vm (snd <$> demo_space).

Lemma demo_space_done : fst <$> demo_space = Some 0.
Proof. vm_compute. reflexivity. Qed.

Lemma demo_space_cr3 : v_cr3 demo_user_vm = 1048576.
Proof. vm_compute. reflexivity. Qed.

Lemma one_page_space (v v2 : vm pmm) :
  pd_wf v 1048576 → (∀ i, 2 ≤ i < 1024 → ent (v_mem v) 1048576 i = 0) →
  paging_alloc_user_pages 1048576 16777216 1 v = Some (0, v2) → v_cr3 v2 = 1048576 →
  pd_wf v2 (v_cr3 v2) ∧ user_range v2 16777216 4096.
Proof.
  intros Hwf Hz E0 H3.
  destruct (alloc_pages_loop_spec 1048576 16777216 1 ltac:(lia) 0 v) as (r & v2' & E2 & Hwf2 & _ & _ & Hc);
    [lia|lia|exact Hwf| |].
  { intros k F _ Ho. inversion Ho as [| |? T ? ? HT]; subst. inversion HT as [|? ? Hi HTf Ep|]; subst.
    rewrite Hz in Ep by done. destruct HTf. lia. }
  unfold paging_alloc_user_pages in E0. change (Z.to_nat 1) with 1%nat in E0. rewrite E2 in E0. injection E0 as -> ->.
  rewrite H3. split; [done|].
  destruct Hc as [[_ Hc]|[[=] _]]. destruct (Hc 0 ltac:(lia)) as [F HF]. split_and!; [lia|lia|lia|].
  intros x Hx. unfold vaddr. rewrite H3, u32_small by (unfold is_u32; lia). exists (F + x `mod` 4096).
  apply (user_walk v2 1048576 x); [done|unfold is_u32; lia|lia|]. exists F. split; [|done].
  replace (NFr (pd_index x) (pt_index x)) with (NFr (pd_index (page_at 16777216 0)) (pt_index (page_at 16777216 0))); [done|].
  rewrite !pd_index_eq, !pt_index_eq. unfold page_at. f_equal; zdm.
Qed.

Lemma demo_user_vm_eq v2 : demo_space = Some (0, v2) → demo_user_vm = v2.
Proof. intros E. unfold demo_user_vm. by rewrite E. Qed.

Lemma demo_space_alloc v v2 :
  paging_create_pd 65536 demo_vm = Some (1048576, v) → demo_space = Some (0, v2) →
  paging_alloc_user_pages 1048576 16777216 1 (paging_switch 1048576 v) = Some (0, v2).
Proof. unfold demo_space. intros ->. done. Qed.

Lemma demo_user_space : pd_wf demo_user_vm (v_cr3 demo_user_vm) ∧ user_range demo_user_vm 16777216 4096.
Proof.
  destruct demo_created as (v & E & Hwf & _ & Hz).
  destruct (proj1 (fmap_Some _ _ _) demo_space_done) as ([r v2] & Es & Er). simpl in Er. subst r.
  pose proof demo_space_cr3 as H3. rewrite (demo_user_vm_eq v2 Es) in H3 |- *.
  apply (one_page_space (paging_switch 1048576 v)); [destruct Hwf; by constructor|exact Hz| |exact H3].
  by apply demo_space_alloc.
Qed.

(** A process in that space that executes INT 0x80 with the given registers; the
    frame is at 0x80000. *)
Definition demo_frame (eax ebx ecx edx : Z) (m : mem) : mem :=
  store32 (store32 (store32 (store32 m 524320 ebx) 524324 edx) 524328 ecx) 524332 eax.

Definition demo_call (eax ebx ecx edx : Z) (t : list fd_entry) (f : fs ide) (ps : list pipe_t) : sys ide pics cmos :=
  Sys (Kst (vm_with_mem demo_user_vm (demo_frame eax ebx ecx edx (v_mem demo_user_vm))) demo_table (Some 2) 4 0)
    demo_vga demo_kb 4 [] (Pics (Chip 0 32 4 0 []) (Chip 0 40 2 0 [])) (Cmos 0 3 2 (RtcTime 2024 5 17 13 37 42))
    ps t f demo_init.

Lemma demo_call_regs eax ebx ecx edx t f ps :
  is_u32 eax → is_u32 ebx → is_u32 ecx → is_u32 edx → let m := y_mem (demo_call eax ebx ecx edx t f ps) in
  reg_eax m 524288 = eax ∧ reg_ebx m 524288 = ebx ∧ reg_ecx m 524288 = ecx ∧ reg_edx m 524288 = edx.
Proof.
  intros H1 H2 H3 H4 m. unfold m, demo_call, y_mem, k_mem. cbn [y_k k_vm v_mem vm_with_mem].
  generalize (v_mem demo_user_vm). intros m0. unfold demo_frame, reg_eax, reg_ebx, reg_ecx, reg_edx. simpl Z.add.
  split_and!; rewrite ?load32_store32_ne by lia; by apply load32_store32_eq.
Qed.

Lemma demo_call_ok eax ebx ecx edx t f ps :
  user_call 524288 (demo_call eax ebx ecx edx t f ps) ∧
  user_range (y_vm (demo_call eax ebx ecx edx t f ps)) 16777216 4096.
Proof.
  destruct demo_user_space as [Hwf Hr].
  destruct (low_store_user demo_user_vm (demo_frame eax ebx ecx edx (v_mem demo_user_vm)) Hwf) as [Hwf' Hx].
  { intros b Hb. unfold demo_frame. by rewrite !load8_store32_ne by lia. }
  split; [constructor; [lia|exact Hwf']|]. destruct Hr as (H1 & H2 & H3 & H4). split_and!; [done..|].
  intros x Hr. change (y_vm _) with (vm_with_mem demo_user_vm (demo_frame eax ebx ecx edx (v_mem demo_user_vm))).
  destruct (Hx x) as [-> _]; [unfold is_u32; lia|lia|by apply H4].
Qed.

(** A descriptor of process 3 on the file of the examples. *)
Lemma demo_open : ∃ (t : list fd_entry) (f : fs ide), fd_wf t f ∧ fd_at t f 0 3 demo_data 0.
Proof.
  destruct demo_written as (s & Hwf & Hm).
  destruct (fd_open_lemma fd_init s (demo_name ++ [0]) demo_name 3 (fd_wf_init s Hwf)) as (r & t & f & _ & Hw & _ & Hc);
    [apply cstr_app_nul; by repeat constructor|].
  rewrite Hm, lookup_singleton_eq in Hc. destruct Hc as [(Hr & _ & Hlow & (c & [= <-] & Hat) & _)|(_ & _ & [[=]|Hno])].
  - exists t, f. split; [done|]. destruct (decide (r = 0)) as [->|Hne]; [done|].
    assert (fd_free fd_init 0 = false) as X by (apply Hlow; lia). vm_compute in X. discriminate X.
  - assert (fd_free fd_init 0 = false) as X by (apply Hno; lia). vm_compute in X. discriminate X.
Qed.

Lemma sys_write_prints_witness :
  ∃ con, syscall_handler 131072 65536 4 524288 demo_cpu (demo_call 1 16777216 2 0 fd_init demo_fs pipe_init) =
    Some (Returned (set_eax 524288 2 (set_vga con (set_eax 524288 0 (demo_call 1 16777216 2 0 fd_init demo_fs pipe_init))))).
Proof.
  destruct (demo_call_regs 1 16777216 2 0 fd_init demo_fs pipe_init) as (E1 & E2 & E3 & E4); [unfold is_u32; lia..|].
  destruct (demo_call_ok 1 16777216 2 0 fd_init demo_fs pipe_init) as [Hc Hr].
  destruct (sys_write_prints 131072 65536 4 524288 demo_cpu (demo_call 1 16777216 2 0 fd_init demo_fs pipe_init) Hc E1) as (con & E & _).
  - rewrite E2, E3. apply (user_range_sub _ _ 4096); [exact Hr|lia].
  - exact demo_vga_wf.
  - rewrite E3 in E. exists con. exact E.
Defined.

Lemma sys_read_delivers_witness :
  ∃ t f s', syscall_handler 131072 65536 4 524288 demo_cpu (demo_call 7 0 5 16777300 t f pipe_init) = Some (Returned s') ∧
    vread (y_vm s') 16777300 5 = [7; 7; 7; 7; 7].
Proof.
  destruct demo_open as (t & f & Hw & Hat). exists t, f. destruct (demo_call_ok 7 0 5 16777300 t f pipe_init) as [Hc Hr].
  destruct (demo_call_regs 7 0 5 16777300 t f pipe_init) as (E1 & E2 & E3 & E4); [unfold is_u32; lia..|].
  destruct (sys_read_delivers 131072 65536 4 524288 demo_cpu (demo_call 7 0 5 16777300 t f pipe_init) 3 demo_data 0 Hc E1) as (s' & E & _ & _ & Hv & _).
  - rewrite E3, E4. destruct Hr as (H1 & H2 & H3 & H4). split_and!; [lia..|]. intros x Hx. apply H4. lia.
  - reflexivity.
  - exact Hw.
  - rewrite E2. exact Hat.
  - rewrite E3, E4 in Hv. exists s'. split; [exact E|exact Hv].
Defined.

Lemma sys_unknown_rejected_witness :
  ∃ con, syscall_handler 131072 65536 4 524288 demo_cpu (demo_call 99 0 0 0 fd_init demo_fs pipe_init) =
    Some (Returned (set_eax 524288 4294967295 (set_vga con (set_eax 524288 0 (demo_call 99 0 0 0 fd_init demo_fs pipe_init))))).
Proof.
  destruct (demo_call_regs 99 0 0 0 fd_init demo_fs pipe_init) as (E1 & _); [unfold is_u32; lia..|].
  destruct (sys_unknown_rejected 131072 65536 4 524288 demo_cpu (demo_call 99 0 0 0 fd_init demo_fs pipe_init))
    as (con & tr & E & _); [exact demo_vga_wf|rewrite E1; lia|]. exists con. exact E.
Defined.

Lemma sys_sleep_never_returns_witness :
  syscall_handler 131072 65536 4 524288 demo_cpu (demo_call 3 10 0 0 fd_init demo_fs pipe_init) =
    Some (Halted (set_eax 524288 0 (demo_call 3 10 0 0 fd_init demo_fs pipe_init))).
Proof.
  destruct (demo_call_regs 3 10 0 0 fd_init demo_fs pipe_init) as (E1 & E2 & _); [unfold is_u32; lia..|].
  apply (sys_sleep_never_returns 131072 65536 4 524288 demo_cpu); [exact E1|rewrite E2; lia..| |rewrite E2].
  - vm_compute. discriminate.
  - vm_compute. reflexivity.
Defined.

Lemma sys_read_overwrites_kernel_witness :
  ∃ t f s', syscall_handler 131072 65536 4 524288 demo_cpu (demo_call 7 0 1 4096 t f pipe_init) = Some (Returned s') ∧
    load8 (y_mem s') 4096 = 7.
Proof.
  destruct demo_open as (t & f & Hw & Hat). exists t, f.
  destruct (demo_call_regs 7 0 1 4096 t f pipe_init) as (E1 & E2 & E3 & E4); [unfold is_u32; lia..|].
  destruct (sys_read_overwrites_kernel 131072 65536 4 524288 demo_cpu (demo_call 7 0 1 4096 t f pipe_init) 3 demo_data 0
    4096 7 E1 E3 E4) as (s' & E & Hb & _).
  - unfold is_u32; lia.
  - lia.
  - vm_compute. reflexivity.
  - reflexivity.
  - exact Hw.
  - rewrite E2. exact Hat.
  - reflexivity.
  - exists s'. split; [exact E|exact Hb].
Defined.

Lemma sys_pipe_message_witness :
  ∃ s', syscall_handler 131072 65536 4 524288 demo_cpu (demo_call 11 0 3 16777216 fd_init demo_fs demo_pipes) = Some (Returned s') ∧
    reg_eax (y_mem s') 524288 = 3.
Proof.
  destruct (demo_call_ok 11 0 3 16777216 fd_init demo_fs demo_pipes) as [Hc Hr].
  destruct (demo_call_regs 11 0 3 16777216 fd_init demo_fs demo_pipes) as (E1 & E2 & E3 & E4); [unfold is_u32; lia..|].
  destruct (sys_pipe_message 131072 65536 4 524288 demo_cpu (demo_call 11 0 3 16777216 fd_init demo_fs demo_pipes) []
    524288 demo_cpu Hc E1) as (s' & E & Ea & _).
  - rewrite E3, E4. apply (user_range_sub _ _ 4096); [exact Hr|lia].
  - exact demo_pipes_wf.
  - reflexivity.
  - rewrite E3, E4. vm_compute. repeat constructor; discriminate.
  - rewrite E2. reflexivity.
  - constructor.
  - rewrite E3 in Ea. exists s'. split; [exact E|exact Ea].
Defined.
