(* ===== verification/Safety.v ===== *)
(** * System calls keep the kernel in order

    The invariant [sys_ok] of the whole kernel joins those of its components: the
    process table, address spaces and stacks of [Coroutines], console, keyboard buffer,
    handler table, pipes, descriptors over the file system, clock.  Every system call
    that a process makes with arguments of its own address space ends, and ends in a
    state with the invariant; and it changes nothing that belongs to another process. *)

From Stdlib Require Import String.
From S2P Require Import Prelude Mem CString Kmem Pmm Paging Process Pipe Keyboard Vga Console.
From S2P Require Import Ports Pic Rtc Timer Ata Fs Fd Elf UserMem Spaces Coroutines System Irqs Syscalls.

Section safety.
Context (process_table page_directory page_tables : Z) (rtc_fuel : nat).
Context {D : Type} `{!BlockDevice D}.
Implicit Types (s : sys D pics cmos) (G : Z → cpu).

Abbreviation placed := (placed process_table page_directory page_tables).
Abbreviation procs_ok := (procs_ok process_table page_directory page_tables).
Abbreviation in_kstack := (in_kstack process_table).
Abbreviation on_kstack := (on_kstack process_table).
Abbreviation proc_addr := (proc_addr process_table).
Abbreviation kstack_top := (kstack_top process_table).
Abbreviation handler := (syscall_handler process_table page_directory rtc_fuel).

Record sys_ok G s : Prop := SysOk {
  so_procs : procs_ok G (y_k s);
  so_vga : vga_wf (y_vga s);
  so_kb : kb_wf (y_kb s);
  so_ext : extended_code (y_kb s) = 0 ∨ extended_code (y_kb s) = 1;
  so_irq : length (y_irq s) = 16%nat;
  so_pipes : pipes_wf (y_pipes s);
  so_fd : fd_wf (y_fd s) (y_fs s);
  so_rtc : (cm_busy (y_rtc s) < rtc_fuel)%nat
}.

(** The caller [i] has gone from [s] to [s']: the invariant holds again, the other
    processes have their memory, below 1 MB only the stack of [i] has changed, and CR3
    and the page tables it points to are the same. *)
Record reached (i : Z) G s s' : Prop := Reached {
  rc_ok : sys_ok G s';
  rc_cur : k_current (y_k s') = Some i;
  rc_keeps j : j ≠ i → keeps j (y_k s) (y_k s');
  rc_low b : b < 1048576 → ¬ in_kstack i b → load8 (y_mem s') b = load8 (y_mem s) b;
  rc_cr3 : v_cr3 (y_vm s') = v_cr3 (y_vm s);
  rc_own : own_tables (y_k s) (y_k s')
}.

Lemma reached_refl i G s : sys_ok G s → k_current (y_k s) = Some i → reached i G s s.
Proof. intros H1 H2. constructor; [done|done|intros j _; apply keeps_refl|done..]. Qed.

Lemma reached_trans i G s1 s2 s3 : reached i G s1 s2 → reached i G s2 s3 → reached i G s1 s3.
Proof.
  intros [_ _ K1 L1 R1 T1] [O C K2 L2 R2 T2]. constructor; [done|done| | |by rewrite R2|by apply (own_tables_trans _ (y_k s2))].
  - intros j Hj. by apply (keeps_trans j _ (y_k s2)); [apply K1|apply K2].
  - intros b Hb Hn. by rewrite L2, L1.
Qed.

(** A change outside the process state. *)
Lemma reached_other i G s s' s'' :
  reached i G s s' → y_k s'' = y_k s' → sys_ok G s'' → reached i G s s''.
Proof. intros [O C K L R T] E Ho. constructor; unfold y_mem, y_vm in *; rewrite ?E; done. Qed.

Lemma sys_ok_set_k G s k : sys_ok G s → procs_ok G k → sys_ok G (set_k k s).
Proof. intros [] ?. by constructor. Qed.

(** ** Steps of the caller *)

(** The frame of the call at [regs], with the handler's own frames below it. *)
Record in_frame (i regs : Z) (c : cpu) : Prop := InFrame {
  fr_ctx : on_kstack i c;
  fr_below : r_esp c + 4 ≤ regs;
  fr_top : regs + 68 ≤ kstack_top i
}.

Section caller.
Context (Hpl : placed) (i regs : Z) (c : cpu) (Hf : in_frame i regs c).

Lemma frame_eax b : regs + 44 ≤ b < regs + 48 → in_kstack i b.
Proof using Hf. destruct Hf as [[_ H1] H2 H3]. unfold Coroutines.in_kstack. lia. Qed.

Lemma reached_eax G s s' v : reached i G s s' → reached i G s (set_eax regs v s').
Proof using Hpl Hf.
  intros H. apply (reached_trans i G s s'); [done|]. destruct H as [O C _ _ _ _].
  destruct (procs_own_stack process_table page_directory page_tables G (y_k s') i (store32 (y_mem s') (regs + 44) v)
    Hpl (so_procs _ _ O) C) as (Hok & Hk & Ht).
  { intros b Hb. apply load8_store32_ne. destruct (decide (regs + 44 ≤ b < regs + 48)) as [Hr|]; [|lia].
    by destruct Hb; apply frame_eax. }
  constructor; [by apply sys_ok_set_k|done|by intros j _| |done|exact Ht].
  intros b _ Hb. apply load8_store32_ne. destruct (decide (regs + 44 ≤ b < regs + 48)) as [Hr|]; [|lia].
  by destruct Hb; apply frame_eax.
Qed.

Lemma reached_procs G s s' k :
  reached i G s s' → procs_ok G k → same_procs (y_k s') k → reached i G s (set_k k s').
Proof using Hpl.
  intros [O C K L R T] Hk [S1 S2 S4 S3].
  constructor; [by apply sys_ok_set_k|by rewrite <-C| | |by rewrite <-R|].
  - intros j Hj. apply (keeps_trans j _ (y_k s')); [by apply K|apply S3].
  - intros b Hb Hn. unfold y_mem in *. cbn [y_k set_k]. rewrite S2. by apply L.
  - apply (own_tables_trans _ (y_k s')); [done|done|].
    apply (own_tables_high process_table page_directory page_tables G (y_k s') i); [done|apply O|done|]. cbn [y_k set_k]. by rewrite S2.
Qed.

(** Filling a buffer of the caller. *)
Lemma reached_fill G s s' s'' pd a n r buf :
  reached i G s s' → y_k s'' = y_k s' → sys_ok G s'' → space_of (y_k s') i pd → user_range (y_vm s') a n →
  Z.of_nat (length buf) = n →
  ∃ v, vwrite (y_vm s'') a (filled r buf) = Some v ∧ reached i G s (set_vm v s'').
Proof using Hpl.
  intros H E Ho Hsp Hr Hl. assert (y_vm s'' = k_vm (y_k s')) as -> by (unfold y_vm; by rewrite E).
  assert (Z.of_nat (length (filled r buf)) ≤ n) as Hlen.
  { unfold filled. case_decide; [simpl; destruct Hr; lia|]. rewrite length_take. lia. }
  destruct (procs_vwrite process_table page_directory page_tables G i pd (filled r buf) (y_k s') a Hpl)
    as (v & Ev & Hok & Hk & Hlow & H3 & Ht); [apply (so_procs _ _ (rc_ok _ _ _ _ H))|apply (rc_cur _ _ _ _ H)|done|by apply (user_range_sub _ _ n); [|lia]|].
  exists v. split; [done|]. pose proof H as [O C K L R T].
  constructor; unfold set_vm; cbn [y_k set_k]; rewrite ?E.
  - by apply sys_ok_set_k.
  - done.
  - intros j Hj. apply (keeps_trans j _ (y_k s')); [by apply K|by apply Hk].
  - intros b Hb Hn. change (load8 (v_mem v) b = load8 (y_mem s) b). rewrite Hlow by done. by apply L.
  - change (v_cr3 v = v_cr3 (y_vm s)). rewrite H3. exact R.
  - by apply (own_tables_trans _ (y_k s')).
Qed.

(** A call that gives up the processor: the processor goes on with the context recorded
    for the process chosen, and that of the caller is recorded. *)
Record switched G s (c' : cpu) s' : Prop := Switch {
  sc_ok : sys_ok (record_ctx i (resume_ctx c (y_mem s)) G) s';
  sc_next : ∃ j, k_current (y_k s') = Some j ∧ c' = record_ctx i (resume_ctx c (y_mem s)) G j;
  sc_keeps j : j ≠ i → keeps j (y_k s) (y_k s');
  sc_low b : b < 1048576 → ¬ in_kstack i b → load8 (y_mem s') b = load8 (y_mem s) b;
  sc_own : own_tables (y_k s) (y_k s')
}.

(** What a call may lead to. *)
Definition outcome G s (x : exit (sys D pics cmos)) : Prop :=
  match x with
  | Returned s' | Halted s' => reached i G s s'
  | Switched c' s' => switched G s c' s'
  end.

Lemma eax_resume v s : resume_ctx c (y_mem (set_eax regs v s)) = resume_ctx c (y_mem s).
Proof using Hf.
  unfold resume_ctx. f_equal. apply load32_ext. intros b Hb. apply load8_store32_ne. destruct Hf. lia.
Qed.

Lemma sys_ok_yield G G' s k : sys_ok G s → procs_ok G' k → sys_ok G' (set_k k s).
Proof using. intros [] ?. by constructor. Qed.

Lemma switched_by G s s' c' k' :
  reached i G s s' → resume_ctx c (y_mem s') = resume_ctx c (y_mem s) →
  switch_to process_table page_directory page_tables i c G (y_k s') c' k' → switched G s c' (set_k k' s').
Proof using Hpl.
  intros [O C K L R T] E [S1 S2 S3 S4]. change (k_mem (y_k s')) with (y_mem s') in S1, S2. rewrite E in S1, S2.
  constructor; [by eapply sys_ok_yield|exact S1| | |].
  - intros j Hj. apply (keeps_trans j _ (y_k s')); [by apply K|apply S4].
  - intros b Hb Hn. change (load8 (k_mem k') b = load8 (y_mem s) b). rewrite S3 by done. by apply L.
  - apply (own_tables_trans _ (y_k s')); [done|done|].
    apply (own_tables_high process_table page_directory page_tables G (y_k s') i); [done|apply O|done|]. intros b Hb. apply S3. intros Hin.
    apply (kstack_low process_table page_directory page_tables i b Hpl) in Hin; [lia|].
    by apply (kinv_cur (y_k s')); [apply O|].
Qed.

(** ** The calls *)

Section calls.
Context (G : Z → cpu) (s s0 : sys D pics cmos).
Context (H0 : reached i G s s0) (Hres : resume_ctx c (y_mem s0) = resume_ctx c (y_mem s)).

Let Hok : sys_ok G s0 := rc_ok _ _ _ _ H0.
Let Hpre : procs_pre process_table page_directory page_tables G (y_k s0) := pr_pre _ _ _ _ _ (so_procs _ _ Hok).
Let Hcur : k_current (y_k s0) = Some i := rc_cur _ _ _ _ H0.

Lemma call_exit :
  ∃ x, ('(c, k) ← process_exit process_table page_directory c (y_k s0); Some (Switched c (set_k k s0))) = Some x ∧ outcome G s x.
Proof using Hpl Hf H0 Hres.
  destruct (process_exit_ok process_table page_directory page_tables G (y_k s0) i c Hpl Hpre Hcur (fr_ctx _ _ _ Hf))
    as (c' & k' & -> & Hs & _).
  eexists. split; [reflexivity|]. by apply switched_by.
Qed.

Lemma call_yield :
  ∃ x, ('(c, k) ← process_yield process_table page_directory c (y_k s0); Some (Switched c (set_k k s0))) = Some x ∧ outcome G s x.
Proof using Hpl Hf H0 Hres.
  destruct (process_yield_ok process_table page_directory page_tables G (y_k s0) i c Hpl Hpre Hcur (fr_ctx _ _ _ Hf))
    as (c' & k' & -> & Hs & _).
  eexists. split; [reflexivity|]. by apply switched_by.
Qed.

Lemma call_block :
  ∃ x, ('(c, k) ← process_block process_table page_directory c (y_k s0); Some (Switched c (set_k k s0))) = Some x ∧ outcome G s x.
Proof using Hpl Hf H0 Hres.
  destruct (process_block_ok process_table page_directory page_tables G (y_k s0) i c Hpl Hpre Hcur (fr_ctx _ _ _ Hf))
    as (c' & k' & -> & Hs & _).
  eexists. split; [reflexivity|]. by apply switched_by.
Qed.

Lemma call_kill pid :
  pid ≠ i + 1 →
  ∃ x, ('(r, k) ← process_kill pid (y_k s0); Some (Returned (set_eax regs (u32 r) (set_k k s0)))) = Some x ∧ outcome G s x.
Proof using Hpl Hf H0.
  intros Hpid. destruct (process_kill_ok process_table page_directory page_tables G (y_k s0) i pid (so_procs _ _ Hok) Hcur Hpid)
    as (r & k & -> & _ & Hk & Hsm & _).
  eexists. split; [reflexivity|]. apply reached_eax. by apply reached_procs.
Qed.

Lemma call_write a n :
  user_range (y_vm s0) a n →
  ∃ x, (con ← write_chars (y_vm s0) a (Z.to_nat n) (y_vga s0); Some (Returned (set_eax regs n (set_vga con s0)))) = Some x ∧
    outcome G s x.
Proof using Hpl Hf H0.
  intros (A1 & A2 & A3 & A4). rewrite write_chars_spec by (intros x Hx; apply A4; lia).
  destruct (put_all_prints (vread (y_vm s0) a (Z.to_nat n)) (y_vga s0) (so_vga _ _ Hok)) as (con & -> & Hp & _).
  eexists. split; [reflexivity|]. apply reached_eax. apply (reached_other i G s s0); [done|done|].
  destruct Hok. constructor; try done. apply Hp.
Qed.

Lemma caller_pid : ∃ p, aget (k_table (y_k s0)) i = Some p ∧ current_pid s0 = Some (p_pid p).
Proof using H0.
  destruct (kinv_slot_used (y_k s0) i) as (p & Hp & _); [apply Hpre|by apply (ki_cur _ (pr_kinv _ _ _ _ _ Hpre))|].
  exists p. split; [done|]. unfold current_pid. rewrite Hcur, Hp. done.
Qed.

Lemma call_getpid : ∃ x, (pid ← current_pid s0; Some (Returned (set_eax regs pid s0))) = Some x ∧ outcome G s x.
Proof using Hpl Hf H0.
  destruct caller_pid as (p & _ & ->). eexists. split; [reflexivity|]. by apply reached_eax.
Qed.

Lemma call_sleep ms :
  ∃ x, match timer_sleep_ms false ms (y_ticks s0) [] with
       | Awake t _ => Some (Returned (set_ticks t s0))
       | Asleep _ => None
       | Dead => Some (Halted s0)
       end = Some x ∧ outcome G s x.
Proof using H0.
  unfold timer_sleep_ms. case_decide; eexists; (split; [reflexivity|]); [done|].
  apply (reached_other i G s s0); [done|done|]. destruct Hok. by constructor.
Qed.

Lemma call_open name nm :
  is_cstr name nm →
  ∃ x, (pid ← current_pid s0; '(r, t, f) ← fd_open name pid (y_fd s0) (y_fs s0);
        Some (Returned (set_eax regs (u32 r) (set_fs f (set_fd t s0))))) = Some x ∧ outcome G s x.
Proof using Hpl Hf H0.
  intros Hn. destruct caller_pid as (p & _ & ->). cbn [mbind option_bind].
  destruct (fd_open_lemma (y_fd s0) (y_fs s0) name nm (p_pid p) (so_fd _ _ Hok) Hn) as (r & t & f & -> & Hfd & _).
  eexists. split; [reflexivity|]. apply reached_eax. apply (reached_other i G s s0); [done|done|].
  destruct Hok. by constructor.
Qed.

Lemma call_read fd a n pd :
  space_of (y_k s0) i pd → user_range (y_vm s0) a n → is_u32 n →
  ∃ x, (pid ← current_pid s0;
        '(r, buf, t, f) ← fd_read (s32 fd) (vread (y_vm s0) a (Z.to_nat n)) n pid (y_fd s0) (y_fs s0);
        v ← vwrite (y_vm s0) a (filled r buf);
        Some (Returned (set_eax regs (u32 r) (set_vm v (set_fs f (set_fd t s0)))))) = Some x ∧ outcome G s x.
Proof using Hpl Hf H0.
  intros Hsp Hr Hn. destruct caller_pid as (p & _ & ->). cbn [mbind option_bind]. pose proof (range_vread _ _ _ Hr) as Hl.
  destruct (fd_total (y_fd s0) (y_fs s0) (s32 fd) (p_pid p) (vread (y_vm s0) a (Z.to_nat n)) n)
    as [(r & buf & t & f & -> & Hfd & Hb) _]; [apply Hok|apply s32_bounds|done|lia|]. cbn [mbind option_bind].
  destruct (reached_fill G s s0 (set_fs f (set_fd t s0)) pd a n r buf) as (v & E & Hv);
    [done|done|destruct Hok; by constructor|done|done|lia|].
  change (y_vm (set_fs f (set_fd t s0))) with (y_vm s0) in E. rewrite E. eexists. split; [reflexivity|].
  by apply reached_eax.
Qed.

Lemma call_close fd :
  ∃ x, (pid ← current_pid s0; t ← fd_close (s32 fd) pid (y_fd s0); Some (Returned (set_fd t s0))) = Some x ∧ outcome G s x.
Proof using H0.
  destruct caller_pid as (p & _ & ->). cbn [mbind option_bind].
  destruct (fd_total (y_fd s0) (y_fs s0) (s32 fd) (p_pid p) [] 0) as [_ (t & -> & Hfd)];
    [apply Hok|apply s32_bounds|unfold is_u32; lia|simpl; lia|].
  eexists. split; [reflexivity|]. apply (reached_other i G s s0); [done|done|]. destruct Hok. by constructor.
Qed.

Lemma call_gettime :
  ∃ x, ('(t, r) ← rtc_read rtc_fuel (y_rtc s0);
        Some (Returned (set_eax regs (u32 (t_hour t * 3600 + t_minute t * 60 + t_second t)) (set_rtc r s0)))) = Some x ∧
    outcome G s x.
Proof using Hpl Hf H0.
  pose proof (so_rtc _ _ Hok) as Hb. destruct (rtc_read_regs rtc_fuel (y_rtc s0) Hb) as (d & -> & Hd).
  eexists. split; [reflexivity|]. apply reached_eax. apply (reached_other i G s s0); [done|done|].
  destruct Hok. constructor; try done. cbn [y_rtc set_rtc]. lia.
Qed.

Lemma reached_pipes ps : pipes_wf ps → reached i G s (set_pipes ps s0).
Proof using H0. intros Hp. apply (reached_other i G s s0); [done|done|]. destruct Hok. by constructor. Qed.

Lemma call_pipe_create :
  ∃ x, ('(r, ps) ← pipe_alloc (y_pipes s0); Some (Returned (set_eax regs (u32 r) (set_pipes ps s0)))) = Some x ∧ outcome G s x.
Proof using Hpl Hf H0.
  destruct (pipe_alloc_close pmm (y_pipes s0) (y_k s0) (so_pipes _ _ Hok)) as [(r & ps & -> & Hp & _) _];
    [apply (ki_len _ (pr_kinv _ _ _ _ _ Hpre))|].
  eexists. split; [reflexivity|]. by apply reached_eax, reached_pipes.
Qed.

Lemma call_pipe_write id a n :
  user_range (y_vm s0) a n →
  ∃ x, ('(r, ps, k) ← pipe_write (s32 id) (vread (y_vm s0) a (Z.to_nat n)) n (y_pipes s0) (y_k s0);
        Some (Returned (set_eax regs (u32 r) (set_k k (set_pipes ps s0))))) = Some x ∧ outcome G s x.
Proof using Hpl Hf H0.
  intros Hr. pose proof (range_vread _ _ _ Hr) as Hl. destruct Hr as (_ & Hn & _).
  destruct (pipe_write_lemma (y_pipes s0) (y_k s0) (s32 id) (vread (y_vm s0) a (Z.to_nat n)) n)
    as (r & ps & k & E & Hp & _); [apply Hok|apply s32_bounds|apply (ki_len _ (pr_kinv _ _ _ _ _ Hpre))|lia|].
  rewrite E. eexists. split; [reflexivity|]. apply reached_eax. pose proof (reached_pipes ps Hp) as Hrp.
  apply pipe_write_woken in E as [->|E]; [exact Hrp|].
  destruct (wake_all_ok process_table page_directory page_tables G (y_k s0) (so_procs _ _ Hok)) as (k' & E' & Hk & Hsm & _).
  rewrite E in E'. injection E' as <-. by apply reached_procs.
Qed.

(** The read of a pipe, at first or after a wait. *)
Lemma call_pipe_exit a n pd x :
  space_of (y_k s0) i pd → user_range (y_vm s0) a n →
  match x with
  | RDone r dst ps => pipes_wf ps ∧ Z.of_nat (length dst) = n
  | RBlock => k_current (y_k s0) ≠ None
  end →
  ∃ y, pipe_read_exit process_table page_directory regs a c x s0 = Some y ∧ outcome G s y.
Proof using Hpl Hf H0 Hres.
  intros Hsp Hr. destruct x as [r dst ps|]; cbn [pipe_read_exit]; [|by intros _; apply call_block]. intros [Hp Hl].
  destruct (reached_fill G s s0 (set_pipes ps s0) pd a n r dst) as (v & E & Hv);
    [done|done|destruct Hok; by constructor|done|done|done|].
  change (y_vm (set_pipes ps s0)) with (y_vm s0) in E. rewrite E. eexists. split; [reflexivity|]. by apply reached_eax.
Qed.

Lemma call_pipe_read id a n pd :
  space_of (y_k s0) i pd → user_range (y_vm s0) a n →
  ∃ y, (x ← pipe_read (s32 id) (vread (y_vm s0) a (Z.to_nat n)) n (y_pipes s0) (y_k s0);
        pipe_read_exit process_table page_directory regs a c x s0) = Some y ∧ outcome G s y.
Proof using Hpl Hf H0 Hres.
  intros Hsp Hr. pose proof (range_vread _ _ _ Hr) as Hl. pose proof Hr as (_ & Hn & _).
  destruct (pipe_read_total (y_pipes s0) (y_k s0) (s32 id) (vread (y_vm s0) a (Z.to_nat n)) n)
    as (x & -> & Hx); [apply Hok|apply s32_bounds|lia|]. cbn [mbind option_bind].
  apply (call_pipe_exit a n pd); [done|done|]. destruct x; [|done]. destruct Hx as [? ->]. done.
Qed.

Lemma call_pipe_resume ebx a n pd :
  space_of (y_k s0) i pd → user_range (y_vm s0) a n → 0 ≤ s32 ebx < 8 →
  ∃ y, syscall_pipe_read_resume process_table page_directory regs ebx n a c s0 = Some y ∧ outcome G s y.
Proof using Hpl Hf H0 Hres.
  intros Hsp Hr Hid. pose proof (range_vread _ _ _ Hr) as Hl. pose proof Hr as (_ & Hn & _). unfold syscall_pipe_read_resume.
  destruct (pipe_read_resume_total (y_pipes s0) (y_k s0) (s32 ebx) (vread (y_vm s0) a (Z.to_nat n)) n)
    as (x & -> & Hx); [apply Hok|done|lia|]. cbn [mbind option_bind].
  apply (call_pipe_exit a n pd); [done|done|]. destruct x; [|done]. destruct Hx as [? ->]. done.
Qed.

Lemma call_unknown num : is_u32 num → ∃ x, syscall_unknown num regs s0 = Some x ∧ outcome G s x.
Proof using Hpl Hf H0.
  intros Hn. unfold syscall_unknown. match goal with |- context [console ?l _] => set (ps := l) end.
  destruct (console_spec ps s0 (so_vga _ _ Hok)) as (v & -> & Hp & _); [unfold ps; pr_oks|].
  eexists. split; [reflexivity|]. apply reached_eax. apply (reached_other i G s s0); [done|done|].
  destruct Hok. constructor; try done. apply Hp.
Qed.
End calls.

(** ** Interrupts *)

Lemma timer_safe G s s0 :
  reached i G s s0 → resume_ctx c (y_mem s0) = resume_ctx c (y_mem s) →
  ∃ x, timer_irq_handler process_table page_directory c s0 = Some x ∧ outcome G s x.
Proof using Hpl Hf.
  intros H0 Hres. assert (sys_ok G (set_ticks (u32 (y_ticks s0 + 1)) s0)) as Ht by (destruct H0 as [[] _ _ _ _ _]; by constructor).
  unfold timer_irq_handler. cbv zeta. destruct (decide _).
  - apply call_yield; [|done]. apply (reached_other i G s s0); [done|done|]. destruct Ht. by constructor.
  - eexists. split; [reflexivity|]. by apply (reached_other i G s s0).
Qed.

Lemma keyboard_safe G s sc :
  is_u8 sc → sys_ok G s → k_current (y_k s) = Some i → ∃ s', keyboard_irq sc s = Some (Returned s') ∧ reached i G s s'.
Proof using Hpl.
  intros Hsc Hok Hc. unfold keyboard_irq.
  pose proof (irq_decodes sc (y_kb s) (y_k s) Hsc (so_kb _ _ Hok) (ki_len _ (pr_kinv _ _ _ _ _ (pr_pre _ _ _ _ _ (so_procs _ _ Hok)))) (so_ext _ _ Hok)) as H.
  pose proof (decode_ext (shift_pressed (y_kb s)) (extended_code (y_kb s)) sc) as Hx.
  destruct (decode _ _ sc) as [[shift ext] oc]. destruct H as (k' & ks' & E & Hw & _ & _ & He & _). rewrite E.
  cbn [mbind option_bind]. eexists. split; [reflexivity|]. simpl in Hx. rewrite <-He in Hx.
  assert (reached i G s (set_kb k' s)) as Hr.
  { apply (reached_other i G s s); [by apply reached_refl|done|]. destruct Hok. by constructor. }
  apply keyboard_irq_woken in E as [->|E]; [exact Hr|].
  destruct (wake_all_ok process_table page_directory page_tables G (y_k s) (so_procs _ _ Hok)) as (k2 & E' & Hk & Hsm & _).
  rewrite E in E'. injection E' as <-. by apply reached_procs.
Qed.

Lemma irq_safe G s sc :
  is_u8 sc → sys_ok G s → k_current (y_k s) = Some i →
  ∃ x, irq_handler process_table page_directory regs sc c s = Some x ∧ outcome G s x.
Proof using Hpl Hf.
  intros Hsc Hok Hc. pose proof (reached_refl i G s Hok Hc) as H0. unfold irq_handler. set (irq := u8 _).
  assert (∀ s', reached i G s s' → reached i G s (irq_return irq s')) as Heoi.
  { intros s' Hr. apply (reached_other i G s s'); [done|done|]. destruct Hr as [[] _ _ _ _ _]. by constructor. }
  destruct (decide (irq < 16)); cbn [mbind option_bind]; [|eexists; split; [reflexivity|by apply Heoi]].
  destruct (aget_total (y_irq s) 16 irq (so_irq _ _ Hok)) as [h ->]; [pose proof (u8_range (reg_int_no (y_mem s) regs - 32)); unfold irq, is_u8 in *; lia|].
  cbn [mbind option_bind]. destruct h as [[|]|]; cbn [call_irq]; cbn [mbind option_bind].
  - destruct (timer_safe G s s H0 eq_refl) as (x & -> & Hx). cbn [mbind option_bind].
    destruct x; eexists; (split; [reflexivity|]); [by apply Heoi|done|done].
  - destruct (keyboard_safe G s sc Hsc Hok Hc) as (s' & -> & Hx). eexists. split; [reflexivity|]. by apply Heoi.
  - eexists. split; [reflexivity|]. by apply Heoi.
Qed.

Lemma interrupt_safe G s sc :
  is_u8 sc → 0 ≤ reg_int_no (y_mem s) regs → sys_ok G s → k_current (y_k s) = Some i →
  ∃ x, interrupt_handler process_table page_directory regs sc c s = Some x ∧ outcome G s x.
Proof using Hpl Hf.
  intros Hsc Hno Hok Hc. destruct (decide (reg_int_no (y_mem s) regs < 32)) as [Hn|Hn].
  - destruct (exception_reported process_table page_directory regs sc c s (so_vga _ _ Hok)) as (v & tr & -> & Hp & _).
    { done. }
    eexists. split; [reflexivity|]. apply (reached_other i G s s); [by apply reached_refl|done|].
    destruct Hok. constructor; try done. apply Hp.
  - unfold interrupt_handler. rewrite decide_False by done. by apply irq_safe.
Qed.

(** ** System calls *)

(** What the theorems on system calls require of a call, and [syscall_handler] does not
    check: buffers lie in pages of the caller above 8 MB, a name to open is there too and
    ends within 4097 bytes, and a process does not kill itself.  With a buffer in the
    kernel's memory SYS_READ overwrites it ([sys_read_overwrites_kernel]), and killing
    oneself leaves the processor in a released address space
    ([sys_kill_self_dangling]). *)
Definition args_ok s : Prop :=
  let num := reg_eax (y_mem s) regs in let ebx := reg_ebx (y_mem s) regs in
  let ecx := reg_ecx (y_mem s) regs in let edx := reg_edx (y_mem s) regs in
  is_u32 num ∧ is_u32 ecx ∧
  (num = SYS_WRITE → user_range (y_vm s) ebx ecx) ∧
  (num = SYS_KILL → ebx ≠ i + 1) ∧
  (num = SYS_OPEN → 8388608 ≤ ebx ∧ ebx + Z.of_nat NAME_FUEL ≤ 4294967296 ∧ ∃ nm, is_cstr (vread (y_vm s) ebx NAME_FUEL) nm) ∧
  (num = SYS_READ ∨ num = SYS_PIPE_WRITE ∨ num = SYS_PIPE_READ → user_range (y_vm s) edx ecx).

Lemma frame_call G s pd : sys_ok G s → k_current (y_k s) = Some i → space_of (y_k s) i pd → user_call regs s.
Proof using Hpl Hf.
  intros Hok Hc Hsp. destruct Hok as [Hp _ _ _ _ _ _ _]. pose proof (pr_pre _ _ _ _ _ Hp) as Hpre.
  pose proof (kinv_cur _ i (pr_kinv _ _ _ _ _ Hpre) Hc) as Hi. constructor.
  - destruct Hf as [[_ H1] H2 H3], Hpl as [_ _ Ht _ _]. unfold Process.kstack_top, PROCESS_KSTACK_SIZE, Process.proc_addr in *. lia.
  - unfold y_vm. rewrite (cr3_space page_directory (y_k s) i pd (pr_cr3 _ _ _ _ _ Hp) Hc Hsp). by apply (sp_wf _ _ _ (pr_spaces _ _ _ _ _ Hpre) i).
Qed.
End caller.

(** Only SYS_SLEEP can halt the machine. *)
Lemma syscall_halts_sleep regs c s s' : handler regs c s = Some (Halted s') → reg_eax (y_mem s) regs = SYS_SLEEP.
Proof.
  unfold syscall_handler. set (s0 := set_eax regs 0 s). clearbody s0.
  case_decide; [by intros ([? ?] & _ & ?)%bind_Some|]. case_decide; [by intros (? & _ & ?)%bind_Some|].
  case_decide; [by intros (? & _ & ?)%bind_Some|]. case_decide; [done|].
  case_decide; [by intros ([? ?] & _ & ?)%bind_Some|]. case_decide; [by intros ([? ?] & _ & ?)%bind_Some|].
  case_decide; [by intros (? & _ & ([[? ?] ?] & _ & ?)%bind_Some)%bind_Some|].
  case_decide; [by intros (? & _ & ([[[? ?] ?] ?] & _ & (? & _ & ?)%bind_Some)%bind_Some)%bind_Some|].
  case_decide; [by intros (? & _ & (? & _ & ?)%bind_Some)%bind_Some|].
  case_decide; [by intros ([? ?] & _ & ?)%bind_Some|]. case_decide; [by intros ([? ?] & _ & ?)%bind_Some|].
  case_decide; [by intros ([[? ?] ?] & _ & ?)%bind_Some|]. case_decide.
  - intros ([?|] & _ & Hx)%bind_Some; cbn [pipe_read_exit] in Hx; apply bind_Some in Hx; [by destruct Hx as (? & _ & ?)|].
    by destruct Hx as ([? ?] & _ & ?).
  - by intros (? & _ & ?)%bind_Some.
Qed.

(** SYS_SLEEP halts it exactly when there is a tick to wait for. *)
Lemma syscall_halts regs c s x :
  handler regs c s = Some x →
  (∃ s', x = Halted s') ↔
    reg_eax (y_mem s) regs = SYS_SLEEP ∧ y_ticks s < sleep_target (y_ticks s) (reg_ebx (y_mem s) regs).
Proof.
  intros E. assert (reg_eax (y_mem s) regs = SYS_SLEEP → handler regs c s = Some (
    if decide (y_ticks s < sleep_target (y_ticks s) (reg_ebx (y_mem s) regs)) then Halted (set_eax regs 0 s)
    else Returned (set_ticks (y_ticks s) (set_eax regs 0 s)))) as Hs.
  { intros Hn. unfold syscall_handler. rewrite Hn. rewrite !decide_False by done. rewrite decide_True by done.
    unfold timer_sleep_ms. change (y_ticks (set_eax regs 0 s)) with (y_ticks s). by case_decide. }
  split.
  - intros [s' ->]. pose proof (syscall_halts_sleep regs c s s' E) as Hn. split; [done|]. rewrite (Hs Hn) in E.
    by case_decide.
  - intros [Hn Ht]. rewrite (Hs Hn), decide_True in E by done. injection E as <-. eauto.
Qed.

Lemma syscall_answers G s i pd regs c :
  placed → sys_ok G s → k_current (y_k s) = Some i → space_of (y_k s) i pd →
  in_frame i regs c → args_ok i regs s → ∃ x, handler regs c s = Some x ∧ outcome i c G s x.
Proof.
  intros Hpl Hok Hc Hsp Hf (U1 & U2 & A1 & A2 & A3 & A4). pose proof (frame_call Hpl i regs c Hf G s pd Hok Hc Hsp) as Huc.
  assert (reached i G s (set_eax regs 0 s)) as H0 by (by eapply reached_eax, reached_refl).
  pose proof (eax_resume i regs c Hf 0 s) as Hres.
  assert (∀ a n, user_range (y_vm s) a n → user_range (y_vm (set_eax regs 0 s)) a n) as Hrg by (intros; by apply eax_range).
  assert (∀ a n, 8388608 ≤ a → a + Z.of_nat n ≤ 4294967296 → vread (y_vm (set_eax regs 0 s)) a n = vread (y_vm s) a n) as Hvr
    by (intros; by apply eax_vread).
  assert (space_of (y_k (set_eax regs 0 s)) i pd) as Hsp0 by exact Hsp.
  unfold syscall_handler. set (s0 := set_eax regs 0 s) in *. clearbody s0.
  case_decide; [by eapply call_exit|].
  case_decide; [by eapply call_write; [..|apply Hrg, A1]|].
  case_decide; [by eapply call_getpid|].
  case_decide; [by eapply call_sleep|].
  case_decide; [by eapply call_yield|].
  case_decide; [by eapply call_kill; [..|apply A2]|].
  case_decide.
  { destruct (A3 ltac:(done)) as (B1 & B2 & nm & Hnm). eapply call_open; [done..|]. by rewrite Hvr. }
  case_decide; [by eapply call_read; [..|apply Hrg, A4; auto|]|].
  case_decide; [by eapply call_close|].
  case_decide; [by eapply call_gettime|].
  case_decide; [by eapply call_pipe_create|].
  case_decide; [by eapply call_pipe_write; [..|apply Hrg, A4; auto]|].
  case_decide; [by eapply call_pipe_read; [..|apply Hrg, A4; auto]|].
  by eapply call_unknown.
Qed.

(** C1: system calls are safe.  In every state with the invariant of the whole kernel,
    let a process make a system call of any number whose buffers and names lie in its own
    memory above 8 MB, other than SYS_KILL on itself ([args_ok]; the handler checks
    neither).  Then the handler does not fault or run out of a table.  It returns or gives
    up the processor, except that SYS_SLEEP for at least one tick, and nothing else, halts
    the machine for good: it waits for the timer with interrupts off.  In all cases the
    invariant holds again; every other process that still lives has its
    page tables and all bytes of its frames unchanged, and below 1 MB only the caller's
    kernel stack has been written.  If the processor is given up, it goes on in exactly
    the context recorded for the process chosen, and that of the caller is recorded. *)
Theorem syscall_safe G s i pd regs c :
  placed → sys_ok G s → k_current (y_k s) = Some i → space_of (y_k s) i pd →
  in_frame i regs c → args_ok i regs s →
  ∃ x, handler regs c s = Some x ∧ outcome i c G s x ∧
    ((∃ s', x = Halted s') ↔
       reg_eax (y_mem s) regs = SYS_SLEEP ∧ y_ticks s < sleep_target (y_ticks s) (reg_ebx (y_mem s) regs)).
Proof.
  intros Hpl Hok Hc Hsp Hf Ha. destruct (syscall_answers G s i pd regs c Hpl Hok Hc Hsp Hf Ha) as (x & E & Ho).
  exists x. split; [done|]. split; [done|]. by apply (syscall_halts regs c).
Qed.

(** C39: A process that kills itself goes on running in an address space that it no longer
    has.  SYS_KILL with the caller's own pid returns 0 to the caller, which is still
    the current process; CR3 still holds its page directory; and that directory and all
    frames of the address space are available to the next allocation. *)
Theorem sys_kill_self_dangling G s i pd regs c :
  placed → sys_ok G s → k_current (y_k s) = Some i → space_of (y_k s) i pd → in_frame i regs c →
  reg_eax (y_mem s) regs = SYS_KILL → reg_ebx (y_mem s) regs = i + 1 →
  ∃ s', handler regs c s = Some (Returned s') ∧ reg_eax (y_mem s') regs = 0 ∧ k_current (y_k s') = Some i ∧
    v_cr3 (y_vm s') = pd ∧ fa_avail (v_fa (y_vm s')) pd ∧
    ∀ n q, owns (y_mem s) pd n q → fa_avail (v_fa (y_vm s')) q.
Proof.
  intros Hpl Hok Hc Hsp Hf Hnum Hebx. assert (reached i G s (set_eax regs 0 s)) as H0 by (by eapply reached_eax, reached_refl).
  unfold syscall_handler. rewrite Hnum, Hebx. rewrite !decide_False by done. rewrite decide_True by done.
  set (s0 := set_eax regs 0 s) in *. pose proof (so_procs _ _ (rc_ok _ _ _ _ H0)) as Hp0. pose proof (pr_pre _ _ _ _ _ Hp0) as Hpre.
  pose proof (pr_kinv _ _ _ _ _ Hpre) as Hk. destruct Hsp as (p & Hp & Hpd & Hz).
  assert (space_of (y_k s0) i pd) as Hsp0 by (by exists p).
  assert (p_state p = PROC_RUNNING) as Hrun.
  { pose proof (pr_run _ _ _ _ _ Hp0 i Hc) as H. unfold state_of in H. change (k_table (y_k s0)) with (k_table (y_k s)) in H.
    rewrite Hp in H. by injection H. }
  destruct (destroy_pd_lemma (y_vm s0) pd (sp_wf _ _ _ (pr_spaces _ _ _ _ _ Hpre) i pd Hsp0)) as (v & Ev & _ & _ & E3 & Ha).
  unfold process_kill. rewrite (find_killable (y_k s0) i p Hk Hp) by (try congruence; apply (ki_cur _ Hk i Hc)).
  unfold reap. change (k_table (y_k s0)) with (k_table (y_k s)). rewrite Hp. cbn [mbind option_bind].
  rewrite decide_False by congruence. rewrite Hpd. change (k_vm (y_k s0)) with (y_vm s0). rewrite Ev. cbn [mbind option_bind].
  rewrite (upd_Some _ _ _ _ Hp). cbn [mbind option_bind]. eexists. split; [reflexivity|].
  split; [apply eax_get; unfold is_u32; lia|]. split; [exact Hc|].
  assert (v_cr3 (y_vm s0) = pd) as Ecr by (by apply (cr3_space page_directory (y_k s0) i pd (pr_cr3 _ _ _ _ _ Hp0))).
  split; [by rewrite <-Ecr, <-E3|].
  assert (∀ n q, owns (y_mem s0) pd n q ↔ owns (y_mem s) pd n q) as Ho.
  { pose proof (frame_call Hpl i regs c Hf G s pd Hok Hc (ex_intro _ p (conj Hp (conj Hpd Hz)))) as Hu.
    intros n q. apply (low_store_owns (y_vm s) (y_mem s0)).
    - apply (sp_wf _ _ _ (pr_spaces _ _ _ _ _ (pr_pre _ _ _ _ _ (so_procs _ _ Hok))) i). by exists p.
    - intros b Hb. apply load8_store32_ne. destruct Hu as [? _]. lia. }
  split; [apply Ha; right; exists NPd; constructor; apply (wf_pd _ _ (sp_wf _ _ _ (pr_spaces _ _ _ _ _ Hpre) i pd Hsp0))|].
  intros n q Hq. apply Ha. right. exists n. by apply Ho.
Qed.
End safety.

(** ** A concrete kernel *)

(** The idle process, and a running process with one page at 16 MB. *)
Definition run_table : list process :=
  [Process (kstack_top 131072 0 - 20) 0 PROC_READY 1 0 0 0 (replicate 32 0);
   Process 0 1048576 PROC_RUNNING 2 1 16777216 0 (replicate 32 0)] ++ replicate 14 (demo_proc PROC_UNUSED 0).
Definition run_kst (v : vm pmm) : kst pmm := Kst v run_table (Some 1) 2 0.
Definition run_sys (v : vm pmm) (f : fs ide) : sys ide pics cmos :=
  Sys (run_kst v) demo_vga demo_kb 4 (replicate 16 None) demo_pics (Cmos 0 3 2 demo_time) pipe_init fd_init f demo_init.

Lemma run_placed : placed 131072 65536 69632.
Proof. constructor; try (split; [reflexivity|lia]); lia. Qed.

Lemma demo_user_maps :
  identity_map (v_mem demo_user_vm) 65536 69632 ∧ identity_map (v_mem demo_user_vm) 1048576 69632 ∧
  ∀ t, 2 ≤ t < 1024 → ent (v_mem demo_user_vm) 65536 t = 0.
Proof.
  assert (fst <$> paging_create_pd 65536 demo_vm = Some 1048576) as Hp by (vm_compute; reflexivity).
  destruct (create_pd_lemma 65536 69632 demo_kd demo_kt demo_vm) as (p & v & E & H);
    [apply small_pmm_wf|exact (proj2 small_pmm_wf)|apply demo_identity|].
  rewrite E in Hp. injection Hp as ->. destruct H as [(H & _)|(_ & Hwf & Hid & Hz & _ & Hm)]; [discriminate H|].
  destruct (proj1 (fmap_Some _ _ _) demo_space_done) as ([r v2] & Es & Er). simpl in Er. subst r.
  rewrite (demo_user_vm_eq v2 Es). pose proof (demo_space_alloc v v2 E Es) as Ea.
  assert (pd_wf (paging_switch 1048576 v) 1048576) as Hwf1 by (destruct Hwf; by constructor).
  destruct (alloc_pages_loop_spec 1048576 16777216 1 ltac:(lia) 0 (paging_switch 1048576 v)) as (r & v3 & E3 & Hwf3 & Hg & _);
    [lia|lia|exact Hwf1| |].
  { intros k F _ Ho. inversion Ho as [| |? T ? ? HT]; subst. inversion HT as [|? ? Hi HTf Ep|]; subst.
    cbn [v_mem paging_switch] in Ep. rewrite Hz in Ep by done. destruct HTf. lia. }
  unfold paging_alloc_user_pages in Ea. change (Z.to_nat 1) with 1%nat in Ea. rewrite E3 in Ea. injection Ea as -> ->.
  split; [|split].
  - apply (identity_same 69632 (v_mem demo_vm)); [| |exact demo_identity]; intros b Hb;
      rewrite (grows_low 1048576 _ v2 Hwf1 Hg) by lia; apply Hm; lia.
  - by apply (identity_map_grows 1048576 69632 (paging_switch 1048576 v)); [| |lia|reflexivity|].
  - destruct (paging_init_entries 65536 69632 demo_kd demo_kt ltac:(lia) (Vm ∅ small_pmm 0 0)) as (_ & _ & H0).
    intros t Ht. rewrite <-(H0 t Ht). apply ent_ext. intros b Hb. rewrite (grows_low 1048576 _ v2 Hwf1 Hg) by lia. apply Hm; lia.
Qed.

(** An address space at 1 MB, loaded in CR3. *)
Record run_vm (v : vm pmm) : Prop := RunVm {
  rv_wf : pd_wf v 1048576;
  rv_kernel : identity_map (v_mem v) 65536 69632;
  rv_maps : identity_map (v_mem v) 1048576 69632;
  rv_cr3 : v_cr3 v = 1048576;
  rv_rest t : 2 ≤ t < 1024 → ent (v_mem v) 65536 t = 0
}.

Lemma run_vm_exists : ∃ v, run_vm v.
Proof.
  exists demo_user_vm. destruct demo_user_space as [Hwf _], demo_user_maps as (M1 & M2 & M3). rewrite demo_space_cr3 in Hwf.
  constructor; [exact Hwf|exact M1|exact M2|exact demo_space_cr3|exact M3].
Qed.

Section run_example.
Context (v : vm pmm) (Hv : run_vm v).

Definition run_ctx : Z → cpu := λ _, frame_ctx (v_mem v) (kstack_top 131072 0 - 20).

Lemma run_space j pd : space_of (run_kst v) j pd ↔ j = 1 ∧ pd = 1048576.
Proof using.
  unfold space_of. cbn [k_table run_kst]. split.
  - intros (p & Hp & <- & Hz). destruct (decide (j = 1)) as [->|Hj]; [by injection Hp as <-|]. exfalso. apply Hz.
    pose proof (aget_Some_lt _ _ _ Hp) as Hlt. change (Z.of_nat (length run_table)) with 16 in Hlt.
    destruct (decide (j = 0)) as [->|H0]; [by injection Hp as <-|].
    unfold aget, run_table in Hp. rewrite decide_True in Hp by lia. rewrite lookup_app_r in Hp by (simpl; lia).
    apply lookup_replicate in Hp as [-> _]. done.
  - intros [-> ->]. eexists. split; [reflexivity|]. done.
Qed.

Lemma run_procs_ok : procs_ok 131072 65536 69632 run_ctx (run_kst v).
Proof using Hv.
  destruct (kinv_check_sound (run_kst v) ltac:(vm_compute; reflexivity)) as [Hk He]. destruct Hv as [Hwf M1 M2 H3 _].
  constructor; [constructor; [exact Hk| |exact He|]| |].
  - constructor; [exact (wf_fa _ _ Hwf)|exact (wf_low _ _ Hwf)|exact M1| | |].
    + intros j pd [-> ->]%run_space. exact Hwf.
    + intros j pd [-> ->]%run_space. exact M2.
    + by intros j1 j2 p1 p2 n1 n2 q Hne [-> _]%run_space [-> _]%run_space.
  - intros j p Hp Hu Hj. assert (j = 0) as ->.
    { destruct (ki_slot _ Hk j p Hp) as (_ & Hiff & _). pose proof (aget_Some_lt _ _ _ Hp) as [H0 _].
      cbn [k_next_pid run_kst] in Hiff. destruct (decide (2 ≤ j)); [by destruct Hu; apply Hiff|].
      assert (j ≠ 1) by (intros ->; by apply Hj). lia. }
    injection Hp as <-. cbn [p_esp]. unfold kstack_top, proc_addr, PROCESS_KSTACK_SIZE. split; [lia|]. split; [lia|done].
  - exact H3.
  - by intros i [= <-].
Qed.

Lemma run_sys_ok f : fs_wf f → sys_ok 131072 65536 69632 4 run_ctx (run_sys v f).
Proof using Hv.
  intros Hf. constructor;
    [exact run_procs_ok|exact demo_vga_wf|exact demo_kb_wf|by left|reflexivity|exact pipe_init_wf|by apply fd_wf_init|simpl; lia].
Qed.
End run_example.

(** A call with the frame near the top of the stack. *)
Definition run_regs : Z := kstack_top 131072 1 - 100.
Definition run_cpu : cpu := Cpu 11 22 33 44 (run_regs - 60) 0.
Definition run_store (v : vm pmm) (off x : Z) : vm pmm := vm_with_mem v (store32 (v_mem v) (run_regs + off) x).
Definition run_call (num : Z) (v : vm pmm) : vm pmm := run_store (run_store v 44 num) 40 0.

(** SYS_KILL with the caller's pid. *)
Definition run_kill (v : vm pmm) : vm pmm := run_store (run_store v 44 SYS_KILL) 32 2.

Lemma run_store_vm v off x : 0 ≤ off < 64 → run_vm v → run_vm (run_store v off x).
Proof.
  intros Hoff [H1 H2 H3 H4 H5].
  assert (∀ b, ¬ in_kstack 131072 1 b → load8 (v_mem (run_store v off x)) b = load8 (v_mem v) b) as Hm.
  { unfold in_kstack, run_store, run_regs, kstack_top, proc_addr, PROCESS_KSTACK_SIZE. intros b Hb.
    cbn [v_mem vm_with_mem]. by rewrite load8_store32_ne by lia. }
  constructor; [apply low_store_wf; [done|]|apply (identity_same 69632 (v_mem v)); [..|done]
    |apply (identity_same 69632 (v_mem v)); [..|done]|done|intros t Ht; rewrite <-(H5 t Ht); apply ent_ext];
    intros b Hb; apply Hm; unfold in_kstack, kstack_top, proc_addr, PROCESS_KSTACK_SIZE; lia.
Qed.

Lemma run_call_vm num v : run_vm v → run_vm (run_call num v).
Proof. intros Hv. apply run_store_vm; [lia|]. apply run_store_vm; [lia|done]. Qed.

Lemma run_kill_vm v : run_vm v → run_vm (run_kill v).
Proof. intros Hv. apply run_store_vm; [lia|]. apply run_store_vm; [lia|done]. Qed.

Lemma run_kill_regs v : reg_eax (v_mem (run_kill v)) run_regs = SYS_KILL ∧ reg_ebx (v_mem (run_kill v)) run_regs = 1 + 1.
Proof.
  unfold reg_eax, reg_ebx, run_kill, run_store. cbn [v_mem vm_with_mem]. split; [rewrite load32_store32_ne by lia|];
    apply load32_store32_eq; unfold is_u32, SYS_KILL; lia.
Qed.

Lemma run_frame : in_frame 131072 1 run_regs run_cpu.
Proof.
  constructor; [constructor; [unfold regs_ok, is_u32; simpl; lia|]| |];
    unfold run_cpu, run_regs, kstack_top, proc_addr, PROCESS_KSTACK_SIZE; cbn [r_esp]; lia.
Qed.

Lemma run_args v f : args_ok 1 run_regs (run_sys (run_call SYS_GETPID v) f).
Proof.
  assert (reg_eax (v_mem (run_call SYS_GETPID v)) run_regs = SYS_GETPID) as E.
  { unfold reg_eax, run_call, run_store. cbn [v_mem vm_with_mem]. rewrite load32_store32_ne by lia.
    apply load32_store32_eq. unfold is_u32, SYS_GETPID. lia. }
  assert (reg_ecx (v_mem (run_call SYS_GETPID v)) run_regs = 0) as E2
    by (unfold reg_ecx, run_call, run_store; cbn [v_mem vm_with_mem]; apply load32_store32_eq; unfold is_u32; lia).
  unfold args_ok. change (y_mem (run_sys (run_call SYS_GETPID v) f)) with (v_mem (run_call SYS_GETPID v)). rewrite E, E2.
  split; [unfold is_u32, SYS_GETPID; lia|]. split; [unfold is_u32; lia|]. split; [done|]. split; [done|]. split; [done|].
  by intros [|[|]].
Qed.

Lemma sys_kill_self_dangling_witness :
  ∃ v f s', syscall_handler 131072 65536 4 run_regs run_cpu (run_sys (run_kill v) f) = Some (Returned s') ∧
    v_cr3 (y_vm s') = 1048576 ∧ fa_avail (v_fa (y_vm s')) 1048576.
Proof.
  destruct demo_formatted as (f & Hf & _), run_vm_exists as (v & Hv). exists v, f. apply run_kill_vm in Hv.
  destruct (run_kill_regs v) as [E1 E2].
  destruct (sys_kill_self_dangling 131072 65536 69632 4 (run_ctx (run_kill v)) (run_sys (run_kill v) f) 1 1048576
    run_regs run_cpu run_placed) as (s' & E & _ & _ & H3 & Ha & _).
  - by apply run_sys_ok.
  - reflexivity.
  - by apply run_space.
  - exact run_frame.
  - exact E1.
  - exact E2.
  - exists s'. split; [exact E|]. split; [exact H3|exact Ha].
Defined.

Lemma syscall_safe_witness :
  ∃ v f x, syscall_handler 131072 65536 4 run_regs run_cpu (run_sys (run_call SYS_GETPID v) f) = Some x ∧
    outcome 131072 65536 69632 4 1 run_cpu (run_ctx (run_call SYS_GETPID v)) (run_sys (run_call SYS_GETPID v) f) x.
Proof.
  destruct demo_formatted as (f & Hf & _), run_vm_exists as (v & Hv). exists v, f. apply (run_call_vm SYS_GETPID) in Hv.
  destruct (syscall_safe 131072 65536 69632 4 (run_ctx (run_call SYS_GETPID v)) (run_sys (run_call SYS_GETPID v) f) 1 1048576
    run_regs run_cpu run_placed) as (x & E & Ho & _).
  - by apply run_sys_ok.
  - reflexivity.
  - by apply run_space.
  - exact run_frame.
  - apply run_args.
  - exists x. split; [exact E|exact Ho].
Defined.
