(* ===== verification/Runs.v ===== *)
(** * Runs of the kernel

    Sequences of everything that happens while processes run: instructions of user
    programs and kernel code, system calls, interrupts, the return of interrupted
    calls, yields.  Each step is a function of [System] with the caller's context; the
    trace of a run is the list of its context switches.

    The abstract machine keeps a context for each process and nothing else: a switch
    records the context of the process that gives up the processor and goes on with the
    one recorded for the next.  Every run of the kernel in which processes make system
    calls with arguments of their own ([args_ok]) is a run of that machine. *)

From S2P Require Import Prelude Mem CString Kmem Pmm Paging Process Pipe Keyboard Vga Console.
From S2P Require Import Ports Pic Rtc Timer Ata Fs Fd Elf UserMem Spaces Coroutines System Irqs Syscalls Safety.

(** ** Labelled steps *)

Section labelled.
Context {S E : Type} (step : S → option E → S → Prop).

Inductive runs : S → list E → S → Prop :=
| runs_nil s : runs s [] s
| runs_silent s1 s2 s3 tr : step s1 None s2 → runs s2 tr s3 → runs s1 tr s3
| runs_event s1 s2 s3 e tr : step s1 (Some e) s2 → runs s2 tr s3 → runs s1 (e :: tr) s3.

Lemma runs_app s tr1 : ∀ tr2 s', runs s (tr1 ++ tr2) s' → ∃ s1, runs s tr1 s1 ∧ runs s1 tr2 s'.
Proof.
  intros tr2 s' H. remember (tr1 ++ tr2) as tr eqn:Etr. revert tr1 tr2 Etr.
  induction H as [s|s1 s2 s3 tr Hst Hr IH|s1 s2 s3 e tr Hst Hr IH]; intros tr1 tr2 Etr.
  - symmetry in Etr. apply app_nil in Etr as [-> ->]. exists s. by split; constructor.
  - destruct (IH tr1 tr2 Etr) as (s4 & H1 & H2). exists s4. split; [|done]. by eapply runs_silent.
  - destruct tr1 as [|e1 tr1].
    + simpl in Etr. subst tr2. exists s1. split; [constructor|by eapply runs_event].
    + simpl in Etr. injection Etr as <- Etr. destruct (IH tr1 tr2 Etr) as (s4 & H1 & H2). exists s4. split; [|done].
      by eapply runs_event.
Qed.
End labelled.

(** A step-by-step simulation carries over to runs. *)
Lemma runs_simulation {S A E : Type} (step : S → option E → S → Prop) (astep : A → option E → A → Prop) (R : S → A → Prop) :
  (∀ s e s' a, R s a → step s e s' → ∃ a', astep a e a' ∧ R s' a') →
  ∀ s tr s', runs step s tr s' → ∀ a, R s a → ∃ a', runs astep a tr a' ∧ R s' a'.
Proof.
  intros Hsim s tr s' H. induction H as [s|s1 s2 s3 tr Hst Hr IH|s1 s2 s3 e tr Hst Hr IH]; intros a Ha.
  - exists a. split; [constructor|done].
  - destruct (Hsim s1 None s2 a Ha Hst) as (a1 & A1 & Ha1). destruct (IH a1 Ha1) as (a2 & A2 & Ha2).
    exists a2. split; [by eapply runs_silent|done].
  - destruct (Hsim s1 (Some e) s2 a Ha Hst) as (a1 & A1 & Ha1). destruct (IH a1 Ha1) as (a2 & A2 & Ha2).
    exists a2. split; [by eapply runs_event|done].
Qed.

(** ** Coroutines *)

(** Process [ev_from] has given up the processor, to go on in [ev_ctx] later; the
    processor goes on in [ev_resumed], in process [ev_to]. *)
Record event := Ev { ev_from : Z; ev_ctx : cpu; ev_to : Z; ev_resumed : cpu }.

(** The running process and the contexts of the others. *)
Inductive cstep : Z * (Z → cpu) → option event → Z * (Z → cpu) → Prop :=
| cstep_silent i G : cstep (i, G) None (i, G)
| cstep_switch i c j G : cstep (i, G) (Some (Ev i c j (record_ctx i c G j))) (j, record_ctx i c G).

Lemma cruns_cons a e tr a' : runs cstep a (e :: tr) a' → ∃ a1, cstep a (Some e) a1 ∧ runs cstep a1 tr a'.
Proof.
  intros H. remember (e :: tr) as tr' eqn:Etr. induction H as [a|a1 a2 a3 tr1 Hst Hr IH|a1 a2 a3 e1 tr1 Hst Hr IH]; [done| |].
  - inversion Hst; subst. by apply IH.
  - injection Etr as -> ->. by exists a2.
Qed.

(** Who does not run keeps its context. *)
Lemma cruns_away i a tr a' :
  runs cstep a tr a' → a.1 ≠ i → (∀ e, e ∈ tr → ev_to e ≠ i) → a'.1 ≠ i ∧ a'.2 i = a.2 i.
Proof.
  induction 1 as [a|a1 a2 a3 tr Hst Hr IH|a1 a2 a3 e tr Hst Hr IH]; intros Ha Htr; [done| |]; inversion Hst; subst; simpl in *.
  - by apply IH.
  - destruct IH as [H1 H2]; [by apply (Htr _ (list_elem_of_here _ _))|by intros e' He'; apply Htr; right|].
    split; [done|]. rewrite H2. unfold record_ctx. by rewrite decide_False by congruence.
Qed.

(** Who runs again goes on where it stopped. *)
Lemma cruns_resume a a' i c j c1 tr k c2 c' :
  runs cstep a (Ev i c j c1 :: tr ++ [Ev k c2 i c']) a' → j ≠ i → (∀ e, e ∈ tr → ev_to e ≠ i) → c' = c.
Proof.
  intros (a1 & Hst & Hr)%cruns_cons Hj Htr. inversion Hst; subst. apply runs_app in Hr as (a2 & H2 & Hr).
  destruct (cruns_away i _ _ _ H2 Hj Htr) as [Hk Hc]. apply cruns_cons in Hr as (a3 & Hst3 & _). inversion Hst3; subst.
  simpl in *. unfold record_ctx in *. rewrite decide_False by congruence. rewrite Hc. by rewrite decide_True.
Qed.

(** ** The kernel *)

Section kernel_runs.
Context (process_table page_directory page_tables : Z) (rtc_fuel : nat).
Context {D : Type} `{!BlockDevice D}.
Implicit Types (s : sys D pics cmos) (G : Z → cpu).

Abbreviation placed := (placed process_table page_directory page_tables).
Abbreviation sys_ok := (sys_ok process_table page_directory page_tables rtc_fuel).
Abbreviation in_frame := (in_frame process_table).
Abbreviation outcome := (outcome process_table page_directory page_tables rtc_fuel).

(** How a handler's end continues the run; after a halt there is no step. *)
Inductive ends (i : Z) (c : cpu) s : exit (sys D pics cmos) → option event → sys D pics cmos → Prop :=
| ends_returned s' : ends i c s (Returned s') None s'
| ends_switched c' s' j : k_current (y_k s') = Some j → ends i c s (Switched c' s') (Some (Ev i (resume_ctx c (y_mem s)) j c')) s'.

(** One step of the kernel.  [allowed i regs s] says which system calls process [i] may
    make, with the registers at [regs]; the theorems below are on runs with
    [args_ok], that is, in which processes pass buffers and names of their own and do
    not kill themselves. *)
Inductive kstep (allowed : Z → Z → sys D pics cmos → Prop) s : option event → sys D pics cmos → Prop :=
(* a user program stores a byte through one of its addresses *)
| kstep_user i pd x p b : k_current (y_k s) = Some i → space_of (y_k s) i pd → is_u32 x → 8388608 ≤ x →
    mmu_walk (y_mem s) pd x = Some p → kstep allowed s None (set_k (with_k_mem (store8 (y_mem s) p b) (y_k s)) s)
(* stubs and kernel code use the stack of the current process *)
| kstep_stack i m' : k_current (y_k s) = Some i →
    (∀ b, ¬ in_kstack process_table i b → load8 m' b = load8 (y_mem s) b) → kstep allowed s None (set_k (with_k_mem m' (y_k s)) s)
(* time passes in the clock *)
| kstep_clock r : (cm_busy r < rtc_fuel)%nat → kstep allowed s None (set_rtc r s)
(* a system call *)
| kstep_call i pd regs c x e s' : k_current (y_k s) = Some i → space_of (y_k s) i pd → in_frame i regs c →
    allowed i regs s → syscall_handler process_table page_directory rtc_fuel regs c s = Some x → ends i c s x e s' →
    kstep allowed s e s'
(* a SYS_PIPE_READ that had blocked goes on, with the arguments it had *)
| kstep_resume i pd regs c ebx ecx edx x e s' : k_current (y_k s) = Some i → space_of (y_k s) i pd → in_frame i regs c →
    0 ≤ s32 ebx < 8 → user_range (y_vm s) edx ecx →
    syscall_pipe_read_resume process_table page_directory regs ebx ecx edx c s = Some x → ends i c s x e s' → kstep allowed s e s'
(* an interrupt, in user or in kernel mode *)
| kstep_irq i regs sc c x e s' : k_current (y_k s) = Some i → in_frame i regs c → is_u8 sc → 0 ≤ reg_int_no (y_mem s) regs →
    interrupt_handler process_table page_directory regs sc c s = Some x → ends i c s x e s' → kstep allowed s e s'
(* the end of the interrupt in which a process had been preempted *)
| kstep_eoi irq : kstep allowed s None (irq_return irq s)
(* kernel code yields, as the idle process does *)
| kstep_yield i regs c c' k x e s' : k_current (y_k s) = Some i → in_frame i regs c →
    process_yield process_table page_directory c (y_k s) = Some (c', k) → x = Switched c' (set_k k s) → ends i c s x e s' →
    kstep allowed s e s'.

Abbreviation kstep_own := (kstep args_ok).

(** The concrete state stands for the running process and the recorded contexts. *)
Definition stands_for s (a : Z * (Z → cpu)) : Prop := sys_ok a.2 s ∧ k_current (y_k s) = Some a.1.

(** What a step leaves alone: the memory of the others, what is below 1 MB but for the
    stack of the running process, and the page tables of that process. *)
Record leaves s s' : Prop := Leaves {
  lv_others i j : k_current (y_k s) = Some i → j ≠ i → keeps j (y_k s) (y_k s');
  lv_low i b : k_current (y_k s) = Some i → b < 1048576 → ¬ in_kstack process_table i b →
    load8 (y_mem s') b = load8 (y_mem s) b;
  lv_own : own_tables (y_k s) (y_k s')
}.

Lemma leaves_by i s s' :
  k_current (y_k s) = Some i → (∀ j, j ≠ i → keeps j (y_k s) (y_k s')) →
  (∀ b, b < 1048576 → ¬ in_kstack process_table i b → load8 (y_mem s') b = load8 (y_mem s) b) →
  own_tables (y_k s) (y_k s') → leaves s s'.
Proof. intros Hc H1 H2 H3. constructor; [| |done]; intros i' b; rewrite Hc; intros [= <-]; auto. Qed.

Lemma outcome_step i c G s x e s' :
  k_current (y_k s) = Some i → outcome i c G s x → ends i c s x e s' →
  (∃ a', cstep (i, G) e a' ∧ stands_for s' a') ∧ leaves s s'.
Proof.
  intros Hc Ho He. inversion He as [s1|c1 s1 j Hj]; subst.
  - destruct Ho as [O C K L R T]. split; [|by apply (leaves_by i)]. exists (i, G). split; [constructor|by split].
  - destruct Ho as [O (j' & Hj' & ->) K L T]. rewrite Hj in Hj'. injection Hj' as <-. split; [|by apply (leaves_by i)].
    eexists. split; [constructor|by split].
Qed.

Lemma outside_step i G s s' :
  k_current (y_k s) = Some i → y_k s' = y_k s → sys_ok G s' →
  (∃ a', cstep (i, G) None a' ∧ stands_for s' a') ∧ leaves s s'.
Proof.
  intros Hc E Hok. split.
  - exists (i, G). split; [constructor|]. split; [done|]. by rewrite E.
  - apply (leaves_by i); unfold y_mem, own_tables; rewrite ?E; [done|intros j _; apply keeps_refl|done..].
Qed.

Lemma kstep_sim s e s' a :
  placed → stands_for s a → kstep_own s e s' → (∃ a', cstep a e a' ∧ stands_for s' a') ∧ leaves s s'.
Proof.
  intros Hpl [Hok Hc] H. destruct a as [i0 G]. simpl in Hok, Hc. pose proof (so_procs _ _ _ _ _ _ Hok) as Hp.
  assert (∀ i, k_current (y_k s) = Some i → i0 = i) as Hi by (intros i; rewrite Hc; by intros [= ->]).
  destruct H as [i pd x p b E Hsp Hx Ux Hw|i m' E Hm|r Hr|i pd regs c x e s' E Hsp Hf Ha Hh He|i pd regs c ebx ecx edx x e s' E Hsp Hf Hid Hr Hh He
    |i regs sc c x e s' E Hf Hsc Hno Hh He|irq|i regs c c' k x e s' E Hf Hy Hx He]; try (pose proof (Hi i E); subst i0).
  - destruct (procs_store process_table page_directory page_tables G (y_k s) i pd x p b Hpl Hp E Hsp Hx Ux Hw) as (Hp' & Hk & Hl & Ht).
    split; [exists (i, G); split; [constructor|split; [by apply sys_ok_set_k|done]]|].
    apply (leaves_by i); [done|done| |done]. intros b' Hb' _. by apply Hl.
  - destruct (procs_own_stack process_table page_directory page_tables G (y_k s) i m' Hpl Hp E Hm) as (Hp' & Hk & Ht).
    split; [exists (i, G); split; [constructor|split; [by apply sys_ok_set_k|done]]|].
    apply (leaves_by i); [done|done| |done]. intros b' _. apply Hm.
  - apply (outside_step i0); [done|done|]. destruct Hok. by constructor.
  - apply (outcome_step i c G s x); [done| |done].
    destruct (syscall_answers process_table page_directory page_tables rtc_fuel G s i pd regs c) as (y & E' & Hy); [done..|].
    rewrite Hh in E'. by injection E' as <-.
  - apply (outcome_step i c G s x); [done| |done].
    destruct (call_pipe_resume process_table page_directory page_tables rtc_fuel Hpl i regs c Hf G s s) with (ebx := ebx) (a := edx) (n := ecx) (pd := pd)
      as (y & E' & Hy); [by apply reached_refl|done..|].
    rewrite Hh in E'. by injection E' as <-.
  - apply (outcome_step i c G s x); [done| |done].
    destruct (interrupt_safe process_table page_directory page_tables rtc_fuel Hpl i regs c Hf G s sc) as (y & E' & Hy); [done..|].
    rewrite Hh in E'. by injection E' as <-.
  - apply (outside_step i0); [done|done|]. destruct Hok. by constructor.
  - subst x. apply (outcome_step i c G s (Switched c' (set_k k s))); [done| |done].
    destruct (call_yield process_table page_directory page_tables rtc_fuel Hpl i regs c Hf G s s) as (y & E' & Hy'); [by apply reached_refl|done|].
    rewrite Hy in E'. by injection E' as <-.
Qed.

Lemma kruns_sim s tr s' a :
  placed → stands_for s a → runs kstep_own s tr s' → ∃ a', runs cstep a tr a' ∧ stands_for s' a'.
Proof.
  intros Hpl Ha H. apply (runs_simulation kstep_own cstep stands_for) with (s := s); [|done|done].
  intros s1 e s2 a1 Ha1 Hst. by apply (kstep_sim s1 e s2 a1).
Qed.

(** A kernel stack is only written while its process runs. *)
Lemma kruns_stack_kept s tr s' a i b :
  placed → stands_for s a → runs kstep_own s tr s' → a.1 ≠ i → 0 ≤ i < 16 → (∀ e, e ∈ tr → ev_to e ≠ i) →
  in_kstack process_table i b → load8 (y_mem s') b = load8 (y_mem s) b.
Proof.
  intros Hpl Ha H Hne Hi Htr Hb. revert a Ha Hne Htr. pose proof (kstack_low process_table page_directory page_tables i b Hpl Hi Hb) as [Hlow _].
  induction H as [s|s1 s2 s3 tr Hst Hr IH|s1 s2 s3 e tr Hst Hr IH]; intros a Ha Hne Htr; [done|..].
  all: destruct (kstep_sim s1 _ s2 a Hpl Ha Hst) as [(a2 & Hc & Ha2) Hl].
  all: assert (load8 (y_mem s2) b = load8 (y_mem s1) b) as <-
    by (apply (lv_low _ _ Hl a.1); [apply Ha|lia|]; intros Hin; by apply (kstack_apart process_table a.1 i b)).
  - apply (IH a2 Ha2); [|done]. by inversion Hc; subst.
  - apply (IH a2 Ha2); [|intros e' He'; apply Htr; by right]. inversion Hc; subst. apply (Htr _ (list_elem_of_here _ _)).
Qed.

(** After a switch TSS.ESP0 is the stack of the process that runs. *)
Definition tss_set (x : exit (sys D pics cmos)) : Prop :=
  match x with
  | Switched _ s' => ∀ j, k_current (y_k s') = Some j → k_esp0 (y_k s') = kstack_top process_table j
  | _ => True
  end.

Lemma yield_tss s (y : option (cpu * kst pmm)) x :
  (∀ c' k', y = Some (c', k') → ∃ c1 k1, process_yield process_table page_directory c1 k1 = Some (c', k')) →
  ('(c', k') ← y; Some (Switched c' (set_k k' s))) = Some x → tss_set x.
Proof.
  intros Hy ([c' k'] & E & [= <-])%bind_Some. destruct (Hy c' k' E) as (c1 & k1 & E1).
  destruct (yield_esp0 _ _ _ _ _ _ E1) as (j & Hj & He). intros j' Hj'. cbn [y_k set_k] in *. rewrite Hj in Hj'. by injection Hj' as <-.
Qed.

Lemma exit_yields c (k : kst pmm) c' k' :
  process_exit process_table page_directory c k = Some (c', k') → ∃ c1 k1, process_yield process_table page_directory c1 k1 = Some (c', k').
Proof. unfold process_exit. intros (k1 & _ & H)%bind_Some. eauto. Qed.

Lemma block_yields c (k : kst pmm) c' k' :
  process_block process_table page_directory c k = Some (c', k') → ∃ c1 k1, process_yield process_table page_directory c1 k1 = Some (c', k').
Proof. unfold process_block. intros (t & _ & H)%bind_Some. eauto. Qed.

Lemma pipe_exit_tss regs buf c y s x :
  pipe_read_exit process_table page_directory regs buf c y s = Some x → tss_set x.
Proof.
  destruct y as [r dst ps|]; cbn [pipe_read_exit]; [by intros (v & _ & [= <-])%bind_Some|].
  eapply yield_tss. intros c' k'. apply block_yields.
Qed.

Lemma syscall_tss regs c s x :
  syscall_handler process_table page_directory rtc_fuel regs c s = Some x → tss_set x.
Proof.
  unfold syscall_handler. set (s0 := set_eax regs 0 s). clearbody s0.
  case_decide; [eapply yield_tss; intros c' k'; apply exit_yields|].
  case_decide; [by intros (? & _ & [= <-])%bind_Some|]. case_decide; [by intros (? & _ & [= <-])%bind_Some|].
  case_decide; [destruct (timer_sleep_ms _ _ _ _); [by intros [= <-]|done|by intros [= <-]]|].
  case_decide; [eapply yield_tss; eauto|].
  case_decide; [by intros ([? ?] & _ & [= <-])%bind_Some|].
  case_decide; [by intros (? & _ & ([[? ?] ?] & _ & [= <-])%bind_Some)%bind_Some|].
  case_decide; [by intros (? & _ & ([[[? ?] ?] ?] & _ & (? & _ & [= <-])%bind_Some)%bind_Some)%bind_Some|].
  case_decide; [by intros (? & _ & (? & _ & [= <-])%bind_Some)%bind_Some|].
  case_decide; [by intros ([? ?] & _ & [= <-])%bind_Some|]. case_decide; [by intros ([? ?] & _ & [= <-])%bind_Some|].
  case_decide; [by intros ([[? ?] ?] & _ & [= <-])%bind_Some|].
  case_decide; [intros (y & _ & Hx)%bind_Some; by eapply pipe_exit_tss|].
  unfold syscall_unknown. by intros (? & _ & [= <-])%bind_Some.
Qed.

Lemma irq_tss regs sc c s x :
  interrupt_handler process_table page_directory regs sc c s = Some x → tss_set x.
Proof.
  unfold interrupt_handler. case_decide; [unfold isr_handler; by intros (? & _ & (? & _ & [= <-])%bind_Some)%bind_Some|].
  unfold irq_handler. intros (y & Hy & Hx)%bind_Some.
  assert (tss_set y) as Ht; [|destruct y; by injection Hx as <-].
  case_decide; [|by injection Hy as <-]. apply bind_Some in Hy as ([[|]|] & _ & Hy); [| |by injection Hy as <-]; cbn [call_irq] in Hy.
  - unfold timer_irq_handler in Hy. case_decide; [|by injection Hy as <-]. revert Hy. eapply yield_tss. eauto.
  - unfold keyboard_irq in Hy. by apply bind_Some in Hy as ([? ?] & _ & [= <-]).
Qed.

Lemma switch_esp0 allowed s e s' :
  kstep allowed s (Some e) s' → k_esp0 (y_k s') = kstack_top process_table (ev_to e).
Proof.
  intros H. inversion H as [| | |i pd regs c x e' s2 E Hsp Hf Ha Hh He|i pd regs c ebx ecx edx x e' s2 E Hsp Hf Hid Hr Hh He
    |i regs sc c x e' s2 E Hf Hsc Hno Hh He| |i regs c c' k x e' s2 E Hf Hy Hx He]; subst;
    inversion He as [|c1 s1 j Hj]; subst; cbn [ev_to].
  - by apply (syscall_tss _ _ _ _ Hh).
  - unfold syscall_pipe_read_resume in Hh. apply bind_Some in Hh as (y & _ & Hh). by apply (pipe_exit_tss _ _ _ _ _ _ Hh).
  - by apply (irq_tss _ _ _ _ _ Hh).
  - match goal with X : Switched _ _ = Switched _ _ |- _ => injection X as -> -> | _ => idtac end.
    destruct (yield_esp0 _ _ _ _ _ _ Hy) as (j' & Hj' & Hz). cbn [y_k set_k] in *. congruence.
Qed.



(** C3: isolation.  In every run whose system calls pass buffers and names of the caller's
    own and in which no process kills itself ([kstep args_ok]; the handler does not check
    it, and [sys_read_overwrites_kernel] shows a call outside that breaks isolation): as
    long as process [j] is not the running one, nothing
    that the others do, no such system call, interrupt or instruction, changes its page
    tables or a byte of its frames, and no other directory appears in its slot; the
    only thing that can happen to its address space is that it is given up. *)
Theorem run_isolates G s i tr s' j :
  placed → sys_ok G s → k_current (y_k s) = Some i → runs (kstep args_ok) s tr s' →
  j ≠ i → (∀ e, e ∈ tr → ev_to e ≠ j) → keeps j (y_k s) (y_k s').
Proof.
  intros Hpl Hok Hc H. revert G i Hok Hc. induction H as [s|s1 s2 s3 tr Hst Hr IH|s1 s2 s3 e tr Hst Hr IH]; intros G i Hok Hc Hj Htr.
  - apply keeps_refl.
  - destruct (kstep_sim s1 None s2 (i, G) Hpl (conj Hok Hc) Hst) as [(a & Ha & Hok2 & Hc2) Hk]. inversion Ha; subst.
    apply (keeps_trans j _ (y_k s2)); [by apply (lv_others _ _ Hk i)|]. by apply (IH G i).
  - destruct (kstep_sim s1 (Some e) s2 (i, G) Hpl (conj Hok Hc) Hst) as [(a & Ha & Hok2 & Hc2) Hk]. inversion Ha; subst.
    apply (keeps_trans j _ (y_k s2)); [by apply (lv_others _ _ Hk i)|].
    apply (IH _ _ Hok2 Hc2); [|by intros e He; apply Htr; right]. intros ->. by apply (Htr _ (list_elem_of_here _ _)).
Qed.
End kernel_runs.

(** ** A run *)

(** Two yields: the process of the example to the idle process and back. *)
Definition idle_regs : Z := kstack_top 131072 0 - 100.
Definition idle_cpu : cpu := Cpu 1 2 3 4 (idle_regs - 60) 0.

Lemma idle_frame : in_frame 131072 0 idle_regs idle_cpu.
Proof.
  constructor; [constructor; [unfold regs_ok, is_u32; simpl; lia|]| |];
    unfold idle_cpu, idle_regs, kstack_top, proc_addr, PROCESS_KSTACK_SIZE; cbn [r_esp]; lia.
Qed.

(** A yield, with the table and the process chosen. *)
Lemma yield_chosen (s : sys ide pics cmos) G i regs c j t' :
  sys_ok 131072 65536 69632 4 G s → k_current (y_k s) = Some i → in_frame 131072 i regs c →
  20 ≤ r_esp c < 8388608 →
  (t ← saved (k_table (y_k s)) (Some i) (r_esp c - 16); sched_next t (Some i)) = Some (j, t') →
  ∃ c' s', kstep 131072 65536 4 args_ok s (Some (Ev i (resume_ctx c (y_mem s)) j c')) s' ∧
    k_table (y_k s') = t' ∧ k_current (y_k s') = Some j.
Proof.
  intros Hok Hc Hf Hr Hch. pose proof (pr_pre _ _ _ _ _ (so_procs _ _ _ _ _ _ Hok)) as [Hk _ He _].
  destruct (process_yield_lemma 131072 65536 c (y_k s) Hk Hr He) as
    (t & i' & t1 & k1 & p & Ht & Hs & Htab & Hn & _ & _ & _ & _ & _ & _ & Hy & _).
  rewrite Hc in Ht, Hs. rewrite Ht in Hch. cbn [mbind option_bind] in Hch. rewrite Hs in Hch. injection Hch as -> ->.
  eexists _, (set_k k1 s). split; [|done].
  eapply (kstep_yield 131072 65536 4 args_ok s i regs c _ k1); [done|done|exact Hy|reflexivity|by constructor].
Qed.

Lemma run_two_yields v f :
  run_vm v → fs_wf f →
  ∃ c1 c2 c3 s', runs (kstep 131072 65536 4 args_ok) (run_sys v f)
      ([] ++ Ev 1 (resume_ctx run_cpu (v_mem v)) 0 c1 :: [] ++ [Ev 0 c2 1 c3]) s'.
Proof.
  intros Hv Hf. pose proof (run_sys_ok v Hv f Hf) as Hok.
  edestruct (yield_chosen (run_sys v f) (run_ctx v) 1 run_regs run_cpu) as (c1 & s1 & Hst & Ht & Hc);
    [exact Hok|reflexivity|exact run_frame|vm_compute; split; [discriminate|reflexivity]|vm_compute; reflexivity|].
  destruct (kstep_sim 131072 65536 69632 4 (run_sys v f) _ s1 (1, run_ctx v) run_placed (conj Hok eq_refl) Hst)
    as [([j G1] & _ & Hok1 & _) _].
  edestruct (yield_chosen s1 G1 0 idle_regs idle_cpu) as (c3 & s2 & Hst2 & _ & _);
    [exact Hok1|exact Hc|exact idle_frame|vm_compute; split; [discriminate|reflexivity]|rewrite Ht; vm_compute; reflexivity|].
  exists c1, (resume_ctx idle_cpu (y_mem s1)), c3, s2. eapply runs_event; [exact Hst|]. eapply runs_event; [exact Hst2|constructor].
Qed.



(** The idle process runs while the other one waits. *)
Lemma run_isolates_witness :
  ∃ v f c1 s1 s2, kstep 131072 65536 4 args_ok (run_sys v f) (Some (Ev 1 (resume_ctx run_cpu (v_mem v)) 0 c1)) s1 ∧
    runs (kstep 131072 65536 4 args_ok) s1 [] s2 ∧ s2 ≠ s1 ∧ keeps 1 (y_k s1) (y_k s2).
Proof.
  destruct demo_formatted as (f & Hf & _), run_vm_exists as (v & Hv). exists v, f. pose proof (run_sys_ok v Hv f Hf) as Hok.
  edestruct (yield_chosen (run_sys v f) (run_ctx v) 1 run_regs run_cpu) as (c1 & s1 & Hst & Ht & Hc);
    [exact Hok|reflexivity|exact run_frame|vm_compute; split; [discriminate|reflexivity]|vm_compute; reflexivity|].
  destruct (kstep_sim 131072 65536 69632 4 (run_sys v f) _ s1 (1, run_ctx v) run_placed (conj Hok eq_refl) Hst)
    as [([j G1] & _ & Hok1 & _) _].
  pose (r := Cmos (cm_index (y_rtc s1) + 1) 0 0 demo_time).
  assert (runs (kstep 131072 65536 4 args_ok) s1 [] (set_rtc r s1)) as Hr.
  { eapply runs_silent; [|constructor]. apply kstep_clock. simpl. lia. }
  exists c1, s1, (set_rtc r s1). split; [exact Hst|]. split; [exact Hr|]. split.
  - intros E. assert (cm_index (y_rtc (set_rtc r s1)) = cm_index (y_rtc s1)) as X by (by rewrite E). simpl in X. lia.
  - apply (run_isolates 131072 65536 69632 4 G1 s1 0 [] (set_rtc r s1) 1 run_placed Hok1 Hc Hr); [discriminate|].
    intros e He. by apply elem_of_nil in He.
Defined.
