(* ===== verification/Tlb.v ===== *)
(** * The translation look-aside buffer ([paging_flush_tlb] of [src/kernel/paging.c])

    The other files translate addresses by a walk through the page tables.  The processor
    keeps the entries it has found, and uses them until INVLPG drops one or a load of CR3
    drops all of them.  Here the buffer is modelled: it fills at any time with any entry
    of the present tables, loses entries at any time, and is emptied when CR3 changes,
    which is when [process_before_switch] calls [paging_switch].  In every run of the
    kernel the buffer agrees with the tables, so that a translation through it is the walk
    after all: the kernel needs no flush but the two it has. *)

From stdpp Require Import gmap.
From S2P Require Import Prelude Mem CString Kmem Pmm Paging Process Pipe Keyboard Vga Console.
From S2P Require Import Ports Pic Rtc Timer Ata Fs Fd Elf UserMem Spaces Coroutines System Irqs Syscalls Safety Runs.

(** Page-table entries, by the number of the virtual page. *)
Abbreviation tlb := (gmap Z Z).

(** The processor walks the tables for [virt] and keeps what it finds. *)
Definition tlb_load (m : mem) (cr3 virt : Z) (t : tlb) : tlb :=
  match mmu_pte m cr3 virt with Some e => <[virt `div` 4096 := e]> t | None => t end.

(** INVLPG. *)
Definition paging_flush_tlb (virt : Z) (t : tlb) : tlb := delete (virt `div` 4096) t.

(** Translation with the buffer. *)
Definition tlb_walk (m : mem) (cr3 : Z) (t : tlb) (virt : Z) : option Z :=
  e ← (match t !! (virt `div` 4096) with Some e => Some e | None => mmu_pte m cr3 virt end);
  Some (Z.land e (not32 4095) + virt `mod` 4096).

(** Every entry is the one in the tables. *)
Definition coherent (m : mem) (cr3 : Z) (t : tlb) : Prop :=
  ∀ n e, t !! n = Some e → 0 ≤ n < 1048576 ∧ mmu_pte m cr3 (4096 * n) = Some e.

(** [paging_map_page] with its flush. *)
Definition map_page_flush (page_directory virt phys flags : Z) (v : vm pmm) (t : tlb) : vm pmm * tlb :=
  if decide (Z.land (ent (v_mem v) page_directory (pd_index virt)) PAGE_PRESENT = 0) then (v, t)
  else (paging_map_page page_directory virt phys flags v, paging_flush_tlb virt t).

(** ** Pages *)

Lemma page_indices virt n : virt `div` 4096 = n → pd_index virt = pd_index (4096 * n) ∧ pt_index virt = pt_index (4096 * n).
Proof.
  intros <-. rewrite !pd_index_eq, !pt_index_eq. split; [zdm|]. f_equal. zdm.
Qed.

Lemma pte_of_page m cr3 virt : mmu_pte m cr3 virt = mmu_pte m cr3 (4096 * (virt `div` 4096)).
Proof. unfold mmu_pte. by destruct (page_indices virt (virt `div` 4096) eq_refl) as [-> ->]. Qed.

Lemma coherent_walk m cr3 t virt : coherent m cr3 t → tlb_walk m cr3 t virt = mmu_walk m cr3 virt.
Proof.
  intros H. unfold tlb_walk, mmu_walk. destruct (t !! (virt `div` 4096)) as [e|] eqn:E; [|done].
  by rewrite (pte_of_page m), (proj2 (H _ _ E)).
Qed.

Lemma coherent_load m cr3 virt t : is_u32 virt → coherent m cr3 t → coherent m cr3 (tlb_load m cr3 virt t).
Proof.
  intros Hv H n e. unfold tlb_load. destruct (mmu_pte m cr3 virt) as [e'|] eqn:E; [|by apply H].
  rewrite pte_of_page in E. intros [[<- <-]|[_ He]]%lookup_insert_Some; [split; [unfold is_u32 in Hv; zdm|done]|by apply H].
Qed.

Lemma coherent_sub m cr3 (t t' : tlb) : coherent m cr3 t → t' ⊆ t → coherent m cr3 t'.
Proof. intros H Hs n e He. apply H. by eapply lookup_weaken. Qed.

Lemma coherent_empty m cr3 : coherent m cr3 ∅.
Proof. intros n e. by rewrite lookup_empty. Qed.

(** ** [paging_map_page] *)

Section map_page.
Context (page_directory page_tables : Z).
Hypothesis Hpd : aligned page_directory ∧ 4096 ≤ page_directory < 1048576.
Hypothesis Hpt : aligned page_tables ∧ 4096 ≤ page_tables < 1048576 - 4096.
Hypothesis Hapart : page_directory + 4096 ≤ page_tables ∨ page_tables + 8192 ≤ page_directory.

(** The kernel directory: two tables and no others; their entries may be anything. *)
Definition kernel_tables (m : mem) : Prop :=
  (∀ t, 0 ≤ t < 2 → ent m page_directory t = page_tables + t * 4096 + 3) ∧
  (∀ t, 2 ≤ t < 1024 → ent m page_directory t = 0).

Definition new_pte (phys flags : Z) : Z := Z.lor (Z.lor (Z.land phys (not32 4095)) PAGE_PRESENT) (Z.land flags 4094).

Lemma new_pte_eq phys flags :
  is_u32 phys → ∃ fl, 0 ≤ fl < 4096 ∧ fl `mod` 2 = 1 ∧ new_pte phys flags = 4096 * (phys `div` 4096) + fl.
Proof using.
  intros Hp. exists (Z.lor 1 (Z.land flags 4094)).
  pose proof (bits_small_land 12 flags 4094 ltac:(lia) ltac:(lia)) as Hf.
  pose proof (bits_small_lor 12 1 (Z.land flags 4094) ltac:(lia) ltac:(lia) Hf) as Hl. split; [done|]. split.
  - change 2 with (2 ^ 1). rewrite <-Z.land_ones, Z.land_lor_distr_l by lia.
    rewrite <-Z.land_assoc. change (Z.land 4094 (Z.ones 1)) with 0. by rewrite Z.land_0_r.
  - unfold new_pte. rewrite <-Z.lor_assoc, land_not32_4095 by done. apply lor_flags; [zdm|done].
Qed.

Lemma kernel_pte m virt :
  kernel_tables m → is_u32 virt →
  mmu_pte m page_directory virt =
    if decide (virt < 8388608) then
      let e := ent m (page_tables + pd_index virt * 4096) (pt_index virt) in
      if decide (Z.land e PAGE_PRESENT = 0) then None else Some e
    else None.
Proof using Hpd Hpt Hapart.
  intros [K1 K2] Hv. destruct Hpt as [Ha Hr]. unfold aligned in Ha. case_decide as Hlt.
  - assert (0 ≤ pd_index virt < 2) as Hi by (rewrite pd_index_eq; unfold is_u32 in Hv; zdm).
    apply (mmu_pte_table _ _ _ (page_tables + pd_index virt * 4096) 3); [unfold aligned; zdm|unfold is_u32; lia|lia|done|by apply K1].
  - apply mmu_pte_absent, K2, pd_index_user; [done|lia].
Qed.

(** Mapping a page of the kernel: the page is mapped where asked, all others as before, in
    the tables and in the buffer; outside the two tables nothing happens. *)
Definition page_mapped (virt phys : Z) (v v' : vm pmm) (t t' : tlb) : Prop :=
  kernel_tables (v_mem v') ∧ v_cr3 v' = page_directory ∧ coherent (v_mem v') (v_cr3 v') t' ∧
  ∀ x, is_u32 x → tlb_walk (v_mem v') (v_cr3 v') t' x =
    if decide (x `div` 4096 = virt `div` 4096 ∧ virt < 8388608) then Some (4096 * (phys `div` 4096) + x `mod` 4096)
    else tlb_walk (v_mem v) (v_cr3 v) t x.

Lemma map_page_coherent v t virt phys flags :
  kernel_tables (v_mem v) → v_cr3 v = page_directory → is_u32 virt → is_u32 phys → coherent (v_mem v) (v_cr3 v) t →
  let '(v', t') := map_page_flush page_directory virt phys flags v t in page_mapped virt phys v v' t t'.
Proof using Hpd Hpt Hapart.
  intros Hk Hc Hv Hp Ht. unfold page_mapped. pose proof Hk as [K1 K2]. destruct Hpt as [Ha Hr], Hpd as [Hda Hdr]. unfold aligned in Ha, Hda.
  destruct (decide (8388608 ≤ virt)) as [Hhigh|Hlow].
  { unfold map_page_flush. rewrite K2 by (by apply pd_index_user). rewrite decide_True by done. split; [done|]. split; [done|].
    split; [done|]. intros x _. by rewrite decide_False by lia. }
  assert (0 ≤ pd_index virt < 2) as Hi by (rewrite pd_index_eq; unfold is_u32 in Hv; zdm). pose proof (pt_index_range virt) as Hj.
  unfold map_page_flush, paging_map_page. rewrite K1 by done.
  rewrite pte_present by (done || zdm). rewrite !decide_False by done. rewrite pte_addr by (done || zdm || (unfold is_u32; zdm)).
  fold (new_pte phys flags). destruct (new_pte_eq phys flags Hp) as (fl & F1 & F2 & ->). unfold is_u32 in Hp.
  set (m := set_ent _ _ _ _). cbn [v_mem v_cr3]. rewrite Hc in *.
  assert (kernel_tables m) as Hk' by (split; intros u Hu; unfold m; rewrite ent_set_ne by lia; auto).
  assert (∀ x, is_u32 x → mmu_pte m page_directory x =
    if decide (x `div` 4096 = virt `div` 4096) then Some (4096 * (phys `div` 4096) + fl) else mmu_pte (v_mem v) page_directory x) as Hpte.
  { intros x Hx. rewrite !kernel_pte by done. destruct (decide (x `div` 4096 = virt `div` 4096)) as [Hxv|Hxv].
    - rewrite decide_True by zdm. destruct (page_indices x _ Hxv) as [-> ->], (page_indices virt _ eq_refl) as [<- <-].
      unfold m. rewrite ent_set_eq by (unfold is_u32; zdm). cbv zeta. rewrite pte_present by (done || zdm). by rewrite decide_False by lia.
    - case_decide; [|done]. cbv zeta. unfold m. rewrite ent_set_ne; [done|]. pose proof (pt_index_range x).
      assert (0 ≤ pd_index x < 2) by (rewrite pd_index_eq; unfold is_u32 in Hx; zdm).
      revert Hxv. rewrite !pd_index_eq, !pt_index_eq in *. unfold is_u32 in *. clear - Hx Hv. zdm. }
  assert (coherent m page_directory (paging_flush_tlb virt t)) as Ht'.
  { unfold paging_flush_tlb. intros n e [Hn He]%lookup_delete_Some. apply Ht in He as [Hr' He]. split; [done|].
    rewrite Hpte by (unfold is_u32; lia). rewrite decide_False; [done|]. intros X. apply Hn. rewrite <-X. zdm. }
  split; [done|]. split; [done|]. split; [done|]. intros x Hx. rewrite !coherent_walk by done. unfold mmu_walk. rewrite Hpte by done.
  destruct (decide (x `div` 4096 = virt `div` 4096)) as [Hxv|Hxv]; [rewrite decide_True by lia|by rewrite decide_False by tauto]. cbn [mbind option_bind]. f_equal.
  by rewrite pte_addr by (done || zdm || (unfold is_u32; zdm)).
Qed.
End map_page.

(** ** Runs *)

Section tlb_runs.
Context (process_table page_directory page_tables : Z) (rtc_fuel : nat).
Context {D : Type} `{!BlockDevice D}.
Implicit Types (s : sys D pics cmos) (G : Z → cpu) (t : tlb).

Abbreviation placed := (placed process_table page_directory page_tables).
Abbreviation sys_ok := (sys_ok process_table page_directory page_tables rtc_fuel).
Abbreviation kernel_only := (kernel_only page_directory).
Abbreviation kstep := (kstep process_table page_directory rtc_fuel args_ok).
Abbreviation leaves := (leaves process_table).
Abbreviation y_cr3 s := (v_cr3 (y_vm s)).

(** A step of the kernel, which empties the buffer if it changes CR3; and what the
    processor does with the buffer by itself. *)
Inductive tstep : sys D pics cmos * tlb → option event → sys D pics cmos * tlb → Prop :=
| tstep_kernel s t e s' : kstep s e s' → tstep (s, t) e (s', if decide (y_cr3 s' = y_cr3 s) then t else ∅)
| tstep_load s t x : is_u32 x → tstep (s, t) None (s, tlb_load (y_mem s) (y_cr3 s) x t)
| tstep_evict s t t' : t' ⊆ t → tstep (s, t) None (s, t').

Lemma cr3_cases G s i :
  placed → sys_ok G s → k_current (y_k s) = Some i →
  identity_map (y_mem s) (y_cr3 s) page_tables ∧ (y_cr3 s = page_directory ∨ 1048576 ≤ y_cr3 s ∧ pd_wf (y_vm s) (y_cr3 s)).
Proof.
  intros Hpl Hok Hc. pose proof (so_procs _ _ _ _ _ _ Hok) as Hp. pose proof (pr_spaces _ _ _ _ _ (pr_pre _ _ _ _ _ Hp)) as Hs.
  pose proof (pr_cr3 _ _ _ _ _ Hp) as Hcr. unfold cr3_ok in Hcr. rewrite Hc in Hcr. change (v_cr3 (k_vm (y_k s))) with (y_cr3 s) in Hcr.
  destruct (aget (k_table (y_k s)) i) as [p|] eqn:Ei; [|rewrite Hcr; split; [apply (sp_kernel _ _ _ Hs)|by left]].
  case_decide as Hz; [rewrite Hcr; split; [apply (sp_kernel _ _ _ Hs)|by left]|].
  assert (space_of (y_k s) i (y_cr3 s)) as Hsp by (exists p; split; [done|]; split; [done|by rewrite Hcr]).
  pose proof (sp_wf _ _ _ Hs i _ Hsp) as Hwf. split; [by apply (sp_maps _ _ _ Hs i)|]. right. split; [|done]. apply (wf_pd _ _ Hwf).
Qed.

(** As long as CR3 is the same, so are all entries it leads to. *)
Lemma pte_same G G' s s' i j x :
  placed → sys_ok G s → k_current (y_k s) = Some i → sys_ok G' s' → k_current (y_k s') = Some j →
  kernel_only (y_mem s) → kernel_only (y_mem s') → leaves s s' → y_cr3 s' = y_cr3 s → is_u32 x →
  mmu_pte (y_mem s') (y_cr3 s') x = mmu_pte (y_mem s) (y_cr3 s) x.
Proof.
  intros Hpl Hok Hc Hok' Hc' Hk Hk' Hl E Hx. pose proof Hpl as [_ [Pt1 Pt2] _ _ _].
  destruct (cr3_cases G s i Hpl Hok Hc) as [Hid Hcs], (cr3_cases G' s' j Hpl Hok' Hc') as [Hid' Hcs']. rewrite E in *.
  destruct (decide (x < 8388608)) as [Hlow|Hhigh].
  { rewrite !(identity_map_pte _ _ page_tables) by (done || (unfold is_u32 in Hx; lia)). done. }
  pose proof (pd_index_user x Hx ltac:(lia)) as Hi. destruct Hcs as [->|[Hge Hwf]].
  { by rewrite !mmu_pte_absent by (by apply Hk || by apply Hk'). }
  destruct Hcs' as [Ed|[_ Hwf']]; [destruct Hpl as [[_ ?] _ _ _ _]; lia|]. pose proof (lv_own _ _ _ Hl Hge) as Ho.
  assert (∀ e, mmu_pte (y_mem s') (y_cr3 s) x = Some e ↔ mmu_pte (y_mem s) (y_cr3 s) x = Some e) as He.
  { intros e. etrans; [apply (user_pte_iff (y_vm s')); [done|done|lia]|]. etrans; [|symmetry; apply (user_pte_iff (y_vm s)); [done|done|lia]].
    split; intros (F & HF & ->); exists F; (split; [|done]); by apply Ho. }
  apply option_eq. exact He.
Qed.

Lemma kernel_only_step s s' i :
  placed → 0 ≤ i < 16 → k_current (y_k s) = Some i → leaves s s' → kernel_only (y_mem s) → kernel_only (y_mem s').
Proof.
  intros Hpl Hi Hc Hl Hk n Hn. rewrite <-(Hk n Hn). apply ent_ext. intros b Hb. pose proof Hpl as [[P1 P2] _ _ _ _]. unfold aligned in P1.
  apply (lv_low _ _ _ Hl i); [done|zdm|]. intros Hin. apply (kstack_low process_table page_directory page_tables i b Hpl Hi) in Hin as [_ Hin].
  apply Hin. right. left. lia.
Qed.

(** The state of a run: the kernel in order, and the buffer coherent. *)
Definition tlb_ok (a : Z * (Z → cpu)) (st : sys D pics cmos * tlb) : Prop :=
  stands_for process_table page_directory page_tables rtc_fuel st.1 a ∧ kernel_only (y_mem st.1) ∧
  coherent (y_mem st.1) (y_cr3 st.1) st.2.

Lemma tstep_ok st e st' a : placed → tlb_ok a st → tstep st e st' → ∃ a', tlb_ok a' st'.
Proof.
  intros Hpl (Hst & Hk & Ht) H. destruct H as [s t e s' H|s t x Hx|s t t' Hs]; cbn [fst snd] in *.
  - destruct (kstep_sim process_table page_directory page_tables rtc_fuel s e s' a Hpl Hst H) as [(a' & _ & Hst') Hl].
    destruct a as [i G], a' as [j G'], Hst as [Hok Hc], Hst' as [Hok' Hc']. cbn [fst snd] in *.
    assert (0 ≤ i < 16) as Hi by (by apply (kinv_cur (y_k s)); [apply Hok|]).
    pose proof (kernel_only_step s s' i Hpl Hi Hc Hl Hk) as Hk'. exists (j, G'). split; [done|]. split; [done|]. cbn [fst snd].
    case_decide as E; [|apply coherent_empty]. intros n e' He. destruct (Ht n e' He) as [Hn Hp]. split; [done|].
    rewrite <-Hp. apply (pte_same G G' s s' i j); try done. unfold is_u32. lia.
  - exists a. split; [done|]. split; [done|]. by apply coherent_load.
  - exists a. split; [done|]. split; [done|]. by apply (coherent_sub _ _ t).
Qed.

(** C9: the buffer is never stale.  In every run of the kernel whose system calls pass
    buffers and names of the caller's own and in which no process kills itself
    ([args_ok]), with entries cached and
    dropped by the processor at any time and the buffer emptied only when CR3 changes,
    every address is translated as the present page tables say: system calls, interrupts
    and switches need no further flush.  And [paging_map_page], which no step of a run
    calls, keeps the buffer right by the INVLPG it ends with: under the kernel's
    directory, with any entry cached, it maps the page where it is asked to and no other
    page, in the tables and through the buffer. *)
Theorem tlb_never_stale G s i t tr s' t' :
  placed → sys_ok G s → k_current (y_k s) = Some i → kernel_only (y_mem s) → coherent (y_mem s) (y_cr3 s) t →
  runs tstep (s, t) tr (s', t') →
  (∀ x, tlb_walk (y_mem s') (y_cr3 s') t' x = mmu_walk (y_mem s') (y_cr3 s') x) ∧
  ∀ v u virt phys flags,
    page_directory + 4096 ≤ page_tables ∨ page_tables + 8192 ≤ page_directory →
    kernel_tables page_directory page_tables (v_mem v) → v_cr3 v = page_directory → is_u32 virt → is_u32 phys →
    coherent (v_mem v) (v_cr3 v) u →
    let '(v', u') := map_page_flush page_directory virt phys flags v u in
    page_mapped page_directory page_tables virt phys v v' u u'.
Proof.
  intros Hpl Hok Hc Hk Ht H. split; [|intros v u virt phys flags Hap; by apply map_page_coherent; [apply Hpl..|]]. intros x. apply coherent_walk.
  assert (∃ a, tlb_ok a (s, t)) as Ha by (by exists (i, G)). change s' with (s', t').1. change t' with (s', t').2 at 3.
  revert Ha. clear -H Hpl. induction H as [st|s1 s2 s3 tr Hst Hr IH|s1 s2 s3 e tr Hst Hr IH]; intros (a & Ha).
  - apply Ha.
  - apply IH. by apply (tstep_ok s1 None s2 a).
  - apply IH. by apply (tstep_ok s1 (Some e) s2 a).
Qed.
End tlb_runs.

(** ** Examples *)

(** A process whose first kernel page is cached, while the clock goes on. *)
Lemma tlb_never_stale_witness :
  ∃ v f s', runs (tstep 131072 65536 4) (run_sys v f, ∅) [] (s', {[1 := 4099]}) ∧
    tlb_walk (y_mem s') (v_cr3 (y_vm s')) {[1 := 4099]} 4097 = mmu_walk (y_mem s') (v_cr3 (y_vm s')) 4097 ∧
    let '(v', t') := map_page_flush 65536 4096 2097152 3 demo_vm {[1 := 4099]} in
    tlb_walk (v_mem v') (v_cr3 v') t' 4097 = Some 2097153.
Proof.
  destruct demo_formatted as (f & Hf & _), run_vm_exists as (v & Hv). exists v, f.
  pose (r := Cmos 1 0 0 demo_time). exists (set_rtc r (run_sys v f)).
  assert (runs (tstep 131072 65536 4) (run_sys v f, ∅) [] (set_rtc r (run_sys v f), {[1 := 4099]})) as Hr.
  { assert (tlb_load (v_mem v) 1048576 4096 ∅ = {[1 := 4099]}) as El.
    { unfold tlb_load. rewrite (identity_map_pte _ 1048576 69632 4096) by (apply demo_kt || apply Hv || lia). reflexivity. }
    eapply runs_silent; [apply (tstep_load 131072 65536 4 (run_sys v f) ∅ 4096); unfold is_u32; lia|].
    change (y_mem (run_sys v f)) with (v_mem v). change (y_vm (run_sys v f)) with v. rewrite (rv_cr3 v Hv), El.
    eapply runs_silent; [|constructor].
    replace (set_rtc r (run_sys v f), {[1 := 4099]}) with (set_rtc r (run_sys v f),
      if decide (v_cr3 (y_vm (set_rtc r (run_sys v f))) = v_cr3 (y_vm (run_sys v f))) then {[1 := 4099]} else (∅ : tlb)) by (by rewrite decide_True).
    apply tstep_kernel. apply kstep_clock. simpl. lia. }
  split; [exact Hr|].
  destruct (tlb_never_stale 131072 65536 69632 4 (run_ctx v) (run_sys v f) 1 ∅ [] (set_rtc r (run_sys v f)) {[1 := 4099]}
    run_placed (run_sys_ok v Hv f Hf) eq_refl (rv_rest v Hv) (coherent_empty _ _) Hr) as [H1 H2].
  split; [apply H1|]. specialize (H2 demo_vm {[1 := 4099]} 4096 2097152 3).
  destruct (paging_init_entries 65536 69632 demo_kd demo_kt ltac:(lia) (Vm ∅ small_pmm 0 0)) as (I1 & I2 & I3).
  destruct (map_page_flush _ _ _ _ _ _) as [v' t'] eqn:E. destruct H2 as (_ & _ & _ & H); [left; lia|by split|reflexivity|unfold is_u32; lia|unfold is_u32; lia| |].
  - intros n e [<- <-]%lookup_singleton_Some. split; [lia|]. apply (identity_map_pte _ 65536 69632 4096); [apply demo_kt|apply demo_kt|by split|lia].
  - rewrite H by (unfold is_u32; lia). reflexivity.
Defined.
