(* ===== verification/Stubs.v ===== *)
(** * Entering and leaving the kernel ([src/kernel/isr.asm])

    What the processor does on an interrupt, the entry stubs instruction by
    instruction, the call of the C dispatcher of [System], and the way back to IRET.
    The theorems say that an interrupt is invisible to the code it interrupts, also
    when the code is preempted in between, and that a system call changes EAX only.

    What C code leaves below the frame on the stack is dead and not modelled, as in
    [Process]. *)

From Stdlib Require Import String.
From S2P Require Import Prelude Mem CString Kmem Pmm Paging Process Pipe Keyboard Vga Console Ports.
From S2P Require Import Desc Pic Rtc Timer Ata Fs Fd Elf UserMem Spaces Coroutines System Irqs Syscalls Safety Runs.

(** The registers of the processor; [g_esp] is an address in the segment [g_ss]. *)
Record machine := Machine {
  g_eax : Z; g_ecx : Z; g_edx : Z; g_ebx : Z; g_esp : Z; g_ebp : Z; g_esi : Z; g_edi : Z;
  g_eip : Z; g_cs : Z; g_eflags : Z; g_ss : Z; g_ds : Z; g_es : Z; g_fs : Z; g_gs : Z
}.

Definition set_g_eax (v : Z) (r : machine) : machine :=
  Machine v (g_ecx r) (g_edx r) (g_ebx r) (g_esp r) (g_ebp r) (g_esi r) (g_edi r)
    (g_eip r) (g_cs r) (g_eflags r) (g_ss r) (g_ds r) (g_es r) (g_fs r) (g_gs r).

(** A run of PUSH instructions. *)
Fixpoint push_all (vs : list Z) (esp : Z) (m : mem) : Z * mem :=
  match vs with
  | [] => (esp, m)
  | v :: vs => let '(esp, m) := push v esp m in push_all vs esp m
  end.

(** ** The processor *)

(** Interrupted in ring 3. *)
Definition from_user (r : machine) : Prop := Z.land (g_cs r) 3 = 3.
#[export] Instance from_user_dec r : Decision (from_user r).
Proof. unfold from_user. apply _. Defined.

(** The exceptions for which an i386 pushes an error code. *)
Definition cpu_error_code (n : Z) : bool := bool_decide (n ∈ [8; 10; 11; 12; 13; 14; 17]).

(** The stack after the delivery of vector [n]: from ring 3 the stack is the one of
    the TSS, and the old one is saved first. *)
Definition cpu_pushes (n err esp0 : Z) (r : machine) (m : mem) : Z * mem :=
  let '(esp, m) := if decide (from_user r) then push_all [g_ss r; g_esp r] esp0 m else (g_esp r, m) in
  let '(esp, m) := push_all [g_eflags r; g_cs r; g_eip r] esp m in
  if cpu_error_code n then push err esp m else (esp, m).

(** IRET in ring 0, to the frame at [esp]: the registers it loads, that is EIP, CS,
    EFLAGS, ESP and SS.  [ss] is the stack segment in use. *)
Definition iret (ss esp : Z) (m : mem) : Z * Z * Z * Z * Z :=
  let '(eip, esp) := pop m esp in
  let '(cs, esp) := pop m esp in
  let '(eflags, esp) := pop m esp in
  if decide (Z.land (u16 cs) 3 = 3) then
    let '(uesp, esp) := pop m esp in
    let '(uss, esp) := pop m esp in
    (eip, u16 cs, eflags, uesp, u16 uss)
  else (eip, u16 cs, eflags, esp, ss).

(** A data segment register after an IRET to ring 3: the processor clears it if it
    holds a segment of ring 0, GDT_SEL_KCODE or GDT_SEL_KDATA. *)
Definition iret_segment (cs sel : Z) : Z :=
  if decide (Z.land cs 3 = 3 ∧ GDT_SEL_KCODE ≤ sel < GDT_SEL_UCODE) then 0 else sel.

(** ** The stubs *)

(** The three macros, for the vectors 0 to 19 and for the 16 lines. *)
Inductive stub := ISR_NOERRCODE (n : Z) | ISR_ERRCODE (n : Z) | IRQ (irq vector : Z).

Definition isr_stubs : list stub :=
  [ISR_NOERRCODE 0; ISR_NOERRCODE 1; ISR_NOERRCODE 2; ISR_NOERRCODE 3; ISR_NOERRCODE 4;
   ISR_NOERRCODE 5; ISR_NOERRCODE 6; ISR_NOERRCODE 7; ISR_ERRCODE 8; ISR_NOERRCODE 9;
   ISR_ERRCODE 10; ISR_ERRCODE 11; ISR_ERRCODE 12; ISR_ERRCODE 13; ISR_ERRCODE 14;
   ISR_NOERRCODE 15; ISR_NOERRCODE 16; ISR_ERRCODE 17; ISR_NOERRCODE 18; ISR_NOERRCODE 19].

Definition irq_stubs : list stub :=
  [IRQ 0 32; IRQ 1 33; IRQ 2 34; IRQ 3 35; IRQ 4 36; IRQ 5 37; IRQ 6 38; IRQ 7 39;
   IRQ 8 40; IRQ 9 41; IRQ 10 42; IRQ 11 43; IRQ 12 44; IRQ 13 45; IRQ 14 46; IRQ 15 47].

Definition stub_pushes (b : stub) (esp : Z) (m : mem) : Z * mem :=
  match b with
  | ISR_NOERRCODE n => push_all [0; n] esp m
  | ISR_ERRCODE n => push n esp m
  | IRQ _ vector => push_all [0; vector] esp m
  end.

(** The stub that the gate of a vector leads to. *)
Definition stub_of (n : Z) : option stub :=
  if decide (n < 32) then aget isr_stubs n else aget irq_stubs (n - 32).

Definition pusha (r : machine) (esp : Z) (m : mem) : Z * mem :=
  push_all [g_eax r; g_ecx r; g_edx r; g_ebx r; esp; g_ebp r; g_esi r; g_edi r] esp m.

(** PUSHA and the segment registers; a segment register is pushed as 32 bits. *)
Definition save_frame (r : machine) (esp : Z) (m : mem) : Z * mem :=
  let '(esp, m) := pusha r esp m in push_all [g_ds r; g_es r; g_fs r; g_gs r] esp m.

(** The end of the stubs, from [pop gs] to [iret]. *)
Definition stub_leave (ss esp : Z) (m : mem) : machine :=
  let '(gs, esp) := pop m esp in
  let '(fs, esp) := pop m esp in
  let '(es, esp) := pop m esp in
  let '(ds, esp) := pop m esp in
  let '(edi, esp) := pop m esp in
  let '(esi, esp) := pop m esp in
  let '(ebp, esp) := pop m esp in
  let '(_, esp) := pop m esp in
  let '(ebx, esp) := pop m esp in
  let '(edx, esp) := pop m esp in
  let '(ecx, esp) := pop m esp in
  let '(eax, esp) := pop m esp in
  let esp := u32 (esp + 8) in
  let '(eip, cs, eflags, esp, ss) := iret ss esp m in
  Machine eax ecx edx ebx esp ebp esi edi eip cs eflags ss
    (iret_segment cs (u16 ds)) (iret_segment cs (u16 es)) (iret_segment cs (u16 fs)) (iret_segment cs (u16 gs)).

(** The stack segment in the handler. *)
Definition handler_ss (r : machine) : Z := if decide (from_user r) then GDT_SEL_KDATA else g_ss r.

(** How an interrupt ends: the interrupted code goes on; another process runs, and the
    code goes on later; or the machine has halted. *)
Inductive interrupted (S : Type) := Resumed (r : machine) (s : S) | Away (c : cpu) (s : S) | Stopped (s : S).
Arguments Resumed {S} _ _.
Arguments Away {S} _ _.
Arguments Stopped {S} _.

Section stubs.
Context (process_table page_directory : Z) (rtc_fuel : nat).
(** The addresses behind the two [call] instructions. *)
Context (stub_ret syscall_ret : Z).
Context {D : Type} `{!BlockDevice D} {P : Type} `{!PortIO P} {R : Type} `{!PortIO R}.
Implicit Types (s : sys D P R).

Definition set_mem (m : mem) s : sys D P R := set_k (with_k_mem m (y_k s)) s.

(** From the complete frame on: the argument, the call, and the way back. *)
Definition call_handler (ret : Z) (handler : Z → sys D P R → option (exit (sys D P R)))
    (r : machine) (esp : Z) (m : mem) s : option (interrupted (sys D P R)) :=
  let '(regs, m) := save_frame r esp m in
  let '(_, m) := push_all [regs; ret] regs m in
  x ← handler regs (set_mem m s);
  Some match x with
       | Returned s => Resumed (stub_leave (handler_ss r) regs (y_mem s)) s
       | Switched c s => Away c s
       | Halted s => Stopped s
       end.

(** Vector [n] with error code [err] arrives at the code with the registers [r]; [sc]
    is the byte at port 0x60, [c] the context if the handler yields. *)
Definition take_interrupt (n err sc : Z) (c : cpu) (r : machine) s : option (interrupted (sys D P R)) :=
  b ← stub_of n;
  let '(esp, m) := cpu_pushes n err (k_esp0 (y_k s)) r (y_mem s) in
  let '(esp, m) := stub_pushes b esp m in
  call_handler stub_ret (λ regs s, interrupt_handler process_table page_directory regs sc c s) r esp m s.

(** INT 0x80 and [isr_syscall]; [g_eip r] is the address behind the INT. *)
Definition take_syscall (c : cpu) (r : machine) s : option (interrupted (sys D P R)) :=
  let '(esp, m) := cpu_pushes 128 0 (k_esp0 (y_k s)) r (y_mem s) in
  let '(esp, m) := push_all [0; 128] esp m in
  call_handler syscall_ret (λ regs s, syscall_handler process_table page_directory rtc_fuel regs c s) r esp m s.
End stubs.

(** ** Words on the stack *)

Fixpoint words_at (m : mem) (a : Z) (ws : list Z) : Prop :=
  match ws with
  | [] => True
  | w :: ws => load32 m a = w ∧ words_at m (a + 4) ws
  end.

Lemma words_at_app m ws1 ws2 : ∀ a,
  words_at m a (ws1 ++ ws2) ↔ words_at m a ws1 ∧ words_at m (a + 4 * Z.of_nat (length ws1)) ws2.
Proof.
  induction ws1 as [|w ws IH]; intros a; cbn [app words_at length].
  - replace (a + 4 * Z.of_nat 0) with a by lia. naive_solver.
  - rewrite IH. replace (a + 4 + 4 * Z.of_nat (length ws)) with (a + 4 * Z.of_nat (S (length ws))) by lia. naive_solver.
Qed.

Lemma words_at_ext m m' ws : ∀ a,
  (∀ b, a ≤ b < a + 4 * Z.of_nat (length ws) → load8 m' b = load8 m b) → words_at m a ws → words_at m' a ws.
Proof.
  induction ws as [|w ws IH]; intros a H; cbn [words_at length] in *; [done|]. intros [<- Hw]. split.
  - apply load32_ext. intros b Hb. apply H. lia.
  - apply IH; [|done]. intros b Hb. apply H. lia.
Qed.

Lemma push_all_app vs1 vs2 : ∀ esp m,
  push_all (vs1 ++ vs2) esp m = (let '(esp, m) := push_all vs1 esp m in push_all vs2 esp m).
Proof. induction vs1 as [|v vs IH]; intros esp m; [done|]. cbn [app push_all push]. apply IH. Qed.

(** Pushed words are found in reverse order above the new stack pointer. *)
Lemma push_all_ok vs : ∀ esp m,
  4 * Z.of_nat (length vs) ≤ esp < 4294967296 → Forall is_u32 vs →
  ∃ m', push_all vs esp m = (esp - 4 * Z.of_nat (length vs), m') ∧
    words_at m' (esp - 4 * Z.of_nat (length vs)) (rev vs) ∧
    ∀ b, b < esp - 4 * Z.of_nat (length vs) ∨ esp ≤ b → load8 m' b = load8 m b.
Proof.
  induction vs as [|v vs IH]; intros esp m He Hv.
  { exists m. cbn [push_all length rev words_at]. replace (esp - 4 * Z.of_nat 0) with esp by lia. done. }
  cbn [push_all length rev] in *. apply Forall_cons_1 in Hv as [Hv Hvs]. unfold push.
  rewrite u32_small by (unfold is_u32; lia).
  destruct (IH (esp - 4) (store32 m (esp - 4) v)) as (m' & -> & Hw & Ho); [lia|done|].
  replace (esp - 4 - 4 * Z.of_nat (length vs)) with (esp - 4 * Z.of_nat (S (length vs))) in * by lia.
  exists m'. split; [done|]. split.
  - apply words_at_app. split; [done|]. rewrite length_rev.
    replace (esp - 4 * Z.of_nat (S (length vs)) + 4 * Z.of_nat (length vs)) with (esp - 4) by lia.
    split; [|done]. transitivity (load32 (store32 m (esp - 4) v) (esp - 4)); [|by apply load32_store32_eq].
    apply load32_ext. intros b Hb. apply Ho. lia.
  - intros b Hb. rewrite Ho by lia. apply load8_store32_ne. lia.
Qed.

(** ** The frame *)

(** What the stack holds from [regs] upwards when the dispatcher is called: a
    [registers_t], and from ring 3 the stack of the user. *)
Definition frame_words (old n err : Z) (r : machine) : list Z :=
  [g_gs r; g_fs r; g_es r; g_ds r; g_edi r; g_esi r; g_ebp r; old; g_ebx r; g_edx r; g_ecx r; g_eax r; n; err;
   g_eip r; g_cs r; g_eflags r] ++ (if decide (from_user r) then [g_esp r; g_ss r] else []).

(** Where the frame begins, and its size. *)
Definition stack_base (esp0 : Z) (r : machine) : Z := if decide (from_user r) then esp0 else g_esp r.
Definition frame_size (r : machine) : Z := if decide (from_user r) then 76 else 68.

(** Selectors are 16 bits wide, and ring 3 holds none of ring 0. *)
Record segs_ok (r : machine) : Prop := SegsOk {
  so_width : Forall is_u16 [g_cs r; g_ss r; g_ds r; g_es r; g_fs r; g_gs r];
  so_user : from_user r → Forall (λ sel, ¬ GDT_SEL_KCODE ≤ sel < GDT_SEL_UCODE) [g_ds r; g_es r; g_fs r; g_gs r]
}.

(** Registers with values of their width. *)
Record machine_ok (r : machine) : Prop := MachineOk {
  mo_gp : Forall is_u32 [g_eax r; g_ecx r; g_edx r; g_ebx r; g_esp r; g_ebp r; g_esi r; g_edi r; g_eip r; g_eflags r];
  mo_segs : segs_ok r
}.

(** The macros give every vector its number and complete the frame exactly for the
    exceptions without an error code. *)
Definition stub_ok (n : Z) (b : stub) : Prop :=
  match b with
  | ISR_NOERRCODE k => k = n ∧ cpu_error_code n = false
  | ISR_ERRCODE k => k = n ∧ cpu_error_code n = true
  | IRQ irq vector => vector = n ∧ n = irq + 32 ∧ cpu_error_code n = false
  end.

Lemma stub_uniform n b : stub_of n = Some b → stub_ok n b ∧ 0 ≤ n < 48.
Proof.
  assert (∀ k b, isr_stubs !! k = Some b → stub_ok (Z.of_nat k) b ∧ (k < 20)%nat) as H1.
  { intros k b' Hk. pose proof (lookup_lt_Some _ _ _ Hk) as Hl. split; [|done]. simpl in Hl.
    do 20 (destruct k as [|k]; [by injection Hk as <-|]). lia. }
  assert (∀ k b, irq_stubs !! k = Some b → stub_ok (Z.of_nat k + 32) b ∧ (k < 16)%nat) as H2.
  { intros k b' Hk. pose proof (lookup_lt_Some _ _ _ Hk) as Hl. split; [|done]. simpl in Hl.
    do 16 (destruct k as [|k]; [by injection Hk as <-|]). lia. }
  unfold stub_of, aget. destruct (decide (n < 32)).
  - case_decide; [|done]. intros [Ho Hl]%H1. rewrite Z2Nat.id in Ho by lia. split; [done|lia].
  - case_decide; [|done]. intros [Ho Hl]%H2. rewrite Z2Nat.id in Ho by lia.
    replace (n - 32 + 32) with n in Ho by lia. split; [done|lia].
Qed.

(** What processor and stub push before PUSHA. *)
Definition entry_words (n err : Z) (r : machine) : list Z :=
  (if decide (from_user r) then [g_ss r; g_esp r] else []) ++ [g_eflags r; g_cs r; g_eip r; err; n].

Lemma cpu_pushes_eq n err esp0 r m :
  cpu_pushes n err esp0 r m =
  push_all ((if decide (from_user r) then [g_ss r; g_esp r] else []) ++
            [g_eflags r; g_cs r; g_eip r] ++ (if cpu_error_code n then [err] else [])) (stack_base esp0 r) m.
Proof.
  unfold cpu_pushes, stack_base. rewrite !push_all_app. case_decide; by destruct (cpu_error_code n).
Qed.

Lemma stub_entry n err esp0 r m b :
  stub_of n = Some b →
  (let '(esp, m) := cpu_pushes n err esp0 r m in stub_pushes b esp m) =
  push_all (entry_words n (if cpu_error_code n then err else 0) r) (stack_base esp0 r) m.
Proof.
  intros [Hb _]%stub_uniform. rewrite cpu_pushes_eq. unfold entry_words.
  assert (∀ esp m, stub_pushes b esp m = push_all (if cpu_error_code n then [n] else [0; n]) esp m) as Hs.
  { intros. destruct b as [k|k|i k]; [destruct Hb as [-> ->]|destruct Hb as [-> ->]|destruct Hb as (-> & _ & ->)]; done. }
  transitivity (push_all (((if decide (from_user r) then [g_ss r; g_esp r] else []) ++
    [g_eflags r; g_cs r; g_eip r] ++ (if cpu_error_code n then [err] else [])) ++
    (if cpu_error_code n then [n] else [0; n])) (stack_base esp0 r) m).
  - rewrite (push_all_app (_ ++ _)). destruct (push_all _ _ m) as [e m1]. apply Hs.
  - f_equal. rewrite <-app_assoc. f_equal. by destruct (cpu_error_code n).
Qed.

Ltac all_words := repeat first [apply Forall_nil_2 | apply Forall_cons_2; [by auto|]].

(** The complete frame, with the argument and the return address below it. *)
Lemma frame_built n err ret esp0 r m :
  machine_ok r → is_u32 n → is_u32 err → is_u32 ret →
  frame_size r + 8 ≤ stack_base esp0 r < 4294967296 →
  let base := stack_base esp0 r in
  let regs := base - frame_size r in
  ∃ old m', (let '(esp, m) := push_all (entry_words n err r) base m in
             let '(regs, m) := save_frame r esp m in
             let '(_, m) := push_all [regs; ret] regs m in (regs, m)) = (regs, m') ∧
    is_u32 old ∧ words_at m' regs (frame_words old n err r) ∧
    ∀ b, b < regs - 8 ∨ base ≤ b → load8 m' b = load8 m b.
Proof.
  intros [Hg [Hs _]] Hn Herr Hret Hb base regs. do 10 apply Forall_cons_1 in Hg as [? Hg]. do 6 apply Forall_cons_1 in Hs as [? Hs].
  assert (∀ z, is_u16 z → is_u32 z) as Hu by (unfold is_u16, is_u32; lia).
  assert (Z.of_nat (length (entry_words n err r)) * 4 + 48 = frame_size r) as Hlen
    by (unfold entry_words, frame_size; by case_decide).
  destruct (push_all_ok (entry_words n err r) base m) as (m1 & E1 & Hw1 & Ho1); [unfold base; lia| |].
  { unfold entry_words. case_decide; cbn [app]; all_words. }
  rewrite E1. set (old := base - 4 * Z.of_nat (length (entry_words n err r))) in *.
  assert (is_u32 old) as Hold by (unfold is_u32, old, base; lia).
  unfold save_frame, pusha. rewrite <-push_all_app. cbn [app].
  match goal with |- context [push_all ?l old m1] => destruct (push_all_ok l old m1) as (m2 & E2 & Hw2 & Ho2) end;
    [simpl length; unfold old, base in *; lia|all_words|].
  rewrite E2. cbn [length] in *. change (4 * Z.of_nat 12) with 48 in *.
  replace (old - 48) with regs in * by (unfold old, regs; lia).
  assert (is_u32 regs) by (unfold is_u32, regs, base; unfold frame_size in *; case_decide; lia).
  destruct (push_all_ok [regs; ret] regs m2) as (m3 & E3 & _ & Ho3);
    [simpl length; unfold regs, base; lia|all_words|].
  rewrite E3. cbn [length] in *. change (4 * Z.of_nat 2) with 8 in *. exists old, m3. split; [done|]. split; [done|]. split.
  - apply (words_at_ext m2).
    { intros b Hb'. apply Ho3. lia. }
    replace (frame_words old n err r) with
      ([g_gs r; g_fs r; g_es r; g_ds r; g_edi r; g_esi r; g_ebp r; old; g_ebx r; g_edx r; g_ecx r; g_eax r] ++
       rev (entry_words n err r)) by (unfold frame_words, entry_words; by case_decide).
    apply words_at_app. split; [exact Hw2|]. cbn [length]. change (4 * Z.of_nat 12) with 48.
    replace (regs + 48) with old by (unfold regs, old; lia). apply (words_at_ext m1); [|exact Hw1].
    intros b Hb'. apply Ho2. lia.
  - intros b Hb'. rewrite Ho3, Ho2, Ho1; [done|unfold old|unfold old|]; lia.
Qed.

Lemma u16_id z : is_u16 z → u16 z = z.
Proof. intros. by apply u16_small. Qed.

(** IRET and the pops take back what was pushed. *)
Lemma iret_words ss esp m r :
  segs_ok r → 0 ≤ esp → esp + 20 < 4294967296 →
  words_at m esp ([g_eip r; g_cs r; g_eflags r] ++ (if decide (from_user r) then [g_esp r; g_ss r] else [])) →
  (¬ from_user r → esp + 12 = g_esp r ∧ ss = g_ss r) →
  iret ss esp m = (g_eip r, g_cs r, g_eflags r, g_esp r, g_ss r).
Proof.
  intros [Hs _] He0 He1 Hw Hk. do 6 apply Forall_cons_1 in Hs as [? Hs].
  assert (∀ e, 0 ≤ e < 4294967292 → pop m e = (load32 m e, e + 4)) as Hp
    by (intros e He; unfold pop; by rewrite u32_small by (unfold is_u32; lia)).
  unfold iret. rewrite !Hp by lia. cbn [app words_at] in Hw. destruct Hw as (E1 & E2 & E3 & Hw).
  rewrite E1, E2, E3, u16_id by done. unfold from_user in *. destruct (decide (Z.land (g_cs r) 3 = 3)) as [Hu|Hu].
  - rewrite ?Hp by lia. cbn [words_at] in Hw. destruct Hw as (E4 & E5 & _). by rewrite E4, E5, u16_id by done.
  - destruct (Hk Hu) as [E4 ->]. by rewrite <-E4, <-!Z.add_assoc.
Qed.

Lemma stub_leave_words ss regs m old n err r :
  segs_ok r → 0 ≤ regs → regs + 76 < 4294967296 → words_at m regs (frame_words old n err r) →
  (¬ from_user r → regs + 68 = g_esp r ∧ ss = g_ss r) → stub_leave ss regs m = r.
Proof.
  intros Hr H0 H1 Hw Hk. unfold frame_words in Hw.
  change ([g_gs r; g_fs r; g_es r; g_ds r; g_edi r; g_esi r; g_ebp r; old; g_ebx r; g_edx r; g_ecx r; g_eax r; n; err;
    g_eip r; g_cs r; g_eflags r] ++ (if decide (from_user r) then [g_esp r; g_ss r] else [])) with
    ([g_gs r; g_fs r; g_es r; g_ds r; g_edi r; g_esi r; g_ebp r; old; g_ebx r; g_edx r; g_ecx r; g_eax r; n; err] ++
     [g_eip r; g_cs r; g_eflags r] ++ (if decide (from_user r) then [g_esp r; g_ss r] else [])) in Hw.
  apply words_at_app in Hw as [Hw Hi]. cbn [length] in Hi. change (4 * Z.of_nat 14) with 56 in Hi.
  assert (∀ e, 0 ≤ e < 4294967292 → pop m e = (load32 m e, e + 4)) as Hp
    by (intros e He; unfold pop; by rewrite u32_small by (unfold is_u32; lia)).
  unfold stub_leave. rewrite !Hp by lia. cbn [words_at] in Hw.
  destruct Hw as (-> & -> & -> & -> & -> & -> & -> & _ & -> & -> & -> & -> & _).
  rewrite u32_small by (unfold is_u32; lia). rewrite <-!Z.add_assoc.
  rewrite (iret_words ss _ m r Hr) by first [lia | exact Hi | intros Hu; specialize (Hk Hu); split; [lia|apply Hk]].
  destruct Hr as [Hs Hu]. do 6 apply Forall_cons_1 in Hs as [? Hs]. rewrite !u16_id by done.
  assert (∀ sel, (from_user r → ¬ GDT_SEL_KCODE ≤ sel < GDT_SEL_UCODE) → iret_segment (g_cs r) sel = sel) as Hseg.
  { intros sel Hsel. unfold iret_segment. rewrite decide_False; [done|]. intros [Hc Hsel']. by apply Hsel. }
  rewrite !Hseg by (intros Hf; specialize (Hu Hf); by do 4 apply Forall_cons_1 in Hu as [? Hu]).
  by destruct r.
Qed.

(** A frame on the stack of the machine [r], of which the words but EAX are intact. *)
Lemma leave_restores esp0 r old n err m eax :
  segs_ok r → frame_size r + 8 ≤ stack_base esp0 r < 4294967288 →
  let regs := stack_base esp0 r - frame_size r in
  words_at m regs (frame_words old n err (set_g_eax eax r)) →
  stub_leave (handler_ss r) regs m = set_g_eax eax r.
Proof.
  intros Hr Hb regs Hw. apply (stub_leave_words _ _ _ old n err).
  - by destruct Hr as [H1 H2].
  - unfold regs. lia.
  - unfold regs, frame_size in *. case_decide; lia.
  - done.
  - intros Hu. change (¬ from_user r) in Hu. unfold regs, stack_base, frame_size, handler_ss. rewrite !decide_False by done.
    split; [simpl; lia|done].
Qed.

(** ** Handlers that return *)

Lemma wake_all_vm {A} (s s' : kst A) : process_wake_all_blocked s = Some s' → k_vm s' = k_vm s.
Proof. unfold process_wake_all_blocked. intros (t & _ & [= <-])%bind_Some. done. Qed.

Lemma keyboard_irq_vm {A} sc k k' (s s' : kst A) :
  keyboard_irq_handler sc k s = Some (k', s') → k_vm s' = k_vm s.
Proof.
  intros [->|H]%keyboard_irq_woken; [done|by apply wake_all_vm].
Qed.

(** A line whose handler neither preempts nor is unknown to the dispatcher. *)
Record quiet_irq {D R} (irq sc : Z) (s : sys D pics R) : Prop := QuietIrq {
  qi_table : length (y_irq s) = 16%nat;
  qi_timer : aget (y_irq s) irq = Some (Some TimerIrq) →
    u32 (y_ticks s + 1) `mod` SCHED_SLICE ≠ 0 ∨ k_current (y_k s) = None;
  qi_kb : is_u8 sc ∧ kb_wf (y_kb s) ∧ (extended_code (y_kb s) = 0 ∨ extended_code (y_kb s) = 1) ∧
    length (k_table (y_k s)) = 16%nat
}.

Lemma quiet_returns process_table page_directory {D R} (irq sc regs : Z) c (s : sys D pics R) d :
  0 ≤ irq < 16 → reg_int_no (y_mem s) regs = 32 + irq → quiet_irq irq sc s →
  pics_wf d → pic_ack irq d = Some (32 + irq, y_pic s) →
  ∃ s', interrupt_handler process_table page_directory regs sc c s = Some (Returned s') ∧
    y_pic s' = d ∧ y_vm s' = y_vm s.
Proof.
  intros Hi Hn [Ht Htm (H1 & H2 & H3 & H4)] Hd Ha. destruct (pic_cycle d irq _ _ Hd Hi Ha) as (_ & _ & He).
  unfold interrupt_handler. rewrite Hn. rewrite (decide_False (P := 32 + irq < 32)) by lia. unfold irq_handler. rewrite Hn.
  assert (u8 (32 + irq - 32) = irq) as -> by word_lia. rewrite (decide_True (P := irq < 16)) by lia.
  destruct (aget_is_Some (y_irq s) irq) as [h Hh]; [lia|]. rewrite Hh in *. cbn [mbind option_bind].
  destruct h as [[|]|]; cbn [call_irq].
  - unfold timer_irq_handler. change (y_ticks (set_ticks (u32 (y_ticks s + 1)) s)) with (u32 (y_ticks s + 1)).
    change (k_current (y_k (set_ticks (u32 (y_ticks s + 1)) s))) with (k_current (y_k s)).
    rewrite decide_False by (destruct (Htm eq_refl); naive_solver). cbn [mbind option_bind].
    eexists. split; [reflexivity|]. by split.
  - unfold keyboard_irq. pose proof (irq_decodes sc (y_kb s) (y_k s) H1 H2 H4 H3) as H.
    destruct (decode _ _ sc) as [[sh ex] oc]. destruct H as (k' & ks' & E & _). rewrite E. cbn [mbind option_bind].
    apply keyboard_irq_vm in E. eexists. split; [reflexivity|]. by split.
  - eexists. split; [reflexivity|]. by split.
Qed.

(** ** What system calls leave in the kernel's memory *)

Lemma destroy_mem {A} `{!FrameAllocator A} pd (v v' : vm A) : paging_destroy_pd pd v = Some v' → v_mem v' = v_mem v.
Proof.
  assert (∀ p (v v' : vm A), vm_release p v = Some v' → v_mem v' = v_mem v) as Hr
    by (unfold vm_release; intros p w w' (a & _ & [= <-])%bind_Some; done).
  unfold paging_destroy_pd. intros (u & _ & (v1 & H1 & H2)%bind_Some)%bind_Some. rewrite (Hr _ _ _ H2).
  revert H1. apply for_u32_opt_keeps. intros i w w'. unfold destroy_pde. case_decide; [by intros [= <-]|].
  intros (w1 & (u1 & _ & H4)%bind_Some & H3)%bind_Some. rewrite (Hr _ _ _ H3). revert H4. apply for_u32_opt_keeps.
  intros j x x'. case_decide; [by intros [= <-]|apply Hr].
Qed.

Lemma kill_mem {A} `{!FrameAllocator A} pid r (k k' : kst A) : process_kill pid k = Some (r, k') → k_mem k' = k_mem k.
Proof.
  unfold process_kill. destruct (find_range _ _ _) as [i|]; [|by intros [= <- <-]].
  intros (k1 & H & [= <- <-])%bind_Some. unfold reap in H.
  apply bind_Some in H as (p & _ & (v & Hv & (t & _ & [= <-])%bind_Some)%bind_Some). unfold k_mem. cbn [k_vm with_table with_vm].
  case_decide; [by injection Hv as <-|by apply (destroy_mem _ _ _ Hv)].
Qed.

Lemma pipe_write_vm {A} id data len ps r ps' (k k' : kst A) :
  pipe_write id data len ps k = Some (r, ps', k') → k_vm k' = k_vm k.
Proof.
  unfold pipe_write. destruct (bad_id ps id); [by intros [= <- <- <-]|].
  intros (p & _ & ([w p1] & _ & (ps1 & _ & (k1 & Hk & [= <- <- <-])%bind_Some)%bind_Some)%bind_Some)%bind_Some.
  case_decide; [by apply wake_all_vm|by injection Hk as <-].
Qed.

Lemma fd_read_length {D} `{!BlockDevice D} fd buf len pid t (d : fs D) r buf' t' d' :
  fd_read fd buf len pid t d = Some (r, buf', t', d') → length buf' = length buf.
Proof.
  unfold fd_read. intros ([|] & _ & H)%bind_Some; [by injection H as <- <- <- <-|].
  apply bind_Some in H as (e & _ & ([[[n b] f] d1] & H & (t1 & _ & [= <- <- <- <-])%bind_Some)%bind_Some).
  unfold fs_read in H. case_decide; [by injection H as <- <- <- <-|].
  apply bind_Some in H as ([[[out rem] f1] d2] & _ & H1). case_decide; [|done]. injection H1 as <- <- <- <-.
  rewrite length_app, length_drop. lia.
Qed.

Lemma pipe_read_length {A} id dst len ps (k : kst A) r dst' ps' :
  pipe_read id dst len ps k = Some (RDone r dst' ps') → length dst' = length dst.
Proof.
  assert (∀ n i dst p dst' p', read_loop i n dst p = Some (dst', p') → length dst' = length dst) as Hl.
  { induction n as [|n IH]; intros i d p d' p'; simpl; [by intros [= <- <-]|].
    intros ([b p1] & _ & (d1 & H1 & H2)%bind_Some)%bind_Some. rewrite (IH _ _ _ _ _ H2). by eapply aset_length. }
  unfold pipe_read. destruct (bad_id ps id); [by intros [= <- <- <-]|]. unfold pipe_read_resume.
  intros (p & _ & H)%bind_Some. case_decide; [repeat case_decide; by simplify_eq|].
  apply bind_Some in H as ([d1 p1] & H1 & (ps1 & _ & [= <- <- <-])%bind_Some). by eapply Hl.
Qed.

Section syscall_mem.
Context (process_table page_directory : Z) (rtc_fuel : nat).
Context {D : Type} `{!BlockDevice D} {P : Type} `{!PortIO P} {R : Type} `{!PortIO R}.
Implicit Types (s : sys D P R).

(** The memory below 1 MB, with all kernel stacks, is the same but for the result. *)
Definition low_but_eax (regs : Z) s s' : Prop :=
  ∀ b, b < 1048576 → ¬ (regs + 44 ≤ b < regs + 48) → load8 (y_mem s') b = load8 (y_mem s) b.

Lemma low_eax regs v s s' : low_but_eax regs s s' → low_but_eax regs s (set_eax regs v s').
Proof.
  intros H b Hb Hn. change (y_mem (set_eax regs v s')) with (store32 (y_mem s') (regs + 44) v).
  rewrite load8_store32_ne by lia. by apply H.
Qed.

Lemma low_vm regs s s' : y_mem s' = y_mem s → low_but_eax regs s s'.
Proof. intros E b _ _. by rewrite E. Qed.

(** Storing at most [n] bytes in a user buffer of [n] bytes. *)
Lemma low_vwrite regs s s1 v a n r buf :
  user_call regs s → y_vm s1 = y_vm s → user_range (y_vm s) a n → Z.of_nat (length buf) = n →
  vwrite (y_vm s1) a (filled r buf) = Some v → low_but_eax regs s (set_vm v s1).
Proof.
  intros [_ Hwf] Ev Hr Hl Hv. rewrite Ev in Hv.
  destruct (vwrite_spec (filled r buf) (y_vm s) a Hwf) as (v' & E & _ & _ & _ & _ & _ & _ & Hlow).
  { apply (user_range_sub _ _ n); [done|]. unfold filled. case_decide; [simpl; destruct Hr; lia|]. rewrite length_take. lia. }
  rewrite Hv in E. injection E as <-. intros b Hb _. exact (Hlow b Hb).
Qed.

(** The buffer of a call that stores into one is the caller's. *)
Definition buffer_ok (regs : Z) s : Prop :=
  reg_eax (y_mem s) regs = SYS_READ ∨ reg_eax (y_mem s) regs = SYS_PIPE_READ →
  user_range (y_vm s) (reg_edx (y_mem s) regs) (reg_ecx (y_mem s) regs).

Lemma syscall_low regs c s s' :
  user_call regs s → buffer_ok regs s →
  syscall_handler process_table page_directory rtc_fuel regs c s = Some (Returned s') → low_but_eax regs s s'.
Proof.
  intros Hc Hb. unfold syscall_handler. destruct (set_eax_user regs 0 s Hc) as [Hc1 _].
  assert (low_but_eax regs s (set_eax regs 0 s)) as H0 by by apply low_eax, low_vm.
  assert (∀ s2, low_but_eax regs (set_eax regs 0 s) s2 → low_but_eax regs s s2) as Ht
    by (intros s2 H b Hb1 Hb2; by rewrite H, H0).
  assert (∀ s2, reg_eax (y_mem s) regs = SYS_READ ∨ reg_eax (y_mem s) regs = SYS_PIPE_READ →
    user_range (y_vm (set_eax regs 0 s)) (reg_edx (y_mem s) regs) (reg_ecx (y_mem s) regs)) as Hr
    by (intros s2 H; apply eax_range; [done|by apply Hb]).
  set (s0 := set_eax regs 0 s) in *. clearbody s0.
  case_decide. { by intros ([c1 k] & _ & ?)%bind_Some. }
  case_decide. { intros (con & _ & [= <-])%bind_Some. by apply Ht, low_eax, low_vm. }
  case_decide. { intros (pid & _ & [= <-])%bind_Some. by apply Ht, low_eax, low_vm. }
  case_decide. { destruct (timer_sleep_ms _ _ _ _); [|done..]. intros [= <-]. by apply Ht, low_vm. }
  case_decide. { by intros ([c1 k] & _ & ?)%bind_Some. }
  case_decide. { intros ([r k] & Hk & [= <-])%bind_Some. apply Ht, low_eax, low_vm. exact (kill_mem _ _ _ _ Hk). }
  case_decide. { intros (pid & _ & ([[r t] f] & _ & [= <-])%bind_Some)%bind_Some. by apply Ht, low_eax, low_vm. }
  case_decide.
  { intros (pid & _ & ([[[r buf] t] f] & Hf & (v & Hv & [= <-])%bind_Some)%bind_Some)%bind_Some. apply Ht, low_eax.
    apply fd_read_length in Hf. specialize (Hr s0 ltac:(by left)).
    apply (low_vwrite regs s0 (set_fs f (set_fd t s0)) v _ _ r buf Hc1 eq_refl Hr); [|exact Hv].
    rewrite Hf. by apply range_vread. }
  case_decide. { intros (pid & _ & (t & _ & [= <-])%bind_Some)%bind_Some. by apply Ht, low_vm. }
  case_decide. { intros ([t r] & _ & [= <-])%bind_Some. by apply Ht, low_eax, low_vm. }
  case_decide. { intros ([r ps] & _ & [= <-])%bind_Some. by apply Ht, low_eax, low_vm. }
  case_decide.
  { intros ([[r ps] k] & Hk & [= <-])%bind_Some. apply pipe_write_vm in Hk. apply Ht, low_eax, low_vm.
    unfold y_mem, k_mem. cbn [y_k set_k set_pipes]. by rewrite Hk. }
  case_decide.
  { intros (x & Hx & Hy)%bind_Some. destruct x as [r dst ps|]; cbn [pipe_read_exit] in Hy;
      [|by apply bind_Some in Hy as ([c1 k] & _ & ?)].
    apply bind_Some in Hy as (v & Hv & [= <-]). apply Ht, low_eax. apply pipe_read_length in Hx.
    specialize (Hr s0 ltac:(by right)).
    apply (low_vwrite regs s0 (set_pipes ps s0) v _ _ r dst Hc1 eq_refl Hr); [|exact Hv].
    rewrite Hx. by apply range_vread. }
  unfold syscall_unknown. intros (s1 & (v & _ & [= <-])%bind_Some & [= <-])%bind_Some. by apply Ht, low_eax, low_vm.
Qed.
End syscall_mem.

Section theorems.
Context (process_table page_directory : Z) (rtc_fuel : nat) (stub_ret syscall_ret : Z).
Context {D : Type} `{!BlockDevice D} {R : Type} `{!PortIO R}.

(** The end of an interrupt, for the frame at [regs]. *)
Definition finish {P : Type} (r : machine) (regs : Z) (x : exit (sys D P R)) : interrupted (sys D P R) :=
  match x with
  | Returned s => Resumed (stub_leave (handler_ss r) regs (y_mem s)) s
  | Switched c s => Away c s
  | Halted s => Stopped s
  end.

(** Room for the frame on the kernel stack, in the identity map. *)
Definition stack_room {P : Type} (r : machine) (s : sys D P R) : Prop :=
  frame_size r + 8 ≤ stack_base (k_esp0 (y_k s)) r < 8388608.

Lemma call_built {P : Type} ret handler n err r (s : sys D P R) :
  machine_ok r → is_u32 n → is_u32 err → is_u32 ret → stack_room r s →
  let base := stack_base (k_esp0 (y_k s)) r in
  let regs := base - frame_size r in
  ∃ old m', is_u32 old ∧
    (let '(esp, m) := push_all (entry_words n err r) base (y_mem s) in call_handler ret handler r esp m s) =
      (x ← handler regs (set_mem m' s); Some (finish r regs x)) ∧
    words_at m' regs (frame_words old n err r) ∧
    ∀ b, b < regs - 8 ∨ base ≤ b → load8 m' b = load8 (y_mem s) b.
Proof.
  intros Hr Hn He Hret Hroom base regs. unfold stack_room in Hroom.
  destruct (frame_built n err ret (k_esp0 (y_k s)) r (y_mem s) Hr Hn He Hret ltac:(lia)) as (old & m' & E & Ho & Hw & Hb).
  exists old, m'. split; [done|]. split; [|done]. fold base in E. destruct (push_all _ base _) as [esp m] eqn:E1.
  unfold call_handler. destruct (save_frame r esp m) as [regs1 m1] eqn:E2.
  destruct (push_all [regs1; ret] regs1 m1) as [e2 m2] eqn:E3. injection E as -> ->. reflexivity.
Qed.

(** An interrupt as the dispatcher sees it. *)
Lemma take_interrupt_eq {P : Type} `{!PortIO P} n err sc c r (s : sys D P R) b :
  machine_ok r → is_u32 err → is_u32 stub_ret → stack_room r s → stub_of n = Some b →
  let base := stack_base (k_esp0 (y_k s)) r in
  let regs := base - frame_size r in
  ∃ old m', is_u32 old ∧
    take_interrupt process_table page_directory stub_ret n err sc c r s =
      (x ← interrupt_handler process_table page_directory regs sc c (set_mem m' s); Some (finish r regs x)) ∧
    words_at m' regs (frame_words old n (if cpu_error_code n then err else 0) r) ∧
    ∀ a, a < regs - 8 ∨ base ≤ a → load8 m' a = load8 (y_mem s) a.
Proof.
  intros Hr He Hret Hroom Hb base regs. pose proof (stub_uniform n b Hb) as [_ Hn].
  destruct (call_built stub_ret (λ regs s, interrupt_handler process_table page_directory regs sc c s) n
    (if cpu_error_code n then err else 0) r s Hr) as (old & m' & Ho & E & H);
    [unfold is_u32; lia|destruct (cpu_error_code n); [done|unfold is_u32; lia]|done|done|].
  exists old, m'. split; [done|]. split; [|done]. etransitivity; [|exact E]. unfold take_interrupt. rewrite Hb. cbn [mbind option_bind].
  pose proof (stub_entry n err (k_esp0 (y_k s)) r (y_mem s) b Hb) as Hs.
  destruct (cpu_pushes _ _ _ _ _) as [e1 m1]. cbv beta iota in Hs. rewrite <-Hs. by destruct (stub_pushes b e1 m1).
Qed.

(** The fields of [registers_t] in a frame. *)
Lemma frame_fields m regs old n err r :
  words_at m regs (frame_words old n err r) →
  reg_eax m regs = g_eax r ∧ reg_ebx m regs = g_ebx r ∧ reg_ecx m regs = g_ecx r ∧ reg_edx m regs = g_edx r ∧
  reg_int_no m regs = n ∧ reg_err_code m regs = err ∧ reg_eip m regs = g_eip r ∧ reg_eflags m regs = g_eflags r.
Proof.
  unfold frame_words. intros [Hw _]%words_at_app. cbn [words_at] in Hw. rewrite <-!Z.add_assoc in Hw. simpl in Hw.
  unfold reg_eax, reg_ebx, reg_ecx, reg_edx, reg_int_no, reg_err_code, reg_eip, reg_eflags. naive_solver.
Qed.

Lemma set_g_eax_id r : set_g_eax (g_eax r) r = r.
Proof. by destruct r. Qed.

(** An intact frame leads back to the interrupted machine. *)
Lemma leave_same {P : Type} r (s : sys D P R) old n err m :
  segs_ok r → stack_room r s →
  let regs := stack_base (k_esp0 (y_k s)) r - frame_size r in
  words_at m regs (frame_words old n err r) → stub_leave (handler_ss r) regs m = r.
Proof.
  intros Hr Hroom regs Hw. unfold stack_room in Hroom.
  transitivity (set_g_eax (g_eax r) r); [|apply set_g_eax_id].
  apply (leave_restores (k_esp0 (y_k s)) r old n err m (g_eax r)); [done|lia|by rewrite set_g_eax_id].
Qed.

(** An interrupt is invisible to the code it interrupts.  On a hardware interrupt
    that does not end a time slice, whether it arrives in ring 3 or in the kernel, all
    registers of the interrupted code (general registers, EIP, EFLAGS, the stack
    pointer and all segments) are after the IRET what they were; the interrupt
    controllers are ready for the next interrupt; and no byte of memory has changed
    but those of the frame on the kernel stack. *)
Theorem interrupt_transparent irq err sc c r (s : sys D pics R) d :
  machine_ok r → stack_room r s → is_u32 stub_ret → is_u32 err → 0 ≤ irq < 16 → quiet_irq irq sc s →
  pics_wf d → pic_ack irq d = Some (32 + irq, y_pic s) →
  let base := stack_base (k_esp0 (y_k s)) r in
  ∃ s', take_interrupt process_table page_directory stub_ret (32 + irq) err sc c r s = Some (Resumed r s') ∧
    y_pic s' = d ∧
    ∀ a, a < base - frame_size r - 8 ∨ base ≤ a → load8 (y_mem s') a = load8 (y_mem s) a.
Proof.
  intros Hr Hroom Hret Herr Hi Hq Hd Ha base.
  assert (∃ b, stub_of (32 + irq) = Some b) as [b Hb].
  { unfold stub_of. rewrite decide_False by lia. replace (32 + irq - 32) with irq by lia.
    apply aget_is_Some. simpl. lia. }
  destruct (take_interrupt_eq (32 + irq) err sc c r s b Hr Herr Hret Hroom Hb) as (old & m' & _ & E & Hw & Ho).
  pose proof (frame_fields _ _ _ _ _ _ Hw) as (_ & _ & _ & _ & Hno & _).
  destruct (quiet_returns process_table page_directory irq sc (base - frame_size r) c (set_mem m' s) d)
    as (s' & Hh & Hp & Hv); [done|exact Hno|destruct Hq as [Q1 Q2 Q3]; by constructor|done|done|].
  fold base in E, Hw, Ho. rewrite E, Hh. cbn [mbind option_bind finish].
  assert (y_mem s' = m') as Hm by (unfold y_mem, k_mem; change (k_vm (y_k s')) with (y_vm s'); by rewrite Hv).
  exists s'. rewrite Hm. split; [|done]. do 2 f_equal. by apply (leave_same r s old _ _ m' (mo_segs r Hr) Hroom Hw).
Qed.
(** A frame in which only the word of EAX has changed. *)
Lemma frame_new_eax m m' regs old n err r :
  words_at m regs (frame_words old n err r) →
  (∀ b, regs ≤ b < regs + 76 → ¬ (regs + 44 ≤ b < regs + 48) → load8 m' b = load8 m b) →
  words_at m' regs (frame_words old n err (set_g_eax (reg_eax m' regs) r)).
Proof.
  assert (∀ e, frame_words old n err (set_g_eax e r) =
    [g_gs r; g_fs r; g_es r; g_ds r; g_edi r; g_esi r; g_ebp r; old; g_ebx r; g_edx r; g_ecx r] ++ [e] ++
    ([n; err; g_eip r; g_cs r; g_eflags r] ++ (if decide (from_user r) then [g_esp r; g_ss r] else []))) as Hf by done.
  intros Hw Hb. rewrite <-(set_g_eax_id r), Hf in Hw. rewrite Hf. rewrite !words_at_app in Hw |- *. cbn [length] in *.
  destruct Hw as (H1 & _ & H2 & H3). split_and!.
  - apply (words_at_ext m); [|exact H1]. intros b Hb1. simpl in Hb1. apply Hb; lia.
  - done.
  - apply (words_at_ext m); [|exact H2]. intros b Hb1. simpl in Hb1. apply Hb; lia.
  - apply (words_at_ext m); [|exact H3]. intros b Hb1. case_decide; simpl in Hb1; apply Hb; lia.
Qed.

(** ** Preemption *)

(** The handler of a tick that ends a time slice. *)
Lemma tick_preempts regs sc c (s : sys D pics R) d :
  reg_int_no (y_mem s) regs = 32 → aget (y_irq s) 0 = Some (Some TimerIrq) →
  u32 (y_ticks s + 1) `mod` SCHED_SLICE = 0 → k_current (y_k s) ≠ None →
  pics_wf d → pic_ack 0 d = Some (32, y_pic s) →
  interrupt_handler process_table page_directory regs sc c s =
    ('(c', k) ← process_yield process_table page_directory c (y_k s);
     Some (Switched c' (set_k k (set_pic d (set_ticks (u32 (y_ticks s + 1)) s))))).
Proof.
  intros Hn Hh Ht Hc Hd Ha. destruct (pic_cycle d 0 _ _ Hd ltac:(lia) Ha) as (_ & _ & He).
  unfold interrupt_handler. rewrite Hn. rewrite (decide_False (P := 32 < 32)) by lia. unfold irq_handler. rewrite Hn.
  change (u8 (32 - 32)) with 0. rewrite (decide_True (P := 0 < 16)) by lia. rewrite Hh. cbn [mbind option_bind call_irq].
  unfold timer_irq_handler. change (y_ticks (set_ticks (u32 (y_ticks s + 1)) s)) with (u32 (y_ticks s + 1)).
  rewrite decide_True by done. change (y_pic (set_ticks (u32 (y_ticks s + 1)) s)) with (y_pic s). rewrite He.
  change (y_k (set_pic d (set_ticks (u32 (y_ticks s + 1)) s))) with (y_k s).
  by destruct (process_yield _ _ c (y_k s)) as [[c' k]|].
Qed.

End theorems.

Section preemption.
Context (process_table page_directory page_tables : Z) (rtc_fuel : nat) (stub_ret : Z).
Context {D : Type} `{!BlockDevice D}.
Implicit Types (s : sys D pics cmos) (G : Z → cpu).

Abbreviation placed := (placed process_table page_directory page_tables).
Abbreviation sys_ok := (sys_ok process_table page_directory page_tables rtc_fuel).
Abbreviation in_frame := (in_frame process_table).
Abbreviation in_kstack := (in_kstack process_table).
Abbreviation kstep := (kstep process_table page_directory rtc_fuel).

(** The tick of the timer arrives in process [i] at the code with the registers [r] and
    ends its time slice.  The frame goes on the kernel stack of [i], and [c] is the
    context, below it, in which the timer handler calls [process_yield]; the interrupt
    controllers were in state [d] before they delivered the tick. *)
Record slice_ends (i : Z) (c : cpu) (r : machine) s (d : pics) : Prop := SliceEnds {
  sl_regs : machine_ok r;
  sl_base : stack_base (k_esp0 (y_k s)) r ≤ kstack_top process_table i;
  sl_frame : in_frame i (stack_base (k_esp0 (y_k s)) r - frame_size r) c;
  sl_below : r_esp c + 12 ≤ stack_base (k_esp0 (y_k s)) r - frame_size r;
  sl_handler : aget (y_irq s) 0 = Some (Some TimerIrq);
  sl_tick : u32 (y_ticks s + 1) `mod` SCHED_SLICE = 0;
  sl_pic : pics_wf d ∧ pic_ack 0 d = Some (32, y_pic s)
}.

(** The switch: the frame is on the stack of [i], and the context of [i] is recorded. *)
Lemma slice_switches G s i err sc c r d :
  placed → sys_ok G s → k_current (y_k s) = Some i → is_u32 stub_ret → is_u32 err → is_u8 sc → slice_ends i c r s d →
  let base := stack_base (k_esp0 (y_k s)) r in
  let regs := base - frame_size r in
  ∃ c1 s1 j old, take_interrupt process_table page_directory stub_ret 32 err sc c r s = Some (Away c1 s1) ∧ y_pic s1 = d ∧
    k_current (y_k s1) = Some j ∧ k_esp0 (y_k s1) = kstack_top process_table j ∧
    sys_ok (record_ctx i (resume_ctx c (y_mem s)) G) s1 ∧ c1 = record_ctx i (resume_ctx c (y_mem s)) G j ∧
    words_at (y_mem s1) regs (frame_words old 32 0 r) ∧ stack_room r s ∧
    (t ← saved (k_table (y_k s)) (Some i) (r_esp c - 16); sched_next t (Some i)) = Some (j, k_table (y_k s1)).
Proof.
  intros Hpl Hok Hc Hret Herr Hsc [Hr Hbase Hf Hbelow Hh Htk [Hd Ha]] base regs. fold base in Hbase, Hf, Hbelow. fold regs in Hf, Hbelow.
  assert (0 ≤ i < 16) as Hi by (by apply (kinv_cur (y_k s)); [apply Hok|]).
  pose proof Hpl as [_ _ Hpt _ _]. destruct (fr_ctx _ _ _ _ Hf) as [Hrg [Hlo Hhi]].
  assert (0 < r_esp c - 20 ∧ base < 8388608) as [Hlow Hhigh] by (unfold kstack_top, proc_addr, PROCESS_KSTACK_SIZE in *; lia).
  assert (68 ≤ frame_size r ≤ 76) as Hfs by (unfold frame_size; case_decide; lia).
  assert (stack_room r s) as Hroom by (unfold stack_room; fold base; lia).
  destruct (take_interrupt_eq process_table page_directory stub_ret 32 err sc c r s (IRQ 0 32) Hr Herr Hret Hroom eq_refl)
    as (old & m & _ & E & Hw & Ho). fold base in E, Hw, Ho. fold regs in E, Hw, Ho.
  pose proof (frame_fields _ _ _ _ _ _ Hw) as (_ & _ & _ & _ & Hno & _).
  destruct (procs_own_stack process_table page_directory page_tables G (y_k s) i m Hpl (so_procs _ _ _ _ _ _ Hok) Hc) as (Hp' & _ & _).
  { intros b Hb. apply Ho. unfold Coroutines.in_kstack in Hb. unfold kstack_top in *. lia. }
  assert (sys_ok G (set_mem m s)) as Hokm by (by apply sys_ok_set_k). clear Hp'. set (sm := set_mem m s) in *.
  pose proof (pr_pre _ _ _ _ _ (so_procs _ _ _ _ _ _ Hokm)) as [Hk _ He _].
  destruct (process_yield_lemma process_table page_directory c (y_k sm) Hk ltac:(lia) He)
    as (t & n & t' & k1 & p & Hsv & Hsn & Htab & Hn & _ & Hm1 & He0 & _ & _ & _ & Hy & _).
  pose proof (tick_preempts process_table page_directory regs sc c sm d Hno Hh Htk
    ltac:(change (k_current (y_k s) ≠ None); by rewrite Hc) Hd Ha) as Ht. rewrite Hy in Ht. cbn [mbind option_bind] in Ht.
  destruct (interrupt_safe process_table page_directory page_tables rtc_fuel Hpl i regs c Hf G sm sc Hsc) as (x & Ex & Hx);
    [change (y_mem sm) with m; rewrite Hno; lia|exact Hokm|exact Hc|].
  rewrite Ht in E. cbn [mbind option_bind finish] in E. rewrite Ht in Ex. injection Ex as <-. destruct Hx as [X1 (j & X2 & X3) _ _ _].
  assert (resume_ctx c (y_mem sm) = resume_ctx c (y_mem s)) as Er.
  { unfold resume_ctx. f_equal. apply load32_ext. intros b Hb. apply Ho. lia. }
  rewrite Er in X1, X3. eexists _, _, j, old. split; [exact E|]. split; [done|]. split; [exact X2|].
  split; [cbn [y_k set_k] in *; congruence|]. split; [exact X1|]. split; [exact X3|]. split; [|split; [exact Hroom|]].
  2: { change (k_current (y_k sm)) with (k_current (y_k s)) in Hsv, Hsn. change (k_table (y_k sm)) with (k_table (y_k s)) in Hsv.
       rewrite Hc in Hsv, Hsn. rewrite Hsv. cbn [mbind option_bind y_k set_k] in *. rewrite Hsn, Htab. congruence. }
  change (words_at (k_mem k1) regs (frame_words old 32 0 r)). apply (words_at_ext m); [|exact Hw].
  intros b Hb. rewrite Hm1. unfold pushed. rewrite !load8_store32_ne by lia. done.
Qed.

End preemption.

(** ** Concrete interrupts *)

(** A program in ring 3. *)
Definition demo_machine : machine :=
  Machine 2 101 102 103 3221225216 104 105 106 16777220 27 514 35 35 35 35 35.

Lemma demo_machine_ok : machine_ok demo_machine ∧ from_user demo_machine.
Proof.
  split; [|reflexivity]. constructor; [|constructor].
  - repeat first [apply Forall_nil_2 | apply Forall_cons_2; [vm_compute; split; [discriminate|reflexivity]|]].
  - repeat first [apply Forall_nil_2 | apply Forall_cons_2; [vm_compute; split; [discriminate|reflexivity]|]].
  - intros _. repeat first [apply Forall_nil_2 | apply Forall_cons_2; [vm_compute; intros [_ X]; discriminate X|]].
Qed.

(** It is process 3 (slot 2), with its kernel stack in the TSS, and line [irq] has been
    acknowledged. *)
Definition demo_running (irq : Z) : sys ide pics cmos :=
  let s := demo_sys ∅ (default demo_pics (snd <$> pic_ack irq demo_pics)) in
  set_k (tss_set_kernel_stack (kstack_top 131072 2) (y_k s)) s.

Lemma demo_room irq : stack_room demo_machine (demo_running irq).
Proof. vm_compute. split; [discriminate|reflexivity]. Qed.

Lemma interrupt_transparent_witness :
  ∃ s', take_interrupt 131072 65536 4096 33 0 30 demo_cpu demo_machine (demo_running 1) = Some (Resumed demo_machine s') ∧
    y_pic s' = demo_pics.
Proof.
  destruct (interrupt_transparent 131072 65536 4096 1 0 30 demo_cpu demo_machine (demo_running 1) demo_pics)
    as (s' & E & Hp & _).
  - exact (proj1 demo_machine_ok).
  - exact (demo_room 1).
  - unfold is_u32. lia.
  - unfold is_u32. lia.
  - lia.
  - constructor; [reflexivity|discriminate|]. split; [unfold is_u8; lia|]. split; [exact demo_kb_wf|].
    split; [left; reflexivity|reflexivity].
  - exact demo_pics_wf.
  - vm_compute. reflexivity.
  - exists s'. split; [exact E|exact Hp].
Defined.

(** The program asks for its process number. *)
Definition demo_getpid : sys ide pics cmos :=
  let s := demo_call 0 0 0 0 fd_init demo_fs pipe_init in
  set_k (tss_set_kernel_stack 524364 (y_k s)) s.


(** The process of the example in [Safety], in ring 3, at the end of its time slice. *)
Definition tick_sys (v : vm pmm) (f : fs ide) : sys ide pics cmos :=
  Sys (tss_set_kernel_stack (kstack_top 131072 1) (run_kst v)) demo_vga demo_kb 4 (Some TimerIrq :: replicate 15 None)
    (default demo_pics (snd <$> pic_ack 0 demo_pics)) (Cmos 0 3 2 demo_time) pipe_init fd_init f demo_init.
Definition tick_regs : Z := kstack_top 131072 1 - 76.
Definition tick_cpu : cpu := Cpu 11 22 33 44 (tick_regs - 60) 0.

Lemma tick_sys_ok v f : run_vm v → fs_wf f → sys_ok 131072 65536 69632 4 (run_ctx v) (tick_sys v f).
Proof.
  intros Hv Hf. destruct (run_procs_ok v Hv) as [[H1 H2 H3 H4] H5 H6].
  constructor; [constructor; [constructor|..]|exact demo_vga_wf|exact demo_kb_wf|by left|reflexivity|exact pipe_init_wf|by apply fd_wf_init|simpl; lia].
  - destruct H1. by constructor.
  - destruct H2. by constructor.
  - exact H3.
  - exact H4.
  - exact H5.
  - exact H6.
Qed.

Lemma tick_slice v f : slice_ends 131072 1 tick_cpu demo_machine (tick_sys v f) demo_pics.
Proof.
  assert (stack_base (k_esp0 (y_k (tick_sys v f))) demo_machine = kstack_top 131072 1) as Eb by reflexivity.
  assert (frame_size demo_machine = 76) as Ef by reflexivity.
  constructor; rewrite ?Eb, ?Ef; [exact (proj1 demo_machine_ok)|lia| | |reflexivity|reflexivity|split; [exact demo_pics_wf|vm_compute; reflexivity]].
  - constructor; [constructor; [unfold regs_ok, is_u32; simpl; lia|]| |];
      unfold tick_cpu, tick_regs, kstack_top, proc_addr, PROCESS_KSTACK_SIZE; cbn [r_esp]; lia.
  - unfold tick_cpu, tick_regs, kstack_top, proc_addr, PROCESS_KSTACK_SIZE. cbn [r_esp]. lia.
Qed.

