(* ===== verification/Line.v ===== *)
(** * The command line ([read_line] and the history of [src/kernel/shell.c])

    The ring of the last eight commands and the line editor, on the characters that
    [keyboard_getchar] delivers.  [edit_line] is the abstract editor on texts; the
    array code refines it, stays inside its arrays, and echoes what the abstract
    editor echoes. *)

From S2P Require Import Prelude CString Keyboard Vga Console.

Definition SHELL_BUF_SIZE : Z := 256.
Definition HISTORY_SIZE : Z := 8.

(** [history] and [history_count]. *)
Record hist := Hist { h_rows : list (list Z); h_count : Z }.

(** Overflow of [history_count], an [int], is undefined. *)
Definition history_push (cmd : list Z) (h : hist) : option hist :=
  c ← aget cmd 0;
  if decide (c = 0) then Some h
  else
    let slot := Z.rem (h_count h) HISTORY_SIZE in
    row ← aget (h_rows h) slot;
    row ← strncpy row cmd (Z.to_nat (SHELL_BUF_SIZE - 1));
    row ← aset row (SHELL_BUF_SIZE - 1) 0;
    rows ← aset (h_rows h) slot row;
    if decide (h_count h < 2147483647) then Some (Hist rows (h_count h + 1)) else None.

(** The row, [Some None] for NULL. *)
Definition history_get (back : Z) (h : hist) : option (option (list Z)) :=
  if decide (back ≤ 0 ∨ h_count h < back ∨ HISTORY_SIZE < back) then Some None
  else
    let slot := Z.rem (Z.rem (h_count h - back) HISTORY_SIZE + HISTORY_SIZE) HISTORY_SIZE in
    row ← aget (h_rows h) slot; Some (Some row).

Definition erase_input (len : Z) (v : vga) : option vga := put_all (replicate (Z.to_nat len) 8) v.

(** The locals of [read_line]: the buffer, [len] and [hist_pos]. *)
Record line := Line { l_buf : list Z; l_len : Z; l_pos : Z }.

(** A history row becomes the line. *)
Definition recall (max_len : Z) (row buf : list Z) (v : vga) : option (list Z * Z * vga) :=
  buf ← strncpy buf row (Z.to_nat (max_len - 1));
  buf ← aset buf (max_len - 1) 0;
  n ← strlen buf;
  v ← vga_puts buf v;
  Some (buf, n, v).

(** The body of the loop on the character [c]; [true] for [break]. *)
Definition line_key (max_len : Z) (h : hist) (c : Z) (L : line) (v : vga) : option (bool * line * vga) :=
  let 'Line buf len pos := L in
  if decide (c = 10) then v ← vga_putchar 10 v; Some (true, L, v)
  else if decide (c = 8) then
    if decide (0 < len) then v ← vga_putchar 8 v; Some (false, Line buf (len - 1) pos, v)
    else Some (false, L, v)
  else if decide (c = KEY_UP) then
    entry ← history_get (pos + 1) h;
    match entry with
    | Some row =>
        v ← erase_input len v;
        '(buf, n, v) ← recall max_len row buf v;
        Some (false, Line buf n (pos + 1), v)
    | None => Some (false, L, v)
    end
  else if decide (c = KEY_DOWN) then
    if decide (0 < pos) then
      v ← erase_input len v;
      let pos := pos - 1 in
      if decide (pos = 0) then buf ← aset buf 0 0; Some (false, Line buf 0 0, v)
      else
        entry ← history_get pos h;
        match entry with
        | Some row => '(buf, n, v) ← recall max_len row buf v; Some (false, Line buf n pos, v)
        | None => Some (false, Line buf len pos, v)
        end
    else Some (false, L, v)
  else if decide (32 ≤ c < 128) then
    buf ← aset buf len c; v ← vga_putchar c v; Some (false, Line buf (len + 1) pos, v)
  else Some (false, L, v).

(** The line has been read, with the characters not consumed; or the loop waits in
    [keyboard_getchar] for more. *)
Inductive line_exit := LineDone (buf rest : list Z) (v : vga) | LineMore (L : line) (v : vga).

Fixpoint read_line_loop (max_len : Z) (h : hist) (keys : list Z) (L : line) (v : vga) : option line_exit :=
  if decide (l_len L < max_len - 1) then
    match keys with
    | [] => Some (LineMore L v)
    | c :: keys =>
        '(stop, L, v) ← line_key max_len h c L v;
        if stop : bool then buf ← aset (l_buf L) (l_len L) 0; Some (LineDone buf keys v)
        else read_line_loop max_len h keys L v
    end
  else buf ← aset (l_buf L) (l_len L) 0; Some (LineDone buf keys v).

Definition read_line (buf : list Z) (max_len : Z) (h : hist) (keys : list Z) (v : vga) : option line_exit :=
  read_line_loop max_len h keys (Line buf 0 0) v.

(** ** The history as a list *)

(** The commands entered, oldest first; the last eight are in their slots. *)
Record hist_repr (h : hist) (cmds : list (list Z)) : Prop := HistRepr {
  hr_rows : length (h_rows h) = 8%nat;
  hr_len : ∀ i row, h_rows h !! i = Some row → length row = 256%nat;
  hr_count : h_count h = Z.of_nat (length cmds);
  hr_cmds : ∀ i cmd, cmds !! i = Some cmd → (length cmds ≤ i + 8)%nat →
    ∃ row, h_rows h !! (i `mod` 8)%nat = Some row ∧ is_cstr row cmd ∧ (length cmd ≤ 255)%nat
}.

(** The last eight, newest first. *)
Definition recent (cmds : list (list Z)) : list (list Z) := take 8 (reverse cmds).

(** [strncpy(dst, src, 255); dst[255] = 0] of a string that fits. *)
Lemma copy_line dst src t :
  is_cstr src t → (length t ≤ 255)%nat → length dst = 256%nat →
  ∃ b b', strncpy dst src 255 = Some b ∧ aset b 255 0 = Some b' ∧ length b' = 256%nat ∧ is_cstr b' t.
Proof.
  intros Hs Ht Hd. rewrite (strncpy_fits _ _ t) by (done || lia). eexists _, _. split; [done|].
  assert (drop 255 dst = [default 0 (dst !! 255%nat)]) as E.
  { destruct (lookup_lt_is_Some_2 dst 255) as [x Hx]; [lia|]. rewrite Hx, (drop_S _ x) by done.
    rewrite drop_ge by lia. done. }
  rewrite E. rewrite aset_Some by (len; simpl; lia). split; [done|]. split; [len; simpl; lia|].
  change (Z.to_nat 255) with 255%nat. pose proof Hs as (_ & _ & Hf).
  rewrite insert_app_r_alt by lia. rewrite insert_app_r_alt by (len; lia). rewrite length_replicate.
  replace (255 - length t - (255 - length t))%nat with 0%nat by lia. simpl.
  destruct (255 - length t)%nat as [|k]; simpl; [by exists []|]. eexists. split; [done|done].
Qed.

Lemma rem_nat a : Z.rem (Z.of_nat a) 8 = Z.of_nat (a `mod` 8).
Proof. rewrite Z.rem_mod_nonneg by lia. by rewrite Nat2Z.inj_mod. Qed.

Lemma history_push_lemma h cmds cmd t :
  hist_repr h cmds → is_cstr cmd t → (length t ≤ 255)%nat → Z.of_nat (length cmds) < 2147483647 →
  ∃ h', history_push cmd h = Some h' ∧ hist_repr h' (if decide (t = []) then cmds else cmds ++ [t]).
Proof.
  intros [H1 H2 H3 H4] Hc Ht Hn. unfold history_push. pose proof Hc as (rest & E & Hf).
  destruct t as [|c t].
  { subst cmd. cbn [app]. change (aget (0 :: rest) 0) with (Some 0). cbn [mbind option_bind].
    rewrite decide_True by done. exists h. split; [done|]. by rewrite decide_True. }
  assert (aget cmd 0 = Some c) as -> by (by rewrite E). cbn [mbind option_bind].
  apply Forall_cons_1 in Hf as [Hc0 _]. rewrite !decide_False by done.
  unfold HISTORY_SIZE, SHELL_BUF_SIZE. rewrite H3, rem_nat, aget_nat. set (k := (length cmds `mod` 8)%nat).
  assert (k < 8)%nat as Hk by (apply Nat.mod_upper_bound; lia).
  destruct (lookup_lt_is_Some_2 (h_rows h) k) as [row Hrow]; [lia|]. rewrite Hrow. cbn [mbind option_bind].
  destruct (copy_line row cmd (c :: t) Hc Ht (H2 k row Hrow)) as (b & b' & E1 & E2 & E3 & E4).
  change (Z.to_nat (256 - 1)) with 255%nat. change (256 - 1) with 255. rewrite E1. cbn [mbind option_bind].
  rewrite E2. cbn [mbind option_bind]. rewrite aset_Some by lia. cbn [mbind option_bind]. rewrite Nat2Z.id.
  rewrite decide_True by lia. eexists. split; [done|]. constructor; cbn [h_rows h_count].
  - by rewrite length_insert.
  - intros i r Hr. destruct (decide (i = k)) as [->|Hne].
    + rewrite list_lookup_insert_eq in Hr by lia. by injection Hr as <-.
    + rewrite list_lookup_insert_ne in Hr by done. by apply (H2 i).
  - rewrite length_app. simpl. lia.
  - intros i x Hx Hi. rewrite length_app in Hi. simpl in Hi. destruct (decide (i = length cmds)) as [->|Hne].
    + rewrite list_lookup_middle in Hx by done. injection Hx as <-. fold k. exists b'.
      rewrite list_lookup_insert_eq by lia. done.
    + assert (i < length cmds)%nat as Hlt.
      { apply lookup_lt_Some in Hx. rewrite length_app in Hx. simpl in Hx. lia. }
      rewrite lookup_app_l in Hx by done. destruct (H4 i x Hx ltac:(lia)) as (r & Hr & Hxr). exists r.
      rewrite list_lookup_insert_ne; [done|]. unfold k. intros Heq.
      pose proof (Nat.div_mod_eq i 8). pose proof (Nat.div_mod_eq (length cmds) 8). lia.
Qed.

(** [history_get] counts back from the newest. *)
Lemma history_get_lemma h cmds k :
  hist_repr h cmds →
  match recent cmds !! k with
  | Some cmd => ∃ row, history_get (Z.of_nat k + 1) h = Some (Some row) ∧ is_cstr row cmd ∧ (length cmd ≤ 255)%nat
  | None => history_get (Z.of_nat k + 1) h = Some None
  end.
Proof.
  intros [H1 H2 H3 H4]. unfold recent, history_get. rewrite H3. unfold HISTORY_SIZE.
  destruct (decide (k < 8)%nat) as [Hk|Hk].
  2:{ rewrite lookup_ge_None_2 by (rewrite length_take; lia). by rewrite decide_True by lia. }
  rewrite lookup_take_lt by done. destruct (decide (k < length cmds)%nat) as [Hn|Hn].
  2:{ rewrite lookup_ge_None_2 by (rewrite length_reverse; lia). by rewrite decide_True by lia. }
  rewrite reverse_lookup by done. destruct (lookup_lt_is_Some_2 cmds (length cmds - S k)) as [cmd Hcmd]; [lia|].
  rewrite Hcmd. rewrite decide_False by lia.
  replace (Z.of_nat (length cmds) - (Z.of_nat k + 1)) with (Z.of_nat (length cmds - S k)) by lia. rewrite rem_nat.
  destruct (H4 _ cmd Hcmd ltac:(lia)) as (row & Hr & Hx).
  pose proof (Nat.mod_upper_bound (length cmds - S k) 8 ltac:(lia)) as Hm.
  replace (Z.of_nat ((length cmds - S k) `mod` 8) + 8) with (Z.of_nat ((length cmds - S k) `mod` 8 + 8)) by lia.
  rewrite rem_nat. replace (((length cmds - S k) `mod` 8 + 8) `mod` 8)%nat with ((length cmds - S k) `mod` 8)%nat.
  - rewrite aget_nat, Hr. cbn [mbind option_bind]. by exists row.
  - rewrite <-(Nat.Div0.add_mod_idemp_r _ 8), Nat.Div0.mod_same, Nat.add_0_r. by rewrite Nat.Div0.mod_mod.
Qed.

(** ** The abstract editor *)

(** The effect of a character other than newline on the text and the place in the
    history (0 for the line being typed), with the echo. *)
Definition edit (past : list (list Z)) (t : list Z) (pos : nat) (c : Z) : list Z * nat * list Z :=
  if decide (c = 8) then
    (if decide (t = []) then (t, pos, []) else (take (length t - 1) t, pos, [8]))
  else if decide (c = KEY_UP) then
    match past !! pos with
    | Some cmd => (cmd, S pos, replicate (length t) 8 ++ cmd)
    | None => (t, pos, [])
    end
  else if decide (c = KEY_DOWN) then
    match pos with
    | O => (t, pos, [])
    | S O => ([], O, replicate (length t) 8)
    | S (S k) => match past !! k with
                 | Some cmd => (cmd, S k, replicate (length t) 8 ++ cmd)
                 | None => (t, S k, replicate (length t) 8)
                 end
    end
  else if decide (32 ≤ c < 128) then (t ++ [c], pos, [c])
  else (t, pos, []).

(** A line: the text, the characters left over ([None] while more are awaited), and
    the echo.  A line of 255 characters is complete. *)
Fixpoint edit_line (past : list (list Z)) (keys : list Z) (t : list Z) (pos : nat) :
    list Z * option (list Z) * list Z :=
  if decide (length t < 255)%nat then
    match keys with
    | [] => (t, None, [])
    | c :: keys =>
        if decide (c = 10) then (t, Some keys, [10])
        else
          let '(t, pos, echo) := edit past t pos c in
          let '(t, rest, echo') := edit_line past keys t pos in (t, rest, echo ++ echo')
    end
  else (t, Some keys, []).

(** The array code at the abstract state. *)
Record line_repr (past : list (list Z)) (L : line) (t : list Z) (pos : nat) : Prop := LineRepr {
  lr_buf : length (l_buf L) = 256%nat;
  lr_text : take (length t) (l_buf L) = t;
  lr_len : l_len L = Z.of_nat (length t);
  lr_max : (length t ≤ 255)%nat;
  lr_pos : l_pos L = Z.of_nat pos;
  lr_past : (pos ≤ length past)%nat;
  lr_nul : Forall (λ c, c ≠ 0) t
}.

Lemma recall_spec row buf v cmd :
  is_cstr row cmd → (length cmd ≤ 255)%nat → length buf = 256%nat → vga_wf v →
  ∃ buf' v', recall 256 row buf v = Some (buf', Z.of_nat (length cmd), v') ∧ length buf' = 256%nat ∧ is_cstr buf' cmd ∧
    prints v ((λ c, (vga_color v, c)) <$> cmd) v' ∧ vga_color v' = vga_color v.
Proof.
  intros Hr Hc Hb Hw. unfold recall. destruct (copy_line buf row cmd Hr Hc Hb) as (b & b' & E1 & E2 & E3 & E4).
  change (Z.to_nat (256 - 1)) with 255%nat. change (256 - 1) with 255. rewrite E1. cbn [mbind option_bind].
  rewrite E2. cbn [mbind option_bind]. rewrite (strlen_cstr b' cmd E4). cbn [mbind option_bind].
  rewrite (vga_puts_cstr b' cmd) by done. destruct (put_all_prints cmd v Hw) as (v' & -> & Hp & Hcol).
  cbn [mbind option_bind]. by exists b', v'.
Qed.

Lemma cstr_take b t : is_cstr b t → take (length t) b = t ∧ Forall (λ c, c ≠ 0) t.
Proof. intros (rest & -> & Hf). split; [|done]. rewrite take_app_le by lia. by apply take_ge. Qed.

(** The line after a recalled command. *)
Lemma recalled_repr past buf cmd k :
  is_cstr buf cmd → (length cmd ≤ 255)%nat → length buf = 256%nat → (k ≤ length past)%nat →
  line_repr past (Line buf (Z.of_nat (length cmd)) (Z.of_nat k)) cmd k.
Proof. intros Hb Hc Hl Hk. destruct (cstr_take buf cmd Hb). by constructor. Qed.

Lemma prints_app v1 v2 v3 col cs ds :
  prints v1 ((λ c, (col, c)) <$> cs) v2 → prints v2 ((λ c, (col, c)) <$> ds) v3 →
  prints v1 ((λ c : Z, (col, c)) <$> (cs ++ ds)) v3.
Proof. intros H1 H2. rewrite fmap_app. by eapply prints_trans. Qed.

(** Erasing, then recalling a command. *)
Lemma erase_recall row L t v cmd past pos :
  line_repr past L t pos → is_cstr row cmd → (length cmd ≤ 255)%nat → vga_wf v →
  ∃ v1 buf' v', erase_input (l_len L) v = Some v1 ∧ recall 256 row (l_buf L) v1 = Some (buf', Z.of_nat (length cmd), v') ∧
    prints v ((λ c, (vga_color v, c)) <$> (replicate (length t) 8 ++ cmd)) v' ∧ vga_color v' = vga_color v ∧
    ∀ k, (k ≤ length past)%nat → line_repr past (Line buf' (Z.of_nat (length cmd)) (Z.of_nat k)) cmd k.
Proof.
  intros [L1 L2 L3 L4 L5 L6 L7] Hr Hc Hw. unfold erase_input. rewrite L3, Nat2Z.id.
  destruct (put_all_prints (replicate (length t) 8) v Hw) as (v1 & E1 & P1 & C1).
  destruct (recall_spec row (l_buf L) v1 cmd Hr Hc L1 (ps_wf _ _ _ P1)) as (b & v' & E2 & B1 & B2 & P2 & C2).
  exists v1, b, v'. split; [done|]. split; [done|]. rewrite C1 in P2. split; [by eapply prints_app|].
  split; [congruence|]. intros k Hk. by apply recalled_repr.
Qed.

(** What a key must do to the line, the history position and the screen. *)
Definition key_ok h cmds L t pos c v : Prop :=
  let '(t', pos', echo) := edit (recent cmds) t pos c in
  ∃ L' v', line_key 256 h c L v = Some (false, L', v') ∧ line_repr (recent cmds) L' t' pos' ∧
    prints v ((λ ch, (vga_color v, ch)) <$> echo) v' ∧ vga_color v' = vga_color v.

Section keys.
Context (h : hist) (cmds : list (list Z)) (L : line) (t : list Z) (pos : nat) (v : vga).
Context (Hh : hist_repr h cmds) (HL : line_repr (recent cmds) L t pos) (Ht : (length t < 255)%nat) (Hw : vga_wf v).

Lemma key_backspace : key_ok h cmds L t pos 8 v.
Proof using HL Ht Hw.
  pose proof HL as [L1 L2 L3 L4 L5 L6 L7]. destruct L as [buf len lpos]. cbn [l_buf l_len l_pos] in *.
  assert (prints v [] v) as Hnop by (by apply prints_refl). unfold key_ok, line_key, edit.
  rewrite (decide_False (P := 8 = 10)) by done. rewrite !(decide_True (P := 8 = 8)) by done.
  destruct (decide (t = [])) as [->|Hne].
  - rewrite decide_False by (simpl in *; lia). by eexists _, v.
  - assert (1 ≤ length t)%nat by (destruct t; simpl; [done|lia]). rewrite decide_True by lia.
    destruct (put_all_prints [8] v Hw) as (v' & E & Hp & Hcol). cbn [put_all] in E. 
    destruct (vga_putchar 8 v) as [v1|]; [|done]. injection E as ->. cbn [mbind option_bind].
    eexists _, v'. split; [done|]. split; [|done]. constructor; cbn [l_buf l_len l_pos]; rewrite ?length_take; [done| |lia|lia|done|done|].
    + trans (take (length t - 1) (take (length t) buf)); [rewrite take_take; f_equal; lia|by rewrite L2].
    + by apply Forall_take.
Qed.

Lemma key_up : key_ok h cmds L t pos KEY_UP v.
Proof using Hh HL Ht Hw.
  pose proof HL as [L1 L2 L3 L4 L5 L6 L7]. destruct L as [buf len lpos]. cbn [l_buf l_len l_pos] in *.
  assert (prints v [] v) as Hnop by (by apply prints_refl). unfold key_ok, line_key, edit.
  rewrite (decide_False (P := KEY_UP = 10)), !(decide_False (P := KEY_UP = 8)), !(decide_True (P := KEY_UP = KEY_UP)) by done.
  pose proof (history_get_lemma h cmds pos Hh) as Hg. rewrite L5.
  destruct (recent cmds !! pos) as [cmd|] eqn:Ep.
  - destruct Hg as (row & -> & Hr & Hl). cbn [mbind option_bind].
    destruct (erase_recall row (Line buf len lpos) t v cmd (recent cmds) pos HL Hr Hl Hw) as (v1 & b & v' & E1 & E2 & P & C & HL').
    cbn [l_buf l_len] in E1, E2. rewrite E1. cbn [mbind option_bind]. rewrite E2. cbn [mbind option_bind].
    eexists _, v'. split; [done|]. split; [|done]. apply lookup_lt_Some in Ep.
    replace (Z.of_nat pos + 1) with (Z.of_nat (S pos)) by lia. apply HL'. lia.
  - rewrite Hg. cbn [mbind option_bind]. by eexists _, v.
Qed.

Lemma key_down : key_ok h cmds L t pos KEY_DOWN v.
Proof using Hh HL Ht Hw.
  pose proof HL as [L1 L2 L3 L4 L5 L6 L7]. destruct L as [buf len lpos]. cbn [l_buf l_len l_pos] in *.
  assert (prints v [] v) as Hnop by (by apply prints_refl). unfold key_ok, line_key, edit.
  rewrite (decide_False (P := KEY_DOWN = 10)), !(decide_False (P := KEY_DOWN = 8)), !(decide_False (P := KEY_DOWN = KEY_UP)),
    !(decide_True (P := KEY_DOWN = KEY_DOWN)) by done.
  rewrite L5. destruct pos as [|pos1]; [rewrite decide_False by lia; by eexists _, v|]. rewrite decide_True by lia.
  replace (Z.of_nat (S pos1) - 1) with (Z.of_nat pos1) by lia. destruct pos1 as [|k].
  - unfold erase_input. rewrite L3, Nat2Z.id.
    destruct (put_all_prints (replicate (length t) 8) v Hw) as (v1 & -> & P1 & C1). cbn [mbind option_bind].
    rewrite decide_True by done. rewrite aset_Some by lia. cbn [mbind option_bind]. eexists _, v1. split; [done|]. split; [|done].
    constructor; cbn [l_buf l_len l_pos]; simpl; try done; [by rewrite length_insert|lia|lia].
  - pose proof (history_get_lemma h cmds k Hh) as Hg.
    destruct (recent cmds !! k) as [cmd|] eqn:Ep.
    2:{ exfalso. apply lookup_ge_None_1 in Ep. lia. }
    destruct Hg as (row & Hg & Hr & Hl).
    destruct (erase_recall row (Line buf len lpos) t v cmd (recent cmds) (S (S k)) HL Hr Hl Hw) as (v1 & b & v' & E1 & E2 & P & C & HL').
    cbn [l_buf l_len] in E1, E2. rewrite E1. cbn [mbind option_bind]. rewrite decide_False by lia.
    replace (Z.of_nat (S k)) with (Z.of_nat k + 1) by lia. rewrite Hg. cbn [mbind option_bind].
    rewrite E2. cbn [mbind option_bind]. eexists _, v'. split; [done|]. split; [|done].
    replace (Z.of_nat k + 1) with (Z.of_nat (S k)) by lia. apply HL'. lia.
Qed.

Lemma key_char c : c ≠ 10 → c ≠ 8 → c ≠ KEY_UP → c ≠ KEY_DOWN → key_ok h cmds L t pos c v.
Proof using HL Ht Hw.
  intros H10 H8 Hup Hdn. pose proof HL as [L1 L2 L3 L4 L5 L6 L7]. destruct L as [buf len lpos]. cbn [l_buf l_len l_pos] in *.
  assert (prints v [] v) as Hnop by (by apply prints_refl). unfold key_ok, line_key, edit.
  rewrite (decide_False (P := c = 10)), !(decide_False (P := c = 8)), !(decide_False (P := c = KEY_UP)),
    !(decide_False (P := c = KEY_DOWN)) by done.
  destruct (decide (32 ≤ c < 128)) as [Hpr|Hpr]; [|by eexists _, v].
  rewrite aset_Some by lia. cbn [mbind option_bind].
  destruct (put_all_prints [c] v Hw) as (v' & E & Hp & Hcol). cbn [put_all] in E.
  destruct (vga_putchar c v) as [v1|]; [|done]. injection E as ->. cbn [mbind option_bind].
  eexists _, v'. split; [done|]. split; [|done]. constructor; cbn [l_buf l_len l_pos]; rewrite ?length_app; simpl; try lia.
  - by rewrite length_insert.
  - rewrite L3, Nat2Z.id. rewrite Nat.add_1_r, (take_S_r _ _ c).
    + rewrite take_insert_ge by lia. by rewrite L2.
    + apply list_lookup_insert_eq. lia.
  - apply Forall_app_2; [done|]. constructor; [lia|done].
Qed.
End keys.

(** One key. *)
Lemma line_key_spec h cmds L t pos c v :
  hist_repr h cmds → line_repr (recent cmds) L t pos → (length t < 255)%nat → c ≠ 10 → vga_wf v →
  key_ok h cmds L t pos c v.
Proof.
  intros Hh HL Ht Hc Hw. destruct (decide (c = 8)) as [->|]; [by apply key_backspace|].
  destruct (decide (c = KEY_UP)) as [->|]; [by apply key_up|].
  destruct (decide (c = KEY_DOWN)) as [->|]; [by apply key_down|]. by apply key_char.
Qed.

Lemma line_done past L t pos :
  line_repr past L t pos → ∃ buf, aset (l_buf L) (l_len L) 0 = Some buf ∧ length buf = 256%nat ∧ is_cstr buf t.
Proof.
  intros [L1 L2 L3 L4 L5 L6 L7]. rewrite aset_Some by lia. eexists. split; [done|]. split; [by rewrite length_insert|].
  rewrite L3, Nat2Z.id. exists (drop (S (length t)) (l_buf L)). split; [|done].
  rewrite insert_take_drop by lia. by rewrite L2.
Qed.

Lemma read_line_lemma h cmds : hist_repr h cmds → ∀ keys L t pos v,
  line_repr (recent cmds) L t pos → vga_wf v →
  let '(t', rest, echo) := edit_line (recent cmds) keys t pos in
  ∃ v', prints v ((λ ch, (vga_color v, ch)) <$> echo) v' ∧ vga_color v' = vga_color v ∧
    match rest with
    | Some rest => ∃ buf, read_line_loop 256 h keys L v = Some (LineDone buf rest v') ∧ length buf = 256%nat ∧
        is_cstr buf t' ∧ (length t' ≤ 255)%nat
    | None => ∃ L' pos', read_line_loop 256 h keys L v = Some (LineMore L' v') ∧ line_repr (recent cmds) L' t' pos'
    end.
Proof.
  intros Hh. induction keys as [|c keys IH]; intros L t pos v HL Hw; cbn [edit_line read_line_loop].
  - rewrite (lr_len _ _ _ _ HL). pose proof (lr_max _ _ _ _ HL) as Hm. destruct (decide (length t < 255)%nat).
    + rewrite decide_True by lia. exists v. split; [by apply prints_refl|]. split; [done|]. by exists L, pos.
    + rewrite decide_False by lia. exists v. split; [by apply prints_refl|]. split; [done|].
      destruct (line_done _ L t pos HL) as (buf & Eb & Hl & Hb). rewrite <-(lr_len _ _ _ _ HL), Eb. by exists buf.
  - rewrite (lr_len _ _ _ _ HL). pose proof (lr_max _ _ _ _ HL) as Hm. destruct (decide (length t < 255)%nat) as [Hlt|Hge].
    2:{ rewrite decide_False by lia. exists v. split; [by apply prints_refl|]. split; [done|].
        destruct (line_done _ L t pos HL) as (buf & Eb & Hl & Hb). rewrite <-(lr_len _ _ _ _ HL), Eb. by exists buf. }
    rewrite (decide_True (P := Z.of_nat (length t) < 256 - 1)) by lia. destruct (decide (c = 10)) as [->|Hc].
    + destruct (put_all_prints [10] v Hw) as (v' & E & Hp & Hcol). cbn [put_all] in E.
      destruct (vga_putchar 10 v) as [v1|] eqn:Ev; [|done]. injection E as ->. exists v'. split; [done|]. split; [done|].
      assert (line_key 256 h 10 L v = Some (true, L, v')) as ->
        by (destruct L; unfold line_key; rewrite decide_True by done; by rewrite Ev).
      cbn [mbind option_bind]. destruct (line_done _ L t pos HL) as (buf & Eb & Hl & Hb). rewrite Eb. by exists buf.
    + pose proof (line_key_spec h cmds L t pos c v Hh HL Hlt Hc Hw) as Hk. unfold key_ok in Hk.
      destruct (edit (recent cmds) t pos c) as [[t1 pos1] echo1]. destruct Hk as (L1 & v1 & -> & HL1 & P1 & C1).
      cbn [mbind option_bind]. pose proof (IH L1 t1 pos1 v1 HL1 (ps_wf _ _ _ P1)) as H.
      destruct (edit_line (recent cmds) keys t1 pos1) as [[t' rest] echo]. destruct H as (v' & P2 & C2 & H).
      exists v'. rewrite C1 in P2. split; [by eapply prints_app|]. split; [congruence|]. done.
Qed.

(** C31: [read_line] is the abstract line editor.  For every sequence of characters
    typed, whatever the buffer held before, and every history, the code stays inside
    its 256-byte buffer and the history rows, echoes exactly what the abstract editor
    echoes, and, as soon as the line is complete, leaves the edited text in the buffer,
    NUL-terminated and of at most 255 characters, having consumed just the characters
    of this line. *)
Theorem read_line_refines h cmds buf keys v :
  hist_repr h cmds → length buf = 256%nat → vga_wf v →
  let '(t, rest, echo) := edit_line (recent cmds) keys [] 0 in
  ∃ v', prints v ((λ ch, (vga_color v, ch)) <$> echo) v' ∧
    match rest with
    | Some rest => ∃ buf', read_line buf SHELL_BUF_SIZE h keys v = Some (LineDone buf' rest v') ∧
        length buf' = 256%nat ∧ is_cstr buf' t ∧ (length t ≤ 255)%nat
    | None => ∃ L, read_line buf SHELL_BUF_SIZE h keys v = Some (LineMore L v')
    end.
Proof.
  intros Hh Hb Hw. assert (line_repr (recent cmds) (Line buf 0 0) [] 0) as HL by (by constructor; simpl; try lia).
  pose proof (read_line_lemma h cmds Hh keys (Line buf 0 0) [] 0 v HL Hw) as H.
  destruct (edit_line (recent cmds) keys [] 0) as [[t rest] echo]. destruct H as (v' & Hp & _ & H).
  exists v'. split; [done|]. destruct rest as [rest|]; [done|]. destruct H as (L & _ & E & _). by exists L.
Qed.

(** The history holds the last eight commands.  Starting from the empty history,
    after any sequence of command lines [history_get(k)] is the [k]-th newest of those
    that are not empty, for [k] up to 8, and NULL otherwise. *)
Theorem history_last_eight (rows : list (list Z)) (lines : list (list Z)) k :
  length rows = 8%nat → Forall (λ r, length r = 256%nat) rows →
  Forall (λ l, Forall (λ c, c ≠ 0) l ∧ (length l ≤ 255)%nat) lines → Z.of_nat (length lines) < 2147483647 →
  ∃ h, foldl (λ h l, h ≫= history_push (l ++ [0])) (Some (Hist rows 0)) lines = Some h ∧
    match take 8 (reverse (filter (λ l, l ≠ []) lines)) !! k with
    | Some cmd => ∃ row, history_get (Z.of_nat k + 1) h = Some (Some row) ∧ is_cstr row cmd
    | None => history_get (Z.of_nat k + 1) h = Some None
    end.
Proof.
  intros Hr Hl Hok Hn.
  assert (∀ ls cmds h, hist_repr h cmds → Forall (λ l, Forall (λ c, c ≠ 0) l ∧ (length l ≤ 255)%nat) ls →
    Z.of_nat (length cmds + length ls) ≤ 2147483647 - 1 →
    ∃ h', foldl (λ h l, h ≫= history_push (l ++ [0])) (Some h) ls = Some h' ∧
      hist_repr h' (cmds ++ filter (λ l, l ≠ []) ls)) as Hfold.
  { induction ls as [|l ls IH]; intros cmds h Hh Hls Hlen; cbn [foldl].
    - exists h. by rewrite filter_nil, app_nil_r.
    - apply Forall_cons_1 in Hls as [[Hl0 Hl1] Hls]. simpl in Hlen. cbn [mbind option_bind].
      destruct (history_push_lemma h cmds (l ++ [0]) l Hh) as (h1 & -> & Hh1); [by exists []|done|lia|].
      rewrite filter_cons. destruct (decide (l = [])) as [->|Hne].
      + rewrite decide_False by (intros X; by apply X). apply IH; [done|done|lia].
      + rewrite decide_True by done. destruct (IH (cmds ++ [l]) h1 Hh1 Hls) as (h' & E & Hh'); [rewrite length_app; simpl; lia|].
        exists h'. split; [done|]. by rewrite <-app_assoc in Hh'. }
  destruct (Hfold lines [] (Hist rows 0)) as (h & E & Hh); [|done|simpl; lia|].
  { constructor; simpl; [done| |done|done]. intros i row Hi. rewrite Forall_lookup in Hl. by apply (Hl i). }
  exists h. split; [done|]. pose proof (history_get_lemma h _ k Hh) as H. unfold recent in H. simpl in H.
  destruct (_ !! k); [|done]. destruct H as (row & H1 & H2 & _). by exists row.
Qed.

(** ** Examples *)

Definition demo_rows : list (list Z) := replicate 8 (replicate 256 0).

Lemma demo_hist : hist_repr (Hist demo_rows 0) [].
Proof.
  constructor; [reflexivity| |reflexivity|done]. intros i row H. apply lookup_replicate in H as [-> _]. apply length_replicate.
Qed.

(** "lx", backspace, "s", Enter. *)
Lemma read_line_refines_witness :
  ∃ buf v', read_line (replicate 256 1) 256 (Hist demo_rows 0) [108; 120; 8; 115; 10; 33] demo_vga =
    Some (LineDone buf [33] v') ∧ is_cstr buf [108; 115].
Proof.
  pose proof (read_line_refines (Hist demo_rows 0) [] (replicate 256 1) [108; 120; 8; 115; 10; 33] demo_vga
    demo_hist (length_replicate _ _) demo_vga_wf) as H.
  destruct H as (v' & _ & buf & E & _ & Hb & _). exists buf, v'. split; [exact E|exact Hb].
Defined.

Lemma history_last_eight_witness :
  ∃ h row, foldl (λ h l, h ≫= history_push (l ++ [0])) (Some (Hist demo_rows 0)) [[108; 115]; []; [112; 115]] = Some h ∧
    history_get 2 h = Some (Some row) ∧ is_cstr row [108; 115].
Proof.
  destruct (history_last_eight demo_rows [[108; 115]; []; [112; 115]] 1) as (h & E & H).
  - reflexivity.
  - apply Forall_replicate, length_replicate.
  - repeat constructor; simpl; lia.
  - simpl; lia.
  - destruct H as (row & H1 & H2). exists h, row. split; [exact E|]. split; [exact H1|exact H2].
Defined.

(** Input that has wrapped to the next screen row cannot be erased completely: a
    backspace in column 0 changes nothing at all, so [erase_input], which is to take
    the display back to the start of the input, stops at the left margin however many
    characters it is asked to erase. *)
Theorem erase_stops_at_margin v len :
  vga_wf v → vga_col v = 0 → ∃ v', erase_input len v = Some v' ∧ vga_abs v' = vga_abs v.
Proof.
  intros Hw Hc. unfold erase_input. generalize (Z.to_nat len). clear len. intros n.
  destruct (put_all_spec (replicate n 8) v Hw) as (v' & E & _ & _ & Ha). exists v'. split; [done|]. rewrite Ha.
  assert (term_put (vga_color v) 8 (vga_abs v) = vga_abs v) as Hfix.
  { destruct Hw as [_ Hr _]. unfold term_put, vga_abs. rewrite Hc. unfold term_place.
    rewrite (decide_False (P := 8 = 10)), (decide_False (P := 8 = 13)), (decide_True (P := 8 = 8)) by lia.
    rewrite decide_True by zdm. unfold term_scroll. by rewrite decide_True by lia. }
  clear E Ha. induction n as [|n IH]; [done|]. cbn [replicate foldl]. by rewrite Hfix.
Qed.

Lemma erase_stops_at_margin_witness :
  ∃ v', erase_input 100 (Vga (replicate 2000 (vga_entry 65 7)) 5 0 7 0 0) = Some v' ∧
    vga_buffer v' = replicate 2000 (vga_entry 65 7).
Proof.
  destruct (erase_stops_at_margin (Vga (replicate 2000 (vga_entry 65 7)) 5 0 7 0 0) 100) as (v' & E & Ha);
    [constructor; [reflexivity|simpl; lia..]|reflexivity|].
  exists v'. split; [exact E|]. injection Ha as Hb _. exact Hb.
Defined.
