(* ===== verification/Shell.v ===== *)
(** * The shell ([src/kernel/shell.c])

    The built-in commands on the state of [System], the dispatcher, and one turn of
    the loop of [shell_run].  Commands that wait or switch take what they need from
    the outside: the wake-ups of a sleep, the context at a [process_yield]. *)

From Stdlib Require Import String.
From S2P Require Import Prelude Mem CString Kmem Pmm Paging Process Pipe Keyboard Vga Console.
From S2P Require Import Ports Pic Rtc Timer Ata Fs Fd Elf UserMem System Line.

(** ** Strings *)

Fixpoint str_eq (a b : list Z) : option bool :=
  match a, b with
  | x :: a, y :: b =>
      if decide (x ≠ 0 ∧ y ≠ 0) then if decide (x = y) then str_eq a b else Some false
      else Some (bool_decide (x = y))
  | _, _ => None
  end.

Fixpoint str_startswith (str prefix : list Z) {struct prefix} : option bool :=
  match prefix with
  | [] => None
  | p :: prefix =>
      if decide (p = 0) then Some true
      else match str with
           | [] => None
           | c :: str => if decide (c = p) then str_startswith str prefix else Some false
           end
  end.

(** [while ( *p == ' ') p++;] *)
Fixpoint skip_spaces (s : list Z) : list Z :=
  match s with [] => [] | c :: r => if decide (c = 32) then skip_spaces r else s end.

(** [while ( *p >= '0' && *p <= '9') n = n * 10 + ( *p++ - '0');] *)
Fixpoint parse_digits (s : list Z) (n : Z) : option Z :=
  match s with
  | [] => None
  | c :: s => if decide (48 ≤ c ≤ 57) then parse_digits s (u32 (u32 (n * 10) + (c - 48))) else Some n
  end.

(** The first word of the arguments of [write], at most [n] characters, and what
    follows it. *)
Fixpoint split_name (n : nat) (args : list Z) : option (list Z * list Z) :=
  match n, args with
  | O, _ => Some ([], args)
  | S n, c :: rest =>
      if decide (c = 0 ∨ c = 32) then Some ([], args)
      else '(nm, r) ← split_name n rest; Some (c :: nm, r)
  | S _, [] => None
  end.

Definition RUN_BUF_SIZE : Z := 65536.
Definition USER_STACK_TOP : Z := 16908288.
Definition USER_STACK_PAGES : Z := 4.

Section shell.
Context (process_table page_directory user_mode_enter run_buf : Z) (rtc_fuel : nat).
Context {D : Type} `{!BlockDevice D} {P : Type} `{!PortIO P} {R : Type} `{!PortIO R}.

(** A command that only prints. *)
Definition say (ps : list pr) (s : sys D P R) : option (exit (sys D P R)) :=
  s ← console ps s; Some (Returned s).

Definition grey : pr := Color VGA_COLOR_LIGHT_GREY.
Definition red : pr := Color VGA_COLOR_LIGHT_RED.
Definition green : pr := Color VGA_COLOR_LIGHT_GREEN.

Definition cmd_help : sys D P R → option (exit (sys D P R)) :=
  say [Color VGA_COLOR_LIGHT_CYAN;
    Puts "VESPER OS Shell  -  Available commands:\n"; grey;
    Puts "  help             Show this help message\n";
    Puts "  clear            Clear the screen\n";
    Puts "  echo <text>      Print text to the screen\n";
    Puts "  version          Show OS version information\n";
    Puts "  meminfo          Show heap + physical memory statistics\n";
    Puts "  uptime           Show system uptime\n";
    Puts "  date             Show current date and time (RTC)\n";
    Puts "  ps               List running processes\n";
    Puts "  kill <pid>       Terminate a process by PID\n";
    Puts "  sleep <ms>       Sleep for N milliseconds\n";
    Puts "  colortest        Display all 16 VGA colours\n";
    Puts "  mkfs             Format the VesperFS partition\n";
    Puts "  ls               List files in VesperFS\n";
    Puts "  cat <file>       Print file contents\n";
    Puts "  write <f> <txt>  Write text to a file\n";
    Puts "  rm <file>        Delete a file from VesperFS\n";
    Puts "  run <file>       Load ELF32; spawn as kernel thread\n";
    Puts "  exec <file>      Load ELF32; spawn as ring-3 user process\n";
    Puts "  halt             Halt the CPU\n";
    Puts "  reboot           Reboot the system\n";
    Puts "\n"; Color VGA_COLOR_DARK_GREY;
    Puts "  Up/Down arrows cycle through command history.\n"; grey].

Definition cmd_clear (s : sys D P R) : option (exit (sys D P R)) :=
  v ← vga_clear (y_vga s); Some (Returned (set_vga v s)).

Definition cmd_echo (args : list Z) : sys D P R → option (exit (sys D P R)) := say [PutBuf args; Putc 10].

Definition cmd_version : sys D P R → option (exit (sys D P R)) :=
  say [Color VGA_COLOR_YELLOW; Puts "VESPER OS  v0.5.0\n"; grey;
    Puts "Architecture   : x86 32-bit Protected Mode\n";
    Puts "VGA buffer     : 0xB8000\n";
    Puts "Kernel base    : 0x1000\n";
    Puts "Interrupt model: IDT + 8259A PIC (IRQ0-15 -> INT 32-47)\n";
    Puts "Keyboard       : PS/2 interrupt-driven (IRQ1, extended scancodes)\n";
    Puts "Timer          : PIT 100 Hz (IRQ0), preempt every 50 ms\n";
    Puts "Memory         : PMM bitmap + 256 KB heap + paging (0-8 MB)\n";
    Puts "Scheduler      : preemptive round-robin (50 ms slice)\n";
    Puts "Page dirs      : per-process (user processes get isolated PDs)\n";
    Puts "Syscalls       : INT 0x80 (DPL=3), 13 syscalls (0-12)\n";
    Puts "File I/O       : SYS_OPEN/READ/CLOSE via global FD table\n";
    Puts "IPC            : ring-buffer pipes (SYS_PIPE_CREATE/WRITE/READ)\n";
    Puts "RTC            : CMOS real-time clock\n";
    Puts "Disk           : ATA PIO (primary master)\n";
    Puts "Filesystem     : VesperFS (LBA 129+), supports create/read/delete\n";
    Puts "ELF loader     : ELF32 (kernel threads + ring-3 user processes)\n"].

Definition cmd_meminfo (s : sys D P R) : option (exit (sys D P R)) :=
  '(used, free_bytes, total) ← kmem_info (y_heap s);
  let pm := v_fa (y_vm s) in
  say [Color VGA_COLOR_LIGHT_CYAN; Puts "Heap Memory:\n"; grey;
    Puts "  Total  : "; Uint (total `div` 1024); Puts " KB ("; Uint total; Puts " bytes)\n";
    Puts "  Used   : "; Uint used; Puts " bytes\n";
    Puts "  Free   : "; Uint free_bytes; Puts " bytes\n";
    Color VGA_COLOR_LIGHT_CYAN; Puts "Physical Memory (PMM):\n"; grey;
    Puts "  Total  : "; Uint (u32 (pmm_total_frames pm * 4)); Puts " KB ("; Uint (pmm_total_frames pm); Puts " frames)\n";
    Puts "  Free   : "; Uint (u32 (pmm_free_frames pm * 4)); Puts " KB ("; Uint (pmm_free_frames pm); Puts " frames)\n"] s.

Definition cmd_halt (s : sys D P R) : option (exit (sys D P R)) :=
  s ← console [Color VGA_COLOR_YELLOW; Puts "CPU halted. Reset to continue.\n"; grey] s; Some (Halted s).

(** The reset pulse on port 0x64 ends the run of the machine. *)
Definition cmd_reboot (s : sys D P R) : option (exit (sys D P R)) :=
  s ← console [Color VGA_COLOR_YELLOW; Puts "Rebooting...\n"; grey] s; Some (Halted s).

Definition cmd_uptime (s : sys D P R) : option (exit (sys D P R)) :=
  let secs := timer_get_uptime_sec (y_ticks s) in
  let mins := secs `div` 60 in
  let hours := mins `div` 60 in
  say [Puts "Uptime: "; Uint hours; Puts "h "; Uint (mins `mod` 60); Puts "m "; Uint (secs `mod` 60); Puts "s  (";
    Uint (timer_get_ticks (y_ticks s)); Puts " ticks at 100 Hz)\n"] s.

Definition state_name (st : proc_state) : string :=
  match st with
  | PROC_UNUSED => "unused " | PROC_READY => "ready  " | PROC_RUNNING => "running"
  | PROC_BLOCKED => "blocked" | PROC_ZOMBIE => "zombie "
  end.

(** One row of [process_print_all]. *)
Definition process_row (p : process) : list pr :=
  if decide (p_state p = PROC_UNUSED) then []
  else [Uint (p_pid p); Puts "    "; Puts (state_name (p_state p)); Puts "  ";
        Puts (if decide (p_is_user p = 0) then "kernel" else "user  "); Puts "  "; PutBuf (p_name p); Putc 10].

Definition process_print_all (s : sys D P R) : option (sys D P R) :=
  console ([Color VGA_COLOR_LIGHT_CYAN; Puts "PID  STATE    MODE    NAME\n";
            Puts "---  -------  ------  ----------------\n"; grey]
           ++ (k_table (y_k s) ≫= process_row)) s.

Definition cmd_ps (s : sys D P R) : option (exit (sys D P R)) := s ← process_print_all s; Some (Returned s).

Definition cmd_mkfs (s : sys D P R) : option (exit (sys D P R)) :=
  s ← console [Color VGA_COLOR_YELLOW; Puts "Formatting VesperFS at LBA 129... "; grey] s;
  '(r, f) ← fs_format (y_fs s);
  let s := set_fs f s in
  if decide (r = 0) then say [green; Puts "done.\n"; grey] s
  else say [red; Puts "FAILED (disk write error).\n"; grey] s.

(** One entry of [fs_ls]: the name padded to 32 characters, and the size. *)
Definition ls_row (dir : list Z) (i : Z) : option (list pr) :=
  active ← de_active dir i;
  if active : bool then
    n ← strlen (de_name dir i);
    size ← de_size dir i;
    Some ([PutBuf (de_name dir i)] ++ replicate (Z.to_nat (32 - n)) (Putc 32) ++ [Uint size; Puts " B\n"])
  else Some [].

Definition fs_ls (s : sys D P R) : option (sys D P R) :=
  '(r, f) ← read_dir (y_fs s);
  let s := set_fs f s in
  if decide (r ≠ 0) then console [Puts "  [FS] disk read error\n"] s
  else
    s ← console [Color VGA_COLOR_LIGHT_CYAN; Puts "NAME                             SIZE\n";
                 Puts "-------------------------------- ------\n"; grey] s;
    '(found, s) ← for_u32_opt 0 FS_MAX_FILES (λ i x,
        let '(found, s) := x in
        row ← ls_row (f_dir f) i;
        s ← console row s; Some (found || negb (bool_decide (row = [])), s)) (false, s);
    if found : bool then Some s else console [Puts "  (empty)\n"] s.

(** [if (!fs_init()) { message; return; }], then [k]. *)
Definition with_fs (msg : string) (k : sys D P R → option (exit (sys D P R))) (s : sys D P R) :
    option (exit (sys D P R)) :=
  '(r, f) ← fs_init (y_fs s);
  let s := set_fs f s in
  if decide (r = 0) then say [red; Puts msg; grey] s else k s.

Definition cmd_ls : sys D P R → option (exit (sys D P R)) :=
  with_fs "No VesperFS found. Run 'mkfs' first.\n" (λ s, s ← fs_ls s; Some (Returned s)).

(** [while ((n = fs_read(&f, buf, 128)) > 0) { buf[n] = 0; vga_puts(buf); }]; every
    turn reads at least one byte. *)
Fixpoint cat_loop (fuel : nat) (f : fs_file) (buf : list Z) (s : sys D P R) : option (fs_file * sys D P R) :=
  match fuel with
  | O => None
  | S fuel =>
      '(n, buf, f, x) ← fs_read f buf 128 (y_fs s);
      let s := set_fs x s in
      if decide (0 < n) then
        buf ← aset buf n 0;
        s ← console [PutBuf buf] s;
        cat_loop fuel f buf s
      else Some (f, s)
  end.

(** [fs_open] with the message for a missing file, then [k]. *)
Definition with_file (name : list Z) (k : fs_file → sys D P R → option (exit (sys D P R))) (s : sys D P R) :
    option (exit (sys D P R)) :=
  '(r, f, x) ← fs_open name zero_file (y_fs s);
  let s := set_fs x s in
  if decide (r ≠ 0) then say [red; Puts "File not found: "; PutBuf name; Putc 10; grey] s else k f s.

(** [if (name[0] == 0) { usage; return; }], then [k]. *)
Definition with_name (usage : string) (name : list Z) (k : sys D P R → option (exit (sys D P R)))
    (s : sys D P R) : option (exit (sys D P R)) :=
  c ← aget name 0; if decide (c = 0) then say [Puts usage] s else k s.

(** The local [buf[129]] starts with arbitrary bytes, here zeros. *)
Definition cmd_cat (name : list Z) : sys D P R → option (exit (sys D P R)) :=
  with_name "Usage: cat <filename>\n" name
    (with_fs "No VesperFS found. Run 'mkfs' first.\n" (with_file name (λ f s,
      '(f, s) ← cat_loop (Z.to_nat (ff_size f) + 2) f (replicate 129 0) s;
      say [Putc 10] s))).

Definition cmd_write (args : list Z) (s : sys D P R) : option (exit (sys D P R)) :=
  '(nm, rest) ← split_name (Z.to_nat FS_NAME_MAX) args;
  let fname := nm ++ [0] in
  if decide (nm = []) then say [Puts "Usage: write <filename> <text>\n"] s
  else
    let content := skip_spaces rest in
    len ← strlen content;
    with_fs "No VesperFS. Run 'mkfs' first.\n" (λ s,
      '(r, f) ← fs_write_new fname content len (y_fs s);
      let s := set_fs f s in
      if decide (r = 0) then
        say [green; Puts "Written: "; PutBuf fname; Puts " ("; Uint len; Puts " bytes)\n"; grey] s
      else say [red; Puts "Write failed.\n"; grey] s) s.

Definition cmd_rm (name : list Z) : sys D P R → option (exit (sys D P R)) :=
  with_name "Usage: rm <filename>\n" name
    (with_fs "No VesperFS. Run 'mkfs' first.\n" (λ s,
      '(r, f) ← fs_delete name (y_fs s);
      let s := set_fs f s in
      if decide (r = 0) then say [green; Puts "Deleted: "; PutBuf name; Putc 10; grey] s
      else say [red; Puts "File not found: "; PutBuf name; Putc 10; grey] s)).

(** ** Programs *)

Definition load_bytes (m : mem) (a : Z) (n : Z) : list Z := (λ i, load8 m (a + i)) <$> seqZ 0 n.

Definition set_mem (m : mem) (s : sys D P R) : sys D P R := set_vm (vm_with_mem (y_vm s) m) s.

(** The common part of [run] and [exec]: read the file into [run_buf]; [k] goes on
    with the number of bytes read. *)
Definition with_image (name : list Z) (k : Z → sys D P R → option (exit (sys D P R))) :
    sys D P R → option (exit (sys D P R)) :=
  with_fs "No VesperFS. Run 'mkfs' first.\n" (with_file name (λ f s,
    if decide (RUN_BUF_SIZE < ff_size f) then say [red; Puts "File too large (max 64 KB).\n"; grey] s
    else
      '(nread, buf, _, x) ← fs_read f (load_bytes (y_mem s) run_buf RUN_BUF_SIZE) (ff_size f) (y_fs s);
      m ← mem_cpy_in (y_mem s) run_buf buf (Z.to_nat nread);
      k nread (set_mem m (set_fs x s)))).

(** The end of [run] and [exec]: the message, and [process_yield] in context [c]. *)
Definition announce (ps : list pr) (c : cpu) (s : sys D P R) : option (exit (sys D P R)) :=
  s ← console ([green] ++ ps ++ [grey]) s;
  '(c, k) ← process_yield process_table page_directory c (y_k s);
  Some (Switched c (set_k k s)).

Definition cmd_run (name : list Z) (c : cpu) : sys D P R → option (exit (sys D P R)) :=
  with_name "Usage: run <filename>\n" name (with_image name (λ nread s,
    '(entry, m) ← elf_load run_buf nread (y_mem s);
    let s := set_mem m s in
    if decide (entry = 0) then say [red; Puts "Not a valid ELF32 binary.\n"; grey] s
    else
      '(r, k) ← process_create process_table name entry (y_k s);
      let s := set_k k s in
      match r with
      | None => say [red; Puts "Process table full.\n"; grey] s
      | Some i =>
          p ← aget (k_table k) i;
          announce [Puts "Spawned PID "; Uint (p_pid p); Puts ": "; PutBuf name; Putc 10] c s
      end)).

(** Give up a new address space, with a message. *)
Definition abandon (pd : Z) (msg : string) (s : sys D P R) : option (exit (sys D P R)) :=
  s ← console [red; Puts msg; grey] s;
  v ← paging_destroy_pd pd (y_vm s);
  Some (Returned (set_vm v s)).

(** [exec] from the image on. *)
Definition exec_image (name : list Z) (c : cpu) (nread : Z) (s : sys D P R) : option (exit (sys D P R)) :=
  '(pd_phys, v) ← paging_create_pd page_directory (y_vm s);
  let s := set_vm v s in
  if decide (pd_phys = 0) then say [red; Puts "Out of physical memory.\n"; grey] s
  else
    '(entry, v) ← elf_load_user run_buf nread pd_phys (y_vm s);
    let s := set_vm v s in
    if decide (entry = 0) then abandon pd_phys "Not a valid ELF32 binary.\n" s
    else
      let stack_base := u32 (USER_STACK_TOP - USER_STACK_PAGES * 4096) in
      '(r, v) ← paging_alloc_user_pages pd_phys stack_base USER_STACK_PAGES (y_vm s);
      let s := set_vm v s in
      if decide (r ≠ 0) then abandon pd_phys "Failed to allocate user stack.\n" s
      else
        '(r, k) ← process_create_user process_table user_mode_enter name entry USER_STACK_TOP pd_phys (y_k s);
        let s := set_k k s in
        match r with
        | None => abandon pd_phys "Process table full.\n" s
        | Some i =>
            p ← aget (k_table k) i;
            announce [Puts "Spawned user-mode PID "; Uint (p_pid p); Puts ": "; PutBuf name;
                      Puts " (entry="; Hex entry; Puts ")\n"] c s
        end.

Definition cmd_exec (name : list Z) (c : cpu) : sys D P R → option (exit (sys D P R)) :=
  with_name "Usage: exec <filename>\n" name (with_image name (exec_image name c)).

(** ** The remaining commands *)

Definition cmd_date (s : sys D P R) : option (exit (sys D P R)) :=
  '(t, r) ← rtc_read rtc_fuel (y_rtc s);
  say [Printf "Date: %u-%02u-%02u  Time: %02u:%02u:%02u\n"
         [AInt (t_year t); AInt (t_month t); AInt (t_day t); AInt (t_hour t); AInt (t_minute t); AInt (t_second t)]]
      (set_rtc r s).

Definition cmd_kill (args : list Z) (s : sys D P R) : option (exit (sys D P R)) :=
  pid ← parse_digits args 0;
  if decide (pid = 0) then say [Puts "Usage: kill <pid>\n"] s
  else
    '(r, k) ← process_kill pid (y_k s);
    let s := set_k k s in
    if decide (r = 0) then say [green; Puts "Process "; Uint pid; Puts " terminated.\n"; grey] s
    else say [red; Puts "No such process: PID "; Uint pid; Putc 10; grey] s.

(** The sleep is followed through the tick counter only; [None] if the wake-ups
    given do not end it. *)
Definition cmd_sleep (args : list Z) (wakes : list Z) (s : sys D P R) : option (exit (sys D P R)) :=
  ms ← parse_digits args 0;
  if decide (ms = 0) then say [Puts "Usage: sleep <milliseconds>\n"] s
  else
    s ← console [Puts "Sleeping "; Uint ms; Puts " ms...\n"] s;
    match timer_sleep_ms true ms (y_ticks s) wakes with
    | Awake t _ => say [Puts "Done.\n"] (set_ticks t s)
    | _ => None
    end.

Definition color_names : list string :=
  ["BLACK   "; "BLUE    "; "GREEN   "; "CYAN    "; "RED     "; "MAGENTA "; "BROWN   "; "LT_GREY ";
   "DK_GREY "; "LT_BLUE "; "LT_GREEN"; "LT_CYAN "; "LT_RED  "; "LT_MAG  "; "YELLOW  "; "WHITE   "]%string.

Definition color_row (i : nat) (name : string) : list pr :=
  [Color (Z.of_nat i); Puts "  "; Puts name] ++ (if decide (Z.land (Z.of_nat i) 1 = 1) then [Putc 10] else []).

Definition cmd_colortest : sys D P R → option (exit (sys D P R)) :=
  say ([grey; Puts "VGA colour palette (foreground on black):\n"] ++ concat (imap color_row color_names)
       ++ [grey; Putc 10]).

Definition cmd_unknown (cmd : list Z) : sys D P R → option (exit (sys D P R)) :=
  say [red; Puts "Unknown command: "; PutBuf cmd; Putc 10; grey;
       Puts "Type 'help' for a list of available commands.\n"].
End shell.

(** ** Dispatch *)

(** What [execute_command] does for a line. *)
Inductive action :=
| AHelp | AClear | AEcho (args : list Z) | ANewline | AVersion | AMeminfo | AUptime | ADate | APs
| AKill (args : list Z) | ASleep (args : list Z) | AColortest | AMkfs | ALs | ACat (name : list Z)
| AWrite (args : list Z) | ARm (name : list Z) | ARun (name : list Z) | AExec (name : list Z)
| AHalt | AReboot | AUsage (msg : string) | AUnknown (cmd : list Z).

(** The tests of the [if]-[else] chain, in order. *)
Inductive test := Exact (s : string) (a : action) | Prefix (s : string) (f : list Z → action).

Definition tests : list test :=
  [Exact "help" AHelp; Exact "clear" AClear; Prefix "echo " AEcho; Exact "echo" ANewline; Exact "version" AVersion;
   Exact "meminfo" AMeminfo; Exact "uptime" AUptime; Exact "date" ADate; Exact "ps" APs;
   Prefix "kill " AKill; Exact "kill" (AUsage "Usage: kill <pid>\n");
   Prefix "sleep " ASleep; Exact "sleep" (AUsage "Usage: sleep <milliseconds>\n");
   Exact "colortest" AColortest; Exact "mkfs" AMkfs; Exact "ls" ALs;
   Prefix "cat " ACat; Exact "cat" (AUsage "Usage: cat <filename>\n");
   Prefix "write " AWrite; Exact "write" (AUsage "Usage: write <filename> <text>\n");
   Prefix "rm " ARm; Exact "rm" (AUsage "Usage: rm <filename>\n");
   Prefix "run " ARun; Exact "run" (AUsage "Usage: run <filename>\n");
   Prefix "exec " AExec; Exact "exec" (AUsage "Usage: exec <filename>\n");
   Exact "halt" AHalt; Exact "reboot" AReboot].

Fixpoint choose (ts : list test) (cmd : list Z) : option action :=
  match ts with
  | [] => Some (AUnknown cmd)
  | Exact s a :: ts => b ← str_eq cmd (c_lit s); if b : bool then Some a else choose ts cmd
  | Prefix s f :: ts =>
      b ← str_startswith cmd (c_lit s);
      if b : bool then Some (f (drop (String.length s) cmd)) else choose ts cmd
  end.

(** The command of a line, [None] for a blank one. *)
Definition parse_command (cmd : list Z) : option (option action) :=
  let cmd := skip_spaces cmd in
  c ← aget cmd 0;
  if decide (c = 0) then Some None else Some <$> choose tests cmd.

Section run.
Context (process_table page_directory user_mode_enter run_buf : Z) (rtc_fuel : nat).
Context {D : Type} `{!BlockDevice D} {P : Type} `{!PortIO P} {R : Type} `{!PortIO R}.

Definition perform (a : action) (wakes : list Z) (c : cpu) (s : sys D P R) : option (exit (sys D P R)) :=
  match a with
  | AHelp => cmd_help s
  | AClear => cmd_clear s
  | AEcho args => cmd_echo args s
  | ANewline => say [Putc 10] s
  | AVersion => cmd_version s
  | AMeminfo => cmd_meminfo s
  | AUptime => cmd_uptime s
  | ADate => cmd_date rtc_fuel s
  | APs => cmd_ps s
  | AKill args => cmd_kill args s
  | ASleep args => cmd_sleep args wakes s
  | AColortest => cmd_colortest s
  | AMkfs => cmd_mkfs s
  | ALs => cmd_ls s
  | ACat name => cmd_cat name s
  | AWrite args => cmd_write args s
  | ARm name => cmd_rm name s
  | ARun name => cmd_run process_table page_directory run_buf name c s
  | AExec name => cmd_exec process_table page_directory user_mode_enter run_buf name c s
  | AHalt => cmd_halt s
  | AReboot => cmd_reboot s
  | AUsage msg => say [Puts msg] s
  | AUnknown cmd => cmd_unknown cmd s
  end.

Definition execute_command (cmd wakes : list Z) (c : cpu) (s : sys D P R) : option (exit (sys D P R)) :=
  a ← parse_command cmd;
  match a with None => Some (Returned s) | Some a => perform a wakes c s end.

(** One turn of the loop of [shell_run], on the characters typed: the prompt, a line,
    the history, the command.  [SWait] while the line is incomplete. *)
Inductive turn := SWait (s : sys D P R) | STurn (h : hist) (buf rest : list Z) (x : exit (sys D P R)).

Definition shell_turn (h : hist) (buf keys wakes : list Z) (c : cpu) (s : sys D P R) : option turn :=
  s ← console [green; Puts "vesper> "; grey] s;
  l ← read_line buf SHELL_BUF_SIZE h keys (y_vga s);
  match l with
  | LineMore _ v => Some (SWait (set_vga v s))
  | LineDone buf rest v =>
      let s := set_vga v s in
      h ← history_push buf h;
      x ← execute_command buf wakes c s;
      Some (STurn h buf rest x)
  end.

(** The loop of [shell_run], as far as the list of turns reaches (for each the wake-ups
    of a sleep and the context at a switch): at the prompt again, waiting for keys in
    the middle of a line, stopped, or gone to another process. *)
Inductive loop_exit :=
| Prompt (h : hist) (rest : list Z) (s : sys D P R) | Waiting (s : sys D P R)
| Stopped (s : sys D P R) | Gone (c : cpu) (s : sys D P R).

Fixpoint shell_run (turns : list (list Z * cpu)) (h : hist) (buf keys : list Z) (s : sys D P R) : option loop_exit :=
  match turns with
  | [] => Some (Prompt h keys s)
  | (wakes, c) :: turns =>
      t ← shell_turn h buf keys wakes c s;
      match t with
      | SWait s => Some (Waiting s)
      | STurn h buf rest (Returned s) => shell_run turns h buf rest s
      | STurn _ _ _ (Halted s) => Some (Stopped s)
      | STurn _ _ _ (Switched c s) => Some (Gone c s)
      end
  end.
End run.
