(* ===== verification/ShellSpec.v ===== *)
(** * The shell: parsing, files, programs

    Theorems on the commands of [Shell]: the grammar of the command line, numbers in
    arguments, writing and printing files, and the release of memory when a program
    cannot be started. *)

From Stdlib Require Import String.
From S2P Require Import Prelude Mem CString Kmem Pmm Paging Process Pipe Keyboard Vga Console Ports.
From S2P Require Import Pic Rtc Timer Ata Fs Fd Elf UserMem System Irqs Line Shell.

(** ** Numbers *)

Definition digit (c : Z) : Prop := 48 ≤ c ≤ 57.

Lemma parse_digits_spec ds : ∀ n c rest,
  Forall digit ds → ¬ digit c →
  parse_digits (ds ++ c :: rest) (u32 n) = Some (u32 (foldl (λ a d, a * 10 + (d - 48)) n ds)).
Proof.
  induction ds as [|d ds IH]; intros n c rest Hd Hc; cbn [app parse_digits foldl].
  - by rewrite decide_False by exact Hc.
  - apply Forall_cons_1 in Hd as [Hd0 Hd]. rewrite decide_True by exact Hd0.
    rewrite <-(IH (n * 10 + (d - 48)) c rest Hd Hc). f_equal. word_lia.
Qed.

(** C37: the numbers of [kill] and [sleep].  The loop computes the value of the digits
    up to the first other character modulo 2^32; the decimal notation that the console
    prints for a 32-bit number is read back as that number; and a number beyond 32 bits
    is silently taken for another one: [kill 4294967297] means process 1. *)
Theorem parse_digits_value ds c rest :
  Forall digit ds → ¬ digit c →
  parse_digits (ds ++ c :: rest) 0 = Some (u32 (dec_value ds)) ∧
  (∀ n, is_u32 n → parse_digits (decimal n ++ c :: rest) 0 = Some n) ∧
  parse_digits (c_chars "4294967297" ++ c :: rest) 0 = Some 1.
Proof.
  intros Hd Hc. assert (∀ ds, Forall digit ds → parse_digits (ds ++ c :: rest) 0 = Some (u32 (dec_value ds))) as H
    by (intros l Hl; exact (parse_digits_spec l 0 c rest Hl Hc)).
  split; [by apply H|]. split.
  - intros n Hn. destruct (dec_str_spec 10 n) as (H1 & H2 & _); [unfold is_u32 in Hn; simpl; lia|lia|].
    unfold decimal. rewrite H by done. rewrite H1. f_equal. by apply u32_small.
  - rewrite H; [reflexivity|]. repeat constructor; simpl; lia.
Qed.

Lemma parse_digits_value_witness : parse_digits [52; 50; 0] 0 = Some 42.
Proof.
  destruct (parse_digits_value [52; 50] 0 []) as [H _]; [repeat constructor; lia|unfold digit; lia|]. exact H.
Defined.

(** ** The grammar of the command line *)

Lemma skip_spaces_replicate n s : skip_spaces (replicate n 32 ++ s) = skip_spaces s.
Proof. induction n as [|n IH]; [done|]. simpl. exact IH. Qed.

Lemma parse_exact n s a rest : Exact s a ∈ tests → parse_command (replicate n 32 ++ c_lit s ++ rest) = Some (Some a).
Proof.
  intros H. unfold parse_command. rewrite skip_spaces_replicate.
  repeat (apply elem_of_cons in H as [H|H]; [first [injection H as -> ->|discriminate H]; vm_compute; reflexivity|]).
  by apply elem_of_nil in H.
Qed.

Lemma parse_prefix n s f args : Prefix s f ∈ tests → parse_command (replicate n 32 ++ c_chars s ++ args) = Some (Some (f args)).
Proof.
  intros H. unfold parse_command. rewrite skip_spaces_replicate.
  repeat (apply elem_of_cons in H as [H|H]; [first [injection H as -> ->|discriminate H]; vm_compute; reflexivity|]).
  by apply elem_of_nil in H.
Qed.

(** Membership of a literal test. *)
Ltac in_tests := unfold tests; repeat (first [apply list_elem_of_here|apply list_elem_of_further]).

(** The comparisons of the dispatcher on a line [t] in a buffer with [junk] behind it. *)
Lemma str_eq_lit t junk w :
  Forall (λ c, c ≠ 0) t → Forall (λ c, c ≠ 0) w → str_eq (t ++ 0 :: junk) (w ++ [0]) = Some (bool_decide (t = w)).
Proof.
  revert w. induction t as [|c t IH]; intros w Ht Hw; destruct w as [|d w]; cbn [app str_eq].
  - by rewrite decide_False by tauto.
  - apply Forall_cons_1 in Hw as [Hd _]. rewrite decide_False by tauto. f_equal. apply bool_decide_ext. split; congruence.
  - apply Forall_cons_1 in Ht as [Hc _]. rewrite decide_False by tauto. f_equal. apply bool_decide_ext. split; congruence.
  - apply Forall_cons_1 in Hw as [Hd Hw]. apply Forall_cons_1 in Ht as [Hc Ht]. rewrite decide_True by done.
    case_decide as E; [rewrite IH by done|]; f_equal.
    + subst. apply bool_decide_ext. split; congruence.
    + symmetry. apply bool_decide_eq_false. congruence.
Qed.

Lemma str_startswith_lit t junk w :
  Forall (λ c, c ≠ 0) t → Forall (λ c, c ≠ 0) w →
  str_startswith (t ++ 0 :: junk) (w ++ [0]) = Some (bool_decide (w `prefix_of` t)).
Proof.
  revert t. induction w as [|d w IH]; intros t Ht Hw; cbn [app str_startswith].
  { by rewrite decide_True by done. }
  apply Forall_cons_1 in Hw as [Hd Hw]. rewrite decide_False by done. destruct t as [|c t]; cbn [app].
  - by rewrite decide_False by congruence.
  - apply Forall_cons_1 in Ht as [Hc Ht]. case_decide as E; [rewrite IH by done|]; f_equal.
    + subst. apply bool_decide_ext. split; [apply prefix_cons|apply prefix_cons_inv_2].
    + symmetry. apply bool_decide_eq_false. intros H%prefix_cons_inv_1. congruence.
Qed.

(** A line as a word and what follows it: nothing, or a space and the arguments. *)
Fixpoint break_space (t : list Z) : list Z * list Z :=
  match t with
  | [] => ([], [])
  | c :: r => if decide (c = 32) then ([], t) else let '(w, r') := break_space r in (c :: w, r')
  end.

Lemma break_space_spec t : ∀ w r, break_space t = (w, r) →
  t = w ++ r ∧ Forall (λ c, c ≠ 32) w ∧ (r = [] ∨ ∃ args, r = 32 :: args).
Proof.
  induction t as [|c t IH]; intros w r E; cbn [break_space] in E; [simplify_eq; auto|].
  case_decide as Ec; [simplify_eq; eauto|]. destruct (break_space t) as [w' r'] eqn:E'.
  simplify_eq. destruct (IH _ _ eq_refl) as (-> & ? & ?). auto.
Qed.

Lemma word_exact w r n :
  Forall (λ c, c ≠ 32) w → Forall (λ c, c ≠ 32) n → r = [] ∨ (∃ args, r = 32 :: args) →
  w ++ r = n ↔ r = [] ∧ n = w.
Proof.
  intros Hw Hn Hr. split; [|by intros [-> ->]; rewrite app_nil_r]. intros <-.
  destruct Hr as [->|[args ->]]; [by rewrite app_nil_r|]. by apply Forall_app in Hn as [_ [? _]%Forall_cons_1].
Qed.

Lemma word_prefix w r n :
  Forall (λ c, c ≠ 32) w → Forall (λ c, c ≠ 32) n → r = [] ∨ (∃ args, r = 32 :: args) →
  n ++ [32] `prefix_of` w ++ r ↔ r ≠ [] ∧ n = w.
Proof.
  intros Hw Hn Hr. split.
  - revert n Hn. induction w as [|c w IH]; intros n Hn Hp.
    + destruct n as [|d n]; destruct Hr as [->|[args ->]]; [by apply prefix_nil_not in Hp|done|by apply prefix_nil_not in Hp|].
      apply prefix_cons_inv_1 in Hp. by apply Forall_cons_1 in Hn as [? _].
    + apply Forall_cons_1 in Hw as [Hc Hw]. destruct n as [|d n]; [apply prefix_cons_inv_1 in Hp; congruence|].
      pose proof (prefix_cons_inv_1 _ _ _ _ Hp) as ->. apply prefix_cons_inv_2 in Hp.
      apply Forall_cons_1 in Hn as [_ Hn]. destruct (IH Hw n Hn Hp) as [? ->]. done.
  - intros [H ->]. destruct Hr as [->|[args ->]]; [done|]. exists args. by rewrite <-app_assoc.
Qed.

(** The commands: what a word means alone, and what it does with arguments. *)
Record command := Command { c_name : string; c_alone : action; c_args : option (list Z → action) }.

Definition commands : list command :=
  [Command "help" AHelp None; Command "clear" AClear None; Command "echo" ANewline (Some AEcho);
   Command "version" AVersion None; Command "meminfo" AMeminfo None; Command "uptime" AUptime None;
   Command "date" ADate None; Command "ps" APs None;
   Command "kill" (AUsage "Usage: kill <pid>\n") (Some AKill);
   Command "sleep" (AUsage "Usage: sleep <milliseconds>\n") (Some ASleep);
   Command "colortest" AColortest None; Command "mkfs" AMkfs None; Command "ls" ALs None;
   Command "cat" (AUsage "Usage: cat <filename>\n") (Some ACat);
   Command "write" (AUsage "Usage: write <filename> <text>\n") (Some AWrite);
   Command "rm" (AUsage "Usage: rm <filename>\n") (Some ARm);
   Command "run" (AUsage "Usage: run <filename>\n") (Some ARun);
   Command "exec" (AUsage "Usage: exec <filename>\n") (Some AExec);
   Command "halt" AHalt None; Command "reboot" AReboot None].

Fixpoint find_command (cs : list command) (w : list Z) : option command :=
  match cs with [] => None | c :: cs => if decide (c_chars (c_name c) = w) then Some c else find_command cs w end.

(** The meaning of a line: its first word is looked up among the commands. *)
Definition meaning (t junk : list Z) : option action :=
  let t := skip_spaces t in
  if decide (t = []) then None
  else let '(w, r) := break_space t in
       Some match find_command commands w, r with
            | Some c, [] => c_alone c
            | Some (Command _ _ (Some f)), _ :: args => f (args ++ 0 :: junk)
            | _, _ => AUnknown (t ++ 0 :: junk)
            end.

Lemma skip_spaces_app t c junk : c ≠ 32 → skip_spaces (t ++ c :: junk) = skip_spaces t ++ c :: junk.
Proof.
  intros Hc. induction t as [|d t IH]; cbn [app skip_spaces]; [by rewrite decide_False by done|].
  by case_decide.
Qed.

Lemma skip_spaces_suffix t : ∃ n, skip_spaces t = drop n t.
Proof.
  induction t as [|d t [n IH]]; cbn [skip_spaces]; [by exists 0%nat|].
  case_decide; [by exists (S n)|by exists 0%nat].
Qed.

(** One test of the chain, on a line of the word [w] and the remainder [r]. *)
Lemma choose_exact s a ts junk w r :
  Forall (λ c, c ≠ 0 ∧ c ≠ 32) (c_chars s) → Forall (λ c, c ≠ 0) (w ++ r) → Forall (λ c, c ≠ 32) w →
  r = [] ∨ (∃ args, r = 32 :: args) →
  choose (Exact s a :: ts) ((w ++ r) ++ 0 :: junk) =
    if decide (r = [] ∧ c_chars s = w) then Some a else choose ts ((w ++ r) ++ 0 :: junk).
Proof.
  intros Hs Ht Hw Hr. cbn [choose]. unfold c_lit. rewrite str_eq_lit; [|done|by eapply Forall_impl; [|exact Hs]; naive_solver].
  assert (Forall (λ c, c ≠ 32) (c_chars s)) as Hs2 by (eapply Forall_impl; [|exact Hs]; naive_solver).
  pose proof (word_exact w r (c_chars s) Hw Hs2 Hr) as Hx. cbn [mbind option_bind].
  destruct (decide (r = [] ∧ c_chars s = w)) as [H|H].
  - by rewrite bool_decide_true by (by apply Hx).
  - by rewrite bool_decide_false by (by rewrite Hx).
Qed.

Lemma choose_prefix s n f ts junk w r :
  c_chars s = n ++ [32] → String.length s = length (c_chars s) → Forall (λ c, c ≠ 0 ∧ c ≠ 32) n →
  Forall (λ c, c ≠ 0) (w ++ r) → Forall (λ c, c ≠ 32) w → r = [] ∨ (∃ args, r = 32 :: args) →
  choose (Prefix s f :: ts) ((w ++ r) ++ 0 :: junk) =
    if decide (r ≠ [] ∧ n = w) then Some (f (drop 1 r ++ 0 :: junk)) else choose ts ((w ++ r) ++ 0 :: junk).
Proof.
  intros Es El Hn Ht Hw Hr. cbn [choose]. unfold c_lit. rewrite El, Es.
  assert (Forall (λ c, c ≠ 0) (n ++ [32])) as Hn0.
  { apply Forall_app_2; [by eapply Forall_impl; [|exact Hn]; naive_solver|by repeat constructor]. }
  rewrite str_startswith_lit by done. cbn [mbind option_bind].
  assert (Forall (λ c, c ≠ 32) n) as Hn2 by (eapply Forall_impl; [|exact Hn]; naive_solver).
  pose proof (word_prefix w r n Hw Hn2 Hr) as Hx. destruct (decide (r ≠ [] ∧ n = w)) as [H|H].
  2:{ by rewrite bool_decide_false by (by rewrite Hx). }
  rewrite bool_decide_true by (by apply Hx). destruct H as [Hne <-]. do 2 f_equal.
  destruct Hr as [->|[args ->]]; [done|]. rewrite <-app_assoc, length_app, <-drop_drop, drop_app_length. done.
Qed.

(** The side conditions of the two lemmas for the words of the table. *)
Ltac word_literal := first [reflexivity | by repeat constructor | assumption].

Lemma choose_table junk w r :
  Forall (λ c, c ≠ 0) (w ++ r) → Forall (λ c, c ≠ 32) w → r = [] ∨ (∃ args, r = 32 :: args) →
  choose tests ((w ++ r) ++ 0 :: junk) =
    Some match find_command commands w, r with
         | Some c, [] => c_alone c
         | Some (Command _ _ (Some f)), _ :: args => f (args ++ 0 :: junk)
         | _, _ => AUnknown ((w ++ r) ++ 0 :: junk)
         end.
Proof.
  intros Ht Hw Hr. unfold tests.
  repeat first [rewrite choose_exact by word_literal
               |match goal with |- context [choose (Prefix ?s ?f :: ?ts)] =>
                  rewrite (choose_prefix s (removelast (c_chars s)) f ts) by word_literal;
                  change (removelast (c_chars s)) with (c_chars (String.substring 0 (String.length s - 1) s)); simpl String.substring
                end].
  cbn [choose]. unfold commands. cbn [find_command c_name].
  destruct Hr as [->|[args ->]];
    repeat (match goal with |- context [find_command] => fail 1 | _ => idtac end;
            match goal with |- _ = Some match (if decide (?n = w) then _ else _) with _ => _ end =>
              destruct (decide (n = w)) as [<-|?]; [reflexivity|] end);
    repeat (rewrite decide_False by (intros [? ?]; congruence)); done.
Qed.

Lemma parse_command_meaning t junk :
  Forall (λ c, c ≠ 0) t → parse_command (t ++ 0 :: junk) = Some (meaning t junk).
Proof.
  intros Ht. unfold parse_command, meaning. rewrite skip_spaces_app by done.
  destruct (skip_spaces_suffix t) as [n ->]. apply (Forall_drop _ n) in Ht. set (t' := drop n t) in *. clearbody t'.
  destruct t' as [|a t']; [done|]. rewrite (decide_False (P := _ = [])) by done.
  pose proof Ht as Ht'. apply Forall_cons_1 in Ht' as [Ha _]. change (aget ((a :: t') ++ 0 :: junk) 0) with (Some a).
  cbn [mbind option_bind]. rewrite decide_False by done. remember (a :: t') as l eqn:El. clear El.
  destruct (break_space l) as [w r] eqn:E. destruct (break_space_spec l w r E) as (-> & Hw & Hr).
  by rewrite (choose_table junk w r).
Qed.

(** C32: the command line is parsed as the table of commands says, for every line.
    After the leading spaces the first word is looked up: a blank line does nothing; a
    command's word alone selects it (or its usage message); a word with a space behind
    it selects the command with the rest of the line as its argument if it takes
    arguments; everything else, also a command without arguments that is followed by a
    space, is reported as unknown.  What lies in the buffer behind the line has no
    influence on the choice, and the comparisons never read past the line's end. *)
Theorem parse_command_grammar t junk :
  Forall (λ c, c ≠ 0) t → parse_command (t ++ 0 :: junk) = Some (meaning t junk).
Proof. apply parse_command_meaning. Qed.

Lemma parse_command_grammar_witness :
  parse_command (c_chars "  cat a" ++ 0 :: [98; 0]) = Some (Some (ACat [97; 0; 98; 0])) ∧
  parse_command (c_chars "help " ++ 0 :: []) = Some (Some (AUnknown (c_lit "help "))).
Proof.
  split.
  - rewrite (parse_command_grammar (c_chars "  cat a") [98; 0]); [reflexivity|repeat constructor; discriminate].
  - rewrite (parse_command_grammar (c_chars "help ") []); [reflexivity|repeat constructor; discriminate].
Defined.

Section files.
Context (process_table page_directory user_mode_enter run_buf : Z) (rtc_fuel : nat).
Context {D : Type} `{!BlockDevice D} {P : Type} `{!PortIO P} {R : Type} `{!PortIO R}.
Implicit Types (s : sys D P R).

Abbreviation execute := (execute_command process_table page_directory user_mode_enter run_buf rtc_fuel).
Abbreviation disk s := (bd_sectors (f_dev (y_fs s))).

Lemma say_spec ps s :
  vga_wf (y_vga s) → Forall pr_ok ps →
  ∃ v', say ps s = Some (Returned (set_vga v' s)) ∧ prints (y_vga s) (trace (vga_color (y_vga s)) ps) v'.
Proof.
  intros Hw Hok. unfold say. destruct (console_spec ps s Hw Hok) as (v' & -> & Hp & _). eauto.
Qed.

Lemma with_fs_ok msg (k : sys D P R → option (exit (sys D P R))) s :
  fs_wf (y_fs s) →
  ∃ f, with_fs msg k s = k (set_fs f s) ∧ fs_wf f ∧ bd_sectors (f_dev f) = disk s.
Proof.
  intros Hw. unfold with_fs. destruct (fs_init_lemma (y_fs s) Hw) as (f & -> & Hf & Hd). cbn [mbind option_bind].
  rewrite decide_False by done. by exists f.
Qed.

(** ** Printing a file *)

Lemma cat_loop_ok c fuel : ∀ f buf s pos,
  fs_wf (y_fs s) → opened (disk s) f c pos → length buf = 129%nat → Forall (λ x, x ≠ 0) c → vga_wf (y_vga s) →
  (length c - Z.to_nat pos < fuel)%nat →
  ∃ f' x v, cat_loop fuel f buf s = Some (f', set_vga v (set_fs x s)) ∧ fs_wf x ∧ bd_sectors (f_dev x) = disk s ∧
    prints (y_vga s) ((λ ch, (vga_color (y_vga s), ch)) <$> drop (Z.to_nat pos) c) v ∧ vga_color v = vga_color (y_vga s).
Proof.
  induction fuel as [|fuel IH]; intros f buf s pos Hw Ho Hb Hc Hv Hf; [lia|]. cbn [cat_loop].
  destruct (fs_read_lemma (y_fs s) f c pos buf 128 Hw Ho) as (f1 & x & -> & Ho1 & Hx & Hd); [unfold is_u32; lia|lia|].
  pose proof (op_range _ _ _ _ Ho) as Hr. pose proof (op_len _ _ _ _ Ho) as Hl.
  set (n := Z.min 128 (Z.of_nat (length c) - pos)) in *. cbn [mbind option_bind].
  destruct (decide (0 < n)) as [Hn|Hn].
  2:{ exists f1, x, (y_vga s). split; [by destruct s|]. split; [done|]. split; [done|].
      rewrite drop_ge by lia. split; [by apply prints_refl|done]. }
  set (chunk := take (Z.to_nat n) (drop (Z.to_nat pos) c)).
  assert (length chunk = Z.to_nat n) as Hck by (unfold chunk; rewrite length_take, length_drop; lia).
  set (b1 := chunk ++ drop (Z.to_nat n) buf).
  assert (length b1 = 129%nat) as Hb1 by (unfold b1; rewrite length_app, length_drop; lia).
  rewrite aset_Some by lia. cbn [mbind option_bind]. set (b2 := <[Z.to_nat n := 0]> b1).
  assert (is_cstr b2 chunk) as Hcs.
  { exists (drop (S (Z.to_nat n)) b1). unfold b2. rewrite insert_take_drop by lia. split.
    - f_equal. unfold b1. rewrite take_app_le by lia. apply take_ge. lia.
    - by apply Forall_take, Forall_drop. }
  destruct (console_spec [PutBuf b2] (set_fs x s) Hv) as (v1 & -> & Hp & Hcol).
  { constructor; [|constructor]. destruct Hcs as (r & -> & _). simpl. set_solver. }
  cbn [mbind option_bind]. cbn [trace pr_chars] in Hp. rewrite (cstr_is_cstr b2 chunk Hcs), app_nil_r in Hp.
  destruct (IH f1 b2 (set_vga v1 (set_fs x s)) (pos + n)) as (f' & x' & v & E & Hx' & Hd' & Hp' & Hcol').
  { done. } { cbn [y_fs set_vga set_fs]. by rewrite Hd. } { unfold b2. by rewrite length_insert. } { done. }
  { exact (ps_wf _ _ _ Hp). } { lia. }
  exists f', x', v. split; [rewrite E; done|]. split; [done|]. split; [by rewrite Hd'|].
  change (vga_color (y_vga (set_fs x s))) with (vga_color (y_vga s)) in *.
  cbn [y_vga set_vga foldl pr_color] in *. rewrite Hcol in Hp', Hcol'. split; [|done].
  replace (drop (Z.to_nat pos) c) with (chunk ++ drop (Z.to_nat (pos + n)) c).
  - by eapply prints_app.
  - unfold chunk. rewrite Z2Nat.inj_add by lia. rewrite <-(drop_drop c). apply take_drop.
Qed.

Lemma cmd_cat_prints nm c s :
  vga_wf (y_vga s) → fs_wf (y_fs s) → nm ≠ [] → Forall (λ x, x ≠ 0) nm → Forall (λ x, x ≠ 0) c →
  fs_map (disk s) !! nm = Some c →
  ∃ x v tr, cmd_cat (nm ++ [0]) s = Some (Returned (set_vga v (set_fs x s))) ∧ fs_wf x ∧ bd_sectors (f_dev x) = disk s ∧
    prints (y_vga s) tr v ∧ text tr = c ++ [10].
Proof.
  intros Hv Hw Hne Hnm Hc Hm. unfold cmd_cat, with_name. destruct nm as [|a nm]; [done|].
  change (aget ((a :: nm) ++ [0]) 0) with (Some a). cbn [mbind option_bind].
  rewrite decide_False by (by apply Forall_cons_1 in Hnm as [? _]).
  match goal with |- context [with_fs ?msg ?k s] => destruct (with_fs_ok msg k s Hw) as (f0 & -> & Hf0 & Hd0) end.
  unfold with_file. destruct (fs_open_lemma f0 ((a :: nm) ++ [0]) (a :: nm) zero_file Hf0) as (r & f & x & E & Hx & Hdx & Ho);
    [by apply cstr_app_nul|].
  cbn [y_fs set_fs]. rewrite E. cbn [mbind option_bind]. rewrite Hd0, Hm in Ho. destruct Ho as [-> Ho].
  rewrite decide_False by (intros X; by apply X).
  pose proof (op_len _ _ _ _ Ho) as Hl.
  destruct (cat_loop_ok c (Z.to_nat (ff_size f) + 2) f (replicate 129 0) (set_fs x (set_fs f0 s)) 0)
    as (f' & x' & v & E2 & Hx' & Hd' & Hp & Hcol).
  { done. } { cbn [y_fs set_fs]. by rewrite Hdx, Hd0. } { apply length_replicate. } { done. } { done. } { lia. }
  rewrite E2. cbn [mbind option_bind].
  destruct (say_spec [Putc 10] (set_vga v (set_fs x' (set_fs x (set_fs f0 s)))) (ps_wf _ _ _ Hp)) as (v2 & -> & Hp2);
    [by repeat constructor|].
  eexists x', v2, _. split; [reflexivity|]. split; [done|].
  split; [by rewrite Hd'; cbn [y_fs set_fs]; rewrite Hdx, Hd0|].
  split; [eapply prints_trans; [exact Hp|exact Hp2]|].
  unfold text. rewrite fmap_app, <-list_fmap_compose. f_equal. apply list_fmap_id.
Qed.

(** ** Writing a file *)

Lemma split_name_spec n nm : ∀ c rest,
  (length nm ≤ n)%nat → Forall (λ x, x ≠ 0 ∧ x ≠ 32) nm → c = 0 ∨ c = 32 →
  split_name n (nm ++ c :: rest) = Some (nm, c :: rest).
Proof.
  revert n. induction nm as [|a nm IH]; intros n c rest Hl Hn Hc; simpl in *.
  - destruct n; simpl; [done|]. by rewrite decide_True.
  - destruct n as [|n]; [lia|]. apply Forall_cons_1 in Hn as [[H1 H2] Hn]. cbn [split_name].
    rewrite decide_False by tauto. by rewrite IH by (done || lia).
Qed.

Lemma cmd_write_stores nm t s :
  vga_wf (y_vga s) → fs_wf (y_fs s) → nm ≠ [] → (length nm ≤ 31)%nat →
  Forall (λ x, is_u8 x ∧ x ≠ 0 ∧ x ≠ 32) nm → Forall (λ x, is_u8 x ∧ x ≠ 0) t → head t ≠ Some 32 →
  Z.of_nat (length t) < 4294967296 - 511 → has_space (disk s) (Z.of_nat (length t)) → has_slot (disk s) nm →
  ∃ x v tr, cmd_write (nm ++ [32] ++ t ++ [0]) s = Some (Returned (set_vga v (set_fs x s))) ∧ fs_wf x ∧
    fs_map (bd_sectors (f_dev x)) = <[nm := t]> (fs_map (disk s)) ∧ prints (y_vga s) tr v ∧
    text tr = c_chars "Written: " ++ nm ++ c_chars " (" ++ decimal (Z.of_nat (length t)) ++ c_chars " bytes)\n".
Proof.
  intros Hv Hw Hne Hlen Hnm Ht Hh Hsz Hsp Hsl. unfold cmd_write.
  change (nm ++ [32] ++ t ++ [0]) with (nm ++ 32 :: t ++ [0]).
  rewrite split_name_spec by (first [by right|(unfold FS_NAME_MAX; lia)|eapply Forall_impl; [|exact Hnm]; naive_solver]).
  cbn [mbind option_bind]. rewrite decide_False by done.
  assert (skip_spaces (32 :: t ++ [0]) = t ++ [0]) as ->.
  { cbn [skip_spaces]. rewrite decide_True by done. destruct t as [|a t]; [done|]. cbn [app skip_spaces].
    rewrite decide_False; [done|]. intros ->. by apply Hh. }
  assert (Forall (λ x, x ≠ 0) t) as Ht0 by (eapply Forall_impl; [|exact Ht]; naive_solver).
  rewrite (strlen_cstr _ t) by (by apply cstr_app_nul). cbn [mbind option_bind].
  match goal with |- context [with_fs ?msg ?k s] => destruct (with_fs_ok msg k s Hw) as (f0 & -> & Hf0 & Hd0) end.
  destruct (fs_write_lemma f0 (nm ++ [0]) nm (t ++ [0]) (Z.of_nat (length t)) Hf0) as (x & E & Hx & Hm & _).
  { apply cstr_app_nul. eapply Forall_impl; [|exact Hnm]; naive_solver. } { done. }
  { eapply Forall_impl; [|exact Hnm]; naive_solver. }
  { apply Forall_take, Forall_app_2; [eapply Forall_impl; [|exact Ht]; naive_solver|]. repeat constructor; lia. }
  { lia. } { rewrite length_app. lia. } { by rewrite Hd0. } { by rewrite Hd0. } { by left. }
  cbn [y_fs set_fs]. rewrite E. cbn [mbind option_bind]. rewrite decide_True by done.
  match goal with |- context [say ?l ?s'] => set (ps := l);
    destruct (say_spec ps s' Hv) as (v & -> & Hp) end.
  { unfold ps. assert (0 ∈ nm ++ [0]) by set_solver. pr_oks. }
  eexists x, v, _. split; [reflexivity|]. split; [done|]. split.
  { rewrite Hm, Hd0, Nat2Z.id. rewrite !take_ge by lia. f_equal. rewrite take_app_le by lia. by rewrite take_ge by lia. }
  split; [exact Hp|]. rewrite trace_text. unfold ps. cbn [mbind list_bind pr_chars app].
  rewrite (cstr_is_cstr (nm ++ [0]) nm) by (apply cstr_app_nul; eapply Forall_impl; [|exact Hnm]; naive_solver).
  by rewrite ?app_nil_r.
Qed.
(** C19: a file written with [write] is printed by [cat].  On a mounted file system
    with room, the line "write NAME TEXT" stores TEXT under NAME, replacing an earlier
    file of that name and leaving all others as they are, and reports the length; the
    line "cat NAME" then prints exactly TEXT and a newline. *)
Theorem shell_write_cat nm t wakes c wakes' c' s :
  vga_wf (y_vga s) → fs_wf (y_fs s) → nm ≠ [] → (length nm ≤ 31)%nat →
  Forall (λ x, is_u8 x ∧ x ≠ 0 ∧ x ≠ 32) nm → Forall (λ x, is_u8 x ∧ x ≠ 0) t → head t ≠ Some 32 →
  Z.of_nat (length t) < 4294967296 - 511 → has_space (disk s) (Z.of_nat (length t)) → has_slot (disk s) nm →
  ∃ x1 v1 tr1, execute (c_chars "write " ++ nm ++ [32] ++ t ++ [0]) wakes c s = Some (Returned (set_vga v1 (set_fs x1 s))) ∧
    fs_map (bd_sectors (f_dev x1)) = <[nm := t]> (fs_map (disk s)) ∧ prints (y_vga s) tr1 v1 ∧
    text tr1 = c_chars "Written: " ++ nm ++ c_chars " (" ++ decimal (Z.of_nat (length t)) ++ c_chars " bytes)\n" ∧
    ∃ x2 v2 tr2, execute (c_chars "cat " ++ nm ++ [0]) wakes' c' (set_vga v1 (set_fs x1 s)) =
        Some (Returned (set_vga v2 (set_fs x2 s))) ∧
      fs_map (bd_sectors (f_dev x2)) = fs_map (bd_sectors (f_dev x1)) ∧ prints v1 tr2 v2 ∧ text tr2 = t ++ [10].
Proof.
  intros Hv Hw Hne Hlen Hnm Ht Hh Hsz Hsp Hsl. unfold execute_command.
  pose proof (parse_prefix 0 "write " AWrite (nm ++ [32] ++ t ++ [0])) as Hp. cbn [replicate] in Hp. rewrite app_nil_l in Hp.
  rewrite Hp by in_tests. cbn [mbind option_bind perform].
  destruct (cmd_write_stores nm t s Hv Hw Hne Hlen Hnm Ht Hh Hsz Hsp Hsl) as (x1 & v1 & tr1 & E1 & Hx1 & Hm1 & P1 & T1).
  exists x1, v1, tr1. split; [done|]. split; [done|]. split; [done|]. split; [done|].
  pose proof (parse_prefix 0 "cat " ACat (nm ++ [0])) as Hp2. cbn [replicate] in Hp2. rewrite app_nil_l in Hp2.
  rewrite Hp2 by in_tests. cbn [mbind option_bind perform].
  destruct (cmd_cat_prints nm t (set_vga v1 (set_fs x1 s))) as (x2 & v2 & tr2 & E2 & Hx2 & Hd2 & P2 & T2).
  { exact (ps_wf _ _ _ P1). } { done. } { done. } { eapply Forall_impl; [|exact Hnm]; naive_solver. }
  { eapply Forall_impl; [|exact Ht]; naive_solver. }
  { cbn [y_fs set_vga set_fs]. rewrite Hm1. apply lookup_insert_eq. }
  exists x2, v2, tr2. split; [exact E2|]. split; [by rewrite Hd2|]. done.
Qed.
End files.

Lemma shell_write_cat_witness :
  ∃ (f x1 x2 : fs ide) v1 v2 tr2,
    execute_command 131072 65536 4096 262144 4 (c_chars "write " ++ demo_name ++ [32] ++ demo_data ++ [0]) [] demo_cpu
      (set_fs f (demo_sys ∅ demo_pics)) = Some (Returned (set_vga v1 (set_fs x1 (set_fs f (demo_sys ∅ demo_pics))))) ∧
    execute_command 131072 65536 4096 262144 4 (c_chars "cat " ++ demo_name ++ [0]) [] demo_cpu
      (set_vga v1 (set_fs x1 (set_fs f (demo_sys ∅ demo_pics)))) =
      Some (Returned (set_vga v2 (set_fs x2 (set_fs f (demo_sys ∅ demo_pics))))) ∧
    text tr2 = demo_data ++ [10].
Proof.
  destruct demo_formatted as (f & Hwf & Hm & Hsp & Hsl).
  destruct (shell_write_cat 131072 65536 4096 262144 4 demo_name demo_data [] demo_cpu [] demo_cpu
    (set_fs f (demo_sys ∅ demo_pics))) as (x1 & v1 & tr1 & E1 & _ & _ & _ & x2 & v2 & tr2 & E2 & _ & _ & T2).
  - exact demo_vga_wf.
  - exact Hwf.
  - discriminate.
  - simpl. lia.
  - repeat constructor; lia.
  - apply Forall_replicate. unfold is_u8. lia.
  - discriminate.
  - unfold demo_data. rewrite length_replicate. lia.
  - exact Hsp.
  - apply Hsl.
  - exists f, x1, x2, v1, v2, tr2. split; [exact E1|]. split; [exact E2|exact T2].
Defined.

(** ** Starting programs *)

Section exec.
Context (process_table page_directory page_tables user_mode_enter run_buf : Z) (rtc_fuel : nat).
Context {D : Type} `{!BlockDevice D} {P : Type} `{!PortIO P} {R : Type} `{!PortIO R}.
Implicit Types (s : sys D P R).

(** Where the linker puts the buffer and the kernel's page tables: below 1 MB, apart. *)
Record layout : Prop := Layout {
  ly_pd : aligned page_directory ∧ 4096 ≤ page_directory < 1048576;
  ly_pt : aligned page_tables ∧ 4096 ≤ page_tables < 1048576 - 4096;
  ly_buf : 0 < run_buf ∧ run_buf + RUN_BUF_SIZE ≤ 1048576;
  ly_apart_pd : page_directory + 4096 ≤ run_buf ∨ run_buf + RUN_BUF_SIZE ≤ page_directory;
  ly_apart_pt : page_tables + 8192 ≤ run_buf ∨ run_buf + RUN_BUF_SIZE ≤ page_tables
}.

(** The file is in the buffer and nothing else has changed. *)
Definition loaded (c : list Z) (m m' : mem) : Prop :=
  ∀ b, load8 m' b = if decide (run_buf ≤ b < run_buf + Z.of_nat (length c))
                    then default 0 (c !! Z.to_nat (b - run_buf)) else load8 m b.

Lemma load_bytes_length (m : mem) a n : 0 ≤ n → length (load_bytes m a n) = Z.to_nat n.
Proof. intros Hn. unfold load_bytes. by rewrite length_fmap, length_seqZ. Qed.

Lemma with_image_ok nm c (k : Z → sys D P R → option (exit (sys D P R))) s :
  fs_wf (y_fs s) → Forall (λ x, x ≠ 0) nm → fs_map (bd_sectors (f_dev (y_fs s))) !! nm = Some c →
  Z.of_nat (length c) ≤ RUN_BUF_SIZE →
  ∃ x m, with_image run_buf (nm ++ [0]) k s = k (Z.of_nat (length c)) (set_mem m (set_fs x s)) ∧
    fs_wf x ∧ bd_sectors (f_dev x) = bd_sectors (f_dev (y_fs s)) ∧ loaded c (y_mem s) m.
Proof.
  intros Hw Hnm Hm Hsz. unfold with_image.
  match goal with |- context [with_fs ?msg ?kk s] => destruct (with_fs_ok msg kk s Hw) as (f0 & -> & Hf0 & Hd0) end.
  unfold with_file. destruct (fs_open_lemma f0 (nm ++ [0]) nm zero_file Hf0) as (r & f & x & E & Hx & Hdx & Ho);
    [by apply cstr_app_nul|].
  cbn [y_fs set_fs]. rewrite E. cbn [mbind option_bind]. rewrite Hd0, Hm in Ho. destruct Ho as [-> Ho].
  rewrite decide_False by (intros X; by apply X). pose proof (op_len _ _ _ _ Ho) as Hl.
  rewrite decide_False by (unfold RUN_BUF_SIZE in *; lia).
  rewrite <-Hd0, <-Hdx in Ho.
  destruct (fs_read_lemma x f c 0 (load_bytes (y_mem s) run_buf RUN_BUF_SIZE) (ff_size f) Hx Ho)
    as (f1 & x1 & E1 & _ & Hx1 & Hdx1); [unfold is_u32, RUN_BUF_SIZE in *; lia|rewrite load_bytes_length; unfold RUN_BUF_SIZE in *; lia|].
  change (y_mem (set_fs x (set_fs f0 s))) with (y_mem s). cbn [y_fs set_fs]. rewrite E1. cbn [mbind option_bind].
  replace (Z.min (ff_size f) (Z.of_nat (length c) - 0)) with (Z.of_nat (length c)) by lia. rewrite Nat2Z.id.
  change (drop (Z.to_nat 0) c) with c. rewrite (take_ge c) by lia.
  set (buf := c ++ drop (length c) (load_bytes (y_mem s) run_buf RUN_BUF_SIZE)).
  destruct (mem_cpy_in_spec (y_mem s) run_buf buf (length c)) as (m & Em & Hmem); [unfold buf; rewrite length_app; lia|].
  change (y_mem (set_fs x (set_fs f0 s))) with (y_mem s). rewrite Em. cbn [mbind option_bind].
  exists x1, m. split; [done|]. split; [done|]. split; [by rewrite Hdx1, Hdx, Hd0|].
  assert (Forall is_u8 c) as Hby.
  { rewrite <-(op_content _ _ _ _ Ho). unfold content. apply Forall_take, concat_bytes, Forall_take, Forall_drop, bd_sector_ok, Hx. }
  intros b. rewrite Hmem. destruct (decide _) as [Hb|Hb]; [|done]. unfold buf. rewrite lookup_app_l by lia.
  destruct (lookup_lt_is_Some_2 c (Z.to_nat (b - run_buf))) as [y Hy]; [lia|]. rewrite Hy. simpl. apply u8_small.
  rewrite Forall_lookup in Hby. by apply (Hby (Z.to_nat (b - run_buf))).
Qed.

(** The kernel's page tables survive the loading of the buffer. *)
Lemma loaded_identity c m m' :
  layout → loaded c m m' → Z.of_nat (length c) ≤ RUN_BUF_SIZE →
  identity_map m page_directory page_tables → identity_map m' page_directory page_tables.
Proof.
  intros [L1 L2 L3 L4 L5] Hl Hc [H1 H2]. unfold RUN_BUF_SIZE in *. split.
  - intros t i Ht Hi. rewrite <-H1 by done. apply ent_ext. intros b Hb. rewrite Hl. by rewrite decide_False by lia.
  - intros t Ht. rewrite <-H2 by done. apply ent_ext. intros b Hb. rewrite Hl. by rewrite decide_False by lia.
Qed.

(** [exec] of an existing file goes on with the image in the buffer. *)
Lemma exec_reads nm c wakes cx s :
  layout → fs_wf (y_fs s) → nm ≠ [] → Forall (λ x, x ≠ 0) nm →
  fs_map (bd_sectors (f_dev (y_fs s))) !! nm = Some c → Z.of_nat (length c) ≤ RUN_BUF_SIZE →
  identity_map (y_mem s) page_directory page_tables →
  ∃ x m, execute_command process_table page_directory user_mode_enter run_buf rtc_fuel
      (c_chars "exec " ++ nm ++ [0]) wakes cx s =
      exec_image process_table page_directory user_mode_enter run_buf (nm ++ [0]) cx (Z.of_nat (length c))
        (set_mem m (set_fs x s)) ∧
    loaded c (y_mem s) m ∧ identity_map m page_directory page_tables ∧
    fs_wf x ∧ bd_sectors (f_dev x) = bd_sectors (f_dev (y_fs s)).
Proof.
  intros Hly Hw Hne Hnm Hm Hsz Hid. unfold execute_command.
  pose proof (parse_prefix 0 "exec " AExec (nm ++ [0])) as Hp. cbn [replicate] in Hp. rewrite app_nil_l in Hp.
  rewrite Hp by in_tests. cbn [mbind option_bind perform]. unfold cmd_exec, with_name.
  destruct nm as [|a nm]; [done|]. change (aget ((a :: nm) ++ [0]) 0) with (Some a). cbn [mbind option_bind].
  rewrite decide_False by (by apply Forall_cons_1 in Hnm as [? _]).
  match goal with |- context [with_image run_buf _ ?k s] =>
    destruct (with_image_ok (a :: nm) c k s Hw Hnm Hm Hsz) as (x & m & -> & Hx & Hd & Hl) end.
  exists x, m. split; [done|]. split; [done|]. split; [exact (loaded_identity c _ _ Hly Hl Hsz Hid)|done].
Qed.

(** Bytes in memory that do not begin like an ELF file are rejected. *)
Lemma not_elf c pd (v : vm pmm) :
  (length c < 52)%nat ∨ take 4 c ≠ [127; 69; 76; 70] →
  0 < run_buf → run_buf + RUN_BUF_SIZE ≤ 8388608 → Z.of_nat (length c) ≤ RUN_BUF_SIZE →
  (∀ i : nat, (i < 52)%nat → (i < length c)%nat → load8 (v_mem v) (run_buf + Z.of_nat i) = default 0 (c !! i)) →
  elf_load_user run_buf (Z.of_nat (length c)) pd v = Some (0, v).
Proof.
  intros Hbad Hr1 Hr2 Hsz Hby. unfold elf_load_user, RUN_BUF_SIZE in *. destruct (decide _) as [?|Hdec]; [done|].
  unfold reach. rewrite decide_True by lia. cbn [mbind option_bind].
  destruct (elf_valid (v_mem v) run_buf (Z.of_nat (length c))) eqn:Ev; [exfalso|done].
  unfold elf_valid in Ev. do 3 (apply andb_true_iff in Ev as [Ev _]).
  apply bool_decide_eq_true in Ev as (B0 & B1 & B2 & B3). destruct Hbad as [Hb|Hb]; [lia|]. apply Hb.
  rewrite <-(Z.add_0_r run_buf) in B0. change 0 with (Z.of_nat 0) in B0. rewrite (Hby 0%nat) in B0 by lia.
  change 1 with (Z.of_nat 1) in B1. rewrite (Hby 1%nat) in B1 by lia.
  change 2 with (Z.of_nat 2) in B2. rewrite (Hby 2%nat) in B2 by lia.
  change 3 with (Z.of_nat 3) in B3. rewrite (Hby 3%nat) in B3 by lia.
  clear -B0 B1 B2 B3. destruct c as [|c0 [|c1 [|c2 [|c3 c]]]]; cbn in B0, B1, B2, B3; [lia..|]. subst. reflexivity.
Qed.

(** An address space without user pages owns its directory only. *)
Lemma empty_space_owns (v : vm pmm) pd n q :
  (∀ t, 2 ≤ t < 1024 → ent (v_mem v) pd t = 0) → owns (v_mem v) pd n q → q = pd.
Proof.
  intros Hz Ho. inversion Ho as [|i T ? [_ ?] E1|i T ? ? HT]; subst; [done|rewrite Hz in E1 by done; lia|].
  inversion HT as [|? ? ? [_ ?] E1|]; subst. rewrite Hz in E1 by done. lia.
Qed.

(** [exec] of a file that is no ELF program leaks nothing.  The new address space
    is given back: exactly the same physical frames are available as before; the
    process table is unchanged, the shell goes on, and the only message is the error. *)
Theorem exec_invalid_frees_frames nm c wakes cx s :
  layout → vga_wf (y_vga s) → fs_wf (y_fs s) → nm ≠ [] → Forall (λ x, x ≠ 0) nm →
  fs_map (bd_sectors (f_dev (y_fs s))) !! nm = Some c → Z.of_nat (length c) ≤ RUN_BUF_SIZE →
  (length c < 52)%nat ∨ take 4 c ≠ [127; 69; 76; 70] →
  pmm_wf (v_fa (y_vm s)) → fa_low (y_vm s) → identity_map (y_mem s) page_directory page_tables →
  ∃ s' tr, execute_command process_table page_directory user_mode_enter run_buf rtc_fuel
      (c_chars "exec " ++ nm ++ [0]) wakes cx s = Some (Returned s') ∧
    (∀ q, pmm_avail (v_fa (y_vm s')) q ↔ pmm_avail (v_fa (y_vm s)) q) ∧
    k_table (y_k s') = k_table (y_k s) ∧ k_current (y_k s') = k_current (y_k s) ∧
    prints (y_vga s) tr (y_vga s') ∧
    (text tr = c_chars "Not a valid ELF32 binary.\n" ∨
     text tr = c_chars "Out of physical memory.\n" ∧ ∀ q, ¬ pmm_avail (v_fa (y_vm s)) q).
Proof.
  intros Hly Hv Hw Hne Hnm Hm Hsz Hbad Hpm Hlow Hid.
  destruct (exec_reads nm c wakes cx s Hly Hw Hne Hnm Hm Hsz Hid) as (x & m & -> & Hl & Hid' & _). unfold exec_image.
  set (s1 := set_mem m (set_fs x s)).
  destruct (create_pd_lemma page_directory page_tables (ly_pd Hly) (ly_pt Hly) (y_vm s1)) as (pd & v & E & Hcase);
    [exact Hpm|exact Hlow|exact Hid'|].
  rewrite E. cbn [mbind option_bind].
  destruct Hcase as [(-> & -> & Hnone)|(Hav & Hwf & _ & Hz & Ha & Hmem)].
  { rewrite decide_True by done.
    destruct (say_spec [red; Puts "Out of physical memory.\n"; grey] (set_vm (y_vm s1) s1) Hv) as (v' & -> & Hpr); [pr_oks|].
    eexists _, _. split; [reflexivity|]. split; [done|]. split; [done|]. split; [done|]. split; [exact Hpr|]. right.
    split; [by rewrite trace_text|exact Hnone]. }
  assert (pd ≠ 0) as Hpd by (destruct (wf_pd v pd Hwf); lia). rewrite decide_False by done.
  assert (elf_load_user run_buf (Z.of_nat (length c)) pd v = Some (0, v)) as He.
  { pose proof (fa_avail_range (v_fa (y_vm s1)) pd Hpm Hav). destruct Hly as [_ _ L3 _ _]. unfold RUN_BUF_SIZE in *.
    apply not_elf; unfold RUN_BUF_SIZE; [done|lia..|]. intros i _ Hi. rewrite Hmem by lia.
    change (v_mem (y_vm s1)) with m. rewrite Hl. rewrite decide_True by lia.
    by replace (Z.to_nat (run_buf + Z.of_nat i - run_buf)) with i by lia. }
  change (y_vm (set_vm v s1)) with v. rewrite He. cbn [mbind option_bind]. rewrite decide_True by done.
  unfold abandon. destruct (console_spec [red; Puts "Not a valid ELF32 binary.\n"; grey] (set_vm v (set_vm v s1)) Hv)
    as (con & -> & Hpr & _); [pr_oks|]. cbn [mbind option_bind].
  change (y_vm (set_vga con (set_vm v (set_vm v s1)))) with v.
  destruct (destroy_pd_lemma v pd Hwf) as (v2 & -> & _ & _ & _ & Ha2). cbn [mbind option_bind].
  eexists _, _. split; [reflexivity|]. split.
  - intros q. change (v_fa (y_vm (set_vm v2 (set_vga con (set_vm v (set_vm v s1)))))) with (v_fa v2).
    change (pmm_avail (v_fa v2) q) with (fa_avail (v_fa v2) q). rewrite Ha2. 
    change (pmm_avail (v_fa (y_vm s)) q) with (fa_avail (v_fa (y_vm s1)) q). rewrite Ha.
    split; [intros [[? _]|[n Ho]]; [done|by rewrite (empty_space_owns v pd n q Hz Ho)]|].
    intros Hq. destruct (decide (q = pd)) as [->|Hq2]; [right; exists NPd; constructor; apply Hwf|by left].
  - split; [done|]. split; [done|]. split; [exact Hpr|]. left. by rewrite trace_text.
Qed.
End exec.

Lemma demo_layout : layout 65536 69632 262144.
Proof.
  constructor; [exact demo_kd|exact demo_kt|unfold RUN_BUF_SIZE; lia|left; lia|left; lia].
Qed.

Lemma demo_vm_fa : v_fa demo_vm = small_pmm.
Proof. reflexivity. Qed.

Lemma exec_invalid_frees_frames_witness :
  ∃ (f : fs ide) s', execute_command 131072 65536 4096 262144 4 (c_chars "exec " ++ demo_name ++ [0]) [] demo_cpu
      (set_fs f (set_vm demo_vm (demo_sys ∅ demo_pics))) = Some (Returned s') ∧
    ∀ q, pmm_avail (v_fa (y_vm s')) q ↔
      pmm_avail (v_fa (y_vm (set_fs f (set_vm demo_vm (demo_sys ∅ demo_pics))))) q.
Proof.
  destruct demo_written as (f & Hwf & Hm).
  destruct (exec_invalid_frees_frames 131072 65536 69632 4096 262144 4 demo_name demo_data [] demo_cpu
    (set_fs f (set_vm demo_vm (demo_sys ∅ demo_pics))) demo_layout) as (s' & tr & E & Ha & _).
  - exact demo_vga_wf.
  - exact Hwf.
  - discriminate.
  - repeat constructor; lia.
  - cbn [y_fs set_fs]. rewrite Hm. apply lookup_singleton_eq.
  - unfold demo_data. rewrite length_replicate. unfold RUN_BUF_SIZE. lia.
  - right. discriminate.
  - change (pmm_wf (v_fa demo_vm)). rewrite demo_vm_fa. exact (proj1 small_pmm_wf).
  - change (fa_low demo_vm). unfold fa_low. rewrite demo_vm_fa. exact (proj2 small_pmm_wf).
  - change (identity_map (v_mem demo_vm) 65536 69632). exact demo_identity.
  - exists f, s'. split; [exact E|exact Ha].
Defined.
