(* ===== verification/Exec.v ===== *)
(** * Starting a program ([cmd_exec] of [src/kernel/shell.c], [user_mode_enter] of [process.asm])

    [exec] composes the file system, the paging code, the ELF loader and the process
    table: it reads the file, builds an address space, loads the segments, maps a
    stack, creates the process and yields.  The theorem says that it does all of this
    or none: either the process is ready, with program and stack in place, or an error
    is reported and exactly the frames that were available before are available. *)

From Stdlib Require Import String.
From S2P Require Import Prelude Mem CString Kmem Pmm Paging Process Pipe Keyboard Vga Console Ports.
From S2P Require Import Desc Pic Rtc Timer Ata Fs Fd Elf UserMem System Irqs Line Shell ShellSpec.

(** ** Address spaces under construction *)

(** [v] is [v0] with the address space [pd] added: every frame that was available is
    still available or belongs to [pd]. *)
Definition built (v0 v : vm pmm) (pd : Z) : Prop :=
  pd_wf v pd ∧ ∀ q, fa_avail (v_fa v0) q ↔ fa_avail (v_fa v) q ∨ ∃ n, owns (v_mem v) pd n q.

Lemma built_grows v0 v v' pd : built v0 v pd → grows pd v v' → pd_wf v' pd → built v0 v' pd.
Proof.
  intros [Hwf Hb] Hg Hwf'. split; [done|]. intros q. rewrite Hb. split.
  - intros [H|[n H]]; [by apply (gr_noleak _ _ _ Hg)|right; exists n; by apply Hg].
  - intros [H|[n H]]; [left; by apply Hg|]. destruct (gr_new _ _ _ Hg n q H); [right; by exists n|by left].
Qed.

(** After [paging_create_pd]. *)
Lemma created_built v0 v pd :
  pd_wf v pd → fa_avail (v_fa v0) pd → (∀ q, fa_avail (v_fa v) q ↔ fa_avail (v_fa v0) q ∧ q ≠ pd) →
  (∀ i, 2 ≤ i < 1024 → ent (v_mem v) pd i = 0) → built v0 v pd.
Proof.
  intros Hwf Hav Ha Hz. split; [done|]. intros q. rewrite Ha. split.
  - intros Hq. destruct (decide (q = pd)) as [->|]; [right; exists NPd; constructor; apply Hwf|by left].
  - intros [[? _]|[n Ho]]; [done|]. by rewrite (empty_space_owns v pd n q Hz Ho).
Qed.

(** Giving it up restores the frames. *)
Lemma built_destroy v0 v pd :
  built v0 v pd → ∃ v', paging_destroy_pd pd v = Some v' ∧
    (∀ q, fa_avail (v_fa v') q ↔ fa_avail (v_fa v0) q) ∧ v_mem v' = v_mem v.
Proof.
  intros [Hwf Hb]. destruct (destroy_pd_lemma v pd Hwf) as (v' & E & _ & Hm & _ & Ha). exists v'.
  split; [done|]. split; [|done]. intros q. by rewrite Ha, Hb.
Qed.

(** Mapped user pages keep place and content. *)
Lemma grows_walk (v v' : vm pmm) pd virt pa :
  pd_wf v pd → pd_wf v' pd → grows pd v v' → is_u32 virt → 8388608 ≤ virt →
  mmu_walk (v_mem v) pd virt = Some pa →
  mmu_walk (v_mem v') pd virt = Some pa ∧ load8 (v_mem v') pa = load8 (v_mem v) pa.
Proof.
  intros Hwf Hwf' Hg U1 U2. rewrite !user_walk by done. intros (F & HF & ->). split.
  - exists F. split; [by apply Hg|done].
  - apply (grows_frame_bytes v v' pd _ _ F _ Hwf Hg HF). zdm.
Qed.

(** A new process takes a table slot and a frame on its kernel stack. *)
Lemma create_with_vm process_table name is_user ueip uesp pd ret (s s' : kst pmm) r :
  create_with process_table name is_user ueip uesp pd ret s = Some (r, s') →
  ∃ m, k_vm s' = vm_with_mem (k_vm s) m.
Proof.
  unfold create_with. destruct (alloc_slot (k_table s)) as [i|].
  - intros (p & _ & (nm & _ & H)%bind_Some)%bind_Some. destruct (build_initial_kstack _ _ _ _) as [esp m].
    apply bind_Some in H as (t & _ & [= <- <-]). by exists m.
  - intros [= <- <-]. exists (v_mem (k_vm s)). by destruct (k_vm s).
Qed.

Section exec.
Context (process_table page_directory page_tables user_mode_enter run_buf : Z) (rtc_fuel : nat).
Context {D : Type} `{!BlockDevice D} {P : Type} `{!PortIO P} {R : Type} `{!PortIO R}.
Implicit Types (s : sys D P R).

(** The invariants that [Kernel] establishes, and where the process table is. *)
Record exec_ready s : Prop := ExecReady {
  er_layout : layout page_directory page_tables run_buf;
  er_table : 0 < process_table ∧ process_table + 16 * 8252 ≤ 1048576;
  er_apart : page_tables + 8192 ≤ process_table ∨ process_table + 16 * 8252 ≤ page_tables;
  er_entry : is_u32 user_mode_enter;
  er_vga : vga_wf (y_vga s);
  er_fs : fs_wf (y_fs s);
  er_pmm : pmm_wf (v_fa (y_vm s));
  er_low : fa_low (y_vm s);
  er_id : identity_map (y_mem s) page_directory page_tables;
  er_kinv : kinv (y_k s);
  er_esps : esps_ok (y_k s)
}.

(** The program of the image at [run_buf] in [m1] is in the address space [pd], with
    the pages of its stack; the kernel is mapped there too. *)
Record program_in (m1 : mem) (v : vm pmm) (pd : Z) : Prop := ProgramIn {
  pi_wf : pd_wf v pd;
  pi_kernel : identity_map (v_mem v) pd page_tables;
  pi_bytes i virt : 0 ≤ i < e_phnum m1 run_buf → loadable m1 (phdr m1 run_buf i) →
    p_vaddr m1 (phdr m1 run_buf i) ≤ virt
      < p_vaddr m1 (phdr m1 run_buf i) + p_memsz m1 (phdr m1 run_buf i) →
    ∃ pa, mmu_walk (v_mem v) pd virt = Some pa ∧ load8 (v_mem v) pa = seg_byte m1 run_buf (phdr m1 run_buf i) virt;
  pi_stack virt : USER_STACK_TOP - USER_STACK_PAGES * 4096 ≤ virt < USER_STACK_TOP →
    is_Some (mmu_walk (v_mem v) pd virt)
}.

(** Memory below 1 MB that holds no page table may change. *)
Lemma program_low m1 v pd m' :
  program_in m1 v pd → (∀ b, 1048576 ≤ b → load8 m' b = load8 (v_mem v) b) →
  (∀ t i, 0 ≤ t < 2 → 0 ≤ i < 1024 → ent m' (page_tables + t * 4096) i = ent (v_mem v) (page_tables + t * 4096) i) →
  (∀ i virt, 0 ≤ i < e_phnum m1 run_buf → loadable m1 (phdr m1 run_buf i) →
    p_vaddr m1 (phdr m1 run_buf i) ≤ virt
      < p_vaddr m1 (phdr m1 run_buf i) + p_memsz m1 (phdr m1 run_buf i) → is_u32 virt ∧ 8388608 ≤ virt) →
  program_in m1 (vm_with_mem v m') pd.
Proof.
  intros [Hwf [I1 I2] Hb Hs] Hm Ht Hu. constructor; cbn [v_mem vm_with_mem].
  - by apply low_store_wf.
  - split; [intros t i H1 H2; by rewrite Ht by done; apply I1|]. intros t H1. rewrite <-I2 by done.
    apply (low_store_ent v); [done|apply Hwf|lia].
  - intros i virt Hi Hl Hv. destruct (Hb i virt Hi Hl Hv) as (pa & Hp & Hby). destruct (Hu i virt Hi Hl Hv) as [U1 U2].
    destruct (low_store_walk v m' pd Hwf Hm virt U1 U2) as [E1 E2]. exists pa. by rewrite E1, (E2 pa Hp).
  - intros virt Hv. destruct (low_store_walk v m' pd Hwf Hm virt) as [E1 _];
      [unfold USER_STACK_TOP, USER_STACK_PAGES, is_u32 in *; lia..|]. rewrite E1. by apply Hs.
Qed.

(** The image may be read in any memory with the same first megabyte. *)
Lemma image_low m1 mv len :
  low_ok m1 → low_same m1 mv → elf_image m1 run_buf len →
  e_phnum mv run_buf = e_phnum m1 run_buf ∧ e_entry mv run_buf = e_entry m1 run_buf ∧
  ∀ i, phdr mv run_buf i = phdr m1 run_buf i ∧
    (0 ≤ i < e_phnum m1 run_buf →
     (loadable mv (phdr m1 run_buf i) ↔ loadable m1 (phdr m1 run_buf i)) ∧
     p_vaddr mv (phdr m1 run_buf i) = p_vaddr m1 (phdr m1 run_buf i) ∧
     p_memsz mv (phdr m1 run_buf i) = p_memsz m1 (phdr m1 run_buf i) ∧
     (∀ virt, in_seg mv (phdr m1 run_buf i) virt ↔ in_seg m1 (phdr m1 run_buf i) virt)).
Proof.
  intros Hlow Hs Himg. pose proof (ei_data _ _ _ Himg) as Hd.
  destruct (low_eh m1 mv run_buf Hs) as (E1 & _ & _ & E2); [lia|]. split; [done|]. split; [done|].
  intros i. split; [apply phdr_low; [done|lia]|]. intros Hi.
  destruct (phdr_range m1 run_buf len i Hlow Himg Hi) as (_ & _ & Hp).
  destruct (low_ph m1 mv _ Hs Hp) as (F1 & _ & F3 & _ & F5). unfold loadable, in_seg, seg_start, seg_end.
  by rewrite F1, F3, F5.
Qed.

Definition stack_base : Z := USER_STACK_TOP - USER_STACK_PAGES * 4096.

(** No page of the program is a page of the stack. *)
Definition stack_apart (m1 : mem) : Prop :=
  ∀ i virt, 0 ≤ i < e_phnum m1 run_buf → loadable m1 (phdr m1 run_buf i) → in_seg m1 (phdr m1 run_buf i) virt →
    ¬ stack_base ≤ virt < USER_STACK_TOP.

(** The stack pages are free after loading. *)
Lemma stack_free m1 (v1 v2 : vm pmm) pd len k F :
  low_ok m1 → low_same m1 (v_mem v1) → elf_image m1 run_buf len → stack_apart m1 →
  (∀ i, 2 ≤ i < 1024 → ent (v_mem v1) pd i = 0) →
  load_inv (v_mem v1) v1 run_buf pd (e_phnum (v_mem v1) run_buf) v2 → 0 ≤ k < 4 →
  ¬ owns (v_mem v2) pd (NFr (pd_index (page_at stack_base k)) (pt_index (page_at stack_base k))) F.
Proof.
  intros Hlow Hs Himg Hst Hz Hinv Hk Ho. destruct (image_low m1 (v_mem v1) len Hlow Hs Himg) as (E1 & _ & E2).
  unfold stack_base, USER_STACK_TOP, USER_STACK_PAGES in *.
  destruct (li_only _ _ _ _ _ _ Hinv (page_at (16908288 - 4 * 4096) k) F) as [Hold|(j & Hj & Hl & Hv)].
  - unfold page_at, is_u32. lia.
  - exact Ho.
  - inversion Hold as [| |i T j G HT]; subst. inversion HT as [|i' T' Hi Hf E|]; subst. rewrite Hz in E by done.
    destruct Hf. lia.
  - rewrite E1 in Hj. destruct (E2 j) as [Ep Ej]. rewrite Ep in Hl, Hv. destruct (Ej Hj) as (L & _ & _ & V).
    apply (Hst j (page_at (16908288 - 4 * 4096) k)); [done|by apply L|by apply V|].
    unfold stack_base, USER_STACK_TOP, USER_STACK_PAGES, page_at. lia.
Qed.

(** Loading and mapping the stack in a new address space. *)
Lemma load_program m1 len (v0 v1 : vm pmm) pd :
  aligned page_tables → 4096 ≤ page_tables < 1048576 - 4096 →
  elf_image m1 run_buf len → low_ok m1 → low_same m1 (v_mem v1) → stack_apart m1 →
  built v0 v1 pd → identity_map (v_mem v1) pd page_tables → (∀ i, 2 ≤ i < 1024 → ent (v_mem v1) pd i = 0) →
  ∃ r v2, elf_load_user run_buf len pd v1 = Some (r, v2) ∧ built v0 v2 pd ∧
    (r = 0 ∨ r = e_entry m1 run_buf ∧
     ∃ r2 v3, paging_alloc_user_pages pd stack_base USER_STACK_PAGES v2 = Some (r2, v3) ∧ built v0 v3 pd ∧
       (r2 ≠ 0 ∨ r2 = 0 ∧ program_in m1 v3 pd ∧ low_same (v_mem v1) (v_mem v3))).
Proof.
  intros Hpa Hpr Himg Hlow Hs Hst Hb Hid Hz. pose proof Hb as [Hwf _].
  destruct (image_low m1 (v_mem v1) len Hlow Hs Himg) as (E1 & E2 & E3).
  destruct (elf_load_user_lemma pmm _ v1 run_buf len pd) as (r & v2 & E & Hwf2 & Hl2 & Hg2 & Hc).
  { by apply (elf_image_low m1). } { by apply (low_ok_same m1). } { done. }
  { intros i virt Hi Hl Hv. destruct (in_seg_u32 (v_mem v1) run_buf len) with (j := i) (virt := virt) as [U1 U2];
      [by apply (elf_image_low m1)|by apply (low_ok_same m1)|done..|].
    apply mmu_pte_absent, Hz. by apply pd_index_user. }
  exists r, v2. split; [done|]. assert (built v0 v2 pd) as Hb2 by (by apply (built_grows v0 v1)). split; [done|].
  destruct Hc as [[-> Hinv]|[-> _]]; [|by left]. right. split; [done|].
  destruct (alloc_pages_loop_spec pd stack_base 4 ltac:(vm_compute; discriminate) 0 v2) as (r2 & v3 & Ea & Hwf3 & Hg3 & _ & Hc);
    [lia|vm_compute; discriminate|done| |].
  { intros k F Hk. apply (stack_free m1 v1 v2 pd len k F); (done || lia). }
  exists r2, v3. split; [exact Ea|]. split; [by apply (built_grows v0 v2)|].
  destruct Hc as [[-> Hown]|[-> _]]; [right|by left]. split; [done|].
  split; [|transitivity (v_mem v2); [done|by apply (grows_low pd)]]. constructor.
  - done.
  - apply (identity_map_grows pd page_tables v2); [done|done|done|done|].
    by apply (identity_map_grows pd page_tables v1).
  - intros i virt Hi Hl Hv. destruct (E3 i) as [Ep Ei]. destruct (Ei Hi) as (L & V1 & V2 & _).
    destruct (loaded_bytes pmm _ (v_mem v1) v1 v2 run_buf len pd i virt) as (pa & Hp & Hby);
      [by apply (elf_image_low m1)|by apply (low_ok_same m1)|done|by rewrite E1|rewrite Ep; by apply L|by rewrite Ep, V1, V2|].
    pose proof (ei_segs _ _ _ Himg i Hi Hl) as Hseg. pose proof (seg_fields _ _ _ _ Hlow Hseg) as (_ & B2 & _ & B4).
    pose proof (so_user _ _ _ _ Hseg). pose proof (so_top _ _ _ _ Hseg).
    destruct (grows_walk v2 v3 pd virt pa) as [W1 W2]; [done|done|done|unfold is_u32 in *; lia|lia|done|].
    exists pa. split; [done|]. rewrite W2, Hby, Ep. by apply (seg_byte_low m1 _ _ len).
  - intros virt Hv. unfold stack_base, USER_STACK_TOP, USER_STACK_PAGES in *.
    destruct (in_seg_page virt (16908288 - 4 * 4096) 4) as (Hk & En & _);
      [reflexivity|lia|lia|lia|]. destruct (Hown ((virt - (16908288 - 4 * 4096)) `div` 4096)) as [F HF]; [lia|].
    exists (F + virt `mod` 4096). apply user_walk; [done|unfold is_u32; lia|lia|]. exists F. by rewrite En.
Qed.

(** [process_create_user]: the slot, and the first frame on the kernel stack. *)
Lemma create_user_ok (k : kst pmm) nm entry pd :
  0 < process_table ∧ process_table + 16 * 8252 ≤ 1048576 → is_u32 user_mode_enter →
  kinv k → esps_ok k → Forall (λ x, x ≠ 0) nm →
  let i := k_next_pid k in let top := kstack_top process_table i in
  (i = 16 ∧ process_create_user process_table user_mode_enter (nm ++ [0]) entry USER_STACK_TOP pd k = Some (None, k)) ∨
  (i < 16 ∧ ∃ k' nb m',
     process_create_user process_table user_mode_enter (nm ++ [0]) entry USER_STACK_TOP pd k = Some (Some i, k') ∧
     kinv k' ∧ esps_ok k' ∧ k_current k' = k_current k ∧ cstr nb = take 31 nm ∧ k_vm k' = vm_with_mem (k_vm k) m' ∧
     aget (k_table k') i = Some (Process (top - 20) pd PROC_READY (i + 1) 1 entry USER_STACK_TOP nb) ∧
     (∀ j, j ≠ i → aget (k_table k') j = aget (k_table k) j) ∧
     frame_ctx m' (top - 20) = Cpu 0 0 0 0 top user_mode_enter ∧
     (∀ b, b < top - 20 ∨ top ≤ b → load8 m' b = load8 (k_mem k) b)).
Proof.
  intros Ht Hu Hk He Hn i top. pose proof (ki_pid k Hk) as Hpid.
  pose proof (create_with_spec process_table k (nm ++ [0]) nm 1 entry USER_STACK_TOP pd user_mode_enter Hk) as Hc.
  pose proof (initial_frame process_table i user_mode_enter (k_mem k)) as Hf. fold top in Hf.
  fold i in Hc, Hpid. destruct (build_initial_kstack _ _ _ _) as [esp m] eqn:Eb.
  destruct Hc as [Hc|(Hlt & nb & k' & E & Hnb & Hk' & Hm & Hnp & Hcu & Ha)]; [by apply cstr_app_nul|by left|right].
  split; [done|]. unfold top, kstack_top, proc_addr, PROCESS_KSTACK_SIZE in *.
  destruct Hf as (-> & Hfr & Hmem); [lia|done|].
  destruct (create_with_vm _ _ _ _ _ _ _ _ _ _ E) as [m' Hvm].
  assert (m' = m) as -> by (unfold k_mem in Hm; by rewrite Hvm in Hm).
  exists k', nb, m. split; [exact E|]. split; [done|]. split; [|split; [done|split; [done|split; [done|]]]].
  - intros j p. rewrite Ha. case_decide; [intros [= <-]; simpl; lia|apply He].
  - split; [by rewrite Ha, decide_True by done|]. split; [intros j Hj; by rewrite Ha, decide_False by done|].
    split; [done|]. exact Hmem.
Qed.

(** The outcome without a process: an error message, and the machine as before. *)
Definition reason s (msg : list Z) : Prop :=
  msg = c_chars "Out of physical memory.\n" ∨ msg = c_chars "Not a valid ELF32 binary.\n" ∨
  msg = c_chars "Failed to allocate user stack.\n" ∨
  k_next_pid (y_k s) = 16 ∧ msg = c_chars "Process table full.\n".

Definition refused s (x : exit (sys D P R)) : Prop :=
  ∃ s' tr, x = Returned s' ∧ (∀ q, pmm_avail (v_fa (y_vm s')) q ↔ pmm_avail (v_fa (y_vm s)) q) ∧
    k_table (y_k s') = k_table (y_k s) ∧ k_current (y_k s') = k_current (y_k s) ∧
    k_next_pid (y_k s') = k_next_pid (y_k s) ∧ prints (y_vga s) tr (y_vga s') ∧ reason s (text tr).

(** The rest of the kernel: drivers, pipes and descriptors are the same, and so is what
    is on the disk. *)
Definition same_rest s s1 : Prop :=
  y_kb s1 = y_kb s ∧ y_irq s1 = y_irq s ∧ y_rtc s1 = y_rtc s ∧ y_pipes s1 = y_pipes s ∧ y_fd s1 = y_fd s ∧
  fs_wf (y_fs s1) ∧ bd_sectors (f_dev (y_fs s1)) = bd_sectors (f_dev (y_fs s)).

(** The same processes on the same screen; below 1 MB only [run_buf] is written. *)
Definition same_kernel s s1 : Prop :=
  y_vga s1 = y_vga s ∧ k_table (y_k s1) = k_table (y_k s) ∧ k_current (y_k s1) = k_current (y_k s) ∧
  k_next_pid (y_k s1) = k_next_pid (y_k s).

Definition low_kept s s1 : Prop :=
  ∀ b, b < 1048576 → b < run_buf ∨ run_buf + RUN_BUF_SIZE ≤ b → load8 (y_mem s1) b = load8 (y_mem s) b.

Lemma abandon_refused s s1 pd msg :
  built (y_vm s) (y_vm s1) pd → vga_wf (y_vga s) → same_kernel s s1 → bool_decide (0 ∉ c_chars msg) = true →
  reason s (c_chars msg) → ∃ x, abandon pd msg s1 = Some x ∧ refused s x.
Proof.
  intros Hb Hv (Ev & Et & Ec & En) Hmsg Hr. unfold abandon. rewrite <-Ev in Hv.
  destruct (console_spec [red; Puts msg; grey] s1 Hv) as (con & -> & Hpr & _).
  { repeat (apply Forall_cons_2; [done|]). apply Forall_nil_2. }
  cbn [mbind option_bind]. change (y_vm (set_vga con s1)) with (y_vm s1).
  destruct (built_destroy _ _ _ Hb) as (v' & -> & Ha & _). cbn [mbind option_bind].
  eexists. split; [reflexivity|]. eexists _, _. split; [reflexivity|]. split; [exact Ha|]. split; [exact Et|].
  split; [exact Ec|]. split; [exact En|]. rewrite Ev in Hpr. split; [exact Hpr|].
  rewrite trace_text. cbn [mbind list_bind pr_chars red grey app]. by rewrite app_nil_r.
Qed.

(** The outcome with a process: it is ready, in its own address space, and the
    processor has gone on in [process_yield]. *)
Definition spawned (nm : list Z) (m1 : mem) (cx : cpu) s (x : exit (sys D P R)) : Prop :=
  let i := k_next_pid (y_k s) in let top := kstack_top process_table i in
  ∃ s' pd nb c' k', i < 16 ∧ x = Switched c' (set_k k' s') ∧
    process_yield process_table page_directory cx (y_k s') = Some (c', k') ∧
    kinv (y_k s') ∧ cstr nb = take 31 nm ∧
    aget (k_table (y_k s')) i =
      Some (Process (top - 20) pd PROC_READY (i + 1) 1 (e_entry m1 run_buf) USER_STACK_TOP nb) ∧
    (∀ j, j ≠ i → aget (k_table (y_k s')) j = aget (k_table (y_k s)) j) ∧
    frame_ctx (y_mem s') (top - 20) = Cpu 0 0 0 0 top user_mode_enter ∧
    program_in m1 (y_vm s') pd ∧
    k_current (y_k s') = k_current (y_k s) ∧ esps_ok (y_k s') ∧ vga_wf (y_vga s') ∧ same_rest s s' ∧
    ∀ b, b < 1048576 → b < run_buf ∨ run_buf + RUN_BUF_SIZE ≤ b → b < top - 20 ∨ top ≤ b →
      load8 (y_mem s') b = load8 (y_mem s) b.

(** The end of [exec], once program and stack are in place. *)
Lemma exec_finish nm m1 len cx s s3 pd :
  exec_ready s → 20 ≤ r_esp cx < 8388608 → elf_image m1 run_buf len → low_ok m1 → is_u32 (e_entry m1 run_buf) →
  Forall (λ x, x ≠ 0) nm → built (y_vm s) (y_vm s3) pd → program_in m1 (y_vm s3) pd →
  same_kernel s s3 → same_rest s s3 → low_kept s s3 →
  ∃ x, ('(r, k) ← process_create_user process_table user_mode_enter (nm ++ [0]) (e_entry m1 run_buf) USER_STACK_TOP pd (y_k s3);
        let s4 := set_k k s3 in
        match r with
        | None => abandon pd "Process table full.\n" s4
        | Some i =>
            p ← aget (k_table k) i;
            announce process_table page_directory
              [Puts "Spawned user-mode PID "; Uint (p_pid p); Puts ": "; PutBuf (nm ++ [0]);
               Puts " (entry="; Hex (e_entry m1 run_buf); Puts ")\n"] cx s4
        end) = Some x ∧ (spawned nm m1 cx s x ∨ refused s x).
Proof.
  intros [Hly Ht Hap Hu Hv Hfs Hpm Hlow0 Hid0 Hk He] Hcx Himg Hlow Hen Hnm Hb Hpi Hsame Hrest Hkept.
  pose proof Hsame as (Ev & Et & Ec & En).
  assert (kinv (y_k s3)) as Hk3 by (destruct Hk; constructor; rewrite ?Et, ?Ec, ?En; done).
  assert (esps_ok (y_k s3)) as He3 by (intros j p; rewrite Et; apply He).
  destruct (create_user_ok (y_k s3) nm (e_entry m1 run_buf) pd Ht Hu Hk3 He3 Hnm)
    as [[Hfull ->]|(Hlt & k & nb & m' & -> & Hk' & He' & Hcu & Hnb & Hvm & Hp & Hoth & Hfr & Hmem)]; cbn [mbind option_bind]; cbv zeta.
  - destruct (abandon_refused s (set_k (y_k s3) s3) pd "Process table full.\n" Hb Hv Hsame eq_refl) as (x & E & Hx).
    { right; right; right. split; [by rewrite <-En|done]. }
    exists x. split; [exact E|by right].
  - rewrite Hp. cbn [mbind option_bind p_pid]. unfold announce. rewrite <-Ev in Hv.
    match goal with |- context [console ?ps ?st] => destruct (console_spec ps st Hv) as (con & -> & [Hcon _] & _) end.
    { cbn [app]. repeat (apply Forall_cons_2; [try exact I; try reflexivity|]); [| |apply Forall_nil_2].
      - unfold pr_ok, is_u32. pose proof (ki_pid _ Hk3). lia.
      - cbn [pr_ok]. set_solver. }
    cbn [mbind option_bind]. change (y_k (set_vga con (set_k k s3))) with k.
    destruct (process_yield_lemma process_table page_directory cx k Hk' Hcx He')
      as (t & i & t' & k2 & p2 & _ & _ & _ & _ & _ & _ & _ & _ & _ & _ & Ey & _).
    rewrite Ey. cbn [mbind option_bind]. eexists. split; [reflexivity|]. left.
    exists (set_vga con (set_k k s3)), pd, nb, (frame_ctx (k_mem k2) (p_esp p2)), k2. rewrite <-En.
    split; [done|]. split; [done|]. split; [exact Ey|]. split; [exact Hk'|]. split; [done|]. split; [exact Hp|].
    split; [intros j Hj; rewrite <-Et; by apply Hoth|].
    change (y_vm (set_vga con (set_k k s3))) with (k_vm k). change (y_mem (set_vga con (set_k k s3))) with (v_mem (k_vm k)).
    assert (∀ b, b < process_table ∨ process_table + 16 * 8252 ≤ b → load8 m' b = load8 (k_mem (y_k s3)) b) as Hout
      by (intros b Hb'; apply Hmem; pose proof (ki_pid _ Hk3); unfold kstack_top, proc_addr, PROCESS_KSTACK_SIZE; lia).
    rewrite Hvm. split; [exact Hfr|]. split; [apply program_low; [exact Hpi| | |]|].
    + intros b Hb'. apply Hout. lia.
    + intros t2 j Ht2 Hj. apply ent_ext. intros b Hb'. apply Hout. lia.
    + intros j virt Hj Hl Hr. pose proof (ei_segs _ _ _ Himg j Hj Hl) as Hseg.
      pose proof (so_user _ _ _ _ Hseg). pose proof (so_top _ _ _ _ Hseg). unfold is_u32. lia.
    + split; [by rewrite <-Ec|]. split; [exact He'|]. split; [exact Hcon|]. split; [exact Hrest|].
      intros b B1 B2 B3. rewrite Hmem by exact B3. by apply Hkept.
Qed.

Lemma exec_lemma nm c m1 wakes cx s :
  exec_ready s → nm ≠ [] → Forall (λ x, x ≠ 0) nm →
  fs_map (bd_sectors (f_dev (y_fs s))) !! nm = Some c → Z.of_nat (length c) ≤ RUN_BUF_SIZE →
  loaded run_buf c (y_mem s) m1 → low_ok m1 → elf_image m1 run_buf (Z.of_nat (length c)) →
  e_entry m1 run_buf ≠ 0 → stack_apart m1 → 20 ≤ r_esp cx < 8388608 →
  ∃ x, execute_command process_table page_directory user_mode_enter run_buf rtc_fuel
      (c_chars "exec " ++ nm ++ [0]) wakes cx s = Some x ∧
    (spawned nm m1 cx s x ∨ refused s x).
Proof.
  intros Hr Hne Hnm Hf Hsz Hld Hlow Himg Hen Hst Hcx. pose proof Hr as [Hly Ht Hap Hu Hv Hfs Hpm Hfl Hid _ _].
  destruct (exec_reads process_table page_directory page_tables user_mode_enter run_buf rtc_fuel nm c wakes cx s)
    as (x & m & -> & Hl & Hid' & Hx & Hdx); [done..|]. unfold exec_image.
  set (s1 := set_mem m (set_fs x s)).
  destruct (create_pd_lemma page_directory page_tables (ly_pd _ _ _ Hly) (ly_pt _ _ _ Hly) (y_vm s1))
    as (pd & v1 & E & Hcase); [exact Hpm|exact Hfl|exact Hid'|].
  rewrite E. cbn [mbind option_bind].
  destruct Hcase as [(-> & -> & Hnone)|(Hav & Hwf & Hidp & Hz & Ha & Hmem)].
  { rewrite decide_True by done.
    destruct (say_spec [red; Puts "Out of physical memory.\n"; grey] (set_vm (y_vm s1) s1) Hv) as (v' & -> & Hpr); [pr_oks|].
    eexists. split; [reflexivity|]. right. eexists _, _. split; [reflexivity|]. do 4 (split; [done|]).
    split; [exact Hpr|]. left. by rewrite trace_text. }
  rewrite decide_False by (destruct (wf_pd v1 pd Hwf); lia). change (y_vm (set_vm v1 s1)) with v1.
  assert (built (y_vm s) v1 pd) as Hb by exact (created_built (y_vm s1) v1 pd Hwf Hav Ha Hz).
  assert (low_same m (v_mem v1)) as Hlow1.
  { intros b Hb'. pose proof (fa_avail_range (v_fa (y_vm s1)) pd Hpm Hav) as [? ?]. by rewrite Hmem by lia. }
  destruct (load_program m1 (Z.of_nat (length c)) (y_vm s) v1 pd) as (r & v2 & -> & Hb2 & Hc);
    [apply Hly|apply Hly|done|done| |done|done|done|done|].
  { intros b Hb'. rewrite Hlow1 by done. by rewrite Hl, Hld. }
  cbn [mbind option_bind]. destruct Hc as [->|(-> & r2 & v3 & E3 & Hb3 & Hc)].
  { rewrite decide_True by done.
    destruct (abandon_refused s (set_vm v2 (set_vm v1 s1)) pd "Not a valid ELF32 binary.\n") as (y & E2 & Hy);
      [exact Hb2|exact Hv|by repeat split|reflexivity|right; by left|]. exists y. split; [exact E2|by right]. }
  rewrite decide_False by done. change (y_vm (set_vm v2 (set_vm v1 s1))) with v2.
  change (u32 (USER_STACK_TOP - USER_STACK_PAGES * 4096)) with stack_base. rewrite E3. cbn [mbind option_bind].
  destruct Hc as [Hc|(-> & Hpi & Hl3)].
  { rewrite decide_True by done.
    destruct (abandon_refused s (set_vm v3 (set_vm v2 (set_vm v1 s1))) pd "Failed to allocate user stack.\n") as (y & E2 & Hy);
      [exact Hb3|exact Hv|by repeat split|reflexivity|right; right; by left|]. exists y. split; [exact E2|by right]. }
  rewrite decide_False by (intros X; by apply X).
  apply (exec_finish nm m1 (Z.of_nat (length c)) cx s (set_vm v3 (set_vm v2 (set_vm v1 s1))) pd);
    [exact Hr|exact Hcx|exact Himg|exact Hlow| |exact Hnm|exact Hb3|exact Hpi|by repeat split|by do 5 (split; [done|])|].
  - apply low_load32_range; [done|]. pose proof (ei_data _ _ _ Himg). lia.
  - intros b B1 B2. change (load8 (v_mem v3) b = load8 (y_mem s) b). rewrite Hl3, Hlow1 by done. rewrite Hl. by rewrite decide_False by lia.
Qed.
(** C13: [exec] of a program on the disk is all or nothing.  In a kernel in order
    ([exec_ready]) whose free frames are all below 8 MB, let the file have at most 64 KB
    and be a well-formed executable: valid header, segments inside the file, at or above
    8 MB, without a common page, and off the user stack, entry point not 0
    ([elf_image], [stack_apart]; the code checks the header only).  Then either the
    process is in
    the table, ready, with the entry point of the file, a stack and its own address
    space in which every byte of every segment is the byte of the file (or zero), its
    first switch will enter [user_mode_enter], and the shell has yielded; or a
    message says why not, and processes and available frames are exactly those from
    before.  *)
Theorem exec_all_or_nothing nm c m1 wakes cx s :
  exec_ready s → nm ≠ [] → Forall (λ x, x ≠ 0) nm →
  fs_map (bd_sectors (f_dev (y_fs s))) !! nm = Some c → Z.of_nat (length c) ≤ RUN_BUF_SIZE →
  loaded run_buf c (y_mem s) m1 → low_ok m1 → elf_image m1 run_buf (Z.of_nat (length c)) →
  e_entry m1 run_buf ≠ 0 → stack_apart m1 → 20 ≤ r_esp cx < 8388608 →
  ∃ x, execute_command process_table page_directory user_mode_enter run_buf rtc_fuel
      (c_chars "exec " ++ nm ++ [0]) wakes cx s = Some x ∧
    (spawned nm m1 cx s x ∨ refused s x).
Proof. apply exec_lemma. Qed.
End exec.

(** ** Entering ring 3 *)

(** The processor after the IRET of [user_mode_enter]; DS, ES, FS and GS are equal. *)
Record user_cpu := UserCpu { uc_eip : Z; uc_cs : Z; uc_eflags : Z; uc_esp : Z; uc_ss : Z; uc_ds : Z }.

(** [user_mode_enter] with the flags and the stack pointer at its entry: the IRET
    frame is built on the kernel stack and popped. *)
Definition enter_user (eflags esp : Z) (k : kst pmm) : option (user_cpu * mem) :=
  i ← k_current k;
  p ← aget (k_table k) i;
  let '(esp, m) := push 35 esp (k_mem k) in
  let '(esp, m) := push (p_user_esp p) esp m in
  let '(esp, m) := push eflags esp m in
  let m := store32 m esp (Z.lor (load32 m esp) 512) in
  let '(esp, m) := push 27 esp m in
  let '(esp, m) := push (p_user_eip p) esp m in
  let '(eip, esp) := pop m esp in
  let '(cs, esp) := pop m esp in
  let '(fl, esp) := pop m esp in
  let '(uesp, esp) := pop m esp in
  let '(ss, esp) := pop m esp in
  Some (UserCpu eip cs fl uesp ss 35, m).

Lemma enter_user_ok eflags esp (k : kst pmm) i p :
  k_current k = Some i → aget (k_table k) i = Some p → 20 ≤ esp < 4294967296 → is_u32 eflags →
  is_u32 (p_user_eip p) → is_u32 (p_user_esp p) →
  ∃ m, enter_user eflags esp k = Some (UserCpu (p_user_eip p) 27 (Z.lor eflags 512) (p_user_esp p) 35 35, m) ∧
    ∀ b, b < esp - 20 ∨ esp ≤ b → load8 m b = load8 (k_mem k) b.
Proof.
  intros Hc Hp He Hf H1 H2. unfold enter_user, push, pop. rewrite Hc. cbn [mbind option_bind]. rewrite Hp.
  cbn [mbind option_bind].
  rewrite !(u32_small (esp - 4)) by (unfold is_u32; lia). rewrite !(u32_small (esp - 4 - 4)) by (unfold is_u32; lia).
  rewrite !(u32_small (esp - 4 - 4 - 4)) by (unfold is_u32; lia).
  rewrite !(u32_small (esp - 4 - 4 - 4 - 4)) by (unfold is_u32; lia).
  rewrite !(u32_small (esp - 4 - 4 - 4 - 4 - 4)) by (unfold is_u32; lia).
  replace (esp - 4 - 4 - 4 - 4 - 4) with (esp - 20) by lia. replace (esp - 4 - 4 - 4 - 4) with (esp - 16) by lia.
  replace (esp - 4 - 4 - 4) with (esp - 12) by lia. replace (esp - 4 - 4) with (esp - 8) by lia.
  rewrite !(u32_small (esp - 20 + 4)) by (unfold is_u32; lia). replace (esp - 20 + 4) with (esp - 16) by lia.
  rewrite !(u32_small (esp - 16 + 4)) by (unfold is_u32; lia). replace (esp - 16 + 4) with (esp - 12) by lia.
  rewrite !(u32_small (esp - 12 + 4)) by (unfold is_u32; lia). replace (esp - 12 + 4) with (esp - 8) by lia.
  rewrite !(u32_small (esp - 8 + 4)) by (unfold is_u32; lia). replace (esp - 8 + 4) with (esp - 4) by lia.
  assert (is_u32 (Z.lor eflags 512)) as Hl.
  { unfold is_u32 in *. rewrite <-(Z.mod_small eflags (2 ^ 32)) by lia. change 512 with (512 `mod` 2 ^ 32).
    rewrite <-!Z.land_ones, <-Z.land_lor_distr_l by lia. rewrite Z.land_ones by lia. zdm. }
  rewrite (load32_store32_eq _ _ eflags) by done. eexists. split.
  - f_equal. f_equal. f_equal; (rewrite ?load32_store32_ne by lia; by rewrite load32_store32_eq by first [done | unfold is_u32; lia]).
  - intros b Hb. by rewrite !load8_store32_ne by lia.
Qed.

(** C33: the first run of a user process, from the yield that picks it to its first
    instruction.  When [process_yield] switches to a process whose kernel stack is
    the one [process_create_user] made, the processor goes on in [user_mode_enter],
    which enters ring 3 (selectors 0x1B and 0x23, that is GDT_USER_CS and
    GDT_USER_DS) at the entry point of the process, on its user stack, with interrupts
    enabled; CR3 holds its page directory, the kernel stack for its system calls is
    the whole one of its own, and entering wrote nothing but the frame on that
    stack. *)
Theorem user_first_run process_table page_directory user_mode_enter eflags c c' s s' i q :
  kinv s → esps_ok s → 20 ≤ r_esp c < 8388608 → 0 ≤ process_table → process_table + 16 * 8252 < 8388608 →
  0 ≤ i < 16 → k_current s ≠ Some i → aget (k_table s) i = Some q →
  let top := kstack_top process_table i in
  p_esp q = top - 20 → frame_ctx (k_mem s) (top - 20) = Cpu 0 0 0 0 top user_mode_enter →
  p_pd_phys q ≠ 0 → is_u32 (p_user_eip q) → is_u32 (p_user_esp q) → is_u32 eflags →
  top + 20 ≤ r_esp c ∨ r_esp c ≤ top - 20 →
  process_yield process_table page_directory c s = Some (c', s') → k_current s' = Some i →
  r_eip c' = user_mode_enter ∧ v_cr3 (k_vm s') = p_pd_phys q ∧ k_esp0 s' = top ∧
  ∃ m, enter_user eflags (r_esp c') s' =
      Some (UserCpu (p_user_eip q) GDT_USER_CS (Z.lor eflags 512) (p_user_esp q) GDT_USER_DS GDT_USER_DS, m) ∧
    ∀ b, b < top - 20 ∨ top ≤ b → load8 m b = load8 (k_mem s') b.
Proof.
  intros Hk Hes Hr Ht0 Ht1 Hi Hc Hq top Hesp Hfr Hpd H1 H2 H3 Hap Hy Hi'.
  destruct (yield_target process_table page_directory c s i q c' s' Hk Hes Hr Hc Hq Hy Hi')
    as (p & Hp & Hsame & _ & Hc' & Hm & H0 & Hcr).
  assert (c' = Cpu 0 0 0 0 top user_mode_enter) as ->.
  { rewrite (yield_loads process_table page_directory c s i q c' s' Hk Hes Hr Hc Hq); [|lia|done|done].
    by rewrite Hesp. }
  split; [done|]. rewrite Hsame in Hcr. cbn [p_pd_phys set_state] in Hcr. rewrite decide_False in Hcr by done.
  split; [done|]. split; [done|]. rewrite Hsame in Hp.
  apply (enter_user_ok eflags top s' i _ Hi' Hp); [|done|done|done].
  unfold top, kstack_top, proc_addr, PROCESS_KSTACK_SIZE in *. lia.
Qed.

(** ** A small program on a small disk *)

Definition demo_program : list Z := demo_elf.

Lemma demo_program_disk :
  ∃ f : fs ide, fs_wf f ∧ fs_map (bd_sectors (f_dev f)) = {[ demo_name := demo_program ]}.
Proof.
  destruct demo_formatted as (s & Hwf & Hm & Hsp & Hsl).
  destruct (fs_write_lemma s (demo_name ++ [0]) demo_name demo_program 88 Hwf) as (s' & _ & Hwf' & Hm' & _).
  - apply cstr_app_nul; by repeat constructor.
  - discriminate.
  - exact demo_name_bytes.
  - apply Forall_take. repeat constructor; unfold is_u8; lia.
  - lia.
  - reflexivity || (simpl; lia).
  - destruct Hsp as [H1 H2]. change (secs 600) with 2 in *. split; [|intros i f Hi Hf; specialize (H2 i f Hi Hf)];
      change (secs 88) with 1; lia.
  - apply Hsl.
  - left. simpl. lia.
  - exists s'. split; [exact Hwf'|]. rewrite Hm', Hm. reflexivity.
Qed.

Definition demo_exec_sys (f : fs ide) : sys ide pics cmos := set_fs f (set_vm demo_elf_vm (demo_sys ∅ demo_pics)).

Lemma demo_elf_vm_fa : v_fa demo_elf_vm = small_pmm.
Proof. reflexivity. Qed.

Lemma demo_exec_ready f : fs_wf f → exec_ready 262144 65536 69632 4096 131072 (demo_exec_sys f).
Proof.
  intros Hf. destruct (demo_kst_ok ∅) as [Hk He]. constructor.
  - constructor; [exact demo_kd|exact demo_kt|unfold RUN_BUF_SIZE; lia|left; lia|left; lia].
  - lia.
  - left. lia.
  - unfold is_u32. lia.
  - exact demo_vga_wf.
  - exact Hf.
  - change (pmm_wf (v_fa demo_elf_vm)). rewrite demo_elf_vm_fa. exact (proj1 small_pmm_wf).
  - change (fa_low demo_elf_vm). unfold fa_low. rewrite demo_elf_vm_fa. exact (proj2 small_pmm_wf).
  - change (identity_map (v_mem demo_elf_vm) 65536 69632).
    destruct (paging_init_entries 65536 69632 demo_kd demo_kt ltac:(lia) (Vm demo_elf_mem small_pmm 0 0)) as (I1 & I2 & _).
    by split.
  - destruct Hk as [K1 K2 K3 K4 K5]. constructor; [exact K1|exact K2|exact K3|exact K4|exact K5].
  - exact He.
Qed.

Lemma demo_elf_loaded : loaded 131072 demo_program (v_mem demo_elf_vm) (v_mem demo_elf_vm).
Proof.
  intros b. destruct (decide _) as [Hb|]; [|done]. change (Z.of_nat (length demo_program)) with 88 in Hb.
  assert (forallb (λ i, load8 (v_mem demo_elf_vm) (131072 + Z.of_nat i) =? default 0 (demo_program !! i)) (seq 0 88) = true) as H
    by (vm_compute; reflexivity).
  rewrite forallb_forall in H. specialize (H (Z.to_nat (b - 131072))). rewrite Z.eqb_eq in H.
  replace (131072 + Z.of_nat (Z.to_nat (b - 131072))) with b in H by lia. apply H, in_seq. lia.
Qed.

Lemma exec_all_or_nothing_witness :
  ∃ f x, execute_command 262144 65536 4096 131072 4 (c_chars "exec " ++ demo_name ++ [0]) [] demo_cpu (demo_exec_sys f) = Some x ∧
    (spawned 262144 65536 69632 4096 131072 demo_name (v_mem demo_elf_vm) demo_cpu (demo_exec_sys f) x ∨
     refused (demo_exec_sys f) x).
Proof.
  destruct demo_program_disk as (f & Hf & Hm). exists f.
  apply (exec_all_or_nothing 262144 65536 69632 4096 131072 4 demo_name demo_program (v_mem demo_elf_vm) [] demo_cpu).
  - exact (demo_exec_ready f Hf).
  - discriminate.
  - repeat constructor; lia.
  - cbn [y_fs set_fs demo_exec_sys]. rewrite Hm. apply lookup_singleton_eq.
  - unfold RUN_BUF_SIZE. change (Z.of_nat (length demo_program)) with 88. lia.
  - exact demo_elf_loaded.
  - exact demo_elf_low.
  - exact demo_elf_image.
  - vm_compute. discriminate.
  - intros i virt Hi _ Hv.
    assert (e_phnum (v_mem demo_elf_vm) 131072 = 1) as En by (vm_compute; reflexivity). rewrite En in Hi.
    assert (i = 0) as -> by lia.
    assert (seg_end (v_mem demo_elf_vm) (phdr (v_mem demo_elf_vm) 131072 0) = 16781312) as Ee by (vm_compute; reflexivity).
    unfold in_seg in Hv. rewrite Ee in Hv. unfold stack_base, USER_STACK_TOP, USER_STACK_PAGES. lia.
  - vm_compute. split; [discriminate|reflexivity].
Defined.

(** Slot 3 runs and creates a user process in slot 4, which is the next to run. *)
Definition demo_user_kst : kst pmm :=
  default demo_kst1 (snd <$> process_create_user 131072 4096 [97; 0] 16777216 USER_STACK_TOP 1048576 demo_kst1).

Lemma user_first_run_witness :
  ∃ c' s' m, process_yield 131072 65536 demo_cpu2 demo_user_kst = Some (c', s') ∧ r_eip c' = 4096 ∧
    v_cr3 (k_vm s') = 1048576 ∧ enter_user 2 (r_esp c') s' = Some (UserCpu 16777216 27 514 USER_STACK_TOP 35 35, m).
Proof.
  destruct (kinv_check_sound demo_user_kst ltac:(vm_compute; reflexivity)) as [Hk He].
  destruct (aget (k_table demo_user_kst) 4) as [q|] eqn:Hq; [|vm_compute in Hq; discriminate Hq].
  destruct (process_yield 131072 65536 demo_cpu2 demo_user_kst) as [[c' s']|] eqn:E; [|vm_compute in E; discriminate E].
  assert (k_current s' = Some 4) as Hc.
  { assert (k_current <$> (snd <$> process_yield 131072 65536 demo_cpu2 demo_user_kst) = Some (Some 4)) as H
      by (vm_compute; reflexivity). rewrite E in H. by injection H. }
  assert ((p_esp q, p_pd_phys q, p_user_eip q, p_user_esp q) = (kstack_top 131072 4 - 20, 1048576, 16777216, USER_STACK_TOP)) as Hqf.
  { vm_compute in Hq. injection Hq as <-. vm_compute. reflexivity. }
  injection Hqf as Q1 Q2 Q3 Q4.
  destruct (user_first_run 131072 65536 4096 2 demo_cpu2 c' demo_user_kst s' 4 q) as (R1 & R2 & R3 & m & R4 & _);
    [exact Hk|exact He|vm_compute; split; [discriminate|reflexivity]|lia|lia|lia|vm_compute; discriminate|exact Hq|exact Q1
    |vm_compute; reflexivity|rewrite Q2; discriminate|rewrite Q3; unfold is_u32; lia|rewrite Q4; unfold is_u32, USER_STACK_TOP; lia
    |unfold is_u32; lia|right; vm_compute; discriminate|exact E|exact Hc|].
  exists c', s', m. split; [reflexivity|]. split; [exact R1|]. split; [rewrite R2; exact Q2|].
  rewrite R4, Q3, Q4. reflexivity.
Defined.
