(* ===== verification/Kernel.v ===== *)
(** * Start-up ([src/kernel/kernel.c], [kernel_entry.asm])

    [kernel_entry] zeroes the static variables and calls [kernel_main], which runs
    the initialisation routines of all components in order, reports each on the
    console, enables interrupts and enters the shell.  The model ends there, with the
    state in which [shell_run] starts.  Its theorem says that the invariants under
    which the theorems on the components are proved hold in that state. *)

From Stdlib Require Import String.
From S2P Require Import Prelude Mem CString Kmem Pmm Paging Process Pipe Keyboard Vga Console Ports.
From S2P Require Import Desc Pic Rtc Timer Serial Ata Fs Fd UserMem System.

(** The kernel and its machine: the variables of [System], descriptor tables with the
    registers that point to them, interval timer, UART, and the interrupt flag. *)
Record kernel (D P R T U : Type) := Kernel {
  n_sys : sys D P R; n_tss : tss;
  n_gdt : list gdt_entry; n_gdtr : desc_ptr; n_segs : segs; n_tr : Z;
  n_idt : list idt_entry; n_idtr : desc_ptr;
  n_pit : T; n_uart : U; n_iflag : bool
}.
Arguments Kernel {D P R T U} _ _ _ _ _ _ _ _ _ _ _.
Arguments n_sys {D P R T U} _.
Arguments n_tss {D P R T U} _.
Arguments n_gdt {D P R T U} _.
Arguments n_gdtr {D P R T U} _.
Arguments n_segs {D P R T U} _.
Arguments n_tr {D P R T U} _.
Arguments n_idt {D P R T U} _.
Arguments n_idtr {D P R T U} _.
Arguments n_pit {D P R T U} _.
Arguments n_uart {D P R T U} _.
Arguments n_iflag {D P R T U} _.

(** A slot of [process_table] in zeroed memory. *)
Definition zero_process : process := Process 0 0 PROC_UNUSED 0 0 0 0 (replicate 32 0).

(** Addresses that the linker fixes: [page_directory], [page_tables], [process_table],
    [heap_storage], [gdt_table], [idt_table], [tss], the entry of the idle process and
    the interrupt stubs. *)
Record addresses := Addresses {
  a_page_directory : Z; a_page_tables : Z; a_process_table : Z; a_heap : Z;
  a_gdt : Z; a_idt : Z; a_tss : Z; a_idle : Z; a_isr : Z → Z; a_irq : Z → Z; a_syscall : Z
}.

Section boot.
Context (L : addresses) (serial_fuel : nat) (mmap : boot_mmap).
Context {D : Type} `{!PortIO D} `{!BlockDevice D} {P : Type} `{!PortIO P} {R : Type} `{!PortIO R}.
Context {T : Type} `{!PortIO T} {U : Type} `{!PortIO U}.
Abbreviation kern := (kernel D P R T U).

Definition with_sys (s : sys D P R) (k : kern) : kern :=
  Kernel s (n_tss k) (n_gdt k) (n_gdtr k) (n_segs k) (n_tr k) (n_idt k) (n_idtr k) (n_pit k) (n_uart k) (n_iflag k).

(** [kernel_entry]: all variables of the kernel are in the zeroed section; devices,
    the frame buffer of the console, registers and the memory that holds no variable
    keep their state. *)
Definition kernel_entry (k : kern) : kern :=
  let s := n_sys k in
  Kernel
    (Sys (Kst (Vm (v_mem (y_vm s)) (Pmm (replicate 1024 0) 0 0) (v_cr3 (y_vm s)) (v_cr0 (y_vm s)))
            (replicate 16 zero_process) None 0 0)
       (Vga (vga_buffer (y_vga s)) 0 0 0 (crtc_hi (y_vga s)) (crtc_lo (y_vga s)))
       (Kb (replicate 64 0) 0 0 0 0) 0 (replicate 16 None) (y_pic s) (y_rtc s)
       (replicate 8 zero_pipe) (replicate 16 zero_entry)
       (Fs (f_dev (y_fs s)) (replicate 4096 0) (replicate 512 0)) (Kmem ∅ 0))
    (Tss 0 0 0) (replicate 6 zero_gdt_entry) (n_gdtr k) (n_segs k) (n_tr k) (replicate 256 zero_idt_entry) (n_idtr k)
    (n_pit k) (n_uart k) false.

(** Printing, for the messages. *)
Definition report (ps : list pr) (k : kern) : option kern :=
  s ← console ps (n_sys k); Some (with_sys s k).

Definition ok_line (ps : list pr) : kern → option kern := report (Color VGA_COLOR_LIGHT_GREEN :: ps).

(** [vga_init] and the banner. *)
Definition boot_console (k : kern) : option kern :=
  v ← vga_init (y_vga (n_sys k));
  report [Color VGA_COLOR_LIGHT_CYAN;
    Puts "================================================================\n";
    Puts "              VESPER KERNEL ACTIVE                             \n";
    Puts "        Advanced Services Educational OS  v0.5.0               \n";
    Puts "================================================================\n";
    Color VGA_COLOR_LIGHT_GREY; Puts "\n";
    Puts "  Architecture : x86  32-bit Protected Mode\n";
    Puts "  VGA buffer   : 0xB8000\n";
    Puts "  Kernel base  : 0x1000\n";
    Puts "  Stack base   : 0x90000\n";
    Puts "  Heap size    : 256 KB\n";
    Puts "\n"] (with_sys (set_vga v (n_sys k)) k).

Definition set_heap (h : kmem) (s : sys D P R) : sys D P R :=
  Sys (y_k s) (y_vga s) (y_kb s) (y_ticks s) (y_irq s) (y_pic s) (y_rtc s) (y_pipes s) (y_fd s) (y_fs s) h.
Definition set_irq (t : list (option irq_fn)) (s : sys D P R) : sys D P R :=
  Sys (y_k s) (y_vga s) (y_kb s) (y_ticks s) t (y_pic s) (y_rtc s) (y_pipes s) (y_fd s) (y_fs s) (y_heap s).

(** [serial_init], the message on the serial line, and [kmem_init]. *)
Definition boot_heap (k : kern) : option kern :=
  u ← serial_puts serial_fuel (c_lit "VESPER: serial console active (115200 8N1)\n") (serial_init (n_uart k));
  let s := set_heap (kmem_init (a_heap L) (y_heap (n_sys k))) (n_sys k) in
  ok_line [Puts "  [OK] Heap allocator  (256 KB)\n"]
    (Kernel s (n_tss k) (n_gdt k) (n_gdtr k) (n_segs k) (n_tr k) (n_idt k) (n_idtr k) (n_pit k) u (n_iflag k)).

(** [tss_init], [gdt_init], [tss_flush] and [idt_init]; the field ESP0 of the TSS is
    the one that the scheduler updates. *)
Definition boot_tables (k : kern) : option kern :=
  let t := tss_init 589824 in
  let s := set_k (tss_set_kernel_stack (tss_esp0 t) (y_k (n_sys k))) (n_sys k) in
  '(g, gp, sg) ← gdt_init (a_gdt L) (a_tss L) (n_gdt k);
  '(tr, g) ← tss_flush g;
  k ← ok_line [Puts "  [OK] GDT loaded      (6 entries: null/kcode/kdata/ucode/udata/TSS)\n";
               Puts "  [OK] TSS installed   (ESP0=0x90000, SS0=0x10)\n"]
        (Kernel s t g gp sg tr (n_idt k) (n_idtr k) (n_pit k) (n_uart k) (n_iflag k));
  '(i, ip) ← idt_init (a_idt L) (a_isr L) (a_irq L) (n_idt k);
  ok_line [Puts "  [OK] IDT loaded      (256 gates)\n"]
    (Kernel (n_sys k) (n_tss k) (n_gdt k) (n_gdtr k) (n_segs k) (n_tr k) i ip (n_pit k) (n_uart k) (n_iflag k)).

(** [keyboard_init] with the handler table and the interrupt controller. *)
Definition keyboard_start (s : sys D P R) : option (sys D P R) :=
  tbl ← irq_register_handler 1 (Some KeyboardIrq) (y_irq s);
  Some (set_pic (pic_unmask_irq 1 (y_pic s)) (set_irq tbl (set_kb (keyboard_init (y_kb s)) s))).

(** [pic_init], [timer_init] and [keyboard_init]. *)
Definition boot_irqs (k : kern) : option kern :=
  k ← ok_line [Puts "  [OK] PIC remapped    (IRQ0-15 -> INT 32-47)\n"]
        (with_sys (set_pic (pic_init (y_pic (n_sys k))) (n_sys k)) k);
  '(ticks, t, tbl, p) ← timer_init TimerIrq (n_pit k) (y_irq (n_sys k)) (y_pic (n_sys k));
  let s := set_ticks ticks (set_irq tbl (set_pic p (n_sys k))) in
  k ← ok_line [Printf "  [OK] PIT timer       (IRQ0, 100 Hz, preempt every %u ticks)\n" [AInt SCHED_SLICE]]
        (Kernel s (n_tss k) (n_gdt k) (n_gdtr k) (n_segs k) (n_tr k) (n_idt k) (n_idtr k) t (n_uart k) (n_iflag k));
  s ← keyboard_start (n_sys k);
  ok_line [Puts "  [OK] Keyboard driver (IRQ1, extended scancodes)\n"] (with_sys s k).

(** [pmm_init] and [paging_init]. *)
Definition boot_memory (k : kern) : option kern :=
  f ← pmm_init mmap;
  let v := y_vm (n_sys k) in
  k ← ok_line [Puts "  [OK] PMM ready       ("; Uint (u32 (pmm_free_frames f * 4)); Puts " KB free)\n"]
        (with_sys (set_vm (Vm (v_mem v) f (v_cr3 v) (v_cr0 v)) (n_sys k)) k);
  let s := n_sys k in
  ok_line [Puts "  [OK] Paging enabled  (identity-map 0-8 MB, per-process PDs)\n"]
    (with_sys (set_vm (paging_init (a_page_directory L) (a_page_tables L) (y_vm s)) s) k).

(** [syscall_init], [pipe_init], [fd_init] and [process_init]. *)
Definition boot_services (k : kern) : option kern :=
  i ← syscall_init (a_syscall L) (n_idt k);
  k ← ok_line [Puts "  [OK] Syscall gate    (INT 0x80, DPL=3, syscalls 0-12)\n"]
        (Kernel (n_sys k) (n_tss k) (n_gdt k) (n_gdtr k) (n_segs k) (n_tr k) i (n_idtr k) (n_pit k) (n_uart k) (n_iflag k));
  k ← ok_line [Printf "  [OK] IPC pipes       (%u slots x %u B ring buffer)\n" [AInt MAX_PIPES; AInt PIPE_BUF_SIZE]]
        (with_sys (set_pipes pipe_init (n_sys k)) k);
  k ← ok_line [Printf "  [OK] FD table        (%u slots)\n" [AInt FD_MAX]]
        (with_sys (set_fd fd_init (n_sys k)) k);
  ks ← process_init (a_process_table L) (a_idle L) (y_k (n_sys k));
  ok_line [Printf "  [OK] Scheduler       (preemptive round-robin, max %u procs)\n" [AInt MAX_PROCESSES]]
    (with_sys (set_k ks (n_sys k)) k).

(** [ata_init] and [fs_init]. *)
Definition boot_disk (k : kern) : option kern :=
  let f := y_fs (n_sys k) in
  let '(r, d) := ata_init (f_dev f) in
  let k := with_sys (set_fs (Fs d (f_dir f) (f_sec f)) (n_sys k)) k in
  k ← (if decide (r ≠ 0) then ok_line [Puts "  [OK] ATA drive       (primary master, PIO)\n"] k
       else report [Color VGA_COLOR_YELLOW; Puts "  [--] ATA drive       (not detected)\n"] k);
  '(r, f) ← fs_init (y_fs (n_sys k));
  let k := with_sys (set_fs f (n_sys k)) k in
  if decide (r ≠ 0) then ok_line [Puts "  [OK] VesperFS        (mounted at LBA 129)\n"] k
  else report [Color VGA_COLOR_YELLOW; Puts "  [--] VesperFS        (not formatted – run 'mkfs')\n"] k.

(** [kernel_main] up to the call of [shell_run]. *)
Definition kernel_main (k : kern) : option kern :=
  k ← boot_console k;
  k ← boot_heap k;
  k ← boot_tables k;
  k ← boot_irqs k;
  k ← boot_memory k;
  k ← boot_services k;
  k ← boot_disk k;
  let k := Kernel (n_sys k) (n_tss k) (n_gdt k) (n_gdtr k) (n_segs k) (n_tr k) (n_idt k) (n_idtr k) (n_pit k) (n_uart k) true in
  k ← ok_line [Puts "  [OK] Interrupts enabled\n"] k;
  report [Color VGA_COLOR_LIGHT_GREY; Puts "\n  Type 'help' for available commands.\n\n"] k.
End boot.

(** ** The stages *)

Local Abbreviation K ks vg kb tk tb p r pi fd f h ts g gp sg tr i ip t u b :=
  (Kernel (Sys ks vg kb tk tb p r pi fd f h) ts g gp sg tr i ip t u b : kernel ide pics cmos pit uart).

(** A run of messages changes the screen only. *)
Lemma report_ok ps ks vg kb tk tb p r pi fd f h ts g gp sg tr i ip t u b :
  vga_wf vg → Forall pr_ok ps →
  ∃ vg', report ps (K ks vg kb tk tb p r pi fd f h ts g gp sg tr i ip t u b) =
    Some (K ks vg' kb tk tb p r pi fd f h ts g gp sg tr i ip t u b) ∧ vga_wf vg'.
Proof.
  intros Hv Hp. unfold report, console. destruct (print_spec ps vg Hv Hp) as (vg' & E & [Hw _] & _).
  cbn [y_vga n_sys]. rewrite E. by exists vg'.
Qed.

Ltac knorm :=
  unfold ok_line, with_sys, set_ticks, set_irq, set_pic, set_kb, set_vm, set_k, set_fs, set_pipes, set_fd, set_heap;
  cbn [mbind option_bind n_sys y_k y_vga y_kb y_ticks y_irq y_pic y_rtc y_pipes y_fd y_fs y_heap n_tss n_gdt n_gdtr
       n_segs n_tr n_idt n_idtr n_pit n_uart n_iflag].

(** Literals and formats without hypotheses. *)
Ltac pr_lits :=
  repeat (apply Forall_cons_2); try apply Forall_nil_2;
  match goal with
  | |- pr_ok (Printf _ _) => apply printf_check_ok; vm_compute; reflexivity
  | |- pr_ok (Uint _) => apply u32_range
  | |- _ => reflexivity || exact I
  end.

(** The next message. *)
Ltac kreport Hv v :=
  match goal with |- context [report ?ps (Kernel (Sys ?ks ?vg ?kb ?tk ?tb ?p ?r ?pi ?fd ?f ?h) ?ts ?g ?gp ?sg ?tr ?i ?ip ?t ?u ?b)] =>
    let E := fresh in let Hn := fresh in
    destruct (report_ok ps ks vg kb tk tb p r pi fd f h ts g gp sg tr i ip t u b Hv) as (v & E & Hn);
    [pr_lits
    |rewrite E; clear E Hv; rename Hn into Hv; cbn [mbind option_bind]]
  end.

Section stages.
Context (L : addresses) (serial_fuel : nat) (mmap : boot_mmap).

Lemma boot_console_ok ks vg kb tk tb p r pi fd f h ts g gp sg tr i ip t u b :
  length (vga_buffer vg) = 2000%nat →
  ∃ vg', boot_console (K ks vg kb tk tb p r pi fd f h ts g gp sg tr i ip t u b) =
    Some (K ks vg' kb tk tb p r pi fd f h ts g gp sg tr i ip t u b) ∧ vga_wf vg'.
Proof.
  intros Hl. unfold boot_console, vga_init. cbn [y_vga n_sys]. rewrite vga_clear_spec by done.
  cbn [mbind option_bind]. apply report_ok; [|pr_oks].
  constructor; cbn [vga_buffer vga_row vga_col]; [apply length_replicate|lia|lia].
Qed.

Definition greeting : list Z := c_chars "VESPER: serial console active (115200 8N1)\n".

Lemma boot_heap_ok ks vg kb tk tb p r pi fd f h ts g gp sg tr i ip t u b :
  vga_wf vg → dlab u = false → 0 ≤ u_divisor u < 65536 → prompt serial_fuel u →
  ∃ vg' u', boot_heap L serial_fuel (K ks vg kb tk tb p r pi fd f h ts g gp sg tr i ip t u b) =
    Some (K ks vg' kb tk tb p r pi fd f (kmem_init (a_heap L) h) ts g gp sg tr i ip t u' b) ∧ vga_wf vg' ∧
    uart_ready u' ∧ u_sent u' = u_sent u ++ ((λ c, (1, 3, c)) <$> crlf greeting).
Proof.
  intros Hv Hl Hd [Hb Ht]. unfold boot_heap. cbn [n_uart].
  destruct (serial_init_ready u Hl Hd) as (Hr & S & B & T).
  destruct (serial_puts_spec serial_fuel greeting (serial_init u)) with (rest := @nil Z) as (u' & E & Hr' & _ & S');
    [apply Forall_forall; intros x Hx ->; revert Hx; apply (bool_decide_eq_false_1 (0 ∈ greeting)); reflexivity
    |split; by rewrite ?B, ?T|done|].
  change (c_lit _) with (greeting ++ [0]). rewrite E. cbn [mbind option_bind].
  destruct (report_ok [Color VGA_COLOR_LIGHT_GREEN; Puts "  [OK] Heap allocator  (256 KB)\n"]
    ks vg kb tk tb p r pi fd f (kmem_init (a_heap L) h) ts g gp sg tr i ip t u' b Hv) as (vg' & Er & Hw); [pr_oks|].
  exists vg', u'. split; [exact Er|]. by rewrite S', S.
Qed.

Lemma boot_irqs_ok ks vg kb tk tb p r pi fd f h ts g gp sg tr i ip t u b :
  vga_wf vg → length tb = 16%nat → length (kb_buf kb) = 64%nat →
  ∃ vg' tb' p' t', boot_irqs (K ks vg kb tk tb p r pi fd f h ts g gp sg tr i ip t u b) =
    Some (K ks vg' (keyboard_init kb) 0 tb' p' r pi fd f h ts g gp sg tr i ip t' u b) ∧ vga_wf vg' ∧
    (pit_mode t' = 2 ∧ pit_low t' = None ∧ pit_reload t' * 100 ≤ PIT_FREQ < (pit_reload t' + 1) * 100) ∧
    (∀ j, aget tb' j = if decide (j = 0) then Some (Some TimerIrq)
                       else if decide (j = 1) then Some (Some KeyboardIrq) else aget tb j) ∧
    pics_wf p' ∧ ∀ j, 0 ≤ j < 16 → masked p' j = negb (bool_decide (j = 0 ∨ j = 1)).
Proof.
  intros Hv Hl Hb. unfold boot_irqs. knorm. kreport Hv v1. knorm.
  destruct (pic_init_spec p) as (Hp0 & Hm0 & _).
  destruct (timer_init_rate TimerIrq t tb (pic_init p) Hl Hp0) as (t' & tb1 & p1 & -> & R1 & R2 & R3 & Hl1 & A0 & A1 & Hp1 & Hm1).
  knorm. kreport Hv v2. unfold keyboard_start. knorm.
  destruct (irq_register_ok 1 (Some KeyboardIrq) tb1 Hl1) as (tb2 & -> & _ & A2); [lia|]. knorm.
  kreport Hv v3. eexists _, _, _, _. split; [reflexivity|]. split; [done|]. split; [done|]. split.
  { intros j. rewrite A2. repeat case_decide; subst; try done. by apply A1. }
  destruct (pic_mask_ops p1 1 Hp1 ltac:(lia)) as [(Hp2 & Hm2 & _) _]. split; [done|].
  intros j Hj. rewrite Hm2, Hm1, Hm0 by done. repeat case_decide; case_bool_decide; done || lia.
Qed.

Lemma boot_tables_ok ks vg kb tk tb p r pi fd f h ts gp sg tr ip t u b i1 ip1 :
  vga_wf vg → is_u32 (a_tss L) →
  idt_init (a_idt L) (a_isr L) (a_irq L) (replicate 256 zero_idt_entry) = Some (i1, ip1) →
  ∃ vg' g', boot_tables L (K ks vg kb tk tb p r pi fd f h ts (replicate 6 zero_gdt_entry) gp sg tr
                             (replicate 256 zero_idt_entry) ip t u b) =
    Some (K (tss_set_kernel_stack 589824 ks) vg' kb tk tb p r pi fd f h (Tss 589824 16 104) g' (DescPtr 47 (a_gdt L))
            (Segs 8 16 16 16 16 16) 40 i1 ip1 t u b) ∧ vga_wf vg' ∧
    ∃ kcode kdata ucode udata tssd, g' = [zero_gdt_entry; kcode; kdata; ucode; udata; tssd] ∧
      flat 0 kcode ∧ flat 0 kdata ∧ flat 3 ucode ∧ flat 3 udata ∧
      seg_base tssd = a_tss L ∧ seg_last tssd = 103 ∧ access tssd = 139.
Proof.
  intros Hv Ht Hi. unfold boot_tables. knorm.
  destruct (gdt_init_layout (a_gdt L) (a_tss L) (replicate 6 zero_gdt_entry)) as
    (nl & kc & kd & uc & ud & td & -> & -> & H1 & H2 & H3 & H4 & _ & _ & _ & _ & H5 & H6 & H7); [done|done|].
  knorm. destruct (tss_flush_ok [zero_gdt_entry; kc; kd; uc; ud; td] td eq_refl H7) as (-> & B1 & B2 & B3). knorm. change (tss_init 589824) with (Tss 589824 16 104). cbn [tss_esp0]. kreport Hv v1. knorm. rewrite Hi.
  cbn [mbind option_bind]. kreport Hv v2. eexists _, _. split; [reflexivity|]. split; [done|].
  exists kc, kd, uc, ud, (mark_busy td). split; [reflexivity|]. do 4 (split; [done|]). rewrite B1, B2. exact (conj H5 (conj H6 B3)).
Qed.

Lemma boot_memory_ok ks vg kb tk tb p r pi fd f h ts g gp sg tr i ip t u b fr :
  vga_wf vg → pmm_init mmap = Some fr →
  ∃ vg' v', boot_memory L mmap (K ks vg kb tk tb p r pi fd f h ts g gp sg tr i ip t u b) =
    Some (K (with_vm v' ks) vg' kb tk tb p r pi fd f h ts g gp sg tr i ip t u b) ∧ vga_wf vg' ∧
    v' = paging_init (a_page_directory L) (a_page_tables L)
           (Vm (k_mem ks) fr (v_cr3 (k_vm ks)) (v_cr0 (k_vm ks))).
Proof.
  intros Hv Hf. unfold boot_memory. rewrite Hf. cbn [mbind option_bind]. knorm. kreport Hv v1. knorm. kreport Hv v2.
  eexists _, _. split; [reflexivity|]. by split.
Qed.

Lemma boot_services_ok ks vg kb tk tb p r pi fd f h ts g gp sg tr i ip t u b i' ks' :
  vga_wf vg → syscall_init (a_syscall L) i = Some i' →
  process_init (a_process_table L) (a_idle L) ks = Some ks' →
  ∃ vg', boot_services L (K ks vg kb tk tb p r pi fd f h ts g gp sg tr i ip t u b) =
    Some (K ks' vg' kb tk tb p r pipe_init fd_init f h ts g gp sg tr i' ip t u b) ∧ vga_wf vg'.
Proof.
  intros Hv Hi Hk. unfold boot_services. cbn [n_idt]. rewrite Hi. cbn [mbind option_bind]. knorm.
  kreport Hv v1. knorm. kreport Hv v2. knorm. kreport Hv v3. knorm. rewrite Hk. cbn [mbind option_bind]. kreport Hv v4.
  eexists. by split.
Qed.

Lemma boot_disk_ok ks vg kb tk tb p r pi fd f h ts g gp sg tr i ip t u b :
  vga_wf vg → fs_base f →
  ∃ vg' f', boot_disk (K ks vg kb tk tb p r pi fd f h ts g gp sg tr i ip t u b) =
    Some (K ks vg' kb tk tb p r pi fd f' h ts g gp sg tr i ip t u b) ∧ vga_wf vg' ∧
    fs_base f' ∧ i_disk (f_dev f') = i_disk (f_dev f).
Proof.
  intros Hv [H1 H2 H3 H4]. unfold boot_disk. knorm. destruct (ata_init_ide (f_dev f) H1) as (d & -> & Hd & Hs).
  cbn [y_fs n_sys]. rewrite decide_True by done. knorm. kreport Hv v1. knorm.
  destruct (fs_init_any (Fs d (f_dir f) (f_sec f))) as (r' & f' & -> & Hb' & Hs' & _).
  { constructor; [exact Hd|done|done|]. change (bd_sectors (f_dev ?x)) with (i_disk (f_dev x)) in *.
    cbn [f_dev]. by rewrite Hs. }
  cbn [mbind option_bind]. assert (i_disk (f_dev f') = i_disk (f_dev f)) as Hdk by (etrans; [exact Hs'|exact Hs]).
  destruct (decide (r' ≠ 0)); kreport Hv v2; eexists _, _; (split; [reflexivity|]); done.
Qed.
End stages.

(** ** The state in which the shell starts *)

(** The kernel as linked: the tables of the paging code are page-aligned below 1 MB,
    apart from each other and from the process table, and addresses have 32 bits. *)
Record linked (L : addresses) : Prop := Linked {
  li_pd : aligned (a_page_directory L) ∧ 4096 ≤ a_page_directory L < 1048576;
  li_pt : aligned (a_page_tables L) ∧ 4096 ≤ a_page_tables L < 1048576 - 4096;
  li_apart : a_page_directory L + 4096 ≤ a_page_tables L ∨ a_page_tables L + 8192 ≤ a_page_directory L;
  li_proc : 0 < a_process_table L ∧ a_process_table L + 16 * 8252 < 4294967296;
  li_proc_pd : a_page_directory L + 4096 ≤ a_process_table L ∨ a_process_table L + 16 * 8252 ≤ a_page_directory L;
  li_proc_pt : a_page_tables L + 8192 ≤ a_process_table L ∨ a_process_table L + 16 * 8252 ≤ a_page_tables L;
  li_heap : 4096 ≤ a_heap L ∧ a_heap L + HEAP_SIZE < 4294967296;
  li_tss : is_u32 (a_tss L); li_idle : is_u32 (a_idle L);
  li_isr : ∀ i, is_u32 (a_isr L i); li_irq : ∀ i, is_u32 (a_irq L i); li_sys : is_u32 (a_syscall L)
}.

(** A memory map as the boot loader writes it, empty or with regions that do not
    overlap (for overlapping ones the counter of free frames is not exact). *)
Record mmap_ok (m : boot_mmap) : Prop := MmapOk {
  mo_count : 0 ≤ mm_count m ≤ 32; mo_len : length (mm_entries m) = 32%nat;
  mo_entries : Forall e820_ok (take (Z.to_nat (mm_count m)) (mm_entries m)); mo_disjoint : e820_disjoint (mm_entries m) (mm_count m)
}.

(** The frames that the kernel may use: above 1 MB, and in a usable region of the
    map, or any up to 32 MB if there is no map. *)
Definition usable (m : boot_mmap) (f : Z) : Prop :=
  256 ≤ f ∧ (mm_count m = 0 ∨ ∃ i e, 0 ≤ i < mm_count m ∧ aget (mm_entries m) i = Some e ∧ covers e f).

(** [pmm_init] on either kind of map. *)
Lemma pmm_init_usable mmap :
  mmap_ok mmap →
  ∃ s, pmm_init mmap = Some s ∧ pmm_wf s ∧ ∀ f, frame_ok f → used s f = false ↔ usable mmap f.
Proof.
  intros [M1 M2 M3 M4]. destruct (decide (mm_count mmap = 0)) as [E|E].
  - destruct mmap as [n es]. simpl in E. subst n. destruct (pmm_init_fixed es) as (s & Hs & Hwf & _ & _ & Hu).
    exists s. split; [exact Hs|]. split; [exact Hwf|]. intros f Hf. rewrite Hu, bool_decide_eq_false by exact Hf.
    split; [intros ?; split; [lia|by left]|intros [? _]; lia].
  - destruct (pmm_init_lemma mmap ltac:(lia) M2 M3) as (s & Hs & _ & Hu & Hwf). exists s. split; [exact Hs|].
    split; [by apply Hwf|]. intros f Hf. rewrite Hu by exact Hf. unfold usable. naive_solver.
Qed.

(** The machine before start-up: a text buffer of 2000 cells, a UART out of reset
    that answers within the bound on the polls, and a disk that can hold a file
    system; the rest is arbitrary. *)
Record machine_ok (fuel : nat) (k : kernel ide pics cmos pit uart) : Prop := MachineOk {
  mk_cells : length (vga_buffer (y_vga (n_sys k))) = 2000%nat;
  mk_dlab : dlab (n_uart k) = false;
  mk_divisor : 0 ≤ u_divisor (n_uart k) < 65536;
  mk_prompt : prompt fuel (n_uart k);
  mk_disk : ide_inv (f_dev (y_fs (n_sys k)));
  mk_size : 138 ≤ Z.of_nat (length (i_disk (f_dev (y_fs (n_sys k))))) ≤ 268435456
}.

(** The gates and segments of [Desc]. *)
Definition tables_ok (L : addresses) (k : kernel ide pics cmos pit uart) : Prop :=
  (∃ kcode kdata ucode udata tssd, n_gdt k = [zero_gdt_entry; kcode; kdata; ucode; udata; tssd] ∧
     flat 0 kcode ∧ flat 0 kdata ∧ flat 3 ucode ∧ flat 3 udata ∧ seg_base tssd = a_tss L ∧ seg_last tssd = 103 ∧ access tssd = 139) ∧
  n_gdtr k = DescPtr 47 (a_gdt L) ∧ n_segs k = Segs 8 16 16 16 16 16 ∧ n_tr k = 40 ∧ n_tss k = Tss 589824 16 104 ∧
  n_idtr k = DescPtr 2047 (a_idt L) ∧
  (∀ i, 0 ≤ i < 20 → ∃ e, aget (n_idt k) i = Some e ∧ gate_to (a_isr L i) 0 e) ∧
  (∀ i, 0 ≤ i < 16 → ∃ e, aget (n_idt k) (32 + i) = Some e ∧ gate_to (a_irq L i) 0 e) ∧
  (∃ e, aget (n_idt k) 128 = Some e ∧ gate_to (a_syscall L) 3 e) ∧
  (∀ j, 20 ≤ j < 32 ∨ 48 ≤ j < 128 ∨ 128 < j < 256 → ∃ e, aget (n_idt k) j = Some e ∧ gate_present e = false).

(** The kernel directory: the first 8 MB, and nothing else. *)
Definition kernel_map (L : addresses) (m : mem) : Prop :=
  identity_map m (a_page_directory L) (a_page_tables L) ∧ ∀ n, 2 ≤ n < 1024 → ent m (a_page_directory L) n = 0.

(** The machine [k0] has started as [k]. *)
Record booted (L : addresses) (mmap : boot_mmap) (k0 k : kernel ide pics cmos pit uart) : Prop := Booted {
  bo_iflag : n_iflag k = true;
  bo_console : vga_wf (y_vga (n_sys k));
  bo_serial : uart_ready (n_uart k) ∧ u_sent (n_uart k) = u_sent (n_uart k0) ++ ((λ c, (1, 3, c)) <$> crlf greeting);
  bo_heap : heap_repr (a_heap L) (y_heap (n_sys k)) [Blk (HEAP_SIZE - HDR) true];
  bo_tables : tables_ok L k;
  bo_pic : pics_wf (y_pic (n_sys k)) ∧
    ∀ j, 0 ≤ j < 16 → masked (y_pic (n_sys k)) j = negb (bool_decide (j = 0 ∨ j = 1));
  bo_handlers : y_irq (n_sys k) = Some TimerIrq :: Some KeyboardIrq :: replicate 14 None;
  bo_timer : y_ticks (n_sys k) = 0 ∧ pit_mode (n_pit k) = 2 ∧
    pit_reload (n_pit k) * 100 ≤ PIT_FREQ < (pit_reload (n_pit k) + 1) * 100;
  bo_keyboard : kb_wf (y_kb (n_sys k)) ∧ kb_queue (y_kb (n_sys k)) = [] ∧ extended_code (y_kb (n_sys k)) = 0;
  bo_clock : y_rtc (n_sys k) = y_rtc (n_sys k0);
  bo_frames : pmm_wf (v_fa (y_vm (n_sys k))) ∧
    ∀ f, frame_ok f → used (v_fa (y_vm (n_sys k))) f = false ↔ usable mmap f;
  bo_total : is_u32 (pmm_total (v_fa (y_vm (n_sys k))));
  bo_paging : v_cr3 (y_vm (n_sys k)) = a_page_directory L ∧ Z.testbit (v_cr0 (y_vm (n_sys k))) 31 = true ∧
    kernel_map L (y_mem (n_sys k));
  bo_processes : kinv (y_k (n_sys k)) ∧ k_current (y_k (n_sys k)) = None ∧ k_next_pid (y_k (n_sys k)) = 1 ∧
    k_esp0 (y_k (n_sys k)) = 589824 ∧ state_of (k_table (y_k (n_sys k))) 0 = Some PROC_READY;
  bo_slots j p : aget (k_table (y_k (n_sys k))) j = Some p →
    p_pd_phys p = 0 ∧ p_esp p = (if decide (j = 0) then kstack_top (a_process_table L) 0 - 20 else 0) ∧
    (p_state p ≠ PROC_UNUSED → 0 ∈ p_name p);
  bo_idle : ∃ p, aget (k_table (y_k (n_sys k))) 0 = Some p ∧
    frame_ctx (y_mem (n_sys k)) (p_esp p) = Cpu 0 0 0 0 (kstack_top (a_process_table L) 0) (a_idle L);
  bo_pipes : y_pipes (n_sys k) = pipe_init ∧ pipes_wf (y_pipes (n_sys k));
  bo_fds : y_fd (n_sys k) = fd_init;
  bo_files : fs_base (y_fs (n_sys k)) ∧ i_disk (f_dev (y_fs (n_sys k))) = i_disk (f_dev (y_fs (n_sys k0))) ∧
    (disk_wf (i_disk (f_dev (y_fs (n_sys k0)))) → fd_wf (y_fd (n_sys k)) (y_fs (n_sys k)))
}.

Lemma handlers_eq (tb : list (option irq_fn)) :
  (∀ j, aget tb j = if decide (j = 0) then Some (Some TimerIrq)
                    else if decide (j = 1) then Some (Some KeyboardIrq) else aget (replicate 16 None) j) →
  tb = Some TimerIrq :: Some KeyboardIrq :: replicate 14 None.
Proof.
  intros H. apply list_eq. intros i. specialize (H (Z.of_nat i)). rewrite !aget_nat in H. rewrite H.
  destruct i as [|[|i]]; [done..|]. by rewrite !decide_False by lia.
Qed.

(** Writing a frame on a kernel stack leaves the page tables alone. *)
Lemma idle_stack_identity L m m' esp :
  linked L → build_initial_kstack (a_process_table L) 0 (a_idle L) m = (esp, m') →
  kernel_map L m → kernel_map L m' ∧ esp = kstack_top (a_process_table L) 0 - 20 ∧
  frame_ctx m' esp = Cpu 0 0 0 0 (kstack_top (a_process_table L) 0) (a_idle L).
Proof.
  intros HL E [[H1 H2] H3]. destruct HL as [Hpd Hpt Hap Hpr Hppd Hppt _ _ Hidle _ _ _].
  pose proof (initial_frame (a_process_table L) 0 (a_idle L) m) as Hf. rewrite E in Hf.
  destruct Hf as (He & Hc & Hm); [unfold kstack_top, proc_addr, PROCESS_KSTACK_SIZE; lia|done|].
  split; [|done]. unfold kstack_top, proc_addr, PROCESS_KSTACK_SIZE in *. split; [split|]; [| |].
  - intros t i Ht Hi. rewrite <-H1 by done. apply ent_ext. intros b Hb. apply Hm. lia.
  - intros t Ht. rewrite <-H2 by done. apply ent_ext. intros b Hb. apply Hm. lia.
  - intros n Hn. rewrite <-(H3 n) by done. apply ent_ext. intros b Hb. apply Hm. lia.
Qed.

(** [process_init] on the zeroed table after [paging_init]. *)
Lemma process_init_ok L (v : vm pmm) :
  linked L → kernel_map L (v_mem v) →
  ∃ ks p, process_init (a_process_table L) (a_idle L) (Kst v (replicate 16 zero_process) None 0 589824) = Some ks ∧
    (kinv ks ∧ k_current ks = None ∧ k_next_pid ks = 1 ∧ k_esp0 ks = 589824 ∧
     state_of (k_table ks) 0 = Some PROC_READY) ∧
    v_fa (k_vm ks) = v_fa v ∧ v_cr3 (k_vm ks) = v_cr3 v ∧ v_cr0 (k_vm ks) = v_cr0 v ∧
    kernel_map L (k_mem ks) ∧ aget (k_table ks) 0 = Some p ∧
    frame_ctx (k_mem ks) (p_esp p) = Cpu 0 0 0 0 (kstack_top (a_process_table L) 0) (a_idle L) ∧
    ∀ j q, aget (k_table ks) j = Some q →
      p_pd_phys q = 0 ∧ p_esp q = (if decide (j = 0) then kstack_top (a_process_table L) 0 - 20 else 0) ∧
      (p_state q ≠ PROC_UNUSED → 0 ∈ p_name q).
Proof.
  intros HL Hid.
  destruct (process_init_kinv (a_process_table L) (a_idle L) (Kst v (replicate 16 zero_process) None 0 589824))
    as (ks & E & Hk & Hn & Hc & Hst & Hb); [done|by apply Forall_replicate|done|].
  destruct (build_initial_kstack _ _ _ _) as [esp m] eqn:Eb. destruct Hb as (Hvm & Hesp & H0 & Hsl).
  destruct (idle_stack_identity L _ m esp HL Eb Hid) as (Hid' & Ht & Hf).
  destruct (aget (k_table ks) 0) as [p|] eqn:Hp; [|done]. injection Hesp as Hesp.
  assert (k_mem ks = m) as Hm by (unfold k_mem; by rewrite Hvm).
  exists ks, p. split; [done|]. split; [done|]. rewrite Hm, Hvm. split; [done|]. split; [done|]. split; [done|].
  split; [done|]. split; [done|]. split; [by rewrite Hesp|]. intros j q Hq. specialize (Hsl j q Hq).
  destruct Hsl as (-> & Hsl & Hnul). split; [done|]. split; [|exact Hnul]. destruct (decide (j = 0)); [by rewrite Hsl|].
  apply fmap_Some in Hsl as (r & Hr & ->). cbn [k_table] in Hr. unfold aget in Hr. case_decide; [|done].
  apply lookup_replicate in Hr as [-> _]. done.
Qed.

Lemma kernel_main_lemma L fuel mmap k :
  linked L → mmap_ok mmap → machine_ok fuel k →
  ∃ k', kernel_main L fuel mmap (kernel_entry k) = Some k' ∧ booted L mmap k k'.
Proof.
  intros HL Hmm [C1 C2 C3 C4 C5 C6]. unfold kernel_main, kernel_entry.
  destruct (pmm_init_usable mmap Hmm) as (fr & Hfr & Hwf & Hus).
  destruct (idt_gates (a_idt L) (a_isr L) (a_irq L) (a_syscall L)) as (i1 & i2 & Hi1 & Hi2 & G1 & G2 & G3 & G4);
    [apply HL..|].
  match goal with |- context [boot_console (Kernel (Sys ?ks ?vg ?kb ?tk ?tb ?p ?r ?pi ?fd ?f ?h) ?ts ?g ?gp ?sg ?tr ?i ?ip ?t ?u ?b)] =>
    destruct (boot_console_ok ks vg kb tk tb p r pi fd f h ts g gp sg tr i ip t u b C1) as (v1 & -> & Hv1) end.
  cbn [mbind option_bind].
  edestruct (boot_heap_ok L fuel) as (v2 & u' & -> & Hv2 & Hu & Hsent); [exact Hv1|exact C2|exact C3|exact C4|].
  cbn [mbind option_bind]. edestruct (boot_tables_ok L) as (v3 & g' & -> & Hv3 & Hg);
    [exact Hv2|apply HL|exact Hi1|]. cbn [mbind option_bind].
  edestruct (boot_irqs_ok) as (v4 & tb' & p' & t' & -> & Hv4 & (T1 & _ & T2) & Htb & Hp & Hm);
    [exact Hv3|done|done|]. cbn [mbind option_bind].
  edestruct (boot_memory_ok L mmap) as (v5 & vm' & -> & Hv5 & Hvm); [exact Hv4|exact Hfr|]. cbn [mbind option_bind].
  assert (kernel_map L (v_mem vm')) as Hid.
  { rewrite Hvm. match goal with |- context [paging_init _ _ ?v] =>
      destruct (paging_init_entries _ _ (li_pd L HL) (li_pt L HL) (li_apart L HL) v) as (I1 & I2 & I3) end. by split; [split|]. }
  destruct (process_init_ok L vm' HL Hid) as (ks & p0 & Hks & Hpr & Hfa & Hcr3 & Hcr0 & Hid' & Hp0 & Hidle & Hslots).
  edestruct (boot_services_ok L) as (v6 & -> & Hv6); [exact Hv5|exact Hi2|exact Hks|]. cbn [mbind option_bind].
  edestruct (boot_disk_ok) as (v7 & f' & -> & Hv7 & Hfb & Hdk); [exact Hv6|by constructor|]. knorm.
  kreport Hv7 v8. kreport Hv7 v9. eexists. split; [reflexivity|].
  constructor; cbn [n_sys y_k y_vga y_kb y_ticks y_irq y_pic y_rtc y_pipes y_fd y_fs y_heap n_tss n_gdt n_gdtr
       n_segs n_tr n_idt n_idtr n_pit n_uart n_iflag].
  - reflexivity.
  - exact Hv7.
  - exact (conj Hu Hsent).
  - apply kmem_init_repr; apply HL.
  - exact (conj Hg (conj eq_refl (conj eq_refl (conj eq_refl (conj eq_refl (conj eq_refl (conj G1 (conj G2 (conj G3 G4))))))))).
  - exact (conj Hp Hm).
  - exact (handlers_eq _ Htb).
  - exact (conj eq_refl (conj T1 T2)).
  - split; [constructor; [apply length_replicate|simpl; lia..]|done].
  - reflexivity.
  - change (y_vm _) with (k_vm ks). rewrite Hfa, Hvm. exact (conj Hwf Hus).
  - change (y_vm _) with (k_vm ks). rewrite Hfa, Hvm. exact (pmm_init_total mmap fr Hfr).
  - change (y_vm _) with (k_vm ks). rewrite Hcr3, Hcr0. rewrite Hvm. split; [reflexivity|]. split; [|exact Hid'].
    cbn [paging_init v_cr0]. rewrite Z.lor_spec. apply orb_true_r.
  - exact Hpr.
  - exact Hslots.
  - exact (ex_intro _ p0 (conj Hp0 Hidle)).
  - split; [reflexivity|apply pipe_init_wf].
  - reflexivity.
  - split; [exact Hfb|]. split; [exact Hdk|]. intros Hd. apply fd_wf_init. split; [exact Hfb|].
    change (bd_sectors (f_dev f')) with (i_disk (f_dev f')). by rewrite Hdk.
Qed.

(** C14: start-up.  On a kernel linked below 1 MB with its tables apart ([linked]),
    with a memory map that is empty or lists at most 32 regions that do not overlap
    ([mmap_ok]), and on a machine with a text screen, a UART out of reset that gets
    ready within [fuel] polls and an idle primary disk of at least 138 sectors
    ([machine_ok]), whatever the kernel's variables and the other devices held,
    [kernel_entry] and [kernel_main] reach the shell, and there the invariants of all
    components hold:
    segments, gates and task state as [Desc] specifies them; the heap one free block;
    exactly the usable frames above 1 MB free; the first 8 MB mapped to themselves and
    paging on; only the lines of timer and keyboard unmasked and only their handlers
    registered; the timer at 100 Hz; an empty keyboard queue; the idle process ready to
    start in its function and no process running; all pipes and descriptors closed;
    the disk as it was, and its file system usable if it holds one; a well-formed
    screen, the greeting sent on the serial line, and interrupts on. *)
Theorem kernel_main_boots L fuel mmap k :
  linked L → mmap_ok mmap → machine_ok fuel k →
  ∃ k', kernel_main L fuel mmap (kernel_entry k) = Some k' ∧ booted L mmap k k'.
Proof. apply kernel_main_lemma. Qed.

(** A machine with a map like QEMU's for 32 MB, and an empty disk. *)
Definition demo_addresses : addresses :=
  Addresses 65536 69632 131072 524288 16384 20480 24576 4096 (λ i, u32 (8192 + 16 * i)) (λ i, u32 (12288 + 16 * i)) 16000.

Definition demo_machine : kernel ide pics cmos pit uart :=
  Kernel (Sys (Kst (Vm ∅ (Pmm [] 0 0) 0 0) [] None 0 0) (Vga (replicate 2000 0) 3 3 3 0 0) (Kb [] 0 0 0 0) 9 []
      (Pics (Chip 0 0 0 0 []) (Chip 0 0 0 0 [])) (Cmos 0 0 2 (RtcTime 2024 1 1 0 0 0)) [] [] (Fs demo_ide [] []) (Kmem ∅ 7))
    (Tss 0 0 0) [] (DescPtr 0 0) (Segs 0 0 0 0 0 0) 0 [] (DescPtr 0 0) (Pit 0 None 0)
    (Uart 0 0 0 0 0 2 [4%nat; 1%nat] []) false.

Lemma demo_mmap_disjoint : e820_disjoint (mm_entries demo_mmap) (mm_count demo_mmap).
Proof.
  intros i j a b Hi Hj Ha Hb f Ca Cb. change (mm_count demo_mmap) with 3 in Hj.
  assert (j = 1 ∨ j = 2) as [-> | ->] by lia.
  - injection Hb as <-. by destruct Cb as [? _].
  - injection Hb as <-. assert (i = 0 ∨ i = 1) as [-> | ->] by lia; injection Ha as <-.
    + destruct Ca as (_ & _ & Ca), Cb as (_ & Cb & _). cbn [e_base e_length] in *. unfold PMM_PAGE_SIZE in *. lia.
    + by destruct Ca as [? _].
Qed.

Lemma demo_linked : linked demo_addresses.
Proof.
  constructor; cbn [demo_addresses a_page_directory a_page_tables a_process_table a_heap a_tss a_idle a_isr a_irq a_syscall];
    unfold HEAP_SIZE, is_u32; try lia; try (split; [reflexivity|lia]); intros; apply u32_range.
Qed.

Lemma kernel_main_boots_witness :
  ∃ k', kernel_main demo_addresses 5 demo_mmap (kernel_entry demo_machine) = Some k' ∧
    booted demo_addresses demo_mmap demo_machine k'.
Proof.
  apply (kernel_main_boots demo_addresses 5 demo_mmap demo_machine).
  - exact demo_linked.
  - constructor; [simpl; lia|reflexivity| |exact demo_mmap_disjoint]. apply Forall_take.
    repeat constructor; unfold e820_ok, is_u64; simpl; lia.
  - constructor; [reflexivity|reflexivity|simpl; lia|split; [simpl; lia|repeat constructor; lia]|exact demo_ide_inv|].
    change (f_dev (y_fs (n_sys demo_machine))) with demo_ide. unfold demo_ide. cbn [i_disk]. rewrite length_replicate. lia.
Defined.
