(* ===== verification/Start.v ===== *)
(** * From start-up to running programs

    The shell runs on the boot stack, outside the process table, until its first
    [process_yield].  [shell_ok] is the invariant of that time; [Kernel] establishes it.
    [exec] of the first program turns it into the invariant of [Safety], which every
    run of [Runs] keeps. *)

From Stdlib Require Import String.
From S2P Require Import Prelude Mem CString Kmem Pmm Paging Process Pipe Keyboard Vga Console Ports.
From S2P Require Import Desc Pic Rtc Timer Serial Ata Fs Fd Elf UserMem Spaces Coroutines System Irqs Syscalls Safety Runs.
From S2P Require Import Line Shell ShellSpec Exec Kernel.

Section start.
Context (process_table page_directory page_tables user_mode_enter run_buf : Z) (rtc_fuel : nat).
Context {D : Type} `{!BlockDevice D}.
Implicit Types (s : sys D pics cmos) (G : Z → cpu).

Abbreviation placed := (placed process_table page_directory page_tables).
Abbreviation sys_ok := (sys_ok process_table page_directory page_tables rtc_fuel).
Abbreviation kstack_top := (kstack_top process_table).
Abbreviation in_kstack := (in_kstack process_table).

(** No process runs, and none has an address space; contexts are recorded for those
    that wait. *)
Record shell_ok G s : Prop := ShellOk {
  sl_pre : procs_pre process_table page_directory page_tables G (y_k s);
  sl_cur : k_current (y_k s) = None;
  sl_none j pd : ¬ space_of (y_k s) j pd;
  sl_only : kernel_only page_directory (y_mem s);
  sl_vga : vga_wf (y_vga s);
  sl_kb : kb_wf (y_kb s);
  sl_ext : extended_code (y_kb s) = 0 ∨ extended_code (y_kb s) = 1;
  sl_irq : length (y_irq s) = 16%nat;
  sl_pipes : pipes_wf (y_pipes s);
  sl_fd : fd_wf (y_fd s) (y_fs s);
  sl_rtc : (cm_busy (y_rtc s) < rtc_fuel)%nat
}.

(** The buffer of [exec] is apart from tables and stacks. *)
Definition buf_apart : Prop :=
  layout page_directory page_tables run_buf ∧
  (run_buf + RUN_BUF_SIZE ≤ process_table ∨ process_table + 16 * 8252 ≤ run_buf).

(** The first context of a user process. *)
Definition first_ctx (i : Z) : cpu := Cpu 0 0 0 0 (kstack_top i) user_mode_enter.

Section first.
Context (Hpl : placed) (Hbuf : buf_apart) (G : Z → cpu) (s s' : sys D pics cmos) (i pd : Z) (p : process) (m1 : mem).
Context (Hs : shell_ok G s) (Hi : 0 ≤ i < 16).
Context (Hslot : aget (k_table (y_k s')) i = Some p) (Hpd : p_pd_phys p = pd) (Hesp : p_esp p = kstack_top i - 20).
Context (Hoth : ∀ j, j ≠ i → aget (k_table (y_k s')) j = aget (k_table (y_k s)) j).
Context (Hctx : frame_ctx (y_mem s') (kstack_top i - 20) = first_ctx i).
Context (Hprog : program_in page_tables run_buf m1 (y_vm s') pd).
Context (Hlow : ∀ b, b < 1048576 → b < run_buf ∨ run_buf + RUN_BUF_SIZE ≤ b → b < kstack_top i - 20 ∨ kstack_top i ≤ b →
  load8 (y_mem s') b = load8 (y_mem s) b).

Lemma first_space j pd' : space_of (y_k s') j pd' → j = i ∧ pd' = pd.
Proof using Hs Hslot Hpd Hoth.
  intros (q & Hq & E & Hz). destruct (decide (j = i)) as [->|Hj].
  - rewrite Hslot in Hq. injection Hq as <-. split; [done|]. by rewrite <-E, <-Hpd.
  - rewrite Hoth in Hq by done. destruct (sl_none _ _ Hs j pd'). by exists q.
Qed.

Lemma first_low b : b < 1048576 → paging_byte page_directory page_tables b → load8 (y_mem s') b = load8 (y_mem s) b.
Proof using Hpl Hbuf Hlow Hi.
  intros Hb Hp. destruct Hbuf as [Hly _]. apply Hlow; [done| |].
  - destruct Hly as [? ? ? ? ?]. unfold paging_byte in Hp. lia.
  - destruct (decide (kstack_top i - 20 ≤ b < kstack_top i)) as [Hin|]; [|lia]. exfalso.
    apply (kstack_low process_table page_directory page_tables i b Hpl Hi); [|done].
    unfold Coroutines.in_kstack, Process.kstack_top, PROCESS_KSTACK_SIZE in *. lia.
Qed.

Lemma first_spaces : spaces_ok page_directory page_tables (y_k s').
Proof using All.
  pose proof (pr_spaces _ _ _ _ _ (sl_pre _ _ Hs)) as Hsp. pose proof (pi_wf _ _ _ _ _ Hprog) as Hwf. constructor.
  - exact (wf_fa _ _ Hwf).
  - exact (wf_low _ _ Hwf).
  - apply (identity_same page_tables (y_mem s)); [| |exact (sp_kernel _ _ _ Hsp)]; intros b Hb;
      apply first_low; destruct Hpl as [[A1 ?] [A2 ?] _ _ _]; unfold paging_byte, aligned in *; try zdm; lia.
  - intros j pd' [-> ->]%first_space. exact Hwf.
  - intros j pd' [-> ->]%first_space. exact (pi_kernel _ _ _ _ _ Hprog).
  - intros j1 j2 p1 p2 n1 n2 q Hne [-> _]%first_space [-> _]%first_space. done.
Qed.

Lemma first_contexts : ctx_ok process_table (record_ctx i (first_ctx i) G) (y_k s').
Proof using All.
  intros j q Hq Hu _. unfold record_ctx. destruct (decide (j = i)) as [->|Hj].
  - rewrite Hslot in Hq. injection Hq as <-. rewrite Hesp. unfold Process.kstack_top, PROCESS_KSTACK_SIZE in *. split; [lia|]. split; [lia|].
    exact Hctx.
  - rewrite Hoth in Hq by done. pose proof (sl_pre _ _ Hs) as [Hk _ _ Hc].
    destruct (Hc j q Hq Hu) as (B1 & B2 & B3); [by rewrite (sl_cur _ _ Hs)|]. split; [done|]. split; [done|]. rewrite <-B3.
    pose proof (aget_Some_lt _ _ _ Hq) as Hlt. rewrite (ki_len _ Hk) in Hlt.
    apply frame_ctx_ext. intros b Hb.
    assert (in_kstack j b) as Hin by (unfold Coroutines.in_kstack; lia).
    destruct (kstack_low process_table page_directory page_tables j b Hpl ltac:(lia) Hin) as [? _]. apply Hlow; [lia| |].
    + destruct Hbuf as [_ Ha]. unfold Coroutines.in_kstack, Process.kstack_top, PROCESS_KSTACK_SIZE, Process.proc_addr in Hin. lia.
    + destruct (decide (kstack_top i - 20 ≤ b < kstack_top i)) as [Hr|]; [|lia]. exfalso.
      apply (kstack_apart process_table j i b); [done|done|].
      unfold Coroutines.in_kstack, Process.kstack_top, PROCESS_KSTACK_SIZE in *. lia.
Qed.
End first.

(** [exec] in the shell, once the process is in the table. *)
Lemma first_started G s nm m1 cx x :
  placed → buf_apart → shell_ok G s → regs_ok cx → own_stack process_table page_directory page_tables cx (y_k s) →
  spawned process_table page_directory page_tables user_mode_enter run_buf nm m1 cx s x →
  let i := k_next_pid (y_k s) in let G' := record_ctx i (first_ctx i) G in
  ∃ c' s' j, x = Switched c' s' ∧ sys_ok G' s' ∧ k_current (y_k s') = Some j ∧ c' = G' j ∧ (∃ pd, space_of (y_k s') i pd) ∧
    kernel_only page_directory (y_mem s').
Proof.
  intros Hpl Hbuf Hs Hrg Hown (s1 & pd & nb & c' & k' & Hi & -> & Hy & Hk1 & Hnb & Hp & Hoth & Hfr & Hprog & Hcu & He1 & Hv1 & Hrest & Hlow) i G'.
  destruct Hrest as (R1 & R2 & R3 & R4 & R5 & R6 & R7). pose proof (ki_pid _ (pr_kinv _ _ _ _ _ (sl_pre _ _ Hs))) as Hpid.
  rewrite (sl_cur _ _ Hs) in Hcu.
  assert (procs_pre process_table page_directory page_tables G' (y_k s1)) as Hpre.
  { constructor; [exact Hk1| |exact He1|].
    - by eapply (first_spaces Hpl Hbuf G s s1 i pd _ m1 Hs ltac:(lia) Hp).
    - by eapply (first_contexts Hpl Hbuf G s s1 i pd _ m1 Hs ltac:(lia) Hp). }
  destruct (procs_yield process_table page_directory page_tables G' (y_k s1) cx Hpl Hpre Hrg) as (j & c2 & k2 & E & Hj & Hok & Hc2 & Hsp & _ & Hmem).
  { destruct Hown as (O1 & O2 & O3). split; [done|]. split; [done|]. intros j b Hjr Hb _. apply O3; [done|done|by rewrite (sl_cur _ _ Hs)]. }
  { intros i'. by rewrite Hcu. }
  rewrite Hy in E. injection E as <- <-. unfold yield_ctx in Hok, Hc2. rewrite Hcu in Hok, Hc2.
  exists c', (set_k k' s1), j. split; [done|]. split; [|split; [done|split; [done|split]]].
  - destruct Hs as [_ _ _ _ S1 S2 S3 S4 S5 S6].
    constructor; cbn [y_k y_vga y_kb y_irq y_pipes y_fd y_fs y_rtc set_k]; rewrite ?R1, ?R2, ?R3, ?R4, ?R5; try done.
    by apply (fd_same_disk (y_fd s) (y_fs s)).
  - exists pd. apply Hsp. eexists. split; [exact Hp|]. split; [done|]. destruct (wf_pd _ _ (pi_wf _ _ _ _ _ Hprog)). lia.
  - intros n Hn. rewrite <-(sl_only _ _ Hs n Hn). pose proof Hpl as [[P1 P2] _ _ _ _]. unfold aligned in P1.
    apply ent_ext. intros b Hb. assert (paging_byte page_directory page_tables b) as Hpb by (right; left; lia).
    etrans; [apply Hmem|eapply (first_low Hpl Hbuf s s1 i); [lia|exact Hlow|zdm|exact Hpb]].
    destruct (decide (r_esp cx - 20 ≤ b < r_esp cx)) as [Hin|]; [|lia]. destruct Hown as (_ & Hown & _). by destruct (Hown b Hin).
Qed.

End start.

(** ** Start-up *)

Section boot.
Context (L : addresses) (rtc_fuel : nat).
Abbreviation shell_ok := (shell_ok (a_process_table L) (a_page_directory L) (a_page_tables L) rtc_fuel).

(** The first context of the idle process. *)
Definition idle_ctx : Z → cpu := λ _, Cpu 0 0 0 0 (kstack_top (a_process_table L) 0) (a_idle L).

(** All usable memory is in the first 8 MB, which the kernel maps. *)
Definition mmap_low (mmap : boot_mmap) : Prop := ∀ f, frame_ok f → usable mmap f → f < 2048.

Lemma booted_low mmap k0 k : booted L mmap k0 k → mmap_low mmap → fa_low (y_vm (n_sys k)).
Proof.
  intros Hb Hl q (Hq & Hr & Hu). destruct (bo_frames _ _ _ _ Hb) as [_ Hf].
  assert (frame_ok (q `div` 4096)) as Hok by (unfold frame_ok, PMM_TOTAL_FRAMES; zdm).
  apply Hf in Hu; [|exact Hok]. pose proof (Hl _ Hok Hu). zdm.
Qed.

(** No address space, and the idle process ready to start. *)
Lemma booted_none mmap k0 k j pd : booted L mmap k0 k → ¬ space_of (y_k (n_sys k)) j pd.
Proof. intros Hb (p & Hp & <- & Hz). apply Hz. by apply (bo_slots _ _ _ _ Hb j p Hp). Qed.

Lemma booted_procs mmap k0 k :
  placed (a_process_table L) (a_page_directory L) (a_page_tables L) → booted L mmap k0 k → fa_low (y_vm (n_sys k)) →
  procs_pre (a_process_table L) (a_page_directory L) (a_page_tables L) idle_ctx (y_k (n_sys k)).
Proof.
  intros Hpl Hb Hlow.
  destruct (bo_processes _ _ _ _ Hb) as (Hk & Hc & Hn & _ & _). pose proof (bo_slots _ _ _ _ Hb) as Hsl.
  destruct (bo_paging _ _ _ _ Hb) as (_ & _ & Hid & Hon).
  assert (∀ j pd, ¬ space_of (y_k (n_sys k)) j pd) as Hnone by (intros j pd; by apply (booted_none mmap k0)).
  constructor.
  - exact Hk.
  - constructor; [apply (bo_frames _ _ _ _ Hb)|exact Hlow|exact Hid|..];
      intros; exfalso; by eapply Hnone.
  - intros j p Hp. destruct (Hsl j p Hp) as (_ & -> & _). destruct Hpl as [_ _ Ht _ _].
    unfold kstack_top, proc_addr, PROCESS_KSTACK_SIZE. case_decide; lia.
  - intros j p Hp Hu _. destruct (ki_slot _ Hk j p Hp) as (_ & Hiff & _). rewrite Hn in Hiff.
    pose proof (aget_Some_lt _ _ _ Hp). assert (j = 0) as -> by (destruct (decide (1 ≤ j)); [by destruct Hu; apply Hiff|lia]).
    destruct (Hsl 0 p Hp) as (_ & Ee & _). rewrite decide_True in Ee by done. destruct (bo_idle _ _ _ _ Hb) as (q & Hq & Hf).
    rewrite Hp in Hq. injection Hq as <-. rewrite Ee in Hf |- *. split; [unfold kstack_top, PROCESS_KSTACK_SIZE; lia|]. split; [lia|exact Hf].
Qed.

Lemma booted_shell_ok mmap k0 k :
  placed (a_process_table L) (a_page_directory L) (a_page_tables L) → booted L mmap k0 k → mmap_low mmap →
  disk_wf (i_disk (f_dev (y_fs (n_sys k0)))) → (cm_busy (y_rtc (n_sys k0)) < rtc_fuel)%nat →
  shell_ok idle_ctx (n_sys k).
Proof.
  intros Hpl Hb Hm Hd Hr. pose proof (booted_procs mmap k0 k Hpl Hb (booted_low mmap k0 k Hb Hm)) as Hpre.
  assert (∀ j pd, ¬ space_of (y_k (n_sys k)) j pd) as Hnone by (intros j pd; by apply (booted_none mmap k0)).
  destruct (bo_keyboard _ _ _ _ Hb) as (K1 & _ & K2), (bo_paging _ _ _ _ Hb) as (_ & _ & _ & Hon).
  constructor; [exact Hpre|apply (bo_processes _ _ _ _ Hb)|exact Hnone|exact Hon| | | | | | |].
  - apply Hb.
  - done.
  - by left.
  - by rewrite (bo_handlers _ _ _ _ Hb).
  - apply (bo_pipes _ _ _ _ Hb).
  - by apply (bo_files _ _ _ _ Hb).
  - by rewrite (bo_clock _ _ _ _ Hb).
Qed.

(** C7: start-up establishes the invariant of the shell.  On a machine whose usable
    memory is all in the first 8 MB ([mmap_low]; not so on one with 32 MB, where [kernel_main_boots]
    still applies), with a memory map whose regions do not overlap ([mmap_ok]), a
    formatted disk with an intact directory ([disk_wf]), a UART and a clock that answer
    ([machine_ok]), and the kernel linked below 1 MB ([linked], [placed]), whatever the
    variables and the other devices held, [kernel_entry] and [kernel_main] reach the shell
    in a state
    with [shell_ok]: from there [first_program_runs] applies, and after it the theorems
    on system calls and runs. *)
Theorem start_up_invariant serial_fuel mmap k :
  placed (a_process_table L) (a_page_directory L) (a_page_tables L) → linked L → mmap_ok mmap → mmap_low mmap →
  machine_ok serial_fuel k → disk_wf (i_disk (f_dev (y_fs (n_sys k)))) → (cm_busy (y_rtc (n_sys k)) < rtc_fuel)%nat →
  ∃ k', kernel_main L serial_fuel mmap (kernel_entry k) = Some k' ∧ shell_ok idle_ctx (n_sys k').
Proof.
  intros Hpl HL Hm Hlow Hk Hd Hr. destruct (kernel_main_lemma L serial_fuel mmap k HL Hm Hk) as (k' & E & Hb).
  exists k'. split; [done|]. by apply (booted_shell_ok mmap k).
Qed.
End boot.

(** ** A concrete machine *)

(** The idle process and no other; the shell runs on the boot stack. *)
Definition shell_table : list process :=
  Process (kstack_top 262144 0 - 20) 0 PROC_READY 1 0 0 0 (replicate 32 0) :: replicate 15 zero_process.
Definition shell_sys (v : vm pmm) (f : fs ide) : sys ide pics cmos :=
  Sys (Kst v shell_table None 1 0) demo_vga demo_kb 4 (replicate 16 None) demo_pics (Cmos 0 3 2 demo_time) pipe_init fd_init f demo_init.
Definition shell_cpu : cpu := Cpu 0 0 0 0 (589824 - 100) 0.

Lemma shell_placed : placed 262144 65536 69632 ∧ buf_apart 262144 65536 69632 131072.
Proof.
  split; [constructor; try (split; [reflexivity|lia]); lia|]. split; [|left; unfold RUN_BUF_SIZE; lia].
  constructor; [exact demo_kd|exact demo_kt|unfold RUN_BUF_SIZE; lia|left; lia|left; lia].
Qed.

Lemma shell_example (v : vm pmm) f :
  fa_inv (v_fa v) → fa_low v → identity_map (v_mem v) 65536 69632 → kernel_only 65536 (v_mem v) → fs_wf f →
  shell_ok 262144 65536 69632 4 (λ _, frame_ctx (v_mem v) (kstack_top 262144 0 - 20)) (shell_sys v f).
Proof.
  intros Hi Hl Hid Hon Hf. destruct (kinv_check_sound (y_k (shell_sys v f)) ltac:(vm_compute; reflexivity)) as [Hk He].
  assert (∀ j p, aget shell_table j = Some p → p_pd_phys p = 0 ∧ (p_state p ≠ PROC_UNUSED → j = 0)) as Hsl.
  { intros j p Hp. pose proof (aget_Some_lt _ _ _ Hp) as [H0 _]. destruct (decide (j = 0)) as [->|Hj]; [by injection Hp as <-|].
    unfold aget, shell_table in Hp. rewrite decide_True in Hp by lia. replace (Z.to_nat j) with (S (Z.to_nat (j - 1))) in Hp by lia.
    cbn [lookup list_lookup] in Hp. apply lookup_replicate in Hp as [-> _]. done. }
  assert (∀ j pd, ¬ space_of (y_k (shell_sys v f)) j pd) as Hno by (intros j pd (p & Hp & <- & Hz); by apply Hz, (Hsl j p Hp)).
  constructor; [constructor; [exact Hk| |exact He|]|reflexivity|exact Hno|exact Hon|exact demo_vga_wf|exact demo_kb_wf|by left|reflexivity
    |exact pipe_init_wf|by apply fd_wf_init|simpl; lia].
  - constructor; [exact Hi|exact Hl|exact Hid|..]; intros; exfalso; by eapply Hno.
  - intros j p Hp Hu _. destruct (Hsl j p Hp) as [_ Hj]. rewrite (Hj Hu) in *. injection Hp as <-. cbn [p_esp].
    unfold kstack_top, proc_addr, PROCESS_KSTACK_SIZE. split; [lia|]. split; [lia|done].
Qed.

Lemma shell_own v f : own_stack 262144 65536 69632 shell_cpu (y_k (shell_sys v f)) ∧ regs_ok shell_cpu.
Proof.
  split; [|unfold regs_ok, is_u32; simpl; lia]. unfold shell_cpu. cbn [r_esp]. split; [cbn [r_esp]; lia|]. cbn [r_esp]. split.
  - intros b Hb. unfold paging_byte. lia.
  - intros j b Hj Hb _. unfold in_kstack, kstack_top, proc_addr, PROCESS_KSTACK_SIZE. lia.
Qed.

Lemma demo_elf_identity : identity_map (v_mem demo_elf_vm) 65536 69632 ∧ kernel_only 65536 (v_mem demo_elf_vm).
Proof.
  destruct (paging_init_entries 65536 69632 demo_kd demo_kt ltac:(lia) (Vm demo_elf_mem small_pmm 0 0)) as (I1 & I2 & I3).
  by split; [split|].
Qed.

Lemma demo_stack_apart : stack_apart 131072 (v_mem demo_elf_vm).
Proof.
  intros i virt Hi _ Hv.
  assert (e_phnum (v_mem demo_elf_vm) 131072 = 1) as En by (vm_compute; reflexivity). rewrite En in Hi.
  assert (i = 0) as -> by lia.
  assert (seg_end (v_mem demo_elf_vm) (phdr (v_mem demo_elf_vm) 131072 0) = 16781312) as Ee by (vm_compute; reflexivity).
  unfold in_seg in Hv. rewrite Ee in Hv. unfold stack_base, USER_STACK_TOP, USER_STACK_PAGES. lia.
Qed.


(** 8 MB of memory, and a formatted disk. *)
Definition low_mmap : boot_mmap :=
  BootMmap 2 ([E820 0 654336 1; E820 1048576 7340032 1] ++ replicate 30 (E820 0 0 0)).
Definition boot_machine (f : fs ide) : kernel ide pics cmos pit uart :=
  let s := n_sys demo_machine in
  Kernel (set_fs f s) (Tss 0 0 0) [] (DescPtr 0 0) (Segs 0 0 0 0 0 0) 0 [] (DescPtr 0 0) (Pit 0 None 0)
    (Uart 0 0 0 0 0 2 [4%nat; 1%nat] []) false.

Lemma low_mmap_ok : mmap_ok low_mmap ∧ mmap_low low_mmap.
Proof.
  assert (∀ i e, 0 ≤ i < 2 → aget (mm_entries low_mmap) i = Some e → e = E820 0 654336 1 ∨ e = E820 1048576 7340032 1) as He.
  { intros i e Hi. assert (i = 0 ∨ i = 1) as [-> | ->] by lia; intros [= <-]; auto. }
  split; [constructor; [simpl; lia|reflexivity|apply Forall_take; repeat constructor; unfold e820_ok, is_u64; simpl; lia|]|].
  - intros i j a b Hi Hj Ha Hb f Ca Cb. change (mm_count low_mmap) with 2 in Hj. assert (i = 0 ∧ j = 1) as [-> ->] by lia.
    injection Ha as <-. injection Hb as <-. destruct Ca as (_ & _ & Ca), Cb as (_ & Cb & _). simpl in *. unfold PMM_PAGE_SIZE in *. lia.
  - intros f _ (_ & [Hz|(i & e & Hi & Ha & _ & _ & Hc)]); [by vm_compute in Hz|]. destruct (He i e Hi Ha) as [-> | ->]; simpl in Hc; unfold PMM_PAGE_SIZE in Hc; lia.
Qed.

Lemma start_up_invariant_witness :
  ∃ f k', kernel_main demo_addresses 5 low_mmap (kernel_entry (boot_machine f)) = Some k' ∧
    shell_ok 131072 65536 69632 4 (idle_ctx demo_addresses) (n_sys k').
Proof.
  destruct demo_formatted as (f & Hf & _). exists f.
  apply (start_up_invariant demo_addresses 4 5 low_mmap (boot_machine f)).
  - exact run_placed.
  - exact demo_linked.
  - exact (proj1 low_mmap_ok).
  - exact (proj2 low_mmap_ok).
  - constructor; [reflexivity|reflexivity|simpl; lia|split; [simpl; lia|repeat constructor; lia]|apply Hf|apply Hf].
  - apply Hf.
  - simpl. lia.
Defined.
