(* ===== verification/ShellSafe.v ===== *)
(** * Safety of the shell

    What the commands of [Shell] that start no program answer, whatever is typed: from
    the invariant [shell_inv] every such line is executed to its end, prints the text and
    has the effect that [reply] specifies, and leaves the
    invariant.  [Line] and [ShellSpec] lift this to the loop of [shell_run] on an
    arbitrary stream of characters, and [Kernel] to a machine that has just started. *)

From Stdlib Require Import String.
From stdpp Require Import gmap.
From S2P Require Import Prelude Mem CString Kmem Pmm Paging Process Pipe Keyboard Vga Console Ports.
From S2P Require Import Desc Pic Rtc Timer Serial Ata Fs Fd Elf UserMem Spaces Coroutines System Irqs Syscalls Safety Runs.
From S2P Require Import Line Shell ShellSpec Exec Kernel Start.

(** The file system code accepts the disk only if its contents are in order. *)
Definition recognised (dk : list (list Z)) : Prop :=
  ∃ sb, dk !! 129%nat = Some sb ∧ take 8 sb = FS_MAGIC ∧ get32 sb 8 = Some FS_VERSION.

#[export] Instance recognised_dec dk : Decision (recognised dk).
Proof.
  refine (match dk !! 129%nat as o return dk !! 129%nat = o → _ with
          | Some sb => λ E, if decide (take 8 sb = FS_MAGIC ∧ get32 sb 8 = Some FS_VERSION) then left _ else right _
          | None => λ E, right _
          end eq_refl).
  - by exists sb.
  - intros (sb' & E' & H). rewrite E in E'. injection E' as <-. done.
  - intros (sb' & E' & H). by rewrite E in E'.
Defined.

Lemma wf_recognised dk : disk_wf dk → recognised dk.
Proof. intros [_ _ _ (sb & ? & ? & ? & _)]. by exists sb. Qed.

Section fs.
Context {D : Type} `{!BlockDevice D}.
Implicit Types (f : fs D).

Record fs_sound f : Prop := FsSound {
  fd_base : fs_base f;
  fd_small : Z.of_nat (length (bd_sectors (f_dev f))) < 268435456;
  fd_rec : recognised (bd_sectors (f_dev f)) → disk_wf (bd_sectors (f_dev f))
}.

Lemma fs_wf_sound f : fs_wf f → Z.of_nat (length (bd_sectors (f_dev f))) < 268435456 → fs_sound f.
Proof. intros [Hb Hk] Hl. by constructor. Qed.

Lemma fs_init_sound f :
  fs_sound f → ∃ r f', fs_init f = Some (r, f') ∧ fs_sound f' ∧ bd_sectors (f_dev f') = bd_sectors (f_dev f) ∧
    (r = 0 ∧ ¬ recognised (bd_sectors (f_dev f)) ∨ r ≠ 0 ∧ recognised (bd_sectors (f_dev f)) ∧ fs_wf f').
Proof.
  intros [Hb Hl Hr]. unfold fs_init. destruct (read_super_ok f Hb) as (sb & d1 & Hsb & [Hsl Hu] & -> & Hb1 & Hd1).
  cbn [mbind option_bind]. rewrite decide_False by (intros X; by apply X).
  destruct (memcmp_eq_0 sb FS_MAGIC 8) as (r & -> & Hm); [lia|done|]. cbn [mbind option_bind].
  destruct (get32_Some sb 8) as [v Hv]; [lia|lia|]. rewrite Hv. cbn [mbind option_bind].
  eexists _, _. split; [reflexivity|]. cbn [f_dev with_dev]. split; [|split; [done|]].
  { constructor; cbn [f_dev with_dev]; rewrite ?Hd1; done. }
  destruct (decide (r = 0 ∧ v = FS_VERSION)) as [[H0 ->]|Hn].
  - right. assert (recognised (bd_sectors (f_dev f))) as Hrec by (exists sb; split; [done|]; split; [by apply Hm|done]).
    split; [by rewrite bool_decide_true|]. split; [done|]. split; [done|]. cbn [f_dev with_dev]. rewrite Hd1. by apply Hr.
  - left. split; [by rewrite bool_decide_false|]. intros (sb' & E & H1 & H2). rewrite Hsb in E. injection E as <-.
    rewrite Hv in H2. injection H2 as ->. apply Hn. split; [by apply Hm|done].
Qed.
End fs.

Section safe.
Context (process_table page_directory page_tables user_mode_enter run_buf heap : Z) (rtc_fuel : nat).
Context (Hheap : 4096 ≤ heap).
Context {D : Type} `{!BlockDevice D}.
Implicit Types (s : sys D pics cmos) (G : Z → cpu).

(** [shell_ok] without the assumption that the disk has been formatted, and, unless a
    program is to be started, that the free frames are below 8 MB; and with what
    the commands print in range. *)
Record shell_inv G s : Prop := ShellInv {
  iv_kinv : kinv (y_k s);
  iv_frames : pmm_wf (v_fa (y_vm s));
  iv_pre : fa_low (y_vm s) → procs_pre process_table page_directory page_tables G (y_k s);
  iv_cur : k_current (y_k s) = None;
  iv_none j pd : ¬ space_of (y_k s) j pd;
  iv_only : kernel_only page_directory (y_mem s);
  iv_names j p : aget (k_table (y_k s)) j = Some p → p_state p ≠ PROC_UNUSED → 0 ∈ p_name p;
  iv_total : is_u32 (pmm_total (v_fa (y_vm s)));
  iv_vga : vga_wf (y_vga s);
  iv_kb : kb_wf (y_kb s);
  iv_ext : extended_code (y_kb s) = 0 ∨ extended_code (y_kb s) = 1;
  iv_irq : length (y_irq s) = 16%nat;
  iv_pipes : pipes_wf (y_pipes s);
  iv_fd : y_fd s = fd_init;
  iv_fs : fs_sound (y_fs s);
  iv_rtc : (cm_busy (y_rtc s) < rtc_fuel)%nat;
  iv_ticks : is_u32 (y_ticks s);
  iv_heap : ∃ bs, heap_repr heap (y_heap s) bs
}.

(** On a formatted disk, and with free frames below 8 MB only, it is the invariant of
    [Start]. *)
Lemma shell_inv_ok G s :
  shell_inv G s → recognised (bd_sectors (f_dev (y_fs s))) → fa_low (y_vm s) →
  shell_ok process_table page_directory page_tables rtc_fuel G s.
Proof.
  intros [_ _ H1 H2 H3 H4 _ _ H5 H6 H7 H8 H9 H10 [F1 F2 F3] H11 _ _] Hr Hlow. constructor; try done; [by apply H1|].
  rewrite H10. apply fd_wf_init. split; [done|by apply F3].
Qed.

Lemma inv_vga G v s : shell_inv G s → vga_wf v → shell_inv G (set_vga v s).
Proof. intros [] Hv. by constructor. Qed.

Lemma inv_fs G f s : shell_inv G s → fs_sound f → shell_inv G (set_fs f s).
Proof. intros [] Hf. by constructor. Qed.

Lemma inv_rtc G r s : shell_inv G s → (cm_busy r < rtc_fuel)%nat → shell_inv G (set_rtc r s).
Proof. intros [] Hr. by constructor. Qed.

Lemma inv_ticks G t s : shell_inv G s → is_u32 t → shell_inv G (set_ticks t s).
Proof. intros [] Ht. by constructor. Qed.

(** ** What a command answers *)

Abbreviation disk s := (bd_sectors (f_dev (y_fs s))).

(** The files, if there is a file system. *)
Definition files s : option (gmap (list Z) (list Z)) :=
  if decide (recognised (disk s)) then Some (fs_map (disk s)) else None.

(** Nothing but screen, clock registers and driver buffers differs; and, for commands
    on files, nothing but them. *)
Definition same_but_files s s' : Prop :=
  (y_k s', y_ticks s', y_pipes s', y_heap s') = (y_k s, y_ticks s, y_pipes s, y_heap s).
Definition kept s s' : Prop := same_but_files s s' ∧ disk s' = disk s.

(** Process [i] can be killed by the number [pid]. *)
Definition live s (pid i : Z) (p : process) : Prop :=
  aget (k_table (y_k s)) i = Some p ∧ p_pid p = pid ∧ p_state p ≠ PROC_UNUSED ∧ p_state p ≠ PROC_ZOMBIE.

(** [kill] with a number. *)
Definition kill_reply (pid : Z) s (txt : list Z) s' : Prop :=
  (pid = 0 ∧ txt = c_chars "Usage: kill <pid>\n" ∧ kept s s') ∨
  (pid ≠ 0 ∧ (∃ i p, live s pid i p ∧ ∀ j, aget (k_table (y_k s')) j =
      if decide (i = j) then Some (set_state PROC_ZOMBIE (set_pd_phys 0 p)) else aget (k_table (y_k s)) j) ∧
   txt = c_chars "Process " ++ decimal pid ++ c_chars " terminated.\n" ∧ disk s' = disk s) ∨
  (pid ≠ 0 ∧ (∀ i p, ¬ live s pid i p) ∧ txt = c_chars "No such process: PID " ++ decimal pid ++ [10] ∧ kept s s').

(** A command on the file [nm]: it needs a name and a file system. *)
Definition file_reply (usage no_fs : string) (nm : list Z) s (txt : list Z) s'
    (Q : gmap (list Z) (list Z) → Prop) : Prop :=
  if decide (nm = []) then txt = c_chars usage ∧ kept s s'
  else match files s with
       | None => txt = c_chars no_fs ∧ kept s s'
       | Some m => same_but_files s s' ∧ Q m
       end.

Definition not_found (nm : list Z) : list Z := c_chars "File not found: " ++ nm ++ [10].

Definition cat_reply (nm : list Z) s (txt : list Z) s' : Prop :=
  file_reply "Usage: cat <filename>\n" "No VesperFS found. Run 'mkfs' first.\n" nm s txt s' (λ m,
    disk s' = disk s ∧
    match m !! nm with
    | None => txt = not_found nm
    | Some c => Forall (λ x, x ≠ 0) c → txt = c ++ [10]
    end).

Definition rm_reply (nm : list Z) s (txt : list Z) s' : Prop :=
  file_reply "Usage: rm <filename>\n" "No VesperFS. Run 'mkfs' first.\n" nm s txt s' (λ m,
    files s' = Some (delete nm m) ∧
    match m !! nm with
    | None => txt = not_found nm
    | Some _ => txt = c_chars "Deleted: " ++ nm ++ [10]
    end).

(** [write]: the file is stored if there is room and a slot, and otherwise the failure
    is reported and all files are as before. *)
Definition write_reply (nm t : list Z) s (txt : list Z) s' : Prop :=
  file_reply "Usage: write <filename> <text>\n" "No VesperFS. Run 'mkfs' first.\n" nm s txt s' (λ m,
    (has_space (disk s) (Z.of_nat (length t)) ∧ has_slot (disk s) nm ∧ files s' = Some (<[nm := t]> m) ∧
     txt = c_chars "Written: " ++ nm ++ c_chars " (" ++ decimal (Z.of_nat (length t)) ++ c_chars " bytes)\n") ∨
    (¬ (has_space (disk s) (Z.of_nat (length t)) ∧ has_slot (disk s) nm) ∧ files s' = Some m ∧
     txt = c_chars "Write failed.\n")).

Definition sleep_reply (ms : Z) (wakes : list Z) s (txt : list Z) s' : Prop :=
  if decide (ms = 0) then txt = c_chars "Usage: sleep <milliseconds>\n" ∧ kept s s'
  else txt = c_chars "Sleeping " ++ decimal ms ++ c_chars " ms...\n" ++ c_chars "Done.\n" ∧
       (∃ rest, timer_sleep_ms true ms (y_ticks s) wakes = Awake (y_ticks s') rest) ∧ y_k s' = y_k s ∧ disk s' = disk s.

(** The answer to a command other than [clear], [run] and [exec]: whether the machine
    stops, the text printed, and the state afterwards.  What [help], [version],
    [meminfo], [uptime], [date], [ps], [colortest] and [ls] print is left open; they change nothing. *)
Definition reply (a : action) (wakes : list Z) s (halts : bool) (txt : list Z) s' : Prop :=
  match a with
  | AHalt => halts = true ∧ txt = c_chars "CPU halted. Reset to continue.\n" ∧ kept s s'
  | AReboot => halts = true ∧ txt = c_chars "Rebooting...\n" ∧ kept s s'
  | AEcho x => halts = false ∧ txt = cstr x ++ [10] ∧ kept s s'
  | ANewline => halts = false ∧ txt = [10] ∧ kept s s'
  | AUsage msg => halts = false ∧ txt = c_chars msg ∧ kept s s'
  | AUnknown x => halts = false ∧ kept s s' ∧
      txt = c_chars "Unknown command: " ++ cstr x ++ [10] ++ c_chars "Type 'help' for a list of available commands.\n"
  | AKill x => halts = false ∧ ∃ pid, parse_digits x 0 = Some pid ∧ kill_reply pid s txt s'
  | ASleep x => halts = false ∧ ∃ ms, parse_digits x 0 = Some ms ∧ sleep_reply ms wakes s txt s'
  | AMkfs => halts = false ∧ txt = c_chars "Formatting VesperFS at LBA 129... " ++ c_chars "done.\n" ∧
      files s' = Some ∅ ∧ same_but_files s s'
  | ACat x => halts = false ∧ cat_reply (cstr x) s txt s'
  | ARm x => halts = false ∧ rm_reply (cstr x) s txt s'
  | AWrite x => halts = false ∧ ∃ nm rest, split_name (Z.to_nat FS_NAME_MAX) x = Some (nm, rest) ∧
      write_reply nm (cstr (skip_spaces rest)) s txt s'
  | _ => halts = false ∧ kept s s'
  end.

(** The outcome [o] of a command from [s]: it returns or stops the machine, with the
    invariant, having printed a text as [Q] requires. *)
Definition answered G s (Q : bool → list Z → sys D pics cmos → Prop) (o : option (exit (sys D pics cmos))) : Prop :=
  ∃ (h : bool) s' tr, o = Some (if h then Halted s' else Returned s') ∧ shell_inv G s' ∧
    prints (y_vga s) tr (y_vga s') ∧ Q h (text tr) s'.

Lemma console_inv G ps s :
  shell_inv G s → Forall pr_ok ps →
  ∃ v, console ps s = Some (set_vga v s) ∧ shell_inv G (set_vga v s) ∧
    ∃ tr, prints (y_vga s) tr v ∧ text tr = ps ≫= pr_chars.
Proof.
  intros Hs Hp. destruct (console_spec ps s (iv_vga _ _ Hs) Hp) as (v & E & Hv & _).
  exists v. split; [done|]. split; [apply inv_vga; [done|exact (ps_wf _ _ _ Hv)]|].
  eexists. split; [exact Hv|apply trace_text].
Qed.

Lemma say_answers G ps s Q :
  shell_inv G s → Forall pr_ok ps → (∀ v, Q false (ps ≫= pr_chars) (set_vga v s)) → answered G s Q (say ps s).
Proof.
  intros Hs Hp HQ. unfold say. destruct (console_inv G ps s Hs Hp) as (v & -> & Hv & tr & P & T).
  exists false, (set_vga v s), tr. rewrite T. done.
Qed.

(** After something has been printed. *)
Lemma answered_after G s s1 tr Q o :
  prints (y_vga s) tr (y_vga s1) → answered G s1 (λ h txt s', Q h (text tr ++ txt) s') o → answered G s Q o.
Proof.
  intros P (h & s' & tr' & -> & Hs' & P' & HQ). exists h, s', (tr ++ tr'). split; [done|]. split; [done|].
  split; [by eapply prints_trans|]. unfold text in *. by rewrite fmap_app.
Qed.

Lemma stop_answers G ps s Q :
  shell_inv G s → Forall pr_ok ps → (∀ v, Q true (ps ≫= pr_chars) (set_vga v s)) →
  answered G s Q (s ← console ps s; Some (Halted s)).
Proof.
  intros Hs Hp HQ. destruct (console_inv G ps s Hs Hp) as (v & -> & Hv & tr & P & T).
  exists true, (set_vga v s), tr. rewrite T. done.
Qed.

Ltac said := cbn [mbind list_bind pr_chars app]; rewrite ?app_nil_r; done.

(** ** Files *)

Lemma with_fs_answers G msg k s Q :
  shell_inv G s → bool_decide (0 ∉ c_chars msg) = true →
  (∀ s', ¬ recognised (disk s) → kept s s' → Q false (c_chars msg) s') →
  (∀ f, fs_sound f → fs_wf f → bd_sectors (f_dev f) = disk s → recognised (disk s) → answered G s Q (k (set_fs f s))) →
  answered G s Q (with_fs msg k s).
Proof.
  intros Hs Hm Hn Hk. unfold with_fs. destruct (fs_init_sound (y_fs s) (iv_fs _ _ Hs)) as (r & f & -> & Hf & Hd & Hr).
  cbn [mbind option_bind]. destruct Hr as [[-> Hr]|(Hr0 & Hr & Hw)].
  - rewrite decide_True by done. apply (say_answers G _ (set_fs f s)); [by apply inv_fs| |].
    + unfold red, grey. pr_oks.
    + intros v. assert ([red; Puts msg; grey] ≫= pr_chars = c_chars msg) as -> by said. by apply Hn.
  - rewrite decide_False by done. by apply Hk.
Qed.

Lemma with_name_answers G usage name k s Q :
  shell_inv G s → bool_decide (0 ∉ c_chars usage) = true → 0 ∈ name →
  (∀ s', cstr name = [] → kept s s' → Q false (c_chars usage) s') →
  (cstr name ≠ [] → answered G s Q (k s)) → answered G s Q (with_name usage name k s).
Proof.
  intros Hs Hu Hn HQ Hk. destruct name as [|c name]; [by apply not_elem_of_nil in Hn|]. unfold with_name.
  change (aget (c :: name) 0) with (Some c). cbn [mbind option_bind cstr] in *.
  destruct (decide (c = 0)) as [E|E]; [|by apply Hk]. apply say_answers; [done|pr_oks|]. intros v.
  assert ([Puts usage] ≫= pr_chars = c_chars usage) as -> by said. by apply HQ.
Qed.

(** Reading a file changes only the buffers of the driver. *)
Lemma sound_same f f' :
  fs_sound f → fs_wf f' → bd_sectors (f_dev f') = bd_sectors (f_dev f) → fs_sound f'.
Proof. intros [_ Hl _] Hw Hd. apply fs_wf_sound; [done|by rewrite Hd]. Qed.

Lemma files_some s : recognised (disk s) → files s = Some (fs_map (disk s)).
Proof. intros H. unfold files. by rewrite decide_True. Qed.

Lemma files_none s : ¬ recognised (disk s) → files s = None.
Proof. intros H. unfold files. by rewrite decide_False. Qed.

Section file_reply.
Context (usage no_fs : string) (nm : list Z) s (Q : gmap (list Z) (list Z) → Prop).

Lemma reply_usage s' : nm = [] → kept s s' → file_reply usage no_fs nm s (c_chars usage) s' Q.
Proof. intros -> Hk. unfold file_reply. by rewrite decide_True. Qed.

Lemma reply_no_fs s' : nm ≠ [] → ¬ recognised (disk s) → kept s s' → file_reply usage no_fs nm s (c_chars no_fs) s' Q.
Proof. intros Hn Hr Hk. unfold file_reply. by rewrite decide_False, files_none. Qed.

Lemma reply_file txt s' :
  nm ≠ [] → recognised (disk s) → same_but_files s s' → Q (fs_map (disk s)) → file_reply usage no_fs nm s txt s' Q.
Proof. intros Hn Hr Hk HQ. unfold file_reply. by rewrite decide_False, files_some. Qed.
End file_reply.

(** A file system that is in order is recognised. *)
Lemma files_wf s : fs_wf (y_fs s) → files s = Some (fs_map (disk s)).
Proof. intros [_ Hk]. by apply files_some, wf_recognised. Qed.

Lemma with_file_answers G name k s Q :
  shell_inv G s → fs_wf (y_fs s) → 0 ∈ name →
  (∀ s', fs_map (disk s) !! cstr name = None → kept s s' → Q false (not_found (cstr name)) s') →
  (∀ f c x, fs_sound x → fs_wf x → bd_sectors (f_dev x) = disk s → fs_map (disk s) !! cstr name = Some c →
     opened (disk s) f c 0 → answered G s Q (k f (set_fs x s))) →
  answered G s Q (with_file name k s).
Proof.
  intros Hs Hw Hn HQ Hk. unfold with_file.
  destruct (fs_open_lemma (y_fs s) name (cstr name) zero_file Hw (is_cstr_exists name Hn)) as (r & f & x & -> & Hx & Hd & Hf).
  cbn [mbind option_bind]. pose proof (sound_same _ x (iv_fs _ _ Hs) Hx Hd) as Hsx.
  destruct (fs_map _ !! _) as [c|]; destruct Hf as [-> Hf].
  - rewrite decide_False by (intros X; by apply X). by apply (Hk f c).
  - rewrite decide_True by done. apply (say_answers G _ (set_fs x s)); [by apply inv_fs|unfold red, grey; pr_oks|]. intros v.
    assert ([red; Puts "File not found: "; PutBuf name; Putc 10; grey] ≫= pr_chars = not_found (cstr name)) as ->
      by (unfold not_found; said). by apply HQ.
Qed.

(** [cat] of any content, NUL bytes included: each piece is printed up to its first; a
    text without NUL is printed as it is. *)
Lemma cat_loop_prints G c fuel : ∀ f buf s pos,
  shell_inv G s → fs_wf (y_fs s) → opened (disk s) f c pos → length buf = 129%nat →
  (length c - Z.to_nat pos < fuel)%nat →
  ∃ f' s' tr, cat_loop fuel f buf s = Some (f', s') ∧ shell_inv G s' ∧ kept s s' ∧ prints (y_vga s) tr (y_vga s') ∧
    (Forall (λ x, x ≠ 0) c → text tr = drop (Z.to_nat pos) c).
Proof.
  induction fuel as [|fuel IH]; intros f buf s pos Hs Hw Ho Hb Hf; [lia|]. cbn [cat_loop].
  destruct (fs_read_lemma (y_fs s) f c pos buf 128 Hw Ho) as (f1 & x & -> & Ho1 & Hx & Hd); [unfold is_u32; lia|lia|].
  pose proof (op_range _ _ _ _ Ho) as Hr. pose proof (op_len _ _ _ _ Ho) as Hl.
  set (n := Z.min 128 (Z.of_nat (length c) - pos)) in *. cbn [mbind option_bind].
  assert (shell_inv G (set_fs x s)) as Hsx by (apply inv_fs; [done|by apply (sound_same (y_fs s)); [apply Hs|..]]).
  destruct (decide (0 < n)) as [Hn|Hn].
  2:{ eexists _, _, []. split; [reflexivity|]. split; [done|]. split; [done|]. split; [apply prints_refl, Hs|].
      intros _. rewrite drop_ge by lia. done. }
  set (chunk := take (Z.to_nat n) (drop (Z.to_nat pos) c)). set (b1 := chunk ++ drop (Z.to_nat n) buf).
  assert (length chunk = Z.to_nat n) as Hck by (unfold chunk; rewrite length_take, length_drop; lia).
  assert (length b1 = 129%nat) as Hb1 by (unfold b1; rewrite length_app, length_drop; lia).
  rewrite aset_Some by lia. cbn [mbind option_bind]. set (b2 := <[Z.to_nat n := 0]> b1).
  destruct (console_inv G [PutBuf b2] (set_fs x s) Hsx) as (v1 & -> & Hsv & tr1 & P1 & T1).
  { constructor; [|constructor]. simpl. apply (list_elem_of_lookup_2 _ (Z.to_nat n)), list_lookup_insert_eq. lia. }
  cbn [mbind option_bind].
  destruct (IH f1 b2 (set_vga v1 (set_fs x s)) (pos + n)) as (f' & s' & tr2 & E & Hs' & Hk & P2 & T2);
    [done|done|by cbn [y_fs set_vga set_fs]; rewrite Hd|unfold b2; by rewrite length_insert|lia|].
  exists f', s', (tr1 ++ tr2). split; [done|]. split; [done|].
  split; [destruct Hk as [K1 K2]; split; [exact K1|by rewrite K2]|]. split; [by eapply prints_trans|].
  intros Hc. assert (is_cstr b2 chunk) as Hcs.
  { exists (drop (S (Z.to_nat n)) b1). unfold b2. rewrite insert_take_drop by lia. split.
    - f_equal. unfold b1. rewrite take_app_le by lia. apply take_ge. lia.
    - by apply Forall_take, Forall_drop. }
  cbn [mbind list_bind pr_chars] in T1. rewrite (cstr_is_cstr b2 chunk Hcs), app_nil_r in T1.
  unfold text in *. rewrite fmap_app, T1, (T2 Hc). unfold chunk. rewrite Z2Nat.inj_add by lia.
  rewrite <-(drop_drop c). apply take_drop.
Qed.

Lemma cat_answers G name s :
  shell_inv G s → 0 ∈ name → answered G s (λ h txt s', h = false ∧ cat_reply (cstr name) s txt s') (cmd_cat name s).
Proof.
  intros Hs Hn. unfold cmd_cat. apply with_name_answers; [done|done|done| |].
  { intros s' E Hk. split; [done|]. by apply reply_usage. }
  intros Hne. apply with_fs_answers; [done|done| |].
  { intros s' Hr Hk. split; [done|]. by apply reply_no_fs. }
  intros f Hf Hw Hd Hr. apply (with_file_answers G _ _ (set_fs f s)); [by apply inv_fs|done|done|..]; cbn [y_fs set_fs]; rewrite Hd.
  { intros s' E [K1 K2]. split; [done|]. apply reply_file; [done|done|exact K1|]. rewrite E. split; [|done]. rewrite K2. exact Hd. }
  intros f1 c x Hx Hwx Hdx Hc Ho. pose proof (op_len _ _ _ _ Ho) as Hl.
  destruct (cat_loop_prints G c (Z.to_nat (ff_size f1) + 2) f1 (replicate 129 0) (set_fs x (set_fs f s)) 0)
    as (f2 & s2 & tr & -> & Hs2 & [K1 K2] & P & T);
    [by apply inv_fs, Hx; apply inv_fs|done|cbn [y_fs set_fs]; by rewrite Hdx|apply length_replicate|lia|].
  cbn [mbind option_bind]. apply (answered_after G _ s2 tr); [exact P|]. apply say_answers; [done|pr_oks|]. intros v.
  split; [done|]. apply reply_file; [done|done|exact K1|]. rewrite Hc.
  split; [change (disk s2 = disk s); rewrite K2; exact Hdx|]. intros H0. rewrite (T H0). said.
Qed.

Lemma ls_row_ok f i :
  fs_wf f → 0 ≤ i < 64 → ∃ row, ls_row (dir_of (bd_sectors (f_dev f))) i = Some row ∧ Forall pr_ok row.
Proof.
  intros [Hb [_ _ Hkd _]] Hi. pose proof (fb_dir_of_length f Hb) as Hl. unfold ls_row.
  replace i with (Z.of_nat (Z.to_nat i)) by lia. set (n := Z.to_nat i). assert (n < 64)%nat as Hn by lia.
  destruct (slot_cases (dir_of (bd_sectors (f_dev f))) n) as [[-> _]|(g & Hg & -> & _ & Hsz & _)]; [lia|by exists []|].
  destruct (slot_name_cstr _ n g Hkd Hl Hn Hg) as [Hc _]. cbn [mbind option_bind]. rewrite (strlen_cstr _ _ Hc), Hsz.
  cbn [mbind option_bind]. destruct (dw_slots _ Hkd n g Hn Hg) as [_ [_ Hs _]].
  eexists. split; [reflexivity|]. apply Forall_app_2; [|apply Forall_app_2; [by apply Forall_replicate|pr_oks]].
  destruct Hc as (rest & -> & _). constructor; [|constructor]. simpl. set_solver.
Qed.

(** A state of a command that has only printed so far. *)
Definition printing G s s1 : Prop := shell_inv G s1 ∧ kept s s1 ∧ ∃ tr, prints (y_vga s) tr (y_vga s1).

Lemma printing_console G ps s s1 :
  printing G s s1 → Forall pr_ok ps → ∃ v, console ps s1 = Some (set_vga v s1) ∧ printing G s (set_vga v s1).
Proof.
  intros (Hs & Hk & tr & P) Hp. destruct (console_inv G ps s1 Hs Hp) as (v & -> & Hv & tr1 & P1 & _).
  exists v. split; [done|]. split; [done|]. split; [done|]. exists (tr ++ tr1). by eapply prints_trans.
Qed.

Lemma printing_answers G s s1 :
  printing G s s1 → answered G s (λ h txt s', h = false ∧ kept s s') (Some (Returned s1)).
Proof. intros (Hs & Hk & tr & P). by exists false, s1, tr. Qed.

Lemma ls_answers G s : shell_inv G s → answered G s (λ h txt s', h = false ∧ kept s s') (cmd_ls s).
Proof.
  intros Hs. unfold cmd_ls. apply with_fs_answers; [done|done|done|]. intros f Hf Hw Hdf _. unfold fs_ls.
  destruct (read_dir_ok f (proj1 Hw)) as (d & E & Hb & Hd). cbn [y_fs set_fs]. rewrite E. cbn [mbind option_bind f_dir].
  rewrite decide_False by (intros X; by apply X). set (x := Fs d _ _) in *.
  assert (printing G s (set_fs x (set_fs f s))) as Hsx.
  { split; [|split; [split; [done|]|exists []; apply prints_refl, Hs]].
    - apply inv_fs; [by apply inv_fs|]. apply (sound_same f); [done| |done]. split; [done|]. simpl. rewrite Hd. apply Hw.
    - cbn [y_fs set_fs]. etrans; [exact Hd|exact Hdf]. }
  match goal with |- context [console ?ps (set_fs x ?s0)] => destruct (printing_console G ps s (set_fs x s0) Hsx) as (v & -> & Hsv) end;
    [unfold grey; pr_oks|]. cbn [mbind option_bind].
  match goal with |- context [for_u32_opt 0 FS_MAX_FILES ?g ?a] =>
    destruct (for_u32_opt_inv (λ _ b, printing G s b.2) g 0 FS_MAX_FILES a) as ([found s2] & -> & Hs2); [done|exact Hsv| |] end.
  { intros i [fnd s1] Hi Hs1. destruct (ls_row_ok f i Hw Hi) as (row & -> & Hrow). cbn [mbind option_bind].
    destruct (printing_console G row s s1 Hs1 Hrow) as (v1 & -> & H1). by eexists. }
  cbn [mbind option_bind]. destruct found; [by apply printing_answers|].
  destruct (printing_console G [Puts "  (empty)\n"] s s2 Hs2) as (v1 & -> & H1); [pr_oks|]. by apply printing_answers.
Qed.

Lemma mkfs_answers G s :
  shell_inv G s → answered G s (λ h txt s', h = false ∧
    txt = c_chars "Formatting VesperFS at LBA 129... " ++ c_chars "done.\n" ∧ files s' = Some ∅ ∧ same_but_files s s') (cmd_mkfs s).
Proof.
  intros Hs. unfold cmd_mkfs.
  match goal with |- context [console ?ps s] => destruct (console_inv G ps s Hs) as (v & -> & Hv & tr & P & T) end; [unfold grey; pr_oks|].
  cbn [mbind option_bind]. pose proof (iv_fs _ _ Hv) as [Hb Hl _].
  destruct (fs_format_lemma _ Hb) as (f & -> & Hw & Hm & _ & Hlen). cbn [mbind option_bind]. rewrite decide_True by done.
  apply (answered_after G s (set_fs f (set_vga v s)) tr); [exact P|].
  apply say_answers; [apply inv_fs; [done|apply fs_wf_sound; [done|by rewrite Hlen]]|unfold green, grey; pr_oks|].
  intros v1. split; [done|]. split; [rewrite T; said|]. split; [|done].
  rewrite files_wf by exact Hw. cbn [y_fs set_vga set_fs]. by rewrite Hm.
Qed.

Lemma rm_answers G name s :
  shell_inv G s → 0 ∈ name → answered G s (λ h txt s', h = false ∧ rm_reply (cstr name) s txt s') (cmd_rm name s).
Proof.
  intros Hs Hn. unfold cmd_rm. apply with_name_answers; [done|done|done| |].
  { intros s' E Hk. split; [done|]. by apply reply_usage. }
  intros Hne. apply with_fs_answers; [done|done| |].
  { intros s' Hr Hk. split; [done|]. by apply reply_no_fs. }
  intros f Hf Hw Hd Hr. cbn [y_fs set_fs].
  destruct (fs_delete_lemma f name (cstr name) Hw (is_cstr_exists name Hn) Hne) as (r & x & -> & Hx & Hm & Hl & Hc).
  cbn [mbind option_bind]. rewrite Hd in Hm, Hc.
  assert (shell_inv G (set_fs x (set_fs f s))) as Hsx.
  { apply inv_fs; [by apply inv_fs|]. apply fs_wf_sound; [done|rewrite Hl; apply Hf]. }
  assert (∀ v, files (set_vga v (set_fs x (set_fs f s))) = Some (delete (cstr name) (fs_map (disk s)))) as Hfiles.
  { intros v. rewrite files_wf by exact Hx. cbn [y_fs set_vga set_fs]. by rewrite Hm. }
  destruct Hc as [[-> [c Hc]]|(-> & Hc & _)]; [rewrite decide_True by done|rewrite decide_False by done];
    (apply (say_answers G _ (set_fs x (set_fs f s))); [done|unfold green, red, grey; pr_oks|]); intros v;
    (split; [done|]; apply reply_file; [done|done|done|]; rewrite Hc; split; [apply Hfiles|]); unfold not_found; said.
Qed.

(** The word that [write] takes for the name, and the text after it. *)
Lemma split_name_any n : ∀ t junk, Forall (λ c, c ≠ 0) t →
  ∃ nm t', split_name n (t ++ 0 :: junk) = Some (nm, t' ++ 0 :: junk) ∧ t = nm ++ t' ∧ (length nm ≤ n)%nat.
Proof.
  induction n as [|n IH]; intros t junk Ht; [exists [], t; simpl; auto|].
  destruct t as [|c t]; [exists [], []; simpl; split_and!; [done|done|lia]|].
  apply Forall_cons_1 in Ht as [Hc Ht]. cbn [app split_name]. case_decide as E; [exists [], (c :: t); split_and!; [done|done|simpl; lia]|].
  destruct (IH t junk Ht) as (nm & t' & -> & -> & Hl). exists (c :: nm), t'. simpl. split_and!; [done|done|lia].
Qed.

(** The end of [write], with the name and the text found. *)
Lemma write_text_answers G nm txt junk s :
  shell_inv G s → nm ≠ [] → (length nm ≤ 31)%nat → Forall (λ c, is_u8 c ∧ c ≠ 0) nm → Forall (λ c, is_u8 c ∧ c ≠ 0) txt →
  Z.of_nat (length txt) < 4294967296 - 511 →
  answered G s (λ h out s', h = false ∧ write_reply nm txt s out s')
    (with_fs "No VesperFS. Run 'mkfs' first.\n" (λ s,
      '(r, f) ← fs_write_new (nm ++ [0]) (txt ++ 0 :: junk) (Z.of_nat (length txt)) (y_fs s);
      let s := set_fs f s in
      if decide (r = 0) then
        say [green; Puts "Written: "; PutBuf (nm ++ [0]); Puts " ("; Uint (Z.of_nat (length txt)); Puts " bytes)\n"; grey] s
      else say [red; Puts "Write failed.\n"; grey] s) s).
Proof.
  intros Hs Hne Hnl Hnm Ht Htl.
  assert (Forall (λ c, c ≠ 0) nm) as Hnm0 by (eapply Forall_impl; [|exact Hnm]; naive_solver).
  assert (cstr (nm ++ [0]) = nm) as Enm by (by apply cstr_is_cstr, cstr_app_nul).
  apply with_fs_answers; [done|done| |]. { intros s' Hr Hk. split; [done|]. by apply reply_no_fs. }
  intros f Hf Hw Hd Hr. cbn [y_fs set_fs].
  destruct (fs_write_total_lemma f (nm ++ [0]) nm (txt ++ 0 :: junk) (Z.of_nat (length txt))) as (r & x & -> & Hx & Hl & Hc).
  { done. } { by apply cstr_app_nul. } { exact Hnl. } { eapply Forall_impl; [|exact Hnm]; naive_solver. }
  { rewrite Nat2Z.id, take_app_length. eapply Forall_impl; [|exact Ht]; naive_solver. }
  { lia. } { rewrite length_app. lia. } { apply Hf. }
  cbn [mbind option_bind]. rewrite Hd, Nat2Z.id, take_app_length in Hc.
  assert (shell_inv G (set_fs x (set_fs f s))) as Hsx.
  { apply inv_fs; [by apply inv_fs|]. apply fs_wf_sound; [done|rewrite Hl; apply Hf]. }
  assert (∀ v, files (set_vga v (set_fs x (set_fs f s))) = Some (fs_map (bd_sectors (f_dev x)))) as Hfiles by (intros v; by rewrite files_wf).
  assert (0 ∈ nm ++ [0]) by (apply elem_of_app; right; apply list_elem_of_here).
  destruct Hc as [(-> & _ & Hsp & Hsl & Hm)|(-> & Hno & Hm)]; rewrite Hm in Hfiles; [rewrite decide_True by done|rewrite decide_False by done];
    (apply (say_answers G _ (set_fs x (set_fs f s))); [done|unfold green, red, grey; pr_oks|]); intros v;
    (split; [done|]; apply reply_file; [done|done|done|]).
  - left. split; [done|]. split; [done|]. split; [apply Hfiles|]. cbn [mbind list_bind pr_chars app]. rewrite Enm, ?app_nil_r. done.
  - right. split; [tauto|]. split; [apply Hfiles|]. said.
Qed.

Lemma write_answers G t junk s :
  shell_inv G s → Forall (λ c, is_u8 c ∧ c ≠ 0) t → Z.of_nat (length t) < 4294967296 - 511 →
  answered G s (λ h txt s', h = false ∧ ∃ nm rest, split_name (Z.to_nat FS_NAME_MAX) (t ++ 0 :: junk) = Some (nm, rest) ∧
    write_reply nm (cstr (skip_spaces rest)) s txt s') (cmd_write (t ++ 0 :: junk) s).
Proof.
  intros Hs Ht Hlen. unfold cmd_write.
  assert (Forall (λ c, c ≠ 0) t) as Ht0 by (eapply Forall_impl; [|exact Ht]; naive_solver).
  destruct (split_name_any (Z.to_nat FS_NAME_MAX) t junk Ht0) as (nm & t' & E & -> & Hnl). rewrite E. cbn [mbind option_bind].
  destruct (decide (nm = [])) as [->|Hne].
  { apply say_answers; [done|pr_oks|]. intros v. split; [done|]. eexists _, _. split; [reflexivity|].
    by apply reply_usage. }
  apply Forall_app in Ht as [Hnm Ht]. apply Forall_app in Ht0 as [Hnm0 Ht0].
  rewrite skip_spaces_app by done. destruct (skip_spaces_suffix t') as [k Ek]. set (txt := drop k t').
  apply (Forall_drop _ k) in Ht, Ht0. fold txt in Ht, Ht0.
  assert (is_cstr (skip_spaces t' ++ 0 :: junk) txt) as Hc by (rewrite Ek; by exists junk). rewrite (strlen_cstr _ _ Hc). cbn [mbind option_bind].
  assert (Z.of_nat (length txt) < 4294967296 - 511) as Htl.
  { unfold txt. rewrite length_drop. rewrite length_app in Hlen. lia. }
  destruct (write_text_answers G nm txt junk s Hs Hne Hnl Hnm Ht Htl) as (h & s' & tr & E' & Hs' & P & -> & Hq).
  rewrite Ek. fold txt. exists false, s', tr. split; [exact E'|]. split; [done|]. split; [done|]. split; [done|].
  eexists _, _. split; [reflexivity|]. rewrite skip_spaces_app by done. by rewrite (cstr_is_cstr _ _ Hc).
Qed.

(** ** The other commands *)

Lemma meminfo_answers G s : shell_inv G s → answered G s (λ h txt s', h = false ∧ kept s s') (cmd_meminfo s).
Proof using Hheap.
  intros Hs. unfold cmd_meminfo. destruct (iv_heap _ _ Hs) as [bs Hr].
  destruct (kmem_info_accounts heap (y_heap s) bs Hheap Hr) as [-> Ht]. cbn [mbind option_bind].
  pose proof Hr as (_ & _ & Hc & _). pose proof (sizes_ok_chain _ _ _ _ Hc) as Hz.
  pose proof (total_nonneg true bs Hz). pose proof (total_nonneg false bs Hz).
  pose proof (iv_frames _ _ Hs) as (_ & Hf & _).
  pose proof (nfree_bound (v_fa (y_vm s))) as Hn. pose proof (iv_total _ _ Hs) as Htot.
  unfold HEAP_SIZE, HDR, PMM_TOTAL_FRAMES in *.
  apply say_answers; [done| |done]. unfold grey, pmm_total_frames, pmm_free_frames. rewrite Hf. unfold is_u32 in Htot.
  pr_oks; first [apply u32_range|by vm_compute].
Qed.

Lemma uptime_answers G s : shell_inv G s → answered G s (λ h txt s', h = false ∧ kept s s') (cmd_uptime s).
Proof.
  intros Hs. unfold cmd_uptime. pose proof (iv_ticks _ _ Hs) as Ht. apply say_answers; [done| |done].
  unfold timer_get_uptime_sec, timer_get_ticks, TIMER_HZ, is_u32 in *. pr_oks; unfold pr_ok, is_u32; zdm.
Qed.

Lemma date_answers G s : shell_inv G s → answered G s (λ h txt s', h = false ∧ kept s s') (cmd_date rtc_fuel s).
Proof.
  intros Hs. unfold cmd_date. destruct (rtc_read_regs rtc_fuel (y_rtc s) (iv_rtc _ _ Hs)) as (d & -> & Hd).
  cbn [mbind option_bind]. pose proof (iv_rtc _ _ Hs). 
  apply (say_answers G _ (set_rtc d s)); [apply inv_rtc; [done|lia]| |done].
  constructor; [|constructor]. apply printf_check_ok. reflexivity.
Qed.

Lemma ps_answers G s : shell_inv G s → answered G s (λ h txt s', h = false ∧ kept s s') (cmd_ps s).
Proof.
  intros Hs. unfold cmd_ps, process_print_all. apply (say_answers G _ s); [done| |done].
  apply Forall_app_2; [unfold grey; pr_oks|]. apply Forall_bind, Forall_lookup. intros i p Hp. unfold compose, process_row.
  case_decide as Hu; [constructor|].
  assert (aget (k_table (y_k s)) (Z.of_nat i) = Some p) as Ha by (by rewrite aget_nat).
  pose proof (iv_names _ _ Hs _ p Ha Hu) as Hnul. pose proof (iv_kinv _ _ Hs) as Hk.
  destruct (ki_slot _ Hk _ p Ha) as (_ & Hiff & H1 & H2). pose proof (ki_pid _ Hk).
  assert (is_u32 (p_pid p)) as Hpid.
  { destruct (decide (Z.of_nat i < k_next_pid (y_k s))); [rewrite H1 by done|rewrite H2 by lia]; unfold is_u32; lia. }
  destruct (p_state p), (decide (p_is_user p = 0)); pr_oks.
Qed.

Lemma killable_live s pid i : killable (k_table (y_k s)) pid i = true ↔ ∃ p, live s pid i p.
Proof.
  unfold killable, live. destruct (aget (k_table (y_k s)) i) as [p|] eqn:Hp; [|naive_solver].
  rewrite !andb_true_iff, !bool_decide_eq_true. split; [intros [[? ?] ?]; by exists p|]. by intros (q & [= <-] & ? & ? & ?).
Qed.

(** No process has an address space, so [kill] only marks the slot. *)
Lemma kill_marks G pid s i :
  shell_inv G s → find_range (killable (k_table (y_k s)) pid) 0 (Z.to_nat MAX_PROCESSES) = Some i →
  ∃ p k, live s pid i p ∧ process_kill pid (y_k s) = Some (0, k) ∧ shell_inv G (set_k k s) ∧
    ∀ j, aget (k_table k) j = if decide (i = j) then Some (set_state PROC_ZOMBIE (set_pd_phys 0 p)) else aget (k_table (y_k s)) j.
Proof.
  intros Hs Hf. unfold process_kill. rewrite Hf. apply find_range_Some in Hf as (_ & Hkill & _). pose proof (iv_kinv _ _ Hs) as Hkv.
  destruct (proj1 (killable_live s pid i) Hkill) as (p & Hlive). pose proof Hlive as (Hp & _ & Hu & _).
  apply killable_spec in Hkill as (Hi & _ & _); [|done].
  assert (p_pd_phys p = 0) as Hz.
  { destruct (decide (p_pd_phys p = 0)) as [|Hne]; [done|]. destruct (iv_none _ _ Hs i (p_pd_phys p)). by exists p. }
  set (g p := set_state PROC_ZOMBIE (set_pd_phys 0 p)). set (k' := with_table (<[Z.to_nat i := g p]> (k_table (y_k s))) (with_vm (k_vm (y_k s)) (y_k s))).
  assert (reap i (y_k s) = Some k') as E.
  { unfold reap. rewrite Hp. cbn [mbind option_bind]. rewrite decide_True by done. cbn [mbind option_bind].
    pose proof (upd_Some _ _ _ g Hp) as E. unfold g in E |- *. by rewrite E. }
  destruct (reap_kinv i (y_k s) k' Hkv Hi E) as (Hk' & _).
  assert (∀ j, aget (k_table k') j = if decide (i = j) then Some (g p) else aget (k_table (y_k s)) j) as Ha
    by (intros j; apply (aget_upd _ _ _ g _ Hp)).
  exists p, k'. split; [done|]. split; [by rewrite E|]. split; [|exact Ha].
  constructor; cbn [y_k y_vga y_kb y_ticks y_irq y_rtc y_pipes y_fd y_fs y_heap set_k]; try apply Hs.
  - exact Hk'.
  - intros Hlow. destruct (reap_ok process_table page_directory page_tables G (y_k s) i (iv_pre _ _ Hs Hlow) Hi)
      as (p' & k2 & _ & E2 & Hpre & _). rewrite E in E2. by injection E2 as <-.
  - intros j pd (q & Hq & <- & Hq0). rewrite Ha in Hq. destruct (decide (i = j)) as [<-|]; [by injection Hq as <-|].
    apply (iv_none _ _ Hs j (p_pd_phys q)). by exists q.
  - intros j q. rewrite Ha. destruct (decide (i = j)) as [<-|]; [|apply Hs]. intros [= <-] _. simpl. by apply (iv_names _ _ Hs i p Hp).
Qed.

Lemma parse_digits_any t junk : ∀ n, is_u32 n → Forall (λ c, c ≠ 0) t → ∃ m, parse_digits (t ++ 0 :: junk) n = Some m ∧ is_u32 m.
Proof.
  induction t as [|c t IH]; intros n Hn Ht; cbn [app parse_digits]; [rewrite decide_False by lia; by exists n|].
  apply Forall_cons_1 in Ht as [_ Ht]. destruct (decide (48 ≤ c ≤ 57)); [|by exists n]. apply IH; [apply u32_range|done].
Qed.

Lemma kill_answers G t junk s :
  shell_inv G s → Forall (λ c, c ≠ 0) t →
  answered G s (λ h txt s', h = false ∧ ∃ pid, parse_digits (t ++ 0 :: junk) 0 = Some pid ∧ kill_reply pid s txt s') (cmd_kill (t ++ 0 :: junk) s).
Proof.
  intros Hs Ht. unfold cmd_kill. destruct (parse_digits_any t junk 0) as (pid & -> & Hpid); [unfold is_u32; lia|done|].
  cbn [mbind option_bind]. destruct (decide (pid = 0)) as [->|Hz].
  { apply say_answers; [done|pr_oks|]. intros v. split; [done|]. eexists. split; [reflexivity|]. left. split; [done|]. split; [said|done]. }
  destruct (find_range (killable (k_table (y_k s)) pid) 0 (Z.to_nat MAX_PROCESSES)) as [i|] eqn:Hf.
  - destruct (kill_marks G pid s i Hs Hf) as (p & k & Hlive & -> & Hk & Ha). cbn [mbind option_bind]. rewrite decide_True by done.
    apply (say_answers G _ (set_k k s)); [done|unfold green, grey; pr_oks|]. intros v.
    split; [done|]. eexists. split; [reflexivity|]. right. left. split; [done|]. split; [by exists i, p|]. split; [said|done].
  - unfold process_kill. rewrite Hf. cbn [mbind option_bind]. rewrite decide_False by done.
    apply (say_answers G _ (set_k (y_k s) s)); [by destruct s, Hs|unfold red, grey; pr_oks|]. intros v.
    split; [done|]. eexists. split; [reflexivity|]. right. right. split; [done|]. split; [|split; [said|done]].
    intros i p Hlive. assert (killable (k_table (y_k s)) pid i = true) as Hk by (apply killable_live; eauto).
    rewrite find_range_None in Hf. rewrite Hf in Hk; [done|]. destruct Hlive as (Hp & _). apply aget_Some_lt in Hp.
    rewrite (ki_len _ (iv_kinv _ _ Hs)) in Hp. unfold MAX_PROCESSES. lia.
Qed.

(** The wake-ups [wakes] suffice for the [sleep] with these arguments. *)
Definition sleeps_out (wakes args : list Z) (ticks : Z) : Prop :=
  ∀ ms, parse_digits args 0 = Some ms → ∃ t rest, timer_sleep_ms true ms ticks wakes = Awake t rest.

Lemma sleep_loop_ticks target wakes : ∀ ticks t rest, is_u32 ticks → sleep_loop target ticks wakes = Awake t rest → is_u32 t.
Proof.
  induction wakes as [|w wakes IH]; intros ticks t rest Ht; cbn [sleep_loop]; destruct (decide (ticks < target)); try done.
  - by intros [= <- _].
  - apply IH, u32_range.
  - by intros [= <- _].
Qed.

Lemma sleep_answers G t junk wakes s :
  shell_inv G s → Forall (λ c, c ≠ 0) t → sleeps_out wakes (t ++ 0 :: junk) (y_ticks s) →
  answered G s (λ h txt s', h = false ∧ ∃ ms, parse_digits (t ++ 0 :: junk) 0 = Some ms ∧ sleep_reply ms wakes s txt s')
    (cmd_sleep (t ++ 0 :: junk) wakes s).
Proof.
  intros Hs Ht Hw. unfold cmd_sleep. destruct (parse_digits_any t junk 0) as (ms & E & Hms); [unfold is_u32; lia|done|].
  destruct (Hw ms E) as (t' & rest & Hsl). rewrite E. cbn [mbind option_bind].
  destruct (decide (ms = 0)) as [->|Hz].
  { apply say_answers; [done|pr_oks|]. intros v. split; [done|]. eexists. split; [reflexivity|].
    unfold sleep_reply. rewrite decide_True by done. split; [said|done]. }
  match goal with |- context [console ?ps s] => destruct (console_inv G ps s Hs) as (v & -> & Hv & tr & P & T) end; [pr_oks|].
  cbn [mbind option_bind y_ticks set_vga]. rewrite Hsl. apply (answered_after G s (set_ticks t' (set_vga v s)) tr); [exact P|].
  apply say_answers; [|pr_oks|].
  - apply inv_ticks; [done|]. exact (sleep_loop_ticks _ wakes (y_ticks s) t' rest (iv_ticks _ _ Hs) Hsl).
  - intros v1. split; [done|]. eexists. split; [reflexivity|]. unfold sleep_reply. rewrite decide_False by done.
    split; [|by split; [exists rest|]]. rewrite T. cbn [mbind list_bind pr_chars app]. rewrite ?app_nil_r. by rewrite <-!app_assoc.
Qed.

Lemma colortest_answers G s : shell_inv G s → answered G s (λ h txt s', h = false ∧ kept s s') (cmd_colortest s).
Proof.
  intros Hs. apply say_answers; [done| |done]. unfold grey. apply Forall_app_2; [pr_oks|]. apply Forall_app_2; [|pr_oks].
  apply Forall_concat, Forall_lookup. intros k l Hk. rewrite list_lookup_imap in Hk.
  apply fmap_Some in Hk as (nm & Hn & ->). unfold color_row.
  assert (Forall (λ n, pr_ok (Puts n)) color_names) as Hc by (by repeat constructor).
  pose proof (Forall_lookup_1 _ _ _ _ Hc Hn) as Hnm. cbv beta in Hnm.
  apply Forall_app_2; [pr_oks|]. destruct (decide (Z.land _ _ = 1)); pr_oks.
Qed.

(** ** Every line *)

(** What an action does with the text of the line: its argument is part of it. *)
Definition args_of (a : action) : option (list Z) :=
  match a with
  | AEcho x | AKill x | ASleep x | ACat x | AWrite x | ARm x | ARun x | AExec x | AUnknown x => Some x
  | _ => None
  end.

Definition usage_ok (a : action) : Prop :=
  match a with AUsage msg => bool_decide (0 ∉ c_chars msg) = true | _ => True end.

Lemma find_command_elem cs w c : find_command cs w = Some c → c ∈ cs.
Proof.
  induction cs as [|d cs IH]; cbn [find_command]; [done|]. case_decide; [intros [= <-]; apply list_elem_of_here|].
  intros H1. by apply list_elem_of_further, IH.
Qed.

(** The commands of the table. *)
Lemma commands_ok c :
  c ∈ commands → (args_of (c_alone c) = None ∧ usage_ok (c_alone c)) ∧
    ∀ f, c_args c = Some f → ∀ x, args_of (f x) = Some x ∧ usage_ok (f x).
Proof.
  intros H. repeat (apply elem_of_cons in H as [->|H]; [by split; [|intros f [= <-]]|]). by apply elem_of_nil in H.
Qed.

Lemma meaning_args (Q : Z → Prop) t junk a :
  Forall Q t → meaning t junk = Some a →
  usage_ok a ∧ ∀ x, args_of a = Some x → ∃ t', x = t' ++ 0 :: junk ∧ Forall Q t' ∧ (length t' ≤ length t)%nat.
Proof.
  intros Ht. unfold meaning. destruct (skip_spaces_suffix t) as [n ->]. apply (Forall_drop _ n) in Ht.
  assert (length (drop n t) ≤ length t)%nat as Hl by (rewrite length_drop; lia). set (t1 := drop n t) in *.
  clearbody t1. case_decide as E; [done|]. destruct (break_space t1) as [w r] eqn:Eb.
  destruct (break_space_spec t1 w r Eb) as (-> & _ & _). remember (find_command commands w) as o eqn:Ef. intros [= <-].
  assert (∀ x, args_of (AUnknown ((w ++ r) ++ 0 :: junk)) = Some x → ∃ t', x = t' ++ 0 :: junk ∧ Forall Q t' ∧ (length t' ≤ length t)%nat) as Hu.
  { intros x [= <-]. by exists (w ++ r). }
  destruct o as [c|]; [symmetry in Ef|exact (conj I Hu)].
  destruct (commands_ok c (find_command_elem _ _ _ Ef)) as [[C1 C2] C3]. destruct r as [|b args].
  - destruct c as [nm a [f|]]; cbn [c_alone] in *; (split; [done|]); by rewrite C1.
  - destruct c as [nm a [f|]]; [|exact (conj I Hu)]. simpl in C3. destruct (C3 f eq_refl (args ++ 0 :: junk)) as [C4 C5].
    split; [done|]. rewrite C4. intros x [= <-]. exists args. split; [done|].
    apply Forall_app in Ht as [_ [_ Ht]%Forall_cons_1]. split; [done|]. rewrite length_app in Hl. simpl in Hl. lia.
Qed.

(** The actions that start a program. *)
Definition starts_program (a : action) : Prop := match a with ARun _ | AExec _ => True | _ => False end.

Abbreviation perform := (perform process_table page_directory user_mode_enter run_buf rtc_fuel).

Lemma perform_answers G a junk wakes c s :
  shell_inv G s → usage_ok a →
  (∀ x, args_of a = Some x → ∃ t, x = t ++ 0 :: junk ∧ Forall (λ c, is_u8 c ∧ c ≠ 0) t ∧ (length t ≤ 255)%nat) →
  ¬ starts_program a → a ≠ AClear → (∀ x, a = ASleep x → sleeps_out wakes x (y_ticks s)) →
  answered G s (reply a wakes s) (perform a wakes c s).
Proof using Hheap.
  intros Hs Hu Ha Hp Hcl Hw.
  assert (∀ x, args_of a = Some x → 0 ∈ x) as Hnul.
  { intros x Hx. destruct (Ha x Hx) as (t & -> & _). set_solver. }
  assert (∀ x, args_of a = Some x → ∃ t, x = t ++ 0 :: junk ∧ Forall (λ c, c ≠ 0) t) as Ha0.
  { intros x Hx. destruct (Ha x Hx) as (t & -> & Ht & _). exists t. split; [done|].
    eapply Forall_impl; [|exact Ht]; naive_solver. }
  destruct a; cbn [Shell.perform]; try done.
  - apply say_answers; [done|unfold grey; pr_oks|done].
  - pose proof (Hnul args eq_refl). apply say_answers; [done|pr_oks|]. intros v. split; [done|]. split; [said|done].
  - apply say_answers; [done|pr_oks|done].
  - apply say_answers; [done|unfold grey; pr_oks|done].
  - by apply meminfo_answers.
  - by apply uptime_answers.
  - by apply date_answers.
  - by apply ps_answers.
  - destruct (Ha0 args eq_refl) as (t & -> & Ht). by apply kill_answers.
  - destruct (Ha0 args eq_refl) as (t & -> & Ht). apply sleep_answers; [done|done|by apply Hw].
  - by apply colortest_answers.
  - by apply mkfs_answers.
  - by apply ls_answers.
  - apply cat_answers; [done|by apply Hnul].
  - destruct (Ha args eq_refl) as (t & -> & Ht & Hl). apply write_answers; [done|done|lia].
  - apply rm_answers; [done|by apply Hnul].
  - apply stop_answers; [done|unfold grey; pr_oks|done].
  - apply stop_answers; [done|unfold grey; pr_oks|done].
  - simpl in Hu. apply say_answers; [done|pr_oks|]. intros v. split; [done|]. split; [said|done].
  - pose proof (Hnul cmd eq_refl). apply say_answers; [done|unfold red, grey; pr_oks|]. intros v. split; [done|]. split; [done|said].
Qed.

Lemma clear_returns G wakes c s :
  shell_inv G s → ∃ v, perform AClear wakes c s = Some (Returned (set_vga v s)) ∧ shell_inv G (set_vga v s) ∧
    v = Vga (replicate 2000 (vga_entry 32 (vga_color (y_vga s)))) 0 0 (vga_color (y_vga s)) 0 0.
Proof.
  intros Hs. cbn [Shell.perform]. unfold cmd_clear. destruct (iv_vga _ _ Hs) as [Hl _]. rewrite vga_clear_spec by done. cbn [mbind option_bind].
  eexists. split; [reflexivity|]. split; [|done]. apply inv_vga; [done|]. constructor; simpl; rewrite ?length_replicate; done || lia.
Qed.

(** A line that starts no program, and for which the wake-ups given suffice. *)
Definition plain (t junk wakes : list Z) (ticks : Z) : Prop :=
  ∀ a, meaning t junk = Some a → ¬ starts_program a ∧ ∀ x, a = ASleep x → sleeps_out wakes x ticks.

(** What a line does: nothing if it is blank, clear the screen, or the answer of its
    command. *)
Definition line_reply (t junk wakes : list Z) s (halts : bool) s' : Prop :=
  match meaning t junk with
  | None => halts = false ∧ s' = s
  | Some AClear => halts = false ∧
      s' = set_vga (Vga (replicate 2000 (vga_entry 32 (vga_color (y_vga s)))) 0 0 (vga_color (y_vga s)) 0 0) s
  | Some a => ∃ tr, prints (y_vga s) tr (y_vga s') ∧ reply a wakes s halts (text tr) s'
  end.

Lemma execute_answers G t junk wakes c s :
  shell_inv G s → Forall (λ c, is_u8 c ∧ c ≠ 0) t → (length t ≤ 255)%nat → plain t junk wakes (y_ticks s) →
  ∃ (h : bool) s', execute_command process_table page_directory user_mode_enter run_buf rtc_fuel (t ++ 0 :: junk) wakes c s =
      Some (if h then Halted s' else Returned s') ∧ shell_inv G s' ∧ line_reply t junk wakes s h s'.
Proof using Hheap.
  intros Hs Ht Hl Hp. unfold execute_command, line_reply.
  rewrite parse_command_meaning by (eapply Forall_impl; [|exact Ht]; naive_solver). cbn [mbind option_bind].
  destruct (meaning t junk) as [a|] eqn:E; [|by exists false, s].
  destruct (meaning_args _ t junk a Ht E) as [Hu Ha]. destruct (Hp a E) as [H1 H2].
  assert (a = AClear ∨ a ≠ AClear) as [->|Hcl] by (destruct a; (by left) || (by right)).
  { destruct (clear_returns G wakes c s Hs) as (v & -> & Hv & Ev). exists false, (set_vga v s). by rewrite <-Ev. }
  destruct (perform_answers G a junk wakes c s) as (h & s' & tr & -> & Hs' & P & R); [done|done| |done|done|done|].
  { intros x Hx. destruct (Ha x Hx) as (t' & -> & Ht' & Hl'). exists t'. split; [done|]. split; [done|lia]. }
  exists h, s'. split; [done|]. split; [done|]. destruct a; try done; by exists tr.
Qed.

(** C18: every command line that starts no program is answered as specified.  From
    the invariant of the shell (with any amount of memory and the disk formatted or not),
    for every NUL-terminated line of up to 255 characters other than [run] and [exec],
    a [sleep] being woken in time ([plain]),
    whatever lies behind the line in the buffer: the command does not fault; it stops the
    machine exactly for [halt] and [reboot] and returns otherwise; the invariant holds
    after it; and screen, files and processes are as [line_reply] says.  A blank line
    does nothing and [clear] blanks the screen.  [echo] prints its text, and an unknown
    command or one without its argument is reported with its message.  [cat], [rm] and
    [write] print their usage without a name, and that there is no file system if
    none is on the disk; a file that is not there is reported as not found; [cat] prints
    the file, if it holds no NUL; [rm] removes the file and says so; [write] stores the
    text and reports its length, or reports the failure and leaves all files as they
    were, exactly when there is no slot or no space; [mkfs] empties the file system.
    [kill] of a live process makes it a zombie, and any other number is reported.
    [sleep] returns when its time is over.  No other command changes anything but the
    screen. *)
Theorem shell_command_safe G t junk wakes c s :
  shell_inv G s → Forall (λ c, is_u8 c ∧ c ≠ 0) t → (length t ≤ 255)%nat → plain t junk wakes (y_ticks s) →
  ∃ (halts : bool) s', execute_command process_table page_directory user_mode_enter run_buf rtc_fuel (t ++ 0 :: junk) wakes c s =
      Some (if halts then Halted s' else Returned s') ∧ shell_inv G s' ∧ line_reply t junk wakes s halts s'.
Proof using Hheap. apply execute_answers. Qed.

(** The command is over: back in the loop, or the processor stopped. *)
Definition done_in G (x : exit (sys D pics cmos)) : Prop :=
  ∃ s', (x = Returned s' ∨ x = Halted s') ∧ shell_inv G s'.

(** ** The loop *)

Definition printable (c : Z) : Prop := 32 ≤ c < 128.

Lemma printable_text t : Forall printable t → Forall (λ c, is_u8 c ∧ c ≠ 0) t.
Proof. apply Forall_impl. unfold printable, is_u8. lia. Qed.

Lemma edit_printable past t pos c :
  Forall (Forall printable) past → Forall printable t → Forall printable (edit past t pos c).1.1.
Proof.
  intros Hp Ht. unfold edit. assert (∀ k cmd, past !! k = Some cmd → Forall printable cmd) as Hl by (by apply Forall_lookup).
  repeat case_decide; try done; simpl; [by apply Forall_take| | |by apply Forall_app_2; [done|constructor; [exact H2|constructor]]].
  - destruct (past !! pos) eqn:E; simpl; [by eapply Hl|done].
  - destruct pos as [|[|k]]; [done|constructor|]. destruct (past !! k) eqn:E; simpl; [by eapply Hl|done].
Qed.

Lemma edit_line_printable past keys : ∀ t pos,
  Forall (Forall printable) past → Forall printable t → Forall printable (edit_line past keys t pos).1.1.
Proof.
  induction keys as [|c keys IH]; intros t pos Hp Ht; cbn [edit_line]; case_decide; try done.
  case_decide; [done|]. pose proof (edit_printable past t pos c Hp Ht) as He.
  destruct (edit past t pos c) as [[t1 pos1] e1]. specialize (IH t1 pos1 Hp He).
  by destruct (edit_line past keys t1 pos1) as [[t2 r2] e2].
Qed.

(** The history after a line. *)
Definition remember_line (cmds : list (list Z)) (t : list Z) : list (list Z) := if decide (t = []) then cmds else cmds ++ [t].

Lemma remember_printable cmds t :
  Forall (Forall printable) cmds → Forall printable t → Forall (Forall printable) (remember_line cmds t).
Proof. intros Hc Ht. unfold remember_line. case_decide; [done|]. apply Forall_app_2; [done|by constructor]. Qed.

Lemma turn_safe G h cmds buf keys wakes c s :
  shell_inv G s → hist_repr h cmds → Forall (Forall printable) cmds → Z.of_nat (length cmds) < 2147483647 → length buf = 256%nat →
  let '(t, rest, _) := edit_line (recent cmds) keys [] 0 in
  match rest with
  | None => ∃ s', shell_turn process_table page_directory user_mode_enter run_buf rtc_fuel h buf keys wakes c s = Some (SWait s') ∧
      shell_inv G s'
  | Some rest => (∀ junk, plain t junk wakes (y_ticks s)) →
      ∃ h' buf' x, shell_turn process_table page_directory user_mode_enter run_buf rtc_fuel h buf keys wakes c s = Some (STurn h' buf' rest x) ∧
        done_in G x ∧ hist_repr h' (remember_line cmds t) ∧ length buf' = 256%nat ∧ Forall printable t
  end.
Proof using Hheap.
  intros Hs Hh Hc Hn Hb. unfold shell_turn.
  destruct (console_inv G [green; Puts "vesper> "; grey] s Hs) as (v & -> & Hv & _); [unfold green, grey; pr_oks|].
  cbn [mbind option_bind]. unfold read_line, SHELL_BUF_SIZE.
  assert (line_repr (recent cmds) (Line buf 0 0) [] 0) as HL by (by constructor; simpl; try lia).
  pose proof (read_line_lemma h cmds Hh keys (Line buf 0 0) [] 0 v HL (iv_vga _ _ Hv)) as H.
  pose proof (edit_line_printable (recent cmds) keys [] 0) as Hpr.
  destruct (edit_line (recent cmds) keys [] 0) as [[t rest] echo]. destruct H as (v' & P & _ & H).
  assert (shell_inv G (set_vga v' (set_vga v s))) as Hs' by (apply inv_vga; [done|exact (ps_wf _ _ _ P)]).
  cbn [y_vga set_vga]. destruct rest as [rest|].
  - intros Hp. destruct H as (buf' & -> & Hl & Hcs & Htl). cbn [mbind option_bind].
    destruct (history_push_lemma h cmds buf' t Hh Hcs Htl Hn) as (h' & -> & Hh'). cbn [mbind option_bind].
    assert (Forall printable t) as Hprt.
    { apply Hpr; [|constructor]. unfold recent. by apply Forall_take, Forall_reverse. }
    destruct Hcs as (junk & -> & _).
    destruct (execute_answers G t junk wakes c _ Hs' (printable_text _ Hprt) Htl (Hp junk)) as (halts & s1 & E & Hs1 & _).
    cbn [y_vga set_vga] in E. rewrite E. cbn [mbind option_bind].
    eexists h', (t ++ 0 :: junk), _. split; [reflexivity|]. split; [|done]. exists s1. split; [destruct halts; auto|done].
  - destruct H as (L & pos & -> & _). cbn [mbind option_bind]. by eexists.
Qed.

(** The lines entered in the first [n] turns, when the history is [cmds]. *)
Fixpoint lines_typed (n : nat) (cmds : list (list Z)) (keys : list Z) : list (list Z) :=
  match n with
  | O => []
  | S n => match edit_line (recent cmds) keys [] 0 with
           | (t, Some rest, _) => t :: lines_typed n (remember_line cmds t) rest
           | _ => []
           end
  end.

(** The wake-ups of a turn end every sleep. *)
Definition enough (wakes : list Z) : Prop :=
  ∀ ms ticks, is_u32 ticks → ∃ t rest, timer_sleep_ms true ms ticks wakes = Awake t rest.

(** A line that starts no program, and sleeps only if the wake-ups end it. *)
Definition line_ok (t wakes : list Z) : Prop :=
  ∀ junk a, meaning t junk = Some a → ¬ starts_program a ∧ ∀ x, a = ASleep x → enough wakes.

(** Where the loop is, the invariant holds; it has not left for another process. *)
Definition loop_inv G (e : loop_exit) : Prop :=
  match e with
  | Prompt h _ s => shell_inv G s ∧ ∃ cmds, hist_repr h cmds
  | Waiting s | Stopped s => shell_inv G s
  | Gone _ _ => False
  end.

Lemma run_safe G turns : ∀ h cmds buf keys s,
  shell_inv G s → hist_repr h cmds → Forall (Forall printable) cmds →
  Z.of_nat (length cmds) + Z.of_nat (length turns) < 2147483648 → length buf = 256%nat →
  (∀ n t w, lines_typed (length turns) cmds keys !! n = Some t → turns !! n = Some w → line_ok t w.1) →
  ∃ e, shell_run process_table page_directory user_mode_enter run_buf rtc_fuel turns h buf keys s = Some e ∧ loop_inv G e.
Proof using Hheap.
  induction turns as [|[wakes c] turns IH]; intros h cmds buf keys s Hs Hh Hc Hn Hb Hok; cbn [shell_run].
  { eexists. split; [reflexivity|]. split; [done|by exists cmds]. }
  cbn [length lines_typed] in *. pose proof (turn_safe G h cmds buf keys wakes c s Hs Hh Hc ltac:(lia) Hb) as H.
  destruct (edit_line (recent cmds) keys [] 0) as [[t rest] echo]. destruct rest as [rest|].
  2:{ destruct H as (s' & -> & Hs'). cbn [mbind option_bind]. by eexists. }
  destruct H as (h' & buf' & x & -> & (s' & Hx & Hs') & Hh' & Hb' & Ht).
  { intros junk a Ha. destruct (Hok 0%nat t (wakes, c) eq_refl eq_refl junk a Ha) as [H1 H2].
    split; [done|]. intros y -> ms _. exact (H2 y eq_refl ms (y_ticks s) (iv_ticks _ _ Hs)). }
  cbn [mbind option_bind]. destruct Hx as [-> | ->]; [|by eexists].
  apply (IH h' (remember_line cmds t)); [done|done|by apply remember_printable| |done|].
  - unfold remember_line. case_decide; rewrite ?length_app; simpl; lia.
  - intros n u w H1 H2. by apply (Hok (S n) u w).
Qed.
End safe.

(** ** From start-up *)

Section boot.
Context (L : addresses) (user_mode_enter run_buf : Z) (rtc_fuel : nat).
Abbreviation shell_inv := (shell_inv (a_process_table L) (a_page_directory L) (a_page_tables L) (a_heap L) rtc_fuel).

(** The disk of a machine is blank, or something else without the mark of a file
    system, or holds one that is in order. *)
Definition disk_sound (dk : list (list Z)) : Prop :=
  Z.of_nat (length dk) < 268435456 ∧ (recognised dk → disk_wf dk).

Lemma booted_inv mmap k0 k :
  placed (a_process_table L) (a_page_directory L) (a_page_tables L) → booted L mmap k0 k →
  disk_sound (i_disk (f_dev (y_fs (n_sys k0)))) → (cm_busy (y_rtc (n_sys k0)) < rtc_fuel)%nat →
  shell_inv (idle_ctx L) (n_sys k).
Proof.
  intros Hpl Hb [Hd1 Hd2] Hr.
  destruct (bo_keyboard _ _ _ _ Hb) as (K1 & _ & K2), (bo_files _ _ _ _ Hb) as (F1 & F2 & _), (bo_paging _ _ _ _ Hb) as (_ & _ & _ & Hon).
  constructor; [apply (bo_processes _ _ _ _ Hb)|apply (bo_frames _ _ _ _ Hb)|by apply (booted_procs L mmap k0)
    |apply (bo_processes _ _ _ _ Hb)|intros j pd; by apply (booted_none L mmap k0)|exact Hon|..].
  - intros j p Hp. apply (bo_slots _ _ _ _ Hb j p Hp).
  - apply Hb.
  - apply Hb.
  - done.
  - by left.
  - by rewrite (bo_handlers _ _ _ _ Hb).
  - apply (bo_pipes _ _ _ _ Hb).
  - apply Hb.
  - constructor; [done|..]; change (bd_sectors (f_dev (y_fs (n_sys k)))) with (i_disk (f_dev (y_fs (n_sys k)))); by rewrite F2.
  - by rewrite (bo_clock _ _ _ _ Hb).
  - destruct (bo_timer _ _ _ _ Hb) as [-> _]. unfold is_u32. lia.
  - eexists. apply Hb.
Qed.

(** The history as the loader leaves it. *)
Definition no_history : hist := Hist (replicate 8 (replicate 256 0)) 0.

Lemma no_history_repr : hist_repr no_history [].
Proof.
  constructor; [done| |done|]; simpl.
  - intros i row Hi. change (replicate 8 (replicate 256 0) !! i = Some row) in Hi.
    apply lookup_replicate in Hi as [-> _]. apply length_replicate.
  - intros i cmd Hi. by rewrite lookup_nil in Hi.
Qed.

(** C8: the shell is safe.  After start-up, with any amount of memory in a map whose
    regions do not overlap ([mmap_ok], with or without entries), on a machine with a screen, a serial line, a
    clock and a disk that answer ([machine_ok]), the disk smaller than 2^28 sectors and
    either without the mark of a file system or with an intact one ([disk_sound]), and the
    kernel linked below 1 MB ([linked], [placed]):
    whatever keys are pressed (any characters, arrows and line lengths, any history),
    the loop of [shell_run] never faults: no access outside a buffer, an array, the
    screen or the disk, no command that is left half done, as long as no line typed is
    [run] or [exec], and the timer interrupts given end every [sleep] ([line_ok]).  After each
    line the invariant holds again, so that a later [exec] meets the conditions under
    which [first_program_runs] applies, once the disk has been formatted and if the
    machine has no memory above 8 MB ([shell_inv_ok]). *)
Theorem shell_session_safe serial_fuel mmap k buf turns keys :
  placed (a_process_table L) (a_page_directory L) (a_page_tables L) → linked L → mmap_ok mmap →
  machine_ok serial_fuel k → disk_sound (i_disk (f_dev (y_fs (n_sys k)))) → (cm_busy (y_rtc (n_sys k)) < rtc_fuel)%nat →
  length buf = 256%nat → Z.of_nat (length turns) < 2147483648 →
  (∀ n t w, lines_typed (length turns) [] keys !! n = Some t → turns !! n = Some w → line_ok t w.1) →
  ∃ k' e, kernel_main L serial_fuel mmap (kernel_entry k) = Some k' ∧
    shell_run (a_process_table L) (a_page_directory L) user_mode_enter run_buf rtc_fuel turns no_history buf keys (n_sys k') = Some e ∧
    loop_inv (a_process_table L) (a_page_directory L) (a_page_tables L) (a_heap L) rtc_fuel (idle_ctx L) e.
Proof.
  intros Hpl HL Hm Hk Hd Hr Hb Hn Hok. destruct (kernel_main_lemma L serial_fuel mmap k HL Hm Hk) as (k' & E & Hbo).
  pose proof (booted_inv mmap k k' Hpl Hbo Hd Hr) as Hs.
  destruct (run_safe _ _ _ user_mode_enter run_buf (a_heap L) rtc_fuel (proj1 (li_heap L HL)) _ turns no_history [] buf keys _ Hs
    no_history_repr) as (e & Ee & He); [constructor|simpl; lia|done|done|]. by exists k', e.
Qed.
End boot.

(** 32 MB of memory. *)
Lemma demo_mmap_ok : mmap_ok demo_mmap.
Proof.
  constructor; [simpl; lia|reflexivity| |exact demo_mmap_disjoint]. apply Forall_take.
  repeat constructor; unfold e820_ok, is_u64; simpl; lia.
Qed.

Lemma boot_machine_ok f : fs_wf f → machine_ok 5 (boot_machine f).
Proof. intros Hf. constructor; [reflexivity|reflexivity|simpl; lia|split; [simpl; lia|repeat constructor; lia]|apply Hf|apply Hf]. Qed.

Lemma boot_disk_sound (f : fs ide) : fs_wf f → length (bd_sectors (f_dev f)) = 200%nat → disk_sound (i_disk (f_dev (y_fs (n_sys (boot_machine f))))).
Proof.
  intros Hf Hl. split; [|intros _; apply Hf]. change (Z.of_nat (length (bd_sectors (f_dev f))) < 268435456). rewrite Hl. lia.
Qed.

Lemma demo_booted_inv f :
  fs_wf f → length (bd_sectors (f_dev f)) = 200%nat →
  ∃ k', kernel_main demo_addresses 5 demo_mmap (kernel_entry (boot_machine f)) = Some k' ∧
    shell_inv 131072 65536 69632 524288 4 (idle_ctx demo_addresses) (n_sys k').
Proof.
  intros Hf Hl.
  destruct (kernel_main_lemma demo_addresses 5 demo_mmap (boot_machine f) demo_linked demo_mmap_ok (boot_machine_ok f Hf)) as (k' & E & Hb).
  exists k'. split; [exact E|].
  apply (booted_inv demo_addresses 4 demo_mmap (boot_machine f) k'); [exact run_placed|exact Hb|by apply boot_disk_sound|simpl; lia].
Qed.

(** "mkfs" makes a file system without files. *)
Lemma shell_command_safe_witness :
  ∃ (s s' : sys ide pics cmos),
    execute_command 131072 65536 4096 262144 4 (c_chars "mkfs" ++ 0 :: [7]) [] demo_cpu s = Some (Returned s') ∧ files s' = Some ∅.
Proof.
  destruct demo_formatted_200 as (f & Hf & Hl). destruct (demo_booted_inv f Hf Hl) as (k' & _ & Hs). exists (n_sys k').
  destruct (shell_command_safe 131072 65536 69632 4096 262144 524288 4 ltac:(lia) (idle_ctx demo_addresses) (c_chars "mkfs") [7] []
    demo_cpu (n_sys k') Hs) as (h & s' & E & _ & R); [|simpl; lia| |].
  - repeat constructor; unfold is_u8; simpl; lia.
  - intros a [= <-]. split; [intros X; exact X|discriminate].
  - exists s'. destruct R as (tr & _ & Hh & _ & Hfs & _). rewrite Hh in E. split; [exact E|exact Hfs].
Defined.

(** Two lines: "mkfs" and "ls". *)
Definition demo_keys : list Z := c_chars "mkfs\nls\n".

Lemma demo_lines_ok n t w :
  lines_typed 2 [] demo_keys !! n = Some t → [([] : list Z, demo_cpu); ([], demo_cpu)] !! n = Some w → line_ok t w.1.
Proof.
  assert (lines_typed 2 [] demo_keys = [c_chars "mkfs"; c_chars "ls"]) as -> by (vm_compute; reflexivity).
  intros Ht _ junk a Ha. destruct n as [|[|n]]; [injection Ht as <-..|done]; injection Ha as <-; (split; [intros X; exact X|discriminate]).
Qed.

Lemma shell_session_safe_witness :
  ∃ f k' e, kernel_main demo_addresses 5 demo_mmap (kernel_entry (boot_machine f)) = Some k' ∧
    shell_run 131072 65536 4096 262144 4 [([], demo_cpu); ([], demo_cpu)] no_history (replicate 256 0) demo_keys (n_sys k') = Some e.
Proof.
  destruct demo_formatted_200 as (f & Hf & Hl). exists f.
  destruct (shell_session_safe demo_addresses 4096 262144 4 5 demo_mmap (boot_machine f) (replicate 256 0)
    [([], demo_cpu); ([], demo_cpu)] demo_keys) as (k' & e & E1 & E2 & _).
  - exact run_placed.
  - exact demo_linked.
  - exact demo_mmap_ok.
  - by apply boot_machine_ok.
  - by apply boot_disk_sound.
  - simpl. lia.
  - apply length_replicate.
  - simpl. lia.
  - exact demo_lines_ok.
  - exists k', e. split; [exact E1|exact E2].
Defined.
