(* ===== verification/Boot.v ===== *)
(** * The boot sector ([src/bootloader/boot.asm])

    The 512 bytes that the BIOS loads at 0x7C00: they store the memory map that
    INT 15h delivers at 0x500, read the kernel from the disk to 0x1000 with INT 13h, and
    enter protected mode.  The BIOS is a parameter ([Bios]): what it does with its
    arguments is a function, and the theorems state what is documented of it as
    hypotheses.  Stack bytes below the stack pointer are not modelled.

    The memory holds the running code.  A BIOS call that stores over the boot sector or
    over a return address ends the model in [CodeLost]: the processor then executes
    whatever was stored. *)

From Stdlib Require Import String.
From S2P Require Import Prelude Mem CString Pmm Console Desc Elf Kernel.

(** ** Data *)

Definition KERNEL_OFFSET : Z := 4096.
Definition KERNEL_SECTORS : Z := 128.
Definition MMAP_ADDR : Z := 1280.
Definition MMAP_MAX : Z := 32.
Definition BOOT_SECTOR : Z := 31744.
Definition SMAP : Z := 1397571920.

Definition MSG_LOADING : list Z := c_chars "VESPER OS Loading..." ++ [13; 10; 0].
Definition MSG_LOAD_KERNEL : list Z := c_chars "Loading kernel..." ++ [13; 10; 0].
Definition MSG_DISK_ERROR : list Z := c_chars "Disk read error!" ++ [13; 10; 0].
Definition MSG_SECTORS_ERROR : list Z := c_chars "Sectors read mismatch!" ++ [13; 10; 0].

(** The results of INT 15h, EAX = 0xE820, and of INT 13h, AH = 2: carry flag, registers,
    and the bytes stored in the caller's buffer. *)
Record e820_ret := E820Ret { x_cf : bool; x_eax : Z; x_ebx : Z; x_ecx : Z; x_edx : Z; x_data : list Z }.
Record disk_ret := DiskRet { d_cf : bool; d_al : Z; d_data : list Z }.

Class Bios (B : Type) := {
  int10_tty : Z → B → B;
  int15_e820 : Z → Z → Z → B → e820_ret * B;
  int13_read : Z → Z → Z → Z → Z → B → disk_ret * B
}.

Definition store16 (m : mem) (a v : Z) : mem := store8 (store8 m a v) (a + 1) (v `div` 256).

Fixpoint store_bytes (m : mem) (a : Z) (bs : list Z) : mem :=
  match bs with
  | [] => m
  | b :: bs => store_bytes (store8 m a b) (a + 1) bs
  end.

Definition range (m : mem) (a n : Z) : list Z := load8 m <$> seqZ a n.

(** Signed 16-bit comparison. *)
Definition s16 (z : Z) : Z := if decide (u16 z < 32768) then u16 z else u16 z - 65536.

(** How the kernel is loaded: it is there; a message and an endless loop; or the code
    has been overwritten. *)
Inductive load_exit (B : Type) := DiskOk (m : mem) (b : B) | DiskHang (m : mem) (b : B) | CodeLost (m : mem) (b : B).
Arguments DiskOk {B} _ _.
Arguments DiskHang {B} _ _.
Arguments CodeLost {B} _ _.

(** ** Code *)

Section boot.
Context {B : Type} `{!Bios B}.

(** [print_string] on the bytes at SI. *)
Fixpoint print_string (cs : list Z) (b : B) : option B :=
  match cs with
  | [] => None
  | c :: cs => if decide (c = 0) then Some b else print_string cs (int10_tty c b)
  end.

(** From [.e820_loop] on; EDX keeps what the BIOS left in it. *)
Fixpoint e820_loop (fuel : nat) (ebx edx di bp : Z) (m : mem) (b : B) : option (Z * mem * B) :=
  match fuel with
  | O => None
  | S fuel =>
      let '(r, b) := int15_e820 ebx 20 edx b in
      let m := store_bytes m di (x_data r) in
      if x_cf r then Some (bp, m, b)
      else if decide (x_eax r ≠ SMAP) then Some (bp, m, b)
      else if decide (s16 (x_ecx r) < 20) then
        if decide (x_ebx r = 0) then Some (bp, m, b) else e820_loop fuel (x_ebx r) (x_edx r) di bp m b
      else
        let bp := u16 (bp + 1) in
        let di := u16 (di + 20) in
        if decide (MMAP_MAX ≤ s16 bp) then Some (bp, m, b)
        else if decide (x_ebx r = 0) then Some (bp, m, b)
        else e820_loop fuel (x_ebx r) (x_edx r) di bp m b
  end.

Definition detect_memory (fuel : nat) (m : mem) (b : B) : option (mem * B) :=
  '(bp, m, b) ← e820_loop fuel 0 SMAP (MMAP_ADDR + 2) 0 m b;
  Some (store16 m MMAP_ADDR bp, b).

(** The boot sector in [m'] is the one in [m]. *)
Definition code_kept (m m' : mem) : bool := bool_decide (range m' BOOT_SECTOR 512 = range m BOOT_SECTOR 512).

(** [disk_load] with ES = 0; the return address is at [sp]. *)
Definition disk_load (bx dh dl sp : Z) (m : mem) (b : B) : option (load_exit B) :=
  let m := store16 m (sp - 2) (dl + 256 * dh) in
  let '(r, b) := int13_read dh 0 2 0 dl b in
  let m' := store_bytes m bx (d_data r) in
  if negb (code_kept m m') then Some (CodeLost m' b)
  else if d_cf r then b ← print_string MSG_DISK_ERROR b; Some (DiskHang m' b)
  else if decide (d_al r ≠ load8 m' (sp - 1)) then b ← print_string MSG_SECTORS_ERROR b; Some (DiskHang m' b)
  else if decide (load16 m' sp ≠ load16 m sp) then Some (CodeLost m' b)
  else Some (DiskOk m' b).

(** Addresses of [BOOT_DRIVE] and of [gdt_start], and the return addresses of the calls
    of [load_kernel] and [disk_load], as assembled. *)
Context (boot_drive gdt_start ret_load ret_disk : Z).

Definition load_kernel (m : mem) (b : B) : option (load_exit B) :=
  let m := store16 m (BOOT_SECTOR - 2) ret_load in
  b ← print_string MSG_LOAD_KERNEL b;
  let m := store16 m (BOOT_SECTOR - 4) ret_disk in
  x ← disk_load KERNEL_OFFSET KERNEL_SECTORS (load8 m boot_drive) (BOOT_SECTOR - 4) m b;
  match x with
  | DiskOk m' b => if decide (load16 m' (BOOT_SECTOR - 2) ≠ u16 ret_load) then Some (CodeLost m' b) else Some (DiskOk m' b)
  | x => Some x
  end.

(** ** Protected mode *)

Definition boot_gdt : list gdt_entry :=
  [GdtEntry 0 0 0 0 0 0; GdtEntry 65535 0 0 154 207 0; GdtEntry 65535 0 0 146 207 0].
Definition CODE_SEG : Z := 8.
Definition DATA_SEG : Z := 16.

(** The state of the processor at the jump to the kernel. *)
Record pm_state := Pm { pm_segs : segs; pm_esp : Z; pm_ebp : Z; pm_eip : Z; pm_cr0 : Z; pm_gdtr : desc_ptr; pm_if : bool }.

(** [switch_to_pm] and [init_pm]. *)
Definition switch_to_pm (cr0 : Z) : pm_state :=
  Pm (Segs CODE_SEG DATA_SEG DATA_SEG DATA_SEG DATA_SEG DATA_SEG) 589824 589824 KERNEL_OFFSET (Z.lor cr0 1)
    (DescPtr (u16 (Z.of_nat (length boot_gdt) * 8 - 1)) gdt_start) false.

Inductive boot_exit := Entered (p : pm_state) (m : mem) (b : B) | Stopped (x : load_exit B).

(** [start], with the drive number in [dl]. *)
Definition boot_start (fuel : nat) (dl cr0 : Z) (m : mem) (b : B) : option boot_exit :=
  let m := store8 m boot_drive dl in
  b ← print_string MSG_LOADING b;
  '(m, b) ← detect_memory fuel m b;
  x ← load_kernel m b;
  match x with
  | DiskOk m b => Some (Entered (switch_to_pm cr0) m b)
  | x => Some (Stopped x)
  end.
End boot.

(** ** The memory map in memory *)

(** [boot_mmap_t] of [pmm.h], packed. *)
Definition load64 (m : mem) (a : Z) : Z := load32 m a + 4294967296 * load32 m (a + 4).
Definition read_entry (m : mem) (a : Z) : e820_entry := E820 (load64 m a) (load64 m (a + 8)) (load32 m (a + 16)).
Definition read_boot_mmap (m : mem) : boot_mmap :=
  BootMmap (load16 m MMAP_ADDR) ((λ i, read_entry m (MMAP_ADDR + 2 + 20 * i)) <$> seqZ 0 32).

(** The 20 bytes in which the BIOS delivers an entry. *)
Definition le32 (z : Z) : list Z := [z `mod` 256; (z `div` 256) `mod` 256; (z `div` 65536) `mod` 256; (z `div` 16777216) `mod` 256].
Definition le64 (z : Z) : list Z := le32 (z `mod` 4294967296) ++ le32 (z `div` 4294967296).
Definition entry_bytes (e : e820_entry) : list Z := le64 (e_base e) ++ le64 (e_length e) ++ le32 (Pmm.e_type e).

Lemma store_bytes_load bs : ∀ m a x,
  load8 (store_bytes m a bs) x =
    if decide (a ≤ x < a + Z.of_nat (length bs)) then u8 (default 0 (bs !! Z.to_nat (x - a))) else load8 m x.
Proof.
  induction bs as [|c bs IH]; intros m a x; cbn [store_bytes length].
  { by rewrite decide_False by lia. }
  rewrite IH. destruct (decide (x = a)) as [->|Hx].
  - rewrite decide_False by lia. rewrite decide_True by lia. replace (Z.to_nat (a - a)) with 0%nat by lia.
    by rewrite load8_store8_eq.
  - rewrite load8_store8_ne by done. destruct (decide (a + 1 ≤ x < _)).
    + rewrite decide_True by lia. by replace (Z.to_nat (x - a)) with (S (Z.to_nat (x - (a + 1)))) by lia.
    + by rewrite decide_False by lia.
Qed.

(** Two little-endian words, one after the other, and what they mean. *)
Lemma store_bytes_app bs1 bs2 : ∀ m a,
  store_bytes m a (bs1 ++ bs2) = store_bytes (store_bytes m a bs1) (a + Z.of_nat (length bs1)) bs2.
Proof.
  induction bs1 as [|c bs IH]; intros m a; cbn [store_bytes length app].
  { by replace (a + Z.of_nat 0) with a by lia. }
  rewrite IH. f_equal. lia.
Qed.

Lemma le32_store m a z : is_u32 z → load32 (store_bytes m a (le32 z)) a = z.
Proof.
  intros Hz. unfold le32. cbn [store_bytes]. unfold load32.
  rewrite !load8_store8.
  repeat match goal with
  | |- context [decide ?P] => first [rewrite (decide_True (P := P)) by lia | rewrite (decide_False (P := P)) by lia]
  end. word_lia.
Qed.

Lemma load32_other m a bs x :
  x + 4 ≤ a ∨ a + Z.of_nat (length bs) ≤ x → load32 (store_bytes m a bs) x = load32 m x.
Proof. intros H. apply load32_ext. intros b Hb. rewrite store_bytes_load. by rewrite decide_False by lia. Qed.

Lemma le64_store m a z : is_u64 z → load64 (store_bytes m a (le64 z)) a = z.
Proof.
  intros Hz. unfold le64, load64. rewrite store_bytes_app. change (Z.of_nat (length (le32 _))) with 4.
  rewrite le32_store by (unfold is_u32, is_u64 in *; zdm).
  rewrite load32_other by (simpl; lia). rewrite le32_store by (unfold is_u32; zdm). zdm.
Qed.

Lemma load64_other m a bs x :
  x + 8 ≤ a ∨ a + Z.of_nat (length bs) ≤ x → load64 (store_bytes m a bs) x = load64 m x.
Proof. intros H. unfold load64. by rewrite !load32_other by lia. Qed.

(** The kernel's struct reads what the BIOS has stored. *)
Lemma entry_store m a e :
  e820_ok e → is_u32 (Pmm.e_type e) → read_entry (store_bytes m a (entry_bytes e)) a = e.
Proof.
  intros (H1 & H2 & _) H3. unfold read_entry, entry_bytes. rewrite !store_bytes_app.
  change (Z.of_nat (length (le64 _))) with 8. replace (a + 8 + 8) with (a + 16) by lia.
  rewrite le32_store by done. rewrite (load64_other _ (a + 16)) by (simpl; lia). rewrite (load64_other _ (a + 8)) by (simpl; lia).
  rewrite (load64_other _ (a + 16)) by (simpl; lia). rewrite !le64_store by done. by destruct e.
Qed.

Lemma read_entry_ext m m' a : (∀ b, a ≤ b < a + 20 → load8 m' b = load8 m b) → read_entry m' a = read_entry m a.
Proof.
  intros H. unfold read_entry, load64. f_equal; [f_equal; [|f_equal]|f_equal; [|f_equal]|]; apply load32_ext; intros; apply H; lia.
Qed.

(** ** Memory detection *)

Section detect.
Context {B : Type} `{!Bios B}.

(** A BIOS that delivers the entries [es] from the continuation value [ebx] on, as
    documented for calls with the signature in EDX: one entry of 20 bytes per call,
    the signature in EAX, the next continuation value in EBX, and 0 with the last
    entry or the carry flag after it. *)
Inductive e820_from : Z → B → list e820_entry → Prop :=
| from_none ebx b b' r : int15_e820 ebx 20 SMAP b = (r, b') → x_cf r = true → x_data r = [] → e820_from ebx b []
| from_last ebx b b' r e : int15_e820 ebx 20 SMAP b = (r, b') → x_cf r = false → x_eax r = SMAP → x_ecx r = 20 →
    x_ebx r = 0 → x_data r = entry_bytes e → e820_from ebx b [e]
| from_more ebx b b' r e es : int15_e820 ebx 20 SMAP b = (r, b') → x_cf r = false → x_eax r = SMAP → x_ecx r = 20 →
    x_ebx r ≠ 0 → x_data r = entry_bytes e → e820_from (x_ebx r) b' es → e820_from ebx b (e :: es).

(** A BIOS whose E820 call leaves EDX alone.  The description of the call does not
    promise it, but the loop of [detect_memory] does not set EDX again, so it relies
    on it ([detect_memory_needs_edx]). *)
Definition keeps_edx : Prop := ∀ ebx ecx edx b, x_edx (int15_e820 ebx ecx edx b).1 = edx.

Definition entry_ok (e : e820_entry) : Prop := e820_ok e ∧ is_u32 (Pmm.e_type e).

(** The entries from slot [bp] on are in place, and nothing before is changed. *)
Definition entries_at (bp : Z) (es : list e820_entry) (m m' : mem) : Prop :=
  (∀ k e, 0 ≤ k → bp + k < 32 → aget es k = Some e → read_entry m' (1282 + 20 * (bp + k)) = e) ∧
  ∀ b, b < 1282 + 20 * bp ∨ 1922 ≤ b → load8 m' b = load8 m b.

Lemma entries_cons bp e es m m1 m' :
  0 ≤ bp < 32 → entry_ok e → m1 = store_bytes m (1282 + 20 * bp) (entry_bytes e) →
  entries_at (bp + 1) es m1 m' → entries_at bp (e :: es) m m'.
Proof.
  intros Hbp [He1 He2] -> [H1 H2]. split.
  - intros k e' Hk Hlt Hg. destruct (decide (k = 0)) as [->|Hk0].
    + injection Hg as <-. replace (bp + 0) with bp by lia. rewrite <-(entry_store m (1282 + 20 * bp) e He1 He2).
      apply read_entry_ext. intros b Hb. apply H2. lia.
    + replace (bp + k) with (bp + 1 + (k - 1)) by lia. apply H1; [lia|lia|].
      unfold aget in Hg |- *. rewrite !decide_True in * by lia. by replace (Z.to_nat k) with (S (Z.to_nat (k - 1))) in Hg by lia.
  - intros b Hb. rewrite H2 by lia. rewrite store_bytes_load. change (Z.of_nat (length (entry_bytes e))) with 20.
    by rewrite decide_False by lia.
Qed.

Lemma entries_one bp e m : 0 ≤ bp < 32 → entry_ok e → entries_at bp [e] m (store_bytes m (1282 + 20 * bp) (entry_bytes e)).
Proof.
  intros Hbp He. eapply entries_cons; [done|done|reflexivity|]. split; [|done]. intros k e' Hk _ Hg.
  apply aget_Some_lt in Hg. simpl in Hg. lia.
Qed.

(** When the table is full. *)
Lemma entries_full e es m : entry_ok e → entries_at 31 (e :: es) m (store_bytes m (1282 + 20 * 31) (entry_bytes e)).
Proof.
  intros He. eapply entries_cons; [lia|done|reflexivity|]. split; [intros; lia|done].
Qed.

Lemma e820_loop_ok ebx b es :
  keeps_edx → e820_from ebx b es → ∀ fuel bp m, Forall entry_ok es → 0 ≤ bp < 32 → (32 ≤ Z.to_nat bp + fuel)%nat →
  ∃ m' b', e820_loop fuel ebx SMAP (1282 + 20 * bp) bp m b = Some (Z.min 32 (bp + Z.of_nat (length es)), m', b') ∧
    entries_at bp es m m'.
Proof.
  intros Hedx. assert (∀ bp, 0 ≤ bp < 32 → u16 (bp + 1) = bp + 1 ∧ s16 (bp + 1) = bp + 1 ∧ u16 (1282 + 20 * bp + 20) = 1282 + 20 * (bp + 1)) as Hw.
  { intros bp Hbp. unfold s16. rewrite !u16_small by (unfold is_u16; lia). rewrite decide_True by lia. lia. }
  induction 1 as [ebx b b' r E Hcf Hd|ebx b b' r e E Hcf Ha Hc Hb Hd|ebx b b' r e es E Hcf Ha Hc Hb Hd Hr IH];
    intros fuel bp m Hes Hbp Hfuel; (destruct fuel as [|fuel]; [lia|]); cbn [e820_loop]; rewrite E, Hd, Hcf; cbn [store_bytes].
  { exists m, b'. simpl length. split; [do 3 f_equal; lia|]. split; [|done]. intros k e Hk _ Hg. apply aget_Some_lt in Hg. simpl in Hg. lia. }
  all: apply Forall_cons_1 in Hes as [He Hes]; destruct (Hw bp Hbp) as (W1 & W2 & W3); rewrite Ha, Hc.
  all: rewrite (decide_False (P := SMAP ≠ SMAP)) by (intros X; by apply X).
  all: rewrite (decide_False (P := s16 20 < 20)) by (vm_compute; discriminate).
  all: cbv zeta; rewrite !W1, W2, W3; unfold MMAP_MAX.
  - rewrite Hb. eexists _, b'. split; [destruct (decide (32 ≤ bp + 1)); [|rewrite decide_True by done]; do 3 f_equal; simpl length; lia|].
    by apply entries_one.
  - destruct (decide (32 ≤ bp + 1)) as [Hfull|Hfull].
    + eexists _, b'. split; [do 3 f_equal; simpl length; lia|]. assert (bp = 31) as -> by lia. by apply entries_full.
    + rewrite decide_False by done. pose proof (Hedx ebx 20 SMAP b) as Hx. rewrite E in Hx. cbn [fst] in Hx. rewrite Hx.
      destruct (IH fuel (bp + 1) (store_bytes m (1282 + 20 * bp) (entry_bytes e)) Hes ltac:(lia) ltac:(lia)) as (m' & b2 & -> & Hm).
      exists m', b2. split; [do 3 f_equal; simpl length; lia|]. by eapply entries_cons.
Qed.

(** C38: the memory map.  From a BIOS that answers E820 calls as documented
    ([e820_from]) and, which the documentation does not promise but the loop relies
    on, leaves the signature in EDX ([keeps_edx]),
    [detect_memory] leaves at 0x500 exactly what the kernel reads there as its
    [boot_mmap_t]: the number of entries, at most 32, and the entries in order; no other
    memory is changed.  If moreover the usable entries do not overlap, the map is one
    for which the start-up of the kernel is proved, also if it is empty. *)
Theorem detect_memory_map m b es :
  e820_from 0 b es → keeps_edx → Forall entry_ok es →
  ∃ m' b', detect_memory 32 m b = Some (m', b') ∧
    let mm := read_boot_mmap m' in
    mm_count mm = Z.min 32 (Z.of_nat (length es)) ∧
    (∀ i e, 0 ≤ i < 32 → aget es i = Some e → aget (mm_entries mm) i = Some e) ∧
    (∀ x, x < 1280 ∨ 1922 ≤ x → load8 m' x = load8 m x) ∧
    (e820_disjoint es (Z.of_nat (length es)) → mmap_ok mm).
Proof.
  intros Hb Hedx Hes. destruct (e820_loop_ok 0 b es Hedx Hb 32 0 m Hes) as (m1 & b' & E & H1 & H2); [lia|lia|].
  set (n := Z.min 32 (0 + Z.of_nat (length es))). assert (n = Z.min 32 (Z.of_nat (length es))) as Hn by (unfold n; lia).
  set (m' := store16 m1 MMAP_ADDR n). exists m', b'.
  split; [unfold detect_memory; change (MMAP_ADDR + 2) with (1282 + 20 * 0); by rewrite E|]. cbv zeta.
  assert (∀ x, x < 1280 ∨ 1282 ≤ x → load8 m' x = load8 m1 x) as Hm'.
  { intros x Hx. unfold m', store16, MMAP_ADDR. by rewrite !load8_store8_ne by lia. }
  assert (mm_count (read_boot_mmap m') = n) as Hcount.
  { cbn [mm_count read_boot_mmap]. unfold load16, m', store16, MMAP_ADDR. rewrite load8_store8_ne by lia. rewrite !load8_store8_eq. word_lia. }
  assert (∀ i e, 0 ≤ i < 32 → aget es i = Some e → aget (mm_entries (read_boot_mmap m')) i = Some e) as Hent.
  { intros i e Hi Hg. cbn [mm_entries read_boot_mmap]. unfold aget. rewrite decide_True by lia.
    rewrite list_lookup_fmap, lookup_seqZ_lt by lia. simpl. f_equal. rewrite <-(H1 i e) by (done || lia).
    unfold MMAP_ADDR. replace (1280 + 2 + 20 * (0 + Z.of_nat (Z.to_nat i))) with (1282 + 20 * (0 + i)) by lia.
    apply read_entry_ext. intros x Hx. apply Hm'. lia. }
  split; [by rewrite Hcount|]. split; [exact Hent|]. split.
  - intros x Hx. rewrite Hm' by lia. apply H2. lia.
  - intros Hdis. assert (∀ i e, 0 ≤ i < n → aget (mm_entries (read_boot_mmap m')) i = Some e → aget es i = Some e) as Hback.
    { intros i e Hi Hg. destruct (aget_is_Some es i) as [e' He']; [lia|]. rewrite (Hent i e') in Hg by (done || lia).
      by injection Hg as <-. }
    constructor; rewrite ?Hcount.
    + lia.
    + cbn [mm_entries read_boot_mmap]. by rewrite length_fmap, length_seqZ.
    + apply Forall_lookup. intros k e Hk. apply lookup_take_Some in Hk as [Hk Hlt].
      assert (aget es (Z.of_nat k) = Some e) as Hg by (apply Hback; [lia|by rewrite aget_nat]).
      rewrite aget_nat in Hg. rewrite Forall_lookup in Hes. apply (Hes k e Hg).
    + intros i j x y Hij Hj Hx Hy. apply (Hdis i j); [done|lia|apply Hback; [lia|done]|apply Hback; [lia|done]].
Qed.

(** One round of the loop with an entry that is not the last, into the first slot; and
    the round that ends it. *)
Lemma e820_loop_next fuel ebx edx di m b r b1 e :
  int15_e820 ebx 20 edx b = (r, b1) → x_cf r = false → x_eax r = SMAP → x_ecx r = 20 → x_ebx r ≠ 0 →
  x_data r = entry_bytes e →
  e820_loop (S fuel) ebx edx di 0 m b =
    e820_loop fuel (x_ebx r) (x_edx r) (u16 (di + 20)) 1 (store_bytes m di (entry_bytes e)) b1.
Proof.
  intros E Hcf Ha Hc Hb Hd. cbn [e820_loop]. rewrite E, Hcf, Ha, Hc, Hd.
  rewrite (decide_False (P := SMAP ≠ SMAP)) by (intros X; by apply X).
  rewrite (decide_False (P := s16 20 < 20)) by (vm_compute; discriminate). cbv zeta.
  change (u16 (0 + 1)) with 1. rewrite (decide_False (P := MMAP_MAX ≤ s16 1)) by (vm_compute; auto).
  by rewrite (decide_False (P := x_ebx r = 0)) by exact Hb.
Qed.

Lemma e820_loop_end fuel ebx edx di bp m b r b1 :
  int15_e820 ebx 20 edx b = (r, b1) → x_cf r = true → x_data r = [] →
  e820_loop (S fuel) ebx edx di bp m b = Some (bp, m, b1).
Proof. intros E Hcf Hd. cbn [e820_loop]. by rewrite E, Hcf, Hd. Qed.

(** Without that the map is cut short: from a BIOS that is documented as well, but
    that returns something else in EDX with its first entry and refuses a call
    without the signature, the kernel gets a map with a single entry, however many
    there are. *)
Theorem detect_memory_needs_edx m b b1 r e :
  int15_e820 0 20 SMAP b = (r, b1) → x_cf r = false → x_eax r = SMAP → x_ecx r = 20 → x_ebx r ≠ 0 →
  x_data r = entry_bytes e → x_edx r ≠ SMAP →
  (∀ ebx edx c, edx ≠ SMAP → x_cf (int15_e820 ebx 20 edx c).1 = true ∧ x_data (int15_e820 ebx 20 edx c).1 = []) →
  ∃ m' b', detect_memory 32 m b = Some (m', b') ∧ mm_count (read_boot_mmap m') = 1.
Proof.
  intros E Hcf Ha Hc Hb Hd Hx Hno.
  destruct (int15_e820 (x_ebx r) 20 (x_edx r) b1) as [r2 b2] eqn:E2. pose proof (Hno (x_ebx r) (x_edx r) b1 Hx) as [Hcf2 Hd2].
  rewrite E2 in Hcf2, Hd2. cbn [fst] in Hcf2, Hd2.
  unfold detect_memory. rewrite (e820_loop_next _ _ _ _ _ _ _ _ _ E) by done.
  rewrite (e820_loop_end _ _ _ _ _ _ _ _ _ E2) by done. cbn [mbind option_bind].
  eexists _, b2. split; [reflexivity|]. cbn [mm_count read_boot_mmap]. unfold load16, store16, MMAP_ADDR.
  rewrite load8_store8_ne by lia. rewrite !load8_store8_eq. reflexivity.
Qed.
End detect.

(** ** Loading the kernel *)

Section load.
Context {B : Type} `{!Bios B}.

Lemma range_eq m m' a n : (∀ x, a ≤ x < a + n → load8 m' x = load8 m x) → range m' a n = range m a n.
Proof.
  intros H. unfold range. apply list_fmap_ext. intros i x Hx. apply lookup_seqZ in Hx as [-> Hi]. apply H. lia.
Qed.

(** The bytes of a sector in a buffer that was read. *)
Lemma range_stored m a bs k n :
  Forall is_u8 bs → 0 ≤ k → 0 ≤ n → k + n ≤ Z.of_nat (length bs) →
  range (store_bytes m a bs) (a + k) n = take (Z.to_nat n) (drop (Z.to_nat k) bs).
Proof.
  intros Hb Hk Hn Hl. apply list_eq. intros i. unfold range. rewrite list_lookup_fmap.
  destruct (decide (i < Z.to_nat n)%nat) as [Hi|Hi].
  - rewrite lookup_seqZ_lt by lia. rewrite lookup_take_lt, lookup_drop by done. simpl. rewrite store_bytes_load.
    rewrite decide_True by lia. replace (Z.to_nat (a + k + Z.of_nat i - a)) with (Z.to_nat k + i)%nat by lia.
    destruct (lookup_lt_is_Some_2 bs (Z.to_nat k + i)) as [y Hy]; [lia|]. rewrite Hy. simpl. f_equal. apply u8_small.
    rewrite Forall_lookup in Hb. by apply (Hb (Z.to_nat k + i)%nat).
  - rewrite lookup_seqZ_ge by lia. rewrite lookup_take_ge by lia. done.
Qed.

(** [disk_load] of [n] sectors that end below its stack frame: they are in place, and
    nothing else is changed but the pushed word. *)
Lemma disk_load_ok bx n dl sp m b b' data :
  int13_read n 0 2 0 dl b = (DiskRet false n data, b') → is_u8 n → is_u8 dl → length data = Z.to_nat (512 * n) →
  bx + 512 * n ≤ sp - 2 → sp + 2 ≤ BOOT_SECTOR →
  ∃ m', disk_load bx n dl sp m b = Some (DiskOk m' b') ∧
    ∀ x, load8 m' x = if decide (bx ≤ x < bx + 512 * n) then u8 (default 0 (data !! Z.to_nat (x - bx)))
                      else load8 (store16 m (sp - 2) (dl + 256 * n)) x.
Proof.
  intros E Hn Hdl Hlen Hsp Htop. set (m1 := store16 m (sp - 2) (dl + 256 * n)). set (m' := store_bytes m1 bx data).
  assert (∀ x, load8 m' x = if decide (bx ≤ x < bx + 512 * n) then u8 (default 0 (data !! Z.to_nat (x - bx))) else load8 m1 x) as Hm.
  { intros x. unfold m'. rewrite store_bytes_load. rewrite Hlen. unfold is_u8 in Hn. by rewrite Z2Nat.id by lia. }
  exists m'. split; [|exact Hm]. unfold disk_load. fold m1. rewrite E. cbn [d_data d_cf d_al]. fold m'.
  assert (code_kept m1 m' = true) as ->.
  { apply bool_decide_eq_true, range_eq. intros x Hx. rewrite Hm. by rewrite decide_False by (unfold BOOT_SECTOR in *; lia). }
  cbn [negb]. rewrite (decide_False (P := n ≠ load8 m' (sp - 1))).
  2:{ intros X. apply X. rewrite Hm, decide_False by lia. unfold m1, store16. replace (sp - 2 + 1) with (sp - 1) by lia.
      rewrite load8_store8_eq. word_lia. }
  rewrite decide_False; [done|]. intros X. apply X. unfold load16. by rewrite !Hm, !decide_False by lia.
Qed.

Context (boot_drive ret_load ret_disk : Z).

(** C40: The loader overwrites itself.  [load_kernel] asks for 128 sectors at 0x1000, that is
    for all memory up to 0x11000, with the running boot sector at 0x7C00 in the middle.
    Whatever BIOS reads them all, the 55th sector after the boot sector is then in the
    place of the code; unless it is equal to the boot sector, the processor does not
    continue in [disk_load], and the kernel is not entered. *)
Theorem load_kernel_overwrites_itself m b b1 b2 data :
  BOOT_SECTOR ≤ boot_drive → print_string MSG_LOAD_KERNEL b = Some b1 →
  int13_read KERNEL_SECTORS 0 2 0 (load8 m boot_drive) b1 = (DiskRet false KERNEL_SECTORS data, b2) →
  length data = Z.to_nat (512 * KERNEL_SECTORS) → Forall is_u8 data →
  let sector55 := take 512 (drop (54 * 512) data) in
  sector55 ≠ range m BOOT_SECTOR 512 →
  ∃ m', load_kernel boot_drive ret_load ret_disk m b = Some (CodeLost m' b2) ∧ range m' BOOT_SECTOR 512 = sector55.
Proof.
  intros Hbd Hp E Hlen Hb sector55 Hne. unfold load_kernel. rewrite Hp. cbn [mbind option_bind].
  set (m0 := store16 (store16 m (BOOT_SECTOR - 2) ret_load) (BOOT_SECTOR - 4) ret_disk).
  assert (∀ x, BOOT_SECTOR ≤ x → load8 m0 x = load8 m x) as Hm0
    by (intros x Hx; unfold m0, store16; by rewrite !load8_store8_ne by (unfold BOOT_SECTOR in *; lia)).
  rewrite Hm0 by done. unfold disk_load. rewrite E. cbn [d_data d_cf d_al].
  set (m1 := store16 m0 _ _). set (m' := store_bytes m1 KERNEL_OFFSET data).
  assert (range m' BOOT_SECTOR 512 = sector55) as Hr.
  { unfold m', BOOT_SECTOR. replace 31744 with (KERNEL_OFFSET + 27648) by reflexivity. apply range_stored; [done|lia|lia|].
    rewrite Hlen. unfold KERNEL_SECTORS. lia. }
  assert (range m1 BOOT_SECTOR 512 = range m BOOT_SECTOR 512) as Hr1.
  { apply range_eq. intros x Hx. unfold m1, store16. rewrite !load8_store8_ne by (unfold BOOT_SECTOR in *; lia). apply Hm0. lia. }
  assert (code_kept m1 m' = false) as ->.
  { apply bool_decide_eq_false. by rewrite Hr, Hr1. }
  cbn [negb mbind option_bind]. by exists m'.
Qed.
End load.

(** ** Protected mode *)

(** At the jump to the kernel: protection on, interrupts off, CS and the data segments
    loaded with present, flat, 4 GB descriptors of privilege 0, the stack at 0x90000. *)
Theorem protected_mode_entry gdt_start cr0 :
  let p := switch_to_pm gdt_start cr0 in
  Z.testbit (pm_cr0 p) 0 = true ∧ pm_if p = false ∧ pm_eip p = KERNEL_OFFSET ∧ pm_esp p = 589824 ∧
  pm_gdtr p = DescPtr 23 gdt_start ∧
  (∃ e, aget boot_gdt (seg_cs (pm_segs p) `div` 8) = Some e ∧ flat 0 e ∧ Z.testbit (access e) 3 = true) ∧
  ∀ sel, sel ∈ [seg_ds (pm_segs p); seg_es (pm_segs p); seg_fs (pm_segs p); seg_gs (pm_segs p); seg_ss (pm_segs p)] →
    ∃ e, aget boot_gdt (sel `div` 8) = Some e ∧ flat 0 e ∧ Z.testbit (access e) 3 = false ∧ Z.testbit (access e) 1 = true.
Proof.
  intros p. split; [unfold p; cbn [pm_cr0 switch_to_pm]; rewrite Z.lor_spec; apply orb_true_r|].
  split; [done|]. split; [done|]. split; [done|]. split; [done|]. split.
  - eexists. split; [reflexivity|]. split; [|reflexivity]. by split_and!; vm_compute.
  - intros sel Hsel. assert (sel = 16) as -> by (cbn in Hsel; set_solver).
    eexists. split; [reflexivity|]. split; [by split_and!; vm_compute|]. by split.
Qed.

(** ** A BIOS *)

(** One that has a list of regions, the bytes of a disk, and the characters printed. *)
Record vbios := VBios { vb_map : list e820_entry; vb_disk : list Z; vb_screen : list Z }.

#[export] Instance vbios_bios : Bios vbios := {
  int10_tty c b := VBios (vb_map b) (vb_disk b) (vb_screen b ++ [c]);
  int15_e820 ebx ecx edx b :=
    match aget (vb_map b) ebx with
    | Some e => if decide (edx = SMAP)
                then (E820Ret false SMAP (if decide (ebx + 1 < Z.of_nat (length (vb_map b))) then ebx + 1 else 0) 20 SMAP (entry_bytes e), b)
                else (E820Ret true edx ebx ecx edx [], b)
    | None => (E820Ret true edx ebx ecx edx [], b)
    end;
  int13_read al ch cl dh dl b := (DiskRet false al (take (Z.to_nat (512 * al)) (drop (Z.to_nat (512 * (cl - 1))) (vb_disk b))), b)
}.

Definition demo_regions : list e820_entry := [E820 0 654336 1; E820 983040 65536 2; E820 1048576 32505856 1].
Definition demo_bios : vbios := VBios demo_regions (replicate (Z.to_nat 66048) 144) [].

Lemma demo_regions_served : e820_from 0 demo_bios demo_regions.
Proof.
  eapply from_more; [reflexivity|reflexivity|reflexivity|reflexivity|discriminate|reflexivity|].
  eapply from_more; [reflexivity|reflexivity|reflexivity|reflexivity|discriminate|reflexivity|].
  eapply from_last; reflexivity.
Qed.

Lemma vbios_keeps_edx : keeps_edx (B := vbios).
Proof.
  intros ebx ecx edx b. cbn [int15_e820 vbios_bios]. destruct (aget (vb_map b) ebx); [|done]. by case_decide.
Qed.

Lemma detect_memory_map_witness :
  ∃ m' b', detect_memory 32 ∅ demo_bios = Some (m', b') ∧ mm_count (read_boot_mmap m') = 3 ∧
    aget (mm_entries (read_boot_mmap m')) 2 = Some (E820 1048576 32505856 1) ∧ mmap_ok (read_boot_mmap m').
Proof.
  destruct (detect_memory_map ∅ demo_bios demo_regions demo_regions_served vbios_keeps_edx) as (m' & b' & E & Hc & He & _ & Hok).
  - repeat constructor; unfold is_u64, is_u32; simpl; lia.
  - exists m', b'. split; [exact E|]. split; [exact Hc|]. split; [apply He; [lia|reflexivity]|]. apply Hok.
    intros i j x y Hi Hj Hx Hy. change (Z.of_nat (length demo_regions)) with 3 in Hj.
    apply (demo_mmap_disjoint i j); [exact Hi|exact Hj|..]; unfold aget in *; rewrite decide_True in * by lia;
      apply lookup_app_l_Some; assumption.
Defined.

Lemma load_kernel_overwrites_itself_witness :
  ∃ m' b2, load_kernel 32000 31800 31850 ∅ demo_bios = Some (CodeLost m' b2) ∧ range m' BOOT_SECTOR 512 = replicate 512 144.
Proof.
  assert (take 512 (drop (54 * 512) (take (Z.to_nat (512 * KERNEL_SECTORS)) (drop (Z.to_nat 512) (vb_disk demo_bios)))) = replicate 512 144) as Hs.
  { unfold KERNEL_SECTORS. cbn [vb_disk demo_bios]. rewrite drop_replicate, take_replicate, drop_replicate, take_replicate. reflexivity. }
  rewrite <-Hs.
  destruct (load_kernel_overwrites_itself 32000 31800 31850 ∅ demo_bios
    (VBios demo_regions (vb_disk demo_bios) (c_chars "Loading kernel..." ++ [13; 10]))
    (VBios demo_regions (vb_disk demo_bios) (c_chars "Loading kernel..." ++ [13; 10]))
    (take (Z.to_nat (512 * KERNEL_SECTORS)) (drop (Z.to_nat 512) (vb_disk demo_bios)))) as (m' & E & Hr).
  - unfold BOOT_SECTOR. lia.
  - reflexivity.
  - reflexivity.
  - unfold KERNEL_SECTORS. cbn [vb_disk demo_bios]. rewrite drop_replicate, take_replicate, length_replicate. lia.
  - apply Forall_take, Forall_drop, Forall_replicate. unfold is_u8. lia.
  - rewrite Hs. intros X. assert (∀ l : list Z, l = replicate 512 144 → head l = Some 144) as H1 by (intros l ->; reflexivity).
    specialize (H1 _ (eq_sym X)). vm_compute in H1. discriminate H1.
  - exists m', (VBios demo_regions (vb_disk demo_bios) (c_chars "Loading kernel..." ++ [13; 10])). split; [exact E|exact Hr].
Defined.

(** A BIOS like it that clears EDX. *)
#[local] Instance clearing_bios : Bios vbios := {
  int10_tty := int10_tty (Bios := vbios_bios); int13_read := int13_read (Bios := vbios_bios);
  int15_e820 ebx ecx edx b :=
    let '(r, b) := int15_e820 (Bios := vbios_bios) ebx ecx edx b in
    (E820Ret (x_cf r) (x_eax r) (x_ebx r) (x_ecx r) 0 (x_data r), b)
}.

Lemma detect_memory_needs_edx_witness :
  ∃ m' b', detect_memory (Bios0 := clearing_bios) 32 ∅ demo_bios = Some (m', b') ∧ mm_count (read_boot_mmap m') = 1.
Proof.
  apply (detect_memory_needs_edx (Bios0 := clearing_bios) ∅ demo_bios demo_bios _ (E820 0 654336 1) eq_refl);
    [reflexivity|reflexivity|reflexivity|discriminate|reflexivity|discriminate|].
  intros ebx edx c Hx. cbn [int15_e820 clearing_bios vbios_bios]. destruct (aget (vb_map c) ebx); [|by split].
  rewrite decide_False by exact Hx. by split.
Defined.
